(* ===== verification/_CoqProject ===== *)
-Q . S2P
Prelude.v
Framing.v
Platform.v
Client.v
SerialDev.v
SerialRefine.v
SerialProps.v
SerialSpec.v
SerialChunks.v
SerialLoop.v
SerialInv.v
Multiplexer.v
BtProxy.v
Proxies.v
Device.v
DeviceRuns.v
HostBus.v
HostProps.v
HostInv.v
Link.v
TxInterleave.v
HostBt.v
LinkRuns.v
ProxyThread.v
ProxyLink.v
NetIfMgmt.v
NetIfLink.v
WifiEnums.v
WifiRaw.v
WifiMgmt.v
WifiNotify.v
HostWifi.v
WifiOps.v
WifiSystem.v
WifiLink.v
WifiRuns.v
App.v
