(* ===== verification/Prelude.v ===== *)
(** * embedded80211: a verification of the serial radio co-processor link

    The repository puts a Wi-Fi, Bluetooth and Thread radio behind a serial line.
    The device (nRF7002 DK firmware, [embedded80211/zephyr/device]) owns the radio;
    the host ([embedded80211/zephyr/host]) runs drivers that look local to its
    Zephyr stacks and forward every call.  Between them run frames with a 4-byte
    header: type, acknowledgement and notification flags, error, sequence number,
    length.  File names below are relative to [src/embedded80211/zephyr] unless
    they start with [src].

    ** Parts of the program and the files that model them

    - Wire format ([include/embedded80211/serial.h], [bus.h]): [Framing].
    - UART driver and kernel clock, which are Zephyr's: the class [Platform] with
      its laws, in [Platform], together with the transmit loops [serial_data_tx]
      and [bus_data_tx] that are written against it.
    - Device serial layer ([device/serial/serial.c]): [SerialDev] translates the
      interrupt callback, the work item, transmission and start-up as functions on
      the state [dev] (configuration struct, UART, clients).  [SerialRefine],
      [SerialProps], [SerialChunks], [SerialLoop] and [SerialInv] prove what it
      does, [SerialSpec] that it implements a receiver specified frame by frame.
      Traffic clients are seen through [Client]: the callback table, and the
      contracts [FrameClient] and [ChunkClient] that the proxies discharge.
    - Multiplexer and transports ([device/multiplexer.c], [device/serial/uart.c],
      [serial_usb.c]): [Multiplexer], for every Kconfig.
    - Proxies: [BtProxy] ([device/bt_proxy.c]), [Proxies] ([device/vserial.c],
      [ot_proxy.c], the receive side of the management proxies and of
      [wifi_data.c]), [ProxyThread] (the request threads), [NetIfMgmt]
      ([net_if_mgmt_proxy.c]), [WifiEnums], [WifiMgmt] and [WifiNotify]
      ([wifi_mgmt_proxy.c]), [WifiRaw] (raw frames of [wifi_data.c]).
    - The device put together: [Device]; runs on concrete inputs: [DeviceRuns].
    - Device application ([src/nrf7002dk/src/main.c]): [App].
    - Host bus client ([host/bus.c]): [HostBus], properties in [HostProps] and, for
      a device that sends anything, in [HostInv].
    - Host drivers: [HostBt] ([host/host_bt.c]), [HostWifi] ([host/host_wifi.c]).
    - Both ends connected: [Link] (frames, the handshake), [HostBt] (HCI),
      [ProxyLink] (a request from [bus_request] to a proxy's thread and back),
      [NetIfLink] (the same for network interface requests),
      [WifiOps] (the Wi-Fi driver's operations against the radio), [WifiSystem]
      (the same operations over the link), [WifiLink] (the radio's events); runs
      in [LinkRuns] and [WifiRuns].
    - Concurrent senders on either end: [TxInterleave].

    This file holds what they share: machine integers, errno, buffers indexed by
    [Z], the result type [outcome] (a value, a fault of the C program, or fuel
    exhausted) with its [do!] notation, tactics and the hint database [e80211].

    ** Conventions

    Static variables and structs are records that operations take and return.  A
    C integer is a [Z] whose truncation is written out ([u8], [u16], [u32]).  Byte
    arrays are lists of [Z]; a store outside the array, a read past a buffer or
    the use of an uninitialised pointer is [Fault], and so is an array index out
    of range ([call_handler]); a theorem that gives [Ret] also says that none
    happens.  Code that is not in the repository (Zephyr's
    drivers, stacks and sockets, the nanopb code generated from the protos) is a
    type class; the laws its clients rely on are separate classes
    ([PlatformLaws], [TxReady], [RawIoLaws], [CodecsAgree]), each with a concrete
    instance.  [TxReady] says that the transmitter takes bytes; the path on which
    it does not is covered by the theorems that do not ask for it
    ([serial_data_tx_total], [serial_send_frame_result], [device_invariant],
    [host_survives_any_device]).  [CodecsAgree] is asked only for the messages
    that the host's driver sends and reads.  Enumerations that arrive on the wire stay numeric, since any number
    can arrive; Zephyr's are inductive types with one constructor for the values
    the sources do not name.

    Loops that the code bounds by data take fuel.  [work_loop] needs one step per
    byte in the FIFO and one more ([work_handler_terminates]); the theorems on
    frames use fuel [5 + n]: four header bytes and the end of their loop, which
    also covers the payload, since a read returns all the bytes that are there up
    to the length asked for; the transmit loops compute their own fuel from the
    time-out ([tx_fuel_enough]); [first_wifi_iface] needs
    fewer steps than there are interface indices ([ifaces_end]).  The one loop
    that never ends, for types without a client, is proved not to
    ([unhandled_type_livelock]: out of fuel for every fuel).

    ** What the theorems show

    - The format: encode and decode are inverse, and the two ends agree on every
      bit although one sends a C struct and the other computes bytes ([Framing]).
    - The device: it implements the receiver of [SerialSpec] over any sequence of
      frames; exact effect of each kind of frame (accepted, out of sequence,
      refused by its client, too long, without payload, protocol query, cut into
      pieces for a client that allows it); termination of the loop and the case where it fails; an invariant
      of every reachable state; what [serial_send_frame] sends and returns.
    - Multiplexer and proxies: mask and routing for every build; which HCI frames
      reach the controller; serial port round trip; the response member and the
      code for each management request; raw transmission on every branch;
      descriptors of the raw sockets never leak; what the request threads answer and which
      requests they lose.
    - The host: dispatch of whole streams, handshake, requests and their failure
      modes, transmission and its checks; and that whatever a device sends the
      state stays in bounds and every operation returns, [bus_request] unless the
      response is longer than the caller's array ([HostInv]).
    - End to end: frames to the device, each sent after the one before was
      acknowledged, with both ends in step through the wrap-around of sequence
      numbers; the handshake, which never ends ([Link]);
      HCI commands and events ([HostBt]); network interface requests
      ([NetIfLink]).
    - Wi-Fi: each driver operation has the effect and the result of a specified
      call on the radio ([radio_ops], [WifiOps]); running any sequence of them
      over [bus_request], the wire, the device's receive path and the request
      thread gives the same results as calling the device's processing directly
      ([WifiSystem]); the host's stack is told exactly the specified reports of
      the radio's events, which do not include connections ([WifiLink]).
    - The application: the key parser reads back what was written, and the
      connection flag, the LED and the log follow the events under every
      interleaving ([App]).
    - Concurrency: under every interleaving the host's wire holds the callers'
      frames whole, each once; device frames mix; on either end two senders can
      use one sequence number.

    Where the code does not do what its comments or its callers expect, the
    theorem states what it does; such cases are listed as findings in the manifest.

    ** Not modelled

    Logging, apart from the states the application logs; the host's sample threads
    ([src/host/src]), which print what the stacks report; the Rust test client; the
    generated protobuf code; memory of Zephyr's packet pools beyond success or
    failure of an allocation.  [init_proxy] and the device definition macros only
    register callbacks, the event handler of [wifi_data.c] only logs, and
    [decode_directed_scan_ssid_cb] has no caller.

    ** Plan

    Next: a notification that overtakes the response of a request over the link
    (the response is then lost); the work item, the request thread and the
    notification sender of the device interleaved on one transmitter. *)

From Stdlib Require Import ZArith Lia.
From stdpp Require Import base list option numbers decidable.

Open Scope Z_scope.

(** ** Machine integers

    A [uintN_t] is a [Z]; the truncation of a C conversion is written out. *)

Definition u8 (x : Z) : Z := x mod 2 ^ 8.
Definition u16 (x : Z) : Z := x mod 2 ^ 16.
Definition u32 (x : Z) : Z := x mod 2 ^ 32.

(** [size_t] is 32 bits wide on both targets (nRF5340 and QEMU Cortex-M3). *)
Definition size_t (x : Z) : Z := u32 x.

(** Truncation on assignment to an unsigned bit-field of [w] bits. *)
Definition bitfield (w x : Z) : Z := x mod 2 ^ w.

Definition is_byte (x : Z) : Prop := 0 <= x < 256.
Abbreviation bytes_ok := (Forall is_byte).

(** ** errno values (newlib numbering, as used by Zephyr) *)

Definition EIO : Z := 5.
Definition EAGAIN : Z := 11.
Definition ENODEV : Z := 19.
Definition EINVAL : Z := 22.
Definition ENOSPC : Z := 28.
Definition EBADMSG : Z := 77.
Definition ETIMEDOUT : Z := 116.
Definition EMSGSIZE : Z := 122.
Definition ENOTSUP : Z := 134.

(** ** Byte buffers indexed by [Z] *)

Definition zlen {A} (l : list A) : Z := Z.of_nat (length l).
Definition ztake {A} (n : Z) (l : list A) : list A := take (Z.to_nat n) l.
Definition zdrop {A} (n : Z) (l : list A) : list A := drop (Z.to_nat n) l.
Definition znth (l : list Z) (i : Z) : Z := nth (Z.to_nat i) l 0.

(** Storing [bs] at offset [off] of a fixed-size C array; [None] when the
    store would run outside the array (undefined behaviour in C). *)
Definition store_at (buf : list Z) (off : Z) (bs : list Z) : option (list Z) :=
  if bool_decide (0 <= off /\ off + zlen bs <= zlen buf)
  then Some (ztake off buf ++ bs ++ zdrop (off + zlen bs) buf)
  else None.

(** ** Results of code that may fault or loop

    [Fault] is C undefined behaviour (a store through an uninitialised
    pointer or outside its buffer); [OutOfFuel] means the loop did not finish
    within the fuel. *)
Inductive outcome (A : Type) : Type :=
| Ret (a : A)
| Fault
| OutOfFuel.
Arguments Ret {A} a.
Arguments Fault {A}.
Arguments OutOfFuel {A}.

Declare Scope e80211_scope.
Delimit Scope e80211_scope with e80211.

Definition outcome_bind {A B} (m : outcome A) (k : A -> outcome B) : outcome B :=
  match m with
  | Ret a => k a
  | Fault => Fault
  | OutOfFuel => OutOfFuel
  end.

Notation "'do!' x <- m ; k" := (outcome_bind m (fun x => k))
  (at level 10, x pattern, m at level 100, k at level 200)
  : e80211_scope.

Create HintDb e80211 discriminated.
Create Rewrite HintDb e80211_rew.

(** ** Automation *)

(** Case analysis on the outermost [if]/[match] scrutinee. *)
Ltac split_if :=
  match goal with
  | |- context [if ?b then _ else _] => destruct b eqn:?
  | H : context [if ?b then _ else _] |- _ => destruct b eqn:?
  end.

(** Turn the boolean comparisons of the code into propositions. *)
Ltac reflect_bools :=
  repeat match goal with
  | H : _ && _ = true |- _ => apply andb_true_iff in H as [? ?]
  | H : _ || _ = false |- _ => apply orb_false_iff in H as [? ?]
  | H : negb _ = true |- _ => apply negb_true_iff in H
  | H : negb _ = false |- _ => apply negb_false_iff in H
  | H : (_ <? _) = true |- _ => apply Z.ltb_lt in H
  | H : (_ <? _) = false |- _ => apply Z.ltb_ge in H
  | H : (_ <=? _) = true |- _ => apply Z.leb_le in H
  | H : (_ <=? _) = false |- _ => apply Z.leb_gt in H
  | H : (_ =? _) = true |- _ => apply Z.eqb_eq in H
  | H : (_ =? _) = false |- _ => apply Z.eqb_neq in H
  | H : bool_decide _ = true |- _ => apply bool_decide_eq_true in H
  | H : bool_decide _ = false |- _ => apply bool_decide_eq_false in H
  end.

(** Rewrite a comparison whose value [lia] can decide. *)
Ltac decide_cmp :=
  repeat match goal with
  | |- context [?a <? ?b] =>
      first [ rewrite (proj2 (Z.ltb_lt a b)) by lia
            | rewrite (proj2 (Z.ltb_ge a b)) by lia ]
  | |- context [?a <=? ?b] =>
      first [ rewrite (proj2 (Z.leb_le a b)) by lia
            | rewrite (proj2 (Z.leb_gt a b)) by lia ]
  | |- context [?a =? ?b] =>
      first [ rewrite (proj2 (Z.eqb_eq a b)) by lia
            | rewrite (proj2 (Z.eqb_neq a b)) by lia ]
  end.

(** Equality of list literals, element by element. *)
Ltac cons_eq :=
  repeat match goal with |- _ :: _ = _ :: _ => f_equal end; try reflexivity.

(** ** Shared lemmas *)

Lemma zlen_nonneg {A} (l : list A) : 0 <= zlen l.
Proof. unfold zlen; lia. Qed.

Lemma zlen_nil {A} : zlen (@nil A) = 0.
Proof. reflexivity. Qed.

Lemma zlen_cons {A} (x : A) l : zlen (x :: l) = 1 + zlen l.
Proof. unfold zlen; cbn [length]; lia. Qed.

Lemma zlen_app {A} (l k : list A) : zlen (l ++ k) = zlen l + zlen k.
Proof. unfold zlen; rewrite length_app; lia. Qed.

Lemma zlen_zero {A} (l : list A) : zlen l = 0 -> l = [].
Proof. destruct l; [done|]. rewrite zlen_cons. pose proof (zlen_nonneg l). lia. Qed.

Lemma zlen_ztake {A} n (l : list A) : zlen (ztake n l) = Z.min (Z.max 0 n) (zlen l).
Proof. unfold zlen, ztake; rewrite length_take; lia. Qed.

Lemma zlen_zdrop {A} n (l : list A) : zlen (zdrop n l) = Z.max 0 (zlen l - Z.max 0 n).
Proof. unfold zlen, zdrop; rewrite length_drop; lia. Qed.

Lemma ztake_ge {A} n (l : list A) : zlen l <= n -> ztake n l = l.
Proof. intros H. unfold ztake. apply take_ge. unfold zlen in H; lia. Qed.

Lemma zdrop_ge {A} n (l : list A) : zlen l <= n -> zdrop n l = [].
Proof. intros H. unfold zdrop. apply drop_ge. unfold zlen in H; lia. Qed.

Lemma ztake_0 {A} (l : list A) : ztake 0 l = [].
Proof. reflexivity. Qed.

Lemma zdrop_0 {A} (l : list A) : zdrop 0 l = l.
Proof. reflexivity. Qed.

Lemma ztake_zdrop {A} n (l : list A) : ztake n l ++ zdrop n l = l.
Proof. apply take_drop. Qed.

Lemma ztake_app {A} n (l k : list A) : zlen l = n -> ztake n (l ++ k) = l.
Proof. intros <-. unfold ztake, zlen. rewrite Nat2Z.id. apply take_app_length. Qed.

Lemma zdrop_app {A} n (l k : list A) : zlen l = n -> zdrop n (l ++ k) = k.
Proof. intros <-. unfold zdrop, zlen. rewrite Nat2Z.id. apply drop_app_length. Qed.

Lemma zdrop_zdrop {A} n m (l : list A) :
  0 <= n -> 0 <= m -> zdrop n (zdrop m l) = zdrop (m + n) l.
Proof.
  intros. unfold zdrop. rewrite drop_drop. f_equal. lia.
Qed.

Lemma store_at_Some buf off bs :
  0 <= off -> off + zlen bs <= zlen buf ->
  store_at buf off bs = Some (ztake off buf ++ bs ++ zdrop (off + zlen bs) buf).
Proof.
  intros. unfold store_at. rewrite bool_decide_eq_true_2; [done|lia].
Qed.

Lemma store_at_None buf off bs :
  0 <= off -> zlen buf < off + zlen bs -> store_at buf off bs = None.
Proof.
  intros. unfold store_at. rewrite bool_decide_eq_false_2; [done|lia].
Qed.

Lemma store_at_inv buf off bs buf' :
  store_at buf off bs = Some buf' ->
  0 <= off /\ off + zlen bs <= zlen buf /\
  buf' = ztake off buf ++ bs ++ zdrop (off + zlen bs) buf.
Proof.
  unfold store_at. case_bool_decide as H; [|done]. intros [= <-]. tauto.
Qed.

Lemma store_at_zlen buf off bs buf' :
  store_at buf off bs = Some buf' -> zlen buf' = zlen buf.
Proof.
  intros (? & ? & ->)%store_at_inv.
  rewrite !zlen_app, zlen_ztake, zlen_zdrop. pose proof (zlen_nonneg bs). lia.
Qed.

Lemma store_at_read buf off bs buf' :
  store_at buf off bs = Some buf' -> ztake (zlen bs) (zdrop off buf') = bs.
Proof.
  intros (? & ? & ->)%store_at_inv.
  pose proof (zlen_nonneg bs).
  rewrite zdrop_app by (rewrite zlen_ztake; lia).
  by apply ztake_app.
Qed.

Lemma u8_byte x : is_byte (u8 x).
Proof. unfold is_byte, u8. apply (Z.mod_pos_bound x 256). lia. Qed.

Lemma u8_small x : is_byte x -> u8 x = x.
Proof. intros. unfold u8. apply Z.mod_small. exact H. Qed.

Lemma size_t_small x : 0 <= x < 2 ^ 32 -> size_t x = x.
Proof. intros. unfold size_t, u32. by apply Z.mod_small. Qed.

Lemma u16_small x : 0 <= x < 2 ^ 16 -> u16 x = x.
Proof. intros. unfold u16. by apply Z.mod_small. Qed.

#[export] Hint Resolve u8_byte zlen_nonneg : e80211.
#[export] Hint Rewrite @zlen_nil @zlen_cons @zlen_app @zlen_ztake @zlen_zdrop : e80211_rew.
