(* ===== verification/Framing.v ===== *)
(** * Framing: the link-layer header and its wire format

    Models [include/embedded80211/serial.h] (enumerations, limits, the device's
    bit-field [struct SerialHeader]) and the pure framing primitives of
    [include/embedded80211/bus.h] (the host's [struct bus_header] with
    [bus_header_encode]/[bus_header_decode], [bus_seq_next] and the
    [bus_validate_*] checks).

    The enumerations stay numeric: a received frame carries any 4-bit type and
    any 2-bit error, named or not.  The device sends the raw memory of its
    header struct, so the bit-field layout (least significant bit first,
    little-endian length, as GCC lays it out on ARM) is part of the model. *)

From S2P Require Import Prelude.
From Stdlib Require Import ZArith Lia.
From stdpp Require Import base list option numbers decidable.

Open Scope Z_scope.

(** ** Constants of serial.h *)

Definition SERIAL_PROTOCOL_VERSION : Z := 1.
Definition SERIAL_MAX_PAYLOAD_LEN : Z := 4096.
Definition SEQUENCE_NUMBER_MAX : Z := 15.

Inductive ParsingState : Type :=
| PARSING_STATE_TYPE
| PARSING_STATE_SEQUENCE_NUMBER
| PARSING_STATE_LENGTH1
| PARSING_STATE_LENGTH2
| PARSING_STATE_DATA.

#[export] Instance ParsingState_eq_dec : EqDecision ParsingState.
Proof. solve_decision. Defined.

Definition SERIAL_TYPE_WIFI_MGMT : Z := 0.
Definition SERIAL_TYPE_WIFI_DATA : Z := 1.
Definition SERIAL_TYPE_NET_IF_MGMT : Z := 2.
Definition SERIAL_TYPE_HCI : Z := 3.
Definition SERIAL_TYPE_THREAD : Z := 4.
Definition SERIAL_TYPE_NET_OFFLOADING : Z := 5.
Definition SERIAL_TYPE_AT_CMD : Z := 6.
Definition SERIAL_TYPE_PROTOCOL_INFO : Z := 7.
Definition SERIAL_TYPE_VSERIAL : Z := 8.
Definition SERIAL_TYPE_UNKNOWN : Z := 9.

Definition ERROR_TYPE_NO_ERROR : Z := 0.
Definition ERROR_TYPE_INCORRECT_SEQUENCE_NUMBER : Z := 1.
Definition ERROR_TYPE_OUT_OF_BUFFERS : Z := 2.
Definition ERROR_TYPE_LENGTH_TOO_LONG : Z := 3.

(** ** The host's header: [struct bus_header] *)

Record bus_header : Type := mk_bus_header {
  bh_type : Z;
  bh_no_ack : bool;
  bh_host : bool;
  bh_error : Z;
  bh_reserved : Z;
  bh_seq : Z;
  bh_length : Z
}.

#[export] Instance bus_header_eq_dec : EqDecision bus_header.
Proof. solve_decision. Defined.

(** The static initialiser of [static struct bus_state bus]. *)
Definition bus_header_zero : bus_header := mk_bus_header 0 false false 0 0 0 0.

(** What the field widths of the struct guarantee. *)
Definition bus_header_wf (h : bus_header) : Prop :=
  0 <= bh_type h < 16 /\ 0 <= bh_error h < 4 /\ 0 <= bh_reserved h < 16 /\
  0 <= bh_seq h < 16 /\ 0 <= bh_length h < 65536.

Definition bus_header_encode (h : bus_header) : list Z :=
  [ u8 (Z.lor (Z.lor (Z.lor (Z.shiftl (bh_error h) 6)
                            (Z.shiftl (Z.b2z (bh_host h)) 5))
                     (Z.shiftl (Z.b2z (bh_no_ack h)) 4))
              (Z.land (bh_type h) 0x0F));
    u8 (Z.lor (Z.shiftl (bh_seq h) 4) (Z.land (bh_reserved h) 0x0F));
    u8 (Z.shiftr (bh_length h) 8);
    u8 (Z.land (bh_length h) 0xFF) ].

(** A 1-bit field read as a truth value. *)
Definition flag (x : Z) : bool := negb (x =? 0).

Definition bus_header_decode (b0 b1 b2 b3 : Z) : bus_header :=
  {| bh_type := Z.land b0 0x0F;
     bh_no_ack := flag (Z.land (Z.shiftr b0 4) 0x1);
     bh_host := flag (Z.land (Z.shiftr b0 5) 0x1);
     bh_error := Z.land (Z.shiftr b0 6) 0x3;
     bh_reserved := Z.land b1 0x0F;
     bh_seq := Z.land (Z.shiftr b1 4) 0x0F;
     bh_length := u16 (Z.lor (Z.shiftl b2 8) b3) |}.

Definition bus_seq_next (seq : Z) : Z :=
  if SEQUENCE_NUMBER_MAX <=? seq then 0 else u8 (seq + 1).

Definition bus_validate_tx (type len : Z) : Z :=
  if SERIAL_MAX_PAYLOAD_LEN <? len then - EMSGSIZE
  else if (len =? 0) && negb (type =? SERIAL_TYPE_PROTOCOL_INFO) then - EINVAL
  else 0.

Definition bus_validate_rx (h : bus_header) : Z :=
  if negb (bh_reserved h =? 0) then - EINVAL
  else if SERIAL_TYPE_UNKNOWN <=? bh_type h then - EINVAL
  else if SERIAL_MAX_PAYLOAD_LEN <? bh_length h then - EMSGSIZE
  else 0.

(** ** The device's header: [struct SerialHeader] *)

Record SerialHeader : Type := mk_SerialHeader {
  sh_type : Z;
  sh_no_ack : bool;
  sh_host : bool;
  sh_error : Z;
  sh_reserved : Z;
  sh_sequence_number : Z;
  sh_length : Z
}.

Definition SerialHeader_zero : SerialHeader := mk_SerialHeader 0 false false 0 0 0 0.

Definition SerialHeader_wf (h : SerialHeader) : Prop :=
  0 <= sh_type h < 16 /\ 0 <= sh_error h < 4 /\ 0 <= sh_reserved h < 16 /\
  0 <= sh_sequence_number h < 16 /\ 0 <= sh_length h < 65536.

(** [sys_cpu_to_be16] and [sys_be16_to_cpu] on a little-endian CPU. *)
Definition swap16 (x : Z) : Z :=
  Z.lor (Z.shiftl (Z.land x 0xFF) 8) (Z.land (Z.shiftr x 8) 0xFF).

(** The four bytes of the struct in memory, as [(const uint8_t * )&hdr] reads
    them: bit-fields from the least significant bit, length little-endian. *)
Definition SerialHeader_mem (h : SerialHeader) : list Z :=
  [ Z.lor (sh_type h)
          (Z.lor (Z.shiftl (Z.b2z (sh_no_ack h)) 4)
                 (Z.lor (Z.shiftl (Z.b2z (sh_host h)) 5) (Z.shiftl (sh_error h) 6)));
    Z.lor (sh_reserved h) (Z.shiftl (sh_sequence_number h) 4);
    Z.land (sh_length h) 0xFF;
    Z.land (Z.shiftr (sh_length h) 8) 0xFF ].

(** The byte stores of the RX state machine into that memory. *)
Definition SerialHeader_set_byte0 (h : SerialHeader) (b : Z) : SerialHeader :=
  {| sh_type := Z.land b 0x0F;
     sh_no_ack := flag (Z.land (Z.shiftr b 4) 1);
     sh_host := flag (Z.land (Z.shiftr b 5) 1);
     sh_error := Z.land (Z.shiftr b 6) 3;
     sh_reserved := sh_reserved h;
     sh_sequence_number := sh_sequence_number h;
     sh_length := sh_length h |}.

Definition SerialHeader_set_byte1 (h : SerialHeader) (b : Z) : SerialHeader :=
  {| sh_type := sh_type h; sh_no_ack := sh_no_ack h; sh_host := sh_host h;
     sh_error := sh_error h;
     sh_reserved := Z.land b 0x0F;
     sh_sequence_number := Z.land (Z.shiftr b 4) 0x0F;
     sh_length := sh_length h |}.

Definition SerialHeader_set_length (h : SerialHeader) (n : Z) : SerialHeader :=
  {| sh_type := sh_type h; sh_no_ack := sh_no_ack h; sh_host := sh_host h;
     sh_error := sh_error h; sh_reserved := sh_reserved h;
     sh_sequence_number := sh_sequence_number h;
     sh_length := n |}.

(** [*(uint8_t * )&length = b] and [*((uint8_t * )&length + 1) = b]. *)
Definition length_set_low (n b : Z) : Z := Z.lor (Z.land n 0xFF00) b.
Definition length_set_high (n b : Z) : Z := Z.lor (Z.land n 0x00FF) (Z.shiftl b 8).

(** A device header with the length already in CPU order, seen as the host's
    view of the same frame. *)
Definition SerialHeader_as_bus (h : SerialHeader) : bus_header :=
  mk_bus_header (sh_type h) (sh_no_ack h) (sh_host h) (sh_error h) (sh_reserved h)
    (sh_sequence_number h) (sh_length h).

(** ** Bit-level lemmas

    The encoders are turned into sums and the decoders into quotients and
    remainders, which [lia] decides. *)

Ltac Zify.zify_post_hook ::= Z.to_euclidean_division_equations.

Lemma land_shiftl_disjoint a b n :
  0 <= n -> 0 <= a < 2 ^ n -> Z.land a (Z.shiftl b n) = 0.
Proof.
  intros Hn Ha. apply Z.bits_inj'. intros i Hi.
  rewrite Z.land_spec, Z.bits_0.
  destruct (Z.ltb_spec i n).
  - rewrite Z.shiftl_spec_low by lia. apply andb_false_r.
  - rewrite <- (Z.mod_small a (2 ^ n)) by lia.
    rewrite Z.mod_pow2_bits_high by lia. done.
Qed.

Lemma lor_shiftl_r a b n :
  0 <= n -> 0 <= a < 2 ^ n -> Z.lor a (Z.shiftl b n) = a + b * 2 ^ n.
Proof.
  intros Hn Ha. rewrite <- Z.shiftl_mul_pow2 by lia.
  pose proof (Z.add_lor_land a (Z.shiftl b n)) as E.
  rewrite land_shiftl_disjoint in E by lia. lia.
Qed.

Lemma lor_shiftl_l a b n :
  0 <= n -> 0 <= a < 2 ^ n -> Z.lor (Z.shiftl b n) a = a + b * 2 ^ n.
Proof. intros. rewrite Z.lor_comm. by apply lor_shiftl_r. Qed.

Lemma land_0xF x : Z.land x 0x0F = x mod 16.
Proof. exact (Z.land_ones x 4 ltac:(lia)). Qed.

Lemma land_0x3 x : Z.land x 0x3 = x mod 4.
Proof. exact (Z.land_ones x 2 ltac:(lia)). Qed.

Lemma land_0x1 x : Z.land x 0x1 = x mod 2.
Proof. exact (Z.land_ones x 1 ltac:(lia)). Qed.

Lemma land_0xFF x : Z.land x 0xFF = x mod 256.
Proof. exact (Z.land_ones x 8 ltac:(lia)). Qed.

Lemma shiftr4 x : Z.shiftr x 4 = x / 16.
Proof. exact (Z.shiftr_div_pow2 x 4 ltac:(lia)). Qed.

Lemma shiftr5 x : Z.shiftr x 5 = x / 32.
Proof. exact (Z.shiftr_div_pow2 x 5 ltac:(lia)). Qed.

Lemma shiftr6 x : Z.shiftr x 6 = x / 64.
Proof. exact (Z.shiftr_div_pow2 x 6 ltac:(lia)). Qed.

Lemma shiftr8 x : Z.shiftr x 8 = x / 256.
Proof. exact (Z.shiftr_div_pow2 x 8 ltac:(lia)). Qed.

#[export] Hint Rewrite land_0xF land_0x3 land_0x1 land_0xFF shiftr4 shiftr5 shiftr6 shiftr8
  : e80211_rew.

Lemma b2z_bit b : 0 <= Z.b2z b < 2.
Proof. destruct b; cbn; lia. Qed.

Lemma flag_b2z b : flag (Z.b2z b) = b.
Proof. by destruct b. Qed.

Lemma b2z_flag x : 0 <= x < 2 -> Z.b2z (flag x) = x.
Proof. intros. assert (x = 0 \/ x = 1) as [-> | ->] by lia; done. Qed.

Lemma header_byte0_value t n h e :
  0 <= t < 16 -> 0 <= n < 2 -> 0 <= h < 2 -> 0 <= e < 4 ->
  Z.lor (Z.lor (Z.lor (Z.shiftl e 6) (Z.shiftl h 5)) (Z.shiftl n 4)) t
  = t + 16 * n + 32 * h + 64 * e.
Proof.
  intros.
  replace (Z.shiftl e 6) with (Z.shiftl (Z.shiftl e 1) 5) by (by rewrite Z.shiftl_shiftl by lia).
  rewrite <- Z.shiftl_lor, (lor_shiftl_l h e 1) by lia. set (x := h + _).
  replace (Z.shiftl x 5) with (Z.shiftl (Z.shiftl x 1) 4) by (by rewrite Z.shiftl_shiftl by lia).
  rewrite <- Z.shiftl_lor, (lor_shiftl_l n x 1), lor_shiftl_l by lia. unfold x. lia.
Qed.

Lemma mem_byte0_value t n h e :
  0 <= t < 16 -> 0 <= n < 2 -> 0 <= h < 2 -> 0 <= e < 4 ->
  Z.lor t (Z.lor (Z.shiftl n 4) (Z.lor (Z.shiftl h 5) (Z.shiftl e 6)))
  = t + 16 * n + 32 * h + 64 * e.
Proof.
  intros. rewrite <- header_byte0_value by lia.
  rewrite (Z.lor_comm t), (Z.lor_comm (Z.shiftl n 4)), (Z.lor_comm (Z.shiftl h 5)). done.
Qed.

Lemma swap16_value x : swap16 x = (x mod 256) * 256 + (x / 256) mod 256.
Proof.
  unfold swap16. rewrite land_0xFF, land_0xFF, shiftr8, lor_shiftl_l by lia. lia.
Qed.

Lemma length_set_low_value n b :
  0 <= n < 65536 -> is_byte b -> length_set_low n b = n / 256 * 256 + b.
Proof.
  unfold is_byte. intros. unfold length_set_low.
  replace (Z.land n 0xFF00) with (Z.shiftl (n / 256) 8).
  - rewrite lor_shiftl_l by lia. lia.
  - change 0xFF00 with (Z.shiftl 0xFF 8). rewrite <- shiftr8.
    apply Z.bits_inj'. intros i Hi. rewrite Z.land_spec.
    destruct (Z.ltb_spec i 8).
    + rewrite !Z.shiftl_spec_low by lia. by rewrite andb_false_r.
    + rewrite !Z.shiftl_spec, Z.shiftr_spec by lia.
      replace (i - 8 + 8) with i by lia.
      destruct (Z.ltb_spec i 16).
      * change 0xFF with (Z.ones 8). rewrite Z.ones_spec_low by lia. by rewrite andb_true_r.
      * rewrite <- (Z.mod_small n (2 ^ 16)) by lia. rewrite Z.mod_pow2_bits_high by lia. done.
Qed.

Lemma length_set_high_value n b :
  0 <= n < 65536 -> is_byte b -> length_set_high n b = n mod 256 + b * 256.
Proof.
  unfold is_byte. intros. unfold length_set_high.
  rewrite land_0xFF, lor_shiftl_r by lia. lia.
Qed.

(** The two length bytes, stored into the little-endian field and swapped,
    give the big-endian length whatever the field held before. *)
Lemma length_assembled n b2 b3 :
  0 <= n < 65536 -> is_byte b2 -> is_byte b3 ->
  swap16 (length_set_high (length_set_low n b2) b3) = b2 * 256 + b3.
Proof.
  unfold is_byte. intros.
  rewrite length_set_high_value, length_set_low_value, swap16_value
    by (rewrite ?length_set_low_value; unfold is_byte; lia).
  lia.
Qed.

(** ** Wire format theorems *)

Lemma bus_header_encode_value h :
  bus_header_wf h ->
  bus_header_encode h =
  [ bh_type h + 16 * Z.b2z (bh_no_ack h) + 32 * Z.b2z (bh_host h) + 64 * bh_error h;
    bh_reserved h + 16 * bh_seq h; bh_length h / 256; bh_length h mod 256 ].
Proof.
  intros (? & ? & ? & ? & ?).
  pose proof (b2z_bit (bh_no_ack h)). pose proof (b2z_bit (bh_host h)).
  unfold bus_header_encode, u8. change (2 ^ 8) with 256.
  rewrite !land_0xF, land_0xFF, shiftr8, !(Z.mod_small _ 16), header_byte0_value,
    lor_shiftl_l by lia.
  cons_eq; lia.
Qed.

Lemma bus_header_decode_wf b0 b1 b2 b3 :
  is_byte b0 -> is_byte b1 -> is_byte b2 -> is_byte b3 ->
  bus_header_wf (bus_header_decode b0 b1 b2 b3).
Proof.
  unfold is_byte, bus_header_wf; intros; cbn -[Z.land Z.shiftr Z.lor Z.shiftl].
  unfold u16. autorewrite with e80211_rew. lia.
Qed.

Lemma bus_header_decode_length b0 b1 b2 b3 :
  is_byte b2 -> is_byte b3 -> bh_length (bus_header_decode b0 b1 b2 b3) = b2 * 256 + b3.
Proof.
  unfold is_byte; intros; cbn -[Z.lor Z.shiftl].
  unfold u16. rewrite lor_shiftl_l by lia. lia.
Qed.

Lemma bytes4_ok b0 b1 b2 b3 :
  bytes_ok [b0; b1; b2; b3] -> is_byte b0 /\ is_byte b1 /\ is_byte b2 /\ is_byte b3.
Proof. rewrite !List.Forall_cons_iff. tauto. Qed.

Lemma bus_header_encode_bytes h : bytes_ok (bus_header_encode h).
Proof. repeat constructor; apply u8_byte. Qed.

Lemma bus_header_encode_zlen h : zlen (bus_header_encode h) = 4.
Proof. reflexivity. Qed.

Lemma bus_header_decode_of_encode (h : bus_header) :
  bus_header_wf h ->
  exists b0 b1 b2 b3,
    bus_header_encode h = [b0; b1; b2; b3] /\ bus_header_decode b0 b1 b2 b3 = h.
Proof.
  intros Hwf. do 4 eexists. split; [by apply bus_header_encode_value|].
  destruct Hwf as (? & ? & ? & ? & ?).
  pose proof (b2z_bit (bh_no_ack h)). pose proof (b2z_bit (bh_host h)).
  destruct h as [t n ho e r q l]; cbn [bh_type bh_no_ack bh_host bh_error bh_reserved bh_seq bh_length] in *.
  unfold bus_header_decode, u16.
  rewrite lor_shiftl_l by lia. autorewrite with e80211_rew. f_equal; try lia.
  - rewrite <- (flag_b2z n) at 2. f_equal. lia.
  - rewrite <- (flag_b2z ho) at 2. f_equal. lia.
Qed.

Lemma bus_header_encode_of_decode (b0 b1 b2 b3 : Z) :
  is_byte b0 -> is_byte b1 -> is_byte b2 -> is_byte b3 ->
  bus_header_encode (bus_header_decode b0 b1 b2 b3) = [b0; b1; b2; b3].
Proof.
  intros H0 H1 H2 H3.
  rewrite bus_header_encode_value by (by apply bus_header_decode_wf).
  rewrite bus_header_decode_length by done.
  cbn -[Z.land Z.shiftr Z.lor Z.shiftl Z.mul Z.add Z.div Z.modulo].
  autorewrite with e80211_rew. rewrite !b2z_flag by lia.
  unfold is_byte in *. cons_eq; lia.
Qed.

(** C1. The header codec is a bijection: decoding the four bytes of
    [bus_header_encode] gives back every header whose fields fit their bit
    widths, and every four bytes are the encoding of the well-formed header
    they decode to. *)
Theorem bus_header_roundtrip (h : bus_header) (b0 b1 b2 b3 : Z) :
  bus_header_wf h -> bytes_ok [b0; b1; b2; b3] ->
  (exists e0 e1 e2 e3,
     bus_header_encode h = [e0; e1; e2; e3] /\ bus_header_decode e0 e1 e2 e3 = h) /\
  bus_header_wf (bus_header_decode b0 b1 b2 b3) /\
  bus_header_encode (bus_header_decode b0 b1 b2 b3) = [b0; b1; b2; b3].
Proof.
  intros Hh (H0 & H1 & H2 & H3)%bytes4_ok.
  auto using bus_header_decode_of_encode, bus_header_decode_wf, bus_header_encode_of_decode.
Qed.

Lemma bus_header_roundtrip_witness :
  bus_header_encode (mk_bus_header 8 true false 2 0 15 4096) = [152; 240; 16; 0] /\
  bus_header_encode (bus_header_decode 0xE7 0x5A 0x10 0x01) = [0xE7; 0x5A; 0x10; 0x01].
Proof.
  split; [reflexivity|].
  apply (bus_header_roundtrip (mk_bus_header 8 true false 2 0 15 4096) 0xE7 0x5A 0x10 0x01).
  - unfold bus_header_wf; cbn; lia.
  - repeat constructor; lia.
Defined.

(** The device's struct with its length byte-swapped is, in memory, what the
    host's encoder writes for the same fields. *)
Lemma SerialHeader_mem_encode h :
  SerialHeader_wf h ->
  SerialHeader_mem (SerialHeader_set_length h (swap16 (sh_length h)))
  = bus_header_encode (SerialHeader_as_bus h).
Proof.
  intros (? & ? & ? & ? & ?).
  rewrite bus_header_encode_value by (unfold bus_header_wf; cbn; lia).
  pose proof (b2z_bit (sh_no_ack h)). pose proof (b2z_bit (sh_host h)).
  unfold SerialHeader_mem, SerialHeader_set_length, SerialHeader_as_bus.
  cbn [sh_type sh_no_ack sh_host sh_error sh_reserved sh_sequence_number sh_length
       bh_type bh_no_ack bh_host bh_error bh_reserved bh_seq bh_length].
  rewrite mem_byte0_value, lor_shiftl_r, swap16_value by lia.
  autorewrite with e80211_rew. cons_eq; lia.
Qed.

(** The header the device has assembled after storing four wire bytes over
    whatever the struct held before. *)
Definition SerialHeader_of_wire (h : SerialHeader) (b0 b1 b2 b3 : Z) : SerialHeader :=
  let h1 := SerialHeader_set_byte1 (SerialHeader_set_byte0 h b0) b1 in
  SerialHeader_set_length h1
    (swap16 (length_set_high (length_set_low (sh_length h1) b2) b3)).

Lemma SerialHeader_of_wire_decode h b0 b1 b2 b3 :
  0 <= sh_length h < 65536 -> is_byte b2 -> is_byte b3 ->
  SerialHeader_as_bus (SerialHeader_of_wire h b0 b1 b2 b3) = bus_header_decode b0 b1 b2 b3.
Proof.
  intros Hl H2 H3. unfold SerialHeader_as_bus, SerialHeader_of_wire.
  cbn [sh_type sh_no_ack sh_host sh_error sh_reserved sh_sequence_number sh_length
       SerialHeader_set_length SerialHeader_set_byte0 SerialHeader_set_byte1].
  rewrite length_assembled by done.
  rewrite <- (bus_header_decode_length b0 b1 b2 b3) by done. done.
Qed.

Lemma SerialHeader_as_bus_inj h1 h2 :
  SerialHeader_as_bus h1 = SerialHeader_as_bus h2 -> h1 = h2.
Proof. destruct h1, h2. by intros [=]; subst. Qed.

Lemma SerialHeader_as_bus_wf h : bus_header_wf (SerialHeader_as_bus h) -> SerialHeader_wf h.
Proof. done. Qed.

(** C2. Both ends agree on the wire, in both directions: the four bytes the
    device transmits for a header (its struct in memory, the length swapped to
    network order) are the bytes the host encodes for the same fields; the
    host's decoder reads the device's bytes back as those fields; and the
    device's byte-by-byte parser rebuilds from the host's bytes, over any
    previous contents of its struct, exactly the header that was encoded. *)
Theorem wire_format_agreement (d d0 : SerialHeader) :
  SerialHeader_wf d -> SerialHeader_wf d0 ->
  exists b0 b1 b2 b3,
    bus_header_encode (SerialHeader_as_bus d) = [b0; b1; b2; b3] /\
    SerialHeader_mem (SerialHeader_set_length d (swap16 (sh_length d))) = [b0; b1; b2; b3] /\
    bus_header_decode b0 b1 b2 b3 = SerialHeader_as_bus d /\
    SerialHeader_of_wire d0 b0 b1 b2 b3 = d.
Proof.
  intros Hd Hd0.
  destruct (bus_header_decode_of_encode (SerialHeader_as_bus d) Hd)
    as (b0 & b1 & b2 & b3 & He & Hdec).
  exists b0, b1, b2, b3. split; [done|]. split; [by rewrite SerialHeader_mem_encode|].
  split; [exact Hdec|]. apply SerialHeader_as_bus_inj. rewrite <- Hdec.
  pose proof (bus_header_encode_bytes (SerialHeader_as_bus d)) as HB. rewrite He in HB.
  apply bytes4_ok in HB as (? & ? & ? & ?).
  apply SerialHeader_of_wire_decode; [apply Hd0 | done | done].
Qed.

Lemma wire_format_agreement_witness :
  exists b0 b1 b2 b3,
    bus_header_encode (mk_bus_header 3 false true 0 0 9 259) = [b0; b1; b2; b3] /\
    bus_header_decode b0 b1 b2 b3 = mk_bus_header 3 false true 0 0 9 259 /\
    SerialHeader_of_wire (mk_SerialHeader 7 true false 3 5 1 65535) b0 b1 b2 b3
    = mk_SerialHeader 3 false true 0 0 9 259.
Proof.
  destruct (wire_format_agreement (mk_SerialHeader 3 false true 0 0 9 259)
              (mk_SerialHeader 7 true false 3 5 1 65535))
    as (b0 & b1 & b2 & b3 & H1 & H2 & H3 & H4).
  - unfold SerialHeader_wf; cbn; lia.
  - unfold SerialHeader_wf; cbn; lia.
  - exists b0, b1, b2, b3. split; [exact H1 |]. split; [exact H3 | exact H4].
Defined.

(** ** Sequence numbers and length checks *)

Lemma bus_seq_next_range s : 0 <= s -> 0 <= bus_seq_next s <= 15.
Proof.
  intros. unfold bus_seq_next, SEQUENCE_NUMBER_MAX, u8. split_if; reflect_bools; lia.
Qed.

Lemma bus_seq_next_mod s : 0 <= s <= 15 -> bus_seq_next s = (s + 1) mod 16.
Proof.
  intros. unfold bus_seq_next, SEQUENCE_NUMBER_MAX, u8. split_if; reflect_bools; lia.
Qed.

Lemma bus_seq_next_iter n s :
  0 <= s <= 15 -> Nat.iter n bus_seq_next s = (s + Z.of_nat n) mod 16.
Proof.
  intros Hs. induction n as [|n IH]; cbn [Nat.iter nat_rect]; [cbn; lia|].
  unfold Nat.iter in IH. rewrite IH, bus_seq_next_mod by lia. lia.
Qed.

(** The sequence space is the cycle 0..15: whatever byte the counter holds,
    its successor is in range; from an in-range counter, the value after [n]
    frames is [(s + n) mod 16], so exactly the multiples of 16 return to [s]. *)
Theorem bus_seq_cycle (s : Z) (n : nat) :
  0 <= s <= 15 ->
  0 <= bus_seq_next s <= 15 /\
  Nat.iter n bus_seq_next s = (s + Z.of_nat n) mod 16 /\
  (Nat.iter n bus_seq_next s = s <-> Z.of_nat n mod 16 = 0).
Proof.
  intros. rewrite bus_seq_next_iter by done.
  split; [apply bus_seq_next_range; lia|]. split; [done|]. lia.
Qed.

Lemma bus_seq_cycle_witness :
  Nat.iter 18 bus_seq_next 15 = 1 /\ Nat.iter 32 bus_seq_next 7 = 7.
Proof.
  destruct (bus_seq_cycle 15 18 ltac:(lia)) as (_ & H1 & _).
  destruct (bus_seq_cycle 7 32 ltac:(lia)) as (_ & _ & H2).
  split; [exact H1 | apply H2; reflexivity].
Defined.

Lemma bus_validate_tx_ok t l :
  bus_validate_tx t l = 0 <->
  l <= SERIAL_MAX_PAYLOAD_LEN /\ (l = 0 -> t = SERIAL_TYPE_PROTOCOL_INFO).
Proof.
  unfold bus_validate_tx, EMSGSIZE, EINVAL, SERIAL_MAX_PAYLOAD_LEN.
  repeat split_if; reflect_bools; try lia.
Qed.

Lemma bus_validate_rx_ok h :
  bus_validate_rx h = 0 <->
  bh_reserved h = 0 /\ bh_type h < SERIAL_TYPE_UNKNOWN /\ bh_length h <= SERIAL_MAX_PAYLOAD_LEN.
Proof.
  unfold bus_validate_rx, EMSGSIZE, EINVAL, SERIAL_TYPE_UNKNOWN, SERIAL_MAX_PAYLOAD_LEN.
  repeat split_if; reflect_bools; lia.
Qed.
