(* ===== verification/Platform.v ===== *)
(** * Platform: the UART driver and kernel services below the link layer

    Zephyr's UART driver and kernel clock are not part of the repository, so
    they are a parameter: the class [Platform] is the set of calls the link
    layer makes, [PlatformLaws] what it relies on (the documented behaviour of
    the interrupt-driven UART API and of [k_busy_wait]), [TxReady] a transmitter
    that makes progress.  Three concrete platforms show the laws can hold.

    The transmit loops written against that interface, [serial_data_tx] of
    [device/serial/serial.c] and [bus_data_tx] of [host/bus.c], are here too:
    they differ in their time-out constant only.  The mutex of
    [serial_data_tx] has no effect on a single thread; what it does and does
    not exclude between threads is the subject of [TxInterleave]. *)

From S2P Require Import Prelude.
From Stdlib Require Import ZArith Lia.
From stdpp Require Import base list option numbers decidable.

Open Scope Z_scope.
Open Scope e80211_scope.

(** ** Interface *)

(** Result of [uart_fifo_read]: the bytes read (their number is the C return
    value) or a negative error code. *)
Inductive fifo_read : Type :=
| RdOk (bs : list Z)
| RdErr (e : Z).

Class Platform (U : Type) := {
  uart_fifo_read : U -> Z -> U * fifo_read;
  uart_fifo_fill : U -> list Z -> U * Z;
  uart_irq_rx_enable : U -> U;
  k_uptime_get : U -> Z;
  k_busy_wait : U -> Z -> U;
  (** not a call: the event that bytes arrive at the receiver *)
  uart_rx_arrive : U -> list Z -> U
}.

(** What the link layer may observe of a platform state, and how the calls act
    on it.  Reception is an event of its own, between the calls. *)
Class PlatformLaws (U : Type) `{Platform U} := {
  rx_fifo : U -> list Z;
  tx_wire : U -> list Z;
  clock_us : U -> Z;

  read_result u n : snd (uart_fifo_read u n) = RdOk (ztake n (rx_fifo u));
  read_rx u n : rx_fifo (fst (uart_fifo_read u n)) = zdrop n (rx_fifo u);
  read_tx u n : tx_wire (fst (uart_fifo_read u n)) = tx_wire u;

  fill_count u d : snd (uart_fifo_fill u d) <= zlen d;
  fill_tx u d : tx_wire (fst (uart_fifo_fill u d))
                = tx_wire u ++ ztake (snd (uart_fifo_fill u d)) d;
  fill_rx u d : rx_fifo (fst (uart_fifo_fill u d)) = rx_fifo u;
  fill_clock u d : clock_us u <= clock_us (fst (uart_fifo_fill u d));

  enable_rx u : rx_fifo (uart_irq_rx_enable u) = rx_fifo u;
  enable_tx u : tx_wire (uart_irq_rx_enable u) = tx_wire u;

  uptime u : k_uptime_get u = clock_us u / 1000;
  wait_rx u us : rx_fifo (k_busy_wait u us) = rx_fifo u;
  wait_tx u us : tx_wire (k_busy_wait u us) = tx_wire u;
  wait_clock u us : 0 <= us -> clock_us u + us <= clock_us (k_busy_wait u us);

  arrive_rx u bs : rx_fifo (uart_rx_arrive u bs) = rx_fifo u ++ bs;
  arrive_tx u bs : tx_wire (uart_rx_arrive u bs) = tx_wire u
}.

(** A transmitter whose FIFO always has room for at least one byte. *)
Class TxReady (U : Type) `{Platform U} :=
  fill_progress u d : d <> [] -> 0 < snd (uart_fifo_fill u d).

(** ** The transmit loop *)

Section TxLoop.
Context {U : Type} `{Platform U}.

(** The [while (written < len)] loop, on the bytes still to be written. *)
Fixpoint fifo_tx_loop (fuel : nat) (timeout_ms start : Z) (u : U) (rest : list Z)
  : outcome (U * Z) :=
  match fuel with
  | O => OutOfFuel
  | S fuel =>
      if zlen rest =? 0 then Ret (u, 0)
      else
        let '(u1, n) := uart_fifo_fill u rest in
        if n <? 0 then Ret (u1, n)
        else if 0 <? n then fifo_tx_loop fuel timeout_ms start u1 (zdrop n rest)
        else if timeout_ms <? k_uptime_get u1 - start then Ret (u1, - ENOSPC)
        else fifo_tx_loop fuel timeout_ms start (k_busy_wait u1 10) rest
  end.

Definition SERIAL_TX_TIMEOUT_MS : Z := 500.
Definition BUS_TX_TIMEOUT_MS : Z := 500.

(** One iteration per byte at most, one per 10 us of the time-out (500 ms and
    the rounding of the millisecond clock), and the final test. *)
Definition tx_fuel (timeout_ms : Z) (data : list Z) : nat :=
  Z.to_nat (zlen data + (timeout_ms + 1) * 100 + 2).

Definition serial_data_tx (u : U) (data : list Z) : outcome (U * Z) :=
  fifo_tx_loop (tx_fuel SERIAL_TX_TIMEOUT_MS data) SERIAL_TX_TIMEOUT_MS (k_uptime_get u) u data.

Definition bus_data_tx (u : U) (data : list Z) : outcome (U * Z) :=
  fifo_tx_loop (tx_fuel BUS_TX_TIMEOUT_MS data) BUS_TX_TIMEOUT_MS (k_uptime_get u) u data.

End TxLoop.

(** ** Three concrete platforms *)

(** A UART whose transmitter always accepts everything. *)
Record IdealUart : Type := mk_IdealUart { iu_rx : list Z; iu_tx : list Z; iu_us : Z }.

#[export] Instance IdealUart_Platform : Platform IdealUart := {
  uart_fifo_read u n :=
    (mk_IdealUart (zdrop n (iu_rx u)) (iu_tx u) (iu_us u), RdOk (ztake n (iu_rx u)));
  uart_fifo_fill u d := (mk_IdealUart (iu_rx u) (iu_tx u ++ d) (iu_us u), zlen d);
  uart_irq_rx_enable u := u;
  k_uptime_get u := iu_us u / 1000;
  k_busy_wait u us := mk_IdealUart (iu_rx u) (iu_tx u) (iu_us u + us);
  uart_rx_arrive u bs := mk_IdealUart (iu_rx u ++ bs) (iu_tx u) (iu_us u)
}.

(** A UART with a bounded TX FIFO that drains [bu_drain] bytes per wait; with
    [bu_drain = 0] it is a disconnected peer. *)
Record BoundedUart : Type := mk_BoundedUart {
  bu_rx : list Z; bu_tx : list Z; bu_us : Z; bu_room : Z; bu_drain : Z
}.

#[export] Instance BoundedUart_Platform : Platform BoundedUart := {
  uart_fifo_read u n :=
    (mk_BoundedUart (zdrop n (bu_rx u)) (bu_tx u) (bu_us u) (bu_room u) (bu_drain u),
     RdOk (ztake n (bu_rx u)));
  uart_fifo_fill u d :=
    let n := Z.min (Z.max 0 (bu_room u)) (zlen d) in
    (mk_BoundedUart (bu_rx u) (bu_tx u ++ ztake n d) (bu_us u) (bu_room u - n) (bu_drain u), n);
  uart_irq_rx_enable u := u;
  k_uptime_get u := bu_us u / 1000;
  k_busy_wait u us :=
    mk_BoundedUart (bu_rx u) (bu_tx u) (bu_us u + us) (bu_room u + bu_drain u) (bu_drain u);
  uart_rx_arrive u bs :=
    mk_BoundedUart (bu_rx u ++ bs) (bu_tx u) (bu_us u) (bu_room u) (bu_drain u)
}.

(** A UART that accepts one byte per call and takes 87 us for it (115200 baud). *)
Record SlowUart : Type := mk_SlowUart { wu_rx : list Z; wu_tx : list Z; wu_us : Z }.

#[export] Instance SlowUart_Platform : Platform SlowUart := {
  uart_fifo_read u n :=
    (mk_SlowUart (zdrop n (wu_rx u)) (wu_tx u) (wu_us u), RdOk (ztake n (wu_rx u)));
  uart_fifo_fill u d :=
    (mk_SlowUart (wu_rx u) (wu_tx u ++ ztake 1 d) (wu_us u + 87), zlen (ztake 1 d));
  uart_irq_rx_enable u := u;
  k_uptime_get u := wu_us u / 1000;
  k_busy_wait u us := mk_SlowUart (wu_rx u) (wu_tx u) (wu_us u + us);
  uart_rx_arrive u bs := mk_SlowUart (wu_rx u ++ bs) (wu_tx u) (wu_us u)
}.

#[export, refine] Instance IdealUart_Laws : PlatformLaws IdealUart := {
  rx_fifo := iu_rx; tx_wire := iu_tx; clock_us := iu_us
}.
Proof. all: intros; cbn; rewrite ?ztake_ge by lia; (done || lia). Defined.

#[export] Instance IdealUart_TxReady : TxReady IdealUart.
Proof.
  intros u d Hd. cbn. destruct d; [done|]. rewrite zlen_cons.
  pose proof (zlen_nonneg d). lia.
Qed.

#[export, refine] Instance BoundedUart_Laws : PlatformLaws BoundedUart := {
  rx_fifo := bu_rx; tx_wire := bu_tx; clock_us := bu_us
}.
Proof. all: intros; cbn; (done || lia). Defined.

#[export, refine] Instance SlowUart_Laws : PlatformLaws SlowUart := {
  rx_fifo := wu_rx; tx_wire := wu_tx; clock_us := wu_us
}.
Proof.
  all: intros; cbn; try (done || lia).
  - rewrite zlen_ztake. lia.
  - destruct d; done.
Defined.

#[export] Instance SlowUart_TxReady : TxReady SlowUart.
Proof. intros u d Hd. destruct d; [done | reflexivity]. Qed.

(** ** Properties of the transmit loop *)

Ltac Zify.zify_post_hook ::= Z.to_euclidean_division_equations.

Section TxLoopProofs.
Context {U : Type} `{PL : PlatformLaws U}.

(** Waits of 10 us left before the time-out test must fire. *)
Definition waits_left (timeout_ms start : Z) (u : U) : Z :=
  Z.max 0 (((start + timeout_ms + 1) * 1000 - clock_us u + 9) / 10).

(** What a finished transmission guarantees. *)
Definition tx_result (timeout_ms start : Z) (u : U) (data : list Z) (u' : U) (r : Z) : Prop :=
  rx_fifo u' = rx_fifo u /\
  exists sent rest, data = sent ++ rest /\ tx_wire u' = tx_wire u ++ sent /\
    (r = 0 /\ rest = [] \/
     r < 0 /\ rest <> [] /\
     (timeout_ms < k_uptime_get u' - start \/ exists u1, snd (uart_fifo_fill u1 rest) = r)).

Lemma fifo_tx_loop_total fuel timeout_ms start u rest :
  zlen rest + waits_left timeout_ms start u < Z.of_nat fuel ->
  exists u' r, fifo_tx_loop fuel timeout_ms start u rest = Ret (u', r) /\
    tx_result timeout_ms start u rest u' r.
Proof.
  revert u rest. induction fuel as [|fuel IH]; intros u rest Hf.
  { pose proof (zlen_nonneg rest). unfold waits_left in Hf. lia. }
  cbn [fifo_tx_loop].
  destruct (Z.eqb_spec (zlen rest) 0) as [E|E].
  { exists u, 0. split; [done|]. split; [done|]. exists [], [].
    apply zlen_zero in E as ->. split; [done|]. split; [by rewrite app_nil_r|by left]. }
  pose proof (fill_count u rest) as Hc. pose proof (fill_tx u rest) as Ht.
  pose proof (fill_rx u rest) as Hr. pose proof (fill_clock u rest) as Hk.
  destruct (uart_fifo_fill u rest) as [u1 n] eqn:F; cbn [fst snd] in *.
  destruct (Z.ltb_spec n 0).
  { exists u1, n. split; [done|]. split; [done|]. exists [], rest.
    rewrite Ht. unfold ztake. replace (Z.to_nat n) with 0%nat by lia.
    split; [done|]. split; [by rewrite take_0|]. right. repeat split; [lia| |].
    - intros ->. done.
    - right. exists u. by rewrite F. }
  destruct (Z.ltb_spec 0 n).
  { destruct (IH u1 (zdrop n rest)) as (u' & r & -> & Hrx & sent & rest' & E1 & E2 & E3).
    { rewrite zlen_zdrop. unfold waits_left in *. lia. }
    exists u', r. split; [done|]. split; [congruence|].
    exists (ztake n rest ++ sent), rest'. split; [|split].
    - rewrite <- app_assoc, <- E1. by rewrite ztake_zdrop.
    - by rewrite E2, Ht, app_assoc.
    - done. }
  assert (n = 0) as -> by lia. rewrite ztake_0, app_nil_r in Ht.
  destruct (Z.ltb_spec timeout_ms (k_uptime_get u1 - start)).
  { exists u1, (- ENOSPC). split; [done|]. split; [done|]. exists [], rest.
    split; [done|]. split; [by rewrite app_nil_r|]. right.
    split; [unfold ENOSPC; lia|]. split; [|auto]. intros ->. done. }
  destruct (IH (k_busy_wait u1 10) rest) as (u' & r & -> & Hrx & Hs).
  { pose proof (wait_clock u1 10 ltac:(lia)). rewrite uptime in *.
    unfold waits_left in *. lia. }
  exists u', r. split; [done|]. split; [by rewrite Hrx, wait_rx|].
  destruct Hs as (sent & rest' & E1 & E2 & E3). exists sent, rest'.
  split; [done|]. split; [by rewrite E2, wait_tx, Ht|done].
Qed.

Lemma tx_fuel_enough timeout_ms data u :
  0 <= timeout_ms ->
  zlen data + waits_left timeout_ms (k_uptime_get u) u < Z.of_nat (tx_fuel timeout_ms data).
Proof.
  intros. pose proof (zlen_nonneg data). unfold tx_fuel, waits_left. rewrite uptime. lia.
Qed.

(** With a transmitter that makes progress every byte is sent, in order. *)
Lemma fifo_tx_loop_ready `{!TxReady U} fuel timeout_ms start u rest :
  zlen rest < Z.of_nat fuel ->
  exists u', fifo_tx_loop fuel timeout_ms start u rest = Ret (u', 0) /\
    rx_fifo u' = rx_fifo u /\ tx_wire u' = tx_wire u ++ rest.
Proof.
  revert u rest. induction fuel as [|fuel IH]; intros u rest Hf.
  { pose proof (zlen_nonneg rest). lia. }
  cbn [fifo_tx_loop].
  destruct (Z.eqb_spec (zlen rest) 0) as [E|E].
  { apply zlen_zero in E as ->. exists u. by rewrite app_nil_r. }
  assert (rest <> []) as Hne by (by intros ->).
  pose proof (fill_count u rest) as Hc. pose proof (fill_tx u rest) as Ht.
  pose proof (fill_rx u rest) as Hr. pose proof (fill_progress u rest Hne) as Hp.
  destruct (uart_fifo_fill u rest) as [u1 n] eqn:F; cbn [fst snd] in *.
  decide_cmp.
  destruct (IH u1 (zdrop n rest)) as (u' & -> & Hrx & Htx).
  { rewrite zlen_zdrop. lia. }
  exists u'. split; [done|]. split; [congruence|].
  by rewrite Htx, Ht, <- app_assoc, ztake_zdrop.
Qed.

Lemma serial_data_tx_ready `{!TxReady U} u data :
  exists u', serial_data_tx u data = Ret (u', 0) /\
    rx_fifo u' = rx_fifo u /\ tx_wire u' = tx_wire u ++ data.
Proof.
  apply fifo_tx_loop_ready. unfold tx_fuel, SERIAL_TX_TIMEOUT_MS.
  pose proof (zlen_nonneg data). lia.
Qed.

Lemma bus_data_tx_ready `{!TxReady U} u data :
  exists u', bus_data_tx u data = Ret (u', 0) /\
    rx_fifo u' = rx_fifo u /\ tx_wire u' = tx_wire u ++ data.
Proof.
  apply fifo_tx_loop_ready. unfold tx_fuel, BUS_TX_TIMEOUT_MS.
  pose proof (zlen_nonneg data). lia.
Qed.

Lemma serial_data_tx_returns u data :
  exists u' r sent rest, serial_data_tx u data = Ret (u', r) /\ rx_fifo u' = rx_fifo u /\
    data = sent ++ rest /\ tx_wire u' = tx_wire u ++ sent.
Proof.
  destruct (fifo_tx_loop_total (tx_fuel SERIAL_TX_TIMEOUT_MS data) SERIAL_TX_TIMEOUT_MS
              (k_uptime_get u) u data) as (u' & r & E & Hrx & sent & rest & Hd & Ht & _).
  { apply tx_fuel_enough. unfold SERIAL_TX_TIMEOUT_MS; lia. }
  exists u', r, sent, rest. done.
Qed.

(** C4. [serial_data_tx] always returns: whatever the driver does, after at most
    one iteration per byte and one per 10 us of the time-out the loop is over.
    What reached the wire is a prefix of the data; the result is 0 exactly
    when it is all of it, and otherwise negative, with the time-out expired or
    the driver's own error reported. *)
Theorem serial_data_tx_total (u : U) (data : list Z) :
  exists u' r,
    serial_data_tx u data = Ret (u', r) /\
    tx_result SERIAL_TX_TIMEOUT_MS (k_uptime_get u) u data u' r.
Proof.
  apply fifo_tx_loop_total, tx_fuel_enough. unfold SERIAL_TX_TIMEOUT_MS; lia.
Qed.

End TxLoopProofs.

(** On a disconnected peer the loop gives up after 500 ms with a truncated
    frame; on a slow one it delivers everything. *)
Lemma serial_data_tx_total_witness :
  (exists u' r, serial_data_tx (mk_BoundedUart [] [] 0 2 0) [1; 2; 3] = Ret (u', r) /\
     tx_result SERIAL_TX_TIMEOUT_MS 0 (mk_BoundedUart [] [] 0 2 0) [1; 2; 3] u' r) /\
  serial_data_tx (mk_BoundedUart [] [] 0 1 1) [1; 2; 3]
  = Ret (mk_BoundedUart [] [1; 2; 3] 20 0 1, 0).
Proof.
  split; [exact (serial_data_tx_total (mk_BoundedUart [] [] 0 2 0) [1; 2; 3]) | vm_compute; reflexivity].
Defined.
