(* ===== verification/Client.v ===== *)
(** * Client: the callback interface between the serial layer and the proxies

    [struct client_callbacks] of [serial.h] and, for the theorems of the serial
    layer, the contract a well-behaved traffic client offers: acquire gives the
    start of a buffer that can hold the frame, and storing, committing and
    completing a whole frame delivers it.  [SerialDev] is proved against the
    contract, the proxies discharge it.

    A client's buffer is C memory: [*data] is an offset into it, and
    [buffer_store] writes there, failing when the store leaves the array. *)

From S2P Require Import Prelude.
From Stdlib Require Import ZArith Lia.
From stdpp Require Import base list option numbers decidable.

Open Scope Z_scope.

(** The result of [acquire_buffer(&data, len)]: [false], or [true] with the
    value stored through [data]; [AcqOk None] is a callback that returned [true]
    without storing a pointer. *)
Inductive acquire_result : Type :=
| AcqFail
| AcqOk (data : option Z).

#[export] Instance acquire_result_eq_dec : EqDecision acquire_result.
Proof. solve_decision. Defined.

(** The three function pointers, all non-NULL, and the buffer behind [*data]. *)
Record client_ops (C : Type) : Type := mk_client_ops {
  acquire_buffer : C -> Z -> acquire_result;
  commit_data : C -> Z -> C;
  message_complete : C -> Z -> outcome C;
  buffer_store : C -> Z -> list Z -> option C
}.
Arguments mk_client_ops {C} _ _ _ _.
Arguments acquire_buffer {C} _ _ _.
Arguments commit_data {C} _ _ _.
Arguments message_complete {C} _ _ _.
Arguments buffer_store {C} _ _ _ _.

(** [struct client_callbacks]: each pointer may be NULL. *)
Record client_callbacks (C : Type) : Type := mk_client_callbacks {
  cb_acquire_buffer : option (C -> Z -> acquire_result);
  cb_commit_data : option (C -> Z -> C);
  cb_message_complete : option (C -> Z -> outcome C);
  cb_store : C -> Z -> list Z -> option C
}.
Arguments mk_client_callbacks {C} _ _ _ _.
Arguments cb_acquire_buffer {C} _.
Arguments cb_commit_data {C} _.
Arguments cb_message_complete {C} _.
Arguments cb_store {C} _ _ _ _.

(** What the serial layer asks of the multiplexer. *)
Class Mux (C : Type) := {
  get_callbacks : Z -> option (client_ops C);
  supported_types_mask : Z
}.

(** The contract of a client that receives a frame in one piece. *)
Class FrameClient {C : Type} (ops : client_ops C) := {
  (** states in which a frame can be received *)
  cl_ready : C -> Prop;
  (** longest frame that is delivered *)
  cl_capacity : Z;
  (** effect of one delivered frame *)
  cl_deliver : C -> list Z -> C;

  cl_acquire c len :
    cl_ready c -> 0 < len <= cl_capacity ->
    acquire_buffer ops c len = AcqOk (Some 0);
  cl_complete c p :
    cl_ready c -> 0 < zlen p <= cl_capacity ->
    exists c1, buffer_store ops c 0 p = Some c1 /\
      message_complete ops (commit_data ops c1 (zlen p)) (zlen p) = Ret (cl_deliver c p);
  cl_store_ready c p c1 :
    cl_ready c -> buffer_store ops c 0 p = Some c1 -> cl_ready c1;
  cl_reacquire c p :
    cl_ready c -> 0 < zlen p <= cl_capacity ->
    exists off, acquire_buffer ops (cl_deliver c p) (zlen p) = AcqOk (Some off)
}.

(** A client that hands out the same buffer start every time and leaves
    [commit_data] empty: a frame may then arrive in any number of pieces. *)
Class ChunkClient {C : Type} (ops : client_ops C) `{!FrameClient ops} := {
  ck_commit c n : commit_data ops c n = c;
  ck_store_nil c : cl_ready c -> buffer_store ops c 0 [] = Some c;
  ck_deliver_ready c p : cl_ready c -> 0 < zlen p <= cl_capacity -> cl_ready (cl_deliver c p);
  ck_store c p c1 q :
    cl_ready c -> buffer_store ops c 0 p = Some c1 -> zlen p + zlen q <= cl_capacity ->
    exists c2, buffer_store ops c1 (zlen p) q = Some c2 /\ buffer_store ops c 0 (p ++ q) = Some c2
}.
