(* ===== verification/SerialDev.v ===== *)
(** * SerialDev: the device side of the link, [device/serial/serial.c]

    The RX state machine is split as in the code: [uart_irq_callback] reads
    header bytes from the FIFO until the header is complete and submits the
    work item, [serial_work_handler] reads the payload into the client's
    buffer and acknowledges.  Every operation passes the whole state
    [dev]: the configuration struct, the UART and the clients. *)

From S2P Require Import Prelude Framing Platform Client.
From Stdlib Require Import ZArith Lia.
From stdpp Require Import base list option numbers decidable.

Open Scope Z_scope.
Open Scope e80211_scope.

(** ** State *)

(** The mutable part of [struct serial_config]; [work_pending] is the queued
    state of [work_item].  ([rx_ringbuf] is initialised but never used.) *)
Record serial_config : Type := mk_serial_config {
  parsing_state : ParsingState;
  serial_header : SerialHeader;
  bytes_read : Z;
  rx_sequence_number : Z;
  tx_sequence_number : Z;
  work_pending : bool
}.

Definition with_state (c : serial_config) (s : ParsingState) : serial_config :=
  mk_serial_config s (serial_header c) (bytes_read c) (rx_sequence_number c)
    (tx_sequence_number c) (work_pending c).
Definition with_header (c : serial_config) (h : SerialHeader) : serial_config :=
  mk_serial_config (parsing_state c) h (bytes_read c) (rx_sequence_number c)
    (tx_sequence_number c) (work_pending c).
Definition with_bytes_read (c : serial_config) (n : Z) : serial_config :=
  mk_serial_config (parsing_state c) (serial_header c) n (rx_sequence_number c)
    (tx_sequence_number c) (work_pending c).
Definition with_rx_seq (c : serial_config) (n : Z) : serial_config :=
  mk_serial_config (parsing_state c) (serial_header c) (bytes_read c) n
    (tx_sequence_number c) (work_pending c).
Definition with_tx_seq (c : serial_config) (n : Z) : serial_config :=
  mk_serial_config (parsing_state c) (serial_header c) (bytes_read c)
    (rx_sequence_number c) n (work_pending c).
Definition with_work (c : serial_config) (b : bool) : serial_config :=
  mk_serial_config (parsing_state c) (serial_header c) (bytes_read c)
    (rx_sequence_number c) (tx_sequence_number c) b.

Record dev (U C : Type) : Type := mk_dev { d_cfg : serial_config; d_uart : U; d_cli : C }.
Arguments mk_dev {U C} _ _ _.
Arguments d_cfg {U C} _.
Arguments d_uart {U C} _.
Arguments d_cli {U C} _.

(** [(seq >= SEQUENCE_NUMBER_MAX) ? 0 : seq + 1] on a [uint8_t]. *)
Definition serial_seq_advance (seq : Z) : Z :=
  if SEQUENCE_NUMBER_MAX <=? seq then 0 else u8 (seq + 1).

(** A header initialiser of the code: the values are truncated to their
    bit-fields and the length goes through [sys_cpu_to_be16]. *)
Definition mk_tx_header (type error : Z) (no_ack : bool) (seq len : Z) : SerialHeader :=
  {| sh_type := bitfield 4 type;
     sh_no_ack := no_ack;
     sh_host := true;
     sh_error := bitfield 2 error;
     sh_reserved := 0;
     sh_sequence_number := bitfield 4 seq;
     sh_length := swap16 (u16 len) |}.

Section SerialDev.
Context {U C : Type} `{Platform U} `{Mux C}.

Definition with_cfg (w : dev U C) (c : serial_config) : dev U C := mk_dev c (d_uart w) (d_cli w).
Definition with_uart (w : dev U C) (u : U) : dev U C := mk_dev (d_cfg w) u (d_cli w).
Definition with_cli (w : dev U C) (c : C) : dev U C := mk_dev (d_cfg w) (d_uart w) c.

(** ** Transmission *)

(** [serial_send_frame(config, ...)]: [config] may be NULL and so may its
    [serial_dev]; [payload] may be NULL.  The results of the two
    [serial_data_tx] calls are not looked at. *)
Definition serial_send_frame (config : option (serial_config * option U))
    (type error : Z) (no_ack : bool) (payload : option (list Z)) (len : Z)
  : outcome (option (serial_config * option U) * Z) :=
  match config with
  | Some (cfg, Some u) =>
      if SERIAL_MAX_PAYLOAD_LEN <? len then Ret (config, - EMSGSIZE)
      else
        let hdr := mk_tx_header type error no_ack (tx_sequence_number cfg) len in
        do! (u1, _) <- serial_data_tx u (SerialHeader_mem hdr);
        do! u2 <- match payload with
                  | Some p =>
                      if 0 <? len then
                        if zlen p <? len then Fault
                        else do! (u2, _) <- serial_data_tx u1 (ztake len p); Ret u2
                      else Ret u1
                  | None => Ret u1
                  end;
        Ret (Some (with_tx_seq cfg (serial_seq_advance (tx_sequence_number cfg)), Some u2), 0)
  | _ => Ret (config, - ENODEV)
  end.

(** Sending on the configuration of [w], whose device pointer is not NULL. *)
Definition dev_send_frame (w : dev U C) (type error : Z) (no_ack : bool)
    (payload : option (list Z)) (len : Z) : outcome (dev U C * Z) :=
  do! (config, ret) <- serial_send_frame (Some (d_cfg w, Some (d_uart w))) type error no_ack payload len;
  match config with
  | Some (cfg, Some u) => Ret (mk_dev cfg u (d_cli w), ret)
  | _ => Ret (w, ret)
  end.

Definition send_ack (w : dev U C) (type sequence_number error : Z) : outcome (dev U C) :=
  do! (u, _) <- serial_data_tx (d_uart w)
                  (SerialHeader_mem (mk_tx_header type error false sequence_number 0));
  Ret (with_uart w u).

(** ** Header reception: the UART interrupt callback *)

(** One iteration of the [while] loop, on the byte just read. *)
Definition rx_header_byte (w : dev U C) (b : Z) : outcome (dev U C) :=
  let c := d_cfg w in
  let h := serial_header c in
  match parsing_state c with
  | PARSING_STATE_TYPE =>
      Ret (with_cfg w (with_bytes_read
             (with_state (with_header c (SerialHeader_set_byte0 h b)) PARSING_STATE_SEQUENCE_NUMBER) 0))
  | PARSING_STATE_SEQUENCE_NUMBER =>
      Ret (with_cfg w (with_state (with_header c (SerialHeader_set_byte1 h b)) PARSING_STATE_LENGTH1))
  | PARSING_STATE_LENGTH1 =>
      Ret (with_cfg w (with_state
             (with_header c (SerialHeader_set_length h (length_set_low (sh_length h) b)))
             PARSING_STATE_LENGTH2))
  | PARSING_STATE_LENGTH2 =>
      let len := swap16 (length_set_high (sh_length h) b) in
      let w1 := with_cfg w (with_header c (SerialHeader_set_length h len)) in
      let set s w' := with_cfg w' (with_state (d_cfg w') s) in
      if len =? 0 then
        if sh_type h =? SERIAL_TYPE_PROTOCOL_INFO
        then Ret (set PARSING_STATE_DATA w1)
        else Ret (set PARSING_STATE_TYPE w1)
      else if SERIAL_MAX_PAYLOAD_LEN <? len then
        do! (u, _) <- serial_data_tx (d_uart w1)
                        (SerialHeader_mem (mk_tx_header (sh_type h) ERROR_TYPE_LENGTH_TOO_LONG
                                             false (sh_sequence_number h) 0));
        Ret (set PARSING_STATE_TYPE (with_uart w1 u))
      else Ret (set PARSING_STATE_DATA w1)
  | PARSING_STATE_DATA => Ret w
  end.

Fixpoint rx_header_loop (fuel : nat) (w : dev U C) : outcome (dev U C) :=
  match fuel with
  | O => OutOfFuel
  | S fuel =>
      if bool_decide (parsing_state (d_cfg w) = PARSING_STATE_DATA) then Ret w
      else
        match uart_fifo_read (d_uart w) 1 with
        | (u1, RdOk [b]) =>
            do! w1 <- rx_header_byte (with_uart w u1) b;
            rx_header_loop fuel w1
        | (u1, _) => Ret (with_uart w u1)
        end
  end.

Definition uart_irq_callback (fuel : nat) (w : dev U C) : outcome (dev U C) :=
  do! w1 <- rx_header_loop fuel w;
  if bool_decide (parsing_state (d_cfg w1) = PARSING_STATE_DATA)
  then Ret (with_cfg w1 (with_work (d_cfg w1) true))
  else Ret w1.

(** ** Payload reception: the work item *)

Definition handle_protocol_info (w : dev U C) : outcome (dev U C) :=
  let supported_types := supported_types_mask in
  let payload := [ SERIAL_PROTOCOL_VERSION;
                   u8 (Z.land supported_types 0xFF);
                   u8 (Z.land (Z.shiftr supported_types 8) 0xFF);
                   rx_sequence_number (d_cfg w) ] in
  do! (w1, _) <- dev_send_frame w SERIAL_TYPE_PROTOCOL_INFO ERROR_TYPE_NO_ERROR false
                   (Some payload) 4;
  Ret w1.

(** [config->parsing_state = PARSING_STATE_TYPE; config->bytes_read = 0;] *)
Definition reset_parser (w : dev U C) : dev U C :=
  with_cfg w (with_bytes_read (with_state (d_cfg w) PARSING_STATE_TYPE) 0).

(** [config->serial_header.length = 0;] *)
Definition clear_length (w : dev U C) : dev U C :=
  with_cfg w (with_header (d_cfg w) (SerialHeader_set_length (serial_header (d_cfg w)) 0)).

(** Where one iteration of the payload loop goes. *)
Inductive flow : Type :=
| Continue (w : dev U C) (data_buffer : option Z)
| Break (w : dev U C).

(** Reading up to 64 bytes into the [discard] array. *)
Definition read_discard (w : dev U C) (buffer_size : Z) : dev U C * option Z :=
  match uart_fifo_read (d_uart w) (Z.min buffer_size 64) with
  | (u1, RdErr _) => (with_uart w u1, None)
  | (u1, RdOk bs) =>
      (with_cfg (with_uart w u1) (with_bytes_read (d_cfg w) (bytes_read (d_cfg w) + zlen bs)),
       Some (zlen bs))
  end.

Definition work_protocol_info (w : dev U C) (data_buffer : option Z) : outcome flow :=
  let len := sh_length (serial_header (d_cfg w)) in
  match read_discard w (len - bytes_read (d_cfg w)) with
  | (w1, None) => Ret (Break w1)
  | (w1, Some _) =>
      if len <=? bytes_read (d_cfg w1) then
        do! w2 <- handle_protocol_info w1;
        Ret (Continue (clear_length (reset_parser w2)) data_buffer)
      else Ret (Continue w1 data_buffer)
  end.

Definition work_no_callback (w : dev U C) (data_buffer : option Z) : outcome flow :=
  let h := serial_header (d_cfg w) in
  match read_discard w (sh_length h - bytes_read (d_cfg w)) with
  | (w1, None) => Ret (Break w1)
  | (w1, Some _) =>
      if sh_length h <=? bytes_read (d_cfg w1) then
        do! w2 <- send_ack w1 (sh_type h) (sh_sequence_number h) ERROR_TYPE_LENGTH_TOO_LONG;
        Ret (Continue (reset_parser w2) data_buffer)
      else Ret (Continue w1 data_buffer)
  end.

(** A complete payload: sequence check, commit and completion, acknowledgement,
    parser reset. *)
Definition work_packet_complete (cb : client_ops C) (w : dev U C) : outcome (dev U C) :=
  let h := serial_header (d_cfg w) in
  let rx_seq := rx_sequence_number (d_cfg w) in
  do! w1 <-
    (if negb (rx_seq =? sh_sequence_number h) then
       do! w1 <- send_ack w (sh_type h) rx_seq ERROR_TYPE_INCORRECT_SEQUENCE_NUMBER;
       Ret (with_cfg w1 (with_rx_seq (d_cfg w1) 0))
     else
       do! c2 <- message_complete cb (commit_data cb (d_cli w) (sh_length h)) (sh_length h);
       let w2 := with_cli w c2 in
       let w3 := with_cfg w2 (with_rx_seq (d_cfg w2) (serial_seq_advance rx_seq)) in
       if negb (sh_no_ack h)
       then send_ack w3 (sh_type h) (sh_sequence_number h) ERROR_TYPE_NO_ERROR
       else Ret w3);
  Ret (reset_parser w1).

Definition work_client (cb : client_ops C) (w : dev U C) (data_buffer : option Z) : outcome flow :=
  let h := serial_header (d_cfg w) in
  let buffer_size := sh_length h - bytes_read (d_cfg w) in
  match acquire_buffer cb (d_cli w) buffer_size with
  | AcqFail =>
      do! w1 <- send_ack w (sh_type h) (sh_sequence_number h) ERROR_TYPE_OUT_OF_BUFFERS;
      Ret (Break (reset_parser w1))
  | AcqOk stored =>
      let data_buffer := match stored with Some p => Some p | None => data_buffer end in
      match uart_fifo_read (d_uart w) buffer_size with
      | (u1, RdErr _) => Ret (Break (with_uart w u1))
      | (u1, RdOk []) => Ret (Break (with_uart w u1))
      | (u1, RdOk bs) =>
          match data_buffer with
          | None => Fault
          | Some p =>
              match buffer_store cb (d_cli w) (p + bytes_read (d_cfg w)) bs with
              | None => Fault
              | Some c1 =>
                  let w1 := with_cfg (with_cli (with_uart w u1) c1)
                              (with_bytes_read (d_cfg w) (bytes_read (d_cfg w) + zlen bs)) in
                  if sh_length h <=? bytes_read (d_cfg w1) then
                    do! w2 <- work_packet_complete cb w1;
                    Ret (Continue w2 data_buffer)
                  else
                    Ret (Continue (with_cli w1 (commit_data cb c1 (zlen bs))) data_buffer)
              end
          end
      end
  end.

(** One iteration of [while (config->bytes_read < config->serial_header.length)];
    [frame_type] and [callbacks] are read once, before the loop. *)
Definition work_body (frame_type : Z) (callbacks : option (client_ops C)) (w : dev U C)
    (data_buffer : option Z) : outcome flow :=
  if frame_type =? SERIAL_TYPE_PROTOCOL_INFO then work_protocol_info w data_buffer
  else if SERIAL_TYPE_UNKNOWN <=? frame_type then work_no_callback w data_buffer
  else
    match callbacks with
    | None => work_no_callback w data_buffer
    | Some cb => work_client cb w data_buffer
    end.

Fixpoint work_loop (fuel : nat) (frame_type : Z) (callbacks : option (client_ops C))
    (w : dev U C) (data_buffer : option Z) : outcome (dev U C) :=
  match fuel with
  | O => OutOfFuel
  | S fuel =>
      if bytes_read (d_cfg w) <? sh_length (serial_header (d_cfg w)) then
        do! next <- work_body frame_type callbacks w data_buffer;
        match next with
        | Continue w1 db => work_loop fuel frame_type callbacks w1 db
        | Break w1 => Ret w1
        end
      else Ret w
  end.

Definition serial_work_handler (fuel : nat) (w0 : dev U C) : outcome (dev U C) :=
  let w := with_cfg w0 (with_work (d_cfg w0) false) in
  let frame_type := sh_type (serial_header (d_cfg w)) in
  let callbacks := get_callbacks frame_type in
  if (frame_type =? SERIAL_TYPE_PROTOCOL_INFO) && (sh_length (serial_header (d_cfg w)) =? 0) then
    do! w1 <- handle_protocol_info w;
    Ret (clear_length (reset_parser w1))
  else
    do! w1 <- work_loop fuel frame_type callbacks w None;
    Ret (with_uart w1 (uart_irq_rx_enable (d_uart w1))).

(** An RX interrupt followed by the work item, if the callback queued it. *)
Definition dev_rx_event (fuel : nat) (w : dev U C) : outcome (dev U C) :=
  do! w1 <- uart_irq_callback fuel w;
  if work_pending (d_cfg w1) then serial_work_handler fuel w1 else Ret w1.

(** Bytes arrive in chunks, each raising an RX event. *)
Definition dev_arrive (w : dev U C) (bs : list Z) : dev U C :=
  with_uart w (uart_rx_arrive (d_uart w) bs).

Fixpoint dev_run (fuel : nat) (w : dev U C) (chunks : list (list Z)) : outcome (dev U C) :=
  match chunks with
  | [] => Ret w
  | bs :: chunks =>
      do! w1 <- dev_rx_event fuel (dev_arrive w bs);
      dev_run fuel w1 chunks
  end.

(** ** Initialisation *)

Definition initialize_uart (w : dev U C) : dev U C :=
  let c := d_cfg w in
  let c1 := mk_serial_config PARSING_STATE_TYPE (serial_header c) 0 0 0 false in
  mk_dev c1 (uart_irq_rx_enable (d_uart w)) (d_cli w).

End SerialDev.

Arguments flow U C : clear implicits.

(** Compute the record updates of the state. *)
Ltac dev_simpl :=
  repeat (progress (
    unfold with_cfg, with_uart, with_cli, with_state, with_header, with_bytes_read, with_rx_seq,
      with_tx_seq, with_work, reset_parser, clear_length in *;
    cbn [d_cfg d_uart d_cli parsing_state serial_header bytes_read rx_sequence_number
         tx_sequence_number work_pending outcome_bind iu_rx iu_tx iu_us] in *)).
