(* ===== verification/SerialRefine.v ===== *)
(** * SerialRefine: the device code refines its run on an ideal UART

    [ideal] forgets everything of a platform state but the bytes waiting in the
    RX FIFO and the bytes sent.  For every platform that obeys [PlatformLaws]
    and makes transmit progress, each operation of [serial.c] commutes with
    [ideal]; so behaviour proved by evaluation on [IdealUart] holds on all of
    them. *)

From S2P Require Import Prelude Framing Platform Client SerialDev.
From Stdlib Require Import ZArith Lia.
From stdpp Require Import base list option numbers decidable.

Open Scope Z_scope.
Open Scope e80211_scope.

Definition outcome_map {A B} (f : A -> B) (m : outcome A) : outcome B :=
  match m with
  | Ret a => Ret (f a)
  | Fault => Fault
  | OutOfFuel => OutOfFuel
  end.

Lemma outcome_map_bind {A B A' B'} (f : A -> A') (g : B -> B')
    (m : outcome A) (m' : outcome A') (k : A -> outcome B) (k' : A' -> outcome B') :
  outcome_map f m = m' -> (forall a, outcome_map g (k a) = k' (f a)) ->
  outcome_map g (outcome_bind m k) = outcome_bind m' k'.
Proof. intros <- Hk. destruct m; cbn; auto. Qed.

Lemma outcome_map_Ret_inv {A B} (f : A -> B) m b :
  outcome_map f m = Ret b -> exists a, m = Ret a /\ f a = b.
Proof. destruct m; cbn; [intros [= <-]; eauto | done | done]. Qed.

(** Transmission on the ideal UART. *)
Lemma serial_data_tx_ideal rx tx us d :
  serial_data_tx (mk_IdealUart rx tx us) d = Ret (mk_IdealUart rx (tx ++ d) us, 0).
Proof.
  unfold serial_data_tx, tx_fuel, SERIAL_TX_TIMEOUT_MS.
  pose proof (zlen_nonneg d).
  replace (Z.to_nat (zlen d + (500 + 1) * 100 + 2))
    with (S (S (Z.to_nat (zlen d + (500 + 1) * 100)))) by lia.
  cbn [fifo_tx_loop]. destruct (Z.eqb_spec (zlen d) 0) as [E|E].
  - apply zlen_zero in E as ->. by rewrite app_nil_r.
  - cbn [uart_fifo_fill IdealUart_Platform iu_rx iu_tx iu_us]. decide_cmp.
    rewrite zdrop_ge by lia. done.
Qed.

Section Refine.
Context {U C : Type} `{PL : PlatformLaws U} `{!TxReady U} `{Mux C}.

Definition ideal_uart (u : U) : IdealUart := mk_IdealUart (rx_fifo u) (tx_wire u) 0.

Definition ideal (w : dev U C) : dev IdealUart C :=
  mk_dev (d_cfg w) (ideal_uart (d_uart w)) (d_cli w).

Definition ideal_flow (x : flow U C) : flow IdealUart C :=
  match x with
  | Continue w db => Continue (ideal w) db
  | Break w => Break (ideal w)
  end.

Lemma serial_data_tx_refines u d :
  outcome_map (fun '(u', r) => (ideal_uart u', r)) (serial_data_tx u d)
  = serial_data_tx (ideal_uart u) d.
Proof.
  destruct (serial_data_tx_ready u d) as (u' & -> & Hr & Ht).
  unfold ideal_uart at 2. rewrite serial_data_tx_ideal. cbn. unfold ideal_uart.
  by rewrite Hr, Ht.
Qed.

Lemma read_refines u n :
  (ideal_uart (fst (uart_fifo_read u n)), snd (uart_fifo_read u n))
  = uart_fifo_read (ideal_uart u) n.
Proof. unfold ideal_uart. cbn. by rewrite read_result, read_rx, read_tx. Qed.

Lemma read_refines_eq u n u1 r :
  uart_fifo_read u n = (u1, r) -> uart_fifo_read (ideal_uart u) n = (ideal_uart u1, r).
Proof. intros E. rewrite <- read_refines, E. done. Qed.

(** Step under a [do!] whose head is a transmission. *)
Ltac tx_step :=
  eapply outcome_map_bind; [apply serial_data_tx_refines | intros [? ?]].

Lemma send_ack_refines w t s e :
  outcome_map ideal (send_ack w t s e) = send_ack (ideal w) t s e.
Proof. unfold send_ack. tx_step. done. Qed.

Definition ideal_config (c : option (serial_config * option U))
  : option (serial_config * option IdealUart) :=
  match c with
  | Some (cfg, Some u) => Some (cfg, Some (ideal_uart u))
  | Some (cfg, None) => Some (cfg, None)
  | None => None
  end.

Lemma serial_send_frame_refines config t e na p len :
  outcome_map (fun '(c, r) => (ideal_config c, r)) (serial_send_frame config t e na p len)
  = serial_send_frame (ideal_config config) t e na p len.
Proof.
  unfold serial_send_frame. destruct config as [[cfg [u|]]|]; [|done|done]. cbn.
  destruct (SERIAL_MAX_PAYLOAD_LEN <? len); [done|]. tx_step.
  eapply (outcome_map_bind ideal_uart); [|done].
  destruct p as [p|]; [|done]. destruct (0 <? len); [|done].
  destruct (zlen p <? len); [done|]. tx_step. done.
Qed.

Lemma dev_send_frame_refines w t e na p len :
  outcome_map (fun '(w', r) => (ideal w', r)) (dev_send_frame w t e na p len)
  = dev_send_frame (ideal w) t e na p len.
Proof.
  unfold dev_send_frame. eapply outcome_map_bind.
  - apply serial_send_frame_refines.
  - intros [[[? [?|]]|] ?]; done.
Qed.

Lemma handle_protocol_info_refines w :
  outcome_map ideal (handle_protocol_info w) = handle_protocol_info (ideal w).
Proof.
  unfold handle_protocol_info. eapply outcome_map_bind; [apply dev_send_frame_refines|].
  by intros [? ?].
Qed.

Lemma rx_header_byte_refines w b :
  outcome_map ideal (rx_header_byte w b) = rx_header_byte (ideal w) b.
Proof.
  unfold rx_header_byte. cbn [ideal d_cfg]. destruct (parsing_state (d_cfg w)); try done.
  cbv zeta. repeat split_if; try done. tx_step. done.
Qed.

Lemma rx_header_loop_refines fuel w :
  outcome_map ideal (rx_header_loop fuel w) = rx_header_loop fuel (ideal w).
Proof.
  revert w. induction fuel as [|fuel IH]; intros w; [done|]. cbn [rx_header_loop].
  cbn [ideal d_cfg d_uart]. case_bool_decide; [done|].
  destruct (uart_fifo_read (d_uart w) 1) as [u1 r] eqn:E.
  rewrite (read_refines_eq _ _ _ _ E).
  destruct r as [[|b [|]]|]; try done.
  eapply outcome_map_bind; [apply rx_header_byte_refines | done].
Qed.

Lemma uart_irq_callback_refines fuel w :
  outcome_map ideal (uart_irq_callback fuel w) = uart_irq_callback fuel (ideal w).
Proof.
  unfold uart_irq_callback. eapply outcome_map_bind; [apply rx_header_loop_refines|].
  intros w1. cbn [ideal d_cfg]. by case_bool_decide.
Qed.

Lemma read_discard_refines w n :
  (ideal (fst (read_discard w n)), snd (read_discard w n)) = read_discard (ideal w) n.
Proof.
  unfold read_discard. cbn [ideal d_cfg d_uart].
  destruct (uart_fifo_read (d_uart w) (Z.min n 64)) as [u1 r] eqn:E.
  rewrite (read_refines_eq _ _ _ _ E). by destruct r.
Qed.

Lemma work_protocol_info_refines w db :
  outcome_map ideal_flow (work_protocol_info w db) = work_protocol_info (ideal w) db.
Proof.
  unfold work_protocol_info. cbn [ideal d_cfg].
  rewrite <- read_discard_refines. destruct (read_discard w _) as [w1 [n|]]; cbn [fst snd]; [|done].
  cbn [ideal d_cfg]. split_if; [|done].
  eapply outcome_map_bind; [apply handle_protocol_info_refines | done].
Qed.

Lemma work_no_callback_refines w db :
  outcome_map ideal_flow (work_no_callback w db) = work_no_callback (ideal w) db.
Proof.
  unfold work_no_callback. cbn [ideal d_cfg].
  rewrite <- read_discard_refines. destruct (read_discard w _) as [w1 [n|]]; cbn [fst snd]; [|done].
  cbn [ideal d_cfg]. split_if; [|done].
  eapply outcome_map_bind; [apply send_ack_refines | done].
Qed.

Lemma work_packet_complete_refines cb w :
  outcome_map ideal (work_packet_complete cb w) = work_packet_complete cb (ideal w).
Proof.
  unfold work_packet_complete. cbn [ideal d_cfg d_cli].
  eapply (outcome_map_bind ideal); [|done]. split_if.
  - eapply outcome_map_bind; [apply send_ack_refines | done].
  - destruct (message_complete cb _ _) as [c2| |]; cbn; [|done|done].
    split_if; [apply send_ack_refines | done].
Qed.

Lemma work_client_refines cb w db :
  outcome_map ideal_flow (work_client cb w db) = work_client cb (ideal w) db.
Proof.
  unfold work_client. cbn [ideal d_cfg d_cli d_uart].
  destruct (acquire_buffer cb _ _) as [|stored].
  { eapply outcome_map_bind; [apply send_ack_refines | done]. }
  destruct (uart_fifo_read (d_uart w) _) as [u1 r] eqn:E.
  rewrite (read_refines_eq _ _ _ _ E).
  destruct r as [[|b bs]|]; try done.
  destruct (match stored with Some p => Some p | None => db end) as [p|]; [|done].
  destruct (buffer_store cb _ _ _) as [c1|]; [|done]. cbv zeta. cbn [d_cfg with_cfg].
  split_if; [|done].
  eapply outcome_map_bind; [apply work_packet_complete_refines | done].
Qed.

Lemma work_body_refines t cbs w db :
  outcome_map ideal_flow (work_body t cbs w db) = work_body t cbs (ideal w) db.
Proof.
  unfold work_body. repeat split_if.
  - apply work_protocol_info_refines.
  - apply work_no_callback_refines.
  - destruct cbs; [apply work_client_refines | apply work_no_callback_refines].
Qed.

Lemma work_loop_refines fuel t cbs w db :
  outcome_map ideal (work_loop fuel t cbs w db) = work_loop fuel t cbs (ideal w) db.
Proof.
  revert w db. induction fuel as [|fuel IH]; intros w db; [done|]. cbn [work_loop].
  cbn [ideal d_cfg]. split_if; [|done].
  eapply outcome_map_bind; [apply work_body_refines|].
  intros [w1 db1|w1]; cbn [ideal_flow]; [apply IH | done].
Qed.

Lemma serial_work_handler_refines fuel w :
  outcome_map ideal (serial_work_handler fuel w) = serial_work_handler fuel (ideal w).
Proof.
  unfold serial_work_handler. cbv zeta. cbn [ideal d_cfg with_cfg]. split_if.
  - eapply outcome_map_bind; [apply handle_protocol_info_refines | done].
  - eapply outcome_map_bind; [apply work_loop_refines|].
    intros w1. cbn. unfold ideal, ideal_uart. cbn. by rewrite enable_rx, enable_tx.
Qed.

Lemma dev_rx_event_refines fuel w :
  outcome_map ideal (dev_rx_event fuel w) = dev_rx_event fuel (ideal w).
Proof.
  unfold dev_rx_event. eapply outcome_map_bind; [apply uart_irq_callback_refines|].
  intros w1. cbn [ideal d_cfg]. split_if; [apply serial_work_handler_refines | done].
Qed.

Lemma dev_run_refines fuel w chunks :
  outcome_map ideal (dev_run fuel w chunks) = dev_run fuel (ideal w) chunks.
Proof.
  revert w. induction chunks as [|bs chunks IH]; intros w; [done|]. cbn [dev_run].
  eapply outcome_map_bind; [|apply IH].
  rewrite dev_rx_event_refines. do 2 f_equal. unfold dev_arrive, ideal, ideal_uart. cbn.
  by rewrite arrive_rx, arrive_tx.
Qed.

(** From a run on the ideal UART to a run on the platform. *)
Lemma ideal_run_lift (m : outcome (dev U C)) m' w' :
  outcome_map ideal m = m' -> m' = Ret w' -> exists w1, m = Ret w1 /\ ideal w1 = w'.
Proof. intros E ->. by apply outcome_map_Ret_inv in E. Qed.

End Refine.
