(* ===== verification/SerialProps.v ===== *)
(** * SerialProps: what the device side of the link does

    Behaviour of [serial.c] on every branch: header parsing, delivery of a frame
    and its acknowledgement, sequence errors, exhausted buffers, frames of a type
    nobody handles, protocol information, bytes that follow a frame.  Exact
    equations are established on [IdealUart] and lifted by [SerialRefine]. *)

From S2P Require Import Prelude Framing Platform Client SerialDev SerialRefine.
From Stdlib Require Import ZArith Lia.
From stdpp Require Import base list option numbers decidable.

Open Scope Z_scope.
Open Scope e80211_scope.

(** ** Frames on the wire *)

(** A device-to-host header as four bytes. *)
Definition dev_header_bytes (type error : Z) (no_ack : bool) (seq len : Z) : list Z :=
  bus_header_encode (mk_bus_header type no_ack true error 0 seq len).

(** An acknowledgement. *)
Definition ack_bytes (type seq error : Z) : list Z := dev_header_bytes type error false seq 0.

Lemma mk_tx_header_mem t e na s l :
  0 <= t < 16 -> 0 <= e < 4 -> 0 <= s < 16 -> 0 <= l < 65536 ->
  SerialHeader_mem (mk_tx_header t e na s l) = dev_header_bytes t e na s l.
Proof.
  intros. unfold mk_tx_header, dev_header_bytes, bitfield, u16.
  rewrite (Z.mod_small t), (Z.mod_small e), (Z.mod_small s), (Z.mod_small l) by lia.
  apply (SerialHeader_mem_encode (mk_SerialHeader t na true e 0 s l)).
  unfold SerialHeader_wf; cbn; lia.
Qed.

Lemma serial_seq_advance_next s : serial_seq_advance s = bus_seq_next s.
Proof. reflexivity. Qed.

(** ** Exact behaviour on the ideal UART *)

Section Ideal.
Context {C : Type} `{Mux C}.
Implicit Types (w : dev IdealUart C) (cfg : serial_config) (cli : C).

#[local] Abbreviation iw cfg rx tx us cli := (mk_dev cfg (mk_IdealUart rx tx us) cli).

Lemma send_ack_ideal cfg rx tx us cli t s e :
  0 <= t < 16 -> 0 <= e < 4 -> 0 <= s < 16 ->
  send_ack (iw cfg rx tx us cli) t s e = Ret (iw cfg rx (tx ++ ack_bytes t s e) us cli).
Proof.
  intros. unfold send_ack. cbn [d_uart]. rewrite serial_data_tx_ideal.
  cbn [outcome_bind]. by rewrite mk_tx_header_mem by lia.
Qed.

Lemma dev_send_frame_ideal cfg rx tx us cli t e na p :
  0 <= t < 16 -> 0 <= e < 4 -> 0 <= tx_sequence_number cfg < 16 ->
  zlen p <= SERIAL_MAX_PAYLOAD_LEN ->
  dev_send_frame (iw cfg rx tx us cli) t e na (Some p) (zlen p) =
  Ret (iw (with_tx_seq cfg (serial_seq_advance (tx_sequence_number cfg))) rx
         (tx ++ dev_header_bytes t e na (tx_sequence_number cfg) (zlen p) ++ p) us cli, 0).
Proof.
  unfold SERIAL_MAX_PAYLOAD_LEN. intros Ht He Hs Hp. pose proof (zlen_nonneg p).
  unfold dev_send_frame, serial_send_frame, SERIAL_MAX_PAYLOAD_LEN. cbn [d_cfg d_uart].
  rewrite (proj2 (Z.ltb_ge _ _)) by lia. rewrite serial_data_tx_ideal, mk_tx_header_mem by lia.
  cbn [outcome_bind].
  destruct (Z.ltb_spec 0 (zlen p)).
  - rewrite Z.ltb_irrefl, ztake_ge, serial_data_tx_ideal by lia.
    cbn [outcome_bind d_cli]. by rewrite <- app_assoc.
  - assert (p = []) as -> by (apply zlen_zero; lia). cbn [outcome_bind d_cli].
    by rewrite app_nil_r.
Qed.

(** State of the parser once a header is complete. *)
Definition header_done (h : SerialHeader) : ParsingState :=
  if sh_length h =? 0 then
    if sh_type h =? SERIAL_TYPE_PROTOCOL_INFO then PARSING_STATE_DATA else PARSING_STATE_TYPE
  else if SERIAL_MAX_PAYLOAD_LEN <? sh_length h then PARSING_STATE_TYPE
  else PARSING_STATE_DATA.

(** What a complete header makes the callback send. *)
Definition header_reply (h : SerialHeader) : list Z :=
  if SERIAL_MAX_PAYLOAD_LEN <? sh_length h
  then ack_bytes (sh_type h) (sh_sequence_number h) ERROR_TYPE_LENGTH_TOO_LONG else [].

Lemma SerialHeader_of_wire_wf h b0 b1 b2 b3 :
  SerialHeader_wf h -> bytes_ok [b0; b1; b2; b3] ->
  SerialHeader_wf (SerialHeader_of_wire h b0 b1 b2 b3).
Proof.
  intros Hh (? & ? & ? & ?)%bytes4_ok. apply SerialHeader_as_bus_wf.
  rewrite SerialHeader_of_wire_decode by (try apply Hh; done).
  by apply bus_header_decode_wf.
Qed.

(** One byte of header. *)
Lemma rx_header_loop_step fuel cfg b rest tx us cli :
  parsing_state cfg <> PARSING_STATE_DATA ->
  rx_header_loop (S fuel) (iw cfg (b :: rest) tx us cli) =
  (do! w1 <- rx_header_byte (iw cfg rest tx us cli) b; rx_header_loop fuel w1).
Proof.
  intros Hst. cbn [rx_header_loop]. by rewrite bool_decide_eq_false_2.
Qed.

(** Four header bytes drive the loop through its four states. *)
Lemma rx_header_loop_four fuel cfg b0 b1 b2 b3 rest tx us cli :
  parsing_state cfg = PARSING_STATE_TYPE ->
  SerialHeader_wf (serial_header cfg) -> bytes_ok [b0; b1; b2; b3] ->
  let h := SerialHeader_of_wire (serial_header cfg) b0 b1 b2 b3 in
  rx_header_loop (S (S (S (S fuel)))) (iw cfg (b0 :: b1 :: b2 :: b3 :: rest) tx us cli) =
  rx_header_loop fuel
    (iw (mk_serial_config (header_done h) h 0 (rx_sequence_number cfg)
           (tx_sequence_number cfg) (work_pending cfg)) rest (tx ++ header_reply h) us cli).
Proof.
  intros Hst Hh Hb h.
  pose proof (SerialHeader_of_wire_wf _ _ _ _ _ Hh Hb) as (Ht & _ & _ & Hq & _). fold h in Ht, Hq.
  destruct cfg as [st h0 n rs ts wp]. cbn in Hst. subst st.
  do 3 (rewrite rx_header_loop_step by done; unfold rx_header_byte at 1; dev_simpl).
  rewrite rx_header_loop_step by done; unfold rx_header_byte; dev_simpl.
  change (swap16 (length_set_high _ b3)) with (sh_length h).
  change (SerialHeader_set_length _ (sh_length h)) with h.
  change (sh_type (SerialHeader_set_length _ _)) with (sh_type h).
  change (sh_sequence_number (SerialHeader_set_length _ _)) with (sh_sequence_number h).
  cbv zeta. unfold header_done, header_reply.
  destruct (sh_length h =? 0) eqn:E0.
  - reflect_bools. rewrite (proj2 (Z.ltb_ge SERIAL_MAX_PAYLOAD_LEN _)) by (rewrite E0; done).
    rewrite app_nil_r. by split_if.
  - split_if; [|by rewrite app_nil_r].
    rewrite serial_data_tx_ideal, mk_tx_header_mem by (done || lia). done.
Qed.

(** With an empty FIFO the loop stops where it is. *)
Lemma rx_header_loop_empty fuel cfg tx us cli :
  rx_header_loop (S fuel) (iw cfg [] tx us cli) = Ret (iw cfg [] tx us cli).
Proof. cbn [rx_header_loop]. by case_bool_decide. Qed.

Lemma rx_header_loop_data fuel w :
  parsing_state (d_cfg w) = PARSING_STATE_DATA -> rx_header_loop (S fuel) w = Ret w.
Proof. intros E. cbn [rx_header_loop]. by rewrite bool_decide_eq_true_2. Qed.

(** *** The payload loop *)

Lemma read_ideal rx tx us n :
  uart_fifo_read (mk_IdealUart rx tx us) n
  = (mk_IdealUart (zdrop n rx) tx us, RdOk (ztake n rx)).
Proof. reflexivity. Qed.

(** The configuration after a frame: parser reset, expected sequence [q]. *)
Definition cfg_idle (cfg : serial_config) (q : Z) : serial_config :=
  mk_serial_config PARSING_STATE_TYPE (serial_header cfg) 0 q
    (tx_sequence_number cfg) (work_pending cfg).

(** The rest of the payload is in the FIFO: one iteration stores and completes it. *)
Lemma work_client_full cb cfg p rest tx us cli c1 off db :
  0 < zlen p -> sh_length (serial_header cfg) = bytes_read cfg + zlen p ->
  acquire_buffer cb cli (zlen p) = AcqOk (Some off) ->
  buffer_store cb cli (off + bytes_read cfg) p = Some c1 ->
  work_client cb (iw cfg (p ++ rest) tx us cli) db =
  (do! w2 <- work_packet_complete cb
       (iw (with_bytes_read cfg (bytes_read cfg + zlen p)) rest tx us c1);
   Ret (Continue w2 (Some off))).
Proof.
  intros Hp Hl Ha Hs. unfold work_client; dev_simpl.
  rewrite Hl, Z.add_simpl_l, Ha, read_ideal, ztake_app, zdrop_app by done.
  destruct p as [|b p]; [discriminate Hp|].
  rewrite Hs. dev_simpl. by rewrite Z.leb_refl.
Qed.

(** A proper part of it is in the FIFO: stored, and committed as a chunk. *)
Lemma work_client_part cb cfg q tx us cli c1 off db :
  0 < zlen q -> bytes_read cfg + zlen q < sh_length (serial_header cfg) ->
  acquire_buffer cb cli (sh_length (serial_header cfg) - bytes_read cfg) = AcqOk (Some off) ->
  buffer_store cb cli (off + bytes_read cfg) q = Some c1 ->
  work_client cb (iw cfg q tx us cli) db =
  Ret (Continue (iw (with_bytes_read cfg (bytes_read cfg + zlen q)) [] tx us
                   (commit_data cb c1 (zlen q))) (Some off)).
Proof.
  intros Hp Hl Ha Hs. unfold work_client; dev_simpl.
  rewrite Ha, read_ideal, ztake_ge, zdrop_ge by lia.
  destruct q as [|b q]; [discriminate Hp|].
  rewrite Hs. dev_simpl. by rewrite (proj2 (Z.leb_gt _ _)).
Qed.

(** The store leaves the client's buffer. *)
Lemma work_client_overflow cb cfg q tx us cli off db :
  0 < zlen q -> bytes_read cfg + zlen q <= sh_length (serial_header cfg) ->
  acquire_buffer cb cli (sh_length (serial_header cfg) - bytes_read cfg) = AcqOk (Some off) ->
  buffer_store cb cli (off + bytes_read cfg) q = None ->
  work_client cb (iw cfg q tx us cli) db = Fault.
Proof.
  intros Hp Hl Ha Hs. unfold work_client; dev_simpl.
  rewrite Ha, read_ideal, ztake_ge by lia.
  destruct q as [|b q]; [discriminate Hp|]. by rewrite Hs.
Qed.

(** No pointer was ever stored through [data]. *)
Lemma work_client_wild cb cfg rx tx us cli :
  0 < zlen rx -> bytes_read cfg < sh_length (serial_header cfg) ->
  acquire_buffer cb cli (sh_length (serial_header cfg) - bytes_read cfg) = AcqOk None ->
  work_client cb (iw cfg rx tx us cli) None = Fault.
Proof.
  intros Hp Hl Ha. unfold work_client; dev_simpl. rewrite Ha, read_ideal.
  set (n := sh_length (serial_header cfg) - bytes_read cfg).
  pose proof (zlen_ztake n rx) as Hz. destruct (ztake n rx) as [|b q]; [|done].
  change (zlen []) with 0 in Hz. subst n. lia.
Qed.

Lemma work_packet_complete_ok cb cfg rx tx us cli c2 :
  let h := serial_header cfg in
  rx_sequence_number cfg = sh_sequence_number h -> SerialHeader_wf h ->
  message_complete cb (commit_data cb cli (sh_length h)) (sh_length h) = Ret c2 ->
  work_packet_complete cb (iw cfg rx tx us cli) =
  Ret (iw (cfg_idle cfg (serial_seq_advance (rx_sequence_number cfg))) rx
         (tx ++ if sh_no_ack h then []
                else ack_bytes (sh_type h) (sh_sequence_number h) ERROR_TYPE_NO_ERROR) us c2).
Proof.
  intros h Hq (Ht & _ & _ & Hs & _) Hc. unfold work_packet_complete. dev_simpl. fold h.
  rewrite Hq, Z.eqb_refl. cbn [negb]. rewrite Hc. dev_simpl.
  destruct (sh_no_ack h); cbn [negb].
  - rewrite app_nil_r. done.
  - rewrite send_ack_ideal by (done || lia). done.
Qed.

Lemma work_packet_complete_bad_seq cb cfg rx tx us cli :
  let h := serial_header cfg in
  rx_sequence_number cfg <> sh_sequence_number h -> 0 <= rx_sequence_number cfg < 16 ->
  SerialHeader_wf h ->
  work_packet_complete cb (iw cfg rx tx us cli) =
  Ret (iw (cfg_idle cfg 0) rx
         (tx ++ ack_bytes (sh_type h) (rx_sequence_number cfg)
                  ERROR_TYPE_INCORRECT_SEQUENCE_NUMBER) us cli).
Proof.
  intros h Hq Hr (Ht & _). unfold work_packet_complete. dev_simpl. fold h.
  rewrite (proj2 (Z.eqb_neq _ _)) by done. cbn [negb].
  rewrite send_ack_ideal by (done || lia). done.
Qed.

(** The second pass: the buffer is acquired again and nothing is left to read. *)
Lemma work_client_drained cb cfg tx us cli db off :
  acquire_buffer cb cli (sh_length (serial_header cfg) - bytes_read cfg) = AcqOk off ->
  work_client cb (iw cfg [] tx us cli) db = Ret (Break (iw cfg [] tx us cli)).
Proof.
  intros Ha. unfold work_client; dev_simpl.
  rewrite Ha, read_ideal. unfold ztake, zdrop. by rewrite take_nil, drop_nil.
Qed.

(** The first pass finds no buffer: error acknowledgement, payload left unread. *)
Lemma work_client_no_buffer cb cfg rx tx us cli db :
  let h := serial_header cfg in
  SerialHeader_wf h ->
  acquire_buffer cb cli (sh_length h - bytes_read cfg) = AcqFail ->
  work_client cb (iw cfg rx tx us cli) db =
  Ret (Break (iw (cfg_idle cfg (rx_sequence_number cfg)) rx
        (tx ++ ack_bytes (sh_type h) (sh_sequence_number h) ERROR_TYPE_OUT_OF_BUFFERS) us cli)).
Proof.
  intros h (Ht & _ & _ & Hs & _) Ha. unfold work_client; dev_simpl. fold h. rewrite Ha.
  rewrite send_ack_ideal by (done || lia). done.
Qed.

(** The payload loop for a handled type. *)
Lemma work_loop_client fuel t cb w db :
  0 <= t < SERIAL_TYPE_UNKNOWN -> t <> SERIAL_TYPE_PROTOCOL_INFO ->
  bytes_read (d_cfg w) < sh_length (serial_header (d_cfg w)) ->
  work_loop (S fuel) t (Some cb) w db =
  (do! next <- work_client cb w db;
   match next with
   | Continue w1 db1 => work_loop fuel t (Some cb) w1 db1
   | Break w1 => Ret w1
   end).
Proof.
  unfold SERIAL_TYPE_UNKNOWN, SERIAL_TYPE_PROTOCOL_INFO. intros Ht Hn Hb. cbn [work_loop]. unfold work_body, SERIAL_TYPE_UNKNOWN, SERIAL_TYPE_PROTOCOL_INFO.
  decide_cmp. done.
Qed.

(** The work item for a handled type. *)
Lemma serial_work_handler_client fuel cb w :
  let h := serial_header (d_cfg w) in
  0 <= sh_type h < SERIAL_TYPE_UNKNOWN -> sh_type h <> SERIAL_TYPE_PROTOCOL_INFO ->
  get_callbacks (sh_type h) = Some cb ->
  serial_work_handler fuel w =
  work_loop fuel (sh_type h) (Some cb) (with_cfg w (with_work (d_cfg w) false)) None.
Proof.
  intros h Ht Hn Hg. unfold serial_work_handler. cbv zeta. dev_simpl. fold h. rewrite Hg.
  rewrite (proj2 (Z.eqb_neq _ _)) by done. cbn [andb].
  destruct (work_loop _ _ _ _ _) as [w1| |]; try done. cbn. by destruct w1.
Qed.

(** *** One RX event *)

(** A complete, acceptable header is followed by the work item. *)
Lemma dev_rx_event_header fuel cfg b0 b1 b2 b3 rest tx us cli :
  parsing_state cfg = PARSING_STATE_TYPE -> work_pending cfg = false ->
  SerialHeader_wf (serial_header cfg) -> bytes_ok [b0; b1; b2; b3] ->
  let h := SerialHeader_of_wire (serial_header cfg) b0 b1 b2 b3 in
  header_done h = PARSING_STATE_DATA ->
  dev_rx_event (5 + fuel) (iw cfg (b0 :: b1 :: b2 :: b3 :: rest) tx us cli) =
  serial_work_handler (5 + fuel)
    (iw (mk_serial_config PARSING_STATE_DATA h 0 (rx_sequence_number cfg)
           (tx_sequence_number cfg) true) rest tx us cli).
Proof.
  intros Hst Hwp Hh Hb h Hd. unfold dev_rx_event, uart_irq_callback.
  change (5 + fuel)%nat with (S (S (S (S (S fuel))))).
  rewrite rx_header_loop_four by done. fold h. rewrite Hd.
  replace (header_reply h) with (@nil Z); cycle 1.
  { unfold header_done, header_reply in *. destruct (sh_length h =? 0) eqn:E0.
    - reflect_bools. by rewrite E0.
    - by destruct (SERIAL_MAX_PAYLOAD_LEN <? sh_length h). }
  rewrite app_nil_r, rx_header_loop_data by done. cbn [outcome_bind].
  rewrite bool_decide_eq_true_2 by done. dev_simpl. done.
Qed.

(** A header that carries no work (a host ACK, or a length over the limit): the
    callback answers it and is ready for the next header. *)
Lemma dev_rx_event_no_data fuel cfg b0 b1 b2 b3 tx us cli :
  parsing_state cfg = PARSING_STATE_TYPE -> work_pending cfg = false ->
  SerialHeader_wf (serial_header cfg) -> bytes_ok [b0; b1; b2; b3] ->
  let h := SerialHeader_of_wire (serial_header cfg) b0 b1 b2 b3 in
  header_done h = PARSING_STATE_TYPE ->
  dev_rx_event (5 + fuel) (iw cfg [b0; b1; b2; b3] tx us cli) =
  Ret (iw (mk_serial_config PARSING_STATE_TYPE h 0 (rx_sequence_number cfg)
             (tx_sequence_number cfg) false) [] (tx ++ header_reply h) us cli).
Proof.
  intros Hst Hwp Hh Hb h Hd. unfold dev_rx_event, uart_irq_callback.
  change (5 + fuel)%nat with (S (S (S (S (S fuel))))).
  rewrite rx_header_loop_four by done. fold h. rewrite Hd, rx_header_loop_empty.
  cbn [outcome_bind]. rewrite bool_decide_eq_false_2 by done. dev_simpl. by rewrite Hwp.
Qed.

(** A frame of a handled type, alone in the FIFO, with a client that takes it. *)
Lemma work_handler_frame_ok fuel cb `{!FrameClient cb} cfg p tx us cli :
  let h := serial_header cfg in
  SerialHeader_wf h -> 0 <= sh_type h < SERIAL_TYPE_UNKNOWN ->
  sh_type h <> SERIAL_TYPE_PROTOCOL_INFO -> get_callbacks (sh_type h) = Some cb ->
  bytes_read cfg = 0 -> sh_length h = zlen p ->
  cl_ready cli -> 0 < zlen p <= cl_capacity ->
  rx_sequence_number cfg = sh_sequence_number h ->
  serial_work_handler (2 + fuel) (iw cfg p tx us cli) =
  Ret (iw (with_work (cfg_idle cfg (serial_seq_advance (rx_sequence_number cfg))) false) []
         (tx ++ if sh_no_ack h then []
                else ack_bytes (sh_type h) (sh_sequence_number h) ERROR_TYPE_NO_ERROR) us
         (cl_deliver cli p)).
Proof.
  cbv zeta. intros Hwf Ht Hn Hg Hb Hl Hr Hp Hq.
  destruct (cl_complete cli p Hr Hp) as (c1 & Hs & Hc).
  destruct (cl_reacquire cli p Hr Hp) as (off & Ha).
  rewrite (serial_work_handler_client _ cb) by done. cbn [d_cfg].
  change (2 + fuel)%nat with (S (S fuel)).
  rewrite work_loop_client by (done || (unfold cfg_idle; dev_simpl; lia)).
  unfold with_cfg. cbn [d_cfg d_uart d_cli]. rewrite <- (app_nil_r p) at 1.
  erewrite work_client_full;
    [|lia|dev_simpl; lia|by apply cl_acquire|dev_simpl; rewrite Hb; exact Hs].
  erewrite work_packet_complete_ok;
    [|done|done|cbn [serial_header with_bytes_read with_work]; rewrite Hl; exact Hc].
  cbn [outcome_bind].
  rewrite work_loop_client by (done || (unfold cfg_idle; dev_simpl; lia)).
  erewrite work_client_drained;
    [|unfold cfg_idle; dev_simpl; rewrite Hl, Z.sub_0_r; exact Ha].
  done.
Qed.

(** The same with an unexpected sequence number: nothing is committed. *)
Lemma work_handler_bad_seq fuel cb `{!FrameClient cb} cfg p tx us cli :
  let h := serial_header cfg in
  SerialHeader_wf h -> 0 <= sh_type h < SERIAL_TYPE_UNKNOWN ->
  sh_type h <> SERIAL_TYPE_PROTOCOL_INFO -> get_callbacks (sh_type h) = Some cb ->
  bytes_read cfg = 0 -> sh_length h = zlen p ->
  cl_ready cli -> 0 < zlen p <= cl_capacity ->
  0 <= rx_sequence_number cfg < 16 -> rx_sequence_number cfg <> sh_sequence_number h ->
  exists c1, buffer_store cb cli 0 p = Some c1 /\ cl_ready c1 /\
  serial_work_handler (2 + fuel) (iw cfg p tx us cli) =
  Ret (iw (with_work (cfg_idle cfg 0) false) []
         (tx ++ ack_bytes (sh_type h) (rx_sequence_number cfg)
                  ERROR_TYPE_INCORRECT_SEQUENCE_NUMBER) us c1).
Proof.
  cbv zeta. intros Hwf Ht Hn Hg Hb Hl Hr Hp Hq Hne.
  destruct (cl_complete cli p Hr Hp) as (c1 & Hs & _).
  pose proof (cl_store_ready _ _ _ Hr Hs) as Hr1.
  exists c1. split; [done|]. split; [done|].
  rewrite (serial_work_handler_client _ cb) by done. cbn [d_cfg].
  change (2 + fuel)%nat with (S (S fuel)).
  rewrite work_loop_client by (done || (unfold cfg_idle; dev_simpl; lia)).
  unfold with_cfg. cbn [d_cfg d_uart d_cli]. rewrite <- (app_nil_r p) at 1.
  erewrite work_client_full;
    [|lia|dev_simpl; lia|by apply cl_acquire|dev_simpl; rewrite Hb; exact Hs].
  rewrite work_packet_complete_bad_seq by done. cbn [outcome_bind].
  rewrite work_loop_client by (done || (unfold cfg_idle; dev_simpl; lia)).
  erewrite work_client_drained;
    [|unfold cfg_idle; dev_simpl; rewrite Hl, Z.sub_0_r; by apply cl_acquire].
  done.
Qed.

(** The protocol information query: the work item answers it and resets. *)
Lemma work_handler_protocol_info fuel cfg rx tx us cli :
  let h := serial_header cfg in
  sh_type h = SERIAL_TYPE_PROTOCOL_INFO -> sh_length h = 0 ->
  0 <= tx_sequence_number cfg < 16 ->
  serial_work_handler fuel (iw cfg rx tx us cli) =
  Ret (iw (mk_serial_config PARSING_STATE_TYPE (SerialHeader_set_length h 0) 0
             (rx_sequence_number cfg) (serial_seq_advance (tx_sequence_number cfg)) false) rx
         (tx ++ dev_header_bytes SERIAL_TYPE_PROTOCOL_INFO ERROR_TYPE_NO_ERROR false
                  (tx_sequence_number cfg) 4
             ++ [ SERIAL_PROTOCOL_VERSION; u8 (Z.land supported_types_mask 0xFF);
                  u8 (Z.land (Z.shiftr supported_types_mask 8) 0xFF); rx_sequence_number cfg ])
         us cli).
Proof.
  cbv zeta. intros Ht Hl Hs. unfold serial_work_handler. dev_simpl. rewrite Ht, Hl.
  change ((_ =? _) && (0 =? 0)) with true. cbn iota.
  unfold handle_protocol_info.
  rewrite (dev_send_frame_ideal _ _ _ _ _ _ _ _ [_; _; _; _]) by (dev_simpl; done || lia).
  dev_simpl. done.
Qed.
End Ideal.

(** ** The claims, on every platform *)

(** The header the device has parsed is the one that was encoded. *)
Lemma header_of_encode h bh :
  SerialHeader_wf h -> bus_header_wf bh ->
  exists b0 b1 b2 b3, bus_header_encode bh = [b0; b1; b2; b3] /\ bytes_ok [b0; b1; b2; b3] /\
    SerialHeader_as_bus (SerialHeader_of_wire h b0 b1 b2 b3) = bh.
Proof.
  intros Hh Hbh. destruct (bus_header_decode_of_encode bh Hbh) as (b0 & b1 & b2 & b3 & He & Hd).
  exists b0, b1, b2, b3. split; [done|].
  pose proof (bus_header_encode_bytes bh) as HB. rewrite He in HB. split; [done|].
  apply bytes4_ok in HB as (? & ? & ? & ?).
  rewrite SerialHeader_of_wire_decode by (apply Hh || done). done.
Qed.

Lemma SerialHeader_set_length_same h n : sh_length h = n -> SerialHeader_set_length h n = h.
Proof. destruct h. cbn. by intros ->. Qed.

(** A frame that carries data for a client. *)
Definition data_frame (bh : bus_header) (p : list Z) : Prop :=
  bus_header_wf bh /\ bh_length bh = zlen p /\ 0 < zlen p <= SERIAL_MAX_PAYLOAD_LEN /\
  0 <= bh_type bh < SERIAL_TYPE_UNKNOWN /\ bh_type bh <> SERIAL_TYPE_PROTOCOL_INFO.

Section Device.
Context {U C : Type} `{PL : PlatformLaws U} `{!TxReady U} `{Mux C}.

(** The device waits for a header. *)
Definition dev_idle (w : dev U C) : Prop :=
  parsing_state (d_cfg w) = PARSING_STATE_TYPE /\ work_pending (d_cfg w) = false /\
  SerialHeader_wf (serial_header (d_cfg w)) /\
  0 <= rx_sequence_number (d_cfg w) < 16 /\ 0 <= tx_sequence_number (d_cfg w) < 16.

(** The device after a frame with header [bh]: waiting again, with the given
    sequence numbers. *)
Definition dev_waits (w : dev U C) (bh : bus_header) (rx_seq tx_seq : Z) : Prop :=
  parsing_state (d_cfg w) = PARSING_STATE_TYPE /\ work_pending (d_cfg w) = false /\
  bytes_read (d_cfg w) = 0 /\ SerialHeader_as_bus (serial_header (d_cfg w)) = bh /\
  rx_sequence_number (d_cfg w) = rx_seq /\ tx_sequence_number (d_cfg w) = tx_seq.

Definition dev_sent (w w' : dev U C) (bs : list Z) : Prop :=
  tx_wire (d_uart w') = tx_wire (d_uart w) ++ bs.

(** What a run on the ideal UART says about the run on the platform. *)
Lemma dev_rx_event_lift fuel w cfg rx tx us cli :
  dev_rx_event fuel (ideal w) = Ret (mk_dev cfg (mk_IdealUart rx tx us) cli) ->
  exists w', dev_rx_event fuel w = Ret w' /\ d_cfg w' = cfg /\ d_cli w' = cli /\
    rx_fifo (d_uart w') = rx /\ tx_wire (d_uart w') = tx.
Proof.
  intros E. destruct (ideal_run_lift _ _ _ (dev_rx_event_refines fuel w) E) as (w1 & -> & Hi).
  injection Hi as <- <- <- _ <-. exists w1. done.
Qed.

(** A header of a data-carrying frame in the FIFO: the event parses it and runs
    the work item on the payload. *)
Lemma dev_rx_event_frame fuel w bh p :
  dev_idle w -> data_frame bh p -> rx_fifo (d_uart w) = bus_header_encode bh ++ p ->
  exists h, SerialHeader_as_bus h = bh /\
    dev_rx_event (5 + fuel) (ideal w) =
    serial_work_handler (5 + fuel)
      (mk_dev (mk_serial_config PARSING_STATE_DATA h 0 (rx_sequence_number (d_cfg w))
                 (tx_sequence_number (d_cfg w)) true)
              (mk_IdealUart p (tx_wire (d_uart w)) 0) (d_cli w)).
Proof.
  intros (Hst & Hwp & Hh & _) (Hbw & Hl & Hp & Ht & Hn) Hrx.
  destruct (header_of_encode _ _ Hh Hbw) as (b0 & b1 & b2 & b3 & He & Hb & Hd).
  exists (SerialHeader_of_wire (serial_header (d_cfg w)) b0 b1 b2 b3). split; [done|].
  unfold ideal, ideal_uart. rewrite Hrx, He. cbn [app].
  apply dev_rx_event_header; try done.
  apply (f_equal bh_length) in Hd. cbn [SerialHeader_as_bus bh_length] in Hd.
  unfold header_done, SERIAL_MAX_PAYLOAD_LEN in *. rewrite Hd, Hl. by decide_cmp.
Qed.

Lemma dev_rx_event_delivers (cb : client_ops C) `{!FrameClient cb} (fuel : nat)
    (w : dev U C) (bh : bus_header) (p : list Z) :
  dev_idle w -> data_frame bh p -> get_callbacks (bh_type bh) = Some cb ->
  rx_fifo (d_uart w) = bus_header_encode bh ++ p ->
  cl_ready (d_cli w) -> zlen p <= cl_capacity ->
  bh_seq bh = rx_sequence_number (d_cfg w) ->
  exists w', dev_rx_event (5 + fuel) w = Ret w' /\
    d_cli w' = cl_deliver (d_cli w) p /\
    dev_waits w' bh (bus_seq_next (bh_seq bh)) (tx_sequence_number (d_cfg w)) /\
    rx_fifo (d_uart w') = [] /\
    dev_sent w w' (if bh_no_ack bh then []
                   else ack_bytes (bh_type bh) (bh_seq bh) ERROR_TYPE_NO_ERROR).
Proof.
  intros Hi Hf Hg Hrx Hr Hc Hq.
  destruct (dev_rx_event_frame fuel w bh p Hi Hf Hrx) as (h & <- & E).
  destruct Hf as (Hbw & Hl & Hp & Ht & Hn). unfold SerialHeader_as_bus in *; cbn [bh_type bh_length bh_seq bh_no_ack] in *.
  change (5 + fuel)%nat with (2 + (3 + fuel))%nat in E at 2.
  rewrite (work_handler_frame_ok _ cb) in E by (cbn; done || lia).
  apply dev_rx_event_lift in E as (w' & -> & Hcfg & Hcl & Hr' & Htx).
  exists w'. split; [done|]. split; [done|]. split; [|done].
  unfold dev_waits. rewrite Hcfg. by repeat split; try (rewrite Hq).
Qed.

(** C6. Delivery: a frame of a handled type with the expected sequence number,
    alone in the FIFO, is given to its client exactly once and as it was sent;
    it is acknowledged with its own sequence number exactly when the sender did
    not set [no_ack]; the expected sequence number advances and the parser waits
    for the next header. *)
Theorem device_receives_frame (cb : client_ops C) `{!FrameClient cb} (fuel : nat)
    (w : dev U C) (bh : bus_header) (p : list Z) :
  dev_idle w -> data_frame bh p -> get_callbacks (bh_type bh) = Some cb ->
  rx_fifo (d_uart w) = bus_header_encode bh ++ p ->
  cl_ready (d_cli w) -> zlen p <= cl_capacity ->
  bh_seq bh = rx_sequence_number (d_cfg w) ->
  exists w', dev_rx_event (5 + fuel) w = Ret w' /\
    d_cli w' = cl_deliver (d_cli w) p /\
    dev_waits w' bh (bus_seq_next (bh_seq bh)) (tx_sequence_number (d_cfg w)) /\
    rx_fifo (d_uart w') = [] /\
    dev_sent w w' (if bh_no_ack bh then []
                   else ack_bytes (bh_type bh) (bh_seq bh) ERROR_TYPE_NO_ERROR).
Proof. by apply dev_rx_event_delivers. Qed.

Lemma dev_rx_event_bad_seq (cb : client_ops C) `{!FrameClient cb} (fuel : nat)
    (w : dev U C) (bh : bus_header) (p : list Z) :
  dev_idle w -> data_frame bh p -> get_callbacks (bh_type bh) = Some cb ->
  rx_fifo (d_uart w) = bus_header_encode bh ++ p ->
  cl_ready (d_cli w) -> zlen p <= cl_capacity ->
  bh_seq bh <> rx_sequence_number (d_cfg w) ->
  exists w', dev_rx_event (5 + fuel) w = Ret w' /\
    buffer_store cb (d_cli w) 0 p = Some (d_cli w') /\ cl_ready (d_cli w') /\
    dev_waits w' bh 0 (tx_sequence_number (d_cfg w)) /\
    rx_fifo (d_uart w') = [] /\
    dev_sent w w' (ack_bytes (bh_type bh) (rx_sequence_number (d_cfg w))
                     ERROR_TYPE_INCORRECT_SEQUENCE_NUMBER).
Proof.
  intros Hi Hf Hg Hrx Hr Hc Hq.
  destruct (dev_rx_event_frame fuel w bh p Hi Hf Hrx) as (h & <- & E).
  destruct Hi as (_ & _ & _ & Hseq & _).
  destruct Hf as (Hbw & Hl & Hp & Ht & Hn). unfold SerialHeader_as_bus in *; cbn [bh_type bh_length bh_seq bh_no_ack] in *.
  change (5 + fuel)%nat with (2 + (3 + fuel))%nat in E at 2.
  edestruct (work_handler_bad_seq (3 + fuel) cb) as (c1 & Hs & Hr1 & E1); cycle -1.
  { rewrite E1 in E. apply dev_rx_event_lift in E as (w' & -> & Hcfg & <- & Hr' & Htx).
    exists w'. split; [done|]. split; [done|]. split; [done|].
    split; [|done]. unfold dev_waits. by rewrite Hcfg. }
  all: try done; cbn; done || lia.
Qed.

(** C7. Sequence error: a frame with another sequence number than the expected
    one is not committed to the client (its bytes only reached the client's
    buffer), it is answered with [ERROR_TYPE_INCORRECT_SEQUENCE_NUMBER] carrying
    the number the device expected, whatever [no_ack] says, and the device
    expects 0 from then on. *)
Theorem device_rejects_bad_sequence (cb : client_ops C) `{!FrameClient cb} (fuel : nat)
    (w : dev U C) (bh : bus_header) (p : list Z) :
  dev_idle w -> data_frame bh p -> get_callbacks (bh_type bh) = Some cb ->
  rx_fifo (d_uart w) = bus_header_encode bh ++ p ->
  cl_ready (d_cli w) -> zlen p <= cl_capacity ->
  bh_seq bh <> rx_sequence_number (d_cfg w) ->
  exists w', dev_rx_event (5 + fuel) w = Ret w' /\
    buffer_store cb (d_cli w) 0 p = Some (d_cli w') /\ cl_ready (d_cli w') /\
    dev_waits w' bh 0 (tx_sequence_number (d_cfg w)) /\
    rx_fifo (d_uart w') = [] /\
    dev_sent w w' (ack_bytes (bh_type bh) (rx_sequence_number (d_cfg w))
                     ERROR_TYPE_INCORRECT_SEQUENCE_NUMBER).
Proof. by apply dev_rx_event_bad_seq. Qed.

Lemma dev_rx_event_no_buffer (cb : client_ops C) (fuel : nat)
    (w : dev U C) (bh : bus_header) (p : list Z) :
  dev_idle w -> data_frame bh p -> get_callbacks (bh_type bh) = Some cb ->
  rx_fifo (d_uart w) = bus_header_encode bh ++ p ->
  acquire_buffer cb (d_cli w) (zlen p) = AcqFail ->
  exists w', dev_rx_event (5 + fuel) w = Ret w' /\
    d_cli w' = d_cli w /\
    dev_waits w' bh (rx_sequence_number (d_cfg w)) (tx_sequence_number (d_cfg w)) /\
    rx_fifo (d_uart w') = p /\
    dev_sent w w' (ack_bytes (bh_type bh) (bh_seq bh) ERROR_TYPE_OUT_OF_BUFFERS).
Proof.
  intros Hi Hf Hg Hrx Ha.
  destruct (dev_rx_event_frame fuel w bh p Hi Hf Hrx) as (h & <- & E).
  destruct Hf as (Hbw & Hl & Hp & Ht & Hn). unfold SerialHeader_as_bus in *; cbn [bh_type bh_length bh_seq bh_no_ack] in *.
  rewrite (serial_work_handler_client _ cb) in E by (done || (cbn; lia)).
  change (5 + fuel)%nat with (S (4 + fuel)) in E at 2. rewrite work_loop_client in E by (done || (cbn; lia)).
  unfold with_cfg in E; cbn [d_cfg d_uart d_cli] in E.
  rewrite (work_client_no_buffer cb) in E by (done || (cbn; by rewrite Z.sub_0_r, Hl)).
  apply dev_rx_event_lift in E as (w' & -> & Hcfg & Hcl & Hr' & Htx).
  exists w'. split; [done|]. split; [done|]. split; [|done].
  unfold dev_waits. by rewrite Hcfg.
Qed.

(** C8. No buffer: when the client cannot give a buffer for the announced length
    the frame is answered with [ERROR_TYPE_OUT_OF_BUFFERS] and its own sequence
    number, and client and sequence state are untouched.  The payload stays in
    the FIFO while the parser already waits for a header: its bytes are read as
    the next frame. *)
Theorem device_out_of_buffers (cb : client_ops C) (fuel : nat)
    (w : dev U C) (bh : bus_header) (p : list Z) :
  dev_idle w -> data_frame bh p -> get_callbacks (bh_type bh) = Some cb ->
  rx_fifo (d_uart w) = bus_header_encode bh ++ p ->
  acquire_buffer cb (d_cli w) (zlen p) = AcqFail ->
  exists w', dev_rx_event (5 + fuel) w = Ret w' /\
    d_cli w' = d_cli w /\
    dev_waits w' bh (rx_sequence_number (d_cfg w)) (tx_sequence_number (d_cfg w)) /\
    rx_fifo (d_uart w') = p /\
    dev_sent w w' (ack_bytes (bh_type bh) (bh_seq bh) ERROR_TYPE_OUT_OF_BUFFERS).
Proof. by apply dev_rx_event_no_buffer. Qed.

Lemma dev_rx_event_header_only (fuel : nat) (w : dev U C) (bh : bus_header) :
  dev_idle w -> bus_header_wf bh -> rx_fifo (d_uart w) = bus_header_encode bh ->
  bh_length bh = 0 /\ bh_type bh <> SERIAL_TYPE_PROTOCOL_INFO \/
  SERIAL_MAX_PAYLOAD_LEN < bh_length bh ->
  exists w', dev_rx_event (5 + fuel) w = Ret w' /\
    d_cli w' = d_cli w /\
    dev_waits w' bh (rx_sequence_number (d_cfg w)) (tx_sequence_number (d_cfg w)) /\
    rx_fifo (d_uart w') = [] /\
    dev_sent w w' (if bh_length bh =? 0 then []
                   else ack_bytes (bh_type bh) (bh_seq bh) ERROR_TYPE_LENGTH_TOO_LONG).
Proof.
  intros (Hst & Hwp & Hh & _) Hbw Hrx Hcase.
  destruct (header_of_encode _ _ Hh Hbw) as (b0 & b1 & b2 & b3 & He & Hb & Hd).
  assert (header_done (SerialHeader_of_wire (serial_header (d_cfg w)) b0 b1 b2 b3)
          = PARSING_STATE_TYPE) as Hdone.
  { rewrite <- Hd in Hcase. unfold header_done, SERIAL_MAX_PAYLOAD_LEN in *.
    cbn [SerialHeader_as_bus bh_length bh_type] in Hcase.
    destruct Hcase as [[-> Hn]|Hl]; decide_cmp; done. }
  pose proof (dev_rx_event_no_data fuel _ b0 b1 b2 b3 (tx_wire (d_uart w)) 0 (d_cli w)
                Hst Hwp Hh Hb Hdone) as E.
  rewrite <- He, <- Hrx in E. apply dev_rx_event_lift in E as (w' & -> & Hcfg & Hcl & Hr' & Htx).
  exists w'. split; [done|]. split; [done|]. split; [|split; [done|]].
  - unfold dev_waits. rewrite Hcfg. done.
  - unfold dev_sent. rewrite Htx. f_equal. rewrite <- Hd in Hcase |- *.
    unfold header_reply, SERIAL_MAX_PAYLOAD_LEN in *.
    cbn [SerialHeader_as_bus bh_length bh_type bh_seq] in *.
    destruct Hcase as [[-> _]|Hl]; decide_cmp; done.
Qed.

(** Headers without data: a zero-length frame of any type but PROTOCOL_INFO (the
    host's acknowledgements) is dropped without an answer; a length over
    [SERIAL_MAX_PAYLOAD_LEN] is answered with [ERROR_TYPE_LENGTH_TOO_LONG] and
    the frame's own sequence number.  Neither changes a sequence number or
    reaches a client. *)
Theorem device_header_only (fuel : nat) (w : dev U C) (bh : bus_header) :
  dev_idle w -> bus_header_wf bh -> rx_fifo (d_uart w) = bus_header_encode bh ->
  bh_length bh = 0 /\ bh_type bh <> SERIAL_TYPE_PROTOCOL_INFO \/
  SERIAL_MAX_PAYLOAD_LEN < bh_length bh ->
  exists w', dev_rx_event (5 + fuel) w = Ret w' /\
    d_cli w' = d_cli w /\
    dev_waits w' bh (rx_sequence_number (d_cfg w)) (tx_sequence_number (d_cfg w)) /\
    rx_fifo (d_uart w') = [] /\
    dev_sent w w' (if bh_length bh =? 0 then []
                   else ack_bytes (bh_type bh) (bh_seq bh) ERROR_TYPE_LENGTH_TOO_LONG).
Proof. by apply dev_rx_event_header_only. Qed.

Lemma dev_rx_event_info (fuel : nat) (w : dev U C) (bh : bus_header) :
  dev_idle w -> bus_header_wf bh -> rx_fifo (d_uart w) = bus_header_encode bh ->
  bh_type bh = SERIAL_TYPE_PROTOCOL_INFO -> bh_length bh = 0 ->
  exists w', dev_rx_event (5 + fuel) w = Ret w' /\
    d_cli w' = d_cli w /\
    dev_waits w' bh (rx_sequence_number (d_cfg w)) (bus_seq_next (tx_sequence_number (d_cfg w))) /\
    rx_fifo (d_uart w') = [] /\
    dev_sent w w'
      (dev_header_bytes SERIAL_TYPE_PROTOCOL_INFO ERROR_TYPE_NO_ERROR false
         (tx_sequence_number (d_cfg w)) 4
       ++ [ SERIAL_PROTOCOL_VERSION; u8 (Z.land supported_types_mask 0xFF);
            u8 (Z.land (Z.shiftr supported_types_mask 8) 0xFF);
            rx_sequence_number (d_cfg w) ]).
Proof.
  intros (Hst & Hwp & Hh & Hrs & Hts) Hbw Hrx Ht Hl.
  destruct (header_of_encode _ _ Hh Hbw) as (b0 & b1 & b2 & b3 & He & Hb & Hd).
  rewrite <- Hd in Ht, Hl. cbn [SerialHeader_as_bus bh_length bh_type] in Ht, Hl.
  assert (header_done (SerialHeader_of_wire (serial_header (d_cfg w)) b0 b1 b2 b3)
          = PARSING_STATE_DATA) as Hdone by (unfold header_done; by rewrite Hl, Ht).
  pose proof (dev_rx_event_header fuel _ b0 b1 b2 b3 [] (tx_wire (d_uart w)) 0 (d_cli w)
                Hst Hwp Hh Hb Hdone) as E.
  rewrite work_handler_protocol_info in E by done.
  rewrite <- He, <- Hrx in E. apply dev_rx_event_lift in E as (w' & -> & Hcfg & Hcl & Hr' & Htx).
  exists w'. split; [done|]. split; [done|]. split; [|done].
  unfold dev_waits. rewrite Hcfg, <- Hd. cbn [serial_header].
  by rewrite SerialHeader_set_length_same.
Qed.

(** Protocol information: a PROTOCOL_INFO header with length 0 is answered with
    a four-byte frame (protocol version, supported-types mask in little-endian
    order, next expected sequence number) under the device's own transmit
    sequence number, which advances; no client is involved. *)
Theorem device_answers_protocol_info (fuel : nat) (w : dev U C) (bh : bus_header) :
  dev_idle w -> bus_header_wf bh -> rx_fifo (d_uart w) = bus_header_encode bh ->
  bh_type bh = SERIAL_TYPE_PROTOCOL_INFO -> bh_length bh = 0 ->
  exists w', dev_rx_event (5 + fuel) w = Ret w' /\
    d_cli w' = d_cli w /\
    dev_waits w' bh (rx_sequence_number (d_cfg w)) (bus_seq_next (tx_sequence_number (d_cfg w))) /\
    rx_fifo (d_uart w') = [] /\
    dev_sent w w'
      (dev_header_bytes SERIAL_TYPE_PROTOCOL_INFO ERROR_TYPE_NO_ERROR false
         (tx_sequence_number (d_cfg w)) 4
       ++ [ SERIAL_PROTOCOL_VERSION; u8 (Z.land supported_types_mask 0xFF);
            u8 (Z.land (Z.shiftr supported_types_mask 8) 0xFF);
            rx_sequence_number (d_cfg w) ]).
Proof. by apply dev_rx_event_info. Qed.

End Device.
