(* ===== verification/SerialSpec.v ===== *)
(** * SerialSpec: the receiver of the link, frame by frame

    What the host may rely on when it sends frames to the device, without bytes,
    interrupts, parser states or buffers: a receiver that expects a sequence
    number, numbers its own frames and hands payloads to its clients.  [serial.c]
    implements it: over any sequence of frames it accepts, the device ends in the
    state and sends the answers that the receiver's rules give. *)

From S2P Require Import Prelude Framing Platform Client SerialDev SerialRefine SerialProps.
From Stdlib Require Import ZArith Lia.
From stdpp Require Import base list option numbers decidable.

Open Scope Z_scope.
Open Scope e80211_scope.

(** A frame: header fields and payload. *)
Abbreviation frame := (bus_header * list Z)%type.

Definition frame_wire (f : frame) : list Z := bus_header_encode (fst f) ++ snd f.

(** The frames the device sends by itself: from the device, not a host frame. *)
Definition ack_frame (type seq error : Z) : frame := (mk_bus_header type false true error 0 seq 0, []).

Record receiver (C : Type) : Type := mk_receiver {
  r_expected : Z;      (* sequence number of the next data frame *)
  r_next : Z;          (* sequence number of its own next frame *)
  r_client : C
}.
Arguments mk_receiver {C} _ _ _.
Arguments r_expected {C} _.
Arguments r_next {C} _.
Arguments r_client {C} _.

Section Receiver.
Context {C : Type} `{Mux C}.

(** The answer to a query: version, mask of the types, expected number. *)
Definition info_frame (r : receiver C) : frame :=
  (mk_bus_header SERIAL_TYPE_PROTOCOL_INFO false true ERROR_TYPE_NO_ERROR 0 (r_next r) 4,
   [SERIAL_PROTOCOL_VERSION; supported_types_mask mod 256; supported_types_mask / 256 mod 256; r_expected r]).

(** One frame: the receiver afterwards and its answers. *)
Inductive receives (r : receiver C) : frame -> receiver C -> list frame -> Prop :=
| receives_data cb (F : FrameClient cb) bh p :
    data_frame bh p -> get_callbacks (bh_type bh) = Some cb ->
    cl_ready (r_client r) -> zlen p <= cl_capacity -> bh_seq bh = r_expected r ->
    receives r (bh, p)
      (mk_receiver ((r_expected r + 1) mod 16) (r_next r) (cl_deliver (r_client r) p))
      (if bh_no_ack bh then [] else [ack_frame (bh_type bh) (bh_seq bh) ERROR_TYPE_NO_ERROR])
| receives_wrong_number cb (F : FrameClient cb) bh p c :
    data_frame bh p -> get_callbacks (bh_type bh) = Some cb ->
    cl_ready (r_client r) -> zlen p <= cl_capacity -> bh_seq bh <> r_expected r ->
    buffer_store cb (r_client r) 0 p = Some c ->
    receives r (bh, p) (mk_receiver 0 (r_next r) c)
      [ack_frame (bh_type bh) (r_expected r) ERROR_TYPE_INCORRECT_SEQUENCE_NUMBER]
| receives_ack bh :
    bus_header_wf bh -> bh_length bh = 0 -> bh_type bh <> SERIAL_TYPE_PROTOCOL_INFO ->
    receives r (bh, []) r []
| receives_too_long bh :
    bus_header_wf bh -> SERIAL_MAX_PAYLOAD_LEN < bh_length bh ->
    receives r (bh, []) r [ack_frame (bh_type bh) (bh_seq bh) ERROR_TYPE_LENGTH_TOO_LONG]
| receives_query bh :
    bus_header_wf bh -> bh_length bh = 0 -> bh_type bh = SERIAL_TYPE_PROTOCOL_INFO ->
    receives r (bh, []) (mk_receiver (r_expected r) ((r_next r + 1) mod 16) (r_client r)) [info_frame r].

(** Any number of frames, one after the other. *)
Inductive receives_all (r : receiver C) : list frame -> receiver C -> list frame -> Prop :=
| receives_none : receives_all r [] r []
| receives_more f fs r1 r2 out outs :
    receives r f r1 out -> receives_all r1 fs r2 outs -> receives_all r (f :: fs) r2 (out ++ outs).

End Receiver.

Section Refinement.
Context {U C : Type} `{PL : PlatformLaws U} `{!TxReady U} `{Mux C}.

(** The device stands for a receiver: between frames, nothing waiting. *)
Record represents (w : dev U C) (r : receiver C) : Prop := {
  rp_idle : dev_idle w;
  rp_fifo : rx_fifo (d_uart w) = [];
  rp_expected : rx_sequence_number (d_cfg w) = r_expected r;
  rp_next : tx_sequence_number (d_cfg w) = r_next r;
  rp_client : d_cli w = r_client r
}.

(** After a frame the device represents the receiver with its numbers. *)
Lemma waits_represents (w w' : dev U C) bh q n :
  dev_idle w -> bus_header_wf bh -> 0 <= q < 16 -> 0 <= n < 16 ->
  dev_waits w' bh q n -> rx_fifo (d_uart w') = [] ->
  represents w' (mk_receiver q n (d_cli w')).
Proof.
  intros _ Hbw Hq Hn (Hst & Hwp & _ & Hbh & Hrq & Htq) Hrx.
  split; try done. split; [done|]. split; [done|].
  split; [apply SerialHeader_as_bus_wf; by rewrite Hbh|]. by rewrite Hrq, Htq.
Qed.

(** Arrival of a frame at a device between frames. *)
Lemma arrive_idle (w : dev U C) r f :
  represents w r ->
  dev_idle (dev_arrive w (frame_wire f)) /\ rx_fifo (d_uart (dev_arrive w (frame_wire f))) = frame_wire f /\
  d_cfg (dev_arrive w (frame_wire f)) = d_cfg w /\ d_cli (dev_arrive w (frame_wire f)) = d_cli w /\
  tx_wire (d_uart (dev_arrive w (frame_wire f))) = tx_wire (d_uart w).
Proof.
  intros [Hi Hf _ _ _]. split; [exact Hi|]. cbn. by rewrite arrive_rx, arrive_tx, Hf.
Qed.

Lemma ack_frame_wire t s e : frame_wire (ack_frame t s e) = ack_bytes t s e.
Proof. unfold frame_wire. cbn [fst snd ack_frame]. by rewrite app_nil_r. Qed.

Lemma info_frame_wire (r : receiver C) :
  frame_wire (info_frame r)
  = dev_header_bytes SERIAL_TYPE_PROTOCOL_INFO ERROR_TYPE_NO_ERROR false (r_next r) 4
    ++ [SERIAL_PROTOCOL_VERSION; u8 (Z.land supported_types_mask 0xFF);
        u8 (Z.land (Z.shiftr supported_types_mask 8) 0xFF); r_expected r].
Proof.
  unfold frame_wire, info_frame, dev_header_bytes, u8. cbn [fst snd]. do 3 f_equal.
  - rewrite (Z.land_ones _ 8) by done. by rewrite Z.mod_mod.
  - f_equal. rewrite (Z.land_ones _ 8), Z.shiftr_div_pow2 by done. by rewrite Z.mod_mod.
Qed.

Lemma device_receives (fuel : nat) (w : dev U C) r f r' out :
  receives r f r' out -> represents w r ->
  exists w', dev_rx_event (5 + fuel) (dev_arrive w (frame_wire f)) = Ret w' /\ represents w' r' /\
    tx_wire (d_uart w') = tx_wire (d_uart w) ++ concat (map frame_wire out).
Proof.
  intros Hstep Hw. destruct (arrive_idle w r f Hw) as (Hi & Hrx & Hcfg & Hcl & Htx).
  pose proof Hi as (_ & _ & _ & Hq & Hn). destruct Hw as [_ _ He Hx Hc]. set (w1 := dev_arrive _ _) in *.
  rewrite Hcfg in *. rewrite He in *. rewrite Hx in *. rewrite Hc in *.
  destruct Hstep as [cb F bh p Hf Hg Hr Hcap Hs|cb F bh p c Hf Hg Hr Hcap Hs Hst|bh Hb Hl Ht|bh Hb Hl|bh Hb Hl Ht].
  - pose proof (bus_seq_next_range (bh_seq bh) ltac:(lia)).
    destruct (dev_rx_event_delivers cb fuel w1 bh p) as (w' & -> & Hd & Hwt & Hr' & Ht);
      rewrite ?Hcfg, ?Hcl, ?He; try done.
    exists w'. split; [done|]. rewrite Hcfg, Hx in Hwt. rewrite Hcl in Hd.
    split.
    + rewrite <- Hd, <- Hs, <- bus_seq_next_mod by lia.
      apply (waits_represents w1 w' bh); try done; [apply Hf | lia..].
    + unfold dev_sent in Ht. rewrite Ht, Htx. f_equal. destruct (bh_no_ack bh); [done|].
      cbn [map concat]. by rewrite ack_frame_wire, app_nil_r.
  - destruct (dev_rx_event_bad_seq cb fuel w1 bh p) as (w' & -> & Hd & _ & Hwt & Hr' & Ht);
      rewrite ?Hcfg, ?Hcl, ?He; try done.
    exists w'. split; [done|]. rewrite Hcfg, Hx in Hwt. rewrite Hcl, Hst in Hd. injection Hd as ->.
    split; [apply (waits_represents w1 w' bh); try done; apply Hf|].
    unfold dev_sent in Ht. rewrite Ht, Htx, Hcfg, He. cbn [map concat]. by rewrite ack_frame_wire, app_nil_r.
  - destruct (dev_rx_event_header_only fuel w1 bh) as (w' & -> & Hd & Hwt & Hr' & Hs); try done;
      [by left |].
    exists w'. split; [done|]. rewrite Hcfg, He, Hx in Hwt. rewrite Hcl in Hd.
    split; [destruct r; cbn in *; rewrite <- Hd; by apply (waits_represents w1 w' bh)|].
    unfold dev_sent in Hs. by rewrite Hs, Htx, Hl.
  - destruct (dev_rx_event_header_only fuel w1 bh) as (w' & -> & Hd & Hwt & Hr' & Hs); try done;
      [by right |].
    exists w'. split; [done|]. rewrite Hcfg, He, Hx in Hwt. rewrite Hcl in Hd.
    split; [destruct r; cbn in *; rewrite <- Hd; by apply (waits_represents w1 w' bh)|].
    unfold dev_sent in Hs. rewrite Hs, Htx. unfold SERIAL_MAX_PAYLOAD_LEN in Hl.
    rewrite (proj2 (Z.eqb_neq (bh_length bh) 0)) by lia. cbn [map concat]. by rewrite ack_frame_wire, app_nil_r.
  - pose proof (bus_seq_next_range (r_next r) ltac:(lia)).
    destruct (dev_rx_event_info fuel w1 bh) as (w' & -> & Hd & Hwt & Hr' & Hs); try done.
    exists w'. split; [done|]. rewrite Hcfg, He, Hx in Hwt. rewrite Hcl in Hd.
    split; [rewrite <- Hd, <- bus_seq_next_mod by lia; apply (waits_represents w1 w' bh); (done || lia)|].
    unfold dev_sent in Hs. rewrite Hs, Htx, Hcfg, He, Hx. cbn [map concat].
    by rewrite info_frame_wire, app_nil_r.
Qed.

(** C5. Refinement: the device implements the receiver.  On every platform that
    obeys the driver's laws and whose transmitter takes bytes ([TxReady]), for
    any sequence of frames that the receiver's rules accept (data for a ready
    client that can hold it, with the expected or with another number;
    acknowledgements; frames announced too long; queries), each arriving when
    the one before has been handled, the device processes all of them, ends in
    the state the rules give (expected number, own number, clients, parser
    waiting) and has sent exactly their answers, in order. *)
Theorem device_refines_receiver (fuel : nat) (w : dev U C) (r r' : receiver C) (frames out : list frame) :
  receives_all r frames r' out -> represents w r ->
  exists w', dev_run (5 + fuel) w (map frame_wire frames) = Ret w' /\ represents w' r' /\
    tx_wire (d_uart w') = tx_wire (d_uart w) ++ concat (map frame_wire out).
Proof.
  intros Hall. revert w. induction Hall as [r|r f fs r1 r2 out outs Hstep Hrest IH]; intros w Hw.
  - exists w. cbn. by rewrite app_nil_r.
  - destruct (device_receives fuel w r f r1 out Hstep Hw) as (w1 & E1 & Hw1 & Ht1).
    destruct (IH w1 Hw1) as (w2 & E2 & Hw2 & Ht2). exists w2. cbn [map dev_run]. rewrite E1.
    split; [exact E2|]. split; [done|]. by rewrite Ht2, Ht1, map_app, concat_app, app_assoc.
Qed.

End Refinement.
