(* ===== verification/SerialChunks.v ===== *)
(** * SerialChunks: a frame that arrives in pieces

    The RX state machine keeps its place between interrupts: a frame may be cut
    anywhere, in the header or in the payload, with any number of events between
    the pieces.  For a client that obeys [ChunkClient] the outcome is that of a
    frame that arrives whole. *)

From S2P Require Import Prelude Framing Platform Client SerialDev SerialRefine SerialProps.
From Stdlib Require Import ZArith Lia.
From stdpp Require Import base list option numbers decidable.

Open Scope Z_scope.
Open Scope e80211_scope.

Section Chunks.
Context {C : Type} `{Mux C} (cb : client_ops C) `{!FrameClient cb, !ChunkClient cb}.

#[local] Abbreviation iw cfg rx tx us cli := (mk_dev cfg (mk_IdealUart rx tx us) cli).

Implicit Types (cli c : C).

(** The frame under reception and the state before its first byte. *)
Context (cfg0 : serial_config) (cli0 : C) (b0 b1 b2 b3 : Z) (p : list Z).

Let h := SerialHeader_of_wire (serial_header cfg0) b0 b1 b2 b3.
Let frame := b0 :: b1 :: b2 :: b3 :: p.

(** The configuration once [k] bytes of the frame have been read. *)
Definition cfg_after (k : nat) : serial_config :=
  match k with
  | O => cfg0
  | 1%nat => mk_serial_config PARSING_STATE_SEQUENCE_NUMBER
               (SerialHeader_set_byte0 (serial_header cfg0) b0) 0 (rx_sequence_number cfg0)
               (tx_sequence_number cfg0) false
  | 2%nat => mk_serial_config PARSING_STATE_LENGTH1
               (SerialHeader_set_byte1 (SerialHeader_set_byte0 (serial_header cfg0) b0) b1) 0
               (rx_sequence_number cfg0) (tx_sequence_number cfg0) false
  | 3%nat => let h1 := SerialHeader_set_byte1 (SerialHeader_set_byte0 (serial_header cfg0) b0) b1 in
             mk_serial_config PARSING_STATE_LENGTH2
               (SerialHeader_set_length h1 (length_set_low (sh_length h1) b2)) 0
               (rx_sequence_number cfg0) (tx_sequence_number cfg0) false
  | S (S (S (S n))) =>
      mk_serial_config PARSING_STATE_DATA h (Z.of_nat n) (rx_sequence_number cfg0)
        (tx_sequence_number cfg0) false
  end.

(** The whole frame has been received and acknowledged. *)
Definition cfg_final : serial_config :=
  mk_serial_config PARSING_STATE_TYPE h 0 (serial_seq_advance (rx_sequence_number cfg0))
    (tx_sequence_number cfg0) false.

Definition final_ack : list Z :=
  if sh_no_ack h then [] else ack_bytes (sh_type h) (sh_sequence_number h) ERROR_TYPE_NO_ERROR.

Context (Hst : parsing_state cfg0 = PARSING_STATE_TYPE) (Hwp : work_pending cfg0 = false)
  (Hwf : SerialHeader_wf h) (Hdone : header_done h = PARSING_STATE_DATA)
  (Hlen : sh_length h = zlen p) (Hty : 0 <= sh_type h < SERIAL_TYPE_UNKNOWN)
  (Hnp : sh_type h <> SERIAL_TYPE_PROTOCOL_INFO) (Hcb : get_callbacks (sh_type h) = Some cb)
  (Hcap : 0 < zlen p <= cl_capacity) (Hready : cl_ready cli0)
  (Hseq : rx_sequence_number cfg0 = sh_sequence_number h).

Lemma header_reply_none : header_reply h = [].
Proof.
  unfold header_done, header_reply in *. destruct (sh_length h =? 0) eqn:E0.
  - reflect_bools. by rewrite E0.
  - by destruct (SERIAL_MAX_PAYLOAD_LEN <? sh_length h).
Qed.

Lemma cfg_after_header k : (k < 4)%nat -> parsing_state (cfg_after k) <> PARSING_STATE_DATA.
Proof. do 4 (destruct k as [|k]; [cbn; by rewrite ?Hst|]). lia. Qed.

(** One more byte of the header. *)
Lemma rx_header_byte_step k b rest tx us cli :
  (k < 4)%nat -> frame !! k = Some b ->
  rx_header_byte (iw (cfg_after k) rest tx us cli) b = Ret (iw (cfg_after (S k)) rest tx us cli).
Proof.
  intros Hk Hb.
  destruct k as [|[|[|[|k]]]]; [..|lia]; cbn in Hb; injection Hb as <-;
    unfold rx_header_byte; cbn [d_cfg cfg_after parsing_state serial_header]; rewrite ?Hst;
    unfold with_cfg, with_bytes_read, with_state, with_header; cbn [d_cfg d_uart d_cli bytes_read
      rx_sequence_number tx_sequence_number work_pending]; rewrite ?Hwp; try done.
  cbv zeta.
  change (swap16 (length_set_high _ b3)) with (sh_length h).
  change (SerialHeader_set_length _ (sh_length h)) with h.
  change (sh_type (SerialHeader_set_length _ _)) with (sh_type h).
  unfold header_done in Hdone.
  destruct (sh_length h =? 0) eqn:E0.
  - by destruct (sh_type h =? SERIAL_TYPE_PROTOCOL_INFO).
  - by destruct (SERIAL_MAX_PAYLOAD_LEN <? sh_length h).
Qed.

(** The callback's loop on whatever part of the frame is in the FIFO. *)
Lemma rx_header_loop_part m k fuel bs rest tx us cli :
  (m = 4 - k)%nat -> (k <= 4)%nat -> (m < fuel)%nat -> drop k frame = bs ++ rest ->
  rx_header_loop fuel (iw (cfg_after k) bs tx us cli) =
  Ret (iw (cfg_after (Nat.min 4 (k + length bs))) (drop m bs) tx us cli).
Proof.
  revert k fuel bs. induction m as [|m IH]; intros k fuel bs Hm Hk Hf Hd;
    (destruct fuel as [|fuel]; [lia|]).
  { assert (k = 4%nat) as -> by lia. rewrite rx_header_loop_data by done.
    by rewrite Nat.min_l by lia. }
  destruct bs as [|b bs].
  { rewrite rx_header_loop_empty. cbn [length]. rewrite Nat.add_0_r, Nat.min_r by lia.
    by rewrite drop_nil. }
  rewrite rx_header_loop_step by (apply cfg_after_header; lia).
  rewrite rx_header_byte_step; [|lia|].
  2:{ rewrite <- (Nat.add_0_r k), <- lookup_drop, Hd. done. }
  cbn [outcome_bind]. rewrite (IH (S k)); [|lia..|].
  2:{ change (S k) with (1 + k)%nat. rewrite Nat.add_comm, <- drop_drop, Hd. done. }
  cbn [length]. do 3 f_equal. lia.
Qed.

(** Arithmetic on the lengths in a configuration. *)
Ltac cfg_lia :=
  cbn [with_work with_bytes_read cfg_idle cfg_after bytes_read serial_header Nat.add d_cfg with_cfg];
  rewrite ?Hlen; unfold zlen in *; lia.

(** The client's state once [n] payload bytes are stored. *)
Definition stored (n : nat) (c : C) : Prop := buffer_store cb cli0 0 (take n p) = Some c.

Lemma stored_ready n c : stored n c -> cl_ready c.
Proof. intros Hs. by eapply cl_store_ready. Qed.

Lemma stored_step n c q rest :
  stored n c -> (n < length p)%nat -> drop n p = q ++ rest ->
  exists c1, buffer_store cb c (Z.of_nat n) q = Some c1 /\ stored (n + length q) c1.
Proof.
  intros Hs Hn Hd.
  assert (n + length q <= length p)%nat as Hq.
  { apply (f_equal length) in Hd. rewrite length_drop, length_app in Hd. lia. }
  destruct (ck_store cli0 (take n p) c q Hready Hs) as (c2 & E1 & E2).
  { unfold zlen in *. rewrite length_take. lia. }
  exists c2. split.
  - replace (Z.of_nat n) with (zlen (take n p)); [done|]. unfold zlen.
    rewrite length_take. lia.
  - unfold stored. rewrite <- E2. f_equal.
    rewrite <- (take_take_drop p n (length q)). f_equal.
    by rewrite Hd, take_app_length.
Qed.

Lemma acquire_any c n :
  cl_ready c -> (n < length p)%nat ->
  acquire_buffer cb c (sh_length h - Z.of_nat n) = AcqOk (Some 0).
Proof. intros Hr Hn. apply cl_acquire; [done|]. unfold zlen in *. lia. Qed.

(** The work item on a proper part of the payload. *)
Lemma work_handler_part fuel n q rest tx us c wp :
  (n < length p)%nat -> stored n c -> drop n p = q ++ rest -> (n + length q < length p)%nat ->
  exists c1, stored (n + length q) c1 /\
  serial_work_handler (2 + fuel) (iw (with_work (cfg_after (4 + n)) wp) q tx us c) =
  Ret (iw (cfg_after (4 + (n + length q))) [] tx us c1).
Proof.
  intros Hn Hs Hd Hq. destruct (stored_step n c q rest Hs Hn Hd) as (c1 & E1 & Hs1).
  exists c1. split; [done|]. pose proof (stored_ready n c Hs) as Hr.
  pose proof (stored_ready _ _ Hs1) as Hr1.
  rewrite (serial_work_handler_client _ cb) by done.
  change (2 + fuel)%nat with (S (S fuel)).
  rewrite work_loop_client by (done || (cfg_lia)).
  unfold with_cfg; cbn [d_cfg d_uart d_cli].
  destruct (decide (q = [])) as [->|Hne].
  - erewrite work_client_drained by (apply acquire_any; done).
    cbn [outcome_bind]. unfold stored in Hs, Hs1. cbn [length] in *.
    rewrite Nat.add_0_r in *. rewrite Hs in Hs1. by injection Hs1 as <-.
  - erewrite work_client_part; [|destruct q; [done|rewrite zlen_cons; pose proof (zlen_nonneg q); lia]
      |cfg_lia|apply acquire_any; done|exact E1].
    cbn [outcome_bind]. rewrite ck_commit.
    rewrite work_loop_client by (done || (cfg_lia)).
    erewrite work_client_drained.
    + cbn [outcome_bind Nat.add cfg_after]. unfold with_work, with_bytes_read, zlen. cbn [bytes_read].
      by rewrite <- Nat2Z.inj_add.
    + cbn [with_work with_bytes_read cfg_after bytes_read serial_header Nat.add]. unfold zlen.
      rewrite <- Nat2Z.inj_add. apply acquire_any; [done|lia].
Qed.

(** The work item on the rest of the payload. *)
Lemma work_handler_rest fuel n q tx us c wp :
  (n < length p)%nat -> stored n c -> drop n p = q ->
  serial_work_handler (2 + fuel) (iw (with_work (cfg_after (4 + n)) wp) q tx us c) =
  Ret (iw cfg_final [] (tx ++ final_ack) us (cl_deliver cli0 p)).
Proof.
  intros Hn Hs Hd. destruct (stored_step n c q [] Hs Hn) as (c1 & E1 & Hs1).
  { by rewrite app_nil_r. }
  assert (length q = length p - n)%nat as Hq by (by rewrite <- Hd, length_drop).
  unfold stored in Hs1. rewrite take_ge in Hs1 by lia.
  destruct (cl_complete cli0 p Hready Hcap) as (c1' & E1' & Hc).
  rewrite Hs1 in E1'. injection E1' as <-.
  destruct (cl_reacquire cli0 p Hready Hcap) as (off & Ha).
  rewrite (serial_work_handler_client _ cb) by done.
  change (2 + fuel)%nat with (S (S fuel)).
  rewrite work_loop_client by (done || (cfg_lia)).
  unfold with_cfg; cbn [d_cfg d_uart d_cli]. rewrite <- (app_nil_r q) at 1.
  erewrite (work_client_full _ _ _ _ _ _ _ _ 0); [|unfold zlen; lia|cfg_lia| |exact E1].
  2:{ apply cl_acquire; [by eapply stored_ready|]. unfold zlen in *. lia. }
  rewrite (work_packet_complete_ok _ _ _ _ _ _ (cl_deliver cli0 p)); [|done|done|].
  2:{ change (message_complete cb (commit_data cb c1 (sh_length h)) (sh_length h)
              = Ret (cl_deliver cli0 p)). by rewrite Hlen. }
  cbn [outcome_bind].
  rewrite work_loop_client by (done || cfg_lia).
  rewrite (work_client_drained _ _ _ _ _ _ (Some off)); [done|].
  change (acquire_buffer cb (cl_deliver cli0 p) (sh_length h - 0) = AcqOk (Some off)).
  by rewrite Hlen, Z.sub_0_r.
Qed.

(** One event in the middle of the frame. *)
Lemma dev_rx_event_part fuel k bs rest tx us c :
  (k < length frame)%nat -> stored (k - 4) c -> drop k frame = bs ++ rest ->
  (k + length bs < length frame)%nat ->
  exists c1, stored (k + length bs - 4) c1 /\
  dev_rx_event (5 + fuel) (iw (cfg_after k) bs tx us c) =
  Ret (iw (cfg_after (k + length bs)) [] tx us c1).
Proof.
  intros Hk Hs Hd Hn. unfold dev_rx_event, uart_irq_callback.
  cbn [frame length] in Hk, Hn.
  destruct (decide (k < 4)%nat) as [Hk4|Hk4].
  - rewrite (rx_header_loop_part (4 - k) k _ bs rest) by (done || lia). cbn [outcome_bind].
    destruct (decide (k + length bs < 4)%nat) as [Hb|Hb].
    + rewrite Nat.min_r, drop_ge by lia. exists c.
      rewrite bool_decide_eq_false_2 by (by apply cfg_after_header).
      split; [by replace (k + length bs - 4)%nat with (k - 4)%nat by lia|].
      cbn [outcome_bind]. destruct (k + length bs)%nat as [|[|[|[|]]]]; [..|lia]; dev_simpl; try done.
      cbn [cfg_after]. by rewrite Hwp.
    + rewrite Nat.min_l by lia. rewrite bool_decide_eq_true_2 by done. cbn [outcome_bind].
      replace (k - 4)%nat with 0%nat in Hs by lia.
      destruct (work_handler_part (3 + fuel) 0 (drop (4 - k) bs) rest tx us c true)
        as (c1 & Hs1 & E); [lia|done| |rewrite length_drop; lia|].
      { rewrite drop_0, <- (drop_app_le bs rest) by lia.
        rewrite <- Hd, drop_drop. replace (k + (4 - k))%nat with 4%nat by lia. done. }
      exists c1. rewrite length_drop in *.
      replace (0 + (length bs - (4 - k)))%nat with (k + length bs - 4)%nat in * by lia.
      split; [done|]. etransitivity; [exact E|]. do 3 f_equal. lia.
  - rewrite (rx_header_loop_data (4 + fuel)) by (destruct k as [|[|[|[|]]]]; [lia..|done]).
    cbn [outcome_bind]. rewrite bool_decide_eq_true_2 by (destruct k as [|[|[|[|]]]]; [lia..|done]).
    replace k with (4 + (k - 4))%nat in Hd |- * by lia.
    destruct (work_handler_part (3 + fuel) (k - 4) bs rest tx us c true)
      as (c1 & Hs1 & E); [lia|done|done|lia|].
    exists c1. replace (4 + (k - 4) + length bs - 4)%nat with (k - 4 + length bs)%nat by lia.
    split; [done|]. exact E.
Qed.

(** The event that brings the last byte. *)
Lemma dev_rx_event_last fuel k bs tx us c :
  (k < length frame)%nat -> stored (k - 4) c -> drop k frame = bs ->
  dev_rx_event (5 + fuel) (iw (cfg_after k) bs tx us c) =
  Ret (iw cfg_final [] (tx ++ final_ack) us (cl_deliver cli0 p)).
Proof.
  intros Hk Hs Hd. unfold dev_rx_event, uart_irq_callback.
  cbn [frame length] in Hk.
  assert (0 < length p)%nat as Hp by (unfold zlen in *; lia).
  destruct (decide (k < 4)%nat) as [Hk4|Hk4].
  - assert (length bs = 4 + length p - k)%nat as Hb by (by rewrite <- Hd, length_drop).
    rewrite (rx_header_loop_part (4 - k) k _ bs []) by (rewrite ?app_nil_r; done || lia).
    cbn [outcome_bind]. rewrite Nat.min_l by lia. rewrite bool_decide_eq_true_2 by done.
    cbn [outcome_bind]. replace (k - 4)%nat with 0%nat in Hs by lia.
    apply (work_handler_rest (3 + fuel) 0 _ tx us c true); [lia|done|].
    rewrite <- Hd, drop_drop. by replace (k + (4 - k))%nat with 4%nat by lia.
  - rewrite (rx_header_loop_data (4 + fuel)) by (destruct k as [|[|[|[|]]]]; [lia..|done]).
    cbn [outcome_bind]. rewrite bool_decide_eq_true_2 by (destruct k as [|[|[|[|]]]]; [lia..|done]).
    replace k with (4 + (k - 4))%nat in Hd |- * by lia.
    by apply (work_handler_rest (3 + fuel) (k - 4) bs tx us c true); [lia|..].
Qed.

(** Events without data after the frame change nothing. *)
Lemma dev_run_spurious fuel chunks tx us c :
  concat chunks = [] ->
  dev_run (5 + fuel) (iw cfg_final [] tx us c) chunks = Ret (iw cfg_final [] tx us c).
Proof.
  induction chunks as [|bs chunks IH]; [done|]. cbn [concat].
  intros [-> Hc]%app_eq_nil. cbn [dev_run]. by apply IH.
Qed.

Lemma dev_run_frame fuel chunks k tx us c :
  (k < length frame)%nat -> stored (k - 4) c -> concat chunks = drop k frame ->
  dev_run (5 + fuel) (iw (cfg_after k) [] tx us c) chunks =
  Ret (iw cfg_final [] (tx ++ final_ack) us (cl_deliver cli0 p)).
Proof.
  revert k c. induction chunks as [|bs chunks IH]; intros k c Hk Hs Hc.
  { cbn in Hc. apply (f_equal length) in Hc. rewrite length_drop in Hc. cbn [length] in Hc. lia. }
  cbn [concat] in Hc. cbn [dev_run].
  change (dev_arrive (iw (cfg_after k) [] tx us c) bs) with (iw (cfg_after k) bs tx us c).
  assert (length bs + length (concat chunks) = length frame - k)%nat as Hl
    by (by rewrite <- length_app, Hc, length_drop).
  destruct (decide (k + length bs < length frame)%nat) as [Hn|Hn].
  - destruct (dev_rx_event_part fuel k bs (concat chunks) tx us c) as (c1 & Hs1 & ->); try done.
    cbn [outcome_bind]. apply IH; [done|done|].
    by rewrite <- drop_drop, <- Hc, drop_app_length.
  - assert (concat chunks = []) as E by (apply length_zero_iff_nil; lia).
    rewrite E, app_nil_r in Hc. rewrite (dev_rx_event_last fuel k bs) by done.
    cbn [outcome_bind]. by apply dev_run_spurious.
Qed.

End Chunks.

Section ChunkClaim.
Context {U C : Type} `{PL : PlatformLaws U} `{!TxReady U} `{Mux C}.

Lemma dev_run_lift fuel (w : dev U C) chunks cfg rx tx us cli :
  dev_run fuel (ideal w) chunks = Ret (mk_dev cfg (mk_IdealUart rx tx us) cli) ->
  exists w', dev_run fuel w chunks = Ret w' /\ d_cfg w' = cfg /\ d_cli w' = cli /\
    rx_fifo (d_uart w') = rx /\ tx_wire (d_uart w') = tx.
Proof.
  intros E. destruct (ideal_run_lift _ _ _ (dev_run_refines fuel w chunks) E) as (w1 & -> & Hi).
  injection Hi as <- <- <- _ <-. exists w1. done.
Qed.

(** C11. Chunking does not matter to a client that hands out the same buffer start
    every time and ignores [commit_data] ([ChunkClient]: the virtual serial port
    and the OpenThread stub; not the management proxies, whose pieces are
    misplaced, C23).  For such a client, however the bytes of a frame are cut
    into arriving pieces (in the header, in the payload, with interrupts that
    bring nothing), the run ends with the frame delivered once and whole,
    acknowledged once, and the parser waiting, as if it had arrived in one
    piece. *)
Theorem device_chunked_delivery (cb : client_ops C) `{!FrameClient cb, !ChunkClient cb}
    (fuel : nat) (w : dev U C) (bh : bus_header) (p : list Z) (chunks : list (list Z)) :
  dev_idle w -> data_frame bh p -> get_callbacks (bh_type bh) = Some cb ->
  rx_fifo (d_uart w) = [] -> concat chunks = bus_header_encode bh ++ p ->
  cl_ready (d_cli w) -> zlen p <= cl_capacity ->
  bh_seq bh = rx_sequence_number (d_cfg w) ->
  exists w', dev_run (5 + fuel) w chunks = Ret w' /\
    d_cli w' = cl_deliver (d_cli w) p /\
    dev_waits w' bh (bus_seq_next (bh_seq bh)) (tx_sequence_number (d_cfg w)) /\
    rx_fifo (d_uart w') = [] /\
    dev_sent w w' (if bh_no_ack bh then []
                   else ack_bytes (bh_type bh) (bh_seq bh) ERROR_TYPE_NO_ERROR).
Proof.
  intros (Hst & Hwp & Hh & _) (Hbw & Hl & Hp & Ht & Hn) Hg Hrx Hc Hr Hcap Hq.
  destruct (header_of_encode _ _ Hh Hbw) as (b0 & b1 & b2 & b3 & He & Hb & <-).
  pose proof (SerialHeader_of_wire_wf _ _ _ _ _ Hh Hb) as Hwf.
  rewrite He in Hc. cbn [SerialHeader_as_bus bh_type bh_length bh_seq bh_no_ack] in *.
  unshelve epose proof (dev_run_frame cb (d_cfg w) (d_cli w) b0 b1 b2 b3 p
    Hst Hwp Hwf _ Hl Ht Hn Hg (conj (proj1 Hp) Hcap) Hr (eq_sym Hq) fuel chunks 0
    (tx_wire (d_uart w)) 0 (d_cli w) _ _ Hc) as E.
  - unfold header_done, SERIAL_MAX_PAYLOAD_LEN in *. rewrite Hl. by decide_cmp.
  - cbn [length]. lia.
  - by apply ck_store_nil.
  - rewrite <- Hrx in E. apply dev_run_lift in E as (w' & -> & Hcfg & Hcl & Hr' & Htx).
    exists w'. split; [done|]. split; [done|]. split; [|split; [by rewrite Hr'|done]].
    unfold dev_waits. rewrite Hcfg. by repeat split; try (rewrite Hq).
Qed.

End ChunkClaim.
