(* ===== verification/SerialLoop.v ===== *)
(** * SerialLoop: when the payload loop ends, and what it sends

    Termination of [serial_work_handler] for a type that has a client, its
    failure to terminate for a type that has none, the bytes it takes after a
    completed frame, and the result of [serial_send_frame] on every branch. *)

From S2P Require Import Prelude Framing Platform Client SerialDev SerialRefine SerialProps.
From Stdlib Require Import ZArith Lia.
From stdpp Require Import base list option numbers decidable.

Open Scope Z_scope.
Open Scope e80211_scope.

(** ** On the ideal UART *)

Section Ideal.
Context {C : Type} `{Mux C}.
Implicit Types (w : dev IdealUart C) (cfg : serial_config) (cli : C).

#[local] Abbreviation iw cfg rx tx us cli := (mk_dev cfg (mk_IdealUart rx tx us) cli).

Lemma send_ack_returns w t s e :
  exists tx', send_ack w t s e = Ret (with_uart w (mk_IdealUart (iu_rx (d_uart w)) tx' (iu_us (d_uart w)))).
Proof.
  destruct w as [cfg [rx tx us] cli]. unfold send_ack. cbn [d_uart].
  rewrite serial_data_tx_ideal. cbn. eauto.
Qed.

(** Completing a packet touches neither the FIFO nor the header. *)
Lemma work_packet_complete_rx cb w w' :
  work_packet_complete cb w = Ret w' -> iu_rx (d_uart w') = iu_rx (d_uart w).
Proof.
  unfold work_packet_complete. destruct (negb _).
  - destruct (send_ack_returns w (sh_type (serial_header (d_cfg w)))
      (rx_sequence_number (d_cfg w)) ERROR_TYPE_INCORRECT_SEQUENCE_NUMBER) as (tx' & ->).
    cbn. by intros [= <-].
  - destruct (message_complete cb _ _) as [c2| |]; cbn [outcome_bind]; try done.
    destruct (negb (sh_no_ack _)); [|cbn; by intros [= <-]].
    match goal with |- context [send_ack ?x ?t ?s ?e] =>
      destruct (send_ack_returns x t s e) as (tx' & ->) end.
    cbn. by intros [= <-].
Qed.

Lemma work_packet_complete_fuel cb w :
  (forall c n, message_complete cb c n <> OutOfFuel) -> work_packet_complete cb w <> OutOfFuel.
Proof.
  intros Hm. unfold work_packet_complete. destruct (negb _).
  - destruct (send_ack_returns w (sh_type (serial_header (d_cfg w)))
      (rx_sequence_number (d_cfg w)) ERROR_TYPE_INCORRECT_SEQUENCE_NUMBER) as (tx' & ->).
    done.
  - destruct (message_complete cb _ _) as [c2| |] eqn:E; cbn [outcome_bind]; [|done|by apply Hm in E].
    destruct (negb (sh_no_ack _)); [|done].
    match goal with |- context [send_ack ?x ?t ?s ?e] =>
      destruct (send_ack_returns x t s e) as (tx' & ->) end.
    done.
Qed.

(** An iteration that goes on has taken at least one byte from the FIFO. *)
Lemma work_client_progress cb w db w' db' :
  work_client cb w db = Ret (Continue w' db') ->
  (length (iu_rx (d_uart w')) < length (iu_rx (d_uart w)))%nat.
Proof.
  destruct w as [cfg [rx tx us] cli]. unfold work_client. dev_simpl.
  destruct (acquire_buffer cb _ _) as [|stored].
  { match goal with |- context [send_ack ?x ?t ?s ?e] =>
      destruct (send_ack_returns x t s e) as (tx' & ->) end. done. }
  rewrite read_ideal.
  set (n := sh_length (serial_header cfg) - bytes_read cfg).
  destruct (ztake n rx) as [|b bs] eqn:Et; [done|].
  assert (length (zdrop n rx) < length rx)%nat as Hlt.
  { rewrite <- (ztake_zdrop n rx) at 2. rewrite Et, length_app. cbn [length]. lia. }
  destruct (match stored with Some _ => _ | None => _ end) as [off|]; [|done].
  destruct (buffer_store cb _ _ _) as [c1|]; [|done]. dev_simpl.
  split_if.
  - destruct (work_packet_complete cb _) as [w2| |] eqn:Ew; cbn [outcome_bind]; try done.
    intros [= <- <-]. by rewrite (work_packet_complete_rx _ _ _ Ew).
  - by intros [= <- <-].
Qed.

Lemma work_client_fuel cb w db :
  (forall c n, message_complete cb c n <> OutOfFuel) -> work_client cb w db <> OutOfFuel.
Proof.
  intros Hm. destruct w as [cfg [rx tx us] cli]. unfold work_client. dev_simpl.
  destruct (acquire_buffer cb _ _) as [|stored].
  { match goal with |- context [send_ack ?x ?t ?s ?e] =>
      destruct (send_ack_returns x t s e) as (tx' & ->) end. done. }
  rewrite read_ideal. destruct (ztake _ rx) as [|b bs]; [done|].
  destruct (match stored with Some _ => _ | None => _ end) as [off|]; [|done].
  destruct (buffer_store cb _ _ _) as [c1|]; [|done]. dev_simpl.
  split_if; [|done].
  destruct (work_packet_complete cb _) as [w2| |] eqn:Ew; cbn [outcome_bind]; try done.
  by apply work_packet_complete_fuel in Ew.
Qed.

Lemma work_loop_client_terminates cb t fuel w db :
  0 <= t < SERIAL_TYPE_UNKNOWN -> t <> SERIAL_TYPE_PROTOCOL_INFO ->
  (forall c n, message_complete cb c n <> OutOfFuel) ->
  (length (iu_rx (d_uart w)) < fuel)%nat ->
  work_loop fuel t (Some cb) w db <> OutOfFuel.
Proof.
  intros Ht Hn Hm. revert w db. induction fuel as [|fuel IH]; intros w db Hf; [lia|].
  destruct (Z.ltb_spec (bytes_read (d_cfg w)) (sh_length (serial_header (d_cfg w)))) as [Hb|Hb].
  - rewrite work_loop_client by done.
    destruct (work_client cb w db) as [[w1 db1|w1]| |] eqn:E; cbn [outcome_bind]; try done.
    + apply IH. apply work_client_progress in E. lia.
    + by apply work_client_fuel in E.
  - cbn [work_loop]. by rewrite (proj2 (Z.ltb_ge _ _)).
Qed.

(** A type without a client: every iteration goes on, and the loop condition
    still holds. *)
Lemma work_no_callback_continues w db :
  0 <= bytes_read (d_cfg w) < sh_length (serial_header (d_cfg w)) ->
  exists w', work_no_callback w db = Ret (Continue w' db) /\
    serial_header (d_cfg w') = serial_header (d_cfg w) /\
    0 <= bytes_read (d_cfg w') < sh_length (serial_header (d_cfg w')).
Proof.
  destruct w as [cfg [rx tx us] cli]. cbn [d_cfg]. intros Hb.
  unfold work_no_callback, read_discard. dev_simpl. rewrite read_ideal. cbn iota. dev_simpl.
  match goal with |- context [zlen ?l] => pose proof (zlen_nonneg l) end.
  split_if; reflect_bools.
  - match goal with |- context [send_ack ?x ?t ?s ?e] =>
      destruct (send_ack_returns x t s e) as (tx' & ->) end.
    cbn [outcome_bind]. eexists. split; [done|]. cbn. split; [done|lia].
  - eexists. split; [done|]. cbn [d_cfg serial_header bytes_read]. split; [done|lia].
Qed.

Lemma work_loop_no_callback fuel t w db :
  SERIAL_TYPE_UNKNOWN <= t \/ t <> SERIAL_TYPE_PROTOCOL_INFO /\ get_callbacks t = @None (client_ops C) ->
  0 <= bytes_read (d_cfg w) < sh_length (serial_header (d_cfg w)) ->
  work_loop fuel t (get_callbacks t) w db = OutOfFuel.
Proof.
  intros Ht. revert w. induction fuel as [|fuel IH]; intros w Hb; [done|].
  destruct (work_no_callback_continues w db Hb) as (w' & E & _ & Hb').
  cbn [work_loop]. rewrite (proj2 (Z.ltb_lt _ _)) by lia.
  assert (work_body t (get_callbacks t) w db = work_no_callback w db) as ->.
  { unfold work_body, SERIAL_TYPE_PROTOCOL_INFO, SERIAL_TYPE_UNKNOWN in *.
    destruct Ht as [Ht|[Hn ->]].
    - by decide_cmp.
    - rewrite (proj2 (Z.eqb_neq _ _)) by done. by destruct (9 <=? t). }
  rewrite E. cbn [outcome_bind]. by apply IH.
Qed.

(** A protocol information frame with a payload that is not there yet. *)
Lemma work_loop_protocol_info_waits fuel cbs cfg tx us cli db :
  0 <= bytes_read cfg < sh_length (serial_header cfg) ->
  work_loop fuel SERIAL_TYPE_PROTOCOL_INFO cbs (iw cfg [] tx us cli) db = OutOfFuel.
Proof.
  intros Hb. induction fuel as [|fuel IH]; [done|].
  cbn [work_loop d_cfg]. rewrite (proj2 (Z.ltb_lt _ _)) by lia.
  unfold work_body. rewrite Z.eqb_refl.
  unfold work_protocol_info, read_discard. dev_simpl. rewrite read_ideal. cbn iota. dev_simpl.
  unfold ztake, zdrop. rewrite take_nil, drop_nil, zlen_nil, Z.add_0_r, (proj2 (Z.leb_gt _ _)) by lia.
  cbn [outcome_bind]. destruct cfg. apply IH.
Qed.

(** Bytes behind a completed frame: the loop is entered again with the stale
    length and stores them as payload. *)
Lemma work_handler_swallows fuel cb `{!FrameClient cb, !ChunkClient cb} cfg p rest tx us cli :
  let h := serial_header cfg in
  SerialHeader_wf h -> 0 <= sh_type h < SERIAL_TYPE_UNKNOWN ->
  sh_type h <> SERIAL_TYPE_PROTOCOL_INFO -> get_callbacks (sh_type h) = Some cb ->
  bytes_read cfg = 0 -> sh_length h = zlen p ->
  cl_ready cli -> 0 < zlen p <= cl_capacity -> 0 < zlen rest < zlen p ->
  rx_sequence_number cfg = sh_sequence_number h ->
  exists c1, buffer_store cb (cl_deliver cli p) 0 rest = Some c1 /\
  serial_work_handler (3 + fuel) (iw cfg (p ++ rest) tx us cli) =
  Ret (iw (with_work (with_bytes_read (cfg_idle cfg (serial_seq_advance (rx_sequence_number cfg)))
             (zlen rest)) false) []
         (tx ++ if sh_no_ack h then []
                else ack_bytes (sh_type h) (sh_sequence_number h) ERROR_TYPE_NO_ERROR) us c1).
Proof.
  cbv zeta. intros Hwf Ht Hn Hg Hb Hl Hr Hp Hrest Hq.
  destruct (cl_complete cli p Hr Hp) as (c1 & Hs & Hc).
  pose proof (ck_deliver_ready cli p Hr Hp) as Hr2.
  destruct (ck_store _ [] _ rest Hr2 (ck_store_nil _ Hr2)) as (c2 & E1 & E2).
  { rewrite zlen_nil. lia. }
  cbn [app] in E2. pose proof (cl_store_ready _ _ _ Hr2 E2) as Hr3.
  exists c2. split; [done|].
  rewrite (serial_work_handler_client _ cb) by done. cbn [d_cfg].
  change (3 + fuel)%nat with (S (S (S fuel))).
  rewrite work_loop_client by (done || (unfold cfg_idle; dev_simpl; lia)).
  unfold with_cfg. cbn [d_cfg d_uart d_cli].
  erewrite work_client_full;
    [|lia|dev_simpl; lia|by apply cl_acquire|dev_simpl; rewrite Hb; exact Hs].
  erewrite work_packet_complete_ok;
    [|done|done|cbn [serial_header with_bytes_read with_work]; rewrite Hl; exact Hc].
  cbn [outcome_bind].
  rewrite work_loop_client by (done || (unfold cfg_idle; dev_simpl; lia)).
  erewrite work_client_part;
    [|lia|unfold cfg_idle; dev_simpl; lia
     |unfold cfg_idle; dev_simpl; rewrite Hl, Z.sub_0_r; by apply cl_acquire
     |unfold cfg_idle; dev_simpl; exact E2].
  cbn [outcome_bind]. rewrite ck_commit.
  rewrite work_loop_client by (done || (unfold cfg_idle; dev_simpl; lia)).
  erewrite work_client_drained; [|unfold cfg_idle; dev_simpl; rewrite Hl; apply cl_acquire; [done|lia]].
  done.
Qed.

(** A frame that leaves its client without room: the loop's second pass asks for
    a buffer again and reports the failure. *)
Lemma work_handler_second_fail fuel cb cfg p tx us cli c1 c2 :
  let h := serial_header cfg in
  SerialHeader_wf h -> 0 <= sh_type h < SERIAL_TYPE_UNKNOWN ->
  sh_type h <> SERIAL_TYPE_PROTOCOL_INFO -> get_callbacks (sh_type h) = Some cb ->
  bytes_read cfg = 0 -> sh_length h = zlen p -> 0 < zlen p ->
  rx_sequence_number cfg = sh_sequence_number h ->
  acquire_buffer cb cli (zlen p) = AcqOk (Some 0) -> buffer_store cb cli 0 p = Some c1 ->
  message_complete cb (commit_data cb c1 (zlen p)) (zlen p) = Ret c2 ->
  acquire_buffer cb c2 (zlen p) = AcqFail ->
  serial_work_handler (2 + fuel) (iw cfg p tx us cli) =
  Ret (iw (with_work (cfg_idle cfg (serial_seq_advance (rx_sequence_number cfg))) false) []
         ((tx ++ if sh_no_ack h then []
                 else ack_bytes (sh_type h) (sh_sequence_number h) ERROR_TYPE_NO_ERROR)
          ++ ack_bytes (sh_type h) (sh_sequence_number h) ERROR_TYPE_OUT_OF_BUFFERS) us c2).
Proof.
  cbv zeta. intros Hwf Ht Hn Hg Hb Hl Hp Hq Ha Hs Hc Hf.
  rewrite (serial_work_handler_client _ cb) by done. cbn [d_cfg].
  change (2 + fuel)%nat with (S (S fuel)).
  rewrite work_loop_client by (done || (unfold cfg_idle; dev_simpl; lia)).
  unfold with_cfg. cbn [d_cfg d_uart d_cli]. rewrite <- (app_nil_r p) at 1.
  erewrite work_client_full; [|lia|dev_simpl; lia|exact Ha|dev_simpl; rewrite Hb; exact Hs].
  erewrite work_packet_complete_ok;
    [|done|done|cbn [serial_header with_bytes_read with_work]; rewrite Hl; exact Hc].
  cbn [outcome_bind].
  rewrite work_loop_client by (done || (unfold cfg_idle; dev_simpl; lia)).
  rewrite work_client_no_buffer; [done|done|].
  unfold cfg_idle; dev_simpl. by rewrite Hl, Z.sub_0_r.
Qed.

(** A frame whose client stores no buffer pointer. *)
Lemma work_handler_wild fuel cb cfg p tx us cli :
  let h := serial_header cfg in
  0 <= sh_type h < SERIAL_TYPE_UNKNOWN ->
  sh_type h <> SERIAL_TYPE_PROTOCOL_INFO -> get_callbacks (sh_type h) = Some cb ->
  bytes_read cfg = 0 -> 0 < zlen p -> 0 < sh_length h ->
  acquire_buffer cb cli (sh_length h) = AcqOk None ->
  serial_work_handler (1 + fuel) (iw cfg p tx us cli) = Fault.
Proof.
  cbv zeta. intros Ht Hn Hg Hb Hp Hl Ha.
  rewrite (serial_work_handler_client _ cb) by done. cbn [d_cfg].
  change (1 + fuel)%nat with (S fuel).
  rewrite work_loop_client by (done || (dev_simpl; lia)).
  unfold with_cfg. cbn [d_cfg d_uart d_cli].
  rewrite work_client_wild; [done|done|dev_simpl; lia|].
  dev_simpl. by rewrite Hb, Z.sub_0_r.
Qed.

End Ideal.

(** ** The claims *)

Section Claims.
Context {U C : Type} `{PL : PlatformLaws U} `{!TxReady U} `{Mux C}.

(** C12. Termination: for a type that has a client (whose completion callback
    returns), the payload loop ends after at most one iteration per byte in the
    FIFO and one more, whatever state it is started in and whatever buffers the
    client hands out. *)
Theorem work_handler_terminates (cb : client_ops C) (fuel : nat) (w : dev U C) :
  let t := sh_type (serial_header (d_cfg w)) in
  0 <= t < SERIAL_TYPE_UNKNOWN -> t <> SERIAL_TYPE_PROTOCOL_INFO ->
  get_callbacks t = Some cb -> (forall c n, message_complete cb c n <> OutOfFuel) ->
  (length (rx_fifo (d_uart w)) < fuel)%nat ->
  serial_work_handler fuel w <> OutOfFuel.
Proof.
  cbv zeta. intros Ht Hn Hg Hm Hf E.
  pose proof (serial_work_handler_refines fuel w) as R. rewrite E in R. cbn in R.
  rewrite (serial_work_handler_client _ cb) in R by done. symmetry in R. revert R.
  by apply work_loop_client_terminates.
Qed.

(** C13. Livelock: for a frame with a payload of a type that has no client, the
    work item never returns, whatever the FIFO holds: [bytes_read] is set back to
    0 after the frame while [length] keeps its value, so the loop condition stays
    true. *)
Theorem unhandled_type_livelock (fuel : nat) (w : dev U C) :
  let t := sh_type (serial_header (d_cfg w)) in
  SERIAL_TYPE_UNKNOWN <= t \/
  t <> SERIAL_TYPE_PROTOCOL_INFO /\ get_callbacks t = @None (client_ops C) ->
  0 <= bytes_read (d_cfg w) < sh_length (serial_header (d_cfg w)) ->
  serial_work_handler fuel w = OutOfFuel.
Proof.
  cbv zeta. intros Ht Hb.
  pose proof (serial_work_handler_refines fuel w) as R.
  unfold serial_work_handler at 2 in R. cbv zeta in R. dev_simpl.
  cbn [ideal d_cfg] in R.
  rewrite (proj2 (Z.eqb_neq (sh_length _) 0)), andb_false_r in R by lia.
  rewrite work_loop_no_callback in R by done. cbn [outcome_bind] in R.
  destruct (serial_work_handler fuel w); done.
Qed.


End Claims.

Section Send.
Context {U : Type} `{PL : PlatformLaws U}.

(** The header bytes of a frame with the given arguments, each cut to the width
    of its field, and the payload bytes behind it. *)
Definition sent_header (t e : Z) (na : bool) (seq len : Z) : list Z :=
  bus_header_encode (mk_bus_header (t mod 16) na true (e mod 4) 0 (seq mod 16) len).

Definition sent_payload (payload : option (list Z)) (len : Z) : list Z :=
  match payload with Some p => ztake len p | None => [] end.

(** The caller's array is shorter than [len]. *)
Definition reads_behind (payload : option (list Z)) (len : Z) : bool :=
  match payload with Some p => zlen p <? len | None => false end.

Lemma mk_tx_header_sent t e na seq len :
  0 <= len < 65536 -> SerialHeader_mem (mk_tx_header t e na seq len) = sent_header t e na seq len.
Proof.
  intros Hl.
  transitivity (SerialHeader_mem (mk_tx_header (t mod 16) (e mod 4) na (seq mod 16) len)).
  - unfold mk_tx_header, bitfield. by rewrite !Z.mod_mod.
  - apply mk_tx_header_mem; lia.
Qed.

Lemma serial_data_tx_spec (u : U) d :
  exists u' r, serial_data_tx u d = Ret (u', r) /\ tx_result SERIAL_TX_TIMEOUT_MS (k_uptime_get u) u d u' r.
Proof. apply fifo_tx_loop_total, tx_fuel_enough. unfold SERIAL_TX_TIMEOUT_MS; lia. Qed.

Lemma tx_result_nil (u : U) : tx_result SERIAL_TX_TIMEOUT_MS (k_uptime_get u) u [] u 0.
Proof. split; [done|]. exists [], []. split; [done|]. split; [by rewrite app_nil_r | by left]. Qed.

Lemma tx_result_complete (u u' : U) d r :
  TxReady U -> serial_data_tx u d = Ret (u', r) -> tx_wire u' = tx_wire u ++ d.
Proof. intros HT E. destruct (serial_data_tx_ready u d) as (u1 & E1 & _ & Ht). congruence. Qed.

(** C15. [serial_send_frame] on every branch and every driver.  Without a
    configuration or device: -ENODEV; with a length over the limit: -EMSGSIZE;
    neither sends or changes anything.  With a length over the payload's own it
    reads behind the payload.  Otherwise it writes the header (type, error and
    number cut to their fields) and, from a payload that is not NULL, [len]
    bytes; each write puts all its bytes on the wire unless it gave up after the
    time-out or on the driver's error ([tx_result]), so on a transmitter that
    takes bytes exactly the frame is sent.  It returns 0 and advances the
    sequence number whatever the two writes reported. *)
Theorem serial_send_frame_result (cfg : serial_config) (u : option U) (t e : Z) (na : bool)
    (payload : option (list Z)) (len : Z) :
  0 <= len ->
  serial_send_frame (@None (serial_config * option U)) t e na payload len = Ret (None, - ENODEV) /\
  match u with
  | None => serial_send_frame (Some (cfg, u)) t e na payload len = Ret (Some (cfg, u), - ENODEV)
  | Some u0 =>
      if SERIAL_MAX_PAYLOAD_LEN <? len
      then serial_send_frame (Some (cfg, u)) t e na payload len = Ret (Some (cfg, u), - EMSGSIZE)
      else if reads_behind payload len
      then serial_send_frame (Some (cfg, u)) t e na payload len = Fault
      else exists u1 r1 u2 r2,
        tx_result SERIAL_TX_TIMEOUT_MS (k_uptime_get u0) u0
          (sent_header t e na (tx_sequence_number cfg) len) u1 r1 /\
        tx_result SERIAL_TX_TIMEOUT_MS (k_uptime_get u1) u1 (sent_payload payload len) u2 r2 /\
        serial_send_frame (Some (cfg, u)) t e na payload len
        = Ret (Some (with_tx_seq cfg (bus_seq_next (tx_sequence_number cfg)), Some u2), 0) /\
        (TxReady U ->
         tx_wire u2 = tx_wire u0 ++ sent_header t e na (tx_sequence_number cfg) len ++ sent_payload payload len)
  end.
Proof.
  intros H0. split; [done|]. destruct u as [u0|]; [|done]. unfold serial_send_frame.
  destruct (Z.ltb_spec SERIAL_MAX_PAYLOAD_LEN len) as [|Hl]; [done|].
  rewrite mk_tx_header_sent by (unfold SERIAL_MAX_PAYLOAD_LEN in Hl; lia).
  set (hdr := sent_header _ _ _ _ _).
  destruct (serial_data_tx_spec u0 hdr) as (u1 & r1 & E1 & Hr1). rewrite E1. cbn [outcome_bind].
  destruct payload as [p|]; cbn [reads_behind sent_payload].
  2: { exists u1, r1, u1, 0. split; [done|]. split; [apply tx_result_nil|]. split; [done|].
       intros HT. rewrite app_nil_r. exact (tx_result_complete _ _ _ _ HT E1). }
  pose proof (zlen_nonneg p). destruct (Z.ltb_spec 0 len) as [Hp|Hp].
  - destruct (zlen p <? len); [done|].
    destruct (serial_data_tx_spec u1 (ztake len p)) as (u2 & r2 & E2 & Hr2). rewrite E2. cbn [outcome_bind].
    exists u1, r1, u2, r2. split; [done|]. split; [done|]. split; [done|]. intros HT.
    rewrite (tx_result_complete _ _ _ _ HT E2), (tx_result_complete _ _ _ _ HT E1). by rewrite app_assoc.
  - assert (len = 0) as -> by lia. rewrite (proj2 (Z.ltb_ge (zlen p) 0)) by lia. cbn [outcome_bind].
    rewrite ztake_0. exists u1, r1, u1, 0. split; [done|]. split; [apply tx_result_nil|]. split; [done|].
    intros HT. rewrite app_nil_r. exact (tx_result_complete _ _ _ _ HT E1).
Qed.

End Send.
