(* ===== verification/SerialInv.v ===== *)
(** * SerialInv: an invariant of the device's link state

    The device as a transition system: bytes arrive, the interrupt callback
    runs, the queued work item runs, a proxy sends a frame or changes its own
    state.  The invariant is proved by rule induction over every reachable
    state, on any platform that obeys the driver laws and with any clients. *)

From S2P Require Import Prelude Framing Platform Client SerialDev SerialRefine SerialProps.
From Stdlib Require Import ZArith Lia.
From stdpp Require Import base list option numbers decidable relations.

Open Scope Z_scope.
Open Scope e80211_scope.

(** ** The invariant *)

Definition seq_ok (s : Z) : Prop := 0 <= s <= 15.

(** The parser's place in a frame agrees with its counters. *)
Definition parser_ok (c : serial_config) : Prop :=
  match parsing_state c with
  | PARSING_STATE_TYPE => True
  | PARSING_STATE_DATA =>
      sh_length (serial_header c) <= SERIAL_MAX_PAYLOAD_LEN /\
      (sh_length (serial_header c) = 0 -> sh_type (serial_header c) = SERIAL_TYPE_PROTOCOL_INFO)
  | _ => bytes_read c = 0
  end.

Record cfg_inv (c : serial_config) : Prop := {
  inv_header : SerialHeader_wf (serial_header c);
  inv_rx_seq : seq_ok (rx_sequence_number c);
  inv_tx_seq : seq_ok (tx_sequence_number c);
  inv_bytes_read : 0 <= bytes_read c <= sh_length (serial_header c);
  inv_parser : parser_ok c;
  inv_work : work_pending c = true -> parsing_state c = PARSING_STATE_DATA
}.

(** Inside the payload loop the work item is no longer pending and the length
    is that of an accepted header. *)
Record loop_inv (c : serial_config) : Prop := {
  linv_header : SerialHeader_wf (serial_header c);
  linv_rx_seq : seq_ok (rx_sequence_number c);
  linv_tx_seq : seq_ok (tx_sequence_number c);
  linv_bytes_read : 0 <= bytes_read c <= sh_length (serial_header c);
  linv_length : sh_length (serial_header c) <= SERIAL_MAX_PAYLOAD_LEN;
  linv_state : parsing_state c = PARSING_STATE_TYPE \/
               parsing_state c = PARSING_STATE_DATA /\
               (sh_length (serial_header c) = 0 -> sh_type (serial_header c) = SERIAL_TYPE_PROTOCOL_INFO);
  linv_work : work_pending c = false
}.

Lemma loop_inv_cfg c : loop_inv c -> cfg_inv c.
Proof.
  intros [? ? ? ? ? Hs Hw]. split; try done; [|by rewrite Hw].
  unfold parser_ok. destruct Hs as [-> | [-> ?]]; done.
Qed.

Lemma seq_ok_advance s : seq_ok s -> seq_ok (serial_seq_advance s).
Proof. intros [? ?]. by apply (bus_seq_next_range s). Qed.

Lemma seq_ok_0 : seq_ok 0.
Proof. unfold seq_ok; lia. Qed.

#[export] Hint Resolve seq_ok_advance seq_ok_0 : e80211.

Lemma set_byte0_wf h b : SerialHeader_wf h -> SerialHeader_wf (SerialHeader_set_byte0 h b).
Proof.
  intros (? & ? & ? & ? & ?). unfold SerialHeader_wf, SerialHeader_set_byte0. cbn -[Z.land Z.shiftr].
  rewrite land_0xF, land_0x3. lia.
Qed.

Lemma set_byte1_wf h b : SerialHeader_wf h -> SerialHeader_wf (SerialHeader_set_byte1 h b).
Proof.
  intros (? & ? & ? & ? & ?). unfold SerialHeader_wf, SerialHeader_set_byte1. cbn -[Z.land Z.shiftr].
  rewrite !land_0xF. lia.
Qed.

Lemma set_length_wf h n :
  SerialHeader_wf h -> 0 <= n < 65536 -> SerialHeader_wf (SerialHeader_set_length h n).
Proof. intros (? & ? & ? & ? & ?) ?. done. Qed.

Lemma length_set_low_range n b :
  0 <= n < 65536 -> is_byte b -> 0 <= length_set_low n b < 65536.
Proof. unfold is_byte. intros. rewrite length_set_low_value by (unfold is_byte; lia). lia. Qed.

Lemma swap_high_range n b : 0 <= swap16 (length_set_high n b) < 65536.
Proof. rewrite swap16_value. lia. Qed.

#[export] Hint Resolve set_byte0_wf set_byte1_wf set_length_wf length_set_low_range
  swap_high_range : e80211.

Section Inv.
Context {U C : Type} `{PL : PlatformLaws U} `{Mux C}.
Implicit Types (w : dev U C).

Definition dev_inv (w : dev U C) : Prop := cfg_inv (d_cfg w) /\ bytes_ok (rx_fifo (d_uart w)).

(** ** The transition system *)

Inductive step : dev U C -> dev U C -> Prop :=
| step_arrive w bs : bytes_ok bs -> step w (dev_arrive w bs)
| step_irq fuel w w' : uart_irq_callback fuel w = Ret w' -> step w w'
| step_work fuel w w' :
    work_pending (d_cfg w) = true -> serial_work_handler fuel w = Ret w' -> step w w'
| step_send w t e na p len w' r : dev_send_frame w t e na p len = Ret (w', r) -> step w w'
| step_client w c : step w (with_cli w c).

(** ** Preservation *)

Lemma tx_frame u d u' r : serial_data_tx u d = Ret (u', r) -> rx_fifo u' = rx_fifo u.
Proof.
  intros E. destruct (serial_data_tx_returns u d) as (u1 & r1 & ? & ? & E1 & Hr & _).
  rewrite E in E1. injection E1 as <- _. done.
Qed.

Lemma send_ack_frame w t s e w' :
  send_ack w t s e = Ret w' -> d_cfg w' = d_cfg w /\ rx_fifo (d_uart w') = rx_fifo (d_uart w).
Proof.
  unfold send_ack. destruct (serial_data_tx _ _) as [[u r]| |] eqn:E; cbn [outcome_bind]; try done.
  intros [= <-]. cbn. split; [done|]. by eapply tx_frame.
Qed.

Lemma dev_send_frame_frame w t e na p len w' r :
  dev_send_frame w t e na p len = Ret (w', r) ->
  rx_fifo (d_uart w') = rx_fifo (d_uart w) /\
  (d_cfg w' = d_cfg w \/
   d_cfg w' = with_tx_seq (d_cfg w) (serial_seq_advance (tx_sequence_number (d_cfg w)))).
Proof.
  unfold dev_send_frame, serial_send_frame. split_if.
  { cbn. intros [= <- _]. auto. }
  destruct (serial_data_tx _ _) as [[u1 r1]| |] eqn:E1; cbn [outcome_bind]; try done.
  apply tx_frame in E1.
  destruct p as [p|]; [|cbn; intros [= <- _]; auto].
  destruct (0 <? len); [|cbn; intros [= <- _]; auto].
  destruct (zlen p <? len); [done|].
  destruct (serial_data_tx _ _) as [[u2 r2]| |] eqn:E2; cbn [outcome_bind]; try done.
  apply tx_frame in E2. cbn. intros [= <- _]. cbn. split; [congruence|auto].
Qed.

Lemma read_bytes_ok u n u1 bs :
  uart_fifo_read u n = (u1, RdOk bs) -> bytes_ok (rx_fifo u) ->
  bs = ztake n (rx_fifo u) /\ bytes_ok (rx_fifo u1) /\ bytes_ok bs.
Proof.
  intros E Hb. pose proof (read_result u n) as H1. pose proof (read_rx u n) as H2.
  rewrite E in H1, H2. cbn in H1, H2. injection H1 as ->. rewrite H2.
  split; [done|]. split; [by apply Forall_drop|by apply Forall_take].
Qed.

(** A state change inside a header. *)
Lemma cfg_inv_intro st h n rs ts :
  SerialHeader_wf h -> seq_ok rs -> seq_ok ts -> 0 <= n <= sh_length h ->
  parser_ok (mk_serial_config st h n rs ts false) ->
  cfg_inv (mk_serial_config st h n rs ts false).
Proof. intros. split; done. Qed.

Lemma rx_header_byte_inv w b w' :
  dev_inv w -> is_byte b -> work_pending (d_cfg w) = false ->
  parsing_state (d_cfg w) <> PARSING_STATE_DATA ->
  rx_header_byte w b = Ret w' -> dev_inv w' /\ work_pending (d_cfg w') = false.
Proof.
  destruct w as [[st h n rs ts wp] u c]. unfold dev_inv. cbn [d_cfg d_uart work_pending parsing_state].
  intros [[Hh Hr Ht Hb Hp _] Hrx] Hby -> Hs. unfold rx_header_byte, parser_ok in *.
  cbn [serial_header rx_sequence_number tx_sequence_number bytes_read parsing_state] in *.
  pose proof Hh as (_ & _ & _ & _ & Hlen).
  pose proof (swap_high_range (sh_length h) b) as Hsw.
  assert (forall n, 0 <= n < 65536 -> SerialHeader_wf (SerialHeader_set_length h n)) as Hsl
    by eauto with e80211.
  destruct st; [..|done]; dev_simpl.
  - intros [= <-]. split; [split; [|done]|done]. apply cfg_inv_intro; auto with e80211; cbn; lia.
  - intros [= <-]. split; [split; [|done]|done]. apply cfg_inv_intro; auto with e80211; cbn; lia.
  - intros [= <-]. pose proof (length_set_low_range _ _ Hlen Hby).
    split; [split; [|done]|done]. apply cfg_inv_intro; auto with e80211; cbn; lia.
  - cbv zeta. set (len := swap16 _) in *.
    destruct (len =? 0) eqn:E0; [destruct (sh_type h =? _) eqn:Et|
      destruct (SERIAL_MAX_PAYLOAD_LEN <? len) eqn:El]; reflect_bools.
    1,2,4: intros [= <-]; (split; [split; [|done]|done]); apply cfg_inv_intro; auto; cbn;
      unfold SERIAL_MAX_PAYLOAD_LEN in *; lia.
    destruct (serial_data_tx u _) as [[u1 r1]| |] eqn:E1; cbn [outcome_bind]; try done.
    apply tx_frame in E1. intros [= <-]. cbn [d_uart]. rewrite E1.
    split; [split; [|done]|done]. apply cfg_inv_intro; auto; cbn; lia.
Qed.

Lemma rx_header_loop_inv fuel w w' :
  dev_inv w -> rx_header_loop fuel w = Ret w' -> dev_inv w'.
Proof.
  intros Hi. destruct (decide (parsing_state (d_cfg w) = PARSING_STATE_DATA)) as [Hd|Hd].
  { destruct fuel; [done|]. cbn [rx_header_loop]. rewrite bool_decide_eq_true_2 by done.
    by intros [= <-]. }
  assert (work_pending (d_cfg w) = false) as Hw.
  { destruct (work_pending (d_cfg w)) eqn:E; [|done]. by apply Hi in E. }
  clear Hd. revert w Hi Hw. induction fuel as [|fuel IH]; intros w Hi Hw; [done|].
  cbn [rx_header_loop]. case_bool_decide as Hd; [by intros [= <-]|].
  destruct Hi as [Hc Hrx].
  destruct (uart_fifo_read (d_uart w) 1) as [u1 r] eqn:E.
  assert (bytes_ok (rx_fifo u1)) as Hr1.
  { pose proof (read_rx (d_uart w) 1) as H2. rewrite E in H2. cbn in H2. rewrite H2.
    by apply Forall_drop. }
  destruct r as [[|b [|? ?]]|]; try (by intros [= <-]).
  destruct (read_bytes_ok _ _ _ _ E Hrx) as (_ & _ & Hb).
  destruct (rx_header_byte (with_uart w u1) b) as [w1| |] eqn:E1; cbn [outcome_bind]; try done.
  apply rx_header_byte_inv in E1 as [Hi1 Hw1]; try done; [by apply IH|].
  by inversion Hb.
Qed.

Lemma uart_irq_callback_inv fuel w w' :
  dev_inv w -> uart_irq_callback fuel w = Ret w' -> dev_inv w'.
Proof.
  intros Hi. unfold uart_irq_callback.
  destruct (rx_header_loop fuel w) as [w1| |] eqn:E; cbn [outcome_bind]; try done.
  apply rx_header_loop_inv in E as [[] ?]; [|done].
  case_bool_decide; intros [= <-]; (split; [|done]); by split.
Qed.

(** *** The payload loop *)

Definition wloop_inv (w : dev U C) : Prop := loop_inv (d_cfg w) /\ bytes_ok (rx_fifo (d_uart w)).

Lemma reset_parser_inv w : wloop_inv w -> wloop_inv (reset_parser w).
Proof. intros [[] ?]. split; [|done]. split; cbn; try done; [lia|by left]. Qed.

Lemma clear_length_inv w :
  wloop_inv w -> bytes_read (d_cfg w) = 0 -> parsing_state (d_cfg w) = PARSING_STATE_TYPE ->
  wloop_inv (clear_length w).
Proof.
  intros [[] ?] Hb Hs. split; [|done]. split; cbn; unfold SERIAL_MAX_PAYLOAD_LEN; try (done || lia).
  - by apply set_length_wf.
  - by left.
Qed.

Lemma send_ack_inv w t s e w' : wloop_inv w -> send_ack w t s e = Ret w' -> wloop_inv w'.
Proof. intros [Hl Hr] [E1 E2]%send_ack_frame. unfold wloop_inv. by rewrite E1, E2. Qed.

Lemma handle_protocol_info_inv w w' : wloop_inv w -> handle_protocol_info w = Ret w' -> wloop_inv w'.
Proof.
  intros [Hl Hr]. unfold handle_protocol_info.
  destruct (dev_send_frame _ _ _ _ _ _) as [[w1 r]| |] eqn:E; cbn [outcome_bind]; try done.
  intros [= <-]. apply dev_send_frame_frame in E as [E1 E2]. unfold wloop_inv. rewrite E1.
  split; [|done]. destruct Hl, E2 as [-> | ->]; split; cbn; auto with e80211.
Qed.

Lemma wloop_read w n u1 bs :
  wloop_inv w -> n <= sh_length (serial_header (d_cfg w)) - bytes_read (d_cfg w) ->
  uart_fifo_read (d_uart w) n = (u1, RdOk bs) ->
  wloop_inv (with_cfg (with_uart w u1) (with_bytes_read (d_cfg w) (bytes_read (d_cfg w) + zlen bs))).
Proof.
  intros [[] Hr] Hn E. destruct (read_bytes_ok _ _ _ _ E Hr) as (-> & Hr1 & _).
  split; [|done]. pose proof (zlen_nonneg (ztake n (rx_fifo (d_uart w)))).
  split; cbn; try done. rewrite zlen_ztake in *. lia.
Qed.

Lemma wloop_uart w n :
  wloop_inv w -> wloop_inv (with_uart w (fst (uart_fifo_read (d_uart w) n))).
Proof. intros [Hl Hr]. split; [done|]. cbn. rewrite read_rx. by apply Forall_drop. Qed.

Lemma read_discard_inv w n w1 r :
  wloop_inv w -> n <= sh_length (serial_header (d_cfg w)) - bytes_read (d_cfg w) ->
  read_discard w n = (w1, r) -> wloop_inv w1.
Proof.
  intros Hi Hn. unfold read_discard. pose proof (wloop_uart w (Z.min n 64) Hi) as Hu.
  destruct (uart_fifo_read (d_uart w) (Z.min n 64)) as [u1 [bs|e]] eqn:E; intros [= <- _].
  - eapply wloop_read in E; [exact E|done|lia].
  - exact Hu.
Qed.

Definition flow_inv (x : flow U C) : Prop :=
  match x with Continue w _ => wloop_inv w | Break w => wloop_inv w end.

Lemma work_discard_inv w db x :
  wloop_inv w ->
  work_protocol_info w db = Ret x \/ work_no_callback w db = Ret x -> flow_inv x.
Proof.
  intros Hi Hx. unfold work_protocol_info, work_no_callback in Hx.
  destruct (read_discard w _) as [w1 r] eqn:E. apply read_discard_inv in E; [|done|done].
  destruct r as [n|]; [|destruct Hx as [[= <-]|[= <-]]; done].
  destruct (_ <=? _); [|destruct Hx as [[= <-]|[= <-]]; done].
  destruct Hx as [Hx|Hx].
  - destruct (handle_protocol_info w1) as [w2| |] eqn:E2; cbn [outcome_bind] in Hx; try done.
    apply handle_protocol_info_inv in E2; [|done]. injection Hx as <-.
    by apply clear_length_inv; [apply reset_parser_inv|..].
  - destruct (send_ack w1 _ _ _) as [w2| |] eqn:E2; cbn [outcome_bind] in Hx; try done.
    apply send_ack_inv in E2; [|done]. injection Hx as <-. by apply reset_parser_inv.
Qed.

Lemma wloop_cli w c : wloop_inv w -> wloop_inv (with_cli w c).
Proof. done. Qed.

Lemma wloop_rx_seq w n : wloop_inv w -> seq_ok n -> wloop_inv (with_cfg w (with_rx_seq (d_cfg w) n)).
Proof. intros [[] ?] ?. split; [|done]. by split. Qed.

Lemma work_packet_complete_inv cb w w' :
  wloop_inv w -> work_packet_complete cb w = Ret w' -> wloop_inv w'.
Proof.
  intros Hi. unfold work_packet_complete.
  match goal with |- outcome_bind ?m _ = _ -> _ => destruct m as [w1| |] eqn:E end;
    cbn [outcome_bind]; try done.
  intros [= <-]. apply reset_parser_inv. revert E. split_if.
  - destruct (send_ack w _ _ _) as [w2| |] eqn:E2; cbn [outcome_bind]; try done.
    intros [= <-]. apply wloop_rx_seq; [by eapply send_ack_inv|auto with e80211].
  - destruct (message_complete cb _ _) as [c2| |]; cbn [outcome_bind]; try done.
    assert (wloop_inv (with_cfg (with_cli w c2) (with_rx_seq (d_cfg (with_cli w c2))
       (serial_seq_advance (rx_sequence_number (d_cfg w)))))) as Hi2
      by (apply wloop_rx_seq; [done|apply seq_ok_advance, Hi]).
    split_if; [by apply send_ack_inv|by intros [= <-]].
Qed.

Lemma work_client_inv cb w db x : wloop_inv w -> work_client cb w db = Ret x -> flow_inv x.
Proof.
  intros Hi. unfold work_client.
  destruct (acquire_buffer cb _ _) as [|stored].
  { destruct (send_ack w _ _ _) as [w2| |] eqn:E2; cbn [outcome_bind]; try done.
    intros [= <-]. apply reset_parser_inv. by eapply send_ack_inv. }
  set (n := sh_length _ - _). pose proof (wloop_uart w n Hi) as Hu.
  destruct (uart_fifo_read (d_uart w) n) as [u1 [[|b bs]|e]] eqn:E; [by intros [= <-]| |by intros [= <-]].
  destruct (match stored with Some _ => _ | None => _ end) as [off|]; [|done].
  destruct (buffer_store cb _ _ _) as [c1|]; [|done].
  eapply wloop_read in E; [|done|done]. apply (wloop_cli _ c1) in E.
  cbv zeta. split_if.
  - destruct (work_packet_complete cb _) as [w2| |] eqn:Ew; cbn [outcome_bind]; try done.
    intros [= <-]. eapply work_packet_complete_inv; [exact E|exact Ew].
  - by intros [= <-].
Qed.

Lemma work_loop_inv fuel t cbs w db w' :
  wloop_inv w -> work_loop fuel t cbs w db = Ret w' -> wloop_inv w'.
Proof.
  revert w db. induction fuel as [|fuel IH]; intros w db Hi; [done|]. cbn [work_loop].
  split_if; [|by intros [= <-]].
  destruct (work_body t cbs w db) as [x| |] eqn:E; cbn [outcome_bind]; try done.
  assert (flow_inv x) as Hx.
  { unfold work_body in E. repeat split_if; [eapply work_discard_inv; eauto..|].
    destruct cbs; [eapply work_client_inv; eauto|eapply work_discard_inv; eauto]. }
  destruct x as [w1 db1|w1]; [apply IH; exact Hx|by intros [= <-]].
Qed.

Lemma serial_work_handler_inv fuel w w' :
  dev_inv w -> work_pending (d_cfg w) = true -> serial_work_handler fuel w = Ret w' -> dev_inv w'.
Proof.
  intros [[Hh Hr Ht Hb Hp Hw] Hrx] Hwp.
  assert (wloop_inv (with_cfg w (with_work (d_cfg w) false))) as Hi.
  { unfold parser_ok in Hp. rewrite (Hw Hwp) in Hp. split; [|done].
    split; cbn; try done; [apply Hp|]. right. split; [auto|apply Hp]. }
  unfold serial_work_handler. cbv zeta. split_if.
  - destruct (handle_protocol_info _) as [w1| |] eqn:E; cbn [outcome_bind]; try done.
    apply handle_protocol_info_inv in E; [|done]. intros [= <-].
    destruct (clear_length_inv _ (reset_parser_inv _ E)) as [Hc ?]; try done.
    split; [by apply loop_inv_cfg|done].
  - destruct (work_loop _ _ _ _ _) as [w1| |] eqn:E; cbn [outcome_bind]; try done.
    apply work_loop_inv in E as [Hc ?]; [|done]. intros [= <-].
    split; [by apply loop_inv_cfg|]. cbn. by rewrite enable_rx.
Qed.

Lemma step_preserves w w' : step w w' -> dev_inv w -> dev_inv w'.
Proof.
  destruct 1 as [w bs Hbs|fuel w w' E|fuel w w' Hw E|w t e na p len w' r E|w c]; intros Hi.
  - destruct Hi. split; [done|]. cbn. rewrite arrive_rx. by apply Forall_app.
  - by eapply uart_irq_callback_inv.
  - by eapply serial_work_handler_inv.
  - apply dev_send_frame_frame in E as [E1 E2]. destruct Hi as [[] ?].
    unfold dev_inv. rewrite E1. split; [|done].
    destruct E2 as [-> | ->]; split; cbn; auto with e80211.
  - done.
Qed.

(** C16. Invariant of every reachable state: from [initialize_uart] on a zeroed
    configuration, through any interleaving of arriving bytes, interrupts, work
    items, transmissions and client activity, the header fields stay within
    their widths, both sequence numbers within 0..15, [bytes_read] between 0 and
    the length (so [length - bytes_read] never wraps as a [size_t]), a header in
    progress has read no payload, the payload state is only entered with a length
    of at most 4096 that is not 0 (PROTOCOL_INFO apart), and the work item is
    only pending in that state. *)
Theorem device_invariant (w0 w : dev U C) :
  serial_header (d_cfg w0) = SerialHeader_zero -> bytes_ok (rx_fifo (d_uart w0)) ->
  rtc step (initialize_uart w0) w -> dev_inv w.
Proof.
  intros Hh Hrx Hr. assert (dev_inv (initialize_uart w0)) as Hi.
  { split; [|cbn; by rewrite enable_rx]. cbn. rewrite Hh.
    apply cfg_inv_intro; auto with e80211; unfold SerialHeader_wf; cbn; lia. }
  revert Hi. induction Hr as [|w1 w2 w3 Hs Hr IH]; [done|]. intros Hi.
  by apply IH, (step_preserves w1).
Qed.

End Inv.
