(* ===== verification/Multiplexer.v ===== *)
(** * Multiplexer: routing of traffic types, [device/multiplexer.c]

    The Kconfig options that [#if] selects are a record of booleans, so that the
    theorems quantify over every build.  The proxies' callbacks are a record of
    [client_ops]; the table [mux_callbacks] and everything derived from it (the
    lookup, the supported-types mask, the [Mux] instance the serial layer uses)
    are computed from the two.  The interface table holds pointers to the
    transports' [serial_config] structs: a pointer is an index into the store of
    configurations, so that the table and the transport driver share the struct
    as in the code. *)

From S2P Require Import Prelude Framing Platform Client SerialDev.
From Stdlib Require Import ZArith Lia.
From stdpp Require Import base list option numbers decidable.

Open Scope Z_scope.
Open Scope e80211_scope.

(** ** Build configuration *)

Record Kconfig : Type := mk_Kconfig {
  CONFIG_SERIAL_PROXY_WIFI_MGMT : bool;
  CONFIG_SERIAL_PROXY_WIFI_DATA : bool;
  CONFIG_SERIAL_PROXY_NET_IF_MGMT : bool;
  CONFIG_SERIAL_PROXY_BT : bool;
  CONFIG_SERIAL_PROXY_OT : bool;
  CONFIG_SERIAL_PROXY_VSERIAL : bool;
  CONFIG_SERIAL_MUX_IFACE_UART : bool;
  CONFIG_SERIAL_MUX_IFACE_USB : bool;
  CONFIG_SERIAL_MUX_WIFI_MGMT_IFACE_USB : bool;
  CONFIG_SERIAL_MUX_WIFI_DATA_IFACE_USB : bool;
  CONFIG_SERIAL_MUX_NET_IF_MGMT_IFACE_USB : bool;
  CONFIG_SERIAL_MUX_BT_IFACE_USB : bool;
  CONFIG_SERIAL_MUX_OT_IFACE_USB : bool;
  CONFIG_SERIAL_MUX_VSERIAL_IFACE_USB : bool
}.

(** The proxies' callback functions. *)
Record proxies (C : Type) : Type := mk_proxies {
  wifi_mgmt_ops : client_ops C;
  wifi_data_ops : client_ops C;
  net_if_mgmt_ops : client_ops C;
  bt_proxy_ops : client_ops C;
  ot_proxy_ops : client_ops C;
  vserial_ops : client_ops C
}.
Arguments mk_proxies {C} _ _ _ _ _ _.
Arguments wifi_mgmt_ops {C} _.
Arguments wifi_data_ops {C} _.
Arguments net_if_mgmt_ops {C} _.
Arguments bt_proxy_ops {C} _.
Arguments ot_proxy_ops {C} _.
Arguments vserial_ops {C} _.

(** ** Callback table *)

Section Table.
Context {C : Type} (K : Kconfig) (P : proxies C).

(** An entry of the table: an initialiser, or the zero entry of a static array. *)
Definition entry_of (ops : client_ops C) : client_callbacks C :=
  {| cb_acquire_buffer := Some (acquire_buffer ops);
     cb_commit_data := Some (commit_data ops);
     cb_message_complete := Some (message_complete ops);
     cb_store := buffer_store ops |}.

Definition entry_null : client_callbacks C :=
  mk_client_callbacks None None None (fun _ _ _ => None).

Definition entry_if (enabled : bool) (ops : client_ops C) : client_callbacks C :=
  if enabled then entry_of ops else entry_null.

(** [mux_callbacks[SERIAL_TYPE_UNKNOWN]], in the order of the indices. *)
Definition mux_callbacks : list (client_callbacks C) :=
  [ entry_if (CONFIG_SERIAL_PROXY_WIFI_MGMT K) (wifi_mgmt_ops P);
    entry_if (CONFIG_SERIAL_PROXY_WIFI_DATA K) (wifi_data_ops P);
    entry_if (CONFIG_SERIAL_PROXY_NET_IF_MGMT K) (net_if_mgmt_ops P);
    entry_if (CONFIG_SERIAL_PROXY_BT K) (bt_proxy_ops P);
    entry_if (CONFIG_SERIAL_PROXY_OT K) (ot_proxy_ops P);
    entry_null;
    entry_null;
    entry_null;
    entry_if (CONFIG_SERIAL_PROXY_VSERIAL K) (vserial_ops P) ].

Definition serial_mux_get_callbacks (type : Z) : option (client_ops C) :=
  if SERIAL_TYPE_UNKNOWN <=? type then None
  else
    match mux_callbacks !! Z.to_nat type with
    | Some (mk_client_callbacks (Some acq) (Some com) (Some msg) store) =>
        Some (mk_client_ops acq com msg store)
    | _ => None
    end.

Definition serial_mux_supported_types_mask : Z :=
  let mask :=
    fold_left
      (fun mask i =>
         match serial_mux_get_callbacks i with
         | Some _ => u16 (Z.lor mask (u16 (Z.shiftl 1 i)))
         | None => mask
         end)
      (seqZ 0 SERIAL_TYPE_UNKNOWN) 0 in
  u16 (Z.lor mask (u16 (Z.shiftl 1 SERIAL_TYPE_PROTOCOL_INFO))).

(** What the serial layer is given. *)
Definition MuxDevice : Mux C :=
  {| get_callbacks := serial_mux_get_callbacks;
     supported_types_mask := serial_mux_supported_types_mask |}.

(** The types with a proxy in this build. *)
Definition proxy_enabled (type : Z) : bool :=
  (type =? SERIAL_TYPE_WIFI_MGMT) && CONFIG_SERIAL_PROXY_WIFI_MGMT K
  || (type =? SERIAL_TYPE_WIFI_DATA) && CONFIG_SERIAL_PROXY_WIFI_DATA K
  || (type =? SERIAL_TYPE_NET_IF_MGMT) && CONFIG_SERIAL_PROXY_NET_IF_MGMT K
  || (type =? SERIAL_TYPE_HCI) && CONFIG_SERIAL_PROXY_BT K
  || (type =? SERIAL_TYPE_THREAD) && CONFIG_SERIAL_PROXY_OT K
  || (type =? SERIAL_TYPE_VSERIAL) && CONFIG_SERIAL_PROXY_VSERIAL K.

End Table.

(** ** Interfaces *)

Definition SERIAL_MUX_IFACE_UART : Z := 0.
Definition SERIAL_MUX_IFACE_USB : Z := 1.
Definition SERIAL_MUX_IFACE_COUNT : Z := 2.

Record mux_iface_entry : Type := mk_mux_iface_entry {
  registered : bool;
  me_dev : option nat;     (* [const struct device *] *)
  me_config : option nat   (* [struct serial_config *] *)
}.

Definition mux_iface_zero : mux_iface_entry := mk_mux_iface_entry false None None.

(** The static table and the configurations its pointers refer to. *)
Record mux_state (U : Type) : Type := mk_mux_state {
  mux_ifaces : list mux_iface_entry;
  mux_configs : list (serial_config * option U)
}.
Arguments mk_mux_state {U} _ _.
Arguments mux_ifaces {U} _.
Arguments mux_configs {U} _.

Definition serial_mux_iface_enabled (K : Kconfig) (iface_id : Z) : bool :=
  if iface_id =? SERIAL_MUX_IFACE_UART then CONFIG_SERIAL_MUX_IFACE_UART K
  else if iface_id =? SERIAL_MUX_IFACE_USB then CONFIG_SERIAL_MUX_IFACE_USB K
  else false.

Definition serial_mux_route_for_type (K : Kconfig) (type : Z) : Z :=
  let pick (usb : bool) := if usb then SERIAL_MUX_IFACE_USB else SERIAL_MUX_IFACE_UART in
  if type =? SERIAL_TYPE_WIFI_MGMT then pick (CONFIG_SERIAL_MUX_WIFI_MGMT_IFACE_USB K)
  else if type =? SERIAL_TYPE_WIFI_DATA then pick (CONFIG_SERIAL_MUX_WIFI_DATA_IFACE_USB K)
  else if type =? SERIAL_TYPE_NET_IF_MGMT then pick (CONFIG_SERIAL_MUX_NET_IF_MGMT_IFACE_USB K)
  else if type =? SERIAL_TYPE_HCI then pick (CONFIG_SERIAL_MUX_BT_IFACE_USB K)
  else if type =? SERIAL_TYPE_THREAD then pick (CONFIG_SERIAL_MUX_OT_IFACE_USB K)
  else if type =? SERIAL_TYPE_VSERIAL then pick (CONFIG_SERIAL_MUX_VSERIAL_IFACE_USB K)
  else SERIAL_MUX_IFACE_UART.

Section Ifaces.
Context {U : Type} (K : Kconfig).

Definition serial_mux_register_interface (m : mux_state U) (iface_id : Z)
    (dev config : option nat) : mux_state U * Z :=
  match dev, config with
  | Some d, Some c =>
      if (SERIAL_MUX_IFACE_COUNT <=? iface_id) then (m, - EINVAL)
      else if negb (serial_mux_iface_enabled K iface_id) then (m, - ENOTSUP)
      else
        (mk_mux_state
           (<[Z.to_nat iface_id := mk_mux_iface_entry true (Some d) (Some c)]> (mux_ifaces m))
           (mux_configs m), 0)
  | _, _ => (m, - EINVAL)
  end.

Definition serial_mux_send `{Platform U} (m : mux_state U) (type : Z)
    (payload : option (list Z)) (len : Z) : outcome (mux_state U * Z) :=
  let iface_id := serial_mux_route_for_type K type in
  let entry := default mux_iface_zero (mux_ifaces m !! Z.to_nat iface_id) in
  match me_config entry with
  | Some c =>
      if (SERIAL_MUX_IFACE_COUNT <=? iface_id) || negb (registered entry) then Ret (m, - ENODEV)
      else
        do! (config, ret) <- serial_send_frame (mux_configs m !! c) type ERROR_TYPE_NO_ERROR
                               false payload len;
        match config with
        | Some cfg => Ret (mk_mux_state (mux_ifaces m) (<[c := cfg]> (mux_configs m)), ret)
        | None => Ret (m, ret)
        end
  | None => Ret (m, - ENODEV)
  end.

End Ifaces.

(** ** The transports' start-up: [init_uart] of [uart.c], [init_serial_usb] of
    [serial_usb.c]

    Each has its own static [serial_config] (indices 0 and 1 of the store) and
    its own UART device. *)

Definition UART_CONFIG : nat := 0.
Definition USB_CONFIG : nat := 1.

Section Init.
Context {U : Type} `{Platform U} (K : Kconfig).

(** [initialize_uart] on the configuration a pointer refers to. *)
Definition initialize_config (m : mux_state U) (c : nat) : mux_state U :=
  match mux_configs m !! c with
  | Some (cfg, Some u) =>
      let w := initialize_uart (mk_dev cfg u tt) in
      mk_mux_state (mux_ifaces m) (<[c := (d_cfg w, Some (d_uart w))]> (mux_configs m))
  | _ => m
  end.

Definition init_uart (m : mux_state U) (device_is_ready : bool) : mux_state U * Z :=
  if negb device_is_ready then (m, - ENODEV)
  else
    let m1 := initialize_config m UART_CONFIG in
    (fst (serial_mux_register_interface K m1 SERIAL_MUX_IFACE_UART (Some 0%nat) (Some UART_CONFIG)), 0).

Definition init_serial_usb (m : mux_state U) (device_is_ready : bool) : mux_state U * Z :=
  if negb device_is_ready then (m, - ENODEV)
  else
    let m1 := initialize_config m USB_CONFIG in
    (fst (serial_mux_register_interface K m1 SERIAL_MUX_IFACE_USB (Some 1%nat) (Some USB_CONFIG)), 0).

(** Static memory before [SYS_INIT]. *)
Definition serial_config_zero : serial_config :=
  mk_serial_config PARSING_STATE_TYPE SerialHeader_zero 0 0 0 false.

Definition mux_boot (uart usb : U) : mux_state U :=
  mk_mux_state [mux_iface_zero; mux_iface_zero]
    [(serial_config_zero, Some uart); (serial_config_zero, Some usb)].

(** Both [SYS_INIT] functions, with ready devices. *)
Definition mux_start (uart usb : U) : mux_state U :=
  fst (init_serial_usb (fst (init_uart (mux_boot uart usb) true)) true).

End Init.

(** ** Properties *)

Section MuxProps.
Context {C : Type} (K : Kconfig) (P : proxies C).

Lemma type_cases t :
  0 <= t < SERIAL_TYPE_UNKNOWN ->
  t = 0 \/ t = 1 \/ t = 2 \/ t = 3 \/ t = 4 \/ t = 5 \/ t = 6 \/ t = 7 \/ t = 8.
Proof. unfold SERIAL_TYPE_UNKNOWN. lia. Qed.

Lemma get_callbacks_enabled t :
  0 <= t -> is_Some (serial_mux_get_callbacks K P t) <-> proxy_enabled K t = true.
Proof.
  intros Ht. destruct (Z.leb_spec SERIAL_TYPE_UNKNOWN t) as [Hu|Hu].
  - unfold serial_mux_get_callbacks, SERIAL_TYPE_UNKNOWN in *. rewrite (proj2 (Z.leb_le _ _)) by done.
    unfold proxy_enabled, SERIAL_TYPE_WIFI_MGMT, SERIAL_TYPE_WIFI_DATA, SERIAL_TYPE_NET_IF_MGMT,
      SERIAL_TYPE_HCI, SERIAL_TYPE_THREAD, SERIAL_TYPE_VSERIAL. decide_cmp.
    split; [by intros [? [=]] | done].
  - destruct (type_cases t (conj Ht Hu)) as [->|[->|[->|[->|[->|[->|[->|[->| ->]]]]]]]];
      unfold serial_mux_get_callbacks, mux_callbacks, proxy_enabled, entry_if;
      destruct K; cbn; repeat match goal with |- context [?b] => is_var b; match type of b with bool => destruct b end end; cbn;
      (split; [by intros [? Hs] | intros; (done || by eexists)]).
Qed.

(** The client of each enabled type. *)
Lemma get_callbacks_table :
  (CONFIG_SERIAL_PROXY_WIFI_MGMT K = true ->
   serial_mux_get_callbacks K P SERIAL_TYPE_WIFI_MGMT = Some (wifi_mgmt_ops P)) /\
  (CONFIG_SERIAL_PROXY_WIFI_DATA K = true ->
   serial_mux_get_callbacks K P SERIAL_TYPE_WIFI_DATA = Some (wifi_data_ops P)) /\
  (CONFIG_SERIAL_PROXY_NET_IF_MGMT K = true ->
   serial_mux_get_callbacks K P SERIAL_TYPE_NET_IF_MGMT = Some (net_if_mgmt_ops P)) /\
  (CONFIG_SERIAL_PROXY_BT K = true ->
   serial_mux_get_callbacks K P SERIAL_TYPE_HCI = Some (bt_proxy_ops P)) /\
  (CONFIG_SERIAL_PROXY_OT K = true ->
   serial_mux_get_callbacks K P SERIAL_TYPE_THREAD = Some (ot_proxy_ops P)) /\
  (CONFIG_SERIAL_PROXY_VSERIAL K = true ->
   serial_mux_get_callbacks K P SERIAL_TYPE_VSERIAL = Some (vserial_ops P)).
Proof.
  destruct P as [[] [] [] [] [] []].
  repeat split; intros E; unfold serial_mux_get_callbacks, mux_callbacks; rewrite E; reflexivity.
Qed.

(** The mask as the sum over the enabled proxies. *)
Lemma supported_types_mask_value :
  serial_mux_supported_types_mask K P =
  128 + Z.b2z (CONFIG_SERIAL_PROXY_WIFI_MGMT K) + 2 * Z.b2z (CONFIG_SERIAL_PROXY_WIFI_DATA K)
  + 4 * Z.b2z (CONFIG_SERIAL_PROXY_NET_IF_MGMT K) + 8 * Z.b2z (CONFIG_SERIAL_PROXY_BT K)
  + 16 * Z.b2z (CONFIG_SERIAL_PROXY_OT K) + 256 * Z.b2z (CONFIG_SERIAL_PROXY_VSERIAL K).
Proof. destruct K as [[] [] [] [] [] [] ? ? ? ? ? ? ? ?]; reflexivity. Qed.

Lemma supported_types_mask_range : 0 <= serial_mux_supported_types_mask K P < 512.
Proof.
  rewrite supported_types_mask_value.
  destruct K as [[] [] [] [] [] [] ? ? ? ? ? ? ? ?]; cbn; lia.
Qed.

(** C17. The advertised mask is exact: bit [t] is set for PROTOCOL_INFO and for
    exactly those types whose frames find a client, in every build; it fits the
    two bytes it is sent in. *)
Theorem supported_types_mask_spec (t : Z) :
  0 <= t ->
  0 <= serial_mux_supported_types_mask K P < 2 ^ 16 /\
  Z.testbit (serial_mux_supported_types_mask K P) t
  = (t =? SERIAL_TYPE_PROTOCOL_INFO) || bool_decide (is_Some (serial_mux_get_callbacks K P t)).
Proof.
  intros Ht. split; [pose proof supported_types_mask_range; lia|].
  rewrite (bool_decide_ext _ _ (get_callbacks_enabled t Ht)).
  destruct (Z.leb_spec SERIAL_TYPE_UNKNOWN t) as [Hu|Hu].
  - rewrite (Z.bits_above_log2 (serial_mux_supported_types_mask K P)).
    + unfold proxy_enabled, SERIAL_TYPE_UNKNOWN, SERIAL_TYPE_PROTOCOL_INFO, SERIAL_TYPE_WIFI_MGMT,
        SERIAL_TYPE_WIFI_DATA, SERIAL_TYPE_NET_IF_MGMT, SERIAL_TYPE_HCI, SERIAL_TYPE_THREAD,
        SERIAL_TYPE_VSERIAL in *. by decide_cmp.
    + apply supported_types_mask_range.
    + pose proof supported_types_mask_range as [? ?].
      destruct (Z.eq_dec (serial_mux_supported_types_mask K P) 0) as [-> |]; [cbn; unfold SERIAL_TYPE_UNKNOWN in *; lia|].
      apply Z.log2_lt_pow2; [lia|]. apply Z.lt_le_trans with (2 ^ 9); [cbn; lia|].
      apply Z.pow_le_mono_r; unfold SERIAL_TYPE_UNKNOWN in *; lia.
  - rewrite supported_types_mask_value.
    destruct K as [[] [] [] [] [] [] ? ? ? ? ? ? ? ?], (type_cases t (conj Ht Hu)) as
      [->|[->|[->|[->|[->|[->|[->|[->| ->]]]]]]]]; reflexivity.
Qed.

End MuxProps.

Section Routing.
Context {U : Type} `{PL : PlatformLaws U} `{!TxReady U} (K : Kconfig).

(** What the choice menus of the Kconfig file guarantee: a proxy is only routed
    to an enabled interface. *)
Definition kconfig_wf : Prop :=
  forall t, proxy_enabled K t = true ->
    serial_mux_iface_enabled K (serial_mux_route_for_type K t) = true.

Lemma serial_send_frame_ready cfg u t e na p :
  zlen p <= SERIAL_MAX_PAYLOAD_LEN ->
  exists u', serial_send_frame (Some (cfg, Some u)) t e na (Some p) (zlen p)
    = Ret (Some (with_tx_seq cfg (serial_seq_advance (tx_sequence_number cfg)), Some u'), 0) /\
    rx_fifo u' = rx_fifo u /\
    tx_wire u' = tx_wire u ++ SerialHeader_mem (mk_tx_header t e na (tx_sequence_number cfg) (zlen p)) ++ p.
Proof.
  intros Hp. unfold serial_send_frame. rewrite (proj2 (Z.ltb_ge _ _)) by lia.
  destruct (serial_data_tx_ready u (SerialHeader_mem (mk_tx_header t e na (tx_sequence_number cfg) (zlen p))))
    as (u1 & -> & Hr1 & Ht1). cbn [outcome_bind].
  rewrite Z.ltb_irrefl, ztake_ge by lia.
  destruct (Z.ltb_spec 0 (zlen p)) as [H0|H0].
  - destruct (serial_data_tx_ready u1 p) as (u2 & -> & Hr2 & Ht2). cbn [outcome_bind].
    exists u2. split; [done|]. split; [congruence|]. by rewrite Ht2, Ht1, app_assoc.
  - assert (p = []) as -> by (apply zlen_zero; pose proof (zlen_nonneg p); lia).
    cbn [outcome_bind]. exists u1. split; [done|]. split; [done|]. by rewrite Ht1, app_nil_r.
Qed.

Lemma mux_start_entry t uart usb :
  serial_mux_iface_enabled K (serial_mux_route_for_type K t) = true ->
  let i := Z.to_nat (serial_mux_route_for_type K t) in
  mux_ifaces (mux_start K uart usb) !! i = Some (mk_mux_iface_entry true (Some i) (Some i)) /\
  (i < 2)%nat /\ serial_mux_route_for_type K t < SERIAL_MUX_IFACE_COUNT.
Proof.
  set (r := serial_mux_route_for_type K t).
  assert (r = 0 \/ r = 1) as Hr.
  { subst r. unfold serial_mux_route_for_type. repeat split_if; auto. }
  unfold serial_mux_iface_enabled, mux_start, init_serial_usb, init_uart,
    serial_mux_register_interface, SERIAL_MUX_IFACE_COUNT, SERIAL_MUX_IFACE_UART, SERIAL_MUX_IFACE_USB.
  destruct Hr as [-> | ->]; cbn; intros ->; cbn;
    [destruct (CONFIG_SERIAL_MUX_IFACE_USB K) | destruct (CONFIG_SERIAL_MUX_IFACE_UART K)]; cbn;
    (split; [done | split; [lia | done]]).
Qed.

Lemma mux_start_configs uart usb :
  mux_configs (mux_start K uart usb) =
  [(serial_config_zero, Some (uart_irq_rx_enable uart)); (serial_config_zero, Some (uart_irq_rx_enable usb))].
Proof.
  unfold mux_start, init_serial_usb, init_uart, serial_mux_register_interface,
    serial_mux_iface_enabled. cbn.
  destruct (CONFIG_SERIAL_MUX_IFACE_UART K), (CONFIG_SERIAL_MUX_IFACE_USB K); reflexivity.
Qed.

(** C18. Egress after start-up: in a build where the menus hold, once both
    transports have started, a frame of an enabled proxy's type is sent in full
    (header, then payload) on the interface configured for that type and on no
    other, that interface's sequence number advances, and the call returns 0. *)
Theorem mux_send_routed (uart usb : U) (t : Z) (p : list Z) :
  kconfig_wf -> proxy_enabled K t = true -> zlen p <= SERIAL_MAX_PAYLOAD_LEN ->
  let i := Z.to_nat (serial_mux_route_for_type K t) in
  let u := if (i =? 0)%nat then uart else usb in
  exists u', serial_mux_send K (mux_start K uart usb) t (Some p) (zlen p)
    = Ret (mk_mux_state (mux_ifaces (mux_start K uart usb))
             (<[i := (with_tx_seq serial_config_zero 1, Some u')]>
                (mux_configs (mux_start K uart usb))), 0) /\
    rx_fifo u' = rx_fifo u /\
    tx_wire u' = tx_wire u
      ++ SerialHeader_mem (mk_tx_header t ERROR_TYPE_NO_ERROR false 0 (zlen p)) ++ p.
Proof.
  intros Hk He Hp i u. destruct (mux_start_entry t uart usb (Hk t He)) as (Hent & Hi & Hr).
  fold i in Hent, Hi. unfold serial_mux_send. fold i. rewrite Hent. cbv zeta. cbn [from_option id me_config registered].
  rewrite (proj2 (Z.leb_gt _ _)) by done. cbn [orb negb].
  assert (mux_configs (mux_start K uart usb) !! i
          = Some (serial_config_zero, Some (uart_irq_rx_enable u))) as ->.
  { rewrite mux_start_configs. subst u. destruct i as [|[|i]]; [done|done|lia]. }
  destruct (serial_send_frame_ready serial_config_zero (uart_irq_rx_enable u) t
              ERROR_TYPE_NO_ERROR false p Hp) as (u' & -> & Hrx & Htx).
  exists u'. split; [done|]. rewrite Hrx, Htx, enable_rx, enable_tx. done.
Qed.

End Routing.

(** The default build of the nRF7002 DK: every proxy, both interfaces, egress on
    USB. *)
Definition Kconfig_default : Kconfig :=
  mk_Kconfig true true true true true true true true true true true true true true.

Lemma kconfig_default_wf : kconfig_wf Kconfig_default.
Proof.
  intros t. unfold proxy_enabled, serial_mux_route_for_type. cbn.
  repeat split_if; done.
Qed.

(** A build with a stub client behind every enabled proxy. *)
Definition stub_ops : client_ops unit :=
  mk_client_ops (fun _ _ => AcqFail) (fun c _ => c) (fun c _ => Ret c) (fun _ _ _ => None).

Lemma supported_types_mask_spec_witness :
  let P := mk_proxies stub_ops stub_ops stub_ops stub_ops stub_ops stub_ops in
  let K := mk_Kconfig true false true true true true true false false false false false false false in
  serial_mux_supported_types_mask K P = 0x019D /\
  Z.testbit (serial_mux_supported_types_mask K P) SERIAL_TYPE_WIFI_DATA = false /\
  Z.testbit (serial_mux_supported_types_mask K P) SERIAL_TYPE_VSERIAL = true.
Proof.
  split; [reflexivity|]. split.
  - rewrite (proj2 (supported_types_mask_spec _ _ SERIAL_TYPE_WIFI_DATA ltac:(vm_compute; discriminate))).
    reflexivity.
  - rewrite (proj2 (supported_types_mask_spec _ _ SERIAL_TYPE_VSERIAL ltac:(vm_compute; discriminate))).
    reflexivity.
Defined.

Lemma mux_send_routed_witness :
  exists u', serial_mux_send Kconfig_default
      (mux_start Kconfig_default (mk_IdealUart [] [] 0) (mk_IdealUart [] [] 0)) SERIAL_TYPE_HCI
      (Some [4; 14; 1; 0]) 4
    = Ret (mk_mux_state
             (mux_ifaces (mux_start Kconfig_default (mk_IdealUart [] [] 0) (mk_IdealUart [] [] 0)))
             (<[1%nat := (with_tx_seq serial_config_zero 1, Some u')]>
                (mux_configs (mux_start Kconfig_default (mk_IdealUart [] [] 0) (mk_IdealUart [] [] 0)))), 0) /\
    tx_wire u' = [35; 0; 0; 4; 4; 14; 1; 0].
Proof.
  destruct (mux_send_routed Kconfig_default (mk_IdealUart [] [] 0) (mk_IdealUart [] [] 0)
              SERIAL_TYPE_HCI [4; 14; 1; 0] kconfig_default_wf eq_refl ltac:(vm_compute; discriminate))
    as (u' & E & _ & Htx).
  exists u'. split; [exact E | exact Htx].
Defined.
