(* ===== verification/BtProxy.v ===== *)
(** * BtProxy: the Bluetooth HCI bridge, [device/bt_proxy.c]

    Accumulation buffer, H:4 validation and hand-over to the controller.  The
    controller (raw HCI channel of Zephyr) is a parameter: [bt_buf_get_tx],
    [bt_send] and [net_buf_unref] act on a state of its own. *)

From S2P Require Import Prelude Framing Client.
From Stdlib Require Import ZArith Lia.
From stdpp Require Import base list option numbers decidable.

Open Scope Z_scope.
Open Scope e80211_scope.

Definition BT_HCI_H4_CMD : Z := 1.
Definition BT_HCI_H4_ACL : Z := 2.
Definition BT_PROXY_BUFFER_SIZE : Z := 512.

(** The two [enum bt_buf_type] values the proxy asks for. *)
Inductive bt_buf_type : Type := BT_BUF_CMD | BT_BUF_ACL_OUT.

(** The raw HCI channel below the proxy. *)
Class HciChannel (H : Type) := {
  hci_buf : Type;
  bt_buf_get_tx : H -> bt_buf_type -> list Z -> H * option hci_buf;
  bt_send : H -> hci_buf -> H * Z;
  net_buf_unref : H -> hci_buf -> H
}.

Record bt_state (H : Type) : Type := mk_bt_state {
  hci_rx_buffer : list Z;
  hci_rx_buffer_len : Z;
  hci : H
}.
Arguments mk_bt_state {H} _ _ _.
Arguments hci_rx_buffer {H} _.
Arguments hci_rx_buffer_len {H} _.
Arguments hci {H} _.

Section BtProxy.
Context {H : Type} `{HciChannel H}.

Definition bt_proxy_acquire_buffer (s : bt_state H) (len : Z) : acquire_result :=
  if BT_PROXY_BUFFER_SIZE <? size_t (hci_rx_buffer_len s + len) then AcqFail
  else AcqOk (Some (hci_rx_buffer_len s)).

Definition bt_proxy_commit_data (s : bt_state H) (len : Z) : bt_state H :=
  mk_bt_state (hci_rx_buffer s) (size_t (hci_rx_buffer_len s + len)) (hci s).

(** Writes through the pointer [acquire_buffer] returned. *)
Definition bt_proxy_store (s : bt_state H) (off : Z) (bs : list Z) : option (bt_state H) :=
  match store_at (hci_rx_buffer s) off bs with
  | Some buf => Some (mk_bt_state buf (hci_rx_buffer_len s) (hci s))
  | None => None
  end.

Definition hci_packet_validate (hci_rx_buffer : list Z) (h4_type len : Z) : Z :=
  if h4_type =? BT_HCI_H4_CMD then
    let param_len := znth hci_rx_buffer 3 in
    if len =? 4 + param_len then 0 else - EINVAL
  else if h4_type =? BT_HCI_H4_ACL then
    let payload_len := u16 (Z.lor (znth hci_rx_buffer 3) (Z.shiftl (znth hci_rx_buffer 4) 8)) in
    if len =? 6 + payload_len then 0 else - EINVAL
  else - ENOTSUP.

Definition bt_reset (s : bt_state H) : bt_state H := mk_bt_state (hci_rx_buffer s) 0 (hci s).

Definition bt_proxy_message_complete (s : bt_state H) (len : Z) : outcome (bt_state H) :=
  if (len <? 2) || (BT_PROXY_BUFFER_SIZE <? len) then Ret (bt_reset s)
  else
    let h4_type := znth (hci_rx_buffer s) 0 in
    if negb (hci_packet_validate (hci_rx_buffer s) h4_type len =? 0) then Ret (bt_reset s)
    else
      let send buf_type :=
        match bt_buf_get_tx (hci s) buf_type (ztake (len - 1) (zdrop 1 (hci_rx_buffer s))) with
        | (h1, None) => Ret (mk_bt_state (hci_rx_buffer s) 0 h1)
        | (h1, Some buf) =>
            let '(h2, err) := bt_send h1 buf in
            let h3 := if negb (err =? 0) then net_buf_unref h2 buf else h2 in
            Ret (mk_bt_state (hci_rx_buffer s) 0 h3)
        end in
      if h4_type =? BT_HCI_H4_CMD then send BT_BUF_CMD
      else if h4_type =? BT_HCI_H4_ACL then send BT_BUF_ACL_OUT
      else Ret (bt_reset s).

Definition bt_client : client_ops (bt_state H) :=
  mk_client_ops bt_proxy_acquire_buffer bt_proxy_commit_data bt_proxy_message_complete
    bt_proxy_store.

(** [hci_rx_buffer] and [hci_rx_buffer_len] at start-up. *)
Definition bt_init (h : H) : bt_state H := mk_bt_state (replicate 512 0) 0 h.

Definition bt_ready (s : bt_state H) : Prop :=
  zlen (hci_rx_buffer s) = BT_PROXY_BUFFER_SIZE /\ hci_rx_buffer_len s = 0.

(** *** Properties *)

Lemma bt_complete_idle s len :
  exists h, bt_proxy_message_complete s len = Ret (mk_bt_state (hci_rx_buffer s) 0 h).
Proof.
  unfold bt_proxy_message_complete, bt_reset. repeat split_if; eauto.
  - destruct (bt_buf_get_tx _ _ _) as [h1 [buf|]]; [|eauto].
    destruct (bt_send h1 buf) as [h2 err]. eauto.
  - destruct (bt_buf_get_tx _ _ _) as [h1 [buf|]]; [|eauto].
    destruct (bt_send h1 buf) as [h2 err]. eauto.
Qed.

Lemma bt_store_ok s p :
  bt_ready s -> zlen p <= BT_PROXY_BUFFER_SIZE ->
  bt_proxy_store s 0 p
  = Some (mk_bt_state (p ++ zdrop (zlen p) (hci_rx_buffer s)) 0 (hci s)).
Proof.
  intros [Hb Hl] Hp. unfold bt_proxy_store. pose proof (zlen_nonneg p).
  rewrite store_at_Some by lia. by rewrite Hl, ztake_0, Z.add_0_l.
Qed.

(** The state after one frame. *)
Definition bt_deliver (s : bt_state H) (p : list Z) : bt_state H :=
  match bt_proxy_message_complete
          (mk_bt_state (p ++ zdrop (zlen p) (hci_rx_buffer s)) (zlen p) (hci s)) (zlen p) with
  | Ret s' => s'
  | _ => s
  end.

#[export, refine] Instance bt_FrameClient : FrameClient bt_client := {
  cl_ready := bt_ready;
  cl_capacity := BT_PROXY_BUFFER_SIZE;
  cl_deliver := bt_deliver
}.
Proof.
  - intros c len [_ Hl] Hp. cbn. unfold bt_proxy_acquire_buffer, BT_PROXY_BUFFER_SIZE in *.
    rewrite Hl, size_t_small by lia. by rewrite (proj2 (Z.ltb_ge _ _)) by lia.
  - intros c p Hr Hp. cbn. rewrite bt_store_ok by (done || lia). eexists. split; [done|].
    unfold bt_proxy_commit_data, bt_deliver. cbn [hci_rx_buffer hci_rx_buffer_len hci].
    unfold BT_PROXY_BUFFER_SIZE in *. rewrite Z.add_0_l, size_t_small by lia.
    destruct (bt_complete_idle (mk_bt_state (p ++ zdrop (zlen p) (hci_rx_buffer c)) (zlen p) (hci c))
                (zlen p)) as (h & ->). done.
  - intros c p c1 [Hb Hl]. cbn. unfold bt_proxy_store.
    destruct (store_at _ _ _) as [buf|] eqn:E; [|done]. intros [= <-].
    apply store_at_zlen in E. split; cbn; [lia|done].
  - intros c p Hr Hp. exists 0. cbn. unfold bt_deliver.
    destruct (bt_complete_idle (mk_bt_state (p ++ zdrop (zlen p) (hci_rx_buffer c)) (zlen p) (hci c))
                (zlen p)) as (h & ->).
    unfold bt_proxy_acquire_buffer, BT_PROXY_BUFFER_SIZE in *. cbn [hci_rx_buffer_len].
    rewrite size_t_small by lia. by rewrite (proj2 (Z.ltb_ge _ _)) by lia.
Defined.

(** An HCI command packet: indicator, opcode, parameter length, parameters. *)
Definition hci_command (op0 op1 : Z) (params : list Z) : list Z :=
  BT_HCI_H4_CMD :: op0 :: op1 :: zlen params :: params.

(** An ACL data packet as the Bluetooth Core specification (Vol 4, Part E, 5.4.2)
    lays it out behind the H:4 indicator: handle with flags, length, data. *)
Definition hci_acl (h0 h1 : Z) (data : list Z) : list Z :=
  BT_HCI_H4_ACL :: h0 :: h1 :: zlen data mod 256 :: zlen data / 256 :: data.

(** What a command frame does to the raw HCI channel. *)
Definition hci_inject (h : H) (ty : bt_buf_type) (packet : list Z) : H :=
  match bt_buf_get_tx h ty packet with
  | (h1, None) => h1
  | (h1, Some buf) =>
      let '(h2, err) := bt_send h1 buf in
      if err =? 0 then h2 else net_buf_unref h2 buf
  end.

Lemma bt_deliver_command s a b d :
  bt_ready s -> zlen d <= 255 ->
  bt_deliver s (hci_command a b d)
  = mk_bt_state (hci_command a b d ++ zdrop (4 + zlen d) (hci_rx_buffer s)) 0
      (hci_inject (hci s) BT_BUF_CMD (a :: b :: zlen d :: d)).
Proof.
  intros [Hb Hl] Hd. pose proof (zlen_nonneg d).
  unfold bt_deliver. set (p := hci_command a b d).
  assert (zlen p = 4 + zlen d) as Hp by (unfold p, hci_command; rewrite !zlen_cons; lia).
  rewrite Hp. unfold bt_proxy_message_complete, BT_PROXY_BUFFER_SIZE. cbn [hci_rx_buffer hci].
  rewrite (proj2 (Z.ltb_ge (4 + zlen d) 2)), (proj2 (Z.ltb_ge 512 (4 + zlen d))) by lia.
  cbn [orb]. change (znth (p ++ _) 0) with BT_HCI_H4_CMD.
  unfold hci_packet_validate. rewrite Z.eqb_refl.
  change (znth (p ++ _) 3) with (zlen d). rewrite Z.eqb_refl. cbn [negb Z.eqb].
  assert (ztake (4 + zlen d - 1) (zdrop 1 (p ++ zdrop (4 + zlen d) (hci_rx_buffer s)))
          = a :: b :: zlen d :: d) as ->.
  { change (zdrop 1 (p ++ ?x)) with ((a :: b :: zlen d :: d) ++ x).
    apply ztake_app. rewrite !zlen_cons. lia. }
  unfold hci_inject. destruct (bt_buf_get_tx _ _ _) as [h1 [buf|]]; [|done].
  destruct (bt_send h1 buf) as [h2 err]. by destruct (err =? 0).
Qed.

(** Which frames are HCI packets the proxy forwards: a command whose length byte
    counts its parameters, and, with the code's check, an ACL packet whose length
    field is one less than the data behind it. *)
Definition hci_packet (p : list Z) : option bt_buf_type :=
  match p with
  | t :: _ :: _ :: n :: d =>
      if (t =? BT_HCI_H4_CMD) && (zlen d =? n) then Some BT_BUF_CMD
      else
        match d with
        | hi :: data =>
            if (t =? BT_HCI_H4_ACL) && (zlen data =? 1 + n + 256 * hi) then Some BT_BUF_ACL_OUT else None
        | [] => None
        end
  | _ => None
  end.

(** The length check on a whole frame at the start of the buffer, whatever older
    bytes follow it. *)
Lemma hci_packet_validate_spec p stale :
  bytes_ok p -> bytes_ok stale -> 2 <= zlen p ->
  hci_packet_validate (p ++ stale) (znth (p ++ stale) 0) (zlen p) = 0 <-> is_Some (hci_packet p).
Proof.
  intros Hp Hs H2.
  assert (Hb : forall i, 0 <= znth (p ++ stale) i).
  { intros i. unfold znth.
    assert (Hf : Forall is_byte (p ++ stale)) by (apply Forall_app; by split).
    destruct (nth_in_or_default (Z.to_nat i) (p ++ stale) 0) as [Hi|Hi]; [|rewrite Hi; done].
    rewrite List.Forall_forall in Hf. apply Hf in Hi. unfold is_byte in Hi. lia. }
  pose proof (Hb 3) as H3. unfold hci_packet_validate, u16, EINVAL, ENOTSUP. cbv zeta.
  assert (Hn : forall x : bt_buf_type, is_Some (Some x)) by eauto.
  assert (Hno : ~ is_Some (@None bt_buf_type)) by (by intros []).
  destruct p as [|t [|x [|y [|n d]]]]; rewrite ?zlen_cons, ?zlen_nil in *; cbn [hci_packet]; try (by destruct H2);
    cbn [app] in *;
    try (split; [|done]; intros Hv; exfalso; revert Hv; change (zlen []) with 0; repeat case_match; reflect_bools; lia).
  change (znth (t :: x :: y :: n :: d ++ stale) 0) with t in *.
  change (znth (t :: x :: y :: n :: d ++ stale) 3) with n in *.
  destruct (Z.eqb_spec t BT_HCI_H4_CMD) as [->|Ht]; cbn [andb].
  - destruct (Z.eqb_spec (zlen d) n), (Z.eqb_spec (1 + (1 + (1 + (1 + zlen d)))) (4 + n)); try lia; [done|].
    destruct d; done.
  - destruct d as [|hi data].
    { split; [|done]. intros Hv. exfalso. revert Hv. rewrite zlen_nil. repeat case_match; reflect_bools; lia. }
    rewrite !List.Forall_cons_iff in Hp. destruct Hp as (_ & _ & _ & Hnb & Hhi & _). unfold is_byte in *.
    change (znth (t :: x :: y :: n :: (hi :: data) ++ stale) 4) with hi.
    destruct (Z.eqb_spec t BT_HCI_H4_ACL) as [->|Ht2]; cbn [andb]; [|done].
    rewrite lor_shiftl_r by lia. rewrite zlen_cons.
    rewrite Z.mod_small by lia.
    destruct (Z.eqb_spec (1 + (1 + (1 + (1 + (1 + zlen data))))) (6 + (n + hi * 2 ^ 8))),
      (Z.eqb_spec (zlen data) (1 + n + 256 * hi)); try lia; done.
Qed.

(** What a frame does to the raw HCI channel. *)
Definition hci_after (h : H) (p : list Z) : H :=
  match hci_packet p with Some ty => hci_inject h ty (zdrop 1 p) | None => h end.

Lemma bt_complete_frame s p :
  bytes_ok p -> bytes_ok (hci_rx_buffer s) -> 0 < zlen p <= BT_PROXY_BUFFER_SIZE ->
  let buf := p ++ zdrop (zlen p) (hci_rx_buffer s) in
  bt_proxy_message_complete (mk_bt_state buf (zlen p) (hci s)) (zlen p)
  = Ret (mk_bt_state buf 0 (hci_after (hci s) p)).
Proof.
  intros Hp Hb Hl buf. unfold bt_proxy_message_complete, hci_after, bt_reset. cbn [hci_rx_buffer hci].
  rewrite (proj2 (Z.ltb_ge BT_PROXY_BUFFER_SIZE (zlen p))), orb_false_r by lia.
  destruct (Z.ltb_spec (zlen p) 2) as [H2|H2].
  { destruct p as [|x [|y q]]; [done..|]. rewrite !zlen_cons in H2. pose proof (zlen_nonneg q). lia. }
  pose proof (hci_packet_validate_spec p (zdrop (zlen p) (hci_rx_buffer s)) Hp
                ltac:(by apply Forall_drop) H2) as Hv. fold buf in Hv.
  destruct (Z.eqb_spec (hci_packet_validate buf (znth buf 0) (zlen p)) 0) as [E|E]; cbn [negb].
  2: { destruct (hci_packet p); [|done]. destruct E. apply Hv. eauto. }
  apply Hv in E as [ty Ety]. rewrite Ety.
  assert (ztake (zlen p - 1) (zdrop 1 buf) = zdrop 1 p) as ->.
  { destruct p as [|t p]; [by rewrite zlen_nil in H2|]. unfold buf. cbn [app].
    change (zdrop 1 (t :: ?x)) with x. rewrite ztake_app; [done|]. rewrite zlen_cons. lia. }
  assert (Ht : znth buf 0 = match ty with BT_BUF_CMD => BT_HCI_H4_CMD | BT_BUF_ACL_OUT => BT_HCI_H4_ACL end).
  { destruct p as [|t [|x [|y [|n d]]]]; try done. change (znth buf 0) with t. cbn [hci_packet] in Ety.
    destruct (Z.eqb_spec t BT_HCI_H4_CMD) as [Et|_]; cbn [andb] in Ety; [destruct (zlen d =? n)|].
    { by injection Ety as <-. }
    all: destruct d as [|hi data]; [done|]; destruct (Z.eqb_spec t BT_HCI_H4_ACL) as [Et2|_]; cbn [andb] in Ety; try done.
    all: by destruct (_ =? _); [injection Ety as <-|]. }
  rewrite Ht. unfold hci_inject. unfold BT_HCI_H4_CMD, BT_HCI_H4_ACL. destruct ty; cbn [Z.eqb Pos.eqb];
    (destruct (bt_buf_get_tx _ _ _) as [h1 [b|]]; [|done]; destruct (bt_send h1 b) as [h2 err];
     by destruct (err =? 0)).
Qed.

(** C19. What the proxy forwards, for every frame of 1 to 512 bytes that an idle
    proxy receives (buffer acquired, bytes stored, committed, completed): it is
    idle again, and the controller was asked for one buffer with everything
    behind the H:4 byte and sent it (releasing it when the controller refuses)
    exactly when [hci_packet] says so; every other frame is dropped without a
    call to the controller.  A command is forwarded exactly when its length byte
    is the number of its parameters, so no malformed command is.  An ACL packet
    laid out as the Bluetooth specification says is never forwarded, whatever its
    length: the check is one byte off. *)
Theorem bt_proxy_forwards (s : bt_state H) (p : list Z) :
  bt_ready s -> bytes_ok (hci_rx_buffer s) -> bytes_ok p -> 0 < zlen p <= BT_PROXY_BUFFER_SIZE ->
  bt_proxy_acquire_buffer s (zlen p) = AcqOk (Some 0) /\
  (exists s1, bt_proxy_store s 0 p = Some s1 /\
     bt_proxy_message_complete (bt_proxy_commit_data s1 (zlen p)) (zlen p)
     = Ret (mk_bt_state (p ++ zdrop (zlen p) (hci_rx_buffer s)) 0
              (match hci_packet p with
               | Some ty => hci_inject (hci s) ty (zdrop 1 p)
               | None => hci s
               end))) /\
  (forall a b n d, hci_packet (BT_HCI_H4_CMD :: a :: b :: n :: d)
                   = if zlen d =? n then Some BT_BUF_CMD else None) /\
  (forall a b d, hci_packet (hci_acl a b d) = None).
Proof.
  intros Hr Hb Hp Hl. split; [apply (cl_acquire (ops := bt_client)); done|].
  split; [|split].
  - exists (mk_bt_state (p ++ zdrop (zlen p) (hci_rx_buffer s)) 0 (hci s)).
    split; [apply bt_store_ok; (done || lia)|].
    unfold bt_proxy_commit_data. cbn [hci_rx_buffer hci_rx_buffer_len hci].
    unfold BT_PROXY_BUFFER_SIZE in Hl. rewrite Z.add_0_l, size_t_small by lia.
    by apply bt_complete_frame.
  - intros a b n d. cbn. destruct (zlen d =? n); [done|]. by destruct d.
  - intros a b d. unfold hci_acl. cbn -[zlen Z.div Z.modulo Z.mul Z.add].
    change (BT_HCI_H4_ACL =? BT_HCI_H4_CMD) with false. cbn [andb].
    rewrite (proj2 (Z.eqb_neq (zlen d) _)); [done|]. pose proof (zlen_nonneg d). lia.
Qed.

End BtProxy.

(** A controller that logs what it is sent and refuses nothing. *)
Definition HciLog : Type := list (bt_buf_type * list Z).

#[export] Instance HciLog_Channel : HciChannel HciLog := {
  hci_buf := bt_buf_type * list Z;
  bt_buf_get_tx h t d := (h, Some (t, d));
  bt_send h b := (h ++ [b], 0);
  net_buf_unref h _ := h
}.

(** HCI_Reset reaches the controller; with a wrong length byte it does not. *)
Lemma bt_proxy_forwards_witness :
  (exists s1, bt_proxy_store (bt_init ([] : HciLog)) 0 [1; 3; 12; 0] = Some s1 /\
     exists s2, bt_proxy_message_complete (bt_proxy_commit_data s1 4) 4 = Ret s2 /\
       hci s2 = [(BT_BUF_CMD, [3; 12; 0])]) /\
  (exists s1, bt_proxy_store (bt_init ([] : HciLog)) 0 [1; 3; 12; 1] = Some s1 /\
     exists s2, bt_proxy_message_complete (bt_proxy_commit_data s1 4) 4 = Ret s2 /\ hci s2 = []).
Proof.
  assert (Hb : bytes_ok (hci_rx_buffer (bt_init ([] : HciLog)))) by (by apply Forall_replicate).
  split.
  - destruct (bt_proxy_forwards (bt_init ([] : HciLog)) [1; 3; 12; 0] (conj eq_refl eq_refl) Hb
      ltac:(repeat constructor; lia) ltac:(vm_compute; split; [reflexivity | discriminate]))
      as (_ & (s1 & E1 & E2) & _).
    exists s1. split; [exact E1|]. eexists. split; [exact E2 | reflexivity].
  - destruct (bt_proxy_forwards (bt_init ([] : HciLog)) [1; 3; 12; 1] (conj eq_refl eq_refl) Hb
      ltac:(repeat constructor; lia) ltac:(vm_compute; split; [reflexivity | discriminate]))
      as (_ & (s1 & E1 & E2) & _).
    exists s1. split; [exact E1|]. eexists. split; [exact E2 | reflexivity].
Defined.
