(* ===== verification/Proxies.v ===== *)
(** * Proxies: receive callbacks of the other traffic clients

    - [VSerial]: the virtual serial port, [device/vserial.c];
    - [OtProxy]: the OpenThread stub, [device/ot_proxy.c];
    - [Accum]: the accumulation buffer shared in shape by
      [device/net_if_mgmt_proxy.c] and [device/wifi_mgmt_proxy.c];
    - [WifiDataProxy]: the Ethernet data path of [device/wifi_data.c].

    Each discharges [FrameClient] (and [ChunkClient] where the code supports
    pieces) except the Wi-Fi data path, which cannot. *)

From S2P Require Import Prelude Framing Client.
From Stdlib Require Import ZArith Lia.
From stdpp Require Import base list option numbers decidable.

Open Scope Z_scope.
Open Scope e80211_scope.

(** ** Ring buffers (Zephyr's [sys/ring_buffer.h]) *)

Class RingBuf (R : Type) := {
  ring_buf_put : R -> list Z -> R * Z;
  ring_buf_get : R -> Z -> R * list Z
}.

(** Documented behaviour: a bounded FIFO that takes what fits. *)
Class RingBufLaws (R : Type) `{RingBuf R} := {
  ring_contents : R -> list Z;
  ring_capacity : R -> Z;
  put_written r d :
    snd (ring_buf_put r d) = Z.min (zlen d) (ring_capacity r - zlen (ring_contents r));
  put_contents r d :
    ring_contents (fst (ring_buf_put r d))
    = ring_contents r ++ ztake (snd (ring_buf_put r d)) d;
  put_capacity r d : ring_capacity (fst (ring_buf_put r d)) = ring_capacity r;
  get_bytes r n : snd (ring_buf_get r n) = ztake n (ring_contents r);
  get_contents r n : ring_contents (fst (ring_buf_get r n)) = zdrop n (ring_contents r);
  get_capacity r n : ring_capacity (fst (ring_buf_get r n)) = ring_capacity r
}.

(** A concrete ring buffer. *)
Record ListRing : Type := mk_ListRing { lr_size : Z; lr_data : list Z }.

#[export] Instance ListRing_RingBuf : RingBuf ListRing := {
  ring_buf_put r d :=
    let n := Z.min (zlen d) (lr_size r - zlen (lr_data r)) in
    (mk_ListRing (lr_size r) (lr_data r ++ ztake n d), n);
  ring_buf_get r n := (mk_ListRing (lr_size r) (zdrop n (lr_data r)), ztake n (lr_data r))
}.

#[export, refine] Instance ListRing_Laws : RingBufLaws ListRing := {
  ring_contents := lr_data; ring_capacity := lr_size
}.
Proof. all: intros; cbn; done. Defined.

(** ** The virtual serial port *)

Record vserial_data (R : Type) : Type := mk_vserial_data {
  vs_baud_rate : Z;
  vs_stop_bits : Z;
  vs_parity : Z;
  vs_tx_buf : list Z;
  vs_rx_ring : R;
  vs_callback : option (R -> R)   (* the registered callback's effect on the ring *)
}.
Arguments mk_vserial_data {R} _ _ _ _ _ _.
Arguments vs_baud_rate {R} _.
Arguments vs_stop_bits {R} _.
Arguments vs_parity {R} _.
Arguments vs_tx_buf {R} _.
Arguments vs_rx_ring {R} _.
Arguments vs_callback {R} _.

Section VSerial.
Context {R : Type} `{RingBuf R} (VSERIAL_RX_BUF_SIZE VSERIAL_TX_BUF_SIZE : Z).

Definition vserial_set_tx (s : vserial_data R) (buf : list Z) : vserial_data R :=
  mk_vserial_data (vs_baud_rate s) (vs_stop_bits s) (vs_parity s) buf (vs_rx_ring s) (vs_callback s).
Definition vserial_set_ring (s : vserial_data R) (r : R) : vserial_data R :=
  mk_vserial_data (vs_baud_rate s) (vs_stop_bits s) (vs_parity s) (vs_tx_buf s) r (vs_callback s).

(** Static data after [vserial_init]: an empty ring. *)
Definition vserial_init (r : R) : vserial_data R :=
  mk_vserial_data 115200 1 0 (replicate (Z.to_nat VSERIAL_TX_BUF_SIZE) 0) r None.

(** Returns 0 and the character, or -1. *)
Definition vserial_poll_in (s : vserial_data R) : vserial_data R * Z * option Z :=
  match ring_buf_get (vs_rx_ring s) 1 with
  | (r, c :: _) => (vserial_set_ring s r, 0, Some c)
  | (r, []) => (vserial_set_ring s r, -1, None)
  end.

(** Output characters are logged and dropped. *)
Definition vserial_poll_out (s : vserial_data R) (c : Z) : vserial_data R := s.

Definition vserial_acquire_buffer (s : vserial_data R) (len : Z) : acquire_result :=
  if VSERIAL_TX_BUF_SIZE <? len then AcqFail else AcqOk (Some 0).

Definition vserial_commit_data (s : vserial_data R) (len : Z) : vserial_data R := s.

Definition vserial_store (s : vserial_data R) (off : Z) (bs : list Z) : option (vserial_data R) :=
  match store_at (vs_tx_buf s) off bs with
  | Some buf => Some (vserial_set_tx s buf)
  | None => None
  end.

Definition vserial_message_complete (s : vserial_data R) (len : Z) : outcome (vserial_data R) :=
  if VSERIAL_RX_BUF_SIZE <? len then Ret s
  else if zlen (vs_tx_buf s) <? len then Fault
  else
    let '(r, written) := ring_buf_put (vs_rx_ring s) (ztake len (vs_tx_buf s)) in
    let r := match vs_callback s with Some callback => callback r | None => r end in
    Ret (vserial_set_ring s r).

Definition vserial_client : client_ops (vserial_data R) :=
  mk_client_ops vserial_acquire_buffer vserial_commit_data vserial_message_complete vserial_store.

Definition vserial_ready (s : vserial_data R) : Prop := zlen (vs_tx_buf s) = VSERIAL_TX_BUF_SIZE.

(** The effect of a whole frame, as the contract of the serial layer states it;
    [vserial_FrameClient] proves that the callbacks have it. *)
Definition vserial_deliver (s : vserial_data R) (p : list Z) : vserial_data R :=
  let s1 := vserial_set_tx s (p ++ zdrop (zlen p) (vs_tx_buf s)) in
  if VSERIAL_RX_BUF_SIZE <? zlen p then s1
  else
    let r := fst (ring_buf_put (vs_rx_ring s) p) in
    vserial_set_ring s1 (match vs_callback s with Some callback => callback r | None => r end).

Lemma vserial_store_ok s p :
  vserial_ready s -> zlen p <= VSERIAL_TX_BUF_SIZE ->
  vserial_store s 0 p = Some (vserial_set_tx s (p ++ zdrop (zlen p) (vs_tx_buf s))).
Proof.
  intros Hr Hp. unfold vserial_store. pose proof (zlen_nonneg p).
  rewrite store_at_Some by (rewrite ?Hr; lia). by rewrite ztake_0, Z.add_0_l.
Qed.

Lemma vserial_deliver_ready s p :
  vserial_ready s -> zlen p <= VSERIAL_TX_BUF_SIZE -> vserial_ready (vserial_deliver s p).
Proof.
  unfold vserial_ready, vserial_deliver. intros Hr Hp. pose proof (zlen_nonneg p).
  split_if; cbn; rewrite zlen_app, zlen_zdrop; lia.
Qed.

#[export, refine] Instance vserial_FrameClient : FrameClient vserial_client := {
  cl_ready := vserial_ready;
  cl_capacity := VSERIAL_TX_BUF_SIZE;
  cl_deliver := vserial_deliver
}.
Proof.
  - intros c len Hr Hp. cbn. unfold vserial_acquire_buffer.
    by rewrite (proj2 (Z.ltb_ge _ _)) by lia.
  - intros c p Hr Hp. cbn. rewrite vserial_store_ok by (done || lia). eexists. split; [done|].
    unfold vserial_commit_data, vserial_message_complete, vserial_deliver.
    destruct (VSERIAL_RX_BUF_SIZE <? zlen p); [done|]. cbn [vserial_set_tx vs_tx_buf vs_rx_ring vs_callback].
    rewrite (proj2 (Z.ltb_ge _ _)) by (rewrite zlen_app, zlen_zdrop; lia).
    rewrite ztake_app by done. by destruct (ring_buf_put (vs_rx_ring c) p).
  - intros c p c1 Hr. cbn. unfold vserial_store.
    destruct (store_at _ _ _) as [buf|] eqn:E; [|done]. intros [= <-].
    apply store_at_zlen in E. unfold vserial_ready in *. cbn. lia.
  - intros c p Hr Hp. exists 0. cbn. unfold vserial_acquire_buffer.
    by rewrite (proj2 (Z.ltb_ge _ _)) by lia.
Defined.

End VSerial.

(** Two stores in a row, when both fit. *)
Lemma store_at_app buf p buf1 q :
  store_at buf 0 p = Some buf1 -> zlen p + zlen q <= zlen buf ->
  exists buf2, store_at buf1 (zlen p) q = Some buf2 /\ store_at buf 0 (p ++ q) = Some buf2.
Proof.
  intros E Hq. pose proof (store_at_zlen _ _ _ _ E) as Hl.
  pose proof (zlen_nonneg p). pose proof (zlen_nonneg q).
  rewrite (store_at_Some buf1 (zlen p) q) by lia.
  rewrite (store_at_Some buf 0 (p ++ q)) by (rewrite ?zlen_app; lia).
  eexists. split; [done|]. f_equal. apply store_at_inv in E as (_ & _ & ->).
  rewrite !ztake_0, !Z.add_0_l, !app_nil_l, zlen_app, ztake_app, <- app_assoc by done.
  do 2 f_equal. rewrite <- !zdrop_zdrop by lia. by rewrite (zdrop_app (zlen p) p).
Qed.

Lemma store_at_nil buf : store_at buf 0 [] = Some buf.
Proof.
  pose proof (zlen_nonneg buf) as Hb. rewrite store_at_Some; [done|lia|].
  by rewrite (zlen_nil (A:=Z)), Z.add_0_l.
Qed.

Section VSerialChunks.
Context {R : Type} `{RingBuf R} (VSERIAL_RX_BUF_SIZE VSERIAL_TX_BUF_SIZE : Z).

#[export] Instance vserial_ChunkClient :
  ChunkClient (vserial_client (R := R) VSERIAL_RX_BUF_SIZE VSERIAL_TX_BUF_SIZE).
Proof.
  split.
  - done.
  - intros c _. cbn. unfold vserial_store. rewrite store_at_nil. by destruct c.
  - intros c p Hr Hp. apply vserial_deliver_ready; [done|apply Hp].
  - intros c p c1 q Hr. cbn. unfold vserial_store.
    destruct (store_at _ 0 p) as [buf|] eqn:E; [|done]. intros [= <-] Hc.
    destruct (store_at_app _ _ _ q E) as (b2 & E1 & E2).
    { rewrite Hr. exact Hc. }
    cbn [vserial_set_tx vs_tx_buf]. rewrite E1, E2. eauto.
Qed.

End VSerialChunks.

(** *** Reading the port back *)

Section VSerialRead.
Context {R : Type} `{RL : RingBufLaws R} (VSERIAL_RX_BUF_SIZE VSERIAL_TX_BUF_SIZE : Z).

(** [n] calls of [vserial_poll_in]. *)
Fixpoint poll_in_n (n : nat) (s : vserial_data R) : vserial_data R * list (Z * option Z) :=
  match n with
  | O => (s, [])
  | S n =>
      let '(s1, ret, c) := vserial_poll_in s in
      let '(s2, l) := poll_in_n n s1 in
      (s2, (ret, c) :: l)
  end.

Lemma vserial_poll_in_spec s :
  exists r, vserial_poll_in s =
    (vserial_set_ring s r, (match ring_contents (vs_rx_ring s) with [] => -1 | _ => 0 end),
     head (ring_contents (vs_rx_ring s))) /\
    ring_contents r = tail (ring_contents (vs_rx_ring s)).
Proof.
  unfold vserial_poll_in. pose proof (get_bytes (vs_rx_ring s) 1) as Hb.
  pose proof (get_contents (vs_rx_ring s) 1) as Hc.
  destruct (ring_buf_get (vs_rx_ring s) 1) as [r bs]. cbn in Hb, Hc.
  destruct (ring_contents (vs_rx_ring s)) as [|c l]; cbn in Hb; subst bs; by exists r.
Qed.

(** Everything in the ring, then -1. *)
Lemma poll_in_all s :
  snd (poll_in_n (S (length (ring_contents (vs_rx_ring s)))) s)
  = map (fun c => (0, Some c)) (ring_contents (vs_rx_ring s)) ++ [(-1, None)].
Proof.
  remember (ring_contents (vs_rx_ring s)) as l eqn:E. revert s E.
  induction l as [|c l IH]; intros s E.
  - cbn [length poll_in_n]. destruct (vserial_poll_in_spec s) as (r & -> & _). by rewrite <- E.
  - cbn [length]. remember (S (length l)) as n eqn:En. cbn [poll_in_n]. subst n.
    destruct (vserial_poll_in_spec s) as (r & -> & Hr). rewrite <- E in Hr |- *. cbn in Hr.
    destruct (poll_in_n (S (length l)) (vserial_set_ring s r)) as [s2 l2] eqn:E2.
    specialize (IH (vserial_set_ring s r)). cbn [vserial_set_ring vs_rx_ring] in IH.
    rewrite E2 in IH. cbn. f_equal. by apply IH.
Qed.

(** C20. The virtual serial port carries bytes in order.  A frame longer than the
    transmit buffer gets no buffer.  Any other frame, acquired, stored, committed
    and completed, leaves in the receive ring what was there and then the frame's
    bytes, cut at the ring's free space (a frame longer than the whole ring is
    dropped); polling then reads out exactly these bytes, one per call with
    result 0, and the call after the last returns -1 and no character. *)
Theorem vserial_roundtrip (s : vserial_data R) (p : list Z) :
  vserial_ready VSERIAL_TX_BUF_SIZE s -> vs_callback s = None ->
  ring_capacity (vs_rx_ring s) = VSERIAL_RX_BUF_SIZE ->
  let old := ring_contents (vs_rx_ring s) in
  let got := if VSERIAL_RX_BUF_SIZE <? zlen p then old
             else old ++ ztake (VSERIAL_RX_BUF_SIZE - zlen old) p in
  if VSERIAL_TX_BUF_SIZE <? zlen p
  then vserial_acquire_buffer VSERIAL_TX_BUF_SIZE s (zlen p) = AcqFail
  else
    vserial_acquire_buffer VSERIAL_TX_BUF_SIZE s (zlen p) = AcqOk (Some 0) /\
    exists s1 s', vserial_store s 0 p = Some s1 /\
      vserial_message_complete VSERIAL_RX_BUF_SIZE (vserial_commit_data s1 (zlen p)) (zlen p) = Ret s' /\
      ring_contents (vs_rx_ring s') = got /\
      snd (poll_in_n (S (length got)) s') = map (fun c => (0, Some c)) got ++ [(-1, None)] /\
      (zlen old + zlen p <= VSERIAL_RX_BUF_SIZE -> got = old ++ p).
Proof.
  intros Hr Hcb Hcap old got. unfold vserial_acquire_buffer.
  destruct (Z.ltb_spec VSERIAL_TX_BUF_SIZE (zlen p)) as [|Hp]; [done|]. split; [done|].
  pose proof (zlen_nonneg p). pose proof (zlen_nonneg old).
  set (s1 := vserial_set_tx s (p ++ zdrop (zlen p) (vs_tx_buf s))).
  assert (Hc : exists s', vserial_message_complete VSERIAL_RX_BUF_SIZE s1 (zlen p) = Ret s' /\
    ring_contents (vs_rx_ring s') = got).
  { unfold vserial_message_complete, got, s1. destruct (VSERIAL_RX_BUF_SIZE <? zlen p); [by eexists|].
    cbn [vserial_set_tx vs_tx_buf vs_rx_ring vs_callback].
    rewrite (proj2 (Z.ltb_ge _ _)), ztake_app by (rewrite ?zlen_app, ?zlen_zdrop; lia || done).
    pose proof (put_contents (vs_rx_ring s) p) as Hput. pose proof (put_written (vs_rx_ring s) p) as Hw.
    destruct (ring_buf_put (vs_rx_ring s) p) as [r w]. rewrite Hcb. eexists. split; [done|].
    cbn in Hput, Hw |- *. rewrite Hput, Hw, Hcap. fold old. f_equal.
    destruct (Z.le_gt_cases (zlen p) (VSERIAL_RX_BUF_SIZE - zlen old)).
    - rewrite Z.min_l by lia. by rewrite !ztake_ge by lia.
    - by rewrite Z.min_r by lia. }
  destruct Hc as (s' & Ec & Hg). exists s1, s'. split; [by apply vserial_store_ok with VSERIAL_TX_BUF_SIZE|].
  split; [exact Ec|]. split; [done|]. split; [rewrite <- Hg; apply poll_in_all|].
  intros Hfit. unfold got. rewrite (proj2 (Z.ltb_ge _ _)) by lia. by rewrite ztake_ge by lia.
Qed.

End VSerialRead.

Lemma vserial_roundtrip_witness :
  let s := vserial_init 256 (mk_ListRing 256 [104]) in
  exists s1 s', vserial_store s 0 [105; 33] = Some s1 /\
    vserial_message_complete 256 (vserial_commit_data s1 2) 2 = Ret s' /\
    snd (poll_in_n 4 s') = [(0, Some 104); (0, Some 105); (0, Some 33); (-1, None)].
Proof.
  destruct (vserial_roundtrip (RL := ListRing_Laws) 256 256 (vserial_init 256 (mk_ListRing 256 [104])) [105; 33]
              eq_refl eq_refl eq_refl) as (_ & s1 & s' & E1 & E2 & _ & Hp & _).
  exists s1, s'. split; [exact E1|]. split; [exact E2 | exact Hp].
Defined.

(** ** The OpenThread stub *)

Section OtProxy.

(** The static [scratch] array of [ot_proxy_acquire_buffer]. *)
Record ot_state : Type := mk_ot_state { scratch : list Z }.

Definition ot_init : ot_state := mk_ot_state (replicate 256 0).

Definition ot_proxy_acquire_buffer (s : ot_state) (len : Z) : acquire_result :=
  if 256 <? len then AcqFail else AcqOk (Some 0).

Definition ot_proxy_commit_data (s : ot_state) (len : Z) : ot_state := s.

Definition ot_proxy_message_complete (s : ot_state) (len : Z) : outcome ot_state := Ret s.

Definition ot_proxy_store (s : ot_state) (off : Z) (bs : list Z) : option ot_state :=
  match store_at (scratch s) off bs with
  | Some buf => Some (mk_ot_state buf)
  | None => None
  end.

Definition ot_client : client_ops ot_state :=
  mk_client_ops ot_proxy_acquire_buffer ot_proxy_commit_data ot_proxy_message_complete ot_proxy_store.

Definition ot_ready (s : ot_state) : Prop := zlen (scratch s) = 256.

Definition ot_deliver (s : ot_state) (p : list Z) : ot_state :=
  mk_ot_state (p ++ zdrop (zlen p) (scratch s)).

#[export, refine] Instance ot_FrameClient : FrameClient ot_client := {
  cl_ready := ot_ready; cl_capacity := 256; cl_deliver := ot_deliver
}.
Proof.
  - intros c len Hr Hp. cbn. unfold ot_proxy_acquire_buffer. by rewrite (proj2 (Z.ltb_ge _ _)) by lia.
  - intros c p Hr Hp. cbn. unfold ot_proxy_store, ot_ready in *.
    rewrite store_at_Some by lia. eexists. split; [done|]. cbn.
    unfold ot_proxy_message_complete, ot_deliver. by rewrite ztake_0.
  - intros c p c1 Hr. cbn. unfold ot_proxy_store.
    destruct (store_at _ _ _) as [buf|] eqn:E; [|done]. intros [= <-].
    apply store_at_zlen in E. unfold ot_ready in *. cbn. lia.
  - intros c p Hr Hp. exists 0. cbn. unfold ot_proxy_acquire_buffer.
    by rewrite (proj2 (Z.ltb_ge _ _)) by lia.
Defined.

#[export] Instance ot_ChunkClient : ChunkClient ot_client.
Proof.
  split.
  - done.
  - intros c _. cbn. unfold ot_proxy_store. rewrite store_at_nil. by destruct c.
  - intros c p Hr Hp. cbn in *. unfold ot_ready, ot_deliver in *. cbn.
    rewrite zlen_app, zlen_zdrop. pose proof (zlen_nonneg p). lia.
  - intros c p c1 q Hr. cbn. unfold ot_proxy_store.
    destruct (store_at _ 0 p) as [buf|] eqn:E; [|done]. intros [= <-] Hc.
    destruct (store_at_app _ _ _ q E) as (b2 & E1 & E2); [rewrite Hr; exact Hc|].
    cbn [scratch]. rewrite E1, E2. eauto.
Qed.

End OtProxy.

(** ** Accumulating proxies

    [wifi_mgmt_*] and [net_if_mgmt_*]: a receive buffer, the static
    [message_length] and the event that wakes the proxy's thread.  [bufsize] is
    [sizeof] of the receive buffer. *)

Section Accum.
Context (bufsize : Z).

Record accum_state : Type := mk_accum_state {
  rx_buffer : list Z;
  message_length : Z;
  data_complete : bool    (* DATA_COMPLETE_EVENT *)
}.

Definition accum_init : accum_state := mk_accum_state (replicate (Z.to_nat bufsize) 0) 0 false.

Definition accum_acquire_buffer (s : accum_state) (len : Z) : acquire_result :=
  if size_t (bufsize - message_length s) <? len then AcqFail
  else AcqOk (Some (message_length s)).

Definition accum_commit_data (s : accum_state) (len : Z) : accum_state :=
  mk_accum_state (rx_buffer s) (size_t (message_length s + len)) (data_complete s).

Definition accum_message_complete (s : accum_state) (len : Z) : outcome accum_state :=
  Ret (mk_accum_state (rx_buffer s) (message_length s) true).

Definition accum_store (s : accum_state) (off : Z) (bs : list Z) : option accum_state :=
  match store_at (rx_buffer s) off bs with
  | Some buf => Some (mk_accum_state buf (message_length s) (data_complete s))
  | None => None
  end.

Definition accum_client : client_ops accum_state :=
  mk_client_ops accum_acquire_buffer accum_commit_data accum_message_complete accum_store.

Context (Hsize : 0 <= bufsize < 2 ^ 31).

Definition accum_ready (s : accum_state) : Prop :=
  zlen (rx_buffer s) = bufsize /\ message_length s = 0.

(** A delivered request: the thread is woken with its bytes in the buffer. *)
Definition accum_deliver (s : accum_state) (p : list Z) : accum_state :=
  mk_accum_state (p ++ zdrop (zlen p) (rx_buffer s)) (zlen p) true.

(** A frame of up to half the buffer leaves room for the loop's second
    [acquire_buffer]. *)
#[refine] Instance accum_FrameClient : FrameClient accum_client := {
  cl_ready := accum_ready; cl_capacity := bufsize / 2; cl_deliver := accum_deliver
}.
Proof.
  - intros c len [Hb Hm] Hp. cbn. unfold accum_acquire_buffer.
    rewrite Hm, size_t_small, (proj2 (Z.ltb_ge _ _)) by lia. done.
  - intros c p [Hb Hm] Hp. cbn. unfold accum_store.
    rewrite store_at_Some by lia. eexists. split; [done|].
    unfold accum_commit_data, accum_message_complete, accum_deliver. cbn.
    by rewrite ztake_0, Hm, Z.add_0_l, size_t_small by lia.
  - intros c p c1 [Hb Hm]. cbn. unfold accum_store.
    destruct (store_at _ _ _) as [buf|] eqn:E; [|done]. intros [= <-].
    apply store_at_zlen in E. split; cbn; [lia|done].
  - intros c p [Hb Hm] Hp. exists (zlen p). cbn. unfold accum_acquire_buffer, accum_deliver.
    cbn [message_length]. rewrite size_t_small, (proj2 (Z.ltb_ge _ _)) by lia. done.
Defined.

End Accum.

(** ** The Wi-Fi data path *)

(** [iface->if_dev] of the first Wi-Fi interface, [net_pkt] and the stack's
    transmission, which are Zephyr's. *)
Class NetStack (N : Type) := {
  net_pkt_t : Type;
  net_if_lookup_by_dev : N -> bool;                          (* not NULL? *)
  net_pkt_alloc_with_buffer : N -> Z -> N * option net_pkt_t;
  net_pkt_write : N -> net_pkt_t -> list Z -> N;
  net_send_data : N -> net_pkt_t -> N * Z;
  net_pkt_unref : N -> net_pkt_t -> N
}.

Section WifiDataProxy.
Context {N : Type} `{NetStack N}.

Record wifi_data_state : Type := mk_wifi_data_state {
  wifi_dev : bool;                 (* not NULL? *)
  wd_message_length : Z;
  wifi_data_tx_buffer : list Z;    (* 1600 bytes *)
  wd_net : N
}.

(** Returns [true] without storing a buffer pointer. *)
Definition wifi_data_acquire_buffer (s : wifi_data_state) (len : Z) : acquire_result :=
  if size_t (1600 - wd_message_length s) <? len then AcqFail else AcqOk None.

Definition wifi_data_commit_data (s : wifi_data_state) (len : Z) : wifi_data_state :=
  mk_wifi_data_state (wifi_dev s) (size_t (wd_message_length s + len)) (wifi_data_tx_buffer s) (wd_net s).

Definition wifi_data_message_complete (s : wifi_data_state) (len : Z) : outcome wifi_data_state :=
  if negb (wifi_dev s) then Fault
  else if negb (net_if_lookup_by_dev (wd_net s)) then Ret s
  else
    let '(n1, pkt) := net_pkt_alloc_with_buffer (wd_net s) len in
    let message_length := size_t (wd_message_length s + len) in
    match pkt with
    | None => Fault
    | Some pkt =>
        if 1600 <? 4 + message_length then Fault
        else
          let n2 := net_pkt_write n1 pkt (ztake message_length (zdrop 4 (wifi_data_tx_buffer s))) in
          let '(n3, ret) := net_send_data n2 pkt in
          let n4 := if ret <? 0 then net_pkt_unref n3 pkt else n3 in
          Ret (mk_wifi_data_state (wifi_dev s) 0 (wifi_data_tx_buffer s) n4)
    end.

Definition wifi_data_store (s : wifi_data_state) (off : Z) (bs : list Z) : option wifi_data_state :=
  match store_at (wifi_data_tx_buffer s) off bs with
  | Some buf => Some (mk_wifi_data_state (wifi_dev s) (wd_message_length s) buf (wd_net s))
  | None => None
  end.

Definition wifi_data_client : client_ops wifi_data_state :=
  mk_client_ops wifi_data_acquire_buffer wifi_data_commit_data wifi_data_message_complete wifi_data_store.

(** [init_wifi_data]: the enumeration keeps the first Wi-Fi interface. *)
Definition wifi_iface_enumeration_cb (s : wifi_data_state) (is_wifi : bool) : wifi_data_state :=
  if is_wifi then
    if negb (wifi_dev s)
    then mk_wifi_data_state true (wd_message_length s) (wifi_data_tx_buffer s) (wd_net s)
    else s
  else s.

Definition init_wifi_data (s : wifi_data_state) (ifaces : list bool) : wifi_data_state :=
  fold_left wifi_iface_enumeration_cb ifaces s.

End WifiDataProxy.
Arguments mk_wifi_data_state {N} _ _ _ _.
Arguments wifi_data_state N : clear implicits.
