(* ===== verification/Device.v ===== *)
(** * Device: the device firmware put together

    The proxies' states in one record, their callbacks lifted to it, and the
    multiplexer's table over them: the serial layer's theorems applied to the
    real clients, and what happens with those that break the contract. *)

From S2P Require Import Prelude Framing Platform Client SerialDev SerialRefine SerialProps.
From S2P Require Import SerialChunks SerialLoop SerialInv Multiplexer BtProxy Proxies.
From Stdlib Require Import ZArith Lia.
From stdpp Require Import base list option numbers decidable relations.

Open Scope Z_scope.
Open Scope e80211_scope.

(** ** Lifting a client to a part of the state *)

Record lens (C A : Type) : Type := mk_lens {
  lget : C -> A;
  lput : C -> A -> C;
  lget_lput c a : lget (lput c a) = a;
  lput_lput c a b : lput (lput c a) b = lput c b;
  lput_lget c : lput c (lget c) = c
}.
Arguments lget {C A} _ _.
Arguments lput {C A} _ _ _.
Arguments lget_lput {C A} _ _ _.
Arguments lput_lput {C A} _ _ _ _.
Arguments lput_lget {C A} _ _.

Section Lift.
Context {C A : Type} (L : lens C A).

Definition lift_ops (ops : client_ops A) : client_ops C := {|
  acquire_buffer c len := acquire_buffer ops (lget L c) len;
  commit_data c len := lput L c (commit_data ops (lget L c) len);
  message_complete c len :=
    do! a <- message_complete ops (lget L c) len; Ret (lput L c a);
  buffer_store c off bs :=
    match buffer_store ops (lget L c) off bs with
    | Some a => Some (lput L c a)
    | None => None
    end
|}.

#[refine] Instance lift_FrameClient (ops : client_ops A) (F : FrameClient ops)
  : FrameClient (lift_ops ops) := {
  cl_ready c := cl_ready (lget L c);
  cl_capacity := cl_capacity (ops := ops);
  cl_deliver c p := lput L c (cl_deliver (lget L c) p)
}.
Proof.
  - intros c len Hr Hp. cbn. by apply (cl_acquire (ops := ops)).
  - intros c p Hr Hp. cbn. destruct (cl_complete (lget L c) p Hr Hp) as (a & -> & Hc).
    eexists. split; [done|]. rewrite !lget_lput, Hc. cbn. by rewrite !lput_lput.
  - intros c p c1 Hr. cbn. destruct (buffer_store ops _ _ _) as [a|] eqn:E; [|done].
    intros [= <-]. rewrite lget_lput. by eapply cl_store_ready.
  - intros c p Hr Hp. cbn. rewrite lget_lput. by apply cl_reacquire.
Defined.

#[refine] Instance lift_ChunkClient (ops : client_ops A) (F : FrameClient ops)
    (K : ChunkClient ops)
  : ChunkClient (lift_ops ops) (FrameClient0 := lift_FrameClient ops F) := {}.
Proof.
  - intros c n. cbn. by rewrite ck_commit, lput_lget.
  - intros c Hr. cbn in *. by rewrite ck_store_nil, lput_lget.
  - intros c p Hr Hp. cbn in *. rewrite lget_lput. by apply ck_deliver_ready.
  - intros c p c1 q Hr. cbn in *. destruct (buffer_store ops _ 0 p) as [a|] eqn:E; [|done].
    intros [= <-] Hc. destruct (ck_store _ p a q Hr E Hc) as (a2 & E1 & E2).
    rewrite lget_lput, E1, E2. exists (lput L c a2). by rewrite lput_lput.
Qed.

End Lift.

(** ** The clients of the firmware *)

Section Device.
Context {R H N : Type} `{RingBuf R} `{HciChannel H} `{NetStack N}.
Context (wifi_req_size VSERIAL_RX_BUF_SIZE VSERIAL_TX_BUF_SIZE : Z).

Record clients : Type := mk_clients {
  c_wifi_mgmt : accum_state;
  c_wifi_data : wifi_data_state N;
  c_net_if : accum_state;
  c_bt : bt_state H;
  c_ot : ot_state;
  c_vserial : vserial_data R
}.

#[local] Ltac lens_tac := intros; repeat match goal with c : clients |- _ => destruct c end; done.

#[program] Definition L_wifi_mgmt : lens clients accum_state :=
  mk_lens _ _ c_wifi_mgmt
    (fun c a => mk_clients a (c_wifi_data c) (c_net_if c) (c_bt c) (c_ot c) (c_vserial c)) _ _ _.
Solve Obligations with lens_tac.
#[program] Definition L_wifi_data : lens clients (wifi_data_state N) :=
  mk_lens _ _ c_wifi_data
    (fun c a => mk_clients (c_wifi_mgmt c) a (c_net_if c) (c_bt c) (c_ot c) (c_vserial c)) _ _ _.
Solve Obligations with lens_tac.
#[program] Definition L_net_if : lens clients accum_state :=
  mk_lens _ _ c_net_if
    (fun c a => mk_clients (c_wifi_mgmt c) (c_wifi_data c) a (c_bt c) (c_ot c) (c_vserial c)) _ _ _.
Solve Obligations with lens_tac.
#[program] Definition L_bt : lens clients (bt_state H) :=
  mk_lens _ _ c_bt
    (fun c a => mk_clients (c_wifi_mgmt c) (c_wifi_data c) (c_net_if c) a (c_ot c) (c_vserial c)) _ _ _.
Solve Obligations with lens_tac.
#[program] Definition L_ot : lens clients ot_state :=
  mk_lens _ _ c_ot
    (fun c a => mk_clients (c_wifi_mgmt c) (c_wifi_data c) (c_net_if c) (c_bt c) a (c_vserial c)) _ _ _.
Solve Obligations with lens_tac.
#[program] Definition L_vserial : lens clients (vserial_data R) :=
  mk_lens _ _ c_vserial
    (fun c a => mk_clients (c_wifi_mgmt c) (c_wifi_data c) (c_net_if c) (c_bt c) (c_ot c) a) _ _ _.
Solve Obligations with lens_tac.

(** [net_if_mgmt_rx_buffer[512]]. *)
Definition net_if_buf_size : Z := 512.

Definition device_proxies : proxies clients := {|
  wifi_mgmt_ops := lift_ops L_wifi_mgmt (accum_client wifi_req_size);
  wifi_data_ops := lift_ops L_wifi_data wifi_data_client;
  net_if_mgmt_ops := lift_ops L_net_if (accum_client net_if_buf_size);
  bt_proxy_ops := lift_ops L_bt bt_client;
  ot_proxy_ops := lift_ops L_ot ot_client;
  vserial_ops := lift_ops L_vserial (vserial_client VSERIAL_RX_BUF_SIZE VSERIAL_TX_BUF_SIZE)
|}.

End Device.
Arguments clients R H N : clear implicits.

(** ** The assembled device *)

Section Firmware.
Context {U R H N : Type} `{PL : PlatformLaws U} `{!TxReady U}.
Context `{RingBuf R} `{HciChannel H} `{NetStack N} (K : Kconfig).
Context (wifi_req_size VSERIAL_RX_BUF_SIZE VSERIAL_TX_BUF_SIZE : Z).

#[local] Abbreviation P :=
  (device_proxies (R := R) (H := H) (N := N) wifi_req_size VSERIAL_RX_BUF_SIZE VSERIAL_TX_BUF_SIZE).
#[local] Instance firmware_mux : Mux (clients R H N) := MuxDevice K P.

(** A run that ends in undefined behaviour on the ideal UART does so on every
    platform. *)
Lemma dev_rx_event_fault fuel (w : dev U (clients R H N)) :
  dev_rx_event fuel (ideal w) = Fault -> dev_rx_event fuel w = Fault.
Proof.
  intros E. pose proof (dev_rx_event_refines fuel w) as M. rewrite E in M.
  by destruct (dev_rx_event fuel w).
Qed.

(** C21. The Wi-Fi data callback returns [true] without storing a buffer pointer:
    every data frame that fits what is left of its 1600 bytes (and none is ever
    used, so every frame of up to 1600) makes the work item write the payload
    through an uninitialised pointer, which is undefined behaviour.  A longer
    frame is refused with OUT_OF_BUFFERS, its payload left to be read as the next
    frame.  No data frame of the host is ever delivered. *)
Theorem wifi_data_frame_faults (fuel : nat) (w : dev U (clients R H N)) (bh : bus_header)
    (p : list Z) :
  CONFIG_SERIAL_PROXY_WIFI_DATA K = true ->
  dev_idle w -> data_frame bh p -> bh_type bh = SERIAL_TYPE_WIFI_DATA ->
  rx_fifo (d_uart w) = bus_header_encode bh ++ p ->
  0 <= wd_message_length (c_wifi_data (d_cli w)) <= 1600 ->
  if zlen p <=? 1600 - wd_message_length (c_wifi_data (d_cli w))
  then dev_rx_event (5 + fuel) w = Fault
  else exists w', dev_rx_event (5 + fuel) w = Ret w' /\ d_cli w' = d_cli w /\
    dev_waits w' bh (rx_sequence_number (d_cfg w)) (tx_sequence_number (d_cfg w)) /\
    rx_fifo (d_uart w') = p /\
    dev_sent w w' (ack_bytes SERIAL_TYPE_WIFI_DATA (bh_seq bh) ERROR_TYPE_OUT_OF_BUFFERS).
Proof.
  intros HK Hi Hf Hty Hrx Hm. pose proof Hf as (_ & Hl & Hpos & Ht & Hn).
  assert (Hg : get_callbacks (bh_type bh) = Some (wifi_data_ops P)) by (rewrite Hty; by apply get_callbacks_table).
  destruct (Z.leb_spec (zlen p) (1600 - wd_message_length (c_wifi_data (d_cli w)))) as [Hp|Hp].
  - apply dev_rx_event_fault. destruct (dev_rx_event_frame fuel w bh p Hi Hf Hrx) as (h & <- & ->).
    unfold SerialHeader_as_bus in *. cbn [bh_type bh_length] in *.
    change (5 + fuel)%nat with (1 + (4 + fuel))%nat.
    apply (work_handler_wild _ (wifi_data_ops P)); try (done || (cbn; lia)).
    cbn. unfold wifi_data_acquire_buffer. rewrite Hl, size_t_small by lia.
    by rewrite (proj2 (Z.ltb_ge _ _)) by lia.
  - rewrite <- Hty. apply (dev_rx_event_no_buffer (wifi_data_ops P)); try done.
    cbn. unfold wifi_data_acquire_buffer. rewrite size_t_small by lia.
    by rewrite (proj2 (Z.ltb_lt _ _)) by lia.
Qed.

(** A management request longer than half its proxy's buffer is accepted and
    then reported as failed: the request is delivered to the net_if proxy and
    acknowledged, and the same frame is answered a second time with
    [ERROR_TYPE_OUT_OF_BUFFERS]. *)
Theorem net_if_large_request_two_acks (fuel : nat) (w : dev U (clients R H N))
    (bh : bus_header) (p : list Z) :
  CONFIG_SERIAL_PROXY_NET_IF_MGMT K = true ->
  dev_idle w -> data_frame bh p -> bh_type bh = SERIAL_TYPE_NET_IF_MGMT ->
  rx_fifo (d_uart w) = bus_header_encode bh ++ p ->
  accum_ready 512 (c_net_if (d_cli w)) -> 256 < zlen p <= 512 ->
  bh_seq bh = rx_sequence_number (d_cfg w) -> bh_no_ack bh = false ->
  exists w', dev_rx_event (5 + fuel) w = Ret w' /\
    c_net_if (d_cli w') = accum_deliver (c_net_if (d_cli w)) p /\
    dev_waits w' bh (bus_seq_next (bh_seq bh)) (tx_sequence_number (d_cfg w)) /\
    dev_sent w w' (ack_bytes SERIAL_TYPE_NET_IF_MGMT (bh_seq bh) ERROR_TYPE_NO_ERROR
                   ++ ack_bytes SERIAL_TYPE_NET_IF_MGMT (bh_seq bh) ERROR_TYPE_OUT_OF_BUFFERS).
Proof.
  intros HK Hi Hf Hty Hrx [Hb Hm] Hp Hq Hna.
  destruct (dev_rx_event_frame fuel w bh p Hi Hf Hrx) as (h & <- & E).
  destruct Hf as (Hbw & Hl & Hpos & Ht & Hn). unfold SerialHeader_as_bus in *.
  cbn [bh_type bh_length bh_seq bh_no_ack] in *.
  change (5 + fuel)%nat with (2 + (3 + fuel))%nat in E at 2.
  rewrite (work_handler_second_fail _ (net_if_mgmt_ops P) _ _ _ _ _
    (lput L_net_if (d_cli w) (mk_accum_state (p ++ zdrop (zlen p) (rx_buffer (c_net_if (d_cli w)))) 0
       (data_complete (c_net_if (d_cli w)))))
    (lput L_net_if (d_cli w) (accum_deliver (c_net_if (d_cli w)) p))) in E.
  - apply dev_rx_event_lift in E as (w' & -> & Hcfg & Hcl & Hr' & Htx).
    exists w'. split; [done|]. split; [by rewrite Hcl|].
    split; [unfold dev_waits; rewrite Hcfg; by repeat split; try (rewrite Hq)|].
    unfold dev_sent. rewrite Htx, <- app_assoc. cbn [serial_header]. by rewrite Hna, Hty.
  - done.
  - cbn. lia.
  - done.
  - cbn [serial_header]. rewrite Hty. by apply get_callbacks_table.
  - done.
  - done.
  - lia.
  - done.
  - cbn. unfold accum_acquire_buffer, net_if_buf_size. rewrite Hm, size_t_small by lia.
    by rewrite (proj2 (Z.ltb_ge _ _)) by lia.
  - cbn. unfold accum_store. rewrite store_at_Some by lia. by rewrite ztake_0, Hm.
  - cbn. unfold accum_commit_data, accum_message_complete, accum_deliver. cbn.
    by rewrite Z.add_0_l, size_t_small by lia.
  - cbn. unfold accum_acquire_buffer, accum_deliver, net_if_buf_size. cbn [message_length].
    by rewrite size_t_small, (proj2 (Z.ltb_lt _ _)) by lia.
Qed.

(** *** A request that arrives in two pieces *)

#[local] Abbreviation iw cfg rx tx cli := (mk_dev cfg (mk_IdealUart rx tx 0) cli).
#[local] Abbreviation net_cb := (net_if_mgmt_ops P).

(** The first piece is stored and committed; the parser stays in the payload. *)
Lemma net_if_first_piece fuel cfg p1 tx cli :
  let h := serial_header cfg in
  let s := c_net_if cli in
  sh_type h = SERIAL_TYPE_NET_IF_MGMT -> CONFIG_SERIAL_PROXY_NET_IF_MGMT K = true ->
  bytes_read cfg = 0 -> 0 < zlen p1 -> zlen p1 < sh_length h <= 512 -> accum_ready 512 s ->
  serial_work_handler (2 + fuel) (iw cfg p1 tx cli) =
  Ret (iw (with_work (with_bytes_read cfg (zlen p1)) false) [] tx
         (lput L_net_if cli (mk_accum_state (p1 ++ zdrop (zlen p1) (rx_buffer s)) (zlen p1)
                               (data_complete s)))).
Proof.
  cbv zeta. intros Hty HK Hb Hp Hl [Hbuf Hm].
  assert (get_callbacks (sh_type (serial_header cfg)) = Some net_cb) as Hg
    by (rewrite Hty; by apply get_callbacks_table).
  assert (0 <= sh_type (serial_header cfg) < SERIAL_TYPE_UNKNOWN) as Ht by (by rewrite Hty).
  assert (sh_type (serial_header cfg) <> SERIAL_TYPE_PROTOCOL_INFO) as Hn by (by rewrite Hty).
  rewrite (serial_work_handler_client _ net_cb) by done. cbn [d_cfg].
  change (2 + fuel)%nat with (S (S fuel)).
  rewrite work_loop_client by (done || (dev_simpl; lia)).
  unfold with_cfg. cbn [d_cfg d_uart d_cli].
  erewrite (work_client_part _ _ _ _ _ _ _ 0); [|lia|dev_simpl; lia| |]; cycle 1.
  { dev_simpl. cbn. unfold accum_acquire_buffer, net_if_buf_size.
    rewrite Hm, Hb, size_t_small, (proj2 (Z.ltb_ge _ _)) by lia. done. }
  { dev_simpl. rewrite Hb. cbn. unfold accum_store. rewrite store_at_Some by lia. done. }
  cbn [outcome_bind]. rewrite work_loop_client by (done || (dev_simpl; lia)).
  erewrite work_client_drained; cycle 1.
  { dev_simpl. rewrite Hb. cbn. unfold accum_acquire_buffer, accum_commit_data, net_if_buf_size. cbn [message_length].
    rewrite Hm, !Z.add_0_l, (size_t_small (zlen p1)), size_t_small, (proj2 (Z.ltb_ge _ _)) by lia.
    done. }
  cbn. unfold accum_commit_data. cbn. rewrite Hm, Hb, ztake_0, !Z.add_0_l, size_t_small by lia. done.
Qed.

(** The second piece is stored at the committed length plus the count already
    read, that is, at twice the offset it belongs to. *)
Lemma net_if_second_piece fuel cfg (p1 p2 : list Z) tx cli :
  let h := serial_header cfg in
  let s := c_net_if cli in
  sh_type h = SERIAL_TYPE_NET_IF_MGMT -> CONFIG_SERIAL_PROXY_NET_IF_MGMT K = true ->
  SerialHeader_wf h -> rx_sequence_number cfg = sh_sequence_number h ->
  bytes_read cfg = zlen p1 -> message_length s = zlen p1 -> zlen (rx_buffer s) = 512 ->
  0 < zlen p2 -> sh_length h = zlen p1 + zlen p2 ->
  (512 < 2 * zlen p1 + zlen p2 -> sh_length h <= 512 ->
   serial_work_handler (2 + fuel) (iw cfg p2 tx cli) = Fault) /\
  (zlen p1 + 2 * (zlen p1 + zlen p2) <= 512 ->
   exists cfg' tx',
   serial_work_handler (2 + fuel) (iw cfg p2 tx cli) =
   Ret (iw cfg' [] tx'
          (lput L_net_if cli
             (mk_accum_state (ztake (2 * zlen p1) (rx_buffer s) ++ p2
                              ++ zdrop (2 * zlen p1 + zlen p2) (rx_buffer s))
                (2 * zlen p1 + zlen p2) true)))).
Proof.
  cbv zeta. intros Hty HK Hwf Hq Hb Hm Hbuf Hp Hl. pose proof (zlen_nonneg p1) as Hp1.
  assert (get_callbacks (sh_type (serial_header cfg)) = Some net_cb) as Hg
    by (rewrite Hty; by apply get_callbacks_table).
  assert (0 <= sh_type (serial_header cfg) < SERIAL_TYPE_UNKNOWN) as Ht by (by rewrite Hty).
  assert (sh_type (serial_header cfg) <> SERIAL_TYPE_PROTOCOL_INFO) as Hn by (by rewrite Hty).
  rewrite (serial_work_handler_client _ net_cb) by done. cbn [d_cfg].
  change (2 + fuel)%nat with (S (S fuel)).
  rewrite work_loop_client by (done || (dev_simpl; lia)).
  unfold with_cfg. cbn [d_cfg d_uart d_cli].
  split.
  - intros Hov H512. erewrite (work_client_overflow _ _ _ _ _ _ (zlen p1)); [done|lia|dev_simpl; lia| |].
    + dev_simpl. cbn. unfold accum_acquire_buffer, net_if_buf_size.
      rewrite Hm, size_t_small, (proj2 (Z.ltb_ge _ _)) by lia. done.
    + dev_simpl. cbn. unfold accum_store. rewrite store_at_None by lia. done.
  - intros Hfit.
    epose proof (work_client_full net_cb (with_work cfg false) p2 [] tx 0 cli _ (zlen p1) None) as E.
    rewrite app_nil_r in E. rewrite E; [|lia|dev_simpl; lia| |]; clear E; cycle 1.
    { cbn. unfold accum_acquire_buffer, net_if_buf_size.
      rewrite Hm, size_t_small, (proj2 (Z.ltb_ge _ _)) by lia. done. }
    { dev_simpl. cbn. unfold accum_store. rewrite store_at_Some by lia. done. }
    erewrite work_packet_complete_ok; [|done|done|done].
    cbn [outcome_bind].
    rewrite work_loop_client by (done || (unfold cfg_idle; dev_simpl; lia)).
    erewrite work_client_drained; cycle 1.
    { unfold cfg_idle; dev_simpl. rewrite Hl. cbn.
      unfold accum_acquire_buffer, accum_commit_data, net_if_buf_size. cbn [message_length].
      rewrite Hm, (size_t_small (zlen p1 + (zlen p1 + zlen p2))), size_t_small,
        (proj2 (Z.ltb_ge _ _)) by lia. done. }
    cbn [outcome_bind]. do 2 eexists. do 2 f_equal. cbn. rewrite Hl, Hm, Hb, size_t_small by lia.
    replace (zlen p1 + zlen p1) with (2 * zlen p1) by lia.
    by replace (zlen p1 + (zlen p1 + zlen p2)) with (2 * zlen p1 + zlen p2) by lia.
Qed.

(** An event in the middle of a payload. *)
Lemma dev_rx_event_data fuel cfg rx tx (cli : clients R H N) :
  parsing_state cfg = PARSING_STATE_DATA ->
  dev_rx_event (S fuel) (iw cfg rx tx cli) =
  serial_work_handler (S fuel) (iw (with_work cfg true) rx tx cli).
Proof.
  intros Hs. unfold dev_rx_event, uart_irq_callback. rewrite rx_header_loop_data by done.
  cbn [outcome_bind d_cfg]. by rewrite bool_decide_eq_true_2.
Qed.

Lemma dev_run_fault fuel (w : dev U (clients R H N)) chunks :
  dev_run fuel (ideal w) chunks = Fault -> dev_run fuel w chunks = Fault.
Proof.
  intros E. pose proof (dev_run_refines fuel w chunks) as M. rewrite E in M.
  by destruct (dev_run fuel w chunks).
Qed.

(** Overwriting behind a gap. *)
Lemma store_twice (p1 p2 buf : list Z) n :
  n = zlen p1 -> 0 <= zlen p2 ->
  ztake (2 * n) (p1 ++ zdrop n buf) ++ p2 ++ zdrop (2 * n + zlen p2) (p1 ++ zdrop n buf)
  = p1 ++ ztake n (zdrop n buf) ++ p2 ++ zdrop (2 * n + zlen p2) buf.
Proof.
  intros -> Hp. unfold ztake, zdrop, zlen in *.
  rewrite take_app_ge, drop_app_ge, <- app_assoc, drop_drop by lia.
  do 2 f_equal; [f_equal; lia|]. do 2 f_equal. lia.
Qed.

(** C23. Requests that arrive in two pieces are misplaced: the net_if proxy hands
    out the end of what it has committed, the serial layer adds the count it has
    already read, so the second piece lands at twice its offset and the request
    length counts the first piece twice; when twice the first piece plus the
    second exceeds the buffer the store leaves it. *)
Theorem net_if_pieces_misplaced (fuel : nat) (w : dev U (clients R H N))
    (bh : bus_header) (p1 p2 : list Z) :
  CONFIG_SERIAL_PROXY_NET_IF_MGMT K = true ->
  dev_idle w -> data_frame bh (p1 ++ p2) -> bh_type bh = SERIAL_TYPE_NET_IF_MGMT ->
  rx_fifo (d_uart w) = [] -> accum_ready 512 (c_net_if (d_cli w)) ->
  bh_seq bh = rx_sequence_number (d_cfg w) ->
  0 < zlen p1 -> 0 < zlen p2 -> zlen p1 + zlen p2 <= 512 ->
  let buf := rx_buffer (c_net_if (d_cli w)) in
  let n := zlen p1 in
  (512 < 2 * n + zlen p2 ->
   dev_run (5 + fuel) w [bus_header_encode bh ++ p1; p2] = Fault) /\
  (3 * n + 2 * zlen p2 <= 512 ->
   exists w', dev_run (5 + fuel) w [bus_header_encode bh ++ p1; p2] = Ret w' /\
     c_net_if (d_cli w')
     = mk_accum_state (p1 ++ ztake n (zdrop n buf) ++ p2 ++ zdrop (2 * n + zlen p2) buf)
         (2 * n + zlen p2) true).
Proof.
  intros HK (Hst & Hwp & Hh & _) (Hbw & Hl & Hpos & Ht & Hn) Hty Hrx [Hbuf Hm] Hq H1' H2' H12 buf n.
  rewrite zlen_app in Hl, Hpos.
  destruct (header_of_encode _ _ Hh Hbw) as (b0 & b1 & b2 & b3 & He & Hb & <-).
  pose proof (SerialHeader_of_wire_wf _ _ _ _ _ Hh Hb) as Hwf.
  set (h := SerialHeader_of_wire (serial_header (d_cfg w)) b0 b1 b2 b3) in *.
  cbn [SerialHeader_as_bus bh_type bh_length bh_seq bh_no_ack] in *.
  set (cfg := mk_serial_config PARSING_STATE_DATA h 0 (rx_sequence_number (d_cfg w))
                (tx_sequence_number (d_cfg w)) true).
  set (cli1 := lput L_net_if (d_cli w) (mk_accum_state (p1 ++ zdrop (zlen p1) buf) (zlen p1)
                 (data_complete (c_net_if (d_cli w))))).
  assert (dev_rx_event (5 + fuel) (dev_arrive (ideal w) (bus_header_encode (SerialHeader_as_bus h) ++ p1))
    = Ret (iw (with_work (with_bytes_read cfg (zlen p1)) false) [] (tx_wire (d_uart w)) cli1)) as E1.
  { unfold dev_arrive, ideal, ideal_uart, with_uart. cbn [d_cfg d_uart d_cli]. rewrite Hrx, He.
    cbn [uart_rx_arrive IdealUart_Platform iu_rx iu_tx iu_us app].
    rewrite dev_rx_event_header by (done || (unfold header_done, SERIAL_MAX_PAYLOAD_LEN in *;
      fold h; rewrite Hl; by decide_cmp)).
    fold h. change (5 + fuel)%nat with (2 + (3 + fuel))%nat.
    apply net_if_first_piece; try done. cbn [cfg serial_header]. lia. }
  pose proof (net_if_second_piece (3 + fuel)
    (with_work (with_work (with_bytes_read cfg (zlen p1)) false) true) p1 p2 (tx_wire (d_uart w)) cli1
    Hty HK Hwf (eq_sym Hq) eq_refl eq_refl) as E2.
  cbv zeta in E2. destruct E2 as [Hov Hfit]; [|done|exact Hl|].
  { cbn [c_net_if cli1 lput L_net_if rx_buffer]. fold buf in Hbuf. rewrite zlen_app, zlen_zdrop. lia. }
  assert (dev_run (5 + fuel) (ideal w) [bus_header_encode (SerialHeader_as_bus h) ++ p1; p2]
    = (do! w1 <- serial_work_handler (2 + (3 + fuel))
         (iw (with_work (with_work (with_bytes_read cfg (zlen p1)) false) true) p2 (tx_wire (d_uart w)) cli1);
       Ret w1)) as ER.
  { cbn [dev_run]. rewrite E1. cbn [outcome_bind].
    unfold dev_arrive, with_uart. cbn [d_cfg d_uart d_cli uart_rx_arrive IdealUart_Platform iu_rx iu_tx iu_us app].
    change (5 + fuel)%nat with (S (4 + fuel)). by rewrite dev_rx_event_data. }
  split.
  - intros Hbig. apply dev_run_fault. rewrite ER, Hov; [done|done|]. cbn [with_work with_bytes_read cfg serial_header]. lia.
  - intros Hsm. destruct Hfit as (cfg' & tx' & E3); [lia|]. rewrite E3 in ER. cbn [outcome_bind] in ER.
    apply dev_run_lift in ER as (w' & -> & _ & Hcl & _ & _). exists w'. split; [done|].
    rewrite Hcl. cbn [c_net_if lput L_net_if cli1 rx_buffer]. fold n. f_equal.
    apply store_twice; subst n; lia.
Qed.

End Firmware.
