(* ===== verification/DeviceRuns.v ===== *)
(** * DeviceRuns: the device's theorems on concrete inputs

    A device with every proxy, a logging Bluetooth controller and a slow UART,
    and one theorem application per claim about the serial layer. *)

From S2P Require Import Prelude Framing Platform Client SerialDev SerialRefine SerialProps SerialSpec.
From S2P Require Import SerialChunks SerialLoop SerialInv Multiplexer BtProxy Proxies Device.
From Stdlib Require Import ZArith Lia.
From stdpp Require Import base list option numbers decidable relations.

Open Scope Z_scope.
Open Scope e80211_scope.

(** A network stack that accepts everything. *)
#[export] Instance NullNet : NetStack unit := {
  net_pkt_t := unit;
  net_if_lookup_by_dev _ := true;
  net_pkt_alloc_with_buffer n _ := (n, Some tt);
  net_pkt_write n _ _ := n;
  net_send_data n _ := (n, 0);
  net_pkt_unref n _ := n
}.

Abbreviation demo_state := (clients ListRing HciLog unit).
Abbreviation demo_proxies :=
  (device_proxies (R := ListRing) (H := HciLog) (N := unit) 4096 256 256).

Definition demo_clients : demo_state :=
  mk_clients (accum_init 4096) (mk_wifi_data_state true 0 (replicate 1600 0) tt)
    (accum_init 512) (bt_init []) ot_init (vserial_init 256 (mk_ListRing 256 [])).

#[export] Instance demo_mux : Mux demo_state := MuxDevice Kconfig_default demo_proxies.

(** A device with the given bytes in the FIFO of a slow UART. *)
Definition demo_dev (rx : list Z) : dev SlowUart demo_state :=
  mk_dev serial_config_zero (mk_SlowUart rx [] 0) demo_clients.

Definition hci_hdr (seq len : Z) : bus_header := mk_bus_header SERIAL_TYPE_HCI false false 0 0 seq len.
Definition vserial_hdr (len : Z) : bus_header := mk_bus_header SERIAL_TYPE_VSERIAL false false 0 0 0 len.
Definition net_if_hdr (len : Z) : bus_header := mk_bus_header SERIAL_TYPE_NET_IF_MGMT false false 0 0 0 len.

(** Decide a closed hypothesis by evaluation. *)
Ltac conc :=
  repeat split; vm_compute; first [reflexivity | discriminate | (intros [=]; fail) | exact I].

#[export] Existing Instance lift_FrameClient.
#[export] Existing Instance lift_ChunkClient.

(** A query, HCI_Reset with the expected number, the same again, and an ACK. *)
Definition demo_frames : list frame :=
  [(mk_bus_header SERIAL_TYPE_PROTOCOL_INFO true false 0 0 0 0, []);
   (hci_hdr 0 4, [1; 3; 12; 0]); (hci_hdr 0 4, [1; 3; 12; 0]); (hci_hdr 0 0, [])].

Lemma device_refines_receiver_witness :
  exists w', dev_run 7 (demo_dev []) (map frame_wire demo_frames) = Ret w' /\
    rx_sequence_number (d_cfg w') = 0 /\ tx_sequence_number (d_cfg w') = 1 /\
    hci (c_bt (d_cli w')) = [(BT_BUF_CMD, [3; 12; 0])] /\
    wu_tx (d_uart w') = [39; 0; 0; 4; 1; 0x9F; 1; 0; 35; 0; 0; 0; 99; 16; 0; 0].
Proof.
  assert (Hr : exists r' out, receives_all (mk_receiver 0 0 demo_clients) demo_frames r' out /\
    r_expected r' = 0 /\ r_next r' = 1 /\ hci (c_bt (r_client r')) = [(BT_BUF_CMD, [3; 12; 0])] /\
    concat (map frame_wire out) = [39; 0; 0; 4; 1; 0x9F; 1; 0; 35; 0; 0; 0; 99; 16; 0; 0]).
  { do 2 eexists. split.
    - eapply receives_more; [apply receives_query; conc|].
      eapply receives_more; [apply (receives_data _ (bt_proxy_ops demo_proxies) _); conc|].
      eapply receives_more; [eapply (receives_wrong_number _ (bt_proxy_ops demo_proxies) _); [conc..|reflexivity]|].
      eapply receives_more; [apply receives_ack; conc | apply receives_none].
    - conc. }
  destruct Hr as (r' & out & Hall & Hq & Hn & Hc & Ho).
  destruct (device_refines_receiver 2 (demo_dev []) _ r' demo_frames out Hall) as (w' & E & [_ _ He Hx Hcl] & Ht).
  { split; conc. }
  exists w'. split; [exact E|]. split; [congruence|]. split; [congruence|].
  split; [by rewrite Hcl | by rewrite <- Ho].
Defined.

(** HCI_Reset over the link. *)
Lemma device_receives_frame_witness :
  exists w', dev_rx_event 7 (demo_dev [3; 0; 0; 4; 1; 3; 12; 0]) = Ret w' /\
    hci (c_bt (d_cli w')) = [(BT_BUF_CMD, [3; 12; 0])] /\
    wu_tx (d_uart w') = [35; 0; 0; 0] /\ rx_sequence_number (d_cfg w') = 1.
Proof.
  destruct (device_receives_frame (bt_proxy_ops demo_proxies) 2
              (demo_dev [3; 0; 0; 4; 1; 3; 12; 0]) (hci_hdr 0 4) [1; 3; 12; 0])
    as (w' & E & Hc & Hw & _ & Hs); [conc..|].
  exists w'. split; [exact E|]. split; [rewrite Hc; reflexivity|].
  split; [exact Hs|]. apply Hw.
Defined.

Lemma device_rejects_bad_sequence_witness :
  exists w', dev_rx_event 7 (demo_dev [3; 80; 0; 4; 1; 3; 12; 0]) = Ret w' /\
    wu_tx (d_uart w') = [99; 0; 0; 0] /\ rx_sequence_number (d_cfg w') = 0.
Proof.
  destruct (device_rejects_bad_sequence (bt_proxy_ops demo_proxies) 2
              (demo_dev [3; 80; 0; 4; 1; 3; 12; 0]) (hci_hdr 5 4) [1; 3; 12; 0])
    as (w' & E & _ & _ & Hw & _ & Hs); [conc..|].
  exists w'. split; [exact E|]. split; [exact Hs|]. apply Hw.
Defined.

(** 513 bytes for the 512-byte HCI buffer. *)
Lemma device_out_of_buffers_witness :
  exists w', dev_rx_event 7 (demo_dev ([3; 0; 2; 1] ++ replicate 513 0)) = Ret w' /\
    wu_tx (d_uart w') = [163; 0; 0; 0] /\ wu_rx (d_uart w') = replicate 513 0.
Proof.
  destruct (device_out_of_buffers (bt_proxy_ops demo_proxies) 2
              (demo_dev ([3; 0; 2; 1] ++ replicate 513 0)) (hci_hdr 0 513) (replicate 513 0))
    as (w' & E & _ & _ & Hr & Hs); [conc..|].
  exists w'. split; [exact E|]. split; [exact Hs|exact Hr].
Defined.

(** A host acknowledgement, and a length of 4097. *)
Lemma device_header_only_witness :
  (exists w', dev_rx_event 7 (demo_dev [3; 32; 0; 0]) = Ret w' /\ wu_tx (d_uart w') = []) /\
  (exists w', dev_rx_event 7 (demo_dev [3; 32; 16; 1]) = Ret w' /\ wu_tx (d_uart w') = [227; 32; 0; 0]).
Proof.
  split.
  - destruct (device_header_only 2 (demo_dev [3; 32; 0; 0]) (hci_hdr 2 0))
      as (w' & E & _ & _ & _ & Hs); [conc|conc|conc|left; conc|].
    exists w'. split; [exact E|exact Hs].
  - destruct (device_header_only 2 (demo_dev [3; 32; 16; 1]) (hci_hdr 2 4097))
      as (w' & E & _ & _ & _ & Hs); [conc|conc|conc|right; conc|].
    exists w'. split; [exact E|exact Hs].
Defined.

Lemma device_answers_protocol_info_witness :
  exists w', dev_rx_event 7 (demo_dev [7; 0; 0; 0]) = Ret w' /\
    wu_tx (d_uart w') = [39; 0; 0; 4; 1; 0x9F; 1; 0].
Proof.
  destruct (device_answers_protocol_info 2 (demo_dev [7; 0; 0; 0])
              (mk_bus_header SERIAL_TYPE_PROTOCOL_INFO false false 0 0 0 0))
    as (w' & E & _ & _ & _ & Hs); [conc..|].
  exists w'. split; [exact E|exact Hs].
Defined.

(** Seven bytes in four pieces with an empty interrupt between them. *)
Lemma device_chunked_delivery_witness :
  exists w', dev_run 7 (demo_dev []) [[8; 0; 0]; [3; 104]; []; [105]; [33]] = Ret w' /\
    lr_data (vs_rx_ring (c_vserial (d_cli w'))) = [104; 105; 33] /\
    wu_tx (d_uart w') = [40; 0; 0; 0].
Proof.
  destruct (device_chunked_delivery (vserial_ops demo_proxies) 2 (demo_dev []) (vserial_hdr 3)
              [104; 105; 33] [[8; 0; 0]; [3; 104]; []; [105]; [33]])
    as (w' & E & Hc & _ & _ & Hs); [conc..|].
  exists w'. split; [exact E|]. split; [rewrite Hc; reflexivity|exact Hs].
Defined.

(** *** The payload loop *)

(** The state once the header has been parsed. *)
Definition demo_data (h : SerialHeader) (rx : list Z) : dev SlowUart demo_state :=
  mk_dev (mk_serial_config PARSING_STATE_DATA h 0 0 0 true) (mk_SlowUart rx [] 0) demo_clients.

Lemma work_handler_terminates_witness :
  serial_work_handler 5 (demo_data (mk_SerialHeader SERIAL_TYPE_HCI false false 0 0 0 9) [1; 3; 12; 0])
  <> OutOfFuel.
Proof.
  apply (work_handler_terminates (bt_proxy_ops demo_proxies)); [conc|conc|conc| |].
  - intros c n E. cbn in E. destruct (bt_complete_idle (c_bt c) n) as (h & Eh).
    change (bt_proxy_message_complete (lget L_bt c) n) with (bt_proxy_message_complete (c_bt c) n) in E.
    rewrite Eh in E. discriminate E.
  - cbn. lia.
Defined.

(** A complete frame of type NET_OFFLOADING, for which no proxy exists. *)
Lemma unhandled_type_livelock_witness :
  serial_work_handler 500
    (demo_data (mk_SerialHeader SERIAL_TYPE_NET_OFFLOADING false false 0 0 0 2) [1; 2]) = OutOfFuel.
Proof.
  apply unhandled_type_livelock; [right; split; [discriminate|reflexivity]|conc].
Defined.


(** Against a peer that accepts three bytes and then nothing, the call still
    returns 0 and takes a sequence number. *)
(** A transmitter that takes everything, and no device. *)
Lemma serial_send_frame_result_witness :
  (exists u2, serial_send_frame (Some (serial_config_zero, Some (mk_SlowUart [] [] 0))) 3 0 false
     (Some [7; 7; 9]) 2 = Ret (Some (with_tx_seq serial_config_zero 1, Some u2), 0) /\
     tx_wire u2 = [35; 0; 0; 2; 7; 7]) /\
  serial_send_frame (Some (serial_config_zero, @None SlowUart)) 3 0 false None 2
  = Ret (Some (serial_config_zero, None), - ENODEV).
Proof.
  split.
  - destruct (serial_send_frame_result serial_config_zero (Some (mk_SlowUart [] [] 0)) 3 0 false
                (Some [7; 7; 9]) 2 ltac:(lia)) as [_ (u1 & r1 & u2 & r2 & _ & _ & E & Ht)].
    exists u2. split; [exact E|]. exact (Ht _).
  - exact (proj2 (serial_send_frame_result serial_config_zero (@None SlowUart) 3 0 false None 2 ltac:(lia))).
Defined.

(** *** Reachable states *)

Lemma device_invariant_witness :
  exists w, rtc step (initialize_uart (demo_dev [])) w /\
    parsing_state (d_cfg w) = PARSING_STATE_LENGTH2 /\ dev_inv w.
Proof.
  assert (rtc step (initialize_uart (demo_dev []))
            (mk_dev (mk_serial_config PARSING_STATE_LENGTH2 (mk_SerialHeader 3 false false 0 0 0 1) 0 0 0 false)
               (mk_SlowUart [] [] 0) demo_clients)) as Hr.
  { eapply rtc_l; [apply (step_arrive _ [3; 0; 1]); repeat constructor; unfold is_byte; lia|].
    eapply rtc_l; [apply (step_irq 9); vm_compute; reflexivity|]. apply rtc_refl. }
  eexists. split; [exact Hr|]. split; [reflexivity|].
  apply (device_invariant (demo_dev [])); [reflexivity|constructor|exact Hr].
Defined.

(** *** Clients that break the contract *)

Lemma wifi_data_frame_faults_witness :
  dev_rx_event 7 (demo_dev [1; 0; 0; 2; 170; 187]) = Fault /\
  exists w', dev_rx_event 7 (demo_dev ([1; 0; 6; 65] ++ replicate 1601 0)) = Ret w' /\
    wu_rx (d_uart w') = replicate 1601 0 /\ wu_tx (d_uart w') = [161; 0; 0; 0].
Proof.
  split.
  - apply (wifi_data_frame_faults Kconfig_default 4096 256 256 2 (demo_dev [1; 0; 0; 2; 170; 187])
             (mk_bus_header SERIAL_TYPE_WIFI_DATA false false 0 0 0 2) [170; 187]); conc.
  - destruct (wifi_data_frame_faults Kconfig_default 4096 256 256 2
      (demo_dev ([1; 0; 6; 65] ++ replicate 1601 0))
      (mk_bus_header SERIAL_TYPE_WIFI_DATA false false 0 0 0 1601) (replicate 1601 0))
      as (w' & E & _ & _ & Hr & Hs); [conc..|].
    exists w'. split; [exact E|]. split; [exact Hr | exact Hs].
Defined.

Lemma net_if_large_request_two_acks_witness :
  exists w', dev_rx_event 7 (demo_dev ([2; 0; 1; 44] ++ replicate 300 9)) = Ret w' /\
    wu_tx (d_uart w') = [34; 0; 0; 0] ++ [162; 0; 0; 0].
Proof.
  destruct (net_if_large_request_two_acks Kconfig_default 4096 256 256 2
    (demo_dev ([2; 0; 1; 44] ++ replicate 300 9)) (net_if_hdr 300) (replicate 300 9))
    as (w' & E & _ & _ & Hs); [conc..|].
  exists w'. split; [exact E|exact Hs].
Defined.

(** Four request bytes in two pieces leave a gap of two; 500 in two pieces run
    off the buffer. *)
Lemma net_if_pieces_misplaced_witness :
  (exists w', dev_run 7 (demo_dev []) [[2; 0; 0; 4] ++ [8; 1]; [16; 5]] = Ret w' /\
     message_length (c_net_if (d_cli w')) = 6 /\
     ztake 6 (rx_buffer (c_net_if (d_cli w'))) = [8; 1; 0; 0; 16; 5]) /\
  dev_run 7 (demo_dev []) [[2; 0; 1; 244] ++ replicate 20 1; replicate 480 2] = Fault.
Proof.
  split.
  - destruct (net_if_pieces_misplaced Kconfig_default 4096 256 256 2 (demo_dev []) (net_if_hdr 4)
                [8; 1] [16; 5]) as [_ Hf]; [conc..|].
    destruct Hf as (w' & E & Hc); [conc|]. exists w'. split; [exact E|].
    rewrite Hc. split; reflexivity.
  - destruct (net_if_pieces_misplaced Kconfig_default 4096 256 256 2 (demo_dev []) (net_if_hdr 500)
                (replicate 20 1) (replicate 480 2)) as [Hf _]; [conc..|].
    apply Hf. conc.
Defined.
