(* ===== verification/HostBus.v ===== *)
(** * HostBus: the host's bus client, [host/bus.c]

    The static [struct bus_state bus] with the RX state machine (interrupt
    handler [bus_rx_isr], work item [bus_rx_work]), transmission, the
    PROTOCOL_INFO handshake, and the request/response call.

    A thread that blocks in [k_sem_take] lets the rest of the system run: what
    happens meanwhile is a script of events, a chunk of bytes arriving with its
    interrupt (an empty chunk is an interrupt alone) or the end of the waiting
    time.  Registered handlers are names with an interpretation [run_handler] on
    a state of their own. *)

From S2P Require Import Prelude Framing Platform.
From Stdlib Require Import ZArith Lia.
From stdpp Require Import base list option numbers decidable.

Open Scope Z_scope.
Open Scope e80211_scope.

Definition BUS_SYNC_RETRIES : nat := 4.
Definition E80211_BUS_RX_BUF_SIZE : Z := SERIAL_MAX_PAYLOAD_LEN.

(** ** State *)

Record bus_state (U E HID USR : Type) : Type := mk_bus_state {
  b_uart : U;
  b_state : ParsingState;
  b_hdr : bus_header;
  b_bytes_read : Z;
  b_rx_buf : list Z;
  b_work_pending : bool;          (* rx_work *)
  b_tx_seq : Z;
  b_rx_seq : Z;
  b_rx_sem : Z;                   (* count, limit 1 *)
  b_request_pending : bool;
  b_last_hdr : bus_header;
  b_supported_types : Z;
  b_handler : list (option HID);
  b_handler_user : list (option USR);
  b_opened : bool;
  b_env : E                       (* what the handlers act on *)
}.
Arguments mk_bus_state {U E HID USR} _ _ _ _ _ _ _ _ _ _ _ _ _ _ _ _.
Arguments b_uart {U E HID USR} _.
Arguments b_state {U E HID USR} _.
Arguments b_hdr {U E HID USR} _.
Arguments b_bytes_read {U E HID USR} _.
Arguments b_rx_buf {U E HID USR} _.
Arguments b_work_pending {U E HID USR} _.
Arguments b_tx_seq {U E HID USR} _.
Arguments b_rx_seq {U E HID USR} _.
Arguments b_rx_sem {U E HID USR} _.
Arguments b_request_pending {U E HID USR} _.
Arguments b_last_hdr {U E HID USR} _.
Arguments b_supported_types {U E HID USR} _.
Arguments b_handler {U E HID USR} _.
Arguments b_handler_user {U E HID USR} _.
Arguments b_opened {U E HID USR} _.
Arguments b_env {U E HID USR} _.

(** An event while a thread waits. *)
Inductive bus_event : Type :=
| EvRx (bs : list Z)
| EvTimeout.

Section HostBus.
Context {U E HID USR : Type} `{Platform U}.
Context (run_handler : HID -> option USR -> list Z -> E -> E).

#[local] Abbreviation bus := (bus_state U E HID USR).

Definition set_uart (b : bus) (u : U) : bus :=
  mk_bus_state u (b_state b) (b_hdr b) (b_bytes_read b) (b_rx_buf b) (b_work_pending b)
    (b_tx_seq b) (b_rx_seq b) (b_rx_sem b) (b_request_pending b) (b_last_hdr b)
    (b_supported_types b) (b_handler b) (b_handler_user b) (b_opened b) (b_env b).
Definition set_parser (b : bus) (s : ParsingState) (h : bus_header) (n : Z) : bus :=
  mk_bus_state (b_uart b) s h n (b_rx_buf b) (b_work_pending b)
    (b_tx_seq b) (b_rx_seq b) (b_rx_sem b) (b_request_pending b) (b_last_hdr b)
    (b_supported_types b) (b_handler b) (b_handler_user b) (b_opened b) (b_env b).
Definition set_rx_buf (b : bus) (buf : list Z) : bus :=
  mk_bus_state (b_uart b) (b_state b) (b_hdr b) (b_bytes_read b) buf (b_work_pending b)
    (b_tx_seq b) (b_rx_seq b) (b_rx_sem b) (b_request_pending b) (b_last_hdr b)
    (b_supported_types b) (b_handler b) (b_handler_user b) (b_opened b) (b_env b).
Definition set_work (b : bus) (p : bool) : bus :=
  mk_bus_state (b_uart b) (b_state b) (b_hdr b) (b_bytes_read b) (b_rx_buf b) p
    (b_tx_seq b) (b_rx_seq b) (b_rx_sem b) (b_request_pending b) (b_last_hdr b)
    (b_supported_types b) (b_handler b) (b_handler_user b) (b_opened b) (b_env b).
Definition set_tx_seq (b : bus) (s : Z) : bus :=
  mk_bus_state (b_uart b) (b_state b) (b_hdr b) (b_bytes_read b) (b_rx_buf b) (b_work_pending b)
    s (b_rx_seq b) (b_rx_sem b) (b_request_pending b) (b_last_hdr b)
    (b_supported_types b) (b_handler b) (b_handler_user b) (b_opened b) (b_env b).
Definition set_sem (b : bus) (n : Z) : bus :=
  mk_bus_state (b_uart b) (b_state b) (b_hdr b) (b_bytes_read b) (b_rx_buf b) (b_work_pending b)
    (b_tx_seq b) (b_rx_seq b) n (b_request_pending b) (b_last_hdr b)
    (b_supported_types b) (b_handler b) (b_handler_user b) (b_opened b) (b_env b).
Definition set_pending (b : bus) (p : bool) : bus :=
  mk_bus_state (b_uart b) (b_state b) (b_hdr b) (b_bytes_read b) (b_rx_buf b) (b_work_pending b)
    (b_tx_seq b) (b_rx_seq b) (b_rx_sem b) p (b_last_hdr b)
    (b_supported_types b) (b_handler b) (b_handler_user b) (b_opened b) (b_env b).
Definition set_last (b : bus) (h : bus_header) : bus :=
  mk_bus_state (b_uart b) (b_state b) (b_hdr b) (b_bytes_read b) (b_rx_buf b) (b_work_pending b)
    (b_tx_seq b) (b_rx_seq b) (b_rx_sem b) (b_request_pending b) h
    (b_supported_types b) (b_handler b) (b_handler_user b) (b_opened b) (b_env b).
Definition set_supported (b : bus) (m : Z) : bus :=
  mk_bus_state (b_uart b) (b_state b) (b_hdr b) (b_bytes_read b) (b_rx_buf b) (b_work_pending b)
    (b_tx_seq b) (b_rx_seq b) (b_rx_sem b) (b_request_pending b) (b_last_hdr b)
    m (b_handler b) (b_handler_user b) (b_opened b) (b_env b).
Definition set_env (b : bus) (e : E) : bus :=
  mk_bus_state (b_uart b) (b_state b) (b_hdr b) (b_bytes_read b) (b_rx_buf b) (b_work_pending b)
    (b_tx_seq b) (b_rx_seq b) (b_rx_sem b) (b_request_pending b) (b_last_hdr b)
    (b_supported_types b) (b_handler b) (b_handler_user b) (b_opened b) e.

(** ** Transmission *)

(** The results of [bus_data_tx] are not looked at. *)
Definition bus_send_raw (b : bus) (hdr : bus_header) (payload : option (list Z)) (len : Z)
  : outcome bus :=
  do! (u1, _) <- bus_data_tx (b_uart b) (bus_header_encode hdr);
  match payload with
  | Some p =>
      if 0 <? len then
        if zlen p <? len then Fault
        else do! (u2, _) <- bus_data_tx u1 (ztake len p); Ret (set_uart b u2)
      else Ret (set_uart b u1)
  | None => Ret (set_uart b u1)
  end.

Definition bus_send_ack (b : bus) (type seq error : Z) : outcome bus :=
  bus_send_raw b (mk_bus_header type false false error 0 seq 0) None 0.

(** ** Reception *)

(** One byte of header, in the states of the [switch]. *)
Definition bus_rx_byte (b : bus) (x : Z) : outcome bus :=
  let h := b_hdr b in
  match b_state b with
  | PARSING_STATE_TYPE =>
      Ret (set_parser b PARSING_STATE_SEQUENCE_NUMBER
             (mk_bus_header (Z.land x 0x0F) (flag (Z.land (Z.shiftr x 4) 0x1))
                (flag (Z.land (Z.shiftr x 5) 0x1)) (Z.land (Z.shiftr x 6) 0x3)
                (bh_reserved h) (bh_seq h) (bh_length h)) 0)
  | PARSING_STATE_SEQUENCE_NUMBER =>
      Ret (set_parser b PARSING_STATE_LENGTH1
             (mk_bus_header (bh_type h) (bh_no_ack h) (bh_host h) (bh_error h)
                (Z.land x 0x0F) (Z.land (Z.shiftr x 4) 0x0F) (bh_length h)) (b_bytes_read b))
  | PARSING_STATE_LENGTH1 =>
      Ret (set_parser b PARSING_STATE_LENGTH2
             (mk_bus_header (bh_type h) (bh_no_ack h) (bh_host h) (bh_error h)
                (bh_reserved h) (bh_seq h) (u16 (Z.shiftl x 8))) (b_bytes_read b))
  | PARSING_STATE_LENGTH2 =>
      let len := Z.lor (bh_length h) x in
      let h' := mk_bus_header (bh_type h) (bh_no_ack h) (bh_host h) (bh_error h)
                  (bh_reserved h) (bh_seq h) len in
      let b1 := set_parser b PARSING_STATE_LENGTH2 h' (b_bytes_read b) in
      if len =? 0 then Ret (set_parser b1 PARSING_STATE_DATA h' (b_bytes_read b1))
      else if SERIAL_MAX_PAYLOAD_LEN <? len then
        do! b2 <- bus_send_ack b1 (bh_type h) (bh_seq h) ERROR_TYPE_LENGTH_TOO_LONG;
        Ret (set_parser b2 PARSING_STATE_TYPE h' (b_bytes_read b2))
      else Ret (set_parser b1 PARSING_STATE_DATA h' (b_bytes_read b1))
  | PARSING_STATE_DATA => Ret (set_parser b PARSING_STATE_TYPE h (b_bytes_read b))
  end.

Fixpoint bus_rx_isr_loop (fuel : nat) (b : bus) : outcome bus :=
  match fuel with
  | O => OutOfFuel
  | S fuel =>
      if bool_decide (b_state b = PARSING_STATE_DATA) then Ret b
      else
        match uart_fifo_read (b_uart b) 1 with
        | (u1, RdOk [x]) =>
            do! b1 <- bus_rx_byte (set_uart b u1) x;
            bus_rx_isr_loop fuel b1
        | (u1, _) => Ret (set_uart b u1)
        end
  end.

Definition bus_rx_isr (fuel : nat) (b : bus) : outcome bus :=
  do! b1 <- bus_rx_isr_loop fuel b;
  if bool_decide (b_state b1 = PARSING_STATE_DATA) then Ret (set_work b1 true) else Ret b1.

(** The payload loop of the work item. *)
Fixpoint bus_read_payload (fuel : nat) (b : bus) : outcome bus :=
  match fuel with
  | O => OutOfFuel
  | S fuel =>
      if b_bytes_read b <? bh_length (b_hdr b) then
        match uart_fifo_read (b_uart b) (bh_length (b_hdr b) - b_bytes_read b) with
        | (u1, RdOk (x :: bs)) =>
            match store_at (b_rx_buf b) (b_bytes_read b) (x :: bs) with
            | None => Fault
            | Some buf =>
                let b1 := set_rx_buf (set_uart b u1) buf in
                bus_read_payload fuel
                  (set_parser b1 (b_state b1) (b_hdr b1) (b_bytes_read b1 + zlen (x :: bs)))
            end
        | (u1, _) => Ret (set_uart b u1)
        end
      else Ret b
  end.

(** [k_sem_give] on a semaphore with limit 1. *)
Definition k_sem_give (b : bus) : bus := set_sem b (Z.min 1 (b_rx_sem b + 1)).

(** The registered handler on the receive buffer, if there is one. *)
Definition run_registered (b : bus) (type len : Z) : bus :=
  match b_handler b !! Z.to_nat type with
  | Some (Some cb) =>
      set_env b (run_handler cb (default None (b_handler_user b !! Z.to_nat type))
                   (ztake len (b_rx_buf b)) (b_env b))
  | _ => b
  end.

(** Calling [bus.handler[type]]: the array has [SERIAL_TYPE_UNKNOWN] entries and
    the index is not checked. *)
Definition call_handler (b : bus) (type len : Z) : outcome bus :=
  if (type <? 0) || (SERIAL_TYPE_UNKNOWN <=? type) then Fault else Ret (run_registered b type len).

Definition bus_parser_reset (b : bus) : bus := set_parser b PARSING_STATE_TYPE (b_hdr b) 0.

Definition bus_rx_work (fuel : nat) (b0 : bus) : outcome bus :=
  let type := bh_type (b_hdr b0) in
  do! b <- bus_read_payload fuel (set_work b0 false);
  let h := b_hdr b in
  if b_bytes_read b <? bh_length h then Ret b
  else if negb (bus_validate_rx h =? 0) then Ret (bus_parser_reset b)
  else if bh_length h =? 0 then
    Ret (bus_parser_reset
           (if b_request_pending b then k_sem_give (set_last b h) else b))
  else
    do! b1 <- (if negb (bh_no_ack h)
               then bus_send_ack b (bh_type h) (bh_seq h) ERROR_TYPE_NO_ERROR
               else Ret b);
    do! b2 <- (if b_request_pending b1 then Ret (k_sem_give (set_last b1 (b_hdr b1)))
               else call_handler b1 type (bh_length h));
    Ret (bus_parser_reset b2).

(** An interrupt followed by the work item, if it was submitted. *)
Definition bus_rx_event (fuel : nat) (b : bus) : outcome bus :=
  do! b1 <- bus_rx_isr fuel b;
  if b_work_pending b1 then bus_rx_work fuel b1 else Ret b1.

Definition bus_arrive (b : bus) (bs : list Z) : bus := set_uart b (uart_rx_arrive (b_uart b) bs).

(** ** Waiting *)

(** [k_sem_take(&bus.rx_sem, K_MSEC(...))]: [true] when the semaphore was taken. *)
Fixpoint k_sem_take_timeout (fuel : nat) (b : bus) (script : list bus_event)
  : outcome (bus * list bus_event * bool) :=
  if 0 <? b_rx_sem b then Ret (set_sem b (b_rx_sem b - 1), script, true)
  else
    match script with
    | [] => Ret (b, [], false)
    | EvTimeout :: script => Ret (b, script, false)
    | EvRx bs :: script =>
        do! b1 <- bus_rx_event fuel (bus_arrive b bs);
        k_sem_take_timeout fuel b1 script
    end.

(** [while (k_sem_take(&bus.rx_sem, K_NO_WAIT) == 0) ;] *)
Fixpoint sem_drain (fuel : nat) (b : bus) : outcome bus :=
  match fuel with
  | O => OutOfFuel
  | S fuel => if 0 <? b_rx_sem b then sem_drain fuel (set_sem b (b_rx_sem b - 1)) else Ret b
  end.

(** ** The handshake *)

Definition sync_query (b : bus) : bus_header :=
  mk_bus_header SERIAL_TYPE_PROTOCOL_INFO true false 0 0 (bitfield 4 (b_tx_seq b)) 0.

Fixpoint bus_sync_loop (attempts fuel : nat) (b : bus) (script : list bus_event)
  : outcome (bus * list bus_event * Z) :=
  match attempts with
  | O => Ret (b, script, - ETIMEDOUT)
  | S attempts =>
      let query := sync_query b in
      do! b1 <- sem_drain fuel b;
      do! b2 <- bus_send_raw (set_pending b1 true) query None 0;
      do! (b3, script, taken) <- k_sem_take_timeout fuel b2 script;
      if negb taken then bus_sync_loop attempts fuel (set_pending b3 false) script
      else if (bh_type (b_last_hdr b3) =? SERIAL_TYPE_PROTOCOL_INFO)
              && (bh_length (b_last_hdr b3) =? 4) then
        let b4 := set_pending b3 false in
        let p := b_rx_buf b4 in
        if negb (znth p 0 =? SERIAL_PROTOCOL_VERSION) then Ret (b4, script, - ENOTSUP)
        else
          let b5 := set_supported b4 (u16 (Z.lor (znth p 1) (Z.shiftl (znth p 2) 8))) in
          Ret (set_tx_seq b5 (znth p 3), script, 0)
      else bus_sync_loop attempts fuel (set_pending b3 false) script
  end.

Definition bus_sync (fuel : nat) (b : bus) (script : list bus_event) :=
  bus_sync_loop BUS_SYNC_RETRIES fuel b script.

(** ** The client interface *)

(** [dt_node]: the devicetree chooses a bus UART; [ready]: [device_is_ready]. *)
Definition bus_open (dt_node ready : bool) (fuel : nat) (b : bus) (script : list bus_event)
  : outcome (bus * list bus_event * Z) :=
  if b_opened b then Ret (b, script, 0)
  else if negb dt_node then Ret (b, script, - ENODEV)
  else if negb ready then Ret (b, script, - ENODEV)
  else
    let b1 := mk_bus_state (uart_irq_rx_enable (b_uart b)) PARSING_STATE_TYPE (b_hdr b) 0
                (b_rx_buf b) false 0 0 (b_rx_sem b) (b_request_pending b) (b_last_hdr b)
                (b_supported_types b) (b_handler b) (b_handler_user b) true (b_env b) in
    bus_sync fuel b1 script.

Definition bus_register_handler (b : bus) (type : Z) (cb : option HID) : bus * Z :=
  if (type <? 0) || (SERIAL_TYPE_UNKNOWN <=? type) then (b, - EINVAL)
  else
    (mk_bus_state (b_uart b) (b_state b) (b_hdr b) (b_bytes_read b) (b_rx_buf b) (b_work_pending b)
       (b_tx_seq b) (b_rx_seq b) (b_rx_sem b) (b_request_pending b) (b_last_hdr b)
       (b_supported_types b) (<[Z.to_nat type := cb]> (b_handler b)) (b_handler_user b)
       (b_opened b) (b_env b), 0).

Definition bus_set_handler_user (b : bus) (type : Z) (user : option USR) : bus :=
  if (0 <=? type) && (type <? SERIAL_TYPE_UNKNOWN) then
    mk_bus_state (b_uart b) (b_state b) (b_hdr b) (b_bytes_read b) (b_rx_buf b) (b_work_pending b)
      (b_tx_seq b) (b_rx_seq b) (b_rx_sem b) (b_request_pending b) (b_last_hdr b)
      (b_supported_types b) (b_handler b) (<[Z.to_nat type := user]> (b_handler_user b))
      (b_opened b) (b_env b)
  else b.

(** The checks at the start of [bus_send] and [bus_request]. *)
Definition bus_check_args (b : bus) (type len : Z) : Z :=
  if negb (b_opened b) then - ENODEV
  else if (type <? 0) || (SERIAL_TYPE_UNKNOWN <=? type) then - EINVAL
  else if negb (bus_validate_tx type (u16 len) =? 0) then - EINVAL
  else 0.

Definition data_hdr (type seq len : Z) : bus_header :=
  mk_bus_header (bitfield 4 type) false false 0 0 (bitfield 4 seq) (u16 len).

Definition bus_send (b : bus) (type : Z) (payload : option (list Z)) (len : Z) : outcome (bus * Z) :=
  let ret := bus_check_args b type len in
  if negb (ret =? 0) then Ret (b, ret)
  else
    let hdr := data_hdr type (b_tx_seq b) len in
    do! b1 <- bus_send_raw (set_tx_seq b (bus_seq_next (b_tx_seq b))) hdr payload len;
    Ret (b1, 0).

(** How the inner loop of [bus_request] ends. *)
Inductive wait_result : Type :=
| WaitReturn (ret : Z) (resp : option (list Z))
| WaitRetry.

(** [while (true)]: [cap] is the size of the caller's [resp] array, [None] when
    [resp] or [resp_len] is NULL; the copy does not look at it. *)
Fixpoint request_wait (iters fuel : nat) (type : Z) (cap : option Z) (b : bus)
    (script : list bus_event) : outcome (bus * list bus_event * wait_result) :=
  match iters with
  | O => OutOfFuel
  | S iters =>
      do! (b1, script, taken) <- k_sem_take_timeout fuel b script;
      if negb taken then Ret (set_pending b1 false, script, WaitReturn (- ETIMEDOUT) None)
      else
        let last := b_last_hdr b1 in
        if bh_length last =? 0 then
          if bh_error last =? ERROR_TYPE_INCORRECT_SEQUENCE_NUMBER then
            do! (b2, script, ret) <- bus_sync fuel (set_pending b1 false) script;
            if negb (ret =? 0) then Ret (b2, script, WaitReturn (- ETIMEDOUT) None)
            else Ret (b2, script, WaitRetry)
          else request_wait iters fuel type cap b1 script
        else if bh_type last =? type then
          let n := Z.min (bh_length last) E80211_BUS_RX_BUF_SIZE in
          match cap with
          | Some c =>
              if c <? n then Fault
              else Ret (set_pending b1 false, script, WaitReturn 0 (Some (ztake n (b_rx_buf b1))))
          | None => Ret (set_pending b1 false, script, WaitReturn 0 None)
          end
        else
          do! b2 <- call_handler b1 (bh_type last) (bh_length last);
          request_wait iters fuel type cap b2 script
  end.

(** [for (int attempt = 0; attempt < 2 && !retried; attempt++)]; the inner loop
    is entered with [retried] false, as the outer condition says. *)
Fixpoint request_loop (attempts : nat) (retried : bool) (iters fuel : nat) (type : Z)
    (req : option (list Z)) (req_len : Z) (cap : option Z) (b : bus) (script : list bus_event)
  : outcome (bus * list bus_event * Z * option (list Z)) :=
  match attempts with
  | S attempts =>
      if negb retried then
        let hdr := data_hdr type (b_tx_seq b) req_len in
        let b1 := set_pending (set_tx_seq b (bus_seq_next (b_tx_seq b))) true in
        do! b2 <- bus_send_raw b1 hdr req req_len;
        do! (b3, script, r) <- request_wait iters fuel type cap b2 script;
        match r with
        | WaitReturn ret resp => Ret (b3, script, ret, resp)
        | WaitRetry => request_loop attempts true iters fuel type req req_len cap b3 script
        end
      else Ret (set_pending b false, script, - ETIMEDOUT, None)
  | O => Ret (set_pending b false, script, - ETIMEDOUT, None)
  end.

Definition bus_request (iters fuel : nat) (b : bus) (type : Z) (req : option (list Z)) (req_len : Z)
    (cap : option Z) (script : list bus_event)
  : outcome (bus * list bus_event * Z * option (list Z)) :=
  let ret := bus_check_args b type req_len in
  if negb (ret =? 0) then Ret (b, script, ret, None)
  else request_loop 2 false iters fuel type req req_len cap b script.

Definition bus_supported_types (b : bus) : Z := b_supported_types b.

(** Static memory before [bus_open]. *)
Definition bus_zero (u : U) (e : E) : bus :=
  mk_bus_state u PARSING_STATE_TYPE bus_header_zero 0
    (replicate (Z.to_nat E80211_BUS_RX_BUF_SIZE) 0) false 0 0 0 false bus_header_zero 0
    (replicate 9 None) (replicate 9 None) false e.

End HostBus.
