(* ===== verification/HostProps.v ===== *)
(** * HostProps: what the host's bus client does

    Reception of frames one by one and in a stream, the handshake, requests and
    their failure modes, on every platform that obeys the driver laws and makes
    transmit progress. *)

From S2P Require Import Prelude Framing Platform HostBus.
From Stdlib Require Import ZArith Lia.
From stdpp Require Import base list option numbers decidable.

Open Scope Z_scope.
Open Scope e80211_scope.

Section Host.
Context {U E HID USR : Type} `{PL : PlatformLaws U} `{!TxReady U}.
Context (run_handler : HID -> option USR -> list Z -> E -> E).

#[local] Abbreviation bus := (bus_state U E HID USR).
#[local] Abbreviation rx_event := (bus_rx_event run_handler).

(** Compute the record updates. *)
#[local] Ltac bus_simpl :=
  cbv beta iota zeta delta [set_uart set_parser set_rx_buf set_work set_tx_seq set_sem set_pending set_last
       set_supported set_env k_sem_give bus_parser_reset
       b_uart b_state b_hdr b_bytes_read b_rx_buf b_work_pending b_tx_seq b_rx_seq b_rx_sem
       b_request_pending b_last_hdr b_supported_types b_handler b_handler_user b_opened b_env
       outcome_bind] in *.

(** A platform state with the same bytes waiting and [bs] more bytes sent. *)
Definition sent_more (u u' : U) (bs : list Z) : Prop :=
  rx_fifo u' = rx_fifo u /\ tx_wire u' = tx_wire u ++ bs.

(** ** Transmission *)

Lemma bus_send_raw_none (b : bus) h :
  exists u', bus_send_raw b h None 0 = Ret (set_uart b u') /\
    sent_more (b_uart b) u' (bus_header_encode h).
Proof.
  unfold bus_send_raw. destruct (bus_data_tx_ready (b_uart b) (bus_header_encode h))
    as (u1 & -> & Hr & Ht). cbn [outcome_bind]. exists u1. done.
Qed.

Lemma bus_send_raw_some (b : bus) h p :
  exists u', bus_send_raw b h (Some p) (zlen p) = Ret (set_uart b u') /\
    sent_more (b_uart b) u' (bus_header_encode h ++ p).
Proof.
  unfold bus_send_raw. destruct (bus_data_tx_ready (b_uart b) (bus_header_encode h))
    as (u1 & -> & Hr & Ht). cbn [outcome_bind].
  destruct (Z.ltb_spec 0 (zlen p)) as [H0|H0].
  - rewrite Z.ltb_irrefl, ztake_ge by lia.
    destruct (bus_data_tx_ready u1 p) as (u2 & -> & Hr2 & Ht2). cbn [outcome_bind].
    exists u2. split; [done|]. split; [congruence|]. by rewrite Ht2, Ht, app_assoc.
  - assert (p = []) as -> by (apply zlen_zero; pose proof (zlen_nonneg p); lia).
    exists u1. rewrite app_nil_r. done.
Qed.

(** ** Reception of one frame *)

Lemma uart_read_one u x rest :
  rx_fifo u = x :: rest ->
  exists u', uart_fifo_read u 1 = (u', RdOk [x]) /\ rx_fifo u' = rest /\ tx_wire u' = tx_wire u.
Proof.
  intros E'. pose proof (read_result u 1) as H1. pose proof (read_rx u 1) as H2.
  pose proof (read_tx u 1) as H3. destruct (uart_fifo_read u 1) as [u' r]. cbn in *.
  rewrite E' in H1, H2. exists u'. split; [by rewrite H1|]. split; [done|done].
Qed.

(** The header assembled byte by byte is the decoded one. *)
Lemma rx_length_decode b0 b1 b2 b3 :
  is_byte b2 -> is_byte b3 ->
  Z.lor (u16 (Z.shiftl b2 8)) b3 = bh_length (bus_header_decode b0 b1 b2 b3).
Proof.
  unfold is_byte. intros. rewrite bus_header_decode_length by (unfold is_byte; lia).
  unfold u16. rewrite Z.mod_small by (rewrite Z.shiftl_mul_pow2 by lia; lia).
  rewrite lor_shiftl_l by lia. lia.
Qed.

Lemma bus_rx_isr_header fuel (b : bus) b0 b1 b2 b3 rest :
  b_state b = PARSING_STATE_TYPE -> bytes_ok [b0; b1; b2; b3] ->
  rx_fifo (b_uart b) = b0 :: b1 :: b2 :: b3 :: rest ->
  let h := bus_header_decode b0 b1 b2 b3 in
  bh_length h <= SERIAL_MAX_PAYLOAD_LEN ->
  exists u', rx_fifo u' = rest /\ tx_wire u' = tx_wire (b_uart b) /\
    bus_rx_isr (5 + fuel) b
    = Ret (set_work (set_parser (set_uart b u') PARSING_STATE_DATA h 0) true).
Proof.
  intros Hst (H0 & H1 & H2 & H3)%bytes4_ok Hrx h Hl.
  destruct b as [u st hd n buf wp ts rs sem rp lh sup hn hu op env]. cbn in Hst, Hrx. subst st.
  destruct (uart_read_one _ _ _ Hrx) as (u1 & E1 & Hr1 & Ht1).
  destruct (uart_read_one _ _ _ Hr1) as (u2 & E2 & Hr2 & Ht2).
  destruct (uart_read_one _ _ _ Hr2) as (u3 & E3 & Hr3 & Ht3).
  destruct (uart_read_one _ _ _ Hr3) as (u4 & E4 & Hr4 & Ht4).
  exists u4. split; [done|]. split; [cbn; congruence|].
  unfold bus_rx_isr. change (5 + fuel)%nat with (S (S (S (S (S fuel))))).
  do 4 (cbn [bus_rx_isr_loop]; rewrite bool_decide_eq_false_2 by done; bus_simpl;
        rewrite ?E1, ?E2, ?E3, ?E4; unfold bus_rx_byte at 1; bus_simpl; cbn [bh_type bh_no_ack bh_host
          bh_error bh_reserved bh_seq bh_length]).
  rewrite (rx_length_decode b0 b1 b2 b3) by done. fold h.
  change (mk_bus_header _ _ _ _ _ _ (bh_length h)) with h.
  destruct (bh_length h =? 0); [|rewrite (proj2 (Z.ltb_ge _ _)) by done];
    bus_simpl; (rewrite bool_decide_eq_true_2 by done); bus_simpl;
    by rewrite bool_decide_eq_true_2.
Qed.

(** The work item's loop on a complete payload. *)
Lemma bus_read_payload_full fuel (b : bus) p rest :
  rx_fifo (b_uart b) = p ++ rest -> b_bytes_read b = 0 -> bh_length (b_hdr b) = zlen p ->
  zlen p <= zlen (b_rx_buf b) ->
  exists u', rx_fifo u' = rest /\ tx_wire u' = tx_wire (b_uart b) /\
    bus_read_payload (2 + fuel) b
    = Ret (set_parser (set_rx_buf (set_uart b u') (p ++ zdrop (zlen p) (b_rx_buf b)))
             (b_state b) (b_hdr b) (zlen p)).
Proof.
  destruct b as [u st hd n buf wp ts rs sem rp lh sup hn hu op env].
  bus_simpl. intros Hrx -> Hl Hbuf. change (2 + fuel)%nat with (S (S fuel)).
  cbn [bus_read_payload]. bus_simpl. rewrite Hl, Z.sub_0_r. pose proof (zlen_nonneg p).
  destruct (Z.ltb_spec 0 (zlen p)) as [Hp|Hp].
  - pose proof (read_result u (zlen p)) as H1. pose proof (read_rx u (zlen p)) as H2.
    pose proof (read_tx u (zlen p)) as H3.
    destruct (uart_fifo_read u (zlen p)) as [u' r]. cbn in H1, H2, H3. subst r.
    rewrite Hrx, zdrop_app in H2 by done. rewrite Hrx, ztake_app by done.
    exists u'. split; [done|]. split; [done|].
    destruct p as [|x p]; [discriminate Hp|].
    rewrite store_at_Some by lia. bus_simpl.
    rewrite (proj2 (Z.ltb_ge _ _)) by lia. by rewrite ztake_0, !Z.add_0_l.
  - assert (p = []) as -> by (apply zlen_zero; lia).
    exists u. split; [done|]. split; [done|]. done.
Qed.

(** ** The effect of one valid frame on the client *)

(** The handlers' state after dispatching a payload. *)
Definition dispatch (hn : list (option HID)) (hu : list (option USR)) (h : bus_header) (p : list Z)
    (e : E) : E :=
  match hn !! Z.to_nat (bh_type h) with
  | Some (Some cb) => run_handler cb (default None (hu !! Z.to_nat (bh_type h))) p e
  | _ => e
  end.

(** The client after the frame: buffer, parser, and the wake-up of a requester or
    the dispatch. *)
Definition host_rx_effect (b : bus) (h : bus_header) (p : list Z) (u : U) : bus :=
  mk_bus_state u PARSING_STATE_TYPE h 0 (p ++ zdrop (zlen p) (b_rx_buf b)) false
    (b_tx_seq b) (b_rx_seq b)
    (if b_request_pending b then Z.min 1 (b_rx_sem b + 1) else b_rx_sem b)
    (b_request_pending b)
    (if b_request_pending b then h else b_last_hdr b)
    (b_supported_types b) (b_handler b) (b_handler_user b) (b_opened b)
    (if b_request_pending b || (bh_length h =? 0) then b_env b
     else dispatch (b_handler b) (b_handler_user b) h p (b_env b)).

(** What the host answers. *)
Definition host_reply (h : bus_header) : list Z :=
  if (bh_length h =? 0) || bh_no_ack h then []
  else bus_header_encode (mk_bus_header (bh_type h) false false ERROR_TYPE_NO_ERROR 0 (bh_seq h) 0).

(** A frame the host accepts. *)
Definition host_frame (h : bus_header) (p : list Z) : Prop :=
  bus_header_wf h /\ bh_reserved h = 0 /\ bh_type h < SERIAL_TYPE_UNKNOWN /\
  bh_length h = zlen p /\ zlen p <= SERIAL_MAX_PAYLOAD_LEN.

(** The client is between frames. *)
Definition host_idle (b : bus) : Prop :=
  b_state b = PARSING_STATE_TYPE /\ zlen (b_rx_buf b) = E80211_BUS_RX_BUF_SIZE.

Lemma call_handler_ok (b : bus) type len :
  0 <= type < SERIAL_TYPE_UNKNOWN ->
  call_handler run_handler b type len = Ret (run_registered run_handler b type len).
Proof. intros. unfold call_handler. by decide_cmp. Qed.

Lemma bus_rx_work_frame fuel (b : bus) p rest :
  b_state b = PARSING_STATE_DATA -> b_bytes_read b = 0 ->
  zlen (b_rx_buf b) = E80211_BUS_RX_BUF_SIZE ->
  host_frame (b_hdr b) p -> rx_fifo (b_uart b) = p ++ rest ->
  exists u', bus_rx_work run_handler (2 + fuel) b = Ret (host_rx_effect b (b_hdr b) p u') /\
    rx_fifo u' = rest /\ tx_wire u' = tx_wire (b_uart b) ++ host_reply (b_hdr b).
Proof.
  destruct b as [u st h n buf wp ts rs sem rp lh sup hn hu op env]. bus_simpl.
  intros -> -> Hbuf (Hwf & Hres & Hty & Hl & Hp) Hrx. unfold bus_rx_work. bus_simpl.
  destruct (bus_read_payload_full fuel
    (mk_bus_state u PARSING_STATE_DATA h 0 buf false ts rs sem rp lh sup hn hu op env) p rest)
    as (u2 & Hr2 & Ht2 & ->); [done|done|done|cbn [b_rx_buf]; by rewrite Hbuf|].
  bus_simpl.
  assert ((bus_validate_rx h =? 0) = true) as Hv.
  { apply Z.eqb_eq, bus_validate_rx_ok. by rewrite Hl. }
  rewrite Hv, (proj2 (Z.ltb_ge (zlen p) (bh_length h))) by lia. cbn [negb].
  unfold host_rx_effect, host_reply. bus_simpl.
  destruct (bh_length h =? 0) eqn:E0; cbn [orb].
  - exists u2. rewrite orb_true_r, app_nil_r. split; [|done]. by destruct rp.
  - rewrite orb_false_r. destruct (bh_no_ack h); cbn [negb].
    + exists u2. bus_simpl. rewrite app_nil_r. split; [|done].
      destruct rp; [done|]. rewrite call_handler_ok by (split; [apply Hwf | done]).
      unfold run_registered, dispatch. bus_simpl. rewrite Hl, ztake_app by done.
      by destruct (hn !! _) as [[|]|].
    + unfold bus_send_ack.
      match goal with |- context [bus_send_raw ?x ?y None 0] =>
        destruct (bus_send_raw_none x y) as (u3 & -> & Hr3 & Ht3) end.
      bus_simpl. exists u3. split; [|split; congruence].
      destruct rp; [done|]. rewrite call_handler_ok by (split; [apply Hwf | done]).
      unfold run_registered, dispatch. bus_simpl. rewrite Hl, ztake_app by done.
      by destruct (hn !! _) as [[|]|].
Qed.

Lemma host_rx_frame fuel (b : bus) h p rest :
  host_idle b -> host_frame h p -> rx_fifo (b_uart b) = bus_header_encode h ++ p ++ rest ->
  exists u', rx_event (5 + fuel) b = Ret (host_rx_effect b h p u') /\
    rx_fifo u' = rest /\ tx_wire u' = tx_wire (b_uart b) ++ host_reply h.
Proof.
  intros [Hst Hbuf] Hf Hrx. pose proof Hf as (Hwf & _ & _ & Hl & Hp).
  destruct (bus_header_decode_of_encode h Hwf) as (b0 & b1 & b2 & b3 & He & Hd).
  pose proof (bus_header_encode_bytes h) as HB. rewrite He in HB, Hrx. cbn [app] in Hrx.
  destruct (bus_rx_isr_header fuel b b0 b1 b2 b3 (p ++ rest) Hst HB Hrx) as (u1 & Hr1 & Ht1 & E1).
  { by rewrite Hd, Hl. }
  rewrite Hd in E1. unfold bus_rx_event. rewrite E1. cbn [outcome_bind].
  destruct (bus_rx_work_frame (3 + fuel)
    (set_work (set_parser (set_uart b u1) PARSING_STATE_DATA h 0) true) p rest)
    as (u2 & E2 & Hr2 & Ht2); [done|done|done|done|done|].
  exists u2. split; [exact E2|]. split; [done|]. rewrite Ht2. bus_simpl. congruence.
Qed.

(** ** A stream of frames *)

(** [n] interrupts, each with its work item. *)
Fixpoint host_events (fuel n : nat) (b : bus) : outcome bus :=
  match n with
  | O => Ret b
  | S n => do! b1 <- rx_event fuel b; host_events fuel n b1
  end.

(** A frame with its payload on the wire. *)
Definition frame_bytes (f : bus_header * list Z) : list Z := bus_header_encode (fst f) ++ snd f.

Definition dispatch_all (hn : list (option HID)) (hu : list (option USR))
    (frames : list (bus_header * list Z)) (e : E) : E :=
  fold_left (fun e f => if bh_length (fst f) =? 0 then e else dispatch hn hu (fst f) (snd f) e)
    frames e.

Lemma host_rx_effect_idle (b : bus) h p u :
  host_idle b -> host_frame h p -> host_idle (host_rx_effect b h p u).
Proof.
  intros [Hst Hbuf] (_ & _ & _ & _ & Hp). split; [done|]. cbn [host_rx_effect b_rx_buf].
  rewrite zlen_app, zlen_zdrop, Hbuf. unfold E80211_BUS_RX_BUF_SIZE in *.
  pose proof (zlen_nonneg p). lia.
Qed.

(** C24. The host reads a stream in order and loses nothing: when any number of
    valid frames wait back to back and no request is outstanding, that many
    interrupts consume exactly them, hand each data payload once and in order to
    the handler registered for its type, and acknowledge in order each data
    frame that asks for it. *)
Theorem host_dispatches_stream (fuel : nat) (b : bus) (frames : list (bus_header * list Z))
    (rest : list Z) :
  host_idle b -> b_request_pending b = false ->
  Forall (fun f => host_frame (fst f) (snd f)) frames ->
  rx_fifo (b_uart b) = concat (map frame_bytes frames) ++ rest ->
  exists b', host_events (5 + fuel) (length frames) b = Ret b' /\
    host_idle b' /\ rx_fifo (b_uart b') = rest /\
    b_env b' = dispatch_all (b_handler b) (b_handler_user b) frames (b_env b) /\
    tx_wire (b_uart b') = tx_wire (b_uart b) ++ concat (map (fun f => host_reply (fst f)) frames).
Proof.
  revert b. induction frames as [|[h p] frames IH]; intros b Hi Hn Hf Hrx.
  - exists b. cbn. rewrite app_nil_r. done.
  - apply List.Forall_cons_iff in Hf as [Hh Hf]. cbn [fst snd] in Hh.
    cbn [map concat] in Hrx. unfold frame_bytes at 1 in Hrx. cbn [fst snd] in Hrx.
    rewrite <- !app_assoc in Hrx.
    destruct (host_rx_frame fuel b h p _ Hi Hh Hrx) as (u' & E1 & Hr1 & Ht1).
    destruct (IH (host_rx_effect b h p u')) as (b' & E2 & Hi2 & Hr2 & He2 & Ht2); try done.
    { by apply host_rx_effect_idle. }
    exists b'. cbn [length host_events]. rewrite E1. cbn [outcome_bind].
    split; [done|]. split; [done|]. split; [done|]. split.
    + rewrite He2. cbn [host_rx_effect b_handler b_handler_user b_env]. rewrite Hn. done.
    + rewrite Ht2. cbn [host_rx_effect b_uart map concat fst]. by rewrite Ht1, app_assoc.
Qed.

(** ** Requests *)

(** A waiting thread that is woken by one frame. *)
Lemma k_sem_take_frame fuel (b : bus) h p script :
  host_idle b -> host_frame h p -> rx_fifo (b_uart b) = [] ->
  b_rx_sem b = 0 -> b_request_pending b = true ->
  exists u', rx_fifo u' = [] /\ tx_wire u' = tx_wire (b_uart b) ++ host_reply h /\
    k_sem_take_timeout run_handler (5 + fuel) b (EvRx (frame_bytes (h, p)) :: script)
    = Ret (set_sem (host_rx_effect b h p u') 0, script, true).
Proof.
  intros Hi Hf Hrx Hs Hp.
  assert (rx_fifo (b_uart (bus_arrive b (frame_bytes (h, p)))) = bus_header_encode h ++ p ++ []) as Hrx1.
  { unfold bus_arrive. bus_simpl. rewrite arrive_rx, Hrx, app_nil_r. done. }
  assert (host_idle (bus_arrive b (frame_bytes (h, p)))) as Hi1 by (destruct Hi; done).
  destruct (host_rx_frame fuel _ h p [] Hi1 Hf Hrx1) as (u' & E1 & Hr1 & Ht1).
  exists u'. split; [done|]. split.
  { rewrite Ht1. unfold bus_arrive. bus_simpl. by rewrite arrive_tx. }
  cbn [k_sem_take_timeout]. rewrite Hs. change (0 <? 0) with false. cbn iota.
  rewrite E1. cbn [outcome_bind].
  assert (b_rx_sem (host_rx_effect (bus_arrive b (frame_bytes (h, p))) h p u') = 1) as Hsem.
  { unfold host_rx_effect, bus_arrive. bus_simpl. by rewrite Hp, Hs. }
  destruct script as [|[|] script]; cbn [k_sem_take_timeout]; rewrite Hsem; reflexivity.
Qed.

(** What a frame that is not the awaited response does to the waiting client. *)
Definition wait_effect (b : bus) (h : bus_header) (p : list Z) (u : U) : bus :=
  let b1 := set_sem (host_rx_effect b h p u) 0 in
  if bh_length h =? 0 then b1 else run_registered run_handler b1 (bh_type h) (bh_length h).

(** A frame the waiting thread goes on after: an acknowledgement other than a
    sequence error, or data of another type. *)
Definition noise (type : Z) (f : bus_header * list Z) : Prop :=
  host_frame (fst f) (snd f) /\
  (bh_length (fst f) = 0 /\ bh_error (fst f) <> ERROR_TYPE_INCORRECT_SEQUENCE_NUMBER \/
   bh_length (fst f) <> 0 /\ bh_type (fst f) <> type).

(** The client while it waits for a response. *)
Record waiting (b : bus) : Prop := {
  w_idle : host_idle b;
  w_rx : rx_fifo (b_uart b) = [];
  w_sem : b_rx_sem b = 0;
  w_pending : b_request_pending b = true
}.

Lemma waiting_effect (b : bus) h p u :
  waiting b -> host_frame h p -> rx_fifo u = [] -> waiting (wait_effect b h p u).
Proof.
  intros [Hi Hrx Hs Hp] Hf Hu.
  pose proof (host_rx_effect_idle b h p u Hi Hf) as [H1 H2].
  unfold wait_effect. destruct (bh_length h =? 0).
  - split; [split|..]; done.
  - unfold run_registered.
    destruct (b_handler (set_sem (host_rx_effect b h p u) 0) !! Z.to_nat (bh_type h)) as [[|]|];
      (split; [split|..]; done).
Qed.

Lemma wait_effect_env (b : bus) h p u :
  waiting b -> host_frame h p ->
  b_env (wait_effect b h p u)
  = (if bh_length h =? 0 then b_env b else dispatch (b_handler b) (b_handler_user b) h p (b_env b)) /\
  b_handler (wait_effect b h p u) = b_handler b /\
  b_handler_user (wait_effect b h p u) = b_handler_user b /\
  b_tx_seq (wait_effect b h p u) = b_tx_seq b /\ b_uart (wait_effect b h p u) = u /\
  b_opened (wait_effect b h p u) = b_opened b.
Proof.
  intros [_ _ _ Hp] (_ & _ & _ & Hl & _).
  destruct b as [u0 st hd n buf wp ts rs sem rp lh sup hn hu op env].
  cbn [b_request_pending] in Hp. subst rp. unfold wait_effect, host_rx_effect, dispatch. bus_simpl.
  destruct (bh_length h =? 0); [done|]. unfold run_registered. bus_simpl. rewrite Hl, ztake_app by done.
  by destruct (hn !! Z.to_nat (bh_type h)) as [[|]|].
Qed.

(** The inner loop skips noise. *)
Lemma request_wait_noise iters fuel type cap (b : bus) f script :
  waiting b -> noise type f ->
  exists u', rx_fifo u' = [] /\ tx_wire u' = tx_wire (b_uart b) ++ host_reply (fst f) /\
    request_wait run_handler (S iters) (5 + fuel) type cap b (EvRx (frame_bytes f) :: script)
    = request_wait run_handler iters (5 + fuel) type cap (wait_effect b (fst f) (snd f) u') script.
Proof.
  destruct f as [h p]. intros [Hi Hrx Hs Hp] [Hf Hn]. cbn [fst snd] in *.
  destruct (k_sem_take_frame fuel b h p script Hi Hf Hrx Hs Hp) as (u' & Hr & Ht & E1).
  exists u'. split; [done|]. split; [done|]. cbn [request_wait]. rewrite E1. cbn [outcome_bind negb].
  unfold wait_effect.
  assert (b_last_hdr (set_sem (host_rx_effect b h p u') 0) = h) as ->.
  { unfold host_rx_effect. bus_simpl. by rewrite Hp. }
  destruct Hn as [[Hl He]|[Hl Ht']].
  - rewrite Hl. cbn [Z.eqb]. by rewrite (proj2 (Z.eqb_neq _ _)).
  - destruct Hf as ((? & ?) & _ & ? & _).
    rewrite !(proj2 (Z.eqb_neq _ _)), call_handler_ok by (done || lia). done.
Qed.

(** The awaited response. *)
Lemma request_wait_response iters fuel type c (b : bus) h p script :
  waiting b -> host_frame h p -> bh_type h = type -> bh_length h <> 0 ->
  exists u', rx_fifo u' = [] /\ tx_wire u' = tx_wire (b_uart b) ++ host_reply h /\
    request_wait run_handler (S iters) (5 + fuel) type (Some c) b (EvRx (frame_bytes (h, p)) :: script)
    = if c <? zlen p then Fault
      else Ret (set_pending (set_sem (host_rx_effect b h p u') 0) false, script,
                WaitReturn 0 (Some p)).
Proof.
  intros [Hi Hrx Hs Hp] Hf Hty Hl0.
  destruct (k_sem_take_frame fuel b h p script Hi Hf Hrx Hs Hp) as (u' & Hr & Ht & E1).
  exists u'. split; [done|]. split; [done|]. cbn [request_wait]. rewrite E1. cbn [outcome_bind negb].
  assert (b_last_hdr (set_sem (host_rx_effect b h p u') 0) = h) as ->.
  { unfold host_rx_effect. bus_simpl. by rewrite Hp. }
  pose proof Hf as (_ & _ & _ & Hl & Hmax).
  rewrite (proj2 (Z.eqb_neq _ _)), Hty, Z.eqb_refl, Hl, Z.min_l by done.
  unfold host_rx_effect. bus_simpl. by rewrite ztake_app.
Qed.

(** ... any amount of it. *)
Lemma request_wait_skip iters fuel type cap (b : bus) ns script :
  waiting b -> Forall (noise type) ns ->
  exists b', waiting b' /\
    b_env b' = dispatch_all (b_handler b) (b_handler_user b) ns (b_env b) /\
    b_tx_seq b' = b_tx_seq b /\ b_opened b' = b_opened b /\
    tx_wire (b_uart b') = tx_wire (b_uart b) ++ concat (map (fun f => host_reply (fst f)) ns) /\
    request_wait run_handler (length ns + iters) (5 + fuel) type cap b
      (map (fun f => EvRx (frame_bytes f)) ns ++ script)
    = request_wait run_handler iters (5 + fuel) type cap b' script.
Proof.
  revert b. induction ns as [|f ns IH]; intros b Hw Hn.
  - exists b. cbn. by rewrite app_nil_r.
  - apply List.Forall_cons_iff in Hn as [Hnf Hn].
    destruct (request_wait_noise (length ns + iters) fuel type cap b f
      (map (fun f => EvRx (frame_bytes f)) ns ++ script) Hw Hnf) as (u1 & Hr1 & Ht1 & E1).
    pose proof (waiting_effect b _ _ u1 Hw (proj1 Hnf) Hr1) as Hw1.
    destruct (wait_effect_env b _ _ u1 Hw (proj1 Hnf)) as (He1 & Hh1 & Hu1 & Hs1 & Hb1 & Ho1).
    destruct (IH _ Hw1 Hn) as (b' & Hw' & He & Hs' & Ho' & Ht & E2).
    exists b'. split; [done|]. split; [|split; [congruence|split; [congruence|split]]].
    + rewrite He, Hh1, Hu1, He1. done.
    + rewrite Ht, Hb1, Ht1. cbn [map concat]. by rewrite app_assoc.
    + rewrite <- E2. exact E1.
Qed.

Lemma request_wait_run iters fuel type c (b : bus) ns h p script :
  waiting b -> Forall (noise type) ns -> host_frame h p -> bh_type h = type -> bh_length h <> 0 ->
  exists b', waiting b' /\
    b_env b' = dispatch_all (b_handler b) (b_handler_user b) ns (b_env b) /\
    b_tx_seq b' = b_tx_seq b /\ b_opened b' = b_opened b /\
    tx_wire (b_uart b') = tx_wire (b_uart b) ++ concat (map (fun f => host_reply (fst f)) ns) /\
    exists u', rx_fifo u' = [] /\ tx_wire u' = tx_wire (b_uart b') ++ host_reply h /\
    request_wait run_handler (S (length ns + iters)) (5 + fuel) type (Some c) b
      (map (fun f => EvRx (frame_bytes f)) ns ++ EvRx (frame_bytes (h, p)) :: script)
    = if c <? zlen p then Fault
      else Ret (set_pending (set_sem (host_rx_effect b' h p u') 0) false, script,
                WaitReturn 0 (Some p)).
Proof.
  intros Hw Hn Hf Hty Hl. rewrite plus_n_Sm.
  destruct (request_wait_skip (S iters) fuel type (Some c) b ns (EvRx (frame_bytes (h, p)) :: script) Hw Hn)
    as (b' & Hw' & He & Hs & Ho & Ht & ->).
  exists b'. do 5 (split; [done|]). by apply request_wait_response.
Qed.

(** A request the client accepts. *)
Definition good_request (b : bus) (type : Z) (req : list Z) : Prop :=
  b_opened b = true /\ 0 <= type < SERIAL_TYPE_UNKNOWN /\
  0 < zlen req <= SERIAL_MAX_PAYLOAD_LEN.

Lemma bus_check_args_ok (b : bus) type req :
  good_request b type req -> bus_check_args b type (zlen req) = 0.
Proof.
  intros (Ho & Ht & Hl). unfold bus_check_args. rewrite Ho. cbn [negb].
  unfold SERIAL_TYPE_UNKNOWN, SERIAL_MAX_PAYLOAD_LEN in *. decide_cmp. cbn [orb].
  rewrite u16_small by lia. rewrite (proj2 (Z.eqb_eq (bus_validate_tx type (zlen req)) 0)); [done|].
  apply bus_validate_tx_ok. unfold SERIAL_MAX_PAYLOAD_LEN. lia.
Qed.

(** The client as [bus_request] finds it. *)
Definition quiet (b : bus) : Prop :=
  host_idle b /\ rx_fifo (b_uart b) = [] /\ b_rx_sem b = 0.

(** The whole call with a response. *)
Lemma bus_request_run iters fuel (b : bus) type c req ns h p script :
  quiet b -> good_request b type req -> Forall (noise type) ns ->
  host_frame h p -> bh_type h = type -> bh_length h <> 0 ->
  let run := bus_request run_handler (S (length ns + iters)) (5 + fuel) b type (Some req) (zlen req)
               (Some c) (map (fun f => EvRx (frame_bytes f)) ns ++ EvRx (frame_bytes (h, p)) :: script) in
  if c <? zlen p then run = Fault
  else exists b', run = Ret (b', script, 0, Some p) /\ quiet b' /\ b_opened b' = true /\
    b_request_pending b' = false /\
    b_tx_seq b' = bus_seq_next (b_tx_seq b) /\
    b_env b' = dispatch_all (b_handler b) (b_handler_user b) ns (b_env b) /\
    tx_wire (b_uart b') = tx_wire (b_uart b)
      ++ bus_header_encode (data_hdr type (b_tx_seq b) (zlen req)) ++ req
      ++ concat (map (fun f => host_reply (fst f)) ns) ++ host_reply h.
Proof.
  cbv zeta. intros ((Hst & Hbuf) & Hrx & Hs) Hg Hn Hf Hty Hl.
  unfold bus_request. cbv zeta. rewrite (bus_check_args_ok b type req Hg).
  cbn [negb Z.eqb request_loop]. cbv zeta.
  destruct (bus_send_raw_some (set_pending (set_tx_seq b (bus_seq_next (b_tx_seq b))) true)
              (data_hdr type (b_tx_seq b) (zlen req)) req) as (u1 & E1 & Hr1 & Ht1).
  rewrite E1. cbn [outcome_bind].
  destruct (request_wait_run iters fuel type c
    (set_uart (set_pending (set_tx_seq b (bus_seq_next (b_tx_seq b))) true) u1) ns h p script)
    as (b' & Hw & He & Hs' & Ho & Ht & u' & Hr' & Ht' & E2); try done.
  { split; [done| |done|done]. cbn. by rewrite Hr1. }
  rewrite E2. destruct (c <? zlen p); [done|]. cbn [outcome_bind].
  eexists. split; [reflexivity|]. destruct Hw as [Hi' _ _ Hp'].
  split; [destruct (host_rx_effect_idle b' h p u' Hi' Hf); by repeat split|].
  split; [rewrite <- (proj1 Hg); exact Ho|]. split; [done|]. split; [exact Hs'|]. split.
  - unfold host_rx_effect. bus_simpl. rewrite Hp'. exact He.
  - unfold host_rx_effect. bus_simpl. rewrite Ht', Ht. bus_simpl. rewrite Ht1. bus_simpl.
    by rewrite <- !app_assoc.
Qed.

(** Nothing more arrives before the time-out. *)
Definition silence (tail rest : list bus_event) : Prop :=
  tail = [] /\ rest = [] \/ tail = EvTimeout :: rest.

(** The call that nobody answers. *)
Lemma bus_request_unanswered iters fuel (b : bus) type cap req ns tail rest :
  quiet b -> good_request b type req -> Forall (noise type) ns -> silence tail rest ->
  exists b', bus_request run_handler (S (length ns + iters)) (5 + fuel) b type (Some req) (zlen req)
      cap (map (fun f => EvRx (frame_bytes f)) ns ++ tail) = Ret (b', rest, - ETIMEDOUT, None) /\
    quiet b' /\ b_opened b' = true /\ b_request_pending b' = false /\
    b_tx_seq b' = bus_seq_next (b_tx_seq b) /\
    b_env b' = dispatch_all (b_handler b) (b_handler_user b) ns (b_env b) /\
    tx_wire (b_uart b') = tx_wire (b_uart b)
      ++ bus_header_encode (data_hdr type (b_tx_seq b) (zlen req)) ++ req
      ++ concat (map (fun f => host_reply (fst f)) ns).
Proof.
  intros ((Hst & Hbuf) & Hrx & Hs) Hg Hn Htail.
  unfold bus_request. cbv zeta. rewrite (bus_check_args_ok b type req Hg).
  cbn [negb Z.eqb request_loop]. cbv zeta.
  destruct (bus_send_raw_some (set_pending (set_tx_seq b (bus_seq_next (b_tx_seq b))) true)
              (data_hdr type (b_tx_seq b) (zlen req)) req) as (u1 & E1 & Hr1 & Ht1).
  rewrite E1. cbn [outcome_bind]. set (b1 := set_uart _ u1) in *.
  assert (waiting b1) as Hw. { split; [done| |done|done]. cbn. by rewrite Hr1. }
  rewrite plus_n_Sm.
  destruct (request_wait_skip (S iters) fuel type cap b1 ns tail Hw Hn)
    as (b2 & [Hi3 Hr3 Hs3 _] & He & Hq & Ho & Ht & ->).
  assert (E2 : k_sem_take_timeout run_handler (5 + fuel) b2 tail = Ret (b2, rest, false)).
  { destruct Htail as [[-> ->]| ->]; cbn [k_sem_take_timeout]; by rewrite Hs3. }
  cbn [request_wait]. rewrite E2. cbn [outcome_bind negb]. eexists. split; [reflexivity|].
  split; [done|]. split; [rewrite <- (proj1 Hg); exact Ho|]. split; [done|]. split; [exact Hq|].
  split; [exact He|]. cbn. rewrite Ht. cbn. rewrite Ht1. by rewrite <- !app_assoc.
Qed.

(** ... acknowledged, and then silence. *)
Lemma bus_request_silence iters fuel (b : bus) type cap req h :
  quiet b -> good_request b type req -> noise type (h, []) -> bh_length h = 0 ->
  exists b', bus_request run_handler (2 + iters) (5 + fuel) b type (Some req) (zlen req)
      cap [EvRx (frame_bytes (h, []))] = Ret (b', [], - ETIMEDOUT, None) /\
    quiet b' /\ b_opened b' = true /\ b_request_pending b' = false /\
    b_tx_seq b' = bus_seq_next (b_tx_seq b) /\ b_env b' = b_env b /\
    tx_wire (b_uart b') = tx_wire (b_uart b)
      ++ bus_header_encode (data_hdr type (b_tx_seq b) (zlen req)) ++ req.
Proof.
  intros Hb Hg Hn Hl.
  destruct (bus_request_unanswered iters fuel b type cap req [(h, [])] [] [] Hb Hg)
    as (b' & E1 & Hq & Ho & Hp & Hs & He & Ht); [by constructor | by left |].
  exists b'. split; [exact E1|]. do 4 (split; [done|]). split.
  - rewrite He. cbn. by rewrite Hl.
  - rewrite Ht. cbn. unfold host_reply. rewrite Hl. cbn. by rewrite !app_nil_r.
Qed.


(** ** The handshake *)

(** The PROTOCOL_INFO response of a device: version, mask, next sequence. *)
Definition info_payload (v m0 m1 s : Z) : list Z := [v; m0; m1; s].

(** State after a handshake that got an answer. *)
Definition synced (b b' : bus) (m0 m1 s : Z) : Prop :=
  b_supported_types b' = u16 (Z.lor m0 (Z.shiftl m1 8)) /\ b_tx_seq b' = s /\
  b_request_pending b' = false /\ b_opened b' = b_opened b /\ b_env b' = b_env b /\ quiet b'.

Lemma bus_sync_answered fuel (b : bus) h v m0 m1 s script :
  quiet b -> host_frame h (info_payload v m0 m1 s) -> bh_type h = SERIAL_TYPE_PROTOCOL_INFO ->
  exists b', tx_wire (b_uart b') = tx_wire (b_uart b) ++ bus_header_encode (sync_query b)
      ++ host_reply h /\
    bus_sync run_handler (5 + fuel) b (EvRx (frame_bytes (h, info_payload v m0 m1 s)) :: script)
    = Ret (b', script, if v =? SERIAL_PROTOCOL_VERSION then 0 else - ENOTSUP) /\
    (v = SERIAL_PROTOCOL_VERSION -> synced b b' m0 m1 s).
Proof.
  intros (Hi & Hrx & Hs) Hf Hty. pose proof Hf as (_ & _ & _ & Hl & _).
  unfold bus_sync, BUS_SYNC_RETRIES. cbn [bus_sync_loop]. cbv zeta.
  change (5 + fuel)%nat with (S (4 + fuel)) at 1. cbn [sem_drain]. rewrite Hs.
  change (0 <? 0) with false. cbn [outcome_bind].
  destruct (bus_send_raw_none (set_pending b true) (sync_query b)) as (u1 & -> & Hr1 & Ht1).
  cbn [outcome_bind].
  destruct (k_sem_take_frame fuel (set_uart (set_pending b true) u1) h (info_payload v m0 m1 s) script)
    as (u2 & Hr2 & Ht2 & ->); [done|done|cbn; by rewrite Hr1|done|done|].
  pose proof (host_rx_effect_idle (set_uart (set_pending b true) u1) h _ u2 Hi Hf) as Hi2.
  cbn [outcome_bind negb].
  assert (b_last_hdr (set_sem (host_rx_effect (set_uart (set_pending b true) u1) h
            (info_payload v m0 m1 s) u2) 0) = h) as -> by done.
  rewrite Hty, Hl, Z.eqb_refl. change (zlen (info_payload v m0 m1 s) =? 4) with true. cbn [andb].
  assert (forall u, tx_wire u = tx_wire u1 ++ host_reply h ->
    tx_wire u = tx_wire (b_uart b) ++ bus_header_encode (sync_query b) ++ host_reply h) as Hw.
  { intros u ->. rewrite Ht1. by rewrite <- app_assoc. }
  unfold host_rx_effect in *. bus_simpl.
  change (znth (info_payload v m0 m1 s ++ _) 0) with v.
  change (znth (info_payload v m0 m1 s ++ _) 1) with m0.
  change (znth (info_payload v m0 m1 s ++ _) 2) with m1.
  change (znth (info_payload v m0 m1 s ++ _) 3) with s.
  destruct (v =? SERIAL_PROTOCOL_VERSION) eqn:Ev; cbn [negb]; eexists; (split; [|split; [reflexivity|]]).
  - apply Hw. exact Ht2.
  - intros _. split; [done|]. split; [done|]. split; [done|]. split; [done|]. split; [done|].
    split; [exact Hi2|]. split; done.
  - apply Hw. exact Ht2.
  - intros ->. done.
Qed.

(** Four attempts without an answer. *)
Lemma bus_sync_silent fuel n (b : bus) script :
  quiet b ->
  exists b', bus_sync_loop run_handler n (1 + fuel) b (replicate n EvTimeout ++ script)
    = Ret (b', script, - ETIMEDOUT) /\
    b_opened b' = b_opened b /\ b_supported_types b' = b_supported_types b /\ quiet b'.
Proof.
  revert b. induction n as [|n IH]; intros b Hq; [by exists b|].
  cbn [bus_sync_loop replicate app]. cbv zeta. pose proof Hq as (Hi & Hrx & Hs).
  change (1 + fuel)%nat with (S fuel). cbn [sem_drain]. rewrite Hs. change (0 <? 0) with false.
  cbn [outcome_bind].
  destruct (bus_send_raw_none (set_pending b true) (sync_query b)) as (u1 & -> & Hr1 & Ht1).
  cbn [outcome_bind k_sem_take_timeout]. bus_simpl. rewrite Hs. change (0 <? 0) with false.
  cbn [outcome_bind negb]. bus_simpl.
  match goal with |- context [bus_sync_loop _ n _ ?x _] => destruct (IH x) as (b' & E1 & Ho & Hsup & Hq') end.
  - split; [done|]. split; [cbn; by rewrite Hr1|done].
  - exists b'. done.
Qed.

(** C26. [bus_open]: a device that answers the query with its version makes the
    bus open with exactly the advertised mask and sequence number, and one that
    reports another version is refused with -ENOTSUP.  When the device stays
    silent the call returns -ETIMEDOUT after four attempts, but the bus is marked
    open: the next call returns 0 at once, without a handshake and with whatever
    mask was there before. *)
Theorem bus_open_handshake (fuel : nat) (b : bus) (h : bus_header) (v m0 m1 s : Z)
    (script : list bus_event) :
  b_opened b = false -> zlen (b_rx_buf b) = E80211_BUS_RX_BUF_SIZE ->
  rx_fifo (b_uart b) = [] -> b_rx_sem b = 0 ->
  host_frame h (info_payload v m0 m1 s) -> bh_type h = SERIAL_TYPE_PROTOCOL_INFO ->
  (exists b', bus_open run_handler true true (5 + fuel) b
      (EvRx (frame_bytes (h, info_payload v m0 m1 s)) :: script)
    = Ret (b', script, if v =? SERIAL_PROTOCOL_VERSION then 0 else - ENOTSUP) /\
    (v = SERIAL_PROTOCOL_VERSION ->
     b_opened b' = true /\ b_supported_types b' = u16 (Z.lor m0 (Z.shiftl m1 8)) /\ b_tx_seq b' = s)) /\
  (exists b', bus_open run_handler true true (5 + fuel) b (replicate 4 EvTimeout ++ script)
     = Ret (b', script, - ETIMEDOUT) /\
     bus_open run_handler true true (5 + fuel) b' script = Ret (b', script, 0) /\
     b_supported_types b' = b_supported_types b).
Proof.
  intros Ho Hbuf Hrx Hs Hf Hty. unfold bus_open. rewrite Ho. cbn [negb]. cbv zeta.
  match goal with |- context [bus_sync _ _ ?x _] => set (b1 := x) end.
  assert (quiet b1) as Hq.
  { split; [done|]. split; [|done]. cbn. by rewrite enable_rx. }
  split.
  - destruct (bus_sync_answered fuel b1 h v m0 m1 s script Hq Hf Hty) as (b' & _ & E1 & Hsy).
    exists b'. split; [exact E1|]. intros Hv. destruct (Hsy Hv) as (Hsup & Hseq & _ & Hop & _). done.
  - destruct (bus_sync_silent (4 + fuel) 4 b1 script Hq) as (b' & E1 & Hop & Hsup & _).
    exists b'. split; [exact E1|]. rewrite Hop. split; [done|]. exact Hsup.
Qed.

(** C27. A sequence error is not retried: when the device answers a request with an
    INCORRECT_SEQUENCE_NUMBER acknowledgement, the client synchronises, and then
    returns -ETIMEDOUT although the handshake succeeded; the request was sent
    once, and what follows in the script is not looked at. *)
Theorem bus_request_never_retries (iters fuel : nat) (b : bus) (type c : Z) (req : list Z)
    (hack h : bus_header) (m0 m1 s : Z) (script : list bus_event) :
  quiet b -> good_request b type req ->
  host_frame hack [] -> bh_error hack = ERROR_TYPE_INCORRECT_SEQUENCE_NUMBER ->
  host_frame h (info_payload SERIAL_PROTOCOL_VERSION m0 m1 s) ->
  bh_type h = SERIAL_TYPE_PROTOCOL_INFO ->
  exists b',
    bus_request run_handler (S iters) (5 + fuel) b type (Some req) (zlen req) (Some c)
      (EvRx (frame_bytes (hack, []))
       :: EvRx (frame_bytes (h, info_payload SERIAL_PROTOCOL_VERSION m0 m1 s)) :: script)
    = Ret (b', script, - ETIMEDOUT, None) /\
    b_tx_seq b' = s /\
    tx_wire (b_uart b') = tx_wire (b_uart b)
      ++ bus_header_encode (data_hdr type (b_tx_seq b) (zlen req)) ++ req
      ++ bus_header_encode (mk_bus_header SERIAL_TYPE_PROTOCOL_INFO true false 0 0
                              (bitfield 4 (bus_seq_next (b_tx_seq b))) 0)
      ++ host_reply h.
Proof.
  intros ((Hst & Hbuf) & Hrx & Hs) Hg Hfa Hea Hf Hty. pose proof Hfa as (_ & _ & _ & Hla & _).
  unfold bus_request. cbv zeta. rewrite (bus_check_args_ok b type req Hg).
  cbn [negb Z.eqb request_loop]. cbv zeta.
  destruct (bus_send_raw_some (set_pending (set_tx_seq b (bus_seq_next (b_tx_seq b))) true)
              (data_hdr type (b_tx_seq b) (zlen req)) req) as (u1 & -> & Hr1 & Ht1).
  cbn [outcome_bind request_wait].
  set (b1 := set_uart (set_pending (set_tx_seq b (bus_seq_next (b_tx_seq b))) true) u1).
  destruct (k_sem_take_frame fuel b1 hack []
    (EvRx (frame_bytes (h, info_payload SERIAL_PROTOCOL_VERSION m0 m1 s)) :: script))
    as (u2 & Hr2 & Ht2 & ->); [done|done|cbn; by rewrite Hr1|done|done|].
  cbn [outcome_bind negb].
  assert (b_last_hdr (set_sem (host_rx_effect b1 hack [] u2) 0) = hack) as -> by done.
  rewrite Hla, Hea, Z.eqb_refl. change (zlen [] =? 0) with true. cbn iota.
  destruct (bus_sync_answered fuel (set_pending (set_sem (host_rx_effect b1 hack [] u2) 0) false) h
    SERIAL_PROTOCOL_VERSION m0 m1 s script) as (b' & Ht3 & -> & Hsy); [|done|done|].
  { split; [split; [done|]|split; [done|done]]. apply (host_rx_effect_idle b1); done. }
  cbn [outcome_bind negb Z.eqb]. change (SERIAL_PROTOCOL_VERSION =? SERIAL_PROTOCOL_VERSION) with true.
  cbn [negb Z.eqb outcome_bind].
  destruct (Hsy eq_refl) as (_ & Hseq & _). eexists. split; [reflexivity|]. split; [exact Hseq|].
  change (b_uart (set_pending b' false)) with (b_uart b'). rewrite Ht3.
  unfold sync_query, host_rx_effect. bus_simpl. rewrite Ht2. subst b1. bus_simpl. rewrite Ht1. bus_simpl.
  unfold host_reply at 1. rewrite Hla. change (zlen [] =? 0) with true. cbn [orb].
  by rewrite app_nil_r, <- !app_assoc.
Qed.

(** Lengths that pass [bus_validate_tx]. *)
Definition tx_length_ok (type len : Z) : Prop :=
  len mod 65536 <= SERIAL_MAX_PAYLOAD_LEN /\ (len mod 65536 = 0 -> type = SERIAL_TYPE_PROTOCOL_INFO).

Lemma bus_send_run (b : bus) (type : Z) (p : list Z) :
  b_opened b = true -> 0 <= type < SERIAL_TYPE_UNKNOWN -> tx_length_ok type (zlen p) ->
  exists u', bus_send b type (Some p) (zlen p)
    = Ret (set_uart (set_tx_seq b (bus_seq_next (b_tx_seq b))) u', 0) /\
    rx_fifo u' = rx_fifo (b_uart b) /\
    tx_wire u' = tx_wire (b_uart b)
      ++ bus_header_encode (mk_bus_header type false false 0 0 (b_tx_seq b mod 16) (zlen p mod 65536)) ++ p.
Proof.
  intros Ho Ht Hl. unfold bus_send.
  assert (bus_check_args b type (zlen p) = 0) as ->.
  { unfold bus_check_args. rewrite Ho. cbn [negb].
    unfold SERIAL_TYPE_UNKNOWN, SERIAL_MAX_PAYLOAD_LEN in *. decide_cmp. cbn [orb].
    rewrite (proj2 (Z.eqb_eq (bus_validate_tx type (u16 (zlen p))) 0)); [done|].
    by apply bus_validate_tx_ok. }
  cbn [negb Z.eqb]. cbv zeta.
  destruct (bus_send_raw_some (set_tx_seq b (bus_seq_next (b_tx_seq b)))
              (data_hdr type (b_tx_seq b) (zlen p)) p) as (u1 & -> & Hr1 & Ht1).
  exists u1. split; [done|]. split; [done|]. rewrite Ht1.
  unfold data_hdr, bitfield, u16. rewrite (Z.mod_small type) by (unfold SERIAL_TYPE_UNKNOWN in *; lia).
  done.
Qed.

(** The answer of the argument checks. *)
Lemma bus_send_refused (b : bus) (type : Z) (payload : option (list Z)) (len : Z) :
  b_opened b = false \/ type < 0 \/ SERIAL_TYPE_UNKNOWN <= type \/ ~ tx_length_ok type len ->
  bus_send b type payload len = Ret (b, if b_opened b then - EINVAL else - ENODEV).
Proof.
  intros Hbad. unfold bus_send, bus_check_args.
  destruct (b_opened b) eqn:Ho; cbn [negb]; [|done].
  destruct Hbad as [?|Hbad]; [done|]. unfold SERIAL_TYPE_UNKNOWN in *.
  destruct ((type <? 0) || (9 <=? type)) eqn:Et; [done|].
  apply orb_false_iff in Et as [Et1 Et2]. apply Z.ltb_ge in Et1. apply Z.leb_gt in Et2.
  destruct (bus_validate_tx type (u16 len) =? 0) eqn:Ev; [|done]. exfalso.
  apply Z.eqb_eq, bus_validate_tx_ok in Ev. destruct Hbad as [?|[?|Hbad]]; [lia..|]. by apply Hbad.
Qed.


End Host.
