(* ===== verification/HostInv.v ===== *)
(** * HostInv: the host's bus client against any device

    Whatever bytes arrive, in whatever pieces, the client of [host/bus.c] keeps its
    state well formed, writes inside its receive buffer only, and every call
    returns, but for a request whose response is longer than the caller's array.
    Nothing is assumed of the device, and of the driver only its laws:
    it may refuse to transmit. *)

From S2P Require Import Prelude Framing Platform HostBus.
From Stdlib Require Import ZArith Lia.
From stdpp Require Import base list option numbers decidable relations.

Open Scope Z_scope.
Open Scope e80211_scope.

Section HostInv.
Context {U E HID USR : Type} `{PL : PlatformLaws U}.
Context (run_handler : HID -> option USR -> list Z -> E -> E).

#[local] Abbreviation bus := (bus_state U E HID USR).

(** ** Well-formed states *)

(** The parser's place, the header so far and the bytes of payload read. *)
Definition parser_wf (st : ParsingState) (h : bus_header) (n : Z) : Prop :=
  match st with
  | PARSING_STATE_TYPE => True
  | PARSING_STATE_SEQUENCE_NUMBER | PARSING_STATE_LENGTH1 => n = 0
  | PARSING_STATE_LENGTH2 => n = 0 /\ 0 <= bh_length h
  | PARSING_STATE_DATA => 0 <= n <= bh_length h /\ bh_length h <= SERIAL_MAX_PAYLOAD_LEN
  end.

Record bus_wf (b : bus) : Prop := {
  bw_rx : bytes_ok (rx_fifo (b_uart b));
  bw_parser : parser_wf (b_state b) (b_hdr b) (b_bytes_read b);
  bw_buf : zlen (b_rx_buf b) = E80211_BUS_RX_BUF_SIZE;
  bw_buf_bytes : bytes_ok (b_rx_buf b);
  bw_work : b_work_pending b = true -> b_state b = PARSING_STATE_DATA;
  bw_seq : is_byte (b_tx_seq b);
  bw_sem : 0 <= b_rx_sem b <= 1;
  bw_last : 0 <= bh_length (b_last_hdr b) <= SERIAL_MAX_PAYLOAD_LEN;
  bw_type : 0 <= bh_type (b_hdr b);
  bw_last_type : 0 <= bh_type (b_last_hdr b) < SERIAL_TYPE_UNKNOWN;
  bw_supported : 0 <= b_supported_types b < 2 ^ 16;
  bw_handlers : zlen (b_handler b) = SERIAL_TYPE_UNKNOWN /\ zlen (b_handler_user b) = SERIAL_TYPE_UNKNOWN
}.

(** The bytes that wait, which no step but an arrival increases. *)
Definition waiting_bytes (b : bus) : Z := zlen (rx_fifo (b_uart b)).

(** A well-formed state with no more bytes waiting, and the semaphore given at
    most [d] times more. *)
Definition keeps (d : Z) (b b' : bus) : Prop :=
  bus_wf b' /\ waiting_bytes b' <= waiting_bytes b /\ b_rx_sem b' <= b_rx_sem b + d.

Lemma keeps_refl b : bus_wf b -> keeps 0 b b.
Proof. intros. split; [done|]. lia. Qed.

Lemma keeps_same b b' : bus_wf b' -> b_uart b' = b_uart b -> b_rx_sem b' = b_rx_sem b -> keeps 0 b b'.
Proof. intros Hb Hu Hs. split; [done|]. unfold waiting_bytes. rewrite Hu, Hs. lia. Qed.

Lemma keeps_trans d1 d2 b1 b2 b3 : keeps d1 b1 b2 -> keeps d2 b2 b3 -> keeps (d1 + d2) b1 b3.
Proof. intros (? & ? & ?) (? & ? & ?). split; [done|]. lia. Qed.

(** Updates of single fields. *)
Lemma set_uart_wf b u : bus_wf b -> bytes_ok (rx_fifo u) -> bus_wf (set_uart b u).
Proof. intros [] ?. by split. Qed.

Lemma set_parser_wf b st h n :
  bus_wf b -> parser_wf st h n -> 0 <= bh_type h -> (b_work_pending b = true -> st = PARSING_STATE_DATA) ->
  bus_wf (set_parser b st h n).
Proof. intros [] ? ? ?. by split. Qed.

Lemma set_pending_wf b p : bus_wf b -> bus_wf (set_pending b p).
Proof. intros []. by split. Qed.

Lemma set_env_wf b e : bus_wf b -> bus_wf (set_env b e).
Proof. intros []. by split. Qed.

Lemma set_sem_wf b n : bus_wf b -> 0 <= n <= 1 -> bus_wf (set_sem b n).
Proof. intros [] ?. by split. Qed.

(** The index of the handler is in range; the handler touches its own state. *)
Lemma call_handler_wf b t n :
  bus_wf b -> 0 <= t < SERIAL_TYPE_UNKNOWN ->
  exists b', call_handler run_handler b t n = Ret b' /\ keeps 0 b b' /\ b_work_pending b' = b_work_pending b.
Proof.
  intros Hb Ht. unfold call_handler. decide_cmp. cbn [orb]. eexists. split; [done|]. unfold run_registered.
  destruct (b_handler b !! _) as [[cb|]|]; (split; [|done]); try by apply keeps_refl.
  apply keeps_same; [by apply set_env_wf | done..].
Qed.

#[local] Hint Resolve set_uart_wf set_pending_wf set_env_wf set_sem_wf : e80211.

(** ** Transmission *)

Lemma bus_data_tx_returns u data :
  exists u' r, bus_data_tx u data = Ret (u', r) /\ rx_fifo u' = rx_fifo u.
Proof.
  destruct (fifo_tx_loop_total (tx_fuel BUS_TX_TIMEOUT_MS data) BUS_TX_TIMEOUT_MS (k_uptime_get u) u data)
    as (u' & r & E1 & Hrx & _); [|by exists u', r].
  apply tx_fuel_enough. unfold BUS_TX_TIMEOUT_MS. lia.
Qed.

(** Sending changes nothing but the driver's state. *)
Lemma bus_send_raw_returns (b : bus) h p :
  exists u', bus_send_raw b h p (zlen (default [] p)) = Ret (set_uart b u') /\
    rx_fifo u' = rx_fifo (b_uart b).
Proof.
  unfold bus_send_raw. destruct (bus_data_tx_returns (b_uart b) (bus_header_encode h)) as (u1 & r & -> & Hr).
  cbn [outcome_bind]. destruct p as [p|]; [|by exists u1]. change (default [] (Some p)) with p.
  destruct (0 <? zlen p); [|by exists u1]. rewrite Z.ltb_irrefl.
  destruct (bus_data_tx_returns u1 (ztake (zlen p) p)) as (u2 & r2 & -> & Hr2). cbn [outcome_bind].
  exists u2. split; [done|]. congruence.
Qed.

Lemma set_uart_keeps b u : bus_wf b -> rx_fifo u = rx_fifo (b_uart b) -> keeps 0 b (set_uart b u).
Proof.
  intros Hb Hu. split; [apply set_uart_wf; [done|]; rewrite Hu; apply Hb|].
  unfold waiting_bytes. cbn. rewrite Hu. lia.
Qed.

Lemma bus_send_raw_wf (b : bus) h p :
  bus_wf b -> exists b', bus_send_raw b h p (zlen (default [] p)) = Ret b' /\ keeps 0 b b' /\
    b_state b' = b_state b /\ b_hdr b' = b_hdr b /\ b_bytes_read b' = b_bytes_read b /\
    b_work_pending b' = b_work_pending b /\ b_rx_sem b' = b_rx_sem b /\ b_rx_buf b' = b_rx_buf b.
Proof.
  intros Hb. destruct (bus_send_raw_returns b h p) as (u' & E1 & Hu).
  exists (set_uart b u'). split; [done|]. split; [by apply set_uart_keeps | done].
Qed.

(** ** Reception *)

Lemma uart_read_wf u n :
  exists u' bs, uart_fifo_read u n = (u', RdOk bs) /\ bs = ztake n (rx_fifo u) /\ rx_fifo u' = zdrop n (rx_fifo u).
Proof.
  pose proof (read_result u n) as H1. pose proof (read_rx u n) as H2.
  destruct (uart_fifo_read u n) as [u' r]. cbn in *. subst r. eauto.
Qed.

Lemma bytes_ok_split n l : bytes_ok l -> bytes_ok (ztake n l) /\ bytes_ok (zdrop n l).
Proof. intros Hl. split; [by apply Forall_take | by apply Forall_drop]. Qed.

(** One byte of header. *)
Lemma bus_rx_byte_wf (b : bus) x :
  bus_wf b -> is_byte x -> b_state b <> PARSING_STATE_DATA ->
  exists b', bus_rx_byte b x = Ret b' /\ keeps 0 b b'.
Proof.
  intros Hb Hx Hst. pose proof Hb as [Hrx Hp Hbuf Hbb Hw Hs Hsem Hl Hty Hlt Hsup Hh].
  assert (Hwp : b_work_pending b = false) by (destruct (b_work_pending b); [by destruct (Hst (Hw eq_refl))|done]).
  assert (Hset : forall st h n, parser_wf st h n -> 0 <= bh_type h -> keeps 0 b (set_parser b st h n)).
  { intros st h n Hpw Hth. apply keeps_same; [|done..]. apply set_parser_wf; [done|done|done|]. by rewrite Hwp. }
  unfold is_byte in Hx. unfold bus_rx_byte. destruct (b_state b) eqn:Est; cbn in Hp.
  - eexists. split; [done|]. apply Hset; [done|]. cbn. apply Z.land_nonneg. lia.
  - eexists. split; [done|]. by apply Hset.
  - eexists. split; [done|]. apply Hset; [|done]. split; [done|]. cbn. unfold u16. lia.
  - cbv zeta. destruct Hp as [Hn Hlen].
    assert (Hle : 0 <= Z.lor (bh_length (b_hdr b)) x) by (apply Z.lor_nonneg; lia).
    set (len := Z.lor _ _) in *. set (h' := mk_bus_header _ _ _ _ _ _ len).
    destruct (Z.eqb_spec len 0) as [E0|E0]; [|destruct (Z.ltb_spec SERIAL_MAX_PAYLOAD_LEN len) as [El|El]].
    + eexists. split; [done|]. apply (Hset PARSING_STATE_DATA h'); [|done]. cbn. unfold SERIAL_MAX_PAYLOAD_LEN. lia.
    + destruct (bus_send_raw_wf (set_parser b PARSING_STATE_LENGTH2 h' (b_bytes_read b))
        (mk_bus_header (bh_type (b_hdr b)) false false ERROR_TYPE_LENGTH_TOO_LONG 0 (bh_seq (b_hdr b)) 0) None)
        as (b2 & E2 & [Hb2 Hk2] & _ & _ & _ & Hw2 & _); [by apply Hset|].
      unfold bus_send_ack. change (zlen (default [] None)) with 0 in E2. rewrite E2. cbn [outcome_bind].
      eexists. split; [done|]. split; [|exact Hk2]. apply set_parser_wf; [done|done|done|].
      rewrite Hw2. cbn. by rewrite Hwp.
    + eexists. split; [done|]. apply (Hset PARSING_STATE_DATA h'); [|done]. cbn. lia.
  - done.
Qed.

Lemma bus_rx_isr_loop_wf fuel (b : bus) :
  bus_wf b -> waiting_bytes b < Z.of_nat fuel ->
  exists b', bus_rx_isr_loop fuel b = Ret b' /\ keeps 0 b b'.
Proof.
  revert b. induction fuel as [|fuel IH]; intros b Hb Hf.
  { unfold waiting_bytes in Hf. pose proof (zlen_nonneg (rx_fifo (b_uart b))). lia. }
  cbn [bus_rx_isr_loop]. case_bool_decide as Hst; [exists b; split; [done|]; by apply keeps_refl|].
  destruct (uart_read_wf (b_uart b) 1) as (u1 & bs & -> & -> & Hr).
  pose proof (bw_rx _ Hb) as Hrx. unfold waiting_bytes in Hf.
  destruct (rx_fifo (b_uart b)) as [|x rest] eqn:Ef.
  { exists (set_uart b u1). split; [done|]. apply set_uart_keeps; [done|]. by rewrite Hr, Ef. }
  change (ztake 1 (x :: rest)) with [x]. change (zdrop 1 (x :: rest)) with rest in Hr.
  apply Forall_cons in Hrx as [Hx Hrest].
  assert (Hb1 : bus_wf (set_uart b u1)) by (apply set_uart_wf; [done | by rewrite Hr]).
  destruct (bus_rx_byte_wf (set_uart b u1) x Hb1 Hx Hst) as (b2 & -> & Hb2 & Hk2). cbn [outcome_bind].
  unfold waiting_bytes in Hk2. cbn in Hk2. rewrite Hr in Hk2. rewrite zlen_cons in Hf.
  destruct (IH b2 Hb2) as (b3 & -> & Hb3 & Hk3); [unfold waiting_bytes; lia|].
  exists b3. split; [done|]. split; [done|]. unfold waiting_bytes in *. rewrite Ef, zlen_cons. lia.
Qed.

Lemma bus_rx_isr_wf fuel (b : bus) :
  bus_wf b -> waiting_bytes b < Z.of_nat fuel ->
  exists b', bus_rx_isr fuel b = Ret b' /\ keeps 0 b b'.
Proof.
  intros Hb Hf. unfold bus_rx_isr. destruct (bus_rx_isr_loop_wf fuel b Hb Hf) as (b1 & -> & Hb1 & Hk1).
  cbn [outcome_bind]. case_bool_decide as Hst; eexists; (split; [done|]); [|by split].
  split; [|exact Hk1]. destruct Hb1. by split.
Qed.

(** The payload loop with nothing left to read. *)
Lemma bus_read_payload_ends fuel (b : bus) :
  bus_wf b -> bh_length (b_hdr b) <= b_bytes_read b \/ rx_fifo (b_uart b) = [] ->
  exists u', bus_read_payload (S fuel) b = Ret (set_uart b u') /\ rx_fifo u' = rx_fifo (b_uart b).
Proof.
  intros Hb Hend. cbn [bus_read_payload].
  destruct (Z.ltb_spec (b_bytes_read b) (bh_length (b_hdr b))) as [Hlt|Hge].
  - destruct Hend as [?|He]; [lia|].
    destruct (uart_read_wf (b_uart b) (bh_length (b_hdr b) - b_bytes_read b)) as (u1 & bs & -> & -> & Hr).
    rewrite He in *. unfold ztake, zdrop in *. rewrite take_nil, drop_nil in *. by exists u1.
  - exists (b_uart b). split; [by destruct b | done].
Qed.

(** The payload loop: one read takes what is there, up to the length. *)
Lemma bus_read_payload_wf fuel (b : bus) :
  bus_wf b -> b_state b = PARSING_STATE_DATA -> (2 <= fuel)%nat ->
  exists b', bus_read_payload fuel b = Ret b' /\ keeps 0 b b' /\ b_state b' = PARSING_STATE_DATA /\
    b_work_pending b' = b_work_pending b /\ b_hdr b' = b_hdr b.
Proof.
  intros Hb Hst Hf. destruct fuel as [|[|fuel]]; [lia..|].
  remember (S fuel) as fuel1 eqn:Ef1. cbn [bus_read_payload].
  pose proof Hb as [Hrx Hp Hbuf Hbb Hw Hs Hsem Hl Hty Hlt Hsup Hh]. rewrite Hst in Hp. cbn in Hp.
  destruct (Z.ltb_spec (b_bytes_read b) (bh_length (b_hdr b))) as [Hless|Hge];
    [|exists b; split; [done|]; split; [by apply keeps_refl | done]].
  destruct (uart_read_wf (b_uart b) (bh_length (b_hdr b) - b_bytes_read b)) as (u1 & bs & -> & Ebs & Hr).
  destruct (bytes_ok_split (bh_length (b_hdr b) - b_bytes_read b) _ Hrx) as [Hbs Hrest].
  rewrite <- Ebs in Hbs. rewrite <- Hr in Hrest.
  assert (Hlen : zlen bs <= bh_length (b_hdr b) - b_bytes_read b) by (rewrite Ebs, zlen_ztake; lia).
  assert (Hu : zlen (rx_fifo u1) <= zlen (rx_fifo (b_uart b)))
    by (rewrite Hr, zlen_zdrop; pose proof (zlen_nonneg (rx_fifo (b_uart b))); lia).
  destruct bs as [|x bs].
  { exists (set_uart b u1). split; [done|]. split; [|done].
    split; [by apply set_uart_wf|]. unfold waiting_bytes. cbn. lia. }
  unfold E80211_BUS_RX_BUF_SIZE in Hbuf.
  destruct (store_at (b_rx_buf b) (b_bytes_read b) (x :: bs)) as [buf|] eqn:Es.
  2: { rewrite store_at_Some in Es by (unfold SERIAL_MAX_PAYLOAD_LEN in *; lia). done. }
  cbv zeta. subst fuel1. set (b2 := set_parser _ _ _ _).
  assert (Hb2 : bus_wf b2).
  { pose proof (zlen_nonneg (x :: bs)). split; cbn; try done.
    - rewrite Hst. cbn. lia.
    - by rewrite (store_at_zlen _ _ _ _ Es).
    - apply store_at_inv in Es as (_ & _ & ->).
      apply Forall_app. split; [by apply bytes_ok_split|]. apply Forall_app. split; [done | by apply bytes_ok_split]. }
  destruct (bus_read_payload_ends fuel b2 Hb2) as (u2 & -> & Hu2).
  { cbn. rewrite Hr.
    destruct (Z.le_gt_cases (bh_length (b_hdr b)) (b_bytes_read b + zlen (x :: bs))); [by left|right].
    apply zdrop_ge. rewrite Ebs, zlen_ztake in *. lia. }
  exists (set_uart b2 u2). split; [done|]. split; [|split; [exact Hst|done]].
  apply (keeps_trans 0 0 b b2); [|by apply set_uart_keeps].
  split; [done|]. unfold waiting_bytes. cbn. lia.
Qed.

Lemma bus_rx_work_wf fuel (b : bus) :
  bus_wf b -> b_work_pending b = true -> (2 <= fuel)%nat ->
  exists b', bus_rx_work run_handler fuel b = Ret b' /\ keeps 1 b b'.
Proof.
  intros Hb Hwp Hf. unfold bus_rx_work. cbv zeta.
  assert (Hb0 : bus_wf (set_work b false)) by (destruct Hb; by split).
  destruct (bus_read_payload_wf fuel (set_work b false) Hb0 (bw_work _ Hb Hwp) Hf)
    as (b1 & -> & Hk1 & Hst1 & Hw1 & Hh1). cbn [outcome_bind].
  pose proof Hk1 as (Hb1 & Hk1' & Hs1). change (waiting_bytes (set_work b false)) with (waiting_bytes b) in Hk1'.
  change (b_rx_sem (set_work b false)) with (b_rx_sem b) in Hs1. cbn in Hw1.
  assert (Hreset : forall b2, bus_wf b2 -> b_work_pending b2 = false -> bus_wf (bus_parser_reset b2)).
  { intros b2 Hb2 Hw2. apply set_parser_wf; [done|done|apply Hb2|]. by rewrite Hw2. }
  assert (Hgive : forall b2 h, bus_wf b2 -> 0 <= bh_length h <= SERIAL_MAX_PAYLOAD_LEN ->
    0 <= bh_type h < SERIAL_TYPE_UNKNOWN -> keeps 1 b2 (k_sem_give (set_last b2 h))).
  { intros b2 h [] Hh Hth. split; [split; cbn; (done || lia)|]. unfold waiting_bytes. cbn. lia. }
  pose proof (bw_parser _ Hb1) as Hp1. rewrite Hst1 in Hp1. cbn in Hp1.
  destruct (_ <? _); [exists b1; split; [done|]; split; [done|]; lia|].
  destruct (bus_validate_rx (b_hdr b1) =? 0) eqn:Ev; cbn [negb].
  2: { eexists. split; [done|]. split; [by apply Hreset|]. unfold waiting_bytes in *. cbn. lia. }
  assert (Hty : 0 <= bh_type (b_hdr b1) < SERIAL_TYPE_UNKNOWN).
  { split; [apply Hb1|]. apply Z.eqb_eq, bus_validate_rx_ok in Ev. apply Ev. }
  assert (Hlast : 0 <= bh_length (b_hdr b1) <= SERIAL_MAX_PAYLOAD_LEN) by lia.
  assert (Hdone : forall b2, keeps 1 b1 b2 -> b_work_pending b2 = false ->
    exists b', Ret (bus_parser_reset b2) = Ret b' /\ keeps 1 b b').
  { intros b2 (Hb2 & Hk2 & Hs2) Hw2. eexists. split; [done|]. split; [by apply Hreset|].
    unfold waiting_bytes in *. cbn. lia. }
  destruct (bh_length (b_hdr b1) =? 0).
  - destruct (b_request_pending b1); apply Hdone; [by apply Hgive | done | |done]. split; [done|]. lia.
  - assert (Hack : exists b2, (if negb (bh_no_ack (b_hdr b1))
        then bus_send_ack b1 (bh_type (b_hdr b1)) (bh_seq (b_hdr b1)) ERROR_TYPE_NO_ERROR else Ret b1) = Ret b2 /\
        keeps 0 b1 b2 /\ b_hdr b2 = b_hdr b1 /\ b_work_pending b2 = false).
    { destruct (negb _); [|exists b1; split; [done|]; split; [by apply keeps_refl | done]].
      destruct (bus_send_raw_wf b1 (mk_bus_header (bh_type (b_hdr b1)) false false ERROR_TYPE_NO_ERROR 0
        (bh_seq (b_hdr b1)) 0) None Hb1) as (b2 & E2 & Hk2 & _ & Hh2 & _ & Hw2 & _).
      exists b2. split; [exact E2|]. split; [done|]. split; [done|]. congruence. }
    destruct Hack as (b2 & -> & Hk2 & Hh2 & Hw2). cbn [outcome_bind]. pose proof Hk2 as (Hb2 & _).
    destruct (b_request_pending b2); cbn [outcome_bind].
    + apply Hdone; [|done]. apply (keeps_trans 0 1 b1 b2); [done|]. by apply Hgive; rewrite ?Hh2.
    + destruct (call_handler_wf b2 (bh_type (b_hdr b)) (bh_length (b_hdr b1)) Hb2) as (b3 & -> & (? & ? & ?) & Hw3).
      { change (b_hdr b) with (b_hdr (set_work b false)). by rewrite <- Hh1. }
      cbn [outcome_bind]. destruct Hk2 as (_ & ? & ?). apply Hdone; [|congruence]. split; [done|]. lia.
Qed.

Lemma bus_rx_event_wf fuel (b : bus) :
  bus_wf b -> waiting_bytes b + 2 <= Z.of_nat fuel ->
  exists b', bus_rx_event run_handler fuel b = Ret b' /\ keeps 1 b b'.
Proof.
  intros Hb Hf. unfold bus_rx_event. pose proof (zlen_nonneg (rx_fifo (b_uart b))) as Hn.
  unfold waiting_bytes in Hf.
  destruct (bus_rx_isr_wf fuel b Hb) as (b1 & -> & Hk1); [unfold waiting_bytes; lia|]. cbn [outcome_bind].
  pose proof Hk1 as (Hb1 & Hw1 & Hs1). destruct (b_work_pending b1) eqn:Ew.
  - destruct (bus_rx_work_wf fuel b1 Hb1 Ew ltac:(lia)) as (b2 & -> & Hk2).
    exists b2. split; [done|]. exact (keeps_trans 0 1 b b1 b2 Hk1 Hk2).
  - exists b1. split; [done|]. split; [done|]. lia.
Qed.

(** ** Waiting *)

Definition event_ok (e : bus_event) : Prop := match e with EvRx bs => bytes_ok bs | EvTimeout => True end.

Definition script_bytes (script : list bus_event) : Z :=
  fold_right (fun e n => match e with EvRx bs => zlen bs + n | EvTimeout => n end) 0 script.

Lemma script_bytes_nonneg script : 0 <= script_bytes script.
Proof.
  unfold script_bytes. induction script as [|[bs|] script IH]; cbn; [done| |done].
  pose proof (zlen_nonneg bs). lia.
Qed.

(** What is left to happen: the bytes that wait or will arrive, and the times the
    semaphore can still be taken. *)
Definition bytes_left (b : bus) (script : list bus_event) : Z := waiting_bytes b + script_bytes script.
Definition takes_left (b : bus) (script : list bus_event) : Z := b_rx_sem b + zlen script.

Record later (d : Z) (b : bus) (script : list bus_event) (b' : bus) (script' : list bus_event) : Prop := {
  lt_wf : bus_wf b';
  lt_ok : Forall event_ok script';
  lt_bytes : bytes_left b' script' <= bytes_left b script;
  lt_takes : takes_left b' script' <= takes_left b script - d
}.

Lemma later_trans d1 d2 b1 s1 b2 s2 b3 s3 :
  later d1 b1 s1 b2 s2 -> later d2 b2 s2 b3 s3 -> later (d1 + d2) b1 s1 b3 s3.
Proof. intros [] []. split; (done || lia). Qed.

Lemma later_keeps b b' script : Forall event_ok script -> keeps 0 b b' -> later 0 b script b' script.
Proof. intros Hs (? & ? & ?). split; try done; unfold bytes_left, takes_left; lia. Qed.

Lemma bus_arrive_wf b bs : bus_wf b -> bytes_ok bs -> bus_wf (bus_arrive b bs).
Proof.
  intros Hb Hbs. apply set_uart_wf; [done|]. rewrite arrive_rx. apply Forall_app. split; [apply Hb | done].
Qed.

Lemma k_sem_take_wf fuel (b : bus) script :
  bus_wf b -> Forall event_ok script -> bytes_left b script + 2 <= Z.of_nat fuel ->
  exists b' script' taken, k_sem_take_timeout run_handler fuel b script = Ret (b', script', taken) /\
    later (if taken then 1 else 0) b script b' script'.
Proof.
  revert b. induction script as [|e script IH]; intros b Hb Hs Hf; cbn [k_sem_take_timeout];
    (destruct (Z.ltb_spec 0 (b_rx_sem b)) as [H0|H0];
     [do 3 eexists; split; [done|]; pose proof (bw_sem _ Hb);
      split; [apply set_sem_wf; [done|lia] | done | done | unfold takes_left; cbn; lia]|]).
  - do 3 eexists. split; [done|]. split; try done; lia.
  - apply Forall_cons in Hs as [He Hs]. destruct e as [bs|].
    2: { do 3 eexists. split; [done|]. split; try done; unfold bytes_left, takes_left in *; cbn in *;
         rewrite ?zlen_cons; lia. }
    pose proof (script_bytes_nonneg script) as Hsb. unfold bytes_left in Hf.
    change (script_bytes (EvRx bs :: script)) with (zlen bs + script_bytes script) in Hf.
    assert (Hw : waiting_bytes (bus_arrive b bs) = waiting_bytes b + zlen bs).
    { unfold waiting_bytes. cbn. by rewrite arrive_rx, zlen_app. }
    destruct (bus_rx_event_wf fuel (bus_arrive b bs)) as (b1 & -> & Hb1 & Hk1 & Hs1);
      [by apply bus_arrive_wf | lia |]. cbn [outcome_bind]. cbn in Hs1.
    destruct (IH b1 Hb1 Hs) as (b2 & script' & taken & -> & [Hb2 Hs2 Hy2 Ht2]); [unfold bytes_left; lia|].
    exists b2, script', taken. split; [done|].
    split; try done; unfold bytes_left, takes_left in *;
      change (script_bytes (EvRx bs :: script)) with (zlen bs + script_bytes script); rewrite ?zlen_cons; lia.
Qed.

(** ** The handshake *)

Lemma sem_drain_wf fuel (b : bus) :
  bus_wf b -> (2 <= fuel)%nat -> exists b', sem_drain fuel b = Ret b' /\ keeps 0 b b'.
Proof.
  intros Hb Hf. pose proof (bw_sem _ Hb). destruct fuel as [|[|fuel]]; [lia..|]. cbn [sem_drain].
  destruct (Z.ltb_spec 0 (b_rx_sem b)).
  - cbn [set_sem b_rx_sem]. rewrite (proj2 (Z.ltb_ge _ _)) by lia. eexists. split; [done|].
    split; [apply set_sem_wf; [done|lia]|]. unfold waiting_bytes. cbn. lia.
  - exists b. split; [done|]. by apply keeps_refl.
Qed.

Lemma bus_rx_buf_byte (b : bus) i : bus_wf b -> 0 <= i < E80211_BUS_RX_BUF_SIZE -> is_byte (znth (b_rx_buf b) i).
Proof.
  intros Hb Hi. pose proof (bw_buf_bytes _ Hb) as Hf. pose proof (bw_buf _ Hb) as Hl.
  unfold znth. rewrite List.Forall_forall in Hf. apply Hf, nth_In. unfold zlen in Hl. lia.
Qed.

Lemma sync_answer_wf (b : bus) :
  bus_wf b ->
  bus_wf (set_tx_seq (set_supported (set_pending b false)
    (u16 (Z.lor (znth (b_rx_buf b) 1) (Z.shiftl (znth (b_rx_buf b) 2) 8)))) (znth (b_rx_buf b) 3)).
Proof.
  intros Hb. pose proof (bus_rx_buf_byte b 3 Hb ltac:(done)). destruct Hb. split; cbn; try done.
  unfold u16. lia.
Qed.

Lemma bus_sync_loop_wf attempts fuel (b : bus) script :
  bus_wf b -> Forall event_ok script -> bytes_left b script + 2 <= Z.of_nat fuel ->
  exists b' script' ret, bus_sync_loop run_handler attempts fuel b script = Ret (b', script', ret) /\
    later 0 b script b' script'.
Proof.
  revert b script. induction attempts as [|n IH]; intros b script Hb Hs Hf; cbn [bus_sync_loop].
  { do 3 eexists. split; [done|]. apply later_keeps; [done | by apply keeps_refl]. }
  pose proof (script_bytes_nonneg script). pose proof (zlen_nonneg (rx_fifo (b_uart b))).
  cbv zeta. unfold bytes_left, waiting_bytes in Hf.
  destruct (sem_drain_wf fuel b Hb ltac:(lia)) as (b1 & -> & Hk1). cbn [outcome_bind].
  destruct (bus_send_raw_wf (set_pending b1 true) (sync_query b) None) as (b2 & E2 & Hk2 & _);
    [apply set_pending_wf, Hk1|].
  change (zlen (default [] None)) with 0 in E2. rewrite E2. cbn [outcome_bind].
  assert (Hl2 : later 0 b script b2 script).
  { apply later_keeps; [done|]. apply (keeps_trans 0 0 b b1 b2); [done|].
    apply (keeps_trans 0 0 b1 (set_pending b1 true) b2); [|done].
    apply keeps_same; [apply set_pending_wf, Hk1 | done..]. }
  pose proof Hl2 as [Hb2 _ Hy2 _].
  destruct (k_sem_take_wf fuel b2 script Hb2 Hs) as (b3 & script3 & taken & -> & Hl3).
  { unfold bytes_left, waiting_bytes in *. lia. }
  cbn [outcome_bind].
  assert (Hl : forall b4, bus_wf b4 -> waiting_bytes b4 = waiting_bytes b3 -> b_rx_sem b4 = b_rx_sem b3 ->
    later 0 b script b4 script3).
  { intros b4 Hb4 Hw4 Hs4. destruct Hl2 as [_ _ Hy Ht], Hl3 as [_ Hs3 Hy3 Ht3].
    split; try done; unfold bytes_left, takes_left in *; rewrite ?Hw4, ?Hs4; [lia|]. destruct taken; lia. }
  pose proof Hl3 as [Hb3 Hs3 Hy3 _].
  assert (Hretry : exists b' script' ret,
    bus_sync_loop run_handler n fuel (set_pending b3 false) script3 = Ret (b', script', ret) /\
    later 0 b script b' script').
  { destruct (IH (set_pending b3 false) script3) as (b' & script' & ret & -> & Hl4); [by apply set_pending_wf|done| |].
    - unfold bytes_left, waiting_bytes in *. cbn. lia.
    - do 3 eexists. split; [done|]. apply (later_trans 0 0 b script (set_pending b3 false) script3); [|done].
      by apply Hl; [apply set_pending_wf| |]. }
  destruct (negb taken); [done|]. destruct (_ && _); [|done].
  destruct (negb _); do 3 eexists; (split; [done|]); apply Hl; try done.
  - by apply set_pending_wf.
  - exact (sync_answer_wf b3 Hb3).
Qed.

(** ** Requests *)

(** What the caller's array makes of a response: the copy does not look at the
    array's size. *)
Definition copied (cap : option Z) (resp : option (list Z)) : outcome (option (list Z)) :=
  match cap, resp with
  | Some c, Some r => if c <? zlen r then Fault else Ret resp
  | Some _, None => Ret None
  | None, _ => Ret None
  end.

Definition wait_copied (cap : option Z) (r : wait_result) : outcome wait_result :=
  match r with
  | WaitReturn ret resp => do! resp' <- copied cap resp; Ret (WaitReturn ret resp')
  | WaitRetry => Ret WaitRetry
  end.

(** A response fits the receive buffer. *)
Definition resp_fits (r : wait_result) : Prop :=
  match r with WaitReturn _ (Some resp) => zlen resp <= E80211_BUS_RX_BUF_SIZE | _ => True end.

(** The inner loop ends, at the same point for every array. *)
Lemma request_wait_wf iters fuel type (b : bus) script :
  bus_wf b -> Forall event_ok script -> bytes_left b script + 2 <= Z.of_nat fuel ->
  takes_left b script < Z.of_nat iters ->
  exists b' script' r,
    (forall cap, request_wait run_handler iters fuel type cap b script
                 = (do! r' <- wait_copied cap r; Ret (b', script', r'))) /\
    resp_fits r /\ later 0 b script b' script'.
Proof.
  revert b script. induction iters as [|n IH]; intros b script Hb Hs Hf Hi.
  { unfold takes_left in Hi. pose proof (bw_sem _ Hb). pose proof (zlen_nonneg script). lia. }
  destruct (k_sem_take_wf fuel b script Hb Hs Hf) as (b1 & script1 & taken & E1 & Hl1).
  pose proof Hl1 as [Hb1 Hs1 Hy1 Ht1].
  assert (Hstop : later 0 b script (set_pending b1 false) script1).
  { split; try done; [by apply set_pending_wf|]. unfold takes_left in *. cbn. destruct taken; lia. }
  destruct taken.
  2: { do 3 eexists. split; [|split; [|exact Hstop]].
       - intros cap. cbn [request_wait]. rewrite E1. by instantiate (1 := WaitReturn (- ETIMEDOUT) None); destruct cap.
       - done. }
  destruct (bh_length (b_last_hdr b1) =? 0) eqn:E0;
    [destruct (bh_error (b_last_hdr b1) =? ERROR_TYPE_INCORRECT_SEQUENCE_NUMBER) eqn:Ee|].
  - destruct (bus_sync_loop_wf BUS_SYNC_RETRIES fuel (set_pending b1 false) script1)
      as (b2 & script2 & ret & E2 & Hl2); [apply Hstop|done| |].
    { unfold bytes_left, waiting_bytes in *. cbn. lia. }
    exists b2, script2, (if negb (ret =? 0) then WaitReturn (- ETIMEDOUT) None else WaitRetry).
    split; [|split; [by destruct (negb _) | exact (later_trans 0 0 _ _ _ _ _ _ Hstop Hl2)]].
    intros cap. cbn [request_wait]. rewrite E1. cbn [outcome_bind negb]. rewrite E0, Ee.
    unfold bus_sync. rewrite E2. cbn [outcome_bind]. by destruct (negb _); [destruct cap|].
  - destruct (IH b1 script1) as (b2 & script2 & r & E2 & Hr & Hl2); [done|done|lia|lia|].
    exists b2, script2, r. split; [|split; [done|]].
    + intros cap. cbn [request_wait]. rewrite E1. cbn [outcome_bind negb]. rewrite E0, Ee. apply E2.
    + pose proof (later_trans 1 0 _ _ _ _ _ _ Hl1 Hl2) as []. split; try done; lia.
  - destruct (bh_type (b_last_hdr b1) =? type) eqn:Et.
    + set (n0 := Z.min (bh_length (b_last_hdr b1)) E80211_BUS_RX_BUF_SIZE).
      assert (Hn0 : zlen (ztake n0 (b_rx_buf b1)) = n0).
      { rewrite zlen_ztake, (bw_buf _ Hb1). pose proof (bw_last _ Hb1). unfold n0, E80211_BUS_RX_BUF_SIZE in *. lia. }
      exists (set_pending b1 false), script1, (WaitReturn 0 (Some (ztake n0 (b_rx_buf b1)))).
      split; [|split; [cbn; rewrite Hn0; unfold n0; lia | done]].
      intros cap. cbn [request_wait]. rewrite E1. cbn [outcome_bind negb]. rewrite E0, Et. fold n0.
      destruct cap as [c|]; [|done]. cbn [wait_copied copied outcome_bind]. rewrite Hn0. by destruct (c <? n0).
    + destruct (call_handler_wf b1 (bh_type (b_last_hdr b1)) (bh_length (b_last_hdr b1)) Hb1)
        as (b2 & E2 & (Hb2 & Hw2 & Hs2) & _); [apply Hb1|].
      assert (Hl2 : later 1 b script b2 script1).
      { split; try done; unfold bytes_left, takes_left in *; lia. }
      pose proof Hl2 as [_ _ Hy2 Ht2].
      destruct (IH b2 script1) as (b3 & script3 & r & E3 & Hr & Hl3); [done|done|lia|lia|].
      exists b3, script3, r. split; [|split; [done|]].
      * intros cap. cbn [request_wait]. rewrite E1. cbn [outcome_bind negb]. rewrite E0, Et, E2. apply E3.
      * destruct Hl3. split; try done; lia.
Qed.

Lemma bus_send_frame_wf (b : bus) h p s :
  bus_wf b -> exists b', bus_send_raw (set_tx_seq b (bus_seq_next s)) h (Some p) (zlen p) = Ret b' /\
    keeps 0 b b'.
Proof.
  intros Hb.
  assert (Hb1 : bus_wf (set_tx_seq b (bus_seq_next s))).
  { destruct Hb. split; cbn; try done.
    unfold is_byte, bus_seq_next. destruct (_ <=? s); [done | apply u8_byte]. }
  destruct (bus_send_raw_wf _ h (Some p) Hb1) as (b' & E1 & Hk & _).
  change (default [] (Some p)) with p in E1. by exists b'.
Qed.

Lemma request_loop_wf iters fuel type req (b : bus) script :
  bus_wf b -> Forall event_ok script -> bytes_left b script + 2 <= Z.of_nat fuel ->
  takes_left b script < Z.of_nat iters ->
  exists b' script' ret resp,
    (forall cap, request_loop run_handler 2 false iters fuel type (Some req) (zlen req) cap b script
                 = (do! resp' <- copied cap resp; Ret (b', script', ret, resp'))) /\
    zlen (default [] resp) <= E80211_BUS_RX_BUF_SIZE /\ later 0 b script b' script'.
Proof.
  intros Hb Hs Hf Hi.
  destruct (bus_send_frame_wf (set_pending b true) (data_hdr type (b_tx_seq b) (zlen req)) req (b_tx_seq b))
    as (b2 & E2 & Hk2); [by apply set_pending_wf|].
  change (set_tx_seq (set_pending b true) (bus_seq_next (b_tx_seq b)))
    with (set_pending (set_tx_seq b (bus_seq_next (b_tx_seq b))) true) in E2.
  assert (Hl2 : later 0 b script b2 script).
  { apply later_keeps; [done|]. apply (keeps_trans 0 0 b (set_pending b true) b2); [|done].
    apply keeps_same; [by apply set_pending_wf | done..]. }
  pose proof Hl2 as [Hb2 _ Hy2 Ht2].
  destruct (request_wait_wf iters fuel type b2 script) as (b3 & script3 & r & E3 & Hr & Hl3); [done|done|lia|lia|].
  pose proof (later_trans 0 0 _ _ _ _ _ _ Hl2 Hl3) as Hl.
  exists (match r with WaitReturn _ _ => b3 | WaitRetry => set_pending b3 false end), script3,
    (match r with WaitReturn ret _ => ret | WaitRetry => - ETIMEDOUT end),
    (match r with WaitReturn _ resp => resp | WaitRetry => None end).
  split; [|split].
  - intros cap. cbn [request_loop negb]. cbv zeta. rewrite E2. cbn [outcome_bind]. rewrite E3.
    destruct r as [ret resp|]; cbn [wait_copied]; [by destruct (copied cap resp)|]. by destruct cap.
  - destruct r as [ret [resp|]|]; [exact Hr | done..].
  - destruct r; [done|]. destruct Hl. split; try done. by apply set_pending_wf.
Qed.

(** A caller's script, with fuel and rounds for everything in it. *)
Definition enough (b : bus) (script : list bus_event) (iters fuel : nat) : Prop :=
  Forall event_ok script /\ bytes_left b script + 2 <= Z.of_nat fuel /\ takes_left b script < Z.of_nat iters.

(** C9. The host's client against any device: its state is well formed from the
    start, and in any well-formed state, whatever bytes arrive before or while it
    waits, arrivals, interrupt, work item, [bus_send], [bus_open] and the
    registrations return with a well-formed state.  Parser and header agree, at
    most the announced length (and so at most the receive buffer) is written, the
    handler table is indexed inside its bounds (which [bus_validate_rx] ensures),
    sequence number, semaphore and mask stay in range.  A request ends after
    finitely many frames, at the same point with the same response of at most
    4096 bytes for every caller, and returns with a well-formed state unless the
    response is longer than the caller's array, and exactly then writes behind
    it: [bus_request] does not know the array's size. *)
Theorem host_survives_any_device (u : U) (e : E) :
  (bytes_ok (rx_fifo u) -> bus_wf (bus_zero u e)) /\
  forall b : bus, bus_wf b ->
    (forall bs, bytes_ok bs -> bus_wf (bus_arrive b bs)) /\
    (forall fuel, waiting_bytes b < Z.of_nat fuel -> exists b', bus_rx_isr fuel b = Ret b' /\ bus_wf b') /\
    (forall fuel, b_work_pending b = true -> (2 <= fuel)%nat ->
       exists b', bus_rx_work run_handler fuel b = Ret b' /\ bus_wf b') /\
    (forall type p, exists b' ret, bus_send b type (Some p) (zlen p) = Ret (b', ret) /\ bus_wf b') /\
    (forall dt ready iters fuel script, enough b script iters fuel ->
       exists b' script' ret, bus_open run_handler dt ready fuel b script = Ret (b', script', ret) /\ bus_wf b') /\
    (forall iters fuel script type req, enough b script iters fuel ->
       exists b' script' ret resp,
         bus_wf b' /\ zlen (default [] resp) <= E80211_BUS_RX_BUF_SIZE /\
         forall cap, bus_request run_handler iters fuel b type (Some req) (zlen req) cap script
           = match cap, resp with
             | Some c, Some r => if c <? zlen r then Fault else Ret (b', script', ret, Some r)
             | _, _ => Ret (b', script', ret, None)
             end) /\
    (forall type cb, bus_wf (fst (bus_register_handler b type cb))) /\
    (forall type user, bus_wf (bus_set_handler_user b type user)).
Proof.
  split.
  { intros Hu. split; cbn; try done. by apply Forall_replicate. }
  intros b Hb. split; [intros; by apply bus_arrive_wf|].
  split; [intros fuel Hf; destruct (bus_rx_isr_wf fuel b Hb Hf) as (b' & ? & ? & _); by exists b'|].
  split; [intros fuel Hw Hf; destruct (bus_rx_work_wf fuel b Hb Hw Hf) as (b' & ? & ? & _); by exists b'|].
  split.
  { intros type p. unfold bus_send. cbv zeta. destruct (negb _); [by do 2 eexists|].
    destruct (bus_send_frame_wf b (data_hdr type (b_tx_seq b) (zlen p)) p (b_tx_seq b) Hb) as (b' & -> & ? & _).
    by do 2 eexists. }
  split.
  { intros dt ready iters fuel script (Hs & Hf & _). unfold bus_open.
    destruct (b_opened b); [by do 3 eexists|]. destruct (negb dt); [by do 3 eexists|].
    destruct (negb ready); [by do 3 eexists|]. cbv zeta.
    match goal with |- context [bus_sync _ _ ?x _] => set (b1 := x) end.
    assert (Hb1 : bus_wf b1) by (destruct Hb; split; cbn; rewrite ?enable_rx; done).
    destruct (bus_sync_loop_wf BUS_SYNC_RETRIES fuel b1 script Hb1 Hs) as (b' & ? & ? & E1 & [? _ _ _]).
    { unfold bytes_left, waiting_bytes in *. cbn. by rewrite enable_rx. }
    unfold bus_sync. rewrite E1. by do 3 eexists. }
  split.
  { intros iters fuel script type req (Hs & Hf & Hi). unfold bus_request. cbv zeta.
    destruct (negb _).
    { exists b, script, (bus_check_args b type (zlen req)), None. split; [done|]. by split; [|intros []]. }
    destruct (request_loop_wf iters fuel type req b script Hb Hs Hf Hi) as (b' & sc & ret & resp & E1 & Hr & [? _ _ _]).
    exists b', sc, ret, resp. split; [done|]. split; [done|]. intros cap. rewrite E1.
    destruct cap as [c|], resp as [r|]; try done. cbn [copied]. by destruct (c <? zlen r). }
  pose proof Hb as [? ? ? ? ? ? ? ? ? ? ? [Hh Hu]]. split.
  - intros type cb. unfold bus_register_handler. destruct (_ || _); [done|].
    split; cbn; try done. split; [|done]. unfold zlen in *. by rewrite length_insert.
  - intros type user. unfold bus_set_handler_user. destruct (_ && _); [|done].
    split; cbn; try done. split; [done|]. unfold zlen in *. by rewrite length_insert.
Qed.

End HostInv.

(** Garbage on a fresh client: a header that announces too much, and more. *)
Lemma host_survives_any_device_witness :
  let b : bus_state IdealUart unit unit unit := bus_zero (mk_IdealUart [] [] 0) tt in
  bus_wf b /\ bus_wf (bus_arrive b [255; 255; 255; 255; 7]) /\
  exists b', bus_rx_isr 8 (bus_arrive b [255; 255; 255; 255; 7]) = Ret b' /\ bus_wf b'.
Proof.
  intros b. destruct (host_survives_any_device (HID := unit) (USR := unit) (fun _ _ _ e => e)
    (mk_IdealUart [] [] 0) tt) as [Hz Hop].
  assert (Hb : bus_wf b) by exact (Hz (List.Forall_nil _)).
  assert (Hx : bytes_ok [255; 255; 255; 255; 7]) by (repeat constructor; lia).
  destruct (Hop b Hb) as (Ha & _). pose proof (Ha _ Hx) as Hg.
  destruct (Hop _ Hg) as (_ & Hi & _).
  split; [exact Hb|]. split; [exact Hg|]. apply (Hi 8%nat). reflexivity.
Defined.
