(* ===== verification/Link.v ===== *)
(** * Link: host and device connected

    The two ends composed: what one transmits is what arrives at the other.
    Frames in both directions from the caller of [bus_send] to the proxy, and
    from the proxy's [serial_send_frame] to the host's handler, with their
    acknowledgements; and the exchange that never ends. *)

From S2P Require Import Prelude Framing Platform Client SerialDev SerialRefine SerialProps.
From S2P Require Import Multiplexer HostBus HostProps.
From Stdlib Require Import ZArith Lia.
From stdpp Require Import base list option numbers decidable.

Open Scope Z_scope.
Open Scope e80211_scope.

Section Link.
Context {UH UD C E HID USR : Type}.
Context `{PH : PlatformLaws UH} `{!TxReady UH} `{PD : PlatformLaws UD} `{!TxReady UD} `{Mux C}.
Context (run_handler : HID -> option USR -> list Z -> E -> E).

#[local] Abbreviation bus := (bus_state UH E HID USR).
#[local] Abbreviation device := (dev UD C).

(** The bytes transmitted between two states. *)
Definition host_sent (b b' : bus) : list Z :=
  zdrop (zlen (tx_wire (b_uart b))) (tx_wire (b_uart b')).
Definition device_sent (w w' : device) : list Z :=
  zdrop (zlen (tx_wire (d_uart w))) (tx_wire (d_uart w')).

(** Both ends are between frames, with nothing in flight. *)
Record link_idle (b : bus) (w : device) : Prop := {
  li_host : host_idle b;
  li_host_rx : rx_fifo (b_uart b) = [];
  li_open : b_opened b = true;
  li_pending : b_request_pending b = false;
  li_dev : dev_idle w;
  li_dev_rx : rx_fifo (d_uart w) = []
}.

(** The host's next sequence number is the one the device expects. *)
Definition in_sync (b : bus) (w : device) : Prop := b_tx_seq b = rx_sequence_number (d_cfg w).

Lemma host_sent_app b b' bs :
  tx_wire (b_uart b') = tx_wire (b_uart b) ++ bs -> host_sent b b' = bs.
Proof. intros Ht. unfold host_sent. rewrite Ht. by apply zdrop_app. Qed.

Lemma device_sent_app w w' bs : dev_sent w w' bs -> device_sent w w' = bs.
Proof. intros Ht. unfold device_sent. rewrite Ht. by apply zdrop_app. Qed.

Lemma dev_arrive_rx (w : device) bs :
  rx_fifo (d_uart w) = [] -> rx_fifo (d_uart (dev_arrive w bs)) = bs.
Proof. intros Hr. cbn. by rewrite arrive_rx, Hr. Qed.

Lemma bus_arrive_rx (b : bus) bs :
  rx_fifo (b_uart b) = [] -> rx_fifo (b_uart (bus_arrive b bs)) = bs.
Proof. intros Hr. cbn. by rewrite arrive_rx, Hr. Qed.

Lemma dev_sent_arrive (w w' : device) bs x : dev_sent (dev_arrive w x) w' bs -> dev_sent w w' bs.
Proof. unfold dev_sent. cbn. by rewrite arrive_tx. Qed.

Lemma dev_waits_idle (w : device) bh r t :
  dev_waits w bh r t -> bus_header_wf bh -> 0 <= r < 16 -> 0 <= t < 16 -> dev_idle w.
Proof.
  intros (Hs & Hw & _ & Hh & Hr & Ht) Hb ? ?. split; [done|]. split; [done|].
  rewrite Hr, Ht. split; [apply SerialHeader_as_bus_wf; by rewrite Hh|done].
Qed.

(** *** Host to device *)

(** The host hears a device acknowledgement while nobody waits: nothing happens. *)
Lemma host_ignores_ack fuel (b : bus) t s :
  host_idle b -> rx_fifo (b_uart b) = [] -> b_request_pending b = false ->
  0 <= t < SERIAL_TYPE_UNKNOWN -> 0 <= s < 16 ->
  exists b', bus_rx_event run_handler (5 + fuel) (bus_arrive b (ack_bytes t s ERROR_TYPE_NO_ERROR)) = Ret b' /\
    host_idle b' /\ rx_fifo (b_uart b') = [] /\ b_request_pending b' = false /\
    b_opened b' = b_opened b /\ b_tx_seq b' = b_tx_seq b /\ b_env b' = b_env b /\
    tx_wire (b_uart b') = tx_wire (b_uart b).
Proof.
  intros Hi Hrx Hp Ht Hs.
  assert (host_frame (mk_bus_header t false true ERROR_TYPE_NO_ERROR 0 s 0) []) as Hf.
  { unfold host_frame, bus_header_wf, ERROR_TYPE_NO_ERROR, SERIAL_TYPE_UNKNOWN,
      SERIAL_MAX_PAYLOAD_LEN, zlen in *. cbn. lia. }
  assert (host_idle (bus_arrive b (ack_bytes t s ERROR_TYPE_NO_ERROR))) as Hi1 by (destruct Hi; done).
  destruct (host_rx_frame run_handler fuel _ _ [] [] Hi1 Hf) as (u' & E1 & Hr1 & Ht1).
  { by rewrite bus_arrive_rx, app_nil_r. }
  pose proof (host_rx_effect_idle run_handler _ _ _ u' Hi1 Hf) as Hi2.
  eexists. split; [exact E1|]. split; [exact Hi2|]. cbn. rewrite Hp. cbn.
  split; [done|]. split; [done|]. split; [done|]. split; [done|]. split; [done|].
  rewrite Ht1. cbn. by rewrite arrive_tx, app_nil_r.
Qed.

(** One frame over the link: sent, delivered, acknowledged. *)
Definition host_exchange (fuel : nat) (b : bus) (w : device) (type : Z) (p : list Z)
  : outcome (bus * device * Z) :=
  do! (b1, ret) <- bus_send b type (Some p) (zlen p);
  do! w1 <- dev_rx_event fuel (dev_arrive w (host_sent b b1));
  do! b2 <- bus_rx_event run_handler fuel (bus_arrive b1 (device_sent w w1));
  Ret (b2, w1, ret).

Fixpoint host_exchanges (fuel : nat) (b : bus) (w : device) (type : Z) (ps : list (list Z))
  : outcome (bus * device * list Z) :=
  match ps with
  | [] => Ret (b, w, [])
  | p :: ps =>
      do! (b1, w1, ret) <- host_exchange fuel b w type p;
      do! (b2, w2, rets) <- host_exchanges fuel b1 w1 type ps;
      Ret (b2, w2, ret :: rets)
  end.

Context (cb : client_ops C) `{!FrameClient cb}.

Lemma host_exchange_ok fuel (b : bus) (w : device) type p :
  link_idle b w -> in_sync b w -> 0 <= type < SERIAL_TYPE_UNKNOWN ->
  type <> SERIAL_TYPE_PROTOCOL_INFO -> get_callbacks type = Some cb ->
  cl_ready (d_cli w) -> 0 < zlen p <= SERIAL_MAX_PAYLOAD_LEN -> zlen p <= cl_capacity ->
  exists b' w', host_exchange (5 + fuel) b w type p = Ret (b', w', 0) /\
    link_idle b' w' /\ in_sync b' w' /\ d_cli w' = cl_deliver (d_cli w) p /\ b_env b' = b_env b.
Proof.
  intros [Hhi Hhr Ho Hp Hdi Hdr] Hsy Ht Hn Hg Hr Hl Hc. unfold host_exchange.
  pose proof Hdi as (_ & _ & _ & Hrs & Hts). unfold in_sync in Hsy.
  destruct (bus_send_run b type p) as (u1 & -> & Hr1 & Ht1); [done|done| |].
  { unfold tx_length_ok. rewrite Z.mod_small; unfold SERIAL_MAX_PAYLOAD_LEN in *; lia. }
  rewrite (Z.mod_small (zlen p)), (Z.mod_small (b_tx_seq b)) in Ht1
    by (unfold SERIAL_MAX_PAYLOAD_LEN in *; lia).
  cbn [outcome_bind]. erewrite host_sent_app by exact Ht1.
  set (bh := mk_bus_header type false false 0 0 (b_tx_seq b) (zlen p)).
  assert (bus_header_wf bh) as Hwf.
  { unfold bus_header_wf, bh, SERIAL_TYPE_UNKNOWN, SERIAL_MAX_PAYLOAD_LEN in *. cbn. lia. }
  destruct (dev_rx_event_delivers cb fuel (dev_arrive w (bus_header_encode bh ++ p)) bh p)
    as (w1 & -> & Hcl & Hw & Hdr1 & Hs1); try done.
  { by apply dev_arrive_rx. }
  cbn [outcome_bind]. apply dev_sent_arrive in Hs1. rewrite (device_sent_app _ _ _ Hs1).
  cbn [bh bh_no_ack bh_type bh_seq].
  destruct (host_ignores_ack fuel (set_uart (set_tx_seq b (bus_seq_next (b_tx_seq b))) u1) type (b_tx_seq b))
    as (b2 & -> & Hi2 & Hr2 & Hp2 & Ho2 & Hq2 & He2 & _); [done|cbn; congruence|done|done|lia|].
  cbn [outcome_bind]. exists b2, w1. split; [done|]. split; [|split; [|split; [done|exact He2]]].
  - split; [done|done|by rewrite Ho2|done| |done].
    eapply dev_waits_idle; [exact Hw|done| |done].
    cbn. pose proof (bus_seq_next_range (b_tx_seq b)). lia.
  - unfold in_sync. destruct Hw as (_ & _ & _ & _ & -> & _). rewrite Hq2. done.
Qed.

(** C29. Host to device, end to end and paced: starting in step, any sequence of
    [bus_send] calls of a handled type, each made after the frame before it was
    processed and its acknowledgement arrived, is delivered to the proxy
    completely, once and in order; every call returns 0, and after each frame
    both ends are idle and still agree on the sequence number, however often it
    wraps.  The pacing is the caller's: [bus_send] does not wait for the
    acknowledgement, and of frames sent back to back the device loses bytes
    (C14). *)
Theorem host_to_device_stream (fuel : nat) (b : bus) (w : device) (type : Z) (ps : list (list Z)) :
  link_idle b w -> in_sync b w -> 0 <= type < SERIAL_TYPE_UNKNOWN ->
  type <> SERIAL_TYPE_PROTOCOL_INFO -> get_callbacks type = Some cb ->
  (forall c p, cl_ready c -> 0 < zlen p <= cl_capacity -> cl_ready (cl_deliver c p)) ->
  cl_ready (d_cli w) ->
  Forall (fun p => 0 < zlen p <= SERIAL_MAX_PAYLOAD_LEN /\ zlen p <= cl_capacity) ps ->
  exists b' w', host_exchanges (5 + fuel) b w type ps = Ret (b', w', map (fun _ => 0) ps) /\
    link_idle b' w' /\ in_sync b' w' /\ d_cli w' = fold_left cl_deliver ps (d_cli w).
Proof.
  intros Hli Hsy Ht Hn Hg Hrd. revert b w Hli Hsy.
  induction ps as [|p ps IH]; intros b w Hli Hsy Hr Hps; [by exists b, w|].
  apply List.Forall_cons_iff in Hps as [[Hl Hc] Hps].
  destruct (host_exchange_ok fuel b w type p Hli Hsy Ht Hn Hg Hr Hl Hc)
    as (b1 & w1 & E1 & Hli1 & Hsy1 & Hcl1 & _).
  destruct (IH b1 w1 Hli1 Hsy1) as (b2 & w2 & E2 & Hli2 & Hsy2 & Hcl2); [|done|].
  { rewrite Hcl1. apply Hrd; [done|lia]. }
  exists b2, w2. cbn [host_exchanges]. rewrite E1. cbn [outcome_bind]. rewrite E2. cbn [outcome_bind].
  split; [done|]. split; [done|]. split; [done|]. by rewrite Hcl2, Hcl1.
Qed.

(** *** Device to host *)

(** A proxy's frame: sent, dispatched, acknowledged. *)
Definition device_exchange (fuel : nat) (b : bus) (w : device) (type : Z) (p : list Z)
  : outcome (bus * device * Z) :=
  do! (w1, ret) <- dev_send_frame w type ERROR_TYPE_NO_ERROR false (Some p) (zlen p);
  do! b1 <- bus_rx_event run_handler fuel (bus_arrive b (device_sent w w1));
  do! w2 <- dev_rx_event fuel (dev_arrive w1 (host_sent b b1));
  Ret (b1, w2, ret).

Lemma dev_send_frame_ready (w : device) t e p :
  0 <= t < 16 -> 0 <= e < 4 -> 0 <= tx_sequence_number (d_cfg w) < 16 ->
  zlen p <= SERIAL_MAX_PAYLOAD_LEN ->
  exists u', dev_send_frame w t e false (Some p) (zlen p)
    = Ret (mk_dev (with_tx_seq (d_cfg w) (bus_seq_next (tx_sequence_number (d_cfg w)))) u' (d_cli w), 0) /\
    rx_fifo u' = rx_fifo (d_uart w) /\
    tx_wire u' = tx_wire (d_uart w)
      ++ dev_header_bytes t e false (tx_sequence_number (d_cfg w)) (zlen p) ++ p.
Proof.
  intros Ht He Hs Hp. unfold dev_send_frame.
  destruct (serial_send_frame_ready (d_cfg w) (d_uart w) t e false p Hp) as (u' & -> & Hr & Hw).
  exists u'. split; [done|]. split; [done|]. rewrite Hw, mk_tx_header_mem; [done..|].
  pose proof (zlen_nonneg p). unfold SERIAL_MAX_PAYLOAD_LEN in *. lia.
Qed.

(** The host receives one data frame of the device while nobody waits. *)
Lemma host_takes_frame fuel (b : bus) t s p :
  host_idle b -> rx_fifo (b_uart b) = [] -> b_request_pending b = false ->
  0 <= t < SERIAL_TYPE_UNKNOWN -> 0 <= s < 16 -> 0 < zlen p <= SERIAL_MAX_PAYLOAD_LEN ->
  let h := mk_bus_header t false true ERROR_TYPE_NO_ERROR 0 s (zlen p) in
  exists b', bus_rx_event run_handler (5 + fuel)
      (bus_arrive b (dev_header_bytes t ERROR_TYPE_NO_ERROR false s (zlen p) ++ p)) = Ret b' /\
    host_idle b' /\ rx_fifo (b_uart b') = [] /\ b_request_pending b' = false /\
    b_opened b' = b_opened b /\ b_tx_seq b' = b_tx_seq b /\
    b_env b' = dispatch run_handler (b_handler b) (b_handler_user b) h p (b_env b) /\
    tx_wire (b_uart b') = tx_wire (b_uart b)
      ++ bus_header_encode (mk_bus_header t false false ERROR_TYPE_NO_ERROR 0 s 0) /\
    b_handler b' = b_handler b /\ b_handler_user b' = b_handler_user b.
Proof.
  intros Hi Hrx Hp Ht Hs Hl h.
  assert (host_frame h p) as Hf.
  { unfold host_frame, bus_header_wf, h, ERROR_TYPE_NO_ERROR, SERIAL_TYPE_UNKNOWN,
      SERIAL_MAX_PAYLOAD_LEN in *. cbn. lia. }
  match goal with |- context [bus_arrive b ?x] =>
    assert (host_idle (bus_arrive b x)) as Hi1 by (destruct Hi; done) end.
  destruct (host_rx_frame run_handler fuel _ h p [] Hi1 Hf) as (u' & E1 & Hr1 & Ht1).
  { by rewrite bus_arrive_rx, app_nil_r. }
  pose proof (host_rx_effect_idle run_handler _ _ _ u' Hi1 Hf) as Hi2.
  eexists. split; [exact E1|]. split; [exact Hi2|].
  assert ((bh_length h =? 0) = false) as Hz by (apply Z.eqb_neq; cbn; lia).
  cbn -[host_reply]. rewrite Hp. cbn [orb]. change (zlen p =? 0) with (bh_length h =? 0). rewrite Hz.
  split; [done|]. split; [done|]. split; [done|]. split; [done|]. split; [done|].
  split; [|done]. rewrite Ht1. cbn -[host_reply]. rewrite arrive_tx. unfold host_reply. by rewrite Hz.
Qed.

(** The whole exchange. *)
Lemma device_exchange_ok (fuel : nat) (b : bus) (w : device) (type : Z) (p : list Z) :
  link_idle b w -> 0 <= type < SERIAL_TYPE_UNKNOWN -> type <> SERIAL_TYPE_PROTOCOL_INFO ->
  0 < zlen p <= SERIAL_MAX_PAYLOAD_LEN ->
  exists b' w', device_exchange (5 + fuel) b w type p = Ret (b', w', 0) /\
    link_idle b' w' /\ d_cli w' = d_cli w /\
    b_env b' = dispatch run_handler (b_handler b) (b_handler_user b)
      (mk_bus_header type false true ERROR_TYPE_NO_ERROR 0 (tx_sequence_number (d_cfg w)) (zlen p)) p
      (b_env b) /\
    (in_sync b w -> in_sync b' w') /\
    tx_sequence_number (d_cfg w') = bus_seq_next (tx_sequence_number (d_cfg w)) /\
    b_handler b' = b_handler b /\ b_handler_user b' = b_handler_user b.
Proof.
  intros [Hhi Hhr Ho Hp Hdi Hdr] Ht Hn Hl. unfold device_exchange.
  pose proof Hdi as (Hst & Hwp & Hh & Hrs & Hts).
  destruct (dev_send_frame_ready w type ERROR_TYPE_NO_ERROR p) as (u1 & -> & Hr1 & Ht1);
    [unfold SERIAL_TYPE_UNKNOWN in *; lia|done|done|apply Hl|].
  cbn [outcome_bind]. erewrite device_sent_app by exact Ht1.
  destruct (host_takes_frame fuel b type (tx_sequence_number (d_cfg w)) p)
    as (b1 & -> & Hi1 & Hbr & Hbp & Hbo & Hbs & Hbe & Hbt & Hbh); try done.
  cbn [outcome_bind]. erewrite host_sent_app by exact Hbt.
  set (ack := mk_bus_header type false false ERROR_TYPE_NO_ERROR 0 (tx_sequence_number (d_cfg w)) 0).
  assert (bus_header_wf ack) as Hwf.
  { unfold bus_header_wf, ack, ERROR_TYPE_NO_ERROR, SERIAL_TYPE_UNKNOWN in *. cbn. lia. }
  pose proof (bus_seq_next_range (tx_sequence_number (d_cfg w))) as Hnx.
  set (w1 := mk_dev (with_tx_seq (d_cfg w) (bus_seq_next (tx_sequence_number (d_cfg w)))) u1 (d_cli w)).
  destruct (dev_rx_event_header_only fuel (dev_arrive w1 (bus_header_encode ack)) ack)
    as (w2 & -> & Hcl & Hw & Hwr & _).
  { split; [done|]. split; [done|]. split; [done|]. split; [done|]. cbn. lia. }
  { done. }
  { apply dev_arrive_rx. cbn. congruence. }
  { left. done. }
  cbn [outcome_bind]. exists b1, w2. split; [done|].
  split; [|split; [done|split; [done|]]].
  - split; [done|done|congruence|done| |done].
    eapply dev_waits_idle; [exact Hw|done|done|]. cbn. lia.
  - destruct Hw as (_ & _ & _ & _ & Hrs' & Hts'). unfold in_sync. rewrite Hbs, Hrs', Hts'. done.
Qed.

(** Device to host, end to end: a proxy's frame reaches the handler registered
    for its type with exactly its payload; the host's acknowledgement is taken by
    the device without an answer, so the exchange ends with both ends idle and
    the host-to-device sequence numbers untouched. *)
Theorem device_to_host_frame (fuel : nat) (b : bus) (w : device) (type : Z) (p : list Z) :
  link_idle b w -> 0 <= type < SERIAL_TYPE_UNKNOWN -> type <> SERIAL_TYPE_PROTOCOL_INFO ->
  0 < zlen p <= SERIAL_MAX_PAYLOAD_LEN ->
  exists b' w', device_exchange (5 + fuel) b w type p = Ret (b', w', 0) /\
    link_idle b' w' /\ d_cli w' = d_cli w /\
    b_env b' = dispatch run_handler (b_handler b) (b_handler_user b)
      (mk_bus_header type false true ERROR_TYPE_NO_ERROR 0 (tx_sequence_number (d_cfg w)) (zlen p)) p
      (b_env b) /\
    (in_sync b w -> in_sync b' w') /\
    tx_sequence_number (d_cfg w') = bus_seq_next (tx_sequence_number (d_cfg w)).
Proof.
  intros Hli Ht Hn Hl. destruct (device_exchange_ok fuel b w type p Hli Ht Hn Hl) as (b' & w' & ? & ? & ? & ? & ? & ? & _).
  by exists b', w'.
Qed.

(** *** The exchange that never ends *)

(** One turn: the host hears what the device sent, the device hears the answer. *)
Definition link_round (fuel : nat) (s : bus * device * list Z) : outcome (bus * device * list Z) :=
  let '(b, w, bytes) := s in
  do! b1 <- bus_rx_event run_handler fuel (bus_arrive b bytes);
  do! w1 <- dev_rx_event fuel (dev_arrive w (host_sent b b1));
  Ret (b1, w1, device_sent w w1).

Fixpoint link_rounds (fuel n : nat) (s : bus * device * list Z) : outcome (bus * device * list Z) :=
  match n with
  | O => Ret s
  | S n => do! s1 <- link_round fuel s; link_rounds fuel n s1
  end.

(** A PROTOCOL_INFO response of the device in state [w]. *)
Definition info_response (w : device) : list Z :=
  dev_header_bytes SERIAL_TYPE_PROTOCOL_INFO ERROR_TYPE_NO_ERROR false (tx_sequence_number (d_cfg w)) 4
  ++ [ SERIAL_PROTOCOL_VERSION; u8 (Z.land supported_types_mask 0xFF);
       u8 (Z.land (Z.shiftr supported_types_mask 8) 0xFF); rx_sequence_number (d_cfg w) ].

Lemma link_round_info fuel (b : bus) (w : device) s q :
  link_idle b w -> 0 <= s < 16 -> zlen q = 4 ->
  exists b' w', link_round (5 + fuel)
      (b, w, dev_header_bytes SERIAL_TYPE_PROTOCOL_INFO ERROR_TYPE_NO_ERROR false s 4 ++ q)
    = Ret (b', w', info_response w) /\
    link_idle b' w' /\ tx_sequence_number (d_cfg w') = bus_seq_next (tx_sequence_number (d_cfg w)) /\
    (in_sync b w -> in_sync b' w').
Proof.
  intros [Hhi Hhr Ho Hp Hdi Hdr] Hs Hq. unfold link_round. rewrite <- Hq.
  destruct (host_takes_frame fuel b SERIAL_TYPE_PROTOCOL_INFO s q)
    as (b1 & -> & Hi1 & Hbr & Hbp & Hbo & Hbs & Hbe & Hbt & Hbh); try done.
  { rewrite Hq. done. }
  cbn [outcome_bind]. erewrite host_sent_app by exact Hbt.
  set (ack := mk_bus_header SERIAL_TYPE_PROTOCOL_INFO false false ERROR_TYPE_NO_ERROR 0 s 0).
  assert (bus_header_wf ack) as Hwf.
  { unfold bus_header_wf, ack, ERROR_TYPE_NO_ERROR, SERIAL_TYPE_PROTOCOL_INFO. cbn. lia. }
  destruct (dev_rx_event_info fuel (dev_arrive w (bus_header_encode ack)) ack)
    as (w1 & -> & Hcl & Hw & Hwr & Hsent); try done.
  { by apply dev_arrive_rx. }
  cbn [outcome_bind]. apply dev_sent_arrive in Hsent. rewrite (device_sent_app _ _ _ Hsent).
  pose proof Hdi as (_ & _ & _ & Hrs & Hts).
  exists b1, w1. split; [done|].
  split; [|split; [by apply Hw | unfold in_sync; rewrite Hbs; by destruct Hw as (_ & _ & _ & _ & -> & _)]].
  split; [done|done|congruence|done| |done].
  eapply dev_waits_idle; [exact Hw|done|done|]. cbn.
  pose proof (bus_seq_next_range (tx_sequence_number (d_cfg w))). lia.
Qed.

(** Once the device has sent one PROTOCOL_INFO response, host and device never
    stop: the host acknowledges it with a PROTOCOL_INFO frame of length 0, which
    the device takes for a query and answers with another response.  For every
    number of turns there is a next response in flight, each taking a device
    sequence number. *)
Theorem protocol_info_never_ends (fuel n : nat) (b : bus) (w : device) (s : Z) (q : list Z) :
  link_idle b w -> 0 <= s < 16 -> zlen q = 4 ->
  exists b' w' w0, link_rounds (5 + fuel) (S n)
      (b, w, dev_header_bytes SERIAL_TYPE_PROTOCOL_INFO ERROR_TYPE_NO_ERROR false s 4 ++ q)
    = Ret (b', w', info_response w0) /\
    link_idle b' w' /\ (in_sync b w -> in_sync b' w') /\
    tx_sequence_number (d_cfg w') = Nat.iter (S n) bus_seq_next (tx_sequence_number (d_cfg w)).
Proof.
  revert b w s q. induction n as [|n IH]; intros b w s q Hli Hs Hq;
    destruct (link_round_info fuel b w s q Hli Hs Hq) as (b1 & w1 & E1 & Hli1 & Hseq & Hsy);
    cbn [link_rounds]; rewrite E1; cbn [outcome_bind].
  - exists b1, w1, w. done.
  - pose proof (li_dev _ _ Hli) as (_ & _ & _ & _ & Hts).
    destruct (IH b1 w1 (tx_sequence_number (d_cfg w))
      [SERIAL_PROTOCOL_VERSION; u8 (Z.land supported_types_mask 0xFF);
       u8 (Z.land (Z.shiftr supported_types_mask 8) 0xFF); rx_sequence_number (d_cfg w)])
      as (b2 & w2 & w0 & E2 & Hli2 & Hsy2 & Hseq2); [done|done|done|].
    exists b2, w2, w0. split; [exact E2|]. split; [done|]. split; [by auto|].
    rewrite Hseq2, Hseq. by rewrite <- Nat.iter_succ_r.
Qed.

(** *** Opening the link *)

(** [bus_open] with the device at the other end: the query reaches the device, its
    answer the waiting host, and the host's acknowledgement the device; the
    bytes the device has sent by then are in flight. *)
Definition link_open (fuel : nat) (b : bus) (w : device) : outcome (bus * device * list Z * Z) :=
  let query := bus_header_encode (mk_bus_header SERIAL_TYPE_PROTOCOL_INFO true false 0 0 0 0) in
  do! w1 <- dev_rx_event fuel (dev_arrive w query);
  do! (b', _, ret) <- bus_open run_handler true true fuel b [EvRx (device_sent w w1)];
  let sent := host_sent b b' in
  if bool_decide (ztake (zlen query) sent = query) then
    do! w2 <- dev_rx_event fuel (dev_arrive w1 (zdrop (zlen query) sent));
    Ret (b', w2, device_sent w1 w2, ret)
  else Fault.

(** Both ends as they come up. *)
Record link_closed (b : bus) (w : device) : Prop := {
  lc_open : b_opened b = false;
  lc_buf : zlen (b_rx_buf b) = E80211_BUS_RX_BUF_SIZE;
  lc_rx : rx_fifo (b_uart b) = [];
  lc_sem : b_rx_sem b = 0;
  lc_dev : dev_idle w;
  lc_dev_rx : rx_fifo (d_uart w) = []
}.

Lemma mask_bytes m : 0 <= m < 65536 ->
  u16 (Z.lor (u8 (Z.land m 0xFF)) (Z.shiftl (u8 (Z.land (Z.shiftr m 8) 0xFF)) 8)) = m.
Proof.
  intros Hm. change 0xFF with (Z.ones 8). rewrite !Z.land_ones, Z.shiftr_div_pow2 by lia.
  unfold u8, u16. rewrite !Z.mod_mod by lia. rewrite (Z.mod_small (m / 2 ^ 8)) by lia.
  rewrite Z.lor_comm, lor_shiftl_l by lia. rewrite Z.mod_small by lia. lia.
Qed.

(** The query and the host's acknowledgement of the answer, as frames. *)
Definition info_query : bus_header := mk_bus_header SERIAL_TYPE_PROTOCOL_INFO true false 0 0 0 0.
Definition info_ack (s : Z) : bus_header :=
  mk_bus_header SERIAL_TYPE_PROTOCOL_INFO false false ERROR_TYPE_NO_ERROR 0 s 0.

(** The host's half. *)
Lemma bus_open_info fuel (b : bus) (w : device) :
  link_closed b w -> 0 <= supported_types_mask < 65536 ->
  exists b', bus_open run_handler true true (5 + fuel) b [EvRx (info_response w)] = Ret (b', [], 0) /\
    b_supported_types b' = supported_types_mask /\ b_tx_seq b' = rx_sequence_number (d_cfg w) /\
    b_request_pending b' = false /\ b_opened b' = true /\ quiet b' /\
    tx_wire (b_uart b') = tx_wire (b_uart b) ++ bus_header_encode info_query
      ++ bus_header_encode (info_ack (tx_sequence_number (d_cfg w))).
Proof.
  intros [Ho Hbuf Hrx Hs (_ & _ & _ & Hrs & Hts) _] Hm. unfold bus_open. rewrite Ho. cbn [negb]. cbv zeta.
  match goal with |- context [bus_sync _ _ ?x _] => set (b1 := x) end.
  assert (quiet b1) as Hq.
  { split; [done|]. split; [|done]. cbn. by rewrite enable_rx. }
  set (h := mk_bus_header SERIAL_TYPE_PROTOCOL_INFO false true ERROR_TYPE_NO_ERROR 0
              (tx_sequence_number (d_cfg w)) 4).
  destruct (bus_sync_answered run_handler fuel b1 h SERIAL_PROTOCOL_VERSION
    (u8 (Z.land supported_types_mask 0xFF)) (u8 (Z.land (Z.shiftr supported_types_mask 8) 0xFF))
    (rx_sequence_number (d_cfg w)) [] Hq) as (b' & Htx & E1 & Hsy); [|done|].
  { unfold host_frame, bus_header_wf, h, ERROR_TYPE_NO_ERROR, SERIAL_TYPE_PROTOCOL_INFO,
      SERIAL_TYPE_UNKNOWN, SERIAL_MAX_PAYLOAD_LEN, info_payload, zlen. cbn. lia. }
  destruct (Hsy eq_refl) as (Hsup & Hseq & Hp & Hop & _ & Hq'). rewrite mask_bytes in Hsup by done.
  exists b'. split; [exact E1|]. do 5 (split; [done|]). rewrite Htx. cbn [b1 b_uart]. by rewrite enable_tx.
Qed.

(** The device's half: every PROTOCOL_INFO frame of length 0 is answered. *)
Lemma device_info fuel (w : device) h :
  dev_idle w -> rx_fifo (d_uart w) = [] -> bus_header_wf h ->
  bh_type h = SERIAL_TYPE_PROTOCOL_INFO -> bh_length h = 0 ->
  exists w', dev_rx_event (5 + fuel) (dev_arrive w (bus_header_encode h)) = Ret w' /\
    dev_idle w' /\ rx_fifo (d_uart w') = [] /\ device_sent w w' = info_response w /\
    rx_sequence_number (d_cfg w') = rx_sequence_number (d_cfg w) /\
    tx_sequence_number (d_cfg w') = bus_seq_next (tx_sequence_number (d_cfg w)).
Proof.
  intros Hi Hr Hwf Hty Hl. pose proof Hi as (_ & _ & _ & Hrs & Hts).
  destruct (dev_rx_event_info fuel (dev_arrive w (bus_header_encode h)) h)
    as (w1 & E1 & Hcl & Hw & Hwr & Hsent); [done|done|by apply dev_arrive_rx|done..|].
  apply dev_sent_arrive in Hsent. pose proof (bus_seq_next_range (tx_sequence_number (d_cfg w))).
  exists w1. split; [exact E1|]. split; [eapply dev_waits_idle; [exact Hw|done|done|cbn; lia]|].
  split; [done|]. split; [by rewrite (device_sent_app _ _ _ Hsent)|]. by destruct Hw as (_ & _ & _ & _ & -> & ->).
Qed.

Lemma link_open_ok fuel (b : bus) (w : device) :
  link_closed b w -> 0 <= supported_types_mask < 65536 ->
  exists b' w' w1, link_open (5 + fuel) b w = Ret (b', w', info_response w1, 0) /\
    link_idle b' w' /\ in_sync b' w' /\ b_supported_types b' = supported_types_mask /\ dev_idle w1.
Proof.
  intros Hc Hm. pose proof Hc as [_ _ _ _ Hdi Hdr]. pose proof Hdi as (_ & _ & _ & Hrs & Hts).
  destruct (device_info fuel w info_query) as (w1 & E1 & Hi1 & Hr1 & Hs1 & Hrx1 & Htx1);
    [done|done|by repeat split|done|done|].
  destruct (bus_open_info fuel b w Hc Hm) as (b' & E2 & Hsup & Hseq & Hp & Hop & (Hhi & Hhr & _) & Ht).
  destruct (device_info fuel w1 (info_ack (tx_sequence_number (d_cfg w)))) as (w2 & E3 & Hi2 & Hr2 & Hs2 & Hrx2 & _);
    [done|done| |done|done|].
  { unfold bus_header_wf, info_ack, ERROR_TYPE_NO_ERROR, SERIAL_TYPE_PROTOCOL_INFO. cbn. lia. }
  exists b', w2, w1. split; [|split; [by split|split; [unfold in_sync; congruence|done]]].
  unfold link_open. cbv zeta. fold info_query. rewrite E1. cbn [outcome_bind]. rewrite Hs1, E2.
  cbn [outcome_bind]. rewrite (host_sent_app _ _ _ Ht), ztake_app, zdrop_app by done.
  rewrite bool_decide_eq_true_2, E3 by done. cbn [outcome_bind]. by rewrite Hs2.
Qed.

(** C31. Opening the link: [bus_open] on a fresh host with a device between frames
    returns 0, and the host then knows the device's mask and the sequence number
    it expects, so the two are in step whatever happened before.  But the
    handshake never ends: the host's acknowledgement is a PROTOCOL_INFO frame of
    length 0, which the device takes for a query, and so for every number of
    turns another answer is in flight, each taking a device sequence number; the
    two stay in step meanwhile. *)
Theorem link_open_handshake (fuel n : nat) (b : bus) (w : device) :
  link_closed b w -> 0 <= supported_types_mask < 65536 ->
  exists b' w' w1, link_open (5 + fuel) b w = Ret (b', w', info_response w1, 0) /\
    link_idle b' w' /\ in_sync b' w' /\ b_supported_types b' = supported_types_mask /\
    exists b'' w'' w2, link_rounds (5 + fuel) (S n) (b', w', info_response w1)
      = Ret (b'', w'', info_response w2) /\
      link_idle b'' w'' /\ in_sync b'' w'' /\
      tx_sequence_number (d_cfg w'') = Nat.iter (S n) bus_seq_next (tx_sequence_number (d_cfg w')).
Proof.
  intros Hc Hm. destruct (link_open_ok fuel b w Hc Hm) as (b' & w' & w1 & E1 & Hli & Hsy & Hsup & Hi1).
  exists b', w', w1. do 4 (split; [done|]). destruct Hi1 as (_ & _ & _ & _ & Hts).
  destruct (protocol_info_never_ends fuel n b' w' (tx_sequence_number (d_cfg w1))
    [SERIAL_PROTOCOL_VERSION; u8 (Z.land supported_types_mask 0xFF);
     u8 (Z.land (Z.shiftr supported_types_mask 8) 0xFF); rx_sequence_number (d_cfg w1)] Hli Hts eq_refl)
    as (b2 & w2 & w3 & E2 & Hli2 & Hsy2 & Hq2).
  exists b2, w2, w3. split; [exact E2|]. split; [done|]. split; [by apply Hsy2|done].
Qed.

End Link.
