(* ===== verification/TxInterleave.v ===== *)
(** * TxInterleave: concurrent senders

    Several threads send frames: on the device the proxies' threads and the work
    queue call [serial_send_frame], on the host callers of [bus_send] and the RX
    work item share [bus_send_raw].  Both take a mutex, the device around each
    [serial_data_tx] (so twice per frame), the host around the whole frame.  A
    thread is a program counter, the system a list of threads with the shared
    sequence number, the mutex and the wire; one step is what one thread does
    between two points where another may run. *)

From S2P Require Import Prelude Framing Platform Client SerialDev SerialProps HostBus HostProps.
From Stdlib Require Import ZArith Lia.
From stdpp Require Import base list option numbers decidable relations.

Open Scope Z_scope.
Open Scope e80211_scope.

Record tx_shared : Type := mk_tx_shared {
  t_seq : Z;
  t_owner : option nat;   (* of the TX mutex *)
  t_wire : list Z
}.

(** ** The host: [bus_send] and [bus_send_raw] *)

Inductive host_pc : Type :=
| HStart (type : Z) (p : list Z)            (* before the header is built *)
| HSeq (hdr : bus_header) (p : list Z)      (* before tx_seq is advanced *)
| HLock (hdr : bus_header) (p : list Z)     (* before k_mutex_lock *)
| HHdr (hdr : bus_header) (p : list Z)      (* mutex held, header to send *)
| HPay (hdr : bus_header) (p : list Z)      (* mutex held, payload to send *)
| HUnlock                                   (* mutex held, frame sent *)
| HDone.

Inductive host_step : tx_shared * list host_pc -> tx_shared * list host_pc -> Prop :=
| h_build i ts sh t p :
    ts !! i = Some (HStart t p) ->
    host_step (sh, ts) (sh, <[i := HSeq (data_hdr t (t_seq sh) (zlen p)) p]> ts)
| h_seq i ts sh h p :
    ts !! i = Some (HSeq h p) ->
    host_step (sh, ts)
      (mk_tx_shared (bus_seq_next (t_seq sh)) (t_owner sh) (t_wire sh), <[i := HLock h p]> ts)
| h_lock i ts sh h p :
    ts !! i = Some (HLock h p) -> t_owner sh = None ->
    host_step (sh, ts) (mk_tx_shared (t_seq sh) (Some i) (t_wire sh), <[i := HHdr h p]> ts)
| h_hdr i ts sh h p :
    ts !! i = Some (HHdr h p) ->
    host_step (sh, ts)
      (mk_tx_shared (t_seq sh) (t_owner sh) (t_wire sh ++ bus_header_encode h), <[i := HPay h p]> ts)
| h_pay i ts sh h p :
    ts !! i = Some (HPay h p) ->
    host_step (sh, ts) (mk_tx_shared (t_seq sh) (t_owner sh) (t_wire sh ++ p), <[i := HUnlock]> ts)
| h_unlock i ts sh :
    ts !! i = Some HUnlock ->
    host_step (sh, ts) (mk_tx_shared (t_seq sh) None (t_wire sh), <[i := HDone]> ts).

(** A thread inside the mutex. *)
Definition host_holds (pc : host_pc) : bool :=
  match pc with HHdr _ _ | HPay _ _ | HUnlock => true | _ => false end.

(** What a thread has sent of a frame that is not complete. *)
Definition host_partial (pc : host_pc) : list Z :=
  match pc with HPay h _ => bus_header_encode h | _ => [] end.

(** A thread whose frame is out. *)
Definition host_sent_all (pc : host_pc) : bool :=
  match pc with HUnlock | HDone => true | _ => false end.

(** The frame of a call [bus_send(type, p, len)] under sequence number [q]. *)
Definition job_frame (j : Z * list Z) (q : Z) : bus_header * list Z :=
  (data_hdr (fst j) q (zlen (snd j)), snd j).

(** A thread works on its own call. *)
Definition pc_of_job (j : Z * list Z) (pc : host_pc) : Prop :=
  match pc with
  | HStart t p => j = (t, p)
  | HSeq h p | HLock h p | HHdr h p | HPay h p => exists q, (h, p) = job_frame j q
  | HUnlock | HDone => True
  end.

(** The frame of thread [i] on the wire. *)
Definition job_bytes (jobs : list (Z * list Z)) (x : nat * Z) : list Z :=
  match jobs !! fst x with Some j => frame_bytes (job_frame j (snd x)) | None => [] end.

(** The threads of [sent] have sent their frames, in this order. *)
Definition wire_frames (jobs : list (Z * list Z)) (ts : list host_pc) (sent : list (nat * Z)) : Prop :=
  NoDup (map fst sent) /\
  forall i, i ∈ map fst sent <-> exists pc, ts !! i = Some pc /\ host_sent_all pc = true.

(** Only the owner is inside, every thread works on its call, and the wire is
    whole frames of the threads that are through, and the owner's part. *)
Record host_inv (jobs : list (Z * list Z)) (s : tx_shared * list host_pc) : Prop := {
  hi_owner i pc : snd s !! i = Some pc -> host_holds pc = true -> t_owner (fst s) = Some i;
  hi_held i : t_owner (fst s) = Some i -> exists pc, snd s !! i = Some pc /\ host_holds pc = true;
  hi_jobs i pc : snd s !! i = Some pc -> exists j, jobs !! i = Some j /\ pc_of_job j pc;
  hi_wire : exists sent, wire_frames jobs (snd s) sent /\
    t_wire (fst s) = concat (map (job_bytes jobs) sent)
      ++ match t_owner (fst s) with
         | Some i => match snd s !! i with Some pc => host_partial pc | None => [] end
         | None => []
         end
}.

(** Moving one thread, with what that means for the others. *)
Lemma insert_lookup_inv {A} (ts : list A) i j x y pc :
  ts !! i = Some pc -> <[i := x]> ts !! j = Some y -> (i = j /\ y = x) \/ (i <> j /\ ts !! j = Some y).
Proof.
  intros Hi. destruct (decide (i = j)) as [->|Hn].
  - rewrite list_lookup_insert_eq by (by eapply lookup_lt_Some). intros [= <-]. auto.
  - rewrite list_lookup_insert_ne by done. auto.
Qed.

Lemma insert_lookup_same {A} (ts : list A) i x pc : ts !! i = Some pc -> <[i := x]> ts !! i = Some x.
Proof. intros Hi. apply list_lookup_insert_eq. by eapply lookup_lt_Some. Qed.

(** A thread that moves without finishing its frame leaves the sent frames. *)
Lemma wire_frames_move jobs ts sent i pc x :
  ts !! i = Some pc -> host_sent_all x = host_sent_all pc ->
  wire_frames jobs ts sent -> wire_frames jobs (<[i := x]> ts) sent.
Proof.
  intros Hi Hx [Hn Hs]. split; [done|]. intros j. rewrite Hs. split; intros (y & Hy & Hd).
  - destruct (decide (i = j)) as [->|Hne].
    + exists x. split; [by eapply insert_lookup_same|]. rewrite Hi in Hy. injection Hy as <-. congruence.
    + exists y. by rewrite list_lookup_insert_ne.
  - destruct (insert_lookup_inv _ _ _ _ _ _ Hi Hy) as [[<- ->]|[Hne Hy']]; [|eauto].
    exists pc. split; [done|]. congruence.
Qed.

(** One that finishes it is added. *)
Lemma wire_frames_add jobs ts sent i pc x q :
  ts !! i = Some pc -> host_sent_all pc = false -> host_sent_all x = true ->
  wire_frames jobs ts sent -> wire_frames jobs (<[i := x]> ts) (sent ++ [(i, q)]).
Proof.
  intros Hi Hp Hx [Hn Hs]. split.
  - rewrite map_app. apply NoDup_app. split; [done|]. split; [|apply NoDup_singleton].
    intros j Hj Hji. apply list_elem_of_singleton in Hji. cbn in Hji. subst j.
    apply Hs in Hj as (y & Hy & Hd). congruence.
  - intros j. rewrite map_app, elem_of_app. cbn [map fst]. rewrite list_elem_of_singleton, Hs. split.
    + intros [(y & Hy & Hd)| ->]; [|exists x; split; [by eapply insert_lookup_same | done]].
      exists y. split; [|done]. rewrite list_lookup_insert_ne; [done|]. intros ->. congruence.
    + intros (y & Hy & Hd). destruct (insert_lookup_inv _ _ _ _ _ _ Hi Hy) as [[<- ->]|[Hne Hy']]; eauto.
Qed.

Lemma job_bytes_snoc jobs sent x :
  concat (map (job_bytes jobs) (sent ++ [x])) = concat (map (job_bytes jobs) sent) ++ job_bytes jobs x.
Proof. rewrite map_app, concat_app. cbn. by rewrite app_nil_r. Qed.

(** A step outside the mutex. *)
Lemma host_inv_outside jobs sh ts i pc x q :
  host_inv jobs (sh, ts) -> ts !! i = Some pc ->
  host_holds pc = false -> host_holds x = false -> host_sent_all pc = false -> host_sent_all x = false ->
  (forall j, pc_of_job j pc -> pc_of_job j x) ->
  host_inv jobs (mk_tx_shared q (t_owner sh) (t_wire sh), <[i := x]> ts).
Proof.
  intros [Hex Hheld Hj (sent & Hsent & Hw)] Hi Hp Hx Hsp Hsx Hok. cbn [fst snd] in *.
  assert (Hne : forall k, t_owner sh = Some k -> i <> k).
  { intros k Hk ->. destruct (Hheld _ Hk) as (y & Hy & Hyh). congruence. }
  split; cbn [fst snd t_owner t_wire].
  - intros k y Hy Hyh. destruct (insert_lookup_inv _ _ _ _ _ _ Hi Hy) as [[<- ->]|[? ?]]; [congruence|eauto].
  - intros k Hk. rewrite list_lookup_insert_ne by (by apply Hne). eauto.
  - intros k y Hy. destruct (insert_lookup_inv _ _ _ _ _ _ Hi Hy) as [[<- ->]|[? ?]]; [|eauto].
    destruct (Hj _ _ Hi) as (j & ? & ?). eauto.
  - exists sent. split; [apply (wire_frames_move jobs ts sent i pc); congruence || done|].
    rewrite Hw. f_equal. destruct (t_owner sh) as [k|] eqn:Ek; [|done].
    by rewrite list_lookup_insert_ne by (by apply Hne).
Qed.

Lemma host_step_inv jobs s s' : host_step s s' -> host_inv jobs s -> host_inv jobs s'.
Proof.
  destruct 1 as [i ts sh t p Hi|i ts sh h p Hi|i ts sh h p Hi Ho|i ts sh h p Hi|i ts sh h p Hi|i ts sh Hi];
    intros Hv.
  - destruct sh as [q o w]. apply (host_inv_outside jobs (mk_tx_shared q o w) ts i (HStart t p)); try done.
    intros j Hj. cbn in Hj. subst j. by exists q.
  - by apply (host_inv_outside jobs sh ts i (HSeq h p)).
  - pose proof Hv as [Hex Hheld Hj (sent & Hsent & Hw)]. cbn [fst snd] in *. split; cbn [fst snd t_owner t_wire].
    + intros k y Hy Hyh. destruct (insert_lookup_inv _ _ _ _ _ _ Hi Hy) as [[<- ->]|[Hne Hy']]; [done|].
      specialize (Hex _ _ Hy' Hyh). congruence.
    + intros k [= <-]. eexists. split; [by eapply insert_lookup_same | done].
    + intros k y Hy. destruct (insert_lookup_inv _ _ _ _ _ _ Hi Hy) as [[<- ->]|[? ?]]; [|eauto].
      apply (Hj _ _ Hi).
    + exists sent. split; [by eapply wire_frames_move|]. rewrite Hw, Ho.
      by rewrite (insert_lookup_same _ _ _ _ Hi).
  - pose proof Hv as [Hex Hheld Hj (sent & Hsent & Hw)]. cbn [fst snd] in *.
    pose proof (Hex _ _ Hi eq_refl) as Ho. split; cbn [fst snd t_owner t_wire].
    + intros k y Hy Hyh. destruct (insert_lookup_inv _ _ _ _ _ _ Hi Hy) as [[<- ->]|[? ?]]; [done|eauto].
    + intros k Hk. rewrite Ho in Hk. injection Hk as <-. eexists. split; [by eapply insert_lookup_same | done].
    + intros k y Hy. destruct (insert_lookup_inv _ _ _ _ _ _ Hi Hy) as [[<- ->]|[? ?]]; [|eauto].
      apply (Hj _ _ Hi).
    + exists sent. split; [by eapply wire_frames_move|]. rewrite Hw, Ho, Hi.
      rewrite (insert_lookup_same _ _ _ _ Hi). cbn [host_partial]. by rewrite app_nil_r.
  - pose proof Hv as [Hex Hheld Hj (sent & Hsent & Hw)]. cbn [fst snd] in *.
    pose proof (Hex _ _ Hi eq_refl) as Ho. destruct (Hj _ _ Hi) as (j & Ej & q & Eq).
    split; cbn [fst snd t_owner t_wire].
    + intros k y Hy Hyh. destruct (insert_lookup_inv _ _ _ _ _ _ Hi Hy) as [[<- ->]|[? ?]]; [done|eauto].
    + intros k Hk. rewrite Ho in Hk. injection Hk as <-. eexists. split; [by eapply insert_lookup_same | done].
    + intros k y Hy. destruct (insert_lookup_inv _ _ _ _ _ _ Hi Hy) as [[<- ->]|[? ?]]; eauto.
      exists j. done.
    + exists (sent ++ [(i, q)]). split; [by eapply wire_frames_add|]. rewrite Hw, Ho, Hi.
      rewrite (insert_lookup_same _ _ _ _ Hi), job_bytes_snoc. cbn [host_partial]. rewrite app_nil_r, <- app_assoc.
      f_equal. unfold job_bytes. cbn [fst snd]. by rewrite Ej, <- Eq.
  - pose proof Hv as [Hex Hheld Hj (sent & Hsent & Hw)]. cbn [fst snd] in *.
    pose proof (Hex _ _ Hi eq_refl) as Ho. split; cbn [fst snd t_owner t_wire].
    + intros k y Hy Hyh. destruct (insert_lookup_inv _ _ _ _ _ _ Hi Hy) as [[<- ->]|[Hne Hy']]; [done|].
      specialize (Hex _ _ Hy' Hyh). congruence.
    + done.
    + intros k y Hy. destruct (insert_lookup_inv _ _ _ _ _ _ Hi Hy) as [[<- ->]|[? ?]]; [|eauto].
      destruct (Hj _ _ Hi) as (j & ? & _). by exists j.
    + exists sent. split; [by eapply wire_frames_move|]. by rewrite Hw, Ho, Hi.
Qed.

(** The callers before their first step. *)
Definition host_senders (q : Z) (jobs : list (Z * list Z)) : tx_shared * list host_pc :=
  (mk_tx_shared q None [], map (fun j => HStart (fst j) (snd j)) jobs).

Lemma host_senders_inv q jobs : host_inv jobs (host_senders q jobs).
Proof.
  assert (Hl : forall i pc, map (fun j => HStart (fst j) (snd j)) jobs !! i = Some pc ->
    exists j, jobs !! i = Some j /\ pc = HStart (fst j) (snd j)).
  { intros i pc Hpc. apply list_lookup_fmap_Some in Hpc as (j & -> & Hj). eauto. }
  split; cbn [fst snd host_senders].
  - intros i pc Hpc Hh. destruct (Hl _ _ Hpc) as (j & _ & ->). done.
  - done.
  - intros i pc Hpc. destruct (Hl _ _ Hpc) as (j & Hj & ->). exists j. split; [done|]. by destruct j.
  - exists []. split; [|done]. split; [apply NoDup_nil_2|]. intros i. split; [by intros ?%elem_of_nil|].
    intros (pc & Hpc & Hs). destruct (Hl _ _ Hpc) as (j & _ & ->). done.
Qed.

Lemma host_step_length s s' : host_step s s' -> length (snd s') = length (snd s).
Proof. by destruct 1; cbn; rewrite length_insert. Qed.

Lemma host_reach_inv q jobs s :
  rtc host_step (host_senders q jobs) s -> host_inv jobs s /\ length (snd s) = length jobs.
Proof.
  assert (H0 : host_inv jobs (host_senders q jobs) /\ length (snd (host_senders q jobs)) = length jobs).
  { split; [apply host_senders_inv|]. cbn. by rewrite length_map. }
  generalize dependent (host_senders q jobs).
  intros s0 H0 Hr. induction Hr as [|s1 s2 s3 Hs Hr IH]; [done|]. apply IH.
  destruct H0 as [Hi Hl]. split; [exact (host_step_inv jobs s1 s2 Hs Hi) | by rewrite (host_step_length _ _ Hs)].
Qed.

(** C32. On the host frames never mix, and every frame on the wire is a caller's:
    in every state that any number of concurrent [bus_send] calls can reach,
    whatever the scheduling, the bytes on the wire are, in some order, exactly
    the frames of the calls that are through with sending, each once, whole,
    with the header for its own type and length followed by its own payload,
    and behind them at most the header of the one call that holds the mutex.
    When all calls have returned the wire is a permutation of all their frames.
    (Which sequence number a frame gets is not protected by the mutex.) *)
Theorem host_frames_atomic (q : Z) (jobs : list (Z * list Z)) (s : tx_shared * list host_pc) :
  rtc host_step (host_senders q jobs) s ->
  exists sent : list (nat * Z),
    wire_frames jobs (snd s) sent /\
    (t_wire (fst s) = concat (map (job_bytes jobs) sent) \/
     exists i j n, t_owner (fst s) = Some i /\ ~ (i ∈ map fst sent) /\ jobs !! i = Some j /\
       t_wire (fst s) = concat (map (job_bytes jobs) sent) ++ bus_header_encode (fst (job_frame j n))) /\
    ((forall pc, pc ∈ snd s -> pc = HDone) ->
     map fst sent ≡ₚ seq 0 (length jobs) /\ t_wire (fst s) = concat (map (job_bytes jobs) sent)).
Proof.
  intros Hr. destruct (host_reach_inv q jobs s Hr) as [[Hex Hheld Hj (sent & Hsent & Hw)] Hlen].
  exists sent. split; [done|]. split.
  - destruct (t_owner (fst s)) as [i|] eqn:Ho; [|left; by rewrite Hw, app_nil_r].
    destruct (Hheld i eq_refl) as (pc & Hi & _). rewrite Hi in Hw.
    destruct (Hj _ _ Hi) as (j & Ej & Hok).
    destruct pc; cbn in Hw; rewrite ?app_nil_r in Hw; try (left; exact Hw).
    right. destruct Hok as (n & Eq). exists i, j, n. split; [done|]. split.
    { intros Hin. apply Hsent in Hin as (y & Hy & Hd). rewrite Hi in Hy. injection Hy as <-. done. }
    split; [done|]. by rewrite <- Eq.
  - intros Hdone. destruct Hsent as [Hn Hs]. split.
    + apply NoDup_Permutation; [done | apply NoDup_seq |]. intros i. rewrite Hs, elem_of_seq. split.
      * intros (pc & Hi & _). apply lookup_lt_Some in Hi. lia.
      * intros [_ Hi]. destruct (lookup_lt_is_Some_2 (snd s) i ltac:(lia)) as [pc Hpc].
        exists pc. split; [done|]. by rewrite (Hdone pc) by (by eapply list_elem_of_lookup_2).
    + rewrite Hw. destruct (t_owner (fst s)) as [i|] eqn:Ho; [|by rewrite app_nil_r].
      destruct (Hheld i eq_refl) as (pc & Hi & Hh).
      rewrite (Hdone pc) in Hh by (by eapply list_elem_of_lookup_2). done.
Qed.

(** The state of [host_frames_atomic_witness]: one frame out, one call waiting. *)
Lemma host_two_senders :
  rtc host_step (host_senders 0 [(3, [1; 2]); (8, [9])])
    (mk_tx_shared 2 (Some 0%nat) [3; 0; 0; 2; 1; 2], [HUnlock; HLock (data_hdr 8 1 1) [9]]).
Proof.
  unfold host_senders. cbn [map fst snd].
  eapply rtc_l; [eapply (h_build 0); reflexivity|]. eapply rtc_l; [eapply (h_seq 0); reflexivity|].
  eapply rtc_l; [eapply (h_build 1); reflexivity|]. eapply rtc_l; [eapply (h_lock 0); reflexivity|].
  eapply rtc_l; [eapply (h_hdr 0); reflexivity|]. eapply rtc_l; [eapply (h_seq 1); reflexivity|].
  eapply rtc_l; [eapply (h_pay 0); reflexivity|]. apply rtc_refl.
Qed.

Lemma host_frames_atomic_witness :
  exists sent, wire_frames [(3, [1; 2]); (8, [9])] [HUnlock; HLock (data_hdr 8 1 1) [9]] sent /\
    map fst sent = [0%nat].
Proof.
  destruct (host_frames_atomic 0 [(3, [1; 2]); (8, [9])] _ host_two_senders) as (sent & Hsent & _).
  exists sent. split; [exact Hsent|]. destruct Hsent as [Hn Hs].
  assert (Hin : forall i, i ∈ map fst sent <-> i = 0%nat).
  { intros i. rewrite Hs. split.
    - intros (pc & Hi & Hd). destruct i as [|[|i]]; [done | |done]. injection Hi as <-. done.
    - intros ->. exists HUnlock. done. }
  apply Permutation_singleton_r, NoDup_Permutation; [done | apply NoDup_singleton |].
  intros i. by rewrite Hin, list_elem_of_singleton.
Defined.

(** [tx_seq] is read and advanced outside the mutex: two calls can build their
    headers with the same number. *)
Lemma host_sequence_race :
  exists s, rtc host_step (host_senders 5 [(3, [1]); (8, [9])]) s /\
    snd s = [HSeq (data_hdr 3 5 1) [1]; HSeq (data_hdr 8 5 1) [9]].
Proof.
  eexists. split.
  - unfold host_senders. cbn [map fst snd].
    eapply rtc_l; [eapply (h_build 0); reflexivity|]. eapply rtc_l; [eapply (h_build 1); reflexivity|].
    apply rtc_refl.
  - reflexivity.
Qed.

(** ** The device: [serial_send_frame] *)

Inductive dev_pc : Type :=
| DStart (type : Z) (p : list Z)            (* before the header is built *)
| DHdr (hdr p : list Z)                     (* before serial_data_tx of the header *)
| DHdrIn (hdr p : list Z)                   (* inside it, mutex held *)
| DPay (p : list Z)                         (* before serial_data_tx of the payload *)
| DPayIn (p : list Z)                       (* inside it, mutex held *)
| DSeq                                      (* before tx_sequence_number is advanced *)
| DDone.

Inductive dev_step : tx_shared * list dev_pc -> tx_shared * list dev_pc -> Prop :=
| d_build i ts sh t p :
    ts !! i = Some (DStart t p) ->
    dev_step (sh, ts)
      (sh, <[i := DHdr (SerialHeader_mem (mk_tx_header t ERROR_TYPE_NO_ERROR false (t_seq sh) (zlen p))) p]> ts)
| d_lock_hdr i ts sh h p :
    ts !! i = Some (DHdr h p) -> t_owner sh = None ->
    dev_step (sh, ts) (mk_tx_shared (t_seq sh) (Some i) (t_wire sh), <[i := DHdrIn h p]> ts)
| d_hdr i ts sh h p :
    ts !! i = Some (DHdrIn h p) ->
    dev_step (sh, ts) (mk_tx_shared (t_seq sh) None (t_wire sh ++ h), <[i := DPay p]> ts)
| d_lock_pay i ts sh p :
    ts !! i = Some (DPay p) -> t_owner sh = None ->
    dev_step (sh, ts) (mk_tx_shared (t_seq sh) (Some i) (t_wire sh), <[i := DPayIn p]> ts)
| d_pay i ts sh p :
    ts !! i = Some (DPayIn p) ->
    dev_step (sh, ts) (mk_tx_shared (t_seq sh) None (t_wire sh ++ p), <[i := DSeq]> ts)
| d_seq i ts sh :
    ts !! i = Some DSeq ->
    dev_step (sh, ts)
      (mk_tx_shared (serial_seq_advance (t_seq sh)) (t_owner sh) (t_wire sh), <[i := DDone]> ts).

(** Both frames carry the same sequence number and their parts alternate. *)
Lemma device_mixed_run q t1 t2 p1 p2 :
  rtc dev_step (mk_tx_shared q None [], [DStart t1 p1; DStart t2 p2])
    (mk_tx_shared (serial_seq_advance (serial_seq_advance q)) None
       (SerialHeader_mem (mk_tx_header t1 ERROR_TYPE_NO_ERROR false q (zlen p1))
        ++ SerialHeader_mem (mk_tx_header t2 ERROR_TYPE_NO_ERROR false q (zlen p2)) ++ p1 ++ p2),
     [DDone; DDone]).
Proof.
  eapply rtc_l; [eapply (d_build 0); reflexivity|]. eapply rtc_l; [eapply (d_build 1); reflexivity|].
  eapply rtc_l; [eapply (d_lock_hdr 0); reflexivity|]. eapply rtc_l; [eapply (d_hdr 0); reflexivity|].
  eapply rtc_l; [eapply (d_lock_hdr 1); reflexivity|]. eapply rtc_l; [eapply (d_hdr 1); reflexivity|].
  eapply rtc_l; [eapply (d_lock_pay 0); reflexivity|]. eapply rtc_l; [eapply (d_pay 0); reflexivity|].
  eapply rtc_l; [eapply (d_lock_pay 1); reflexivity|]. eapply rtc_l; [eapply (d_pay 1); reflexivity|].
  eapply rtc_l; [eapply (d_seq 0); reflexivity|]. eapply rtc_l; [eapply (d_seq 1); reflexivity|].
  cbn [t_seq t_owner t_wire list_insert insert]. rewrite app_nil_l, <- !app_assoc. apply rtc_refl.
Qed.

(** C33. On the device frames can mix: the mutex is released between a frame's
    header and its payload, so two concurrent [serial_send_frame] calls can put
    header, header, payload, payload on the wire, both headers with the same
    sequence number.  The host then hands its handler, as the first frame's
    payload, bytes that begin with the second frame's header. *)
Theorem device_frames_mix {U E HID USR : Type} `{PL : PlatformLaws U} `{!TxReady U}
    (run_handler : HID -> option USR -> list Z -> E -> E) (fuel : nat) (b : bus_state U E HID USR)
    (q t1 t2 : Z) (p1 p2 : list Z) :
  0 <= q < 16 -> 0 <= t1 < SERIAL_TYPE_UNKNOWN -> 0 <= t2 < SERIAL_TYPE_UNKNOWN ->
  0 < zlen p1 <= SERIAL_MAX_PAYLOAD_LEN -> 0 < zlen p2 <= SERIAL_MAX_PAYLOAD_LEN ->
  host_idle b -> rx_fifo (b_uart b) = [] -> b_request_pending b = false ->
  exists s, rtc dev_step (mk_tx_shared q None [], [DStart t1 p1; DStart t2 p2]) (s, [DDone; DDone]) /\
    let payload := ztake (zlen p1)
      (dev_header_bytes t2 ERROR_TYPE_NO_ERROR false q (zlen p2) ++ p1 ++ p2) in
    exists b', bus_rx_event run_handler (5 + fuel) (bus_arrive b (t_wire s)) = Ret b' /\
      b_env b' = dispatch run_handler (b_handler b) (b_handler_user b)
        (mk_bus_header t1 false true ERROR_TYPE_NO_ERROR 0 q (zlen p1)) payload (b_env b).
Proof.
  intros Hq Ht1 Ht2 Hp1 Hp2 Hi Hrx Hpend.
  eexists. split; [apply device_mixed_run|]. cbv zeta. cbn [t_wire].
  unfold SERIAL_TYPE_UNKNOWN, SERIAL_MAX_PAYLOAD_LEN in *.
  rewrite !mk_tx_header_mem by (unfold ERROR_TYPE_NO_ERROR; lia).
  set (h1 := mk_bus_header t1 false true ERROR_TYPE_NO_ERROR 0 q (zlen p1)).
  set (rest := dev_header_bytes t2 ERROR_TYPE_NO_ERROR false q (zlen p2) ++ p1 ++ p2).
  assert (zlen rest = 4 + zlen p1 + zlen p2) as Hr.
  { unfold rest. rewrite !zlen_app. change (zlen (dev_header_bytes _ _ _ _ _)) with 4. lia. }
  set (payload := ztake (zlen p1) rest).
  assert (zlen payload = zlen p1) as Hpl by (unfold payload; rewrite zlen_ztake; lia).
  assert (host_frame h1 payload) as Hf.
  { unfold host_frame, bus_header_wf, h1, ERROR_TYPE_NO_ERROR, SERIAL_TYPE_UNKNOWN,
      SERIAL_MAX_PAYLOAD_LEN in *. cbn [bh_type bh_error bh_reserved bh_seq bh_length]. lia. }
  destruct (host_rx_frame run_handler fuel (bus_arrive b (dev_header_bytes t1 ERROR_TYPE_NO_ERROR false q (zlen p1) ++ rest))
              h1 payload (zdrop (zlen p1) rest)) as (u' & E1 & _ & _).
  { destruct Hi; done. }
  { done. }
  { cbn. rewrite arrive_rx, Hrx. unfold payload. by rewrite ztake_zdrop. }
  eexists. split; [exact E1|]. cbn [host_rx_effect b_env]. cbn [bus_arrive set_uart b_request_pending
    b_handler b_handler_user b_env]. rewrite Hpend. cbn [orb h1 bh_length].
  rewrite (proj2 (Z.eqb_neq _ _)) by lia. done.
Qed.
