(* ===== verification/HostBt.v ===== *)
(** * HostBt: Bluetooth HCI across the link

    The host's virtual HCI driver, [host/host_bt.c], the device's
    controller-to-host thread, [hci_event_tx_thread] of [device/bt_proxy.c], and
    the two directions end to end.  The host's Bluetooth stack (receive buffers
    and the callback [bt_hci_recv_t]) is a class over its state [B]. *)

From S2P Require Import Prelude Framing Platform Client SerialDev SerialRefine SerialProps.
From S2P Require Import Multiplexer BtProxy Proxies Device HostBus HostProps Link.
From Stdlib Require Import ZArith Lia.
From stdpp Require Import base list option numbers decidable relations.

Open Scope Z_scope.
Open Scope e80211_scope.

(** ** The device's thread *)

Section EventThread.
Context {U : Type} `{Platform U} (K : Kconfig).

(** One iteration: [K_FOREVER] blocks on an empty queue; the buffer is released
    whether or not the frame was sent. *)
Definition hci_event_tx_iteration (m : mux_state U) (queue : list (list Z))
  : outcome (mux_state U * list (list Z)) :=
  match queue with
  | [] => Ret (m, [])
  | buf :: rest =>
      do! (m', _) <- serial_mux_send K m SERIAL_TYPE_HCI (Some buf) (zlen buf);
      Ret (m', rest)
  end.

(** [bt_proxy_init]: whether the thread runs, and the result. *)
Definition bt_proxy_init (bt_enable_raw : Z) : bool * Z :=
  if negb (bt_enable_raw =? 0) then (false, bt_enable_raw) else (true, 0).

End EventThread.

(** ** The host's driver *)

Class BtStack (B : Type) := {
  bt_buf_get_rx : B -> Z -> B * option (list Z * Z);   (* for an H:4 type; what the buffer
                                                          holds and its tailroom *)
  bt_hci_recv : B -> list Z -> B                       (* the stack's callback, on a buffer *)
}.

(** The static [bt_recv] and the stack. *)
Record virt_bt (B : Type) : Type := mk_virt_bt {
  vb_recv : bool;        (* not NULL? *)
  vb_stack : B
}.
Arguments mk_virt_bt {B} _ _.
Arguments vb_recv {B} _.
Arguments vb_stack {B} _.

(** The handlers registered on the bus: this driver's, or another's. *)
Inductive bus_handler (HID : Type) : Type :=
| HCI_RX
| OTHER_RX (h : HID).
Arguments HCI_RX {HID}.
Arguments OTHER_RX {HID} _.

Section VirtBt.
Context {UH B X HID USR : Type} `{Platform UH} `{BtStack B}.

(** The driver's state and that of the other handlers.  A bus handler returns
    nothing, so a fault in [hci_rx] is what becomes of the driver's state. *)
Context (run_other : HID -> option USR -> list Z -> X -> X).

#[local] Abbreviation env := (outcome (virt_bt B) * X)%type.
#[local] Abbreviation bus := (bus_state UH env (bus_handler HID) USR).

(** [net_buf_add_mem] copies without a check: past the tailroom it writes behind
    the buffer. *)
Definition hci_rx (payload : list Z) (e : virt_bt B) : outcome (virt_bt B) :=
  if negb (vb_recv e) || (zlen payload =? 0) then Ret e
  else
    match bt_buf_get_rx (vb_stack e) (znth payload 0) with
    | (s, None) => Ret (mk_virt_bt (vb_recv e) s)
    | (s, Some (buf, tailroom)) =>
        if tailroom <? zlen payload then Fault
        else Ret (mk_virt_bt (vb_recv e) (bt_hci_recv s (buf ++ payload)))
    end.

Definition run_bt_handler (h : bus_handler HID) (user : option USR) (p : list Z) (e : env) : env :=
  match h with
  | HCI_RX => (outcome_bind (fst e) (hci_rx p), snd e)
  | OTHER_RX h => (fst e, run_other h user p (snd e))
  end.

Definition set_bt_recv (recv : bool) (e : env) : env :=
  (outcome_bind (fst e) (fun v => Ret (mk_virt_bt recv (vb_stack v))), snd e).

Definition virt_bt_open (b : bus) (dev : option USR) (recv : bool) : bus * Z :=
  let b1 := set_env b (set_bt_recv recv (b_env b)) in
  let b2 := fst (bus_register_handler b1 SERIAL_TYPE_HCI (Some HCI_RX)) in
  (bus_set_handler_user b2 SERIAL_TYPE_HCI dev, 0).

Definition virt_bt_close (b : bus) : bus * Z :=
  (set_env b (set_bt_recv false (b_env b)), 0).

Definition virt_bt_send (b : bus) (buf : list Z) : outcome (bus * Z) :=
  bus_send b SERIAL_TYPE_HCI (Some buf) (zlen buf).

Definition virt_bt_init (dt_node ready : bool) (fuel : nat) (b : bus) (script : list bus_event) :=
  bus_open run_bt_handler dt_node ready fuel b script.

End VirtBt.

(** ** End to end *)

Section BtEndToEnd.
Context {UH UD B X HID USR R H N : Type}.
Context `{PH : PlatformLaws UH} `{!TxReady UH} `{PD : PlatformLaws UD} `{!TxReady UD}.
Context `{BtStack B} `{RingBuf R} `{HciChannel H} `{NetStack N} (K : Kconfig).
Context (run_other : HID -> option USR -> list Z -> X -> X).
Context (wifi_req_size VSERIAL_RX_BUF_SIZE VSERIAL_TX_BUF_SIZE : Z).

#[local] Abbreviation bus := (bus_state UH (outcome (virt_bt B) * X) (bus_handler HID) USR).
#[local] Abbreviation P :=
  (device_proxies (R := R) (H := H) (N := N) wifi_req_size VSERIAL_RX_BUF_SIZE VSERIAL_TX_BUF_SIZE).
#[local] Instance bt_link_mux : Mux (clients R H N) := MuxDevice K P.
#[local] Abbreviation device := (dev UD (clients R H N)).
#[local] Abbreviation handler := (run_bt_handler (B := B) run_other).

(** C40. Bluetooth end to end, with the HCI proxy in the build and the driver open
    on an idle link in step.  A command the host's stack sends with [virt_bt_send]
    reaches the controller as one command buffer with exactly its opcode and
    parameters; the call returns 0 and the link is idle and in step again.  An
    event the controller delivers reaches the stack's callback once, as the bytes
    the receive buffer already holds followed by the whole packet with its H:4
    byte: a buffer that [bt_buf_get_rx] hands out with the type byte in it (as
    [bt_proxy.c] describes) reaches the stack with that byte twice.  A packet that
    is longer than the tailroom of the buffer is written past its end. *)
Theorem bt_end_to_end (fuel : nat) (b : bus) (v : virt_bt B) (w : device) (op0 op1 : Z) (params event : list Z) :
  CONFIG_SERIAL_PROXY_BT K = true ->
  link_idle b w -> in_sync b w -> bt_ready (c_bt (d_cli w)) -> zlen params <= 255 ->
  0 < zlen event <= SERIAL_MAX_PAYLOAD_LEN ->
  b_handler b !! Z.to_nat SERIAL_TYPE_HCI = Some (Some HCI_RX) -> fst (b_env b) = Ret v -> vb_recv v = true ->
  (exists b1 b2 w1,
     virt_bt_send b (hci_command op0 op1 params) = Ret (b1, 0) /\
     dev_rx_event (5 + fuel) (dev_arrive w (host_sent b b1)) = Ret w1 /\
     bus_rx_event handler (5 + fuel) (bus_arrive b1 (device_sent w w1)) = Ret b2 /\
     link_idle b2 w1 /\ in_sync b2 w1 /\
     hci (c_bt (d_cli w1)) = hci_inject (hci (c_bt (d_cli w))) BT_BUF_CMD (op0 :: op1 :: zlen params :: params)) /\
  (exists b' w', device_exchange handler (5 + fuel) b w SERIAL_TYPE_HCI event = Ret (b', w', 0) /\
     link_idle b' w' /\ in_sync b' w' /\
     fst (b_env b')
     = match bt_buf_get_rx (vb_stack v) (znth event 0) with
       | (s, None) => Ret (mk_virt_bt true s)
       | (s, Some (buf, tailroom)) =>
           if tailroom <? zlen event then Fault else Ret (mk_virt_bt true (bt_hci_recv s (buf ++ event)))
       end).
Proof.
  intros HK Hli Hsy Hbt Hp He Hh Hv Hrecv. split.
  - assert (Hlen : zlen (hci_command op0 op1 params) = 4 + zlen params)
      by (unfold hci_command; rewrite !zlen_cons; lia).
    pose proof (zlen_nonneg params).
    destruct (host_exchange_ok handler (bt_proxy_ops P) fuel b w SERIAL_TYPE_HCI (hci_command op0 op1 params)
      (FrameClient0 := lift_FrameClient L_bt bt_client bt_FrameClient))
      as (b' & w' & E & Hli' & Hsy' & Hcl & _); try done.
    { by apply get_callbacks_table. }
    { rewrite Hlen. unfold SERIAL_MAX_PAYLOAD_LEN. lia. }
    { rewrite Hlen. cbn. unfold BT_PROXY_BUFFER_SIZE. lia. }
    unfold host_exchange, virt_bt_send in *.
    destruct (bus_send b SERIAL_TYPE_HCI _ _) as [[b1 ret]| |] eqn:E1; [|discriminate E..].
    cbn [outcome_bind] in E.
    destruct (dev_rx_event _ (dev_arrive w (host_sent b b1))) as [w1| |] eqn:E2; [|discriminate E..].
    cbn [outcome_bind] in E.
    destruct (bus_rx_event _ _ _) as [b2| |] eqn:E3; [|discriminate E..].
    injection E as <- <- ->. exists b1, b2, w1. do 5 (split; [done|]).
    rewrite Hcl. cbn. by rewrite bt_deliver_command.
  - destruct (device_exchange_ok handler fuel b w SERIAL_TYPE_HCI event) as (b' & w' & E & Hli' & _ & Henv & Hsy' & _);
      [done..|].
    exists b', w'. split; [exact E|]. split; [done|]. split; [by apply Hsy'|].
    rewrite Henv. unfold dispatch. cbn [bh_type]. rewrite Hh. cbn. rewrite Hv. cbn. unfold hci_rx.
    by rewrite Hrecv, (proj2 (Z.eqb_neq (zlen event) 0)) by lia.
Qed.

End BtEndToEnd.
