(* ===== verification/LinkRuns.v ===== *)
(** * LinkRuns: the host's and the link's theorems on concrete inputs *)

From S2P Require Import Prelude Framing Platform Client SerialDev SerialRefine SerialProps.
From S2P Require Import Multiplexer BtProxy Proxies Device DeviceRuns HostBus HostProps Link TxInterleave HostBt.
From Stdlib Require Import ZArith Lia.
From stdpp Require Import base list option numbers decidable relations.

Open Scope Z_scope.
Open Scope e80211_scope.

(** Handlers named by a number, logging what they are given. *)
Definition log_handler (id : nat) (user : option unit) (p : list Z) (e : list (nat * list Z)) :
  list (nat * list Z) := e ++ [(id, p)].

Abbreviation demo_bus_t := (bus_state IdealUart (list (nat * list Z)) nat unit).

(** A bus as [bus_open] leaves it, with handlers for management and HCI. *)
Definition demo_bus (opened : bool) (rx : list Z) : demo_bus_t :=
  mk_bus_state (mk_IdealUart rx [] 0) PARSING_STATE_TYPE bus_header_zero 0 (replicate 4096 0) false
    0 0 0 false bus_header_zero 0
    [Some 100%nat; None; None; Some 103%nat; None; None; None; None; None] (replicate 9 None) opened [].

Definition from_dev (type seq len : Z) : bus_header := mk_bus_header type false true 0 0 seq len.

Lemma demo_idle opened rx : host_idle (demo_bus opened rx).
Proof. split; reflexivity. Qed.

(** A controller event, an acknowledgement and a notification, back to back. *)
Lemma host_dispatches_stream_witness :
  exists b', host_events log_handler 7 3
      (demo_bus true ([35; 0; 0; 2; 4; 14] ++ [35; 0; 0; 0] ++ [48; 16; 0; 1; 8])) = Ret b' /\
    b_env b' = [(103%nat, [4; 14]); (100%nat, [8])] /\
    iu_tx (b_uart b') = [3; 0; 0; 0].
Proof.
  destruct (host_dispatches_stream log_handler 2
    (demo_bus true ([35; 0; 0; 2; 4; 14] ++ [35; 0; 0; 0] ++ [48; 16; 0; 1; 8]))
    [(from_dev 3 0 2, [4; 14]); (from_dev 3 0 0, []); (mk_bus_header 0 true true 0 0 1 1, [8])] [])
    as (b' & E1 & _ & _ & He & Ht).
  - apply demo_idle.
  - reflexivity.
  - repeat constructor; vm_compute; (reflexivity || discriminate).
  - reflexivity.
  - exists b'. split; [exact E1|]. split; [rewrite He; reflexivity|etransitivity; [exact Ht|reflexivity]].
Defined.

Lemma demo_quiet opened : quiet (demo_bus opened []).
Proof. split; [apply demo_idle|split; reflexivity]. Qed.


Lemma bus_open_handshake_witness :
  (exists b', bus_open log_handler true true 7 (demo_bus false []) [EvRx [39; 0; 0; 4; 1; 159; 1; 0]]
    = Ret (b', [], 0) /\ b_supported_types b' = 0x19F) /\
  (exists b', bus_open log_handler true true 7 (demo_bus false []) (replicate 4 EvTimeout)
     = Ret (b', [], - ETIMEDOUT) /\
     bus_open log_handler true true 7 b' [] = Ret (b', [], 0) /\ b_supported_types b' = 0).
Proof.
  destruct (bus_open_handshake log_handler 2 (demo_bus false []) (from_dev 7 0 4) 1 159 1 0 [])
    as [(b1 & E1 & H1) (b2 & E2 & E3 & H2)]; [reflexivity..|conc|reflexivity|].
  split.
  - exists b1. split; [exact E1|]. apply H1. reflexivity.
  - exists b2. split; [exact E2|]. split; [exact E3|exact H2].
Defined.

(** The device expects 5, says so, answers the handshake, and gets nothing more. *)
Lemma bus_request_never_retries_witness :
  exists b', bus_request log_handler 3 7 (demo_bus true []) 2 (Some [8; 1]) 2 (Some 512)
      [EvRx [98; 80; 0; 0]; EvRx [39; 0; 0; 4; 1; 159; 1; 0]; EvRx [34; 16; 0; 1; 9]]
    = Ret (b', [EvRx [34; 16; 0; 1; 9]], - ETIMEDOUT, None) /\
    iu_tx (b_uart b') = [2; 0; 0; 2; 8; 1] ++ [23; 16; 0; 0] ++ [7; 0; 0; 0].
Proof.
  destruct (bus_request_never_retries log_handler 2 2 (demo_bus true []) 2 512 [8; 1]
    (mk_bus_header 2 false true 1 0 5 0) (from_dev 7 0 4) 159 1 0 [EvRx [34; 16; 0; 1; 9]])
    as (b' & E1 & _ & Ht); [apply demo_quiet|conc|conc|reflexivity|conc|reflexivity|].
  exists b'. split; [exact E1|exact Ht].
Defined.


(** ** The two ends together *)

Definition demo_fifo_dev : dev SlowUart demo_state := demo_dev [].

Lemma demo_link_idle : link_idle (demo_bus true []) demo_fifo_dev.
Proof. split; [apply demo_idle|reflexivity|reflexivity|reflexivity| |reflexivity]. conc. Qed.

Lemma host_to_device_stream_witness :
  exists b' w', host_exchanges log_handler 7 (demo_bus true []) demo_fifo_dev 3
      [[1; 3; 12; 0]; [1; 1; 16; 0]] = Ret (b', w', [0; 0]) /\
    hci (c_bt (d_cli w')) = [(BT_BUF_CMD, [3; 12; 0]); (BT_BUF_CMD, [1; 16; 0])] /\ in_sync b' w'.
Proof.
  destruct (host_to_device_stream log_handler (bt_proxy_ops demo_proxies) 2 (demo_bus true [])
    demo_fifo_dev 3 [[1; 3; 12; 0]; [1; 1; 16; 0]])
    as (b' & w' & E1 & _ & Hs & Hc);
    [apply demo_link_idle|reflexivity|conc|discriminate|reflexivity| |conc|repeat constructor; vm_compute; (reflexivity || discriminate)|].
  - intros c p [Hb Hl] Hp. cbn [cl_ready cl_deliver lift_FrameClient bt_FrameClient] in *.
    rewrite lget_lput. unfold bt_deliver.
    destruct (bt_complete_idle (mk_bt_state (p ++ zdrop (zlen p) (hci_rx_buffer (lget L_bt c)))
      (zlen p) (hci (lget L_bt c))) (zlen p)) as (h & ->).
    split; [|reflexivity]. cbn [hci_rx_buffer]. rewrite zlen_app, zlen_zdrop, Hb.
    change (0 < zlen p <= 512) in Hp. unfold BT_PROXY_BUFFER_SIZE. lia.
  - exists b', w'. split; [exact E1|]. split; [rewrite Hc; reflexivity|exact Hs].
Defined.

Lemma device_to_host_frame_witness :
  exists b' w', device_exchange log_handler 7 (demo_bus true []) demo_fifo_dev 3 [4; 14; 1; 0]
    = Ret (b', w', 0) /\ b_env b' = [(103%nat, [4; 14; 1; 0])].
Proof.
  destruct (device_to_host_frame log_handler 2 (demo_bus true []) demo_fifo_dev 3 [4; 14; 1; 0])
    as (b' & w' & E1 & _ & _ & He & _); [apply demo_link_idle|conc|discriminate|conc|].
  exists b', w'. split; [exact E1|exact He].
Defined.

(** A handshake, and forty turns later. *)
Lemma link_open_handshake_witness :
  exists b' w' (w1 : dev SlowUart demo_state), link_open log_handler 7 (demo_bus false []) demo_fifo_dev
    = Ret (b', w', info_response w1, 0) /\
    b_supported_types b' = 0x19F /\ b_tx_seq b' = 0 /\
    exists b'' w'' (w2 : dev SlowUart demo_state),
      link_rounds log_handler 7 40 (b', w', info_response w1) = Ret (b'', w'', info_response w2).
Proof.
  destruct (link_open_handshake log_handler 2 39 (demo_bus false []) demo_fifo_dev)
    as (b' & w' & w1 & E1 & _ & Hsy & Hm & b'' & w'' & w2 & E2 & _).
  - split; [reflexivity..|conc|reflexivity].
  - conc.
  - exists b', w', w1. split; [exact E1|]. split; [exact Hm|]. split; [|exists b'', w'', w2; exact E2].
    revert E1. vm_compute. by intros [= <- _ _].
Defined.

Lemma device_frames_mix_witness :
  exists s, rtc dev_step (mk_tx_shared 0 None [], [DStart 3 [4; 14; 1; 0]; DStart 0 [8; 1]])
      (s, [DDone; DDone]) /\
    exists b', bus_rx_event log_handler 7 (bus_arrive (demo_bus true []) (t_wire s)) = Ret b' /\
      b_env b' = [(103%nat, [32; 0; 0; 2])].
Proof.
  destruct (device_frames_mix log_handler 2 (demo_bus true []) 0 3 0 [4; 14; 1; 0] [8; 1])
    as (s & Hr & b' & E1 & He); [conc..|apply demo_idle|reflexivity|reflexivity|].
  exists s. split; [exact Hr|]. exists b'. split; [exact E1|exact He].
Defined.

(** ** Bluetooth *)

(** A stack that logs the buffers it is given; [bt_buf_get_rx] puts the type byte
    in the buffer and leaves room for 67 bytes. *)
#[export] Instance LogStack : BtStack (list (list Z)) := {
  bt_buf_get_rx s h4 := (s, Some ([h4], 67));
  bt_hci_recv s buf := s ++ [buf]
}.

Definition demo_bt_bus : bus_state IdealUart (outcome (virt_bt (list (list Z))) * unit) (bus_handler Empty_set) unit :=
  fst (virt_bt_open
    (mk_bus_state (mk_IdealUart [] [] 0) PARSING_STATE_TYPE bus_header_zero 0 (replicate 4096 0) false
       0 0 0 false bus_header_zero 0 (replicate 9 None) (replicate 9 None) true (Ret (mk_virt_bt false []), tt))
    None true).

(** HCI_Reset out, Command Complete back. *)
Lemma bt_end_to_end_witness :
  (exists b1, virt_bt_send demo_bt_bus (hci_command 3 12 []) = Ret (b1, 0) /\
     exists w1, dev_rx_event 7 (dev_arrive demo_fifo_dev (host_sent demo_bt_bus b1)) = Ret w1 /\
       hci (c_bt (d_cli w1)) = [(BT_BUF_CMD, [3; 12; 0])]) /\
  (exists b' w', device_exchange (run_bt_handler (fun _ _ _ x => x)) 7 demo_bt_bus demo_fifo_dev SERIAL_TYPE_HCI
       [4; 14; 4; 1; 3; 12; 0] = Ret (b', w', 0) /\
     fst (b_env b') = Ret (mk_virt_bt true [[4; 4; 14; 4; 1; 3; 12; 0]])).
Proof.
  destruct (bt_end_to_end (USR := unit) Kconfig_default (fun (_ : Empty_set) _ _ x => x) 4096 256 256 2
    demo_bt_bus (mk_virt_bt true []) demo_fifo_dev 3 12 [] [4; 14; 4; 1; 3; 12; 0])
    as [(b1 & b2 & w1 & E1 & E2 & _ & _ & _ & Hc) (b' & w' & E3 & _ & _ & Hs)];
    [reflexivity| |reflexivity|conc|conc|conc|reflexivity|reflexivity|reflexivity|].
  - split; [split; reflexivity|reflexivity|reflexivity|reflexivity|conc|reflexivity].
  - split.
    + exists b1. split; [exact E1|]. exists w1. split; [exact E2|exact Hc].
    + exists b', w'. split; [exact E3|exact Hs].
Defined.
