(* ===== verification/ProxyThread.v ===== *)
(** * ProxyThread: the request threads of the management proxies

    [wifi_mgmt_thread_entry_point] of [device/wifi_mgmt_proxy.c] and
    [net_if_mgmt_thread_entry] of [device/net_if_mgmt_proxy.c] are the same loop:
    wait for the event the client callbacks set, process the receive buffer, send
    the response, reset the buffer.  The thread and the serial work item run
    concurrently on the same static variables; a schedule is the list of their
    steps.  What processing a request does is a parameter here and the subject of
    the proxies' own files. *)

From S2P Require Import Prelude Client Proxies.
From Stdlib Require Import ZArith Lia.
From stdpp Require Import base list option numbers decidable.

Open Scope Z_scope.
Open Scope e80211_scope.

Section ProxyThread.
Context {E : Type} (bufsize : Z).

(** [process env request] is the new environment and the bytes left in the
    response buffer; [] stands for a response length of 0. *)
Context (process : E -> list Z -> E * list Z).

(** Where the thread is in its loop. *)
Inductive pt_pc : Type :=
| PWait                        (* about to call k_event_wait *)
| PBlocked                     (* inside k_event_wait *)
| PProcess                     (* woken with DATA_COMPLETE_EVENT *)
| PSend (response : list Z)    (* request processed *)
| PReset.                      (* about to set message_length = 0 *)

Record pt_state : Type := mk_pt_state {
  pt_acc : accum_state;            (* rx buffer, message_length, event *)
  pt_where : pt_pc;
  pt_env : E;
  pt_sent : list (list Z)          (* payloads passed to serial_mux_send *)
}.

Inductive pt_event : Type :=
| EvFrame (p : list Z)   (* the serial layer completes a frame with payload [p] *)
| EvThread.              (* the proxy thread takes its next step *)

(** The client callbacks the serial layer runs for a frame that arrives whole. *)
Definition pt_frame (s : pt_state) (p : list Z) : outcome pt_state :=
  match accum_acquire_buffer bufsize (pt_acc s) (zlen p) with
  | AcqFail => Ret s
  | AcqOk None => Fault
  | AcqOk (Some off) =>
      match accum_store (pt_acc s) off p with
      | None => Fault
      | Some a =>
          do! a' <- accum_message_complete (accum_commit_data a (zlen p)) (zlen p);
          Ret (mk_pt_state a' (pt_where s) (pt_env s) (pt_sent s))
      end
  end.

Definition pt_goto (s : pt_state) (pc : pt_pc) : pt_state :=
  mk_pt_state (pt_acc s) pc (pt_env s) (pt_sent s).

(** [k_event_wait(..., reset = true, K_FOREVER)] clears the events and then
    blocks; waking up leaves them set. *)
Definition pt_thread (s : pt_state) : outcome pt_state :=
  let a := pt_acc s in
  match pt_where s with
  | PWait => Ret (mk_pt_state (mk_accum_state (rx_buffer a) (message_length a) false) PBlocked
                    (pt_env s) (pt_sent s))
  | PBlocked => if data_complete a then Ret (pt_goto s PProcess) else Ret s
  | PProcess =>
      if bufsize <? message_length a then Fault
      else
        let '(e, response) := process (pt_env s) (ztake (message_length a) (rx_buffer a)) in
        Ret (mk_pt_state a (PSend response) e (pt_sent s))
  | PSend response =>
      Ret (mk_pt_state a PReset (pt_env s)
             (if 0 <? zlen response then pt_sent s ++ [response] else pt_sent s))
  | PReset => Ret (mk_pt_state (mk_accum_state (rx_buffer a) 0 (data_complete a)) PWait
                     (pt_env s) (pt_sent s))
  end.

Definition pt_step (s : pt_state) (e : pt_event) : outcome pt_state :=
  match e with EvFrame p => pt_frame s p | EvThread => pt_thread s end.

Fixpoint pt_run (s : pt_state) (sched : list pt_event) : outcome pt_state :=
  match sched with
  | [] => Ret s
  | e :: rest => do! s' <- pt_step s e; pt_run s' rest
  end.

(** ** Properties *)

Context (Hsize : 0 <= bufsize < 2 ^ 31).

(** Blocked with an empty buffer: where the thread waits for a request. *)
Definition pt_ready (s : pt_state) : Prop :=
  accum_ready bufsize (pt_acc s) /\ data_complete (pt_acc s) = false /\ pt_where s = PBlocked.

Lemma pt_run_app s l1 l2 : pt_run s (l1 ++ l2) = (do! s' <- pt_run s l1; pt_run s' l2).
Proof.
  revert s. induction l1 as [|e l1 IH]; intros s; cbn; [done|].
  destruct (pt_step s e); cbn; [apply IH | done..].
Qed.

(** A frame that fits behind what the buffer already holds. *)
Lemma pt_frame_appends s p :
  zlen (rx_buffer (pt_acc s)) = bufsize -> 0 <= message_length (pt_acc s) ->
  message_length (pt_acc s) + zlen p <= bufsize ->
  exists buf,
    pt_frame s p = Ret (mk_pt_state (mk_accum_state buf (message_length (pt_acc s) + zlen p) true)
                          (pt_where s) (pt_env s) (pt_sent s)) /\
    zlen buf = bufsize /\
    ztake (message_length (pt_acc s) + zlen p) buf
    = ztake (message_length (pt_acc s)) (rx_buffer (pt_acc s)) ++ p.
Proof.
  intros Hb Hm Hp. unfold pt_frame, accum_acquire_buffer.
  pose proof (zlen_nonneg p).
  rewrite size_t_small, (proj2 (Z.ltb_ge _ _)) by lia.
  unfold accum_store. rewrite store_at_Some by lia. cbn.
  rewrite size_t_small by lia. eexists. split; [done|].
  rewrite !zlen_app, zlen_ztake, zlen_zdrop by lia. split; [lia|].
  unfold ztake, zdrop. rewrite app_assoc, take_app_le.
  - by rewrite take_ge by (rewrite length_app, length_take; unfold zlen in *; lia).
  - rewrite length_app, length_take. unfold zlen in *. lia.
Qed.

(** Thread steps. *)
Lemma pt_run_thread n s s' :
  pt_thread s = Ret s' -> pt_run s (replicate (S n) EvThread) = pt_run s' (replicate n EvThread).
Proof. intros Hs. cbn. by rewrite Hs. Qed.

Lemma pt_run_blocked n s :
  pt_where s = PBlocked -> data_complete (pt_acc s) = false ->
  pt_run s (replicate n EvThread) = Ret s.
Proof.
  intros Hw Hd. induction n as [|n IH]; [done|]. rewrite (pt_run_thread n s s); [done|].
  unfold pt_thread. by rewrite Hw, Hd.
Qed.

Definition with_acc (s : pt_state) (buf : list Z) (len : Z) (ev : bool) (pc : pt_pc) : pt_state :=
  mk_pt_state (mk_accum_state buf len ev) pc (pt_env s) (pt_sent s).

(** What the thread adds to the trace for a response. *)
Definition reply (response : list Z) : list (list Z) :=
  if 0 <? zlen response then [response] else [].

(** From the wake-up to the call of [serial_mux_send]. *)
Lemma pt_process_request l buf len s :
  0 <= len <= bufsize ->
  pt_run (with_acc s buf len true PBlocked) (EvThread :: EvThread :: l)
  = pt_run (mk_pt_state (mk_accum_state buf len true) (PSend (snd (process (pt_env s) (ztake len buf))))
              (fst (process (pt_env s) (ztake len buf))) (pt_sent s)) l.
Proof.
  intros Hl. unfold pt_run, pt_step, pt_thread, with_acc. cbn.
  rewrite (proj2 (Z.ltb_ge _ _)) by lia. by destruct (process _ _).
Qed.

(** From there to the next wait. *)
Lemma pt_finish_request k acc resp e sent :
  pt_run (mk_pt_state acc (PSend resp) e sent) (replicate (3 + k) EvThread)
  = Ret (mk_pt_state (mk_accum_state (rx_buffer acc) 0 false) PBlocked e (sent ++ reply resp)).
Proof.
  unfold reply. cbn. destruct (0 <? zlen resp); rewrite ?app_nil_r; by apply pt_run_blocked.
Qed.

(** A request that arrives while the thread waits. *)
Definition serve (r : list Z * nat) : list pt_event :=
  EvFrame (fst r) :: replicate (5 + snd r) EvThread.

(** The first request has been processed and its response is about to be sent. *)
Lemma pt_until_send s p l :
  pt_ready s -> zlen p <= bufsize ->
  exists buf, zlen buf = bufsize /\
    pt_run s (EvFrame p :: EvThread :: EvThread :: l)
    = pt_run (mk_pt_state (mk_accum_state buf (zlen p) true) (PSend (snd (process (pt_env s) p)))
                (fst (process (pt_env s) p)) (pt_sent s)) l.
Proof.
  intros ([Hb Hm] & Hd & Hw) Hp. pose proof (zlen_nonneg p).
  destruct (pt_frame_appends s p) as (buf & Hf & Hbl & Hr); [done | lia..|].
  rewrite Hm, Z.add_0_l, ztake_0 in *. cbn [app] in Hr.
  exists buf. split; [done|].
  change (pt_run s (EvFrame p :: EvThread :: EvThread :: l))
    with (do! s' <- pt_frame s p; pt_run s' (EvThread :: EvThread :: l)).
  rewrite Hf, Hw. cbn [outcome_bind].
  etransitivity; [apply (pt_process_request l buf (zlen p) s); lia|]. by rewrite Hr.
Qed.

Lemma pt_send_step acc resp e sent :
  pt_thread (mk_pt_state acc (PSend resp) e sent) = Ret (mk_pt_state acc PReset e (sent ++ reply resp)).
Proof. unfold reply. cbn. by destruct (0 <? zlen resp); rewrite ?app_nil_r. Qed.

Lemma pt_serve s p k :
  pt_ready s -> zlen p <= bufsize ->
  exists s', pt_run s (serve (p, k)) = Ret s' /\ pt_ready s' /\
    pt_env s' = fst (process (pt_env s) p) /\
    pt_sent s' = pt_sent s ++ reply (snd (process (pt_env s) p)).
Proof.
  intros Hs Hp.
  destruct (pt_until_send s p (replicate (3 + k) EvThread) Hs Hp) as (buf & Hb & Hr).
  eexists. split; [etransitivity; [exact Hr | apply pt_finish_request]|]. by repeat split.
Qed.

(** A second request between processing and reset. *)
Lemma pt_drops s p1 p2 j k :
  pt_ready s -> zlen p1 + zlen p2 <= bufsize -> (j < 2)%nat ->
  exists s',
    pt_run s (EvFrame p1 :: replicate (2 + j) EvThread ++ EvFrame p2 :: replicate (3 - j + k) EvThread)
    = Ret s' /\
    pt_ready s' /\ pt_env s' = fst (process (pt_env s) p1) /\
    pt_sent s' = pt_sent s ++ reply (snd (process (pt_env s) p1)).
Proof.
  intros Hs H12 Hj. pose proof (zlen_nonneg p1). pose proof (zlen_nonneg p2).
  destruct (pt_until_send s p1
    (replicate j EvThread ++ EvFrame p2 :: replicate (3 - j + k) EvThread) Hs) as (buf & Hb & Hr); [lia|].
  cbn [Nat.add replicate app]. rewrite Hr. set (r := process (pt_env s) p1).
  assert (Hf : forall pc sent, exists buf', zlen buf' = bufsize /\
    pt_frame (mk_pt_state (mk_accum_state buf (zlen p1) true) pc (fst r) sent) p2
    = Ret (mk_pt_state (mk_accum_state buf' (zlen p1 + zlen p2) true) pc (fst r) sent)).
  { intros pc sent.
    destruct (pt_frame_appends (mk_pt_state (mk_accum_state buf (zlen p1) true) pc (fst r) sent) p2)
      as (buf' & ? & ? & _); cbn; [lia..|]. by exists buf'. }
  destruct j as [|[|]]; [| |lia]; cbn [Nat.sub replicate app pt_run pt_step].
  - destruct (Hf (PSend (snd r)) (pt_sent s)) as (buf' & Hl & ->). cbn [outcome_bind].
    eexists. split; [apply pt_finish_request|]. by repeat split.
  - destruct (Hf PReset (pt_sent s ++ reply (snd r))) as (buf' & Hl & Hf').
    exists (mk_pt_state (mk_accum_state buf' 0 false) PBlocked (fst r) (pt_sent s ++ reply (snd r))).
    split; [|by repeat split].
    rewrite pt_send_step. cbn [outcome_bind]. rewrite Hf'. cbn. by apply pt_run_blocked.
Qed.

(** A second request between reset and wait: blocked with it in the buffer. *)
Definition pt_stale (s : pt_state) (p : list Z) : Prop :=
  zlen (rx_buffer (pt_acc s)) = bufsize /\ message_length (pt_acc s) = zlen p /\
  ztake (zlen p) (rx_buffer (pt_acc s)) = p /\ data_complete (pt_acc s) = false /\ pt_where s = PBlocked.

Lemma pt_keeps s p1 p2 k :
  pt_ready s -> zlen p1 <= bufsize -> zlen p2 <= bufsize ->
  exists s', pt_run s (EvFrame p1 :: replicate 4 EvThread ++ EvFrame p2 :: replicate (1 + k) EvThread) = Ret s' /\
    pt_stale s' p2 /\ pt_env s' = fst (process (pt_env s) p1) /\
    pt_sent s' = pt_sent s ++ reply (snd (process (pt_env s) p1)).
Proof.
  intros Hs H1 H2. pose proof (zlen_nonneg p1). pose proof (zlen_nonneg p2).
  destruct (pt_until_send s p1 (EvThread :: EvThread :: EvFrame p2 :: replicate (1 + k) EvThread) Hs H1)
    as (buf & Hb & Hr).
  set (r := process (pt_env s) p1) in *.
  destruct (pt_frame_appends (mk_pt_state (mk_accum_state buf 0 true) PWait (fst r) (pt_sent s ++ reply (snd r))) p2)
    as (buf2 & Hf2 & Hb2 & Hr2); cbn [pt_acc message_length rx_buffer]; [lia..|].
  cbn [pt_acc message_length rx_buffer pt_where pt_env pt_sent] in *.
  rewrite Z.add_0_l, ztake_0 in *.
  exists (mk_pt_state (mk_accum_state buf2 (zlen p2) false) PBlocked (fst r) (pt_sent s ++ reply (snd r))).
  split; [|by repeat split]. etransitivity; [exact Hr|].
  cbn [pt_run pt_step]. rewrite pt_send_step. cbn -[pt_frame]. rewrite Hf2. cbn. by apply pt_run_blocked.
Qed.

Lemma pt_stale_serve s p2 p3 :
  pt_stale s p2 -> zlen p2 + zlen p3 <= bufsize ->
  exists s', pt_run s (serve (p3, 0%nat)) = Ret s' /\
    pt_env s' = fst (process (pt_env s) (p2 ++ p3)) /\
    pt_sent s' = pt_sent s ++ reply (snd (process (pt_env s) (p2 ++ p3))).
Proof.
  intros (Hb & Hm & Hr & Hd & Hw) H23. pose proof (zlen_nonneg p2). pose proof (zlen_nonneg p3).
  destruct (pt_frame_appends s p3) as (buf & Hf & Hbl & Hr3); [done | lia..|].
  rewrite Hm, Hr, Hw in *. eexists. split.
  { unfold serve. cbn [fst snd pt_run pt_step]. rewrite Hf. cbn [outcome_bind].
    etransitivity; [apply (pt_process_request (replicate 3 EvThread) buf (zlen p2 + zlen p3) s); lia|].
    apply (pt_finish_request 0). }
  cbn. by rewrite Hr3.
Qed.

(** The requests processed one after the other. *)
Fixpoint answers (e : E) (ps : list (list Z)) : E * list (list Z) :=
  match ps with
  | [] => (e, [])
  | p :: rest =>
      let '(e1, response) := process e p in
      let '(e2, out) := answers e1 rest in (e2, reply response ++ out)
  end.

(** Requests are answered: when each request arrives while the thread waits
    (as with a host that waits for each response), every request is processed
    exactly once and in order on exactly its own bytes, its response is passed to
    [serial_mux_send] unless encoding it failed, and the thread waits again with
    an empty buffer, however long it idles in between. *)
Theorem proxy_thread_answers (s : pt_state) (rs : list (list Z * nat)) :
  pt_ready s -> Forall (fun r => zlen (fst r) <= bufsize) rs ->
  exists s', pt_run s (concat (map serve rs)) = Ret s' /\ pt_ready s' /\
    pt_env s' = fst (answers (pt_env s) (map fst rs)) /\
    pt_sent s' = pt_sent s ++ snd (answers (pt_env s) (map fst rs)).
Proof.
  intros Hs Hall. revert s Hs. induction Hall as [|[p k] rs Hp _ IH]; intros s Hs.
  { exists s. cbn. by rewrite app_nil_r. }
  destruct (pt_serve s p k Hs Hp) as (s1 & Hr1 & Hs1 & He1 & Ht1).
  destruct (IH s1 Hs1) as (s2 & Hr2 & Hs2 & He2 & Ht2).
  exists s2. cbn [map concat]. rewrite pt_run_app, Hr1. cbn [outcome_bind fst answers].
  rewrite He2, Ht2, He1, Ht1. split; [done|]. split; [done|].
  destruct (process (pt_env s) p) as [e1 resp]. cbn [fst snd].
  destruct (answers e1 (map fst rs)). cbn. by rewrite app_assoc.
Qed.

(** C36. A request that arrives while the thread is busy is lost or corrupted,
    although the serial layer has accepted it: [k_event_wait] clears the event
    before it blocks and [message_length] is reset after the response.
    (1) Arriving between processing and reset, it is dropped: the thread waits
    with an empty buffer and never processes it.
    (2) Arriving between reset and wait, it stays in the buffer with its event
    cleared: the thread does not wake, and the next request is processed as the
    concatenation of both. *)
Theorem proxy_thread_loses_request (s : pt_state) (p1 p2 p3 : list Z) (j k : nat) :
  pt_ready s -> zlen p1 + zlen p2 <= bufsize -> zlen p2 + zlen p3 <= bufsize -> (j < 2)%nat ->
  let '(e1, response) := process (pt_env s) p1 in
  (exists s', pt_run s (EvFrame p1 :: replicate (2 + j) EvThread ++ EvFrame p2 :: replicate (3 - j + k) EvThread)
              = Ret s' /\
     pt_ready s' /\ pt_env s' = e1 /\ pt_sent s' = pt_sent s ++ reply response) /\
  (exists s' s'', pt_run s (EvFrame p1 :: replicate 4 EvThread ++ EvFrame p2 :: replicate (1 + k) EvThread)
              = Ret s' /\
     pt_env s' = e1 /\ pt_sent s' = pt_sent s ++ reply response /\ pt_where s' = PBlocked /\
     pt_run s' (serve (p3, 0%nat)) = Ret s'' /\
     pt_env s'' = fst (process e1 (p2 ++ p3)) /\
     pt_sent s'' = pt_sent s' ++ reply (snd (process e1 (p2 ++ p3)))).
Proof.
  intros Hs H12 H23 Hj. pose proof (zlen_nonneg p1). pose proof (zlen_nonneg p3). pose proof (zlen_nonneg p2).
  pose proof (pt_drops s p1 p2 j k Hs H12 Hj) as Hdrop.
  destruct (pt_keeps s p1 p2 k Hs) as (s1 & Hr1 & Hst & He1 & Ht1); [lia..|].
  destruct (pt_stale_serve s1 p2 p3 Hst H23) as (s2 & Hr2 & He2 & Ht2).
  destruct (process (pt_env s) p1) as [e1 resp]. cbn [fst snd] in *. split; [exact Hdrop|].
  rewrite He1 in *. exists s1, s2. repeat (split; [first [done | apply Hst]|]). done.
Qed.

End ProxyThread.

(** ** Witnesses *)

(** A processing function that echoes, and a 16-byte buffer. *)
Definition echo (e : nat) (p : list Z) : nat * list Z := (S e, p).

Definition demo_thread : pt_state :=
  mk_pt_state (mk_accum_state (replicate 16 0) 0 false) PBlocked 0%nat [].

Lemma demo_thread_ready : pt_ready 16 demo_thread.
Proof. repeat split. Qed.

Lemma proxy_thread_answers_witness :
  exists s', pt_run 16 echo demo_thread (concat (map serve [([1; 2], 3%nat); ([7], 0%nat)])) = Ret s' /\
    pt_ready 16 s' /\ pt_sent s' = [[1; 2]; [7]].
Proof.
  destruct (proxy_thread_answers 16 echo ltac:(lia) demo_thread [([1; 2], 3%nat); ([7], 0%nat)])
    as (s' & Hr & Hs & _ & Ht).
  - exact demo_thread_ready.
  - repeat constructor; vm_compute; discriminate.
  - exists s'. split; [exact Hr|]. split; [exact Hs|]. exact Ht.
Defined.

Lemma proxy_thread_loses_request_witness :
  exists s' s'', pt_run 16 echo demo_thread
      (EvFrame [1] :: replicate 4 EvThread ++ EvFrame [2] :: replicate 3 EvThread) = Ret s' /\
    pt_sent s' = [[1]] /\ pt_run 16 echo s' (serve ([3], 0%nat)) = Ret s'' /\ pt_sent s'' = [[1]; [2; 3]].
Proof.
  destruct (proxy_thread_loses_request 16 echo ltac:(lia) demo_thread [1] [2] [3] 0 2)
    as [_ (s' & s'' & Hr & _ & Ht & _ & Hr2 & _ & Ht2)].
  - exact demo_thread_ready.
  - vm_compute; discriminate.
  - vm_compute; discriminate.
  - lia.
  - exists s', s''. cbn [echo fst snd] in *. rewrite Ht in Ht2. done.
Defined.
