(* ===== verification/ProxyLink.v ===== *)
(** * ProxyLink: a request from the host's caller to a proxy's thread and back

    A management proxy behind the link: [bus_request] on the host, the serial
    layer of the device, the accumulation buffer it delivers to and the proxy's
    request thread ([ProxyThread]), whose responses go out through
    [serial_send_frame].  [link_request] is the whole exchange; what arrives at
    one end is what the other end sent. *)

From S2P Require Import Prelude Framing Platform Client SerialDev SerialRefine SerialProps.
From S2P Require Import Multiplexer Proxies Device HostBus HostProps Link ProxyThread.
From Stdlib Require Import ZArith Lia.
From stdpp Require Import base list option numbers decidable.

Open Scope Z_scope.
Open Scope e80211_scope.

Section ProxyLink.
Context {UH UD C EH HID USR E : Type}.
Context `{PH : PlatformLaws UH} `{!TxReady UH} `{PD : PlatformLaws UD} `{!TxReady UD} `{Mux C}.
Context (run_handler : HID -> option USR -> list Z -> EH -> EH).
Context (L : lens C accum_state) (bufsize : Z) (process : E -> list Z -> E * list Z) (type : Z).

#[local] Abbreviation bus := (bus_state UH EH HID USR).

(** ** The device with the proxy's thread *)

Record node : Type := mk_node {
  n_dev : dev UD C;       (* serial layer and clients *)
  n_pc : pt_pc;           (* where the thread is *)
  n_env : E               (* what it processes requests against *)
}.

(** The thread's view; what it passes to [serial_mux_send] in a step is new. *)
Definition node_view (n : node) : pt_state :=
  mk_pt_state (lget L (d_cli (n_dev n))) (n_pc n) (n_env n) [].

(** [serial_mux_send] on the interface of the type. *)
Fixpoint node_transmit (w : dev UD C) (ps : list (list Z)) : outcome (dev UD C) :=
  match ps with
  | [] => Ret w
  | p :: ps =>
      do! (w', _) <- dev_send_frame w type ERROR_TYPE_NO_ERROR false (Some p) (zlen p);
      node_transmit w' ps
  end.

(** One step of the thread on the device. *)
Definition node_thread (n : node) : outcome node :=
  do! s <- pt_thread bufsize process (node_view n);
  do! w <- node_transmit (with_cli (n_dev n) (lput L (d_cli (n_dev n)) (pt_acc s))) (pt_sent s);
  Ret (mk_node w (pt_where s) (pt_env s)).

Fixpoint node_turns (k : nat) (n : node) : outcome node :=
  match k with O => Ret n | S k => do! n' <- node_thread n; node_turns k n' end.

(** ** The exchange *)

(** The request's frame reaches the device, the work item and then the thread run,
    what the device sends reaches the waiting host, and what the host sends behind
    the request reaches the device.  A request that is refused before anything is
    sent leaves the device alone; [Fault] if the host had not sent the frame. *)
Definition link_request (iters fuel turns : nat) (resp_size : Z) (t : bus * node) (bs : list Z)
  : outcome ((bus * node) * Z * list Z) :=
  let '(b, n) := t in
  let frame := bus_header_encode (data_hdr type (b_tx_seq b) (zlen bs)) ++ bs in
  do! w1 <- dev_rx_event fuel (dev_arrive (n_dev n) frame);
  do! n2 <- node_turns turns (mk_node w1 (n_pc n) (n_env n));
  let response := device_sent w1 (n_dev n2) in
  do! (b', _, rc, resp) <- bus_request run_handler iters fuel b type (Some bs) (zlen bs) (Some resp_size)
    (EvRx (device_sent (n_dev n) w1) :: match response with [] => [] | _ => [EvRx response] end);
  let sent := host_sent b b' in
  match sent with
  | [] => Ret ((b', n), rc, default [] resp)
  | _ =>
      if bool_decide (ztake (zlen frame) sent = frame) then
        let rest := zdrop (zlen frame) sent in
        do! w3 <- match rest with
                  | [] => Ret (n_dev n2)
                  | _ => dev_rx_event fuel (dev_arrive (n_dev n2) rest)
                  end;
        Ret ((b', mk_node w3 (n_pc n2) (n_env n2)), rc, default [] resp)
      else Fault
  end.

Lemma match_nonempty {X Y} (l : list X) (x y : Y) : 0 < zlen l -> match l with [] => x | _ => y end = y.
Proof. by destruct l. Qed.

(** ** The thread serves a delivered request *)

Context (Hsize : 0 <= bufsize < 2 ^ 31).

Definition node_blocked (n : node) : Prop :=
  accum_ready bufsize (lget L (d_cli (n_dev n))) /\
  data_complete (lget L (d_cli (n_dev n))) = false /\ n_pc n = PBlocked.

Lemma with_cli_same (w : dev UD C) : with_cli w (lput L (d_cli w) (lget L (d_cli w))) = w.
Proof. rewrite lput_lget. by destruct w. Qed.

Lemma node_turns_step k n n1 : node_thread n = Ret n1 -> node_turns (S k) n = node_turns k n1.
Proof. intros E1. cbn. by rewrite E1. Qed.

(** A step that sends nothing. *)
Lemma node_thread_quiet n a pc e :
  pt_thread bufsize process (node_view n) = Ret (mk_pt_state a pc e []) ->
  node_thread n = Ret (mk_node (with_cli (n_dev n) (lput L (d_cli (n_dev n)) a)) pc e).
Proof. intros E1. unfold node_thread. by rewrite E1. Qed.

Lemma node_turns_blocked k n : node_blocked n -> node_turns k n = Ret n.
Proof.
  intros (_ & Hd & Hp). induction k as [|k IH]; [done|].
  rewrite (node_turns_step k n n); [done|].
  rewrite (node_thread_quiet n (lget L (d_cli (n_dev n))) (n_pc n) (n_env n)).
  - rewrite with_cli_same. by destruct n.
  - unfold pt_thread, node_view. cbn. by rewrite Hp, Hd.
Qed.

(** Processing: from the wake-up to the call of [serial_mux_send]. *)
Lemma node_turns_process k (w : dev UD C) a p e :
  lget L (d_cli w) = accum_deliver a p -> zlen p <= bufsize ->
  node_turns (2 + k) (mk_node w PBlocked e)
  = node_turns k (mk_node w (PSend (snd (process e p))) (fst (process e p))).
Proof.
  intros Ha Hp. change (2 + k)%nat with (S (S k)).
  rewrite (node_turns_step (S k) _ (mk_node w PProcess e)).
  2: { rewrite (node_thread_quiet _ (lget L (d_cli w)) PProcess e); [cbn [n_dev]; by rewrite with_cli_same|].
       unfold pt_thread, node_view. cbn. by rewrite Ha. }
  apply node_turns_step.
  rewrite (node_thread_quiet _ (lget L (d_cli w)) (PSend (snd (process e p))) (fst (process e p)));
    [cbn [n_dev]; by rewrite with_cli_same|].
  unfold pt_thread, node_view. cbn. rewrite Ha. cbn [message_length rx_buffer accum_deliver].
  rewrite (proj2 (Z.ltb_ge _ _)), ztake_app by (done || lia). by destruct (process e p).
Qed.

(** The response on the wire. *)
Definition response_bytes (seq : Z) (resp : list Z) : list Z :=
  if 0 <? zlen resp then dev_header_bytes type ERROR_TYPE_NO_ERROR false seq (zlen resp) ++ resp else [].

Definition seq_after (seq : Z) (resp : list Z) : Z := if 0 <? zlen resp then bus_seq_next seq else seq.

Context (Htype : 0 <= type < SERIAL_TYPE_UNKNOWN) (Hinfo : type <> SERIAL_TYPE_PROTOCOL_INFO).

Lemma node_transmit_reply (w : dev UD C) resp :
  0 <= tx_sequence_number (d_cfg w) < 16 -> zlen resp <= SERIAL_MAX_PAYLOAD_LEN ->
  exists u', node_transmit w (reply resp)
    = Ret (mk_dev (with_tx_seq (d_cfg w) (seq_after (tx_sequence_number (d_cfg w)) resp)) u' (d_cli w)) /\
    rx_fifo u' = rx_fifo (d_uart w) /\
    tx_wire u' = tx_wire (d_uart w) ++ response_bytes (tx_sequence_number (d_cfg w)) resp.
Proof.
  intros Hs Hl. unfold reply, response_bytes, seq_after. destruct (0 <? zlen resp).
  - destruct (dev_send_frame_ready w type ERROR_TYPE_NO_ERROR resp) as (u' & E1 & Hr & Ht);
      [unfold SERIAL_TYPE_UNKNOWN in *; lia | done..|].
    exists u'. cbn [node_transmit]. rewrite E1. done.
  - exists (d_uart w). cbn. rewrite app_nil_r. split; [|done]. destruct w as [[] u c]. done.
Qed.

(** From the delivery to the next wait. *)
Lemma node_serves k (w : dev UD C) a p e :
  lget L (d_cli w) = accum_deliver a p -> zlen (rx_buffer a) = bufsize -> zlen p <= bufsize ->
  0 <= tx_sequence_number (d_cfg w) < 16 -> zlen (snd (process e p)) <= SERIAL_MAX_PAYLOAD_LEN ->
  exists u' c', node_turns (5 + k) (mk_node w PBlocked e)
    = Ret (mk_node (mk_dev (with_tx_seq (d_cfg w)
                              (seq_after (tx_sequence_number (d_cfg w)) (snd (process e p)))) u' c')
             PBlocked (fst (process e p))) /\
    accum_ready bufsize (lget L c') /\ data_complete (lget L c') = false /\
    rx_fifo u' = rx_fifo (d_uart w) /\
    tx_wire u' = tx_wire (d_uart w) ++ response_bytes (tx_sequence_number (d_cfg w)) (snd (process e p)).
Proof.
  intros Ha Hb Hp Hs Hl. change (5 + k)%nat with (2 + (3 + k))%nat. rewrite (node_turns_process _ w a p e Ha Hp).
  destruct (process e p) as [e' resp]. cbn [fst snd] in *.
  destruct (node_transmit_reply w resp Hs Hl) as (u' & E1 & Hr & Ht).
  set (buf := rx_buffer (lget L (d_cli w))).
  assert (zlen buf = bufsize) as Hbuf.
  { unfold buf. rewrite Ha. cbn. rewrite zlen_app, zlen_zdrop. pose proof (zlen_nonneg p). lia. }
  exists u', (lput L (d_cli w) (mk_accum_state buf 0 false)).
  rewrite lget_lput. split; [|by repeat split].
  change (3 + k)%nat with (S (S (S k))).
  erewrite (node_turns_step (S (S k))); cycle 1.
  { unfold node_thread, node_view. cbn [n_dev n_pc n_env]. rewrite pt_send_step. cbn [outcome_bind pt_sent pt_acc app].
    rewrite with_cli_same, E1. reflexivity. }
  erewrite (node_turns_step (S k)); [|by apply node_thread_quiet].
  erewrite (node_turns_step k); [|by apply node_thread_quiet].
  cbn [n_dev d_cli with_cli node_view pt_acc]. unfold with_cli. cbn [d_cli d_cfg d_uart].
  rewrite lget_lput, lput_lput. cbn [rx_buffer message_length data_complete].
  apply node_turns_blocked. unfold node_blocked. cbn [n_dev d_cli n_pc]. rewrite lget_lput. by repeat split.
Qed.

(** ** The exchange is a call of the proxy *)

Context (Hclient : get_callbacks type = Some (lift_ops L (accum_client bufsize))).

(** Between requests: the link is idle and in step, nobody waits on the host, the
    thread waits with an empty buffer, and [e] is what it serves. *)
Record serving (t : bus * node) (e : E) : Prop := {
  sv_idle : link_idle (fst t) (n_dev (snd t));
  sv_sync : in_sync (fst t) (n_dev (snd t));
  sv_sem : b_rx_sem (fst t) = 0;
  sv_blocked : node_blocked (snd t);
  sv_env : n_env (snd t) = e
}.

Lemma data_hdr_small t s n :
  0 <= t < 16 -> 0 <= s < 16 -> 0 <= n < 65536 -> data_hdr t s n = mk_bus_header t false false 0 0 s n.
Proof. intros Ht Hs Hn. unfold data_hdr, bitfield, u16. by rewrite !Z.mod_small by lia. Qed.

(** The request arrives and is acknowledged. *)
Lemma request_reaches fuel (t : bus * node) e bs :
  serving t e -> 0 < zlen bs <= bufsize / 2 -> zlen bs <= SERIAL_MAX_PAYLOAD_LEN ->
  let w := n_dev (snd t) in
  let hdr := data_hdr type (b_tx_seq (fst t)) (zlen bs) in
  exists w1, dev_rx_event (5 + fuel) (dev_arrive w (bus_header_encode hdr ++ bs)) = Ret w1 /\
    lget L (d_cli w1) = accum_deliver (lget L (d_cli w)) bs /\ dev_idle w1 /\ rx_fifo (d_uart w1) = [] /\
    rx_sequence_number (d_cfg w1) = bus_seq_next (b_tx_seq (fst t)) /\
    tx_sequence_number (d_cfg w1) = tx_sequence_number (d_cfg w) /\
    device_sent w w1 = ack_bytes type (b_tx_seq (fst t)) ERROR_TYPE_NO_ERROR.
Proof.
  intros [[_ _ _ _ Hdi Hdr] Hsy _ (Hacc & _) _] Hl Hm w hdr. unfold in_sync in Hsy.
  pose proof Hdi as (_ & _ & _ & Hrs & Hts).
  unfold SERIAL_TYPE_UNKNOWN, SERIAL_MAX_PAYLOAD_LEN in *.
  assert (hdr = mk_bus_header type false false 0 0 (b_tx_seq (fst t)) (zlen bs)) as Hh
    by (apply data_hdr_small; lia).
  clearbody hdr. subst hdr. set (hdr := mk_bus_header _ _ _ _ _ _ _).
  assert (bus_header_wf hdr) as Hwf by (unfold bus_header_wf, hdr; cbn; lia).
  assert (data_frame hdr bs) as Hdf.
  { split; [done|]. split; [done|]. split; [unfold SERIAL_MAX_PAYLOAD_LEN; lia|]. by split. }
  pose (F := lift_FrameClient L (accum_client bufsize) (accum_FrameClient bufsize Hsize)).
  destruct (dev_rx_event_delivers (lift_ops L (accum_client bufsize)) (FrameClient0 := F) fuel
    (dev_arrive w (bus_header_encode hdr ++ bs)) hdr bs) as (w1 & E1 & Hcl & Hw & Hr1 & Hs1); try done.
  { by apply dev_arrive_rx. }
  { apply Hl. }
  exists w1. split; [exact E1|]. split; [rewrite Hcl; apply lget_lput|].
  pose proof (bus_seq_next_range (b_tx_seq (fst t))) as Hnx.
  assert (dev_idle w1) as Hi1.
  { eapply dev_waits_idle; [exact Hw | done | |done]. cbn. lia. }
  destruct Hw as (_ & _ & _ & _ & Hr & Ht).
  split; [done|]. split; [done|]. split; [exact Hr|]. split; [exact Ht|].
  apply dev_sent_arrive in Hs1. by rewrite (device_sent_app _ _ _ Hs1).
Qed.

(** The frames the waiting host hears. *)
Definition ack_header (seq : Z) : bus_header := mk_bus_header type false true ERROR_TYPE_NO_ERROR 0 seq 0.
Definition response_header (seq : Z) (resp : list Z) : bus_header :=
  mk_bus_header type false true ERROR_TYPE_NO_ERROR 0 seq (zlen resp).

Lemma ack_noise seq : 0 <= seq < 16 -> noise type (ack_header seq, []).
Proof.
  intros Hs. split; [|by left].
  unfold host_frame, bus_header_wf, ack_header, ERROR_TYPE_NO_ERROR, SERIAL_TYPE_UNKNOWN,
    SERIAL_MAX_PAYLOAD_LEN, zlen in *. cbn. lia.
Qed.

Lemma response_frame seq resp :
  0 <= seq < 16 -> zlen resp <= SERIAL_MAX_PAYLOAD_LEN -> host_frame (response_header seq resp) resp.
Proof.
  intros Hs Hl. pose proof (zlen_nonneg resp).
  unfold host_frame, bus_header_wf, response_header, ERROR_TYPE_NO_ERROR, SERIAL_TYPE_UNKNOWN,
    SERIAL_MAX_PAYLOAD_LEN in *. cbn. lia.
Qed.

Lemma ack_bytes_frame seq : ack_bytes type seq ERROR_TYPE_NO_ERROR = frame_bytes (ack_header seq, []).
Proof. unfold frame_bytes. cbn [fst snd]. by rewrite app_nil_r. Qed.

(** The host's side: the call returns the response, or times out without one. *)
Lemma host_call iters fuel resp_size (b : bus) bs s t resp :
  quiet b -> good_request b type bs -> 0 <= s < 16 -> 0 <= t < 16 ->
  zlen resp <= SERIAL_MAX_PAYLOAD_LEN -> zlen resp <= resp_size ->
  exists b', bus_request run_handler (2 + iters) (5 + fuel) b type (Some bs) (zlen bs) (Some resp_size)
      (EvRx (ack_bytes type s ERROR_TYPE_NO_ERROR)
       :: match response_bytes t resp with [] => [] | _ => [EvRx (response_bytes t resp)] end)
    = Ret (b', [], if 0 <? zlen resp then 0 else - ETIMEDOUT, if 0 <? zlen resp then Some resp else None) /\
    quiet b' /\ b_opened b' = true /\ b_request_pending b' = false /\
    b_tx_seq b' = bus_seq_next (b_tx_seq b) /\ b_env b' = b_env b /\
    tx_wire (b_uart b') = tx_wire (b_uart b)
      ++ (bus_header_encode (data_hdr type (b_tx_seq b) (zlen bs)) ++ bs)
      ++ (if 0 <? zlen resp then bus_header_encode (mk_bus_header type false false ERROR_TYPE_NO_ERROR 0 t 0) else []).
Proof.
  intros Hq Hg Hs Ht Hl Hc. unfold response_bytes. rewrite ack_bytes_frame.
  destruct (Z.ltb_spec 0 (zlen resp)) as [Hp|Hp].
  - pose proof (bus_request_run run_handler iters fuel b type resp_size bs [(ack_header s, [])]
      (response_header t resp) resp [] Hq Hg) as R.
    cbv zeta in R. rewrite (proj2 (Z.ltb_ge _ _)) in R by lia.
    destruct R as (b' & E1 & Hq' & Ho & Hrp & Hsq & He & Htx);
      [by constructor; [apply ack_noise|] | by apply response_frame | done | cbn; lia |].
    exists b'. split; [exact E1|]. split; [done|]. split; [done|]. split; [done|]. split; [done|].
    split; [exact He|]. rewrite Htx, <- app_assoc. do 3 f_equal. unfold host_reply. cbn -[bus_header_encode].
    by rewrite (proj2 (Z.eqb_neq _ _)) by lia.
  - destruct (bus_request_silence run_handler iters fuel b type (Some resp_size) bs (ack_header s) Hq Hg)
      as (b' & E1 & Hq' & Ho & Hrp & Hsq & He & Htx); [by apply ack_noise | done |].
    exists b'. split; [exact E1|]. split; [done|]. split; [done|]. split; [done|]. split; [done|].
    split; [done|]. rewrite Htx, app_nil_r. done.
Qed.

(** The host's acknowledgement of the response. *)
Lemma ack_arrives fuel (w : dev UD C) s :
  dev_idle w -> rx_fifo (d_uart w) = [] -> 0 <= s < 16 ->
  exists w', dev_rx_event (5 + fuel)
      (dev_arrive w (bus_header_encode (mk_bus_header type false false ERROR_TYPE_NO_ERROR 0 s 0))) = Ret w' /\
    d_cli w' = d_cli w /\ dev_idle w' /\ rx_fifo (d_uart w') = [] /\
    rx_sequence_number (d_cfg w') = rx_sequence_number (d_cfg w).
Proof.
  intros Hi Hr Hs. set (ack := mk_bus_header _ _ _ _ _ _ _).
  assert (bus_header_wf ack) as Hwf.
  { unfold bus_header_wf, ack, ERROR_TYPE_NO_ERROR, SERIAL_TYPE_UNKNOWN in *. cbn. lia. }
  destruct (dev_rx_event_header_only fuel (dev_arrive w (bus_header_encode ack)) ack)
    as (w' & E1 & Hcl & Hw & Hwr & _); [done | done | by apply dev_arrive_rx | by left |].
  exists w'. split; [exact E1|]. split; [done|]. pose proof Hi as (_ & _ & _ & Hrs & Hts).
  split; [by eapply dev_waits_idle; [exact Hw|..]|]. split; [done|].
  by destruct Hw as (_ & _ & _ & _ & -> & _).
Qed.

Lemma link_request_ok iters fuel turns resp_size (t : bus * node) e bs :
  serving t e -> 0 < zlen bs <= bufsize / 2 -> zlen bs <= SERIAL_MAX_PAYLOAD_LEN ->
  zlen (snd (process e bs)) <= SERIAL_MAX_PAYLOAD_LEN -> zlen (snd (process e bs)) <= resp_size ->
  exists t', link_request (2 + iters) (5 + fuel) (5 + turns) resp_size t bs
    = Ret (t', if 0 <? zlen (snd (process e bs)) then 0 else - ETIMEDOUT, snd (process e bs)) /\
    serving t' (fst (process e bs)) /\ b_env (fst t') = b_env (fst t).
Proof.
  intros Hsv Hl Hm Hrm Hrs. destruct t as [b n].
  destruct (request_reaches fuel (b, n) e bs Hsv Hl Hm) as (w1 & E1 & Hacc1 & Hi1 & Hrx1 & Hseq1 & Htx1 & Hack).
  destruct Hsv as [[Hhi Hhr Ho Hp Hdi Hdr] Hsy Hsem ((Hbuf & Hml) & Hdc & Hpc) Hen].
  cbn [fst snd] in *. unfold in_sync in Hsy. pose proof Hdi as (_ & _ & _ & Hrsr & Htsr).
  destruct (node_serves turns w1 (lget L (d_cli (n_dev n))) bs e Hacc1 Hbuf)
    as (u2 & c2 & E2 & Hready & Hdc2 & Hr2 & Ht2); [lia | by rewrite Htx1 | done |].
  set (w2 := mk_dev (with_tx_seq _ _) u2 c2) in E2.
  assert (device_sent w1 w2 = response_bytes (tx_sequence_number (d_cfg w1)) (snd (process e bs))) as Hresp.
  { apply device_sent_app. exact Ht2. }
  destruct (host_call iters fuel resp_size b bs (b_tx_seq b) (tx_sequence_number (d_cfg w1)) (snd (process e bs)))
    as (b' & E3 & (Hhi' & Hhr' & Hsem') & Ho' & Hp' & Hsq' & He' & Ht');
    [done | by (split; [|split]; [done..|lia]) | lia | by rewrite Htx1 | done..|].
  unfold link_request. rewrite E1. cbn [outcome_bind]. rewrite Hpc, Hen, E2. cbn [outcome_bind n_dev n_pc n_env].
  rewrite Hack, Hresp, E3. cbn [outcome_bind]. rewrite (host_sent_app _ _ _ Ht').
  assert (dev_idle w2) as Hi2.
  { destruct Hi1 as (? & ? & ? & ? & ?). split; [done|]. split; [done|]. split; [done|]. split; [done|].
    cbn. unfold seq_after. pose proof (bus_seq_next_range (tx_sequence_number (d_cfg w1))).
    destruct (0 <? _); lia. }
  cbv zeta. rewrite match_nonempty by done.
  rewrite ztake_app, zdrop_app by done. rewrite bool_decide_eq_true_2 by done.
  assert (forall w3, d_cli w3 = c2 -> dev_idle w3 -> rx_fifo (d_uart w3) = [] ->
    rx_sequence_number (d_cfg w3) = bus_seq_next (b_tx_seq b) ->
    serving (b', mk_node w3 PBlocked (fst (process e bs))) (fst (process e bs))) as Hsv.
  { intros w3 Hc3 Hi3 Hr3 Hs3. split; cbn [fst snd n_dev n_env]; [done | | done | | done].
    - unfold in_sync. congruence.
    - unfold node_blocked. cbn [n_dev n_pc]. rewrite Hc3. by split. }
  assert (default [] (if 0 <? zlen (snd (process e bs)) then Some (snd (process e bs)) else None)
          = snd (process e bs)) as Hdef.
  { destruct (Z.ltb_spec 0 (zlen (snd (process e bs)))); [done|]. symmetry. apply zlen_zero.
    pose proof (zlen_nonneg (snd (process e bs))). lia. }
  destruct (0 <? zlen (snd (process e bs))).
  - destruct (ack_arrives fuel w2 (tx_sequence_number (d_cfg w1))) as (w3 & E4 & Hc3 & Hi3 & Hr3 & Hs3);
      [done | cbn; congruence | by rewrite Htx1 |].
    eexists. split; [|split; [apply (Hsv w3); [done..|by rewrite Hs3] | exact He']].
    rewrite match_nonempty, E4 by done. cbn [outcome_bind]. by rewrite Hdef.
  - eexists. split; [|split; [apply (Hsv w2); [done | done | cbn; congruence | by rewrite <- Hseq1] | exact He']].
    cbn [outcome_bind]. by rewrite Hdef.
Qed.

End ProxyLink.
