(* ===== verification/NetIfMgmt.v ===== *)
(** * NetIfMgmt: network interface requests, [device/net_if_mgmt_proxy.c]

    [process_net_if_request] and its enumeration callback.  Zephyr's [net_if] API
    and the nanopb code generated from [network_interface.proto] are classes: the
    network state [N] is threaded through the calls that change it, decoding
    turns bytes into the request record and encoding a response record into
    bytes within a capacity.  The array of the response is a list of the size the
    options file fixes, written slot by slot as the callback does. *)

From S2P Require Import Prelude Client Proxies ProxyThread.
From Stdlib Require Import ZArith Lia.
From stdpp Require Import base list option numbers decidable.

Open Scope Z_scope.
Open Scope e80211_scope.

(** Conversion of a [uint32_t] argument to [int]. *)
Definition to_int (x : Z) : Z := (x + 2 ^ 31) mod 2 ^ 32 - 2 ^ 31.

(** ** Zephyr's interface API *)

Class NetIfApi (N : Type) := {
  net_if : Type;                                          (* a [struct net_if *], not NULL *)
  net_if_all : N -> list net_if;                          (* in the order of net_if_foreach *)
  net_if_get_by_index : N -> Z -> option net_if;
  net_if_get_by_iface : N -> net_if -> Z;
  net_if_get_mtu : N -> net_if -> Z;
  net_if_is_admin_up : N -> net_if -> bool;
  net_if_is_carrier_ok : N -> net_if -> bool;
  net_if_is_dormant : N -> net_if -> bool;
  net_if_oper_state : N -> net_if -> Z;
  net_if_is_wifi : N -> net_if -> bool;
  net_if_get_link_addr : N -> net_if -> option (list Z);
  net_if_get_name : N -> net_if -> Z -> option (list Z);  (* the bytes it copies to a buffer of a size *)
  net_if_flag_is_set : N -> net_if -> Z -> bool;
  net_if_up : N -> net_if -> N * Z;
  net_if_down : N -> net_if -> N * Z;
  net_if_carrier_on : N -> net_if -> N;
  net_if_carrier_off : N -> net_if -> N;
  net_if_dormant_on : N -> net_if -> N;
  net_if_dormant_off : N -> net_if -> N;
  net_if_flag_set : N -> net_if -> Z -> N;
  net_if_flag_clear : N -> net_if -> Z -> N
}.

(** ** Messages of [network_interface.proto] that the proxy uses *)

Definition NET_IF_TYPE_UNKNOWN : Z := 0.
Definition NET_IF_TYPE_WIFI : Z := 1.

Record NetworkInterface : Type := mk_NetworkInterface {
  ni_index : Z;
  ni_net_if_type : Z;
  ni_mac_address : list Z;     (* 6 bytes *)
  ni_offload_supported : bool;
  ni_mtu : Z;
  ni_name : list Z;            (* 16 bytes *)
  ni_oper_state : Z;
  ni_admin_up : bool;
  ni_carrier_ok : bool;
  ni_dormant : bool;
  ni_promisc : bool
}.

Definition NetworkInterface_zero : NetworkInterface :=
  mk_NetworkInterface 0 0 (replicate 6 0) false 0 (replicate 16 0) 0 false false false false.

Inductive NetIfRequest_payload : Type :=
| get_interfaces (net_if_type index : Z)
| set_admin_state (index : Z) (admin_up : bool)
| set_carrier_state (index : Z) (carrier_on : bool)
| set_dormant_state (index : Z) (dormant : bool)
| set_flag (index flag : Z) (set : bool)
| get_flag (index flag : Z)
| get_oper_state (index : Z)
| get_name (index : Z)
| get_mtu (index : Z)
| other_request (which_payload : Z).

Record NetIfRequest : Type := mk_NetIfRequest {
  nreq_request_id : Z;
  nreq_payload : NetIfRequest_payload
}.

Inductive NetIfResponse_payload : Type :=
| no_payload
| resp_interfaces (net_ifs : list NetworkInterface) (net_ifs_count : Z)
| resp_flag (flag : Z) (is_set : bool)
| resp_oper_state (oper_state : Z)
| resp_name (name : list Z)
| resp_mtu (mtu : Z).

Record NetIfResponse : Type := mk_NetIfResponse {
  nresp_request_id : Z;
  nresp_status : Z;
  nresp_payload : NetIfResponse_payload
}.

(** The generated code: [pb_encode] fails when the message does not fit. *)
Class NetIfCodec := {
  NetIfRequest_decode : list Z -> option NetIfRequest;
  NetIfResponse_encode : Z -> NetIfResponse -> option (list Z)
}.

(** [memcpy] to the start of an array that is large enough. *)
Definition copy_to (arr bs : list Z) : list Z := bs ++ zdrop (zlen bs) arr.

Section NetIfMgmt.
Context {N : Type} `{NetIfApi N}.

(** [ARRAY_SIZE(resp->net_ifs)]. *)
Definition net_ifs_size : Z := 4.

(** The part of [struct iface_enum_ctx] that changes: [resp]. *)
Record enum_resp : Type := mk_enum_resp {
  net_ifs : list NetworkInterface;
  net_ifs_count : Z
}.

Definition enum_zero : enum_resp := mk_enum_resp (replicate 4 NetworkInterface_zero) 0.

(** The fields stored before the type filter is applied. *)
Definition ni_state (n : N) (iface : net_if) (ni : NetworkInterface) : NetworkInterface :=
  mk_NetworkInterface (u32 (net_if_get_by_iface n iface))
    (if net_if_is_wifi n iface then NET_IF_TYPE_WIFI else NET_IF_TYPE_UNKNOWN)
    (ni_mac_address ni) (ni_offload_supported ni) (net_if_get_mtu n iface) (ni_name ni)
    (net_if_oper_state n iface) (net_if_is_admin_up n iface) (net_if_is_carrier_ok n iface)
    (net_if_is_dormant n iface) (ni_promisc ni).

(** The address and the name, stored after it. *)
Definition ni_identity (n : N) (iface : net_if) (ni : NetworkInterface) : NetworkInterface :=
  let mac :=
    match net_if_get_link_addr n iface with
    | Some addr => if zlen addr <=? 6 then copy_to (ni_mac_address ni) addr else ni_mac_address ni
    | None => ni_mac_address ni
    end in
  let nm :=
    match net_if_get_name n iface 16 with
    | Some bs => copy_to (ni_name ni) bs
    | None => ni_name ni
    end in
  mk_NetworkInterface (ni_index ni) (ni_net_if_type ni) mac (ni_offload_supported ni) (ni_mtu ni) nm
    (ni_oper_state ni) (ni_admin_up ni) (ni_carrier_ok ni) (ni_dormant ni) (ni_promisc ni).

Definition iface_enum_cb (n : N) (filter_type filter_index : Z) (r : enum_resp) (iface : net_if)
  : enum_resp :=
  if net_ifs_size <=? net_ifs_count r then r
  else
    let idx := net_if_get_by_iface n iface in
    if negb (filter_index =? 0) && negb (u32 idx =? filter_index) then r
    else
      let i := Z.to_nat (net_ifs_count r) in
      let ni := ni_state n iface (default NetworkInterface_zero (net_ifs r !! i)) in
      let r1 := mk_enum_resp (<[i := ni]> (net_ifs r)) (net_ifs_count r) in
      if negb (filter_type =? NET_IF_TYPE_UNKNOWN) && negb (ni_net_if_type ni =? filter_type) then r1
      else
        mk_enum_resp (<[i := ni_identity n iface ni]> (net_ifs r1)) (net_ifs_count r + 1).

(** A request that names an interface: -ENODEV unless it exists. *)
Definition with_iface (n : N) (id index : Z) (k : net_if -> N * NetIfResponse) : N * NetIfResponse :=
  match net_if_get_by_index n (to_int index) with
  | None => (n, mk_NetIfResponse id (- ENODEV) no_payload)
  | Some iface => k iface
  end.

(** The [switch] of [process_net_if_request]. *)
Definition net_if_handle (n : N) (req : NetIfRequest) : N * NetIfResponse :=
  let id := nreq_request_id req in
  let done n' := (n', mk_NetIfResponse id 0 no_payload) in
  let answer payload := (n, mk_NetIfResponse id 0 payload) in
  match nreq_payload req with
  | get_interfaces ty index =>
      let r := fold_left (iface_enum_cb n ty index) (net_if_all n) enum_zero in
      answer (resp_interfaces (net_ifs r) (net_ifs_count r))
  | set_admin_state index admin_up =>
      with_iface n id index (fun iface =>
        let '(n', ret) := if admin_up then net_if_up n iface else net_if_down n iface in
        (n', mk_NetIfResponse id ret no_payload))
  | set_carrier_state index carrier_on =>
      with_iface n id index (fun iface =>
        done (if carrier_on then net_if_carrier_on n iface else net_if_carrier_off n iface))
  | set_dormant_state index dormant =>
      with_iface n id index (fun iface =>
        done (if dormant then net_if_dormant_on n iface else net_if_dormant_off n iface))
  | set_flag index fl set =>
      with_iface n id index (fun iface =>
        done (if set then net_if_flag_set n iface fl else net_if_flag_clear n iface fl))
  | get_flag index fl =>
      with_iface n id index (fun iface => answer (resp_flag fl (net_if_flag_is_set n iface fl)))
  | get_oper_state index =>
      with_iface n id index (fun iface => answer (resp_oper_state (net_if_oper_state n iface)))
  | get_name index =>
      with_iface n id index (fun iface =>
        answer (resp_name (match net_if_get_name n iface 16 with
                      | Some bs => copy_to (replicate 16 0) bs
                      | None => replicate 16 0
                      end)))
  | get_mtu index =>
      with_iface n id index (fun iface => answer (resp_mtu (net_if_get_mtu n iface)))
  | other_request _ => (n, mk_NetIfResponse id (- ENOTSUP) no_payload)
  end.

Section Codec.
Context `{NetIfCodec}.

(** The bytes in the response buffer; [] when the response length is set to 0. *)
Definition process_net_if_request (n : N) (buf : list Z) (resp_len : Z) : N * list Z :=
  let '(n', resp) :=
    match NetIfRequest_decode buf with
    | None => (n, mk_NetIfResponse 0 (- EBADMSG) no_payload)
    | Some req => net_if_handle n req
    end in
  (n', default [] (NetIfResponse_encode resp_len resp)).

(** [net_if_mgmt_thread_entry]: the request loop with its 512-byte buffers. *)
Definition net_if_mgmt_thread_entry : pt_state (E := N) -> outcome pt_state :=
  pt_thread 512 (fun n buf => process_net_if_request n buf 512).

End Codec.

(** ** What enumeration returns *)

Definition iface_matches (n : N) (ty index : Z) (iface : net_if) : bool :=
  ((index =? 0) || (u32 (net_if_get_by_iface n iface) =? index))
  && ((ty =? NET_IF_TYPE_UNKNOWN)
      || ((if net_if_is_wifi n iface then NET_IF_TYPE_WIFI else NET_IF_TYPE_UNKNOWN) =? ty)).

Definition describe (n : N) (iface : net_if) : NetworkInterface :=
  ni_identity n iface (ni_state n iface NetworkInterface_zero).

Definition matching (n : N) (ty index : Z) (ifaces : list net_if) : list NetworkInterface :=
  map (describe n) (List.filter (iface_matches n ty index) ifaces).

(** A slot that no accepted interface has used. *)
Definition slot_clean (ni : NetworkInterface) : Prop :=
  ni_mac_address ni = replicate 6 0 /\ ni_name ni = replicate 16 0 /\
  ni_offload_supported ni = false /\ ni_promisc ni = false.

Record enum_inv (n : N) (ty index : Z) (seen : list net_if) (r : enum_resp) : Prop := {
  ei_size : length (net_ifs r) = 4%nat;
  ei_count : net_ifs_count r = Z.min 4 (zlen (matching n ty index seen));
  ei_done : ztake (net_ifs_count r) (net_ifs r) = ztake 4 (matching n ty index seen);
  ei_clean : forall i ni, (Z.to_nat (net_ifs_count r) <= i)%nat -> net_ifs r !! i = Some ni -> slot_clean ni
}.

(** A clean slot is described like a zeroed one. *)
Lemma describe_clean n iface ni :
  slot_clean ni -> ni_identity n iface (ni_state n iface ni) = describe n iface.
Proof. intros (Hm & Hn & Ho & Hp). unfold describe, ni_identity, ni_state. cbn. by rewrite Hm, Hn, Ho, Hp. Qed.

Lemma slot_clean_state n iface ni : slot_clean ni -> slot_clean (ni_state n iface ni).
Proof. done. Qed.

Lemma matching_snoc n ty index seen iface :
  matching n ty index (seen ++ [iface])
  = matching n ty index seen ++ (if iface_matches n ty index iface then [describe n iface] else []).
Proof.
  unfold matching. rewrite List.filter_app, map_app. cbn.
  by destruct (iface_matches n ty index iface).
Qed.

Lemma enum_inv_zero n ty index : enum_inv n ty index [] enum_zero.
Proof.
  split; [done..|]. intros i ni _ Hi. apply list_elem_of_lookup_2 in Hi.
  apply elem_of_replicate_inv in Hi. by subst.
Qed.

(** A slot behind the entries may be overwritten. *)
Lemma ztake_insert_ge {A} (l : list A) (c : Z) (x : A) :
  ztake c (<[Z.to_nat c := x]> l) = ztake c l.
Proof. unfold ztake. by rewrite take_insert_ge. Qed.

Lemma enum_inv_reject n ty index seen iface r l :
  enum_inv n ty index seen r -> iface_matches n ty index iface = false ->
  length l = 4%nat -> ztake (net_ifs_count r) l = ztake (net_ifs_count r) (net_ifs r) ->
  (forall i ni, (Z.to_nat (net_ifs_count r) <= i)%nat -> l !! i = Some ni -> slot_clean ni) ->
  enum_inv n ty index (seen ++ [iface]) (mk_enum_resp l (net_ifs_count r)).
Proof.
  intros [Hs Hc Hd Hcl] Hm Hl Ht Hcl'.
  split; cbn; rewrite ?matching_snoc, ?Hm, ?app_nil_r, ?Ht; done.
Qed.

Lemma enum_inv_step n ty index seen iface r :
  enum_inv n ty index seen r ->
  enum_inv n ty index (seen ++ [iface]) (iface_enum_cb n ty index r iface).
Proof.
  intros Hi. pose proof Hi as [Hs Hc Hd Hcl]. unfold iface_enum_cb, net_ifs_size.
  pose proof (zlen_nonneg (matching n ty index seen)) as Hnn.
  destruct (Z.leb_spec 4 (net_ifs_count r)) as [H4|H4].
  { split; [done|..]; rewrite ?matching_snoc, ?zlen_app; [|unfold ztake in *|done].
    - pose proof (zlen_nonneg (if iface_matches n ty index iface then [describe n iface] else [])). lia.
    - rewrite take_app_le; [done|]. unfold zlen in *. lia. }
  set (c := net_ifs_count r) in *.
  destruct (lookup_lt_is_Some_2 (net_ifs r) (Z.to_nat c)) as [ni Hni]; [lia|]. rewrite Hni. cbn [default].
  pose proof (Hcl _ _ (Nat.le_refl _) Hni) as Hclean.
  destruct (negb (index =? 0) && negb (u32 (net_if_get_by_iface n iface) =? index)) eqn:Ei.
  { destruct r as [l c']. apply (enum_inv_reject n ty index seen iface (mk_enum_resp l c') l); try done.
    unfold iface_matches. apply andb_true_iff in Ei as [-> %negb_true_iff -> %negb_true_iff]. done. }
  cbn [ni_net_if_type ni_state net_ifs net_ifs_count].
  destruct (negb (ty =? NET_IF_TYPE_UNKNOWN) && _) eqn:Et.
  { apply (enum_inv_reject n ty index seen iface r); try done.
    - unfold iface_matches. apply andb_true_iff in Et as [-> %negb_true_iff -> %negb_true_iff].
      by rewrite andb_false_r.
    - by rewrite length_insert.
    - apply ztake_insert_ge.
    - intros i x Hle. rewrite list_lookup_insert. intros Hx.
      case_decide; simplify_eq; [by apply slot_clean_state | by eapply Hcl]. }
  assert (Hm : iface_matches n ty index iface = true).
  { unfold iface_matches.
    by rewrite <- (negb_involutive (_ || _)), negb_orb, Ei, <- (negb_involutive (_ || _)), negb_orb, Et. }
  rewrite list_insert_insert_eq, describe_clean by done.
  split; cbn [net_ifs net_ifs_count]; rewrite ?matching_snoc, ?Hm, ?zlen_app.
  - by rewrite length_insert.
  - rewrite zlen_cons, zlen_nil. lia.
  - assert (E : ztake 4 (matching n ty index seen ++ [describe n iface])
      = matching n ty index seen ++ [describe n iface]).
    { apply ztake_ge. rewrite zlen_app, zlen_cons, zlen_nil. lia. }
    rewrite E. rewrite (ztake_ge 4) in Hd by lia. rewrite <- Hd. unfold ztake.
    rewrite Z2Nat.inj_add, Nat.add_1_r by lia.
    rewrite (take_S_r _ _ (describe n iface)) by (apply list_lookup_insert_eq; lia).
    by rewrite take_insert_ge.
  - intros i x Hle Hx. rewrite list_lookup_insert_ne in Hx by lia. eapply Hcl; [|done]. lia.
Qed.

Lemma enum_inv_all n ty index ifaces seen r :
  enum_inv n ty index seen r ->
  enum_inv n ty index (seen ++ ifaces) (fold_left (iface_enum_cb n ty index) ifaces r).
Proof.
  revert seen r. induction ifaces as [|x l IH]; intros seen r Hr; cbn; [by rewrite app_nil_r|].
  rewrite cons_middle, app_assoc. apply IH. by apply enum_inv_step.
Qed.

(** ** What a request does *)

(** The interface a request names, and whether it asks for a change. *)
Definition request_index (req : NetIfRequest) : option (Z * bool) :=
  match nreq_payload req with
  | get_interfaces _ _ | other_request _ => None
  | set_admin_state index _ | set_carrier_state index _ | set_dormant_state index _
  | set_flag index _ _ => Some (index, true)
  | get_flag index _ | get_oper_state index | get_name index | get_mtu index => Some (index, false)
  end.

(** The request identifier is copied on every branch. *)
Lemma net_if_handle_id n req : nresp_request_id (snd (net_if_handle n req)) = nreq_request_id req.
Proof.
  destruct req as [id []]; unfold net_if_handle, with_iface; cbn;
    repeat case_match; simplify_eq/=; done.
Qed.

Lemma net_if_handle_unknown n req index change :
  request_index req = Some (index, change) -> net_if_get_by_index n (to_int index) = None ->
  net_if_handle n req = (n, mk_NetIfResponse (nreq_request_id req) (- ENODEV) no_payload).
Proof.
  destruct req as [id []]; cbn; intros [= <- <-] E; unfold net_if_handle, with_iface; cbn; by rewrite E.
Qed.

(** What a request about an existing interface does: the network, the status and
    the answer. *)
Definition iface_effect (n : N) (iface : net_if) (p : NetIfRequest_payload)
  : N * Z * NetIfResponse_payload :=
  match p with
  | set_admin_state _ up => (if up then net_if_up n iface else net_if_down n iface, no_payload)
  | set_carrier_state _ on => (if on then net_if_carrier_on n iface else net_if_carrier_off n iface, 0, no_payload)
  | set_dormant_state _ on => (if on then net_if_dormant_on n iface else net_if_dormant_off n iface, 0, no_payload)
  | set_flag _ fl on => (if on then net_if_flag_set n iface fl else net_if_flag_clear n iface fl, 0, no_payload)
  | get_flag _ fl => (n, 0, resp_flag fl (net_if_flag_is_set n iface fl))
  | get_oper_state _ => (n, 0, resp_oper_state (net_if_oper_state n iface))
  | get_name _ => (n, 0, resp_name (copy_to (replicate 16 0) (default [] (net_if_get_name n iface 16))))
  | get_mtu _ => (n, 0, resp_mtu (net_if_get_mtu n iface))
  | _ => (n, - ENOTSUP, no_payload)
  end.

Lemma net_if_handle_iface n req index change iface :
  request_index req = Some (index, change) -> net_if_get_by_index n (to_int index) = Some iface ->
  net_if_handle n req
  = (let '(n', st, p) := iface_effect n iface (nreq_payload req) in
     (n', mk_NetIfResponse (nreq_request_id req) st p)).
Proof.
  destruct req as [id [|i up|i on|i on|i fl on|i fl|i|i|i|]]; cbn; intros [= <- <-] E;
    unfold net_if_handle, with_iface; cbn; rewrite E; try done; try (by destruct on).
  by destruct (net_if_get_name _ _ _).
Qed.

(** Enumeration. *)
Lemma net_if_handle_enum n id ty index :
  exists arr, net_if_handle n (mk_NetIfRequest id (get_interfaces ty index))
    = (n, mk_NetIfResponse id 0
            (resp_interfaces arr (Z.min 4 (zlen (matching n ty index (net_if_all n)))))) /\
    length arr = 4%nat /\
    ztake (Z.min 4 (zlen (matching n ty index (net_if_all n)))) arr
    = ztake 4 (matching n ty index (net_if_all n)).
Proof.
  destruct (enum_inv_all n ty index (net_if_all n) [] enum_zero (enum_inv_zero n ty index))
    as [Hs Hc Hd _]. cbn [app] in *.
  exists (net_ifs (fold_left (iface_enum_cb n ty index) (net_if_all n) enum_zero)).
  rewrite <- Hc. done.
Qed.

(** The answer to a request.  A request that does not decode gets -EBADMSG, one
    that names no existing interface -ENODEV and one of another kind -ENOTSUP, and
    none of these changes the network.  Enumeration returns exactly the interfaces
    that match both filters, in the stack's order and each fully described, up to
    the four that fit the array. *)
Definition net_if_answer `{NetIfCodec} (n : N) (buf : list Z) (n' : N) (resp : NetIfResponse) : Prop :=
  match NetIfRequest_decode buf with
  | None => n' = n /\ resp = mk_NetIfResponse 0 (- EBADMSG) no_payload
  | Some req =>
      nresp_request_id resp = nreq_request_id req /\
      match request_index req with
      | Some (index, _) =>
          match net_if_get_by_index n (to_int index) with
          | None => n' = n /\ nresp_status resp = - ENODEV /\ nresp_payload resp = no_payload
          | Some iface => (n', nresp_status resp, nresp_payload resp) = iface_effect n iface (nreq_payload req)
          end
      | None =>
          n' = n /\
          match nreq_payload req with
          | get_interfaces ty index =>
              exists arr, nresp_status resp = 0 /\
                nresp_payload resp = resp_interfaces arr (Z.min 4 (zlen (matching n ty index (net_if_all n)))) /\
                length arr = 4%nat /\
                ztake (Z.min 4 (zlen (matching n ty index (net_if_all n)))) arr
                = ztake 4 (matching n ty index (net_if_all n))
          | _ => nresp_status resp = - ENOTSUP
          end
      end
  end.

(** Every request is answered, with its own identifier. *)
Theorem net_if_request_response `{NetIfCodec} (n : N) (buf : list Z) (cap : Z) :
  exists n' resp,
    process_net_if_request n buf cap = (n', default [] (NetIfResponse_encode cap resp)) /\
    net_if_answer n buf n' resp.
Proof.
  unfold process_net_if_request, net_if_answer. destruct (NetIfRequest_decode buf) as [req|]; [|by do 2 eexists].
  destruct (net_if_handle n req) as [n' resp] eqn:E. exists n', resp. split; [done|].
  split; [by rewrite <- (net_if_handle_id n req), E|].
  destruct (request_index req) as [[index change]|] eqn:Er.
  - destruct (net_if_get_by_index n (to_int index)) as [iface|] eqn:Ei.
    + rewrite (net_if_handle_iface n req index change iface Er Ei) in E.
      destruct (iface_effect _ _ _) as [[n1 st] p]. by injection E as <- <-.
    + rewrite (net_if_handle_unknown n req index change Er Ei) in E. by injection E as <- <-.
  - destruct req as [id []]; try discriminate Er; cbn [nreq_payload nreq_request_id].
    + destruct (net_if_handle_enum n id net_if_type index) as (arr & Ha & Hl & Ht).
      rewrite E in Ha. injection Ha as -> ->. split; [done|]. by exists arr.
    + cbn in E. by injection E as <- <-.
Qed.

End NetIfMgmt.

(** ** Witness *)

(** Interfaces as a list of (is Wi-Fi, MTU), indexed from 1. *)
#[export] Instance DemoNet : NetIfApi (list (bool * Z)) := {
  net_if := nat;
  net_if_all n := seq 0 (length n);
  net_if_get_by_index n i :=
    if (0 <? i) && (i <=? zlen n) then Some (Z.to_nat (i - 1)) else None;
  net_if_get_by_iface n i := Z.of_nat i + 1;
  net_if_get_mtu n i := snd (default (false, 0) (n !! i));
  net_if_is_admin_up n i := true;
  net_if_is_carrier_ok n i := true;
  net_if_is_dormant n i := false;
  net_if_oper_state n i := 6;
  net_if_is_wifi n i := fst (default (false, 0) (n !! i));
  net_if_get_link_addr n i := Some [2; 0; 0; 0; 0; Z.of_nat i];
  net_if_get_name n i len := None;
  net_if_flag_is_set n i f := false;
  net_if_up n i := (n, 0);
  net_if_down n i := (n, 0);
  net_if_carrier_on n i := n;
  net_if_carrier_off n i := n;
  net_if_dormant_on n i := n;
  net_if_dormant_off n i := n;
  net_if_flag_set n i f := n;
  net_if_flag_clear n i f := n
}.

(** One byte of a type filter, or an interface and its carrier; the response's
    identifier and indices or status, fields that are 0 left out the way proto3
    leaves them out. *)
#[export] Instance DemoCodec : NetIfCodec := {
  NetIfRequest_decode bs :=
    match bs with
    | [id; ty] => Some (mk_NetIfRequest id (get_interfaces ty 0))
    | [id; index; on] => Some (mk_NetIfRequest id (set_carrier_state index (negb (on =? 0))))
    | _ => None
    end;
  NetIfResponse_encode cap r :=
    let field x := if x =? 0 then [] else [x] in
    let bs := field (nresp_request_id r) ++ field (nresp_status r) ++
              match nresp_payload r with
              | resp_interfaces arr c => map ni_index (ztake c arr)
              | _ => []
              end in
    if zlen bs <=? cap then Some bs else None
}.

(** Six interfaces, five of them Wi-Fi: the first four of these are returned. *)
Definition demo_net : list (bool * Z) :=
  [(true, 1500); (false, 1280); (true, 1500); (true, 1500); (true, 1500); (true, 1500)].

Example net_if_enumerates : process_net_if_request demo_net [9; 1] 512 = (demo_net, [9; 1; 3; 4; 5]).
Proof. reflexivity. Qed.
