(* ===== verification/NetIfLink.v ===== *)
(** * NetIfLink: network interface requests over the link

    [bus_request] on the host, the serial layer of the device, the buffer and the
    thread of [device/net_if_mgmt_proxy.c] and its request processing
    ([ProxyLink] with [NetIfMgmt]). *)

From S2P Require Import Prelude Framing Platform Client SerialDev SerialRefine SerialProps.
From S2P Require Import Multiplexer BtProxy Proxies Device DeviceRuns HostBus HostProps Link LinkRuns.
From S2P Require Import ProxyThread ProxyLink NetIfMgmt.
From Stdlib Require Import ZArith Lia.
From stdpp Require Import base list option numbers decidable.

Open Scope Z_scope.
Open Scope e80211_scope.

Section NetIfLink.
Context {UH UD C EH HID USR N : Type}.
Context `{PH : PlatformLaws UH} `{!TxReady UH} `{PD : PlatformLaws UD} `{!TxReady UD} `{MX : Mux C}.
Context `{NI : NetIfApi N} `{NC : NetIfCodec}.
Context (run_handler : HID -> option USR -> list Z -> EH -> EH) (L : lens C accum_state) (resp_size : Z).

(** The thread's processing, with the 512 bytes of [net_if_mgmt_tx_buffer]. *)
Definition net_if_process (n : N) (request : list Z) : N * list Z := process_net_if_request n request 512.

#[local] Abbreviation served := (serving L net_if_buf_size).

(** C37. Network interface requests, from the host's caller to the stack of the
    device and back.  A call of [bus_request] with a request of at most half the
    proxy's buffer returns 0 and the encoded response when that has at least one
    byte; it returns -ETIMEDOUT, the request having been carried out, when the
    response does not fit its buffer or is empty, since the thread then sends
    nothing (net_if_mgmt_proxy.c:268; a proto3 response with identifier 0, status
    0 and no payload is such an empty one).  The response carries the request's
    identifier, and it and the effect on the network are those of
    [net_if_answer]: the named interface's state, name, flags and MTU read or
    changed by the stack's own calls with their status, enumeration with both
    filters up to four interfaces whatever earlier candidates left in the slots,
    and an error that changes nothing for a request that does not decode, names
    no interface or is of another kind.  Afterwards the link is idle and in step
    and the thread waits for the next request. *)
Theorem net_if_request_over_link (iters fuel turns : nat)
    (t : bus_state UH EH HID USR * node (UD := UD) (C := C) (E := N)) (n : N) (buf : list Z) :
  get_callbacks SERIAL_TYPE_NET_IF_MGMT = Some (lift_ops L (accum_client net_if_buf_size)) ->
  (forall r bs, NetIfResponse_encode 512 r = Some bs -> zlen bs <= 512) -> 512 <= resp_size ->
  served t n -> 0 < zlen buf <= 256 ->
  exists t' n' resp,
    link_request run_handler L net_if_buf_size net_if_process SERIAL_TYPE_NET_IF_MGMT
      (2 + iters) (5 + fuel) (5 + turns) resp_size t buf
    = Ret (match NetIfResponse_encode 512 resp with
           | Some bs => if 0 <? zlen bs then (t', 0, bs) else (t', - ETIMEDOUT, [])
           | None => (t', - ETIMEDOUT, [])
           end) /\
    net_if_answer n buf n' resp /\ served t' n' /\ b_env (fst t') = b_env (fst t).
Proof.
  intros Hc He Hr Hs Hb. destruct (net_if_request_response n buf 512) as (n' & resp & Hp & Ha).
  assert (zlen (default [] (NetIfResponse_encode 512 resp)) <= 512) as Hl.
  { destruct (NetIfResponse_encode 512 resp) as [bs|] eqn:E; [by apply (He resp)|].
    change (default [] None) with (@nil Z). rewrite zlen_nil. lia. }
  destruct (link_request_ok (UH := UH) (UD := UD) run_handler L net_if_buf_size net_if_process
    SERIAL_TYPE_NET_IF_MGMT ltac:(done) ltac:(done) ltac:(done) Hc iters fuel turns resp_size t n buf Hs)
    as (t' & E1 & Hs' & Henv); unfold net_if_process, SERIAL_MAX_PAYLOAD_LEN in *; rewrite ?Hp; cbn [fst snd] in *;
    [done | lia | lia | lia |].
  rewrite Hp in E1, Hs'. cbn [fst snd] in E1, Hs'. exists t', n', resp. split; [|done]. rewrite E1.
  destruct (NetIfResponse_encode 512 resp) as [bs|]; [|done]. by destruct bs.
Qed.

End NetIfLink.

(** ** A run *)

Definition demo_net_node : node (UD := SlowUart) (C := demo_state) (E := list (bool * Z)) :=
  mk_node demo_fifo_dev PBlocked demo_net.

Lemma demo_net_encode r bs : NetIfResponse_encode 512 r = Some bs -> zlen bs <= 512.
Proof. cbn -[zlen]. case_match eqn:Hl; intros [= <-]. by apply Z.leb_le in Hl. Qed.

(** The Wi-Fi interfaces of a device with six interfaces, over the wire; and a
    carrier change with identifier 0, which the device carries out and the host
    sees time out. *)
Lemma net_if_request_over_link_witness :
  (exists t', link_request log_handler L_net_if net_if_buf_size net_if_process SERIAL_TYPE_NET_IF_MGMT 2 7 5 512
      (demo_bus true [], demo_net_node) [9; 1] = Ret (t', 0, [9; 1; 3; 4; 5])) /\
  (exists t', link_request log_handler L_net_if net_if_buf_size net_if_process SERIAL_TYPE_NET_IF_MGMT 2 7 5 512
      (demo_bus true [], demo_net_node) [0; 1; 1] = Ret (t', - ETIMEDOUT, [])).
Proof.
  assert (forall buf ret resp, 0 < zlen buf <= 256 ->
    outcome_map (fun r => (snd (fst r), snd r)) (link_request log_handler L_net_if net_if_buf_size net_if_process
      SERIAL_TYPE_NET_IF_MGMT 2 7 5 512 (demo_bus true [], demo_net_node) buf) = Ret (ret, resp) ->
    exists t', link_request log_handler L_net_if net_if_buf_size net_if_process SERIAL_TYPE_NET_IF_MGMT 2 7 5 512
      (demo_bus true [], demo_net_node) buf = Ret (t', ret, resp)) as Hrun.
  { intros buf ret bs Hb Hc.
    destruct (net_if_request_over_link log_handler L_net_if 512 0 2 0 (demo_bus true [], demo_net_node) demo_net buf)
      as (t' & n' & resp & E1 & _); [reflexivity | exact demo_net_encode | lia | | done |].
    { split; [apply demo_link_idle | reflexivity | reflexivity | | reflexivity].
      split; [split; reflexivity|]. split; reflexivity. }
    exists t'. change (2 + 0)%nat with 2%nat in E1. change (5 + 2)%nat with 7%nat in E1.
    change (5 + 0)%nat with 5%nat in E1. rewrite E1 in Hc |- *. clear E1.
    destruct (NetIfResponse_encode 512 resp) as [bs'|]; [destruct (0 <? zlen bs')|]; by injection Hc as <- <-. }
  split; (apply Hrun; [conc | vm_compute; reflexivity]).
Defined.
