(* ===== verification/WifiEnums.v ===== *)
(** * WifiEnums: enumerations across the link

    The translators of [device/wifi_mgmt_proxy.c] and their mirror in
    [host/host_wifi.c].  Protobuf values are numbers (a decoder accepts any);
    Zephyr's enumerations are inductive types with the enumerators the sources
    name and one constructor for the others, since their numbering is Zephyr's. *)

From S2P Require Import Prelude.
From Stdlib Require Import ZArith Lia.
From stdpp Require Import base list option numbers decidable.

Open Scope Z_scope.

(** ** Zephyr's enumerations *)

Inductive wifi_security_type : Type :=
| WIFI_SECURITY_TYPE_NONE | WIFI_SECURITY_TYPE_PSK | WIFI_SECURITY_TYPE_WPA_PSK
| WIFI_SECURITY_TYPE_WPA_AUTO_PERSONAL | WIFI_SECURITY_TYPE_PSK_SHA256
| WIFI_SECURITY_TYPE_SAE | WIFI_SECURITY_TYPE_SAE_H2E | WIFI_SECURITY_TYPE_SAE_AUTO
| WIFI_SECURITY_TYPE_EAP | WIFI_SECURITY_TYPE_WEP | WIFI_SECURITY_TYPE_WAPI
| wifi_security_type_other (n : Z).      (* DPP, EAP_TLS, FT_PSK, ... *)

Inductive wifi_frequency_bands : Type :=
| WIFI_FREQ_BAND_2_4_GHZ | WIFI_FREQ_BAND_5_GHZ | WIFI_FREQ_BAND_6_GHZ
| wifi_frequency_bands_other (n : Z).

Inductive wifi_mfp_options : Type := WIFI_MFP_DISABLE | WIFI_MFP_OPTIONAL | WIFI_MFP_REQUIRED.

Inductive wifi_scan_type : Type := WIFI_SCAN_TYPE_ACTIVE | WIFI_SCAN_TYPE_PASSIVE.

Inductive wifi_iface_state : Type :=
| WIFI_STATE_DISCONNECTED | WIFI_STATE_INTERFACE_DISABLED | WIFI_STATE_INACTIVE
| WIFI_STATE_SCANNING | WIFI_STATE_AUTHENTICATING | WIFI_STATE_ASSOCIATING
| WIFI_STATE_ASSOCIATED | WIFI_STATE_4WAY_HANDSHAKE | WIFI_STATE_GROUP_HANDSHAKE
| WIFI_STATE_COMPLETED
| wifi_iface_state_other (n : Z).

Inductive wifi_iface_mode : Type :=
| WIFI_MODE_INFRA | WIFI_MODE_IBSS | WIFI_MODE_AP | WIFI_MODE_P2P_GO
| WIFI_MODE_P2P_GROUP_FORMATION | WIFI_MODE_MESH
| wifi_iface_mode_other (n : Z).

Inductive wifi_link_mode : Type :=
| WIFI_0 | WIFI_1 | WIFI_2 | WIFI_3 | WIFI_4 | WIFI_5 | WIFI_6 | WIFI_6E
| wifi_link_mode_other (n : Z).

(** ** Protobuf values ([protos/wifi.proto]) *)

Definition P_SECURITY_UNKNOWN : Z := 0.
Definition P_SECURITY_NONE : Z := 1.
Definition P_SECURITY_WEP : Z := 2.
Definition P_SECURITY_PSK : Z := 3.
Definition P_SECURITY_EAP : Z := 4.
Definition P_SECURITY_WAPI : Z := 5.
Definition P_SECURITY_PSK_SHA256 : Z := 6.
Definition P_SECURITY_SAE : Z := 7.
Definition P_BAND_ANY : Z := 0.
Definition P_BAND_2_4_GHZ : Z := 1.
Definition P_BAND_5_GHZ : Z := 2.
Definition P_BAND_6_GHZ : Z := 3.
Definition P_MFP_OPTIONAL : Z := 0.
Definition P_MFP_REQUIRED : Z := 1.
Definition P_MFP_DISABLE : Z := 2.
Definition P_SCAN_PASSIVE : Z := 0.
Definition P_SCAN_ACTIVE : Z := 1.
Definition P_STATE_INACTIVE : Z := 0.
Definition P_STATE_SCANNING : Z := 1.
Definition P_STATE_AUTHENTICATING : Z := 2.
Definition P_STATE_ASSOCIATING : Z := 3.
Definition P_STATE_ASSOCIATED : Z := 4.
Definition P_STATE_4WAY_HANDSHAKE : Z := 5.
Definition P_STATE_GROUP_HANDSHAKE : Z := 6.
Definition P_STATE_CONNECTED : Z := 7.
Definition P_STATE_DISCONNECTED : Z := 8.
Definition P_STATE_INTERFACE_DISABLED : Z := 9.
Definition P_MODE_INFRA : Z := 0.
Definition P_MODE_AP : Z := 1.
Definition P_MODE_MESH_POINT : Z := 2.
Definition P_MODE_P2P_GO : Z := 3.
Definition P_LINK_UNKNOWN : Z := 0.
Definition P_LINK_LEGACY_B : Z := 1.
Definition P_LINK_LEGACY_G : Z := 2.
Definition P_LINK_LEGACY_A : Z := 3.
Definition P_LINK_HT_20 : Z := 4.
Definition P_LINK_VHT_20 : Z := 6.
Definition P_LINK_HE_20 : Z := 10.

(** ** Translators of the device's file *)

Definition zephyr_to_proto_security (zsec : wifi_security_type) : Z :=
  match zsec with
  | WIFI_SECURITY_TYPE_NONE => P_SECURITY_NONE
  | WIFI_SECURITY_TYPE_PSK | WIFI_SECURITY_TYPE_WPA_PSK
  | WIFI_SECURITY_TYPE_WPA_AUTO_PERSONAL => P_SECURITY_PSK
  | WIFI_SECURITY_TYPE_PSK_SHA256 => P_SECURITY_PSK_SHA256
  | WIFI_SECURITY_TYPE_SAE | WIFI_SECURITY_TYPE_SAE_H2E
  | WIFI_SECURITY_TYPE_SAE_AUTO => P_SECURITY_SAE
  | WIFI_SECURITY_TYPE_EAP => P_SECURITY_EAP
  | WIFI_SECURITY_TYPE_WEP => P_SECURITY_WEP
  | WIFI_SECURITY_TYPE_WAPI => P_SECURITY_WAPI
  | wifi_security_type_other _ => P_SECURITY_UNKNOWN
  end.

Definition proto_to_zephyr_security (psec : Z) : wifi_security_type :=
  if psec =? P_SECURITY_NONE then WIFI_SECURITY_TYPE_NONE
  else if psec =? P_SECURITY_PSK then WIFI_SECURITY_TYPE_PSK
  else if psec =? P_SECURITY_PSK_SHA256 then WIFI_SECURITY_TYPE_PSK_SHA256
  else if psec =? P_SECURITY_SAE then WIFI_SECURITY_TYPE_SAE
  else if psec =? P_SECURITY_EAP then WIFI_SECURITY_TYPE_EAP
  else if psec =? P_SECURITY_WEP then WIFI_SECURITY_TYPE_WEP
  else if psec =? P_SECURITY_WAPI then WIFI_SECURITY_TYPE_WAPI
  else WIFI_SECURITY_TYPE_NONE.

Definition zephyr_to_proto_band (band : wifi_frequency_bands) : Z :=
  match band with
  | WIFI_FREQ_BAND_2_4_GHZ => P_BAND_2_4_GHZ
  | WIFI_FREQ_BAND_5_GHZ => P_BAND_5_GHZ
  | WIFI_FREQ_BAND_6_GHZ => P_BAND_6_GHZ
  | wifi_frequency_bands_other _ => P_BAND_ANY
  end.

Definition proto_to_zephyr_band (pband : Z) : wifi_frequency_bands :=
  if pband =? P_BAND_5_GHZ then WIFI_FREQ_BAND_5_GHZ
  else if pband =? P_BAND_6_GHZ then WIFI_FREQ_BAND_6_GHZ
  else WIFI_FREQ_BAND_2_4_GHZ.

Definition zephyr_to_proto_mfp (mfp : wifi_mfp_options) : Z :=
  match mfp with
  | WIFI_MFP_OPTIONAL => P_MFP_OPTIONAL
  | WIFI_MFP_REQUIRED => P_MFP_REQUIRED
  | WIFI_MFP_DISABLE => P_MFP_DISABLE
  end.

Definition proto_to_zephyr_mfp (pmfp : Z) : wifi_mfp_options :=
  if pmfp =? P_MFP_REQUIRED then WIFI_MFP_REQUIRED
  else if pmfp =? P_MFP_DISABLE then WIFI_MFP_DISABLE
  else WIFI_MFP_OPTIONAL.

Definition proto_to_zephyr_scan_type (ptype : Z) : wifi_scan_type :=
  if ptype =? P_SCAN_ACTIVE then WIFI_SCAN_TYPE_ACTIVE else WIFI_SCAN_TYPE_PASSIVE.

Definition zephyr_to_proto_state (state : wifi_iface_state) : Z :=
  match state with
  | WIFI_STATE_INACTIVE => P_STATE_INACTIVE
  | WIFI_STATE_SCANNING => P_STATE_SCANNING
  | WIFI_STATE_AUTHENTICATING => P_STATE_AUTHENTICATING
  | WIFI_STATE_ASSOCIATING => P_STATE_ASSOCIATING
  | WIFI_STATE_ASSOCIATED => P_STATE_ASSOCIATED
  | WIFI_STATE_4WAY_HANDSHAKE => P_STATE_4WAY_HANDSHAKE
  | WIFI_STATE_GROUP_HANDSHAKE => P_STATE_GROUP_HANDSHAKE
  | WIFI_STATE_COMPLETED => P_STATE_CONNECTED
  | WIFI_STATE_INTERFACE_DISABLED => P_STATE_INTERFACE_DISABLED
  | WIFI_STATE_DISCONNECTED | wifi_iface_state_other _ => P_STATE_DISCONNECTED
  end.

Definition zephyr_to_proto_mode (mode : wifi_iface_mode) : Z :=
  match mode with
  | WIFI_MODE_AP => P_MODE_AP
  | WIFI_MODE_MESH => P_MODE_MESH_POINT
  | WIFI_MODE_P2P_GO => P_MODE_P2P_GO
  | _ => P_MODE_INFRA
  end.

Definition zephyr_to_proto_link_mode (link_mode : wifi_link_mode) : Z :=
  match link_mode with
  | WIFI_1 => P_LINK_LEGACY_B
  | WIFI_3 => P_LINK_LEGACY_G
  | WIFI_2 => P_LINK_LEGACY_A
  | WIFI_4 => P_LINK_HT_20
  | WIFI_5 => P_LINK_VHT_20
  | WIFI_6 | WIFI_6E => P_LINK_HE_20
  | _ => P_LINK_UNKNOWN
  end.

(** ** Translators of the host's file *)

Definition host_proto_to_zephyr_security (psec : Z) : wifi_security_type :=
  if psec =? P_SECURITY_NONE then WIFI_SECURITY_TYPE_NONE
  else if psec =? P_SECURITY_PSK then WIFI_SECURITY_TYPE_PSK
  else if psec =? P_SECURITY_PSK_SHA256 then WIFI_SECURITY_TYPE_PSK_SHA256
  else if psec =? P_SECURITY_SAE then WIFI_SECURITY_TYPE_SAE
  else if psec =? P_SECURITY_EAP then WIFI_SECURITY_TYPE_EAP
  else if psec =? P_SECURITY_WEP then WIFI_SECURITY_TYPE_WEP
  else if psec =? P_SECURITY_WAPI then WIFI_SECURITY_TYPE_WAPI
  else WIFI_SECURITY_TYPE_NONE.

Definition host_zephyr_to_proto_security (zsec : wifi_security_type) : Z :=
  match zsec with
  | WIFI_SECURITY_TYPE_NONE => P_SECURITY_NONE
  | WIFI_SECURITY_TYPE_PSK | WIFI_SECURITY_TYPE_WPA_PSK
  | WIFI_SECURITY_TYPE_WPA_AUTO_PERSONAL => P_SECURITY_PSK
  | WIFI_SECURITY_TYPE_PSK_SHA256 => P_SECURITY_PSK_SHA256
  | WIFI_SECURITY_TYPE_SAE | WIFI_SECURITY_TYPE_SAE_H2E
  | WIFI_SECURITY_TYPE_SAE_AUTO => P_SECURITY_SAE
  | WIFI_SECURITY_TYPE_EAP => P_SECURITY_EAP
  | WIFI_SECURITY_TYPE_WEP => P_SECURITY_WEP
  | WIFI_SECURITY_TYPE_WAPI => P_SECURITY_WAPI
  | wifi_security_type_other _ => P_SECURITY_UNKNOWN
  end.

Definition host_zephyr_to_proto_mfp (mfp : wifi_mfp_options) : Z :=
  match mfp with
  | WIFI_MFP_OPTIONAL => P_MFP_OPTIONAL
  | WIFI_MFP_REQUIRED => P_MFP_REQUIRED
  | WIFI_MFP_DISABLE => P_MFP_DISABLE
  end.

Definition host_proto_to_zephyr_mfp (pmfp : Z) : wifi_mfp_options :=
  if pmfp =? P_MFP_REQUIRED then WIFI_MFP_REQUIRED
  else if pmfp =? P_MFP_DISABLE then WIFI_MFP_DISABLE
  else WIFI_MFP_OPTIONAL.

Definition host_zephyr_to_proto_scan_type (ztype : wifi_scan_type) : Z :=
  match ztype with WIFI_SCAN_TYPE_ACTIVE => P_SCAN_ACTIVE | WIFI_SCAN_TYPE_PASSIVE => P_SCAN_PASSIVE end.

Definition host_proto_to_zephyr_state (pstate : Z) : wifi_iface_state :=
  if pstate =? P_STATE_CONNECTED then WIFI_STATE_COMPLETED
  else if pstate =? P_STATE_DISCONNECTED then WIFI_STATE_DISCONNECTED
  else if pstate =? P_STATE_INACTIVE then WIFI_STATE_INACTIVE
  else if pstate =? P_STATE_SCANNING then WIFI_STATE_SCANNING
  else if pstate =? P_STATE_INTERFACE_DISABLED then WIFI_STATE_INTERFACE_DISABLED
  else WIFI_STATE_DISCONNECTED.

Definition host_proto_to_zephyr_mode (pmode : Z) : wifi_iface_mode :=
  if pmode =? P_MODE_AP then WIFI_MODE_AP
  else if pmode =? P_MODE_INFRA then WIFI_MODE_INFRA
  else WIFI_MODE_INFRA.

(** ** What survives the link *)

(** The security type at the other end, spelled out. *)
Definition security_image (z : wifi_security_type) : wifi_security_type :=
  match z with
  | WIFI_SECURITY_TYPE_WPA_PSK | WIFI_SECURITY_TYPE_WPA_AUTO_PERSONAL => WIFI_SECURITY_TYPE_PSK
  | WIFI_SECURITY_TYPE_SAE_H2E | WIFI_SECURITY_TYPE_SAE_AUTO => WIFI_SECURITY_TYPE_SAE
  | wifi_security_type_other _ => WIFI_SECURITY_TYPE_NONE
  | z => z
  end.

Definition state_image (s : wifi_iface_state) : wifi_iface_state :=
  match s with
  | WIFI_STATE_AUTHENTICATING | WIFI_STATE_ASSOCIATING | WIFI_STATE_ASSOCIATED
  | WIFI_STATE_4WAY_HANDSHAKE | WIFI_STATE_GROUP_HANDSHAKE | wifi_iface_state_other _ =>
      WIFI_STATE_DISCONNECTED
  | s => s
  end.

(** Enumerations across the link, in both directions (the host's translators on
    one side, the device's on the other): management frame protection and scan
    type arrive unchanged.  Security types arrive as themselves, the WPA and SAE
    variants as their base type, and every type the translators do not name as
    NONE, that is, a protected network as an open one.  The interface state
    arrives unchanged except for the intermediate states of a connection, which
    the host reads as DISCONNECTED.  Translating twice changes nothing more. *)
Theorem wifi_enums_roundtrip (z : wifi_security_type) (m : wifi_mfp_options) (t : wifi_scan_type)
    (s : wifi_iface_state) (psec : Z) :
  proto_to_zephyr_mfp (host_zephyr_to_proto_mfp m) = m /\
  host_proto_to_zephyr_mfp (zephyr_to_proto_mfp m) = m /\
  proto_to_zephyr_scan_type (host_zephyr_to_proto_scan_type t) = t /\
  proto_to_zephyr_security (host_zephyr_to_proto_security z) = security_image z /\
  host_proto_to_zephyr_security (zephyr_to_proto_security z) = security_image z /\
  security_image (proto_to_zephyr_security psec) = proto_to_zephyr_security psec /\
  host_proto_to_zephyr_state (zephyr_to_proto_state s) = state_image s.
Proof.
  split; [by destruct m|]. split; [by destruct m|]. split; [by destruct t|]. split; [by destruct z|].
  split; [by destruct z|]. split; [|by destruct s].
  unfold proto_to_zephyr_security. repeat split_if; done.
Qed.
