(* ===== verification/WifiRaw.v ===== *)
(** * WifiRaw: raw 802.11 frames, [device/wifi_data.c]

    Transmission and reception of raw frames through AF_PACKET sockets.  Sockets,
    [net_mgmt] and the driver are a class over the platform state [W]; the static
    variables of the file are the record [raw_state].  The laws of the class say
    which calls open and close descriptors, so that leaks can be stated. *)

From S2P Require Import Prelude NetIfMgmt WifiEnums.
From Stdlib Require Import ZArith Lia.
From stdpp Require Import base list option numbers decidable gmap fin_sets.

Open Scope Z_scope.
Open Scope e80211_scope.

Definition NRF_WIFI_MAGIC_NUM_RAWTX : Z := 0x12345678.
Definition RAW_TX_DATA_RATE : Z := 6.
Definition RAW_TX_MODE_LEGACY : Z := 0.
Definition RAW_TX_QUEUE_DATA : Z := 1.
Definition RAW_FRAME_MIN_LEN : Z := 24.
Definition RAW_FRAME_MAX_LEN : Z := 2346.
Definition RAW_RX_BUFFER_SIZE : Z := RAW_FRAME_MAX_LEN + 64.
Definition RAW_RX_FILTER_BUFFER_SIZE : Z := 1550.
Definition NET_IF_UP : Z := 0.

(** [struct raw_tx_pkt_header], packed, on a little-endian core. *)
Record raw_tx_pkt_header : Type := mk_raw_tx_pkt_header {
  magic_num : Z;
  data_rate : Z;
  packet_length : Z;
  tx_mode : Z;
  queue : Z;
  reserved : list Z
}.

Definition raw_tx_pkt_header_mem (h : raw_tx_pkt_header) : list Z :=
  [ u8 (magic_num h); u8 (Z.shiftr (magic_num h) 8); u8 (Z.shiftr (magic_num h) 16);
    u8 (Z.shiftr (magic_num h) 24); data_rate h;
    u8 (packet_length h); u8 (Z.shiftr (packet_length h) 8); tx_mode h; queue h ] ++ reserved h.

Definition sizeof_raw_tx_pkt_header : Z := 12.

(** The [net_mgmt] requests of this file. *)
Inductive raw_mgmt : Type :=
| WIFI_MODE_SET (if_index mode : Z)
| WIFI_MODE_GET (if_index : Z)
| WIFI_CHANNEL_SET (if_index : Z) (band : wifi_frequency_bands) (channel : Z)
| WIFI_PACKET_FILTER_ALL_SET (if_index buffer_size : Z).

(** What [recvfrom] returns: data, or 0, or an error with its [errno]. *)
Inductive recv_result : Type :=
| RecvData (bs : list Z)
| RecvNone
| RecvErr (errno : Z).

Class RawIo (W : Type) `{NetIfApi W} := {
  net_eth_txinjection_mode : W -> net_if -> bool -> W * Z;
  net_mgmt_raw : W -> net_if -> raw_mgmt -> W * Z * Z;    (* result and mode read back *)
  sock_socket : W -> W * Z;                               (* AF_PACKET, SOCK_RAW, ETH_P_ALL *)
  sock_bind : W -> Z -> Z -> W * Z;                       (* descriptor, sll_ifindex *)
  sock_close : W -> Z -> W;
  sock_sendto : W -> Z -> list Z -> Z -> W * Z;           (* descriptor, data, sll_ifindex *)
  sock_poll : W -> Z -> W * Z;
  sock_recvfrom : W -> Z -> Z -> W * recv_result;         (* descriptor, capacity *)
  k_sleep_ms : W -> Z -> W;
  nrf_wifi_start_zep_last_step : W -> Z                   (* a variable of the driver *)
}.

(** Which calls change the set of open descriptors. *)
Class RawIoLaws (W : Type) `{RawIo W} := {
  fds : W -> gset Z;
  fds_up w i : fds (fst (net_if_up w i)) = fds w;
  fds_txinjection w i b : fds (fst (net_eth_txinjection_mode w i b)) = fds w;
  fds_mgmt w i m : fds (fst (fst (net_mgmt_raw w i m))) = fds w;
  fds_bind w fd a : fds (fst (sock_bind w fd a)) = fds w;
  fds_sendto w fd bs a : fds (fst (sock_sendto w fd bs a)) = fds w;
  fds_poll w fd : fds (fst (sock_poll w fd)) = fds w;
  fds_recvfrom w fd n : fds (fst (sock_recvfrom w fd n)) = fds w;
  fds_sleep w ms : fds (k_sleep_ms w ms) = fds w;
  fds_socket w :
    let '(w', fd) := sock_socket w in
    (fd < 0 /\ fds w' = fds w) \/ (0 <= fd /\ (fd ∉ fds w) /\ fds w' = ({[ fd ]} ∪ fds w));
  fds_close w fd : fds (sock_close w fd) = (fds w ∖ {[ fd ]})
}.

(** The descriptor a static variable owns: none when it is negative. *)
Definition owned (fd : Z) : gset Z := if 0 <=? fd then {[ fd ]} else ∅.

Lemma owned_neg fd : fd < 0 -> owned fd = ∅.
Proof. intros. unfold owned. by rewrite (proj2 (Z.leb_gt _ _)). Qed.

Lemma owned_nonneg fd : 0 <= fd -> owned fd = {[ fd ]}.
Proof. intros. unfold owned. by rewrite (proj2 (Z.leb_le _ _)). Qed.

Lemma set_new (B T R : gset Z) x :
  x ∉ B ∪ T ∪ R -> {[ x ]} ## B /\ {[ x ]} ## T /\ {[ x ]} ## R.
Proof. set_solver. Qed.

Lemma set_union_tx (B R : gset Z) x : {[ x ]} ∪ (B ∪ ∅ ∪ R) = B ∪ {[ x ]} ∪ R.
Proof. set_solver. Qed.

Lemma set_union_rx (B T : gset Z) x : {[ x ]} ∪ (B ∪ T ∪ ∅) = B ∪ T ∪ {[ x ]}.
Proof. set_solver. Qed.

Lemma set_remove_new (X : gset Z) x : x ∉ X -> ({[ x ]} ∪ X) ∖ {[ x ]} = X.
Proof. set_solver. Qed.

Lemma set_remove_rx (B T : gset Z) x :
  {[ x ]} ## B -> {[ x ]} ## T -> (B ∪ T ∪ {[ x ]}) ∖ {[ x ]} = B ∪ T ∪ ∅.
Proof. set_solver. Qed.

Section WifiRaw.
Context {W : Type} `{RawIo W}.

Record raw_state : Type := mk_raw_state {
  raw_tx_sockfd : Z;
  raw_tx_addr : Z;              (* sll_ifindex *)
  raw_tx_buf : list Z;          (* 12 + 2346 bytes *)
  raw_tx_frame_count : Z;
  raw_tx_injection_ret : Z;
  raw_tx_setup_ret : Z;
  raw_tx_last_ret : Z;
  raw_tx_last_frame_len : Z;
  raw_tx_last_iface_wifi : bool;
  raw_rx_sockfd : Z;
  raw_rx_addr : Z;
  raw_rx_iface : option net_if;
  raw_rx_cb : option (W -> option net_if -> list Z -> W);
  raw_rx_running : bool;
  raw_rx_frame_count : Z;
  raw_rx_mode_readback : Z;
  raw_io : W
}.

(** Assignments, one per group of variables that change together. *)
Definition set_tx_sock (s : raw_state) (fd addr setup : Z) (w : W) : raw_state :=
  mk_raw_state fd addr (raw_tx_buf s) (raw_tx_frame_count s) (raw_tx_injection_ret s) setup
    (raw_tx_last_ret s) (raw_tx_last_frame_len s) (raw_tx_last_iface_wifi s) (raw_rx_sockfd s)
    (raw_rx_addr s) (raw_rx_iface s) (raw_rx_cb s) (raw_rx_running s) (raw_rx_frame_count s)
    (raw_rx_mode_readback s) w.

Definition set_tx_diag (s : raw_state) (inj last len : Z) (wifi : bool) (w : W) : raw_state :=
  mk_raw_state (raw_tx_sockfd s) (raw_tx_addr s) (raw_tx_buf s) (raw_tx_frame_count s) inj
    (raw_tx_setup_ret s) last len wifi (raw_rx_sockfd s) (raw_rx_addr s) (raw_rx_iface s)
    (raw_rx_cb s) (raw_rx_running s) (raw_rx_frame_count s) (raw_rx_mode_readback s) w.

Definition set_tx_buf (s : raw_state) (buf : list Z) (count : Z) (w : W) : raw_state :=
  mk_raw_state (raw_tx_sockfd s) (raw_tx_addr s) buf count (raw_tx_injection_ret s)
    (raw_tx_setup_ret s) (raw_tx_last_ret s) (raw_tx_last_frame_len s) (raw_tx_last_iface_wifi s)
    (raw_rx_sockfd s) (raw_rx_addr s) (raw_rx_iface s) (raw_rx_cb s) (raw_rx_running s)
    (raw_rx_frame_count s) (raw_rx_mode_readback s) w.

Definition set_rx (s : raw_state) (fd addr : Z) (iface : option net_if) (running : bool) (w : W)
  : raw_state :=
  mk_raw_state (raw_tx_sockfd s) (raw_tx_addr s) (raw_tx_buf s) (raw_tx_frame_count s)
    (raw_tx_injection_ret s) (raw_tx_setup_ret s) (raw_tx_last_ret s) (raw_tx_last_frame_len s)
    (raw_tx_last_iface_wifi s) fd addr iface (raw_rx_cb s) running (raw_rx_frame_count s)
    (raw_rx_mode_readback s) w.

Definition set_rx_info (s : raw_state) (cb : option (W -> option net_if -> list Z -> W))
    (count mode : Z) (w : W) : raw_state :=
  mk_raw_state (raw_tx_sockfd s) (raw_tx_addr s) (raw_tx_buf s) (raw_tx_frame_count s)
    (raw_tx_injection_ret s) (raw_tx_setup_ret s) (raw_tx_last_ret s) (raw_tx_last_frame_len s)
    (raw_tx_last_iface_wifi s) (raw_rx_sockfd s) (raw_rx_addr s) (raw_rx_iface s) cb
    (raw_rx_running s) count mode w.

Definition with_io (s : raw_state) (w : W) : raw_state :=
  set_rx_info s (raw_rx_cb s) (raw_rx_frame_count s) (raw_rx_mode_readback s) w.

Definition set_last_ret (s : raw_state) (ret : Z) : raw_state :=
  set_tx_diag s (raw_tx_injection_ret s) ret (raw_tx_last_frame_len s) (raw_tx_last_iface_wifi s)
    (raw_io s).

(** ** Transmission *)

Definition raw_tx_socket_setup (s : raw_state) (iface : net_if) : raw_state * Z :=
  if 0 <=? raw_tx_sockfd s then (s, 0)
  else
    let '(w1, fd) := sock_socket (raw_io s) in
    if fd <? 0 then (set_tx_sock s fd (raw_tx_addr s) (100 + fd) w1, - EIO)
    else
      let ifidx := net_if_get_by_iface w1 iface in
      let '(w2, rb) := sock_bind w1 fd ifidx in
      if rb <? 0 then
        (set_tx_sock s (-1) ifidx (200 + ifidx) (sock_close w2 fd), - EIO)
      else (set_tx_sock s fd ifidx 0 w2, 0).

Definition raw_tx_header (len : Z) : raw_tx_pkt_header :=
  mk_raw_tx_pkt_header NRF_WIFI_MAGIC_NUM_RAWTX RAW_TX_DATA_RATE (u16 len) RAW_TX_MODE_LEGACY
    RAW_TX_QUEUE_DATA [0; 0; 0].

(** [frame] is the memory the pointer refers to: reading [len] bytes past it, or
    writing past [raw_tx_buf], is a fault. *)
Definition wifi_data_raw_frame_tx (s0 : raw_state) (iface : option net_if) (frame : option (list Z))
    (len : Z) : outcome (raw_state * Z) :=
  let is_wifi := match iface with Some i => net_if_is_wifi (raw_io s0) i | None => false end in
  let s := set_tx_diag s0 (raw_tx_injection_ret s0) (raw_tx_last_ret s0) len is_wifi (raw_io s0) in
  let fail (s : raw_state) (e : Z) := Ret (set_last_ret s e, e) in
  match iface, frame with
  | Some i, Some f =>
      if negb is_wifi then fail s (- EINVAL)
      else if (len <? RAW_FRAME_MIN_LEN) || (RAW_FRAME_MAX_LEN <? len) then fail s (- EMSGSIZE)
      else
        let '(w1, inj) := net_eth_txinjection_mode (raw_io s) i true in
        let s1 := set_tx_diag s inj (raw_tx_last_ret s) len is_wifi w1 in
        if negb (inj =? 0) then fail s1 inj
        else
          let '(s2, ret) := raw_tx_socket_setup s1 i in
          if negb (ret =? 0) then fail s2 ret
          else if zlen f <? len then Fault
          else
            match store_at (raw_tx_buf s2) 0
                    (raw_tx_pkt_header_mem (raw_tx_header len) ++ ztake len f) with
            | None => Fault
            | Some buf =>
                let '(w3, sent) :=
                  sock_sendto (raw_io s2) (raw_tx_sockfd s2)
                    (ztake (sizeof_raw_tx_pkt_header + len) buf) (raw_tx_addr s2) in
                if sent <? 0 then
                  fail (set_tx_buf s2 buf (raw_tx_frame_count s2) w3) (- EIO)
                else
                  Ret (set_last_ret (set_tx_buf s2 buf (u32 (raw_tx_frame_count s2 + 1)) w3) 0, 0)
            end
  | _, _ => fail s (- EINVAL)
  end.

(** ** Reception *)

Definition wifi_data_set_raw_rx_cb (s : raw_state) (cb : option (W -> option net_if -> list Z -> W))
  : raw_state :=
  set_rx_info s cb (raw_rx_frame_count s) (raw_rx_mode_readback s) (raw_io s).

(** One iteration of the loop of [raw_rx_thread_fn]. *)
Definition raw_rx_iteration (s : raw_state) : raw_state :=
  if negb (raw_rx_running s) then s
  else
    let stop w := set_rx s (raw_rx_sockfd s) (raw_rx_addr s) (raw_rx_iface s) false w in
    let '(w1, pret) := sock_poll (raw_io s) (raw_rx_sockfd s) in
    if pret <? 0 then stop w1
    else if pret =? 0 then with_io s w1
    else
      match sock_recvfrom w1 (raw_rx_sockfd s) RAW_RX_BUFFER_SIZE with
      | (w2, RecvData bs) =>
          let w3 := match raw_rx_cb s with Some cb => cb w2 (raw_rx_iface s) bs | None => w2 end in
          set_rx_info s (raw_rx_cb s) (u32 (raw_rx_frame_count s + 1)) (raw_rx_mode_readback s) w3
      | (w2, RecvNone) => with_io s w2
      | (w2, RecvErr errno) => if errno =? EAGAIN then with_io s w2 else stop w2
      end.

(** [net_if_up] is tried five times, with 500 ms after each failure. *)
Fixpoint raw_rx_bring_up (attempts : nat) (up_ret : Z) (w : W) (i : net_if) : W * Z :=
  match attempts with
  | O => (w, up_ret)
  | S attempts' =>
      let '(w1, ret) := net_if_up w i in
      if ret =? 0 then (w1, 0) else raw_rx_bring_up attempts' ret (k_sleep_ms w1 500) i
  end.

(** The last part of the enabling: socket, bind, thread. *)
Definition raw_rx_socket_start (s : raw_state) (i : net_if) : raw_state * Z :=
  let '(w1, fd) := sock_socket (raw_io s) in
  if fd <? 0 then (set_rx s fd (raw_rx_addr s) (raw_rx_iface s) (raw_rx_running s) w1, - EIO)
  else
    let ifidx := net_if_get_by_iface w1 i in
    let '(w2, rb) := sock_bind w1 fd ifidx in
    if rb <? 0 then
      (set_rx s (-1) ifidx (raw_rx_iface s) (raw_rx_running s) (sock_close w2 fd), - EIO)
    else (set_rx s fd ifidx (Some i) true w2, 0).

(** The radio: monitor mode, TX injection, channel, packet filter. *)
Definition raw_rx_configure (s : raw_state) (i : net_if) (channel : Z) : raw_state * Z :=
  let idx w := net_if_get_by_iface w i in
  let '(w2, ret, _) := net_mgmt_raw (raw_io s) i (WIFI_MODE_SET (idx (raw_io s)) 2) in
  if negb (ret =? 0) then (with_io s w2, ret)
  else
    let '(w3, got, mode) := net_mgmt_raw w2 i (WIFI_MODE_GET (idx w2)) in
    let s3 := set_rx_info s (raw_rx_cb s) (raw_rx_frame_count s)
                (if got =? 0 then mode else raw_rx_mode_readback s) (k_sleep_ms w3 500) in
    let '(w4, inj) := net_eth_txinjection_mode (raw_io s3) i true in
    if negb (inj =? 0) then (with_io s3 w4, inj)
    else
      let '(w5, chan) :=
        if negb (channel =? 0)
        then let '(w, r, _) := net_mgmt_raw w4 i (WIFI_CHANNEL_SET (idx w4) WIFI_FREQ_BAND_2_4_GHZ channel) in (w, r)
        else (w4, 0) in
      if negb (chan =? 0) then (with_io s3 w5, -1003)
      else
        let '(w6, filt, _) :=
          net_mgmt_raw w5 i (WIFI_PACKET_FILTER_ALL_SET (idx w5) RAW_RX_FILTER_BUFFER_SIZE) in
        if negb (filt =? 0) then (with_io s3 w6, -1004) else (with_io s3 w6, 0).

Definition wifi_data_raw_frame_rx_enable (s : raw_state) (iface : option net_if) (channel : Z)
  : raw_state * Z :=
  match iface with
  | None => (s, - EINVAL)
  | Some i =>
      if negb (net_if_is_wifi (raw_io s) i) then (s, - EINVAL)
      else if 0 <=? raw_rx_sockfd s then (s, 0)
      else
        let '(w1, up_ret) :=
          if negb (net_if_flag_is_set (raw_io s) i NET_IF_UP)
          then raw_rx_bring_up 5 (- EIO) (raw_io s) i else (raw_io s, 0) in
        let s1 := with_io s w1 in
        if negb (up_ret =? 0) then (s1, -2000 - up_ret)
        else
          let '(s2, ret) := raw_rx_configure s1 i channel in
          if negb (ret =? 0) then (s2, ret) else raw_rx_socket_start s2 i
  end.

Definition wifi_data_raw_frame_rx_disable (s : raw_state) : raw_state * Z :=
  if raw_rx_sockfd s <? 0 then (s, 0)
  else
    (set_rx s (-1) (raw_rx_addr s) None false (sock_close (raw_io s) (raw_rx_sockfd s)), 0).

(** [struct wifi_data_raw_rx_diag]. *)
Record raw_diag : Type := mk_raw_diag {
  dg_socket_fd : Z; dg_thread_running : bool; dg_frames_received : Z; dg_current_mode : Z;
  dg_start_zep_step : Z;
  dg_tx_socket_fd : Z; dg_tx_frames_sent : Z; dg_tx_injection_ret : Z; dg_tx_setup_ret : Z;
  dg_tx_last_ret : Z; dg_tx_last_len : Z; dg_tx_last_wifi : bool
}.

Definition wifi_data_raw_rx_diag (s : raw_state) : raw_diag :=
  mk_raw_diag (raw_rx_sockfd s) (raw_rx_running s) (raw_rx_frame_count s) (raw_rx_mode_readback s)
    (nrf_wifi_start_zep_last_step (raw_io s)) (raw_tx_sockfd s) (raw_tx_frame_count s) (raw_tx_injection_ret s) (raw_tx_setup_ret s)
    (raw_tx_last_ret s) (raw_tx_last_frame_len s) (raw_tx_last_iface_wifi s).

(** ** Transmission: what goes out *)

Definition raw_buf_ok (s : raw_state) : Prop :=
  zlen (raw_tx_buf s) = sizeof_raw_tx_pkt_header + RAW_FRAME_MAX_LEN.

Definition in_range (len : Z) : bool := negb ((len <? RAW_FRAME_MIN_LEN) || (RAW_FRAME_MAX_LEN <? len)).

Lemma raw_tx_header_bytes len :
  in_range len = true ->
  raw_tx_pkt_header_mem (raw_tx_header len)
  = [0x78; 0x56; 0x34; 0x12; 6; len mod 256; len / 256; 0; 1; 0; 0; 0].
Proof.
  unfold in_range, RAW_FRAME_MIN_LEN, RAW_FRAME_MAX_LEN. intros Hr.
  apply negb_true_iff, orb_false_iff in Hr as [Hr1%Z.ltb_ge Hr2%Z.ltb_ge].
  assert (Hhi : u8 (Z.shiftr len 8) = len / 256).
  { rewrite Z.shiftr_div_pow2 by lia. apply u8_small. unfold is_byte. change (2 ^ 8) with 256.
    split; [apply Z.div_pos; lia|]. apply Z.div_lt_upper_bound; lia. }
  unfold raw_tx_pkt_header_mem, raw_tx_header. cbn [packet_length].
  rewrite u16_small, Hhi by lia. reflexivity.
Qed.

(** The socket is set up at most once; what a failure leaves behind. *)
Definition raw_tx_open (s : raw_state) (i : net_if) (w : W) : W * option (Z * Z) :=
  if 0 <=? raw_tx_sockfd s then (w, Some (raw_tx_sockfd s, raw_tx_addr s))
  else
    let '(w1, fd) := sock_socket w in
    if fd <? 0 then (w1, None)
    else
      let '(w2, rb) := sock_bind w1 fd (net_if_get_by_iface w1 i) in
      if rb <? 0 then (sock_close w2 fd, None) else (w2, Some (fd, net_if_get_by_iface w1 i)).

Lemma raw_tx_socket_setup_result s i :
  exists s' ret, raw_tx_socket_setup s i = (s', ret) /\
    raw_tx_buf s' = raw_tx_buf s /\ raw_tx_frame_count s' = raw_tx_frame_count s /\
    raw_tx_last_frame_len s' = raw_tx_last_frame_len s /\
    match raw_tx_open s i (raw_io s) with
    | (w, Some (fd, addr)) =>
        ret = 0 /\ raw_io s' = w /\ raw_tx_sockfd s' = fd /\ raw_tx_addr s' = addr /\ 0 <= fd
    | (w, None) => ret = - EIO /\ raw_io s' = w /\ raw_tx_sockfd s' < 0
    end.
Proof.
  unfold raw_tx_socket_setup, raw_tx_open. destruct (Z.leb_spec 0 (raw_tx_sockfd s)) as [Hf|Hf].
  { do 2 eexists. split; [done|]. by repeat split. }
  destruct (sock_socket (raw_io s)) as [w1 fd]. destruct (Z.ltb_spec fd 0).
  { do 2 eexists. split; [done|]. by repeat split. }
  destruct (sock_bind w1 fd _) as [w2 rb]. destruct (rb <? 0); do 2 eexists; (split; [done|]); by repeat split.
Qed.

(** The header and the frame, as [sendto] is given them. *)
Lemma raw_tx_buffer buf len f :
  in_range len = true -> zlen buf = sizeof_raw_tx_pkt_header + RAW_FRAME_MAX_LEN -> len <= zlen f ->
  exists buf', store_at buf 0 (raw_tx_pkt_header_mem (raw_tx_header len) ++ ztake len f) = Some buf' /\
    zlen buf' = sizeof_raw_tx_pkt_header + RAW_FRAME_MAX_LEN /\
    ztake (sizeof_raw_tx_pkt_header + len) buf' = raw_tx_pkt_header_mem (raw_tx_header len) ++ ztake len f.
Proof.
  unfold in_range, sizeof_raw_tx_pkt_header, RAW_FRAME_MIN_LEN, RAW_FRAME_MAX_LEN. intros Hr Hb Hf.
  apply negb_true_iff, orb_false_iff in Hr as [Hr1%Z.ltb_ge Hr2%Z.ltb_ge].
  assert (Ht : zlen (ztake len f) = len) by (rewrite zlen_ztake; lia).
  assert (Hh : zlen (raw_tx_pkt_header_mem (raw_tx_header len)) = 12) by done.
  rewrite store_at_Some by (rewrite ?zlen_app, ?Hh; lia).
  eexists. split; [done|]. rewrite ztake_0. cbn [app]. split.
  - rewrite !zlen_app, zlen_zdrop, Hh. lia.
  - apply ztake_app. rewrite zlen_app, Hh. lia.
Qed.

#[local] Arguments raw_tx_pkt_header_mem : simpl never.
#[local] Arguments store_at : simpl never.

(** What the socket is given: magic number, rate, length, mode, queue, and the
    frame. *)
Definition raw_datagram (len : Z) (f : list Z) : list Z :=
  [0x78; 0x56; 0x34; 0x12; 6; len mod 256; len / 256; 0; 1; 0; 0; 0] ++ ztake len f.

(** The platform afterwards and the result. *)
Definition raw_tx_spec (s : raw_state) (i : net_if) (f : list Z) (len : Z) : W * Z :=
  if negb (net_if_is_wifi (raw_io s) i) then (raw_io s, - EINVAL)
  else if negb (in_range len) then (raw_io s, - EMSGSIZE)
  else
    let '(w1, inj) := net_eth_txinjection_mode (raw_io s) i true in
    if negb (inj =? 0) then (w1, inj)
    else
      match raw_tx_open s i w1 with
      | (w2, None) => (w2, - EIO)
      | (w2, Some (fd, addr)) =>
          let '(w3, sent) := sock_sendto w2 fd (raw_datagram len f) addr in
          (w3, if sent <? 0 then - EIO else 0)
      end.

(** The call with an interface and a frame, on every branch. *)
Lemma raw_frame_tx_ok (s : raw_state) (i : net_if) (f : list Z) (len : Z) :
  raw_buf_ok s -> len <= zlen f ->
  exists s', wifi_data_raw_frame_tx s (Some i) (Some f) len = Ret (s', snd (raw_tx_spec s i f len)) /\
    raw_io s' = fst (raw_tx_spec s i f len) /\ raw_buf_ok s' /\
    raw_tx_last_ret s' = snd (raw_tx_spec s i f len) /\ raw_tx_last_frame_len s' = len /\
    raw_tx_frame_count s' = (if snd (raw_tx_spec s i f len) =? 0 then u32 (raw_tx_frame_count s + 1)
                             else raw_tx_frame_count s).
Proof.
  intros Hb Hlf. unfold wifi_data_raw_frame_tx, raw_tx_spec. cbn -[zlen].
  destruct (net_if_is_wifi (raw_io s) i) eqn:Ew; cbn -[zlen]; [|by eexists].
  unfold in_range. destruct (_ || _) eqn:Er; cbn -[zlen]; [by eexists|].
  assert (Hr : in_range len = true) by (unfold in_range; by rewrite Er).
  destruct (net_eth_txinjection_mode (raw_io s) i true) as [w1 inj].
  destruct (Z.eqb_spec inj 0) as [->|Hinj]; cbn -[zlen].
  2: { eexists. split; [done|]. by rewrite (proj2 (Z.eqb_neq inj 0)). }
  match goal with |- context [raw_tx_socket_setup ?x i] =>
    destruct (raw_tx_socket_setup_result x i) as (s2 & ret & -> & Hbuf & Hcnt & Hlen & Hret);
    change (raw_tx_open x i (raw_io x)) with (raw_tx_open s i w1) in Hret
  end.
  cbn -[zlen] in Hbuf, Hcnt, Hlen.
  destruct (raw_tx_open s i w1) as [w2 [[fd addr]|]].
  2: { destruct Hret as (-> & <- & Hfd). cbn -[zlen]. eexists. split; [done|]. unfold raw_buf_ok. cbn -[zlen].
       by rewrite Hbuf, Hcnt. }
  destruct Hret as (-> & <- & <- & <- & Hfd). cbn -[zlen].
  rewrite (proj2 (Z.ltb_ge _ _)) by lia.
  destruct (raw_tx_buffer (raw_tx_buf s2) len f) as (buf & -> & Hbl & Ht); [done|by rewrite Hbuf|done|].
  rewrite Ht, raw_tx_header_bytes by done. unfold raw_datagram.
  destruct (sock_sendto _ _ _ _) as [w3 sent]. destruct (Z.ltb_spec sent 0) as [Hneg|Hpos];
    eexists; (split; [done|]); cbn -[zlen]; repeat split; by rewrite ?Hcnt.
Qed.

(** C38. Raw transmission on every branch.  Without an interface or a frame, or
    for an interface that is not Wi-Fi: -EINVAL; for a length outside 24..2346:
    -EMSGSIZE; all before any I/O.  Otherwise TX injection is switched on and its
    error returned; the socket that is open is used, or a new one is opened and
    bound to the interface (closed again when binding fails) with -EIO on
    failure; then one datagram is sent on it: exactly the 12-byte driver header,
    with the magic number, the legacy rate and the frame's length in
    little-endian order, followed by the frame.  The result is -EIO when the
    socket refuses it, else 0; the counter advances exactly when it is 0, and the
    result is recorded for diagnostics.  Nothing outside the buffer is touched. *)
Theorem raw_frame_tx_result (s : raw_state) (i : net_if) (f : list Z) (len : Z) :
  raw_buf_ok s -> len <= zlen f ->
  (forall iface frame, iface = None \/ frame = None ->
   exists s', wifi_data_raw_frame_tx s iface frame len = Ret (s', - EINVAL) /\ raw_io s' = raw_io s /\
     raw_tx_last_ret s' = - EINVAL /\ raw_tx_frame_count s' = raw_tx_frame_count s) /\
  exists s', wifi_data_raw_frame_tx s (Some i) (Some f) len = Ret (s', snd (raw_tx_spec s i f len)) /\
    raw_io s' = fst (raw_tx_spec s i f len) /\ raw_buf_ok s' /\
    raw_tx_last_ret s' = snd (raw_tx_spec s i f len) /\ raw_tx_last_frame_len s' = len /\
    raw_tx_frame_count s' = (if snd (raw_tx_spec s i f len) =? 0 then u32 (raw_tx_frame_count s + 1)
                             else raw_tx_frame_count s).
Proof.
  intros Hb Hl. split; [|by apply raw_frame_tx_ok].
  intros iface frame [-> | ->]; [destruct frame|destruct iface]; by eexists.
Qed.

(** ** Descriptors *)

Context `{!RawIoLaws W}.

Definition cb_keeps (cb : option (W -> option net_if -> list Z -> W)) : Prop :=
  match cb with Some f => forall w i bs, fds (f w i bs) = fds w | None => True end.

(** [base]: the descriptors other code has open. *)
Record raw_inv (base : gset Z) (s : raw_state) : Prop := {
  ri_fds : fds (raw_io s) = base ∪ owned (raw_tx_sockfd s) ∪ owned (raw_rx_sockfd s);
  ri_tx : owned (raw_tx_sockfd s) ## base;
  ri_rx : owned (raw_rx_sockfd s) ## base;
  ri_tx_rx : owned (raw_tx_sockfd s) ## owned (raw_rx_sockfd s);
  ri_iface : 0 <= raw_rx_sockfd s <-> is_Some (raw_rx_iface s);
  ri_running : raw_rx_running s = true -> 0 <= raw_rx_sockfd s;
  ri_cb : cb_keeps (raw_rx_cb s)
}.

(** Steps that leave sockets and thread alone. *)
Record same_socks (s s' : raw_state) : Prop := {
  ss_tx : raw_tx_sockfd s' = raw_tx_sockfd s;
  ss_rx : raw_rx_sockfd s' = raw_rx_sockfd s;
  ss_iface : raw_rx_iface s' = raw_rx_iface s;
  ss_running : raw_rx_running s' = raw_rx_running s;
  ss_cb : raw_rx_cb s' = raw_rx_cb s;
  ss_fds : fds (raw_io s') = fds (raw_io s)
}.

Lemma same_socks_inv base s s' : same_socks s s' -> raw_inv base s -> raw_inv base s'.
Proof. intros [Ht Hr Hi Hn Hc Hf] []. by split; rewrite ?Ht, ?Hr, ?Hi, ?Hn, ?Hc, ?Hf. Qed.

Lemma same_socks_trans s1 s2 s3 : same_socks s1 s2 -> same_socks s2 s3 -> same_socks s1 s3.
Proof. intros [] []. split; congruence. Qed.

Lemma same_socks_io s w : fds w = fds (raw_io s) -> same_socks s (with_io s w).
Proof. intros Hw. by split. Qed.

Lemma same_socks_diag s inj last len wifi w :
  fds w = fds (raw_io s) -> same_socks s (set_tx_diag s inj last len wifi w).
Proof. intros Hw. by split. Qed.

Lemma same_socks_buf s buf count w :
  fds w = fds (raw_io s) -> same_socks s (set_tx_buf s buf count w).
Proof. intros Hw. by split. Qed.

(** Laws in the form in which the code's [let]s use them. *)
Lemma law_fst {A B} (f : A * B) (g : A -> gset Z) x y z : f = (x, y) -> g (fst f) = z -> g x = z.
Proof. by intros ->. Qed.

(** A new descriptor is nobody else's. *)
Lemma socket_new base s w' fd :
  raw_inv base s -> sock_socket (raw_io s) = (w', fd) -> 0 <= fd ->
  (fd ∉ base ∪ owned (raw_tx_sockfd s) ∪ owned (raw_rx_sockfd s)) /\
  fds w' = {[ fd ]} ∪ (base ∪ owned (raw_tx_sockfd s) ∪ owned (raw_rx_sockfd s)).
Proof.
  intros [Hf Ht Hr Htr Hi Hn Hc] Es Hfd. pose proof (fds_socket (raw_io s)) as L. rewrite Es in L.
  destruct L as [[? _]|(_ & Hnew & Hw)]; [lia|]. by rewrite Hf in *.
Qed.

Lemma socket_failed s w' fd :
  sock_socket (raw_io s) = (w', fd) -> fd < 0 -> fds w' = fds (raw_io s) /\ owned fd = ∅.
Proof.
  intros Es Hfd. pose proof (fds_socket (raw_io s)) as L. rewrite Es in L.
  destruct L as [[_ ?]|(? & _)]; [|lia]. split; [done|]. unfold owned. by rewrite (proj2 (Z.leb_gt _ _)).
Qed.

Lemma raw_tx_socket_setup_inv base s i s' ret :
  raw_inv base s -> raw_tx_socket_setup s i = (s', ret) -> raw_inv base s'.
Proof.
  intros Hi. pose proof Hi as [Hf Ht Hr Htr Hif Hn Hc]. unfold raw_tx_socket_setup.
  destruct (Z.leb_spec 0 (raw_tx_sockfd s)) as [Hge|Hlt]; [by intros [= <- <-]|].
  rewrite (owned_neg (raw_tx_sockfd s)) in * by done.
  destruct (sock_socket (raw_io s)) as [w1 fd] eqn:Es. destruct (Z.ltb_spec fd 0) as [Hfd|Hfd].
  { destruct (socket_failed s w1 fd Es Hfd) as [Hw Ho]. intros [= <- <-].
    split; cbn; rewrite ?Ho, ?Hw; done. }
  destruct (socket_new base s w1 fd Hi Es Hfd) as [Hnew Hw].
  destruct (sock_bind w1 fd _) as [w2 rb] eqn:Eb. pose proof (law_fst _ fds _ _ _ Eb (fds_bind _ _ _)) as Hw2.
  rewrite (owned_neg (raw_tx_sockfd s)) in * by done. destruct (set_new _ _ _ _ Hnew) as (Hb & _ & Hrx).
  destruct (rb <? 0); intros [= <- <-]; split; cbn; rewrite ?(owned_neg (-1)), ?(owned_nonneg fd) by lia;
    rewrite ?fds_close, ?Hw2, ?Hw, ?set_remove_new by done; try done. apply set_union_tx.
Qed.

Lemma raw_rx_socket_start_inv base s i s' ret :
  raw_inv base s -> raw_rx_sockfd s < 0 -> raw_rx_socket_start s i = (s', ret) -> raw_inv base s'.
Proof.
  intros Hi Hlt. pose proof Hi as [Hf Ht Hr Htr Hif Hn Hc]. unfold raw_rx_socket_start.
  rewrite (owned_neg (raw_rx_sockfd s)) in * by done.
  assert (Hstop : raw_rx_running s = false) by (destruct (raw_rx_running s); [specialize (Hn eq_refl); lia|done]).
  assert (Hnone : forall fd, fd < 0 -> 0 <= fd <-> is_Some (raw_rx_iface s)) by (intros; rewrite <- Hif; lia).
  destruct (sock_socket (raw_io s)) as [w1 fd] eqn:Es. destruct (Z.ltb_spec fd 0) as [Hfd|Hfd].
  { destruct (socket_failed s w1 fd Es Hfd) as [Hw Ho]. intros [= <- <-].
    split; cbn; rewrite ?Ho, ?Hw, ?Hstop; auto; done. }
  destruct (socket_new base s w1 fd Hi Es Hfd) as [Hnew Hw].
  destruct (sock_bind w1 fd _) as [w2 rb] eqn:Eb. pose proof (law_fst _ fds _ _ _ Eb (fds_bind _ _ _)) as Hw2.
  rewrite (owned_neg (raw_rx_sockfd s)) in * by done. destruct (set_new _ _ _ _ Hnew) as (Hb & Htx & _).
  destruct (rb <? 0); intros [= <- <-]; split; cbn; rewrite ?(owned_neg (-1)), ?(owned_nonneg fd) by lia;
    rewrite ?fds_close, ?Hw2, ?Hw, ?Hstop, ?set_remove_new by done; try done.
  - by apply Hnone.
  - apply set_union_rx.
Qed.

(** The operations. *)

Lemma wifi_data_raw_frame_tx_inv base s iface frame len s' ret :
  raw_inv base s -> wifi_data_raw_frame_tx s iface frame len = Ret (s', ret) -> raw_inv base s'.
Proof.
  intros Hi. unfold wifi_data_raw_frame_tx. cbn zeta.
  set (s0 := set_tx_diag s _ _ len _ _).
  assert (Hs0 : raw_inv base s0) by (eapply same_socks_inv; [by apply same_socks_diag | done]).
  assert (Hfail : forall x e, raw_inv base x -> raw_inv base (set_last_ret x e)).
  { intros x e Hx. eapply same_socks_inv; [by apply same_socks_diag | done]. }
  destruct iface as [i|], frame as [f|]; [|intros [= <- <-]; auto..].
  destruct (negb _); [intros [= <- <-]; auto|]. destruct (_ || _); [intros [= <- <-]; auto|].
  destruct (net_eth_txinjection_mode _ _ _) as [w1 inj] eqn:Ej.
  pose proof (law_fst _ fds _ _ _ Ej (fds_txinjection _ _ _)) as Hw1.
  set (s1 := set_tx_diag s0 inj _ len _ w1).
  assert (Hs1 : raw_inv base s1) by (eapply same_socks_inv; [by apply same_socks_diag | done]).
  destruct (negb _); [intros [= <- <-]; auto|].
  destruct (raw_tx_socket_setup s1 i) as [s2 r] eqn:Es. apply raw_tx_socket_setup_inv with (base := base) in Es; [|done].
  destruct (negb _); [intros [= <- <-]; auto|]. destruct (zlen f <? len); [done|].
  destruct (store_at _ _ _) as [buf|]; [|done].
  destruct (sock_sendto _ _ _ _) as [w3 sent] eqn:Ed. pose proof (law_fst _ fds _ _ _ Ed (fds_sendto _ _ _ _)) as Hw3.
  destruct (sent <? 0); intros [= <- <-]; apply Hfail;
    (eapply same_socks_inv; [by apply same_socks_buf | done]).
Qed.

Lemma raw_rx_bring_up_fds n r w i : fds (fst (raw_rx_bring_up n r w i)) = fds w.
Proof.
  revert r w. induction n as [|n IH]; intros r w; cbn; [done|].
  pose proof (fds_up w i) as Hu. destruct (net_if_up w i) as [w1 ret]. cbn in Hu.
  destruct (ret =? 0); cbn; [done|]. by rewrite IH, fds_sleep.
Qed.

Lemma raw_rx_configure_socks s i channel : same_socks s (fst (raw_rx_configure s i channel)).
Proof.
  unfold raw_rx_configure. cbn zeta.
  destruct (net_mgmt_raw _ _ _) as [[w2 ret] ?] eqn:E2.
  assert (F2 : fds w2 = fds (raw_io s)) by (pose proof (fds_mgmt (raw_io s) i (WIFI_MODE_SET (net_if_get_by_iface (raw_io s) i) 2)) as L; by rewrite E2 in L).
  destruct (negb _); [by apply same_socks_io|].
  destruct (net_mgmt_raw w2 _ _) as [[w3 got] mode] eqn:E3.
  assert (F3 : fds w3 = fds w2) by (pose proof (fds_mgmt w2 i (WIFI_MODE_GET (net_if_get_by_iface w2 i))) as L; by rewrite E3 in L).
  set (s3 := set_rx_info s _ _ _ _).
  assert (S3 : same_socks s s3) by (split; try done; cbn; by rewrite fds_sleep, F3, F2).
  destruct (net_eth_txinjection_mode _ _ _) as [w4 inj] eqn:E4.
  pose proof (law_fst _ fds _ _ _ E4 (fds_txinjection _ _ _)) as F4.
  destruct (negb _); [eapply same_socks_trans, same_socks_io; [exact S3|exact F4]|].
  destruct (if negb (channel =? 0) then _ else _) as [w5 chan] eqn:E5.
  assert (F5 : fds w5 = fds w4).
  { destruct (negb (channel =? 0)); [|by simplify_eq].
    match type of E5 with context [net_mgmt_raw w4 i ?m] => pose proof (fds_mgmt w4 i m) as L end.
    destruct (net_mgmt_raw w4 i _) as [[w r] x]. cbn in L. by simplify_eq. }
  destruct (negb (chan =? 0)); [eapply same_socks_trans, same_socks_io; [done|congruence]|].
  destruct (net_mgmt_raw w5 _ _) as [[w6 filt] ?] eqn:E6.
  assert (F6 : fds w6 = fds w5) by (pose proof (fds_mgmt w5 i (WIFI_PACKET_FILTER_ALL_SET (net_if_get_by_iface w5 i) RAW_RX_FILTER_BUFFER_SIZE)) as L; by rewrite E6 in L).
  destruct (negb (filt =? 0)); (eapply same_socks_trans, same_socks_io; [done|congruence]).
Qed.

Lemma wifi_data_raw_frame_rx_enable_inv base s iface channel :
  raw_inv base s -> raw_inv base (fst (wifi_data_raw_frame_rx_enable s iface channel)).
Proof.
  intros Hi. unfold wifi_data_raw_frame_rx_enable. destruct iface as [i|]; [|done].
  destruct (negb _); [done|]. destruct (Z.leb_spec 0 (raw_rx_sockfd s)) as [Hge|Hlt]; [done|].
  destruct (if negb _ then _ else _) as [w1 up] eqn:E1.
  assert (F1 : fds w1 = fds (raw_io s)).
  { destruct (negb _); [|by simplify_eq]. by rewrite <- (raw_rx_bring_up_fds 5 (- EIO) (raw_io s) i), E1. }
  assert (S1 : same_socks s (with_io s w1)) by by apply same_socks_io.
  cbn zeta. destruct (negb (up =? 0)); [by eapply same_socks_inv|].
  pose proof (raw_rx_configure_socks (with_io s w1) i channel) as S2.
  destruct (raw_rx_configure _ i channel) as [s2 ret]. cbn in S2.
  pose proof (same_socks_trans _ _ _ S1 S2) as S12. pose proof (same_socks_inv base _ _ S12 Hi) as I2.
  destruct (negb (ret =? 0)); [done|]. destruct (raw_rx_socket_start s2 i) as [s' r] eqn:Es.
  eapply raw_rx_socket_start_inv; [done| |exact Es]. by rewrite (ss_rx _ _ S12).
Qed.

Lemma wifi_data_raw_frame_rx_disable_inv base s :
  raw_inv base s -> raw_inv base (fst (wifi_data_raw_frame_rx_disable s)).
Proof.
  intros Hi. pose proof Hi as [Hf Ht Hr Htr Hif Hn Hc]. unfold wifi_data_raw_frame_rx_disable.
  destruct (Z.ltb_spec (raw_rx_sockfd s) 0) as [Hlt|Hge]; [done|].
  rewrite (owned_nonneg (raw_rx_sockfd s)) in * by done.
  split; cbn; rewrite ?(owned_neg (-1)) by lia; try done.
  rewrite fds_close, Hf. by apply set_remove_rx.
Qed.

Lemma raw_rx_iteration_inv base s : raw_inv base s -> raw_inv base (raw_rx_iteration s).
Proof.
  intros Hi. unfold raw_rx_iteration. destruct (negb _); [done|]. cbn zeta.
  destruct (sock_poll _ _) as [w1 pret] eqn:Ep. pose proof (law_fst _ fds _ _ _ Ep (fds_poll _ _)) as F1.
  assert (Hstop : forall w, fds w = fds (raw_io s) ->
    raw_inv base (set_rx s (raw_rx_sockfd s) (raw_rx_addr s) (raw_rx_iface s) false w)).
  { intros w Hw. destruct Hi. split; cbn; try done. by rewrite Hw. }
  destruct (pret <? 0); [by apply Hstop|]. destruct (pret =? 0); [by eapply same_socks_inv; [apply same_socks_io|]|].
  destruct (sock_recvfrom _ _ _) as [w2 r] eqn:Er. pose proof (law_fst _ fds _ _ _ Er (fds_recvfrom _ _ _)) as F2.
  assert (S2 : same_socks s (with_io s w2)) by (apply same_socks_io; congruence).
  destruct r as [bs| |e]; [|by eapply same_socks_inv|].
  - eapply same_socks_inv; [|done]. split; try done. cbn.
    pose proof (ri_cb _ _ Hi) as Hc. unfold cb_keeps in Hc. destruct (raw_rx_cb s); [rewrite Hc|]; congruence.
  - destruct (e =? EAGAIN); [by eapply same_socks_inv | apply Hstop; congruence].
Qed.

(** Every entry point, in any order. *)
Inductive raw_step : raw_state -> raw_state -> Prop :=
| rs_tx s iface frame len s' ret :
    wifi_data_raw_frame_tx s iface frame len = Ret (s', ret) -> raw_step s s'
| rs_enable s iface channel : raw_step s (fst (wifi_data_raw_frame_rx_enable s iface channel))
| rs_disable s : raw_step s (fst (wifi_data_raw_frame_rx_disable s))
| rs_iteration s : raw_step s (raw_rx_iteration s)
| rs_set_cb s cb : cb_keeps cb -> raw_step s (wifi_data_set_raw_rx_cb s cb).

Lemma raw_step_inv base s s' : raw_step s s' -> raw_inv base s -> raw_inv base s'.
Proof.
  intros [] Hi.
  - by eapply wifi_data_raw_frame_tx_inv.
  - by apply wifi_data_raw_frame_rx_enable_inv.
  - by apply wifi_data_raw_frame_rx_disable_inv.
  - by apply raw_rx_iteration_inv.
  - destruct Hi. by split.
Qed.

Lemma raw_rtc_inv base s s' : rtc raw_step s s' -> raw_inv base s -> raw_inv base s'.
Proof. induction 1; eauto using raw_step_inv. Qed.

(** The static initialisers. *)
Definition raw_boot (w : W) : raw_state :=
  mk_raw_state (-1) 0 (replicate (Z.to_nat 2358) 0) 0 0 0 0 0 false (-1) 0 None None false 0 0 w.

Lemma raw_boot_inv w : raw_inv (fds w) (raw_boot w).
Proof.
  split; cbn; rewrite ?(owned_neg (-1)) by lia;
    first [done | by rewrite !(right_id_L ∅ _) | apply disjoint_empty_l].
Qed.

(** C39. No descriptor leaks: in every state reached by any sequence of
    transmissions, enable and disable calls and iterations of the receive thread,
    whatever fails in them, the open descriptors are those open at boot, one for
    transmission once it was set up and one for reception while it is enabled,
    all different; a running thread has a socket, and disabling closes it. *)
Theorem raw_descriptors (w : W) (s : raw_state) :
  rtc raw_step (raw_boot w) s ->
  fds (raw_io s) = fds w ∪ owned (raw_tx_sockfd s) ∪ owned (raw_rx_sockfd s) /\
  owned (raw_tx_sockfd s) ## fds w /\ owned (raw_rx_sockfd s) ## fds w /\
  owned (raw_tx_sockfd s) ## owned (raw_rx_sockfd s) /\
  (0 <= raw_rx_sockfd s <-> is_Some (raw_rx_iface s)) /\
  (raw_rx_running s = true -> 0 <= raw_rx_sockfd s) /\
  fds (raw_io (fst (wifi_data_raw_frame_rx_disable s))) = fds w ∪ owned (raw_tx_sockfd s).
Proof.
  intros Hr.
  pose proof (raw_rtc_inv _ _ _ Hr (raw_boot_inv w)) as Hi.
  pose proof (ri_fds _ _ (wifi_data_raw_frame_rx_disable_inv _ _ Hi)) as Hd.
  destruct Hi as [Hf Ht Hx Htx Hif Hn _]. do 6 (split; [done|]). rewrite Hd.
  unfold wifi_data_raw_frame_rx_disable. destruct (Z.ltb_spec (raw_rx_sockfd s) 0) as [Hlt|Hge]; cbn;
    rewrite ?(owned_neg (-1)), ?(owned_neg (raw_rx_sockfd s)) by lia; by rewrite (right_id_L ∅ _).
Qed.

(** After a receive error the thread is gone but the socket is not, so enabling
    again reports success and starts nothing. *)
Lemma raw_rx_enable_dead s i channel :
  raw_rx_running s = false -> 0 <= raw_rx_sockfd s -> net_if_is_wifi (raw_io s) i = true ->
  wifi_data_raw_frame_rx_enable s (Some i) channel = (s, 0).
Proof.
  intros _ Hfd Hw. unfold wifi_data_raw_frame_rx_enable. by rewrite Hw, (proj2 (Z.leb_le _ _)).
Qed.

End WifiRaw.

(** ** Witnesses *)

(** A platform with two descriptors, one Wi-Fi interface and the datagrams sent. *)
Definition DemoRaw : Type := gset Z * list (list Z).

#[export] Instance DemoRawNet : NetIfApi DemoRaw := {
  net_if := unit;
  net_if_all n := [tt];
  net_if_get_by_index n i := if i =? 1 then Some tt else None;
  net_if_get_by_iface n i := 1;
  net_if_get_mtu n i := 1500;
  net_if_is_admin_up n i := true;
  net_if_is_carrier_ok n i := true;
  net_if_is_dormant n i := false;
  net_if_oper_state n i := 6;
  net_if_is_wifi n i := true;
  net_if_get_link_addr n i := None;
  net_if_get_name n i len := None;
  net_if_flag_is_set n i f := false;
  net_if_up n i := (n, 0);
  net_if_down n i := (n, 0);
  net_if_carrier_on n i := n;
  net_if_carrier_off n i := n;
  net_if_dormant_on n i := n;
  net_if_dormant_off n i := n;
  net_if_flag_set n i f := n;
  net_if_flag_clear n i f := n
}.

#[export] Instance DemoRawIo : RawIo DemoRaw := {
  net_eth_txinjection_mode w i b := (w, 0);
  net_mgmt_raw w i m := (w, 0, 2);
  sock_socket w :=
    if decide (5 ∈ fst w) then
      if decide (6 ∈ fst w) then (w, -1) else (({[ 6 ]} ∪ fst w, snd w), 6)
    else (({[ 5 ]} ∪ fst w, snd w), 5);
  sock_bind w fd a := (w, 0);
  sock_close w fd := (fst w ∖ {[ fd ]}, snd w);
  sock_sendto w fd bs a := ((fst w, snd w ++ [bs]), zlen bs);
  sock_poll w fd := (w, 0);
  sock_recvfrom w fd n := (w, RecvNone);
  k_sleep_ms w ms := w;
  nrf_wifi_start_zep_last_step w := 10
}.

#[export, refine] Instance DemoRawLaws : RawIoLaws DemoRaw := { fds := fst }.
Proof.
  1-8: done.
  - intros w. cbn. destruct (decide (5 ∈ fst w)); [destruct (decide (6 ∈ fst w))|]; auto with lia.
  - done.
Defined.

Definition demo_iface : net_if (N := DemoRaw) := tt.
Definition demo_raw : raw_state (W := DemoRaw) := raw_boot (∅, []).

(** The state after a call that returns. *)
Definition after (d : raw_state (W := DemoRaw)) (o : outcome (raw_state * Z)) : raw_state :=
  match o with Ret (s, _) => s | _ => d end.

Definition demo_sent : raw_state (W := DemoRaw) :=
  after demo_raw (wifi_data_raw_frame_tx demo_raw (Some demo_iface) (Some (replicate 30 7)) 30).

Lemma demo_sent_run :
  wifi_data_raw_frame_tx demo_raw (Some demo_iface) (Some (replicate 30 7)) 30 = Ret (demo_sent, 0).
Proof. vm_compute. reflexivity. Qed.

Lemma raw_frame_tx_result_witness :
  exists s' : raw_state (W := DemoRaw),
    wifi_data_raw_frame_tx demo_raw (Some demo_iface) (Some (replicate 30 7)) 30 = Ret (s', 0) /\
    raw_tx_last_ret s' = 0 /\
    snd (raw_io s') = [[0x78; 0x56; 0x34; 0x12; 6; 30; 0; 0; 1; 0; 0; 0] ++ replicate 30 7].
Proof.
  destruct (raw_frame_tx_result demo_raw demo_iface (replicate 30 7) 30) as (_ & s' & Hr & Hio & _ & Hl & _);
    [reflexivity | discriminate |].
  exists s'. split; [exact Hr|]. split; [exact Hl|]. rewrite Hio. vm_compute. reflexivity.
Defined.

(** Transmit, enable, disable: the transmission socket stays. *)
Lemma raw_descriptors_witness :
  let w : DemoRaw := (∅, []) in
  exists s, rtc raw_step (raw_boot w) s /\ raw_rx_running s = true /\
    fds (raw_io s) = fds w ∪ owned 5 ∪ owned 6 /\
    fds (raw_io (fst (wifi_data_raw_frame_rx_disable s))) = fds w ∪ owned 5.
Proof.
  intros w. pose (s2 := fst (wifi_data_raw_frame_rx_enable demo_sent (Some demo_iface) 6)).
  assert (Hr : rtc raw_step (raw_boot w) s2).
  { eapply rtc_l; [eapply rs_tx; exact demo_sent_run|]. eapply rtc_l; [apply rs_enable|]. apply rtc_refl. }
  exists s2. split; [exact Hr|].
  destruct (raw_descriptors w s2 Hr) as (Hf & _ & _ & _ & _ & _ & Hd).
  assert (Hrun : raw_rx_running s2 = true) by (vm_compute; reflexivity).
  assert (Ht : raw_tx_sockfd s2 = 5) by (vm_compute; reflexivity).
  assert (Hx : raw_rx_sockfd s2 = 6) by (vm_compute; reflexivity).
  rewrite Ht, Hx in *. auto.
Defined.
