(* ===== verification/WifiMgmt.v ===== *)
(** * WifiMgmt: Wi-Fi management requests, [device/wifi_mgmt_proxy.c]

    [process_wifi_mgmt_request] and its handlers.  The [NET_REQUEST_WIFI_*]
    calls are a class over the platform state [W] (which the raw-frame requests
    share with [WifiRaw]); the nanopb code of [wifi.proto] is a class too.  A
    pointer with its length is an [option] of the bytes it refers to.

    The response is a C union: the three query handlers are given the data member
    and the status member of the same memory, whose first bytes, [has_*] and
    [success], coincide.  [get_result] keeps that: what was written last, and the
    shared first byte, which the caller tests. *)

From S2P Require Import Prelude NetIfMgmt WifiEnums WifiRaw ProxyThread.
From Stdlib Require Import ZArith Lia String.
From stdpp Require Import base list option numbers decidable.

Open Scope Z_scope.
Open Scope e80211_scope.

Definition WIFI_SSID_MAX_LEN : Z := 32.
Definition MAX_PSK_LEN_CB : Z := 64.
Definition MAX_SAE_PASSWORD_LEN_CB : Z := 128.
Definition MAX_AP_PSK_LEN : Z := 64.
Definition MAX_REG_CHAN_NUM : Z := 42.
Definition WIFI_CHANNEL_ANY : Z := 255.         (* Zephyr's *)
Definition P_WIFI_CHANNEL_ANY : Z := 0.         (* the proto's *)

#[export] Instance wifi_security_type_eq_dec : EqDecision wifi_security_type.
Proof. solve_decision. Defined.

(** ** Zephyr's parameter structures *)

Record wifi_connect_req_params : Type := mk_wifi_connect_req_params {
  cp_ssid : option (list Z);
  cp_psk : option (list Z);
  cp_sae_password : option (list Z);
  cp_eap_identity : option (list Z);
  cp_eap_password : option (list Z);
  cp_band : wifi_frequency_bands;
  cp_channel : Z;
  cp_security : wifi_security_type;
  cp_mfp : wifi_mfp_options;
  cp_bssid : list Z;
  cp_timeout : Z
}.

Record wifi_scan_params : Type := mk_wifi_scan_params {
  sp_scan_type : wifi_scan_type;
  sp_bands : Z;
  sp_dwell_time_active : Z;
  sp_dwell_time_passive : Z;
  sp_max_bss_cnt : Z
}.

Inductive wifi_ps_param_type : Type :=
| WIFI_PS_PARAM_STATE | WIFI_PS_PARAM_LISTEN_INTERVAL | WIFI_PS_PARAM_TIMEOUT | WIFI_PS_PARAM_MODE.

Record wifi_ps_params : Type := mk_wifi_ps_params {
  pp_type : wifi_ps_param_type;
  pp_enabled : bool;             (* WIFI_PS_ENABLED? *)
  pp_listen_interval : Z;
  pp_timeout_ms : Z;
  pp_wmm : bool;                 (* WIFI_PS_MODE_WMM? *)
  pp_wakeup_mode : Z;
  pp_exit_strategy : Z
}.

Record wifi_reg_chan_info : Type := mk_wifi_reg_chan_info {
  rc_center_frequency : Z; rc_max_power : Z; rc_supported : bool; rc_passive_only : bool; rc_dfs : bool
}.

Record wifi_reg_domain : Type := mk_wifi_reg_domain {
  rd_country_code : Z * Z;
  rd_force : bool;
  rd_chan_info : list wifi_reg_chan_info    (* num_channels entries *)
}.

(** [current_phy_tx_rate] is a float in Mbps; the field here is the kbps value the
    code computes from it. *)
Record wifi_iface_status : Type := mk_wifi_iface_status {
  st_state : wifi_iface_state; st_ssid : list Z; st_bssid : list Z; st_band : wifi_frequency_bands;
  st_channel : Z; st_iface_mode : wifi_iface_mode; st_link_mode : wifi_link_mode;
  st_security : wifi_security_type; st_mfp : wifi_mfp_options; st_rssi : Z;
  st_dtim_period : Z; st_beacon_interval : Z; st_twt_capable : bool; st_tx_rate_kbps : Z
}.

Class WifiApi (W : Type) `{NetIfApi W} := {
  net_if_get_default : W -> option net_if;
  wifi_connect : W -> net_if -> wifi_connect_req_params -> W * Z;
  wifi_disconnect : W -> net_if -> W * Z;
  wifi_scan : W -> net_if -> option wifi_scan_params -> W * Z;
  wifi_ap_enable : W -> net_if -> wifi_connect_req_params -> W * Z;
  wifi_ap_disable : W -> net_if -> W * Z;
  wifi_version : W -> option net_if -> W * Z * option (list Z);     (* fw_version *)
  wifi_ps : W -> net_if -> wifi_ps_params -> W * Z;
  wifi_ps_config : W -> net_if -> W * Z * wifi_ps_params;
  wifi_reg_domain_set : W -> net_if -> Z * Z -> bool -> W * Z;
  wifi_reg_domain_get : W -> net_if -> Z -> W * Z * wifi_reg_domain; (* at most that many channels *)
  wifi_iface_status_get : W -> net_if -> W * Z * wifi_iface_status
}.

(** ** Messages of [wifi.proto] *)

Record WifiConnectRequest : Type := mk_WifiConnectRequest {
  cr_iface_index : Z; cr_ssid : list Z; cr_security_type : Z; cr_psk : list Z;
  cr_sae_password : list Z; cr_channel : Z; cr_bssid : list Z; cr_timeout_ms : Z; cr_mfp : Z;
  cr_band : Z; cr_eap_identity : list Z; cr_eap_password : list Z
}.

Record WifiScanParams : Type := mk_WifiScanParams {
  wsp_scan_type : Z; wsp_bands : Z; wsp_dwell_time_active : Z; wsp_dwell_time_passive : Z; wsp_max_bss_cnt : Z
}.

Record WifiApEnableParams : Type := mk_WifiApEnableParams {
  ap_ssid : list Z; ap_channel : Z; ap_band : Z; ap_security_type : Z; ap_psk : list Z
}.

Record WifiPsSettings : Type := mk_WifiPsSettings {
  ps_enabled : Z; ps_wakeup_mode : Z; ps_listen_interval_beacons : Z; ps_timeout_ms : Z; ps_exit_strategy : Z
}.

(** [ps_settings] with its presence flag, and [type]. *)
Record WifiPowerSaveConfig : Type := mk_WifiPowerSaveConfig {
  pc_ps_settings : option WifiPsSettings; pc_type : Z
}.

Definition WIFI_PS_STATE_DISABLE : Z := 0.
Definition WIFI_PS_STATE_ENABLE : Z := 1.
Definition WIFI_PS_TYPE_MODEM : Z := 1.
Definition WIFI_PS_TYPE_WMM : Z := 2.

Inductive WifiMgmtRequest_payload : Type :=
| connect_req (r : WifiConnectRequest)
| disconnect_req (iface_index : Z)
| scan_req (iface_index : Z) (params : option WifiScanParams)
| ap_enable_req (iface_index : Z) (params : option WifiApEnableParams)
| ap_disable_req (iface_index : Z)
| get_version_req
| set_ps_config_req (iface_index : Z) (config : option WifiPowerSaveConfig)
| get_ps_config_req (iface_index : Z)
| set_reg_domain_req (iface_index : Z) (reg_domain : option ((Z * Z) * bool))  (* country code, force *)
| get_reg_domain_req (iface_index : Z)
| get_iface_status_req (iface_index : Z)
| send_raw_frame_req (iface_index : Z) (frame : list Z)
| enable_raw_rx_req (iface_index channel : Z)
| disable_raw_rx_req (iface_index : Z)
| no_request.

Record WifiMgmtRequest : Type := mk_WifiMgmtRequest {
  wreq_request_id : Z;          (* RequestType *)
  wreq_payload : WifiMgmtRequest_payload
}.

Definition REQUEST_TYPE_CONNECT : Z := 1.
Definition REQUEST_TYPE_DISCONNECT : Z := 2.
Definition REQUEST_TYPE_SCAN : Z := 3.
Definition REQUEST_TYPE_AP_ENABLE : Z := 4.
Definition REQUEST_TYPE_AP_DISABLE : Z := 5.
Definition REQUEST_TYPE_GET_WIFI_VERSION : Z := 6.
Definition REQUEST_TYPE_SET_PS_CONFIG : Z := 7.
Definition REQUEST_TYPE_GET_PS_CONFIG : Z := 8.
Definition REQUEST_TYPE_SET_REG_DOMAIN : Z := 9.
Definition REQUEST_TYPE_GET_REG_DOMAIN : Z := 10.
Definition REQUEST_TYPE_GET_IFACE_STATUS : Z := 11.
Definition REQUEST_TYPE_GET_PROTOCOL_VERSION : Z := 12.
Definition REQUEST_TYPE_SEND_RAW_FRAME : Z := 13.
Definition REQUEST_TYPE_ENABLE_RAW_RX : Z := 14.
Definition REQUEST_TYPE_DISABLE_RAW_RX : Z := 15.

Record WifiStatusResponse : Type := mk_WifiStatusResponse {
  success : bool;
  error_code : Z;
  error_message : string
}.

Record WifiInterfaceStatus : Type := mk_WifiInterfaceStatus {
  is_state : Z; is_mode : Z; is_ssid : list Z; is_bssid : list Z; is_channel : Z; is_security : Z;
  is_mfp : Z; is_rssi : Z; is_link_mode : Z; is_tx_bitrate_kbps : Z; is_band : Z;
  is_dtim_period : Z; is_beacon_interval : Z; is_twt_capable : bool
}.

Record EnableRawRxResponse : Type := mk_EnableRawRxResponse {
  er_status : Z;
  er_diag : raw_diag;
  er_iface_state : wifi_iface_state
}.

(** The diagnostic fields before [wifi_data_raw_rx_diag] fills them in: what the
    handler assigns, 0 where it assigns nothing. *)
Definition raw_diag_initial : raw_diag := mk_raw_diag (-1) false 0 0 0 0 0 0 0 0 0 false.

Inductive WifiMgmtResponse_payload : Type :=
| status_resp (s : WifiStatusResponse)
| get_version_resp (has_version : bool) (driver : Z * Z * Z) (firmware_version : list Z)
| get_ps_config_resp (config : WifiPowerSaveConfig)
| get_reg_domain_resp (country_code : Z * Z) (force_update : bool) (channel_info : list wifi_reg_chan_info)
| get_iface_status_resp (status : WifiInterfaceStatus)
| enable_raw_rx_resp (r : EnableRawRxResponse)
| get_protocol_version_resp (major minor : Z).

Record WifiMgmtResponse : Type := mk_WifiMgmtResponse {
  wresp_request_id : Z;
  wresp_payload : WifiMgmtResponse_payload
}.

Class WifiCodec := {
  WifiMgmtRequest_decode : list Z -> option WifiMgmtRequest;
  WifiMgmtResponse_encode : Z -> WifiMgmtResponse -> option (list Z)
}.

(** What a query handler left in the union. *)
Inductive get_result (D : Type) : Type :=
| GetErr (s : WifiStatusResponse)
| GetData (d : D).
Arguments GetErr {D} _.
Arguments GetData {D} _.

(** [has_*] shares its byte with [success]. *)
Definition has_flag {D} (r : get_result D) : bool :=
  match r with GetErr s => success s | GetData _ => true end.

Section WifiMgmt.
Context {W : Type} `{NetIfApi W} `{!RawIo W} `{!WifiApi W}.

(** [WIFI_MGMT_SCAN_MAX_BSS_CNT], a constant of Zephyr's build, and a bound on the
    interfaces that [resolve_wifi_iface] looks at. *)
Context (WIFI_MGMT_SCAN_MAX_BSS_CNT : Z) (fuel : nat).

(** The raw-frame variables with the platform, and the static copies of the AP
    parameters. *)
Record mgmt_state : Type := mk_mgmt_state {
  ms_raw : raw_state (W := W);
  ap_enable_ssid : list Z;      (* 32 bytes *)
  ap_enable_psk : list Z        (* 64 bytes *)
}.

Definition ms_io (s : mgmt_state) : W := raw_io (ms_raw s).

Definition ms_with (s : mgmt_state) (w : W) : mgmt_state :=
  mk_mgmt_state (with_io (ms_raw s) w) (ap_enable_ssid s) (ap_enable_psk s).

Definition ms_with_raw (s : mgmt_state) (r : raw_state) : mgmt_state :=
  mk_mgmt_state r (ap_enable_ssid s) (ap_enable_psk s).

Definition st_fail (e : Z) (msg : string) : WifiStatusResponse := mk_WifiStatusResponse false e msg.
Definition st_ok (msg : string) : WifiStatusResponse := mk_WifiStatusResponse true 0 msg.

(** ** Interface lookup *)

Fixpoint first_wifi_iface (n : nat) (w : W) (i : Z) : outcome (option net_if) :=
  match n with
  | O => OutOfFuel
  | S n' =>
      match net_if_get_by_index w i with
      | None => Ret None
      | Some iface => if net_if_is_wifi w iface then Ret (Some iface) else first_wifi_iface n' w (i + 1)
      end
  end.

Definition resolve_wifi_iface (w : W) (ifindex : Z) : outcome (option net_if) :=
  if negb (ifindex =? 0) then Ret (net_if_get_by_index w (to_int ifindex))
  else first_wifi_iface fuel w 1.

(** The first lines of every handler. *)
Definition with_wifi_iface {A} (s : mgmt_state) (ifindex : Z) (absent : A) (k : net_if -> mgmt_state * A)
  : outcome (mgmt_state * A) :=
  do! iface <- resolve_wifi_iface (ms_io s) ifindex;
  match iface with
  | None => Ret (s, absent)
  | Some i => Ret (k i)
  end.

(** The last lines: the result of [net_mgmt]. *)
Definition finish (s : mgmt_state) (r : W * Z) (failed done : string) : mgmt_state * WifiStatusResponse :=
  (ms_with s (fst r), if negb (snd r =? 0) then st_fail (snd r) failed else st_ok done).

(** ** Connect, disconnect, scan *)

(** The parameters, or the field that is refused.  (The translator never gives
    EAP_TLS, the other type the code tests for.) *)
Definition connect_params (req : WifiConnectRequest) : string + wifi_connect_req_params :=
  let security := proto_to_zephyr_security (cr_security_type req) in
  let is_psk := bool_decide (security = WIFI_SECURITY_TYPE_PSK)
                || bool_decide (security = WIFI_SECURITY_TYPE_WPA_PSK)
                || bool_decide (security = WIFI_SECURITY_TYPE_PSK_SHA256) in
  let is_sae := bool_decide (security = WIFI_SECURITY_TYPE_SAE) in
  let is_eap := bool_decide (security = WIFI_SECURITY_TYPE_EAP) in
  let bad len max := (len =? 0) || (max <? len) in
  if bad (zlen (cr_ssid req)) WIFI_SSID_MAX_LEN then inl "Invalid SSID length"%string
  else if is_psk && bad (zlen (cr_psk req)) MAX_PSK_LEN_CB then inl "Invalid PSK length"%string
  else if negb is_psk && is_sae && bad (zlen (cr_sae_password req)) MAX_SAE_PASSWORD_LEN_CB
  then inl "Invalid SAE password length"%string
  else
    inr {| cp_ssid := Some (cr_ssid req);
           cp_psk := if is_psk then Some (cr_psk req) else None;
           cp_sae_password := if negb is_psk && is_sae then Some (cr_sae_password req) else None;
           cp_eap_identity := if is_eap then Some (cr_eap_identity req) else None;
           cp_eap_password := if is_eap then Some (cr_eap_password req) else None;
           cp_band := proto_to_zephyr_band (cr_band req);
           cp_channel := if cr_channel req =? P_WIFI_CHANNEL_ANY then WIFI_CHANNEL_ANY
                         else u8 (cr_channel req);
           cp_security := security;
           cp_mfp := proto_to_zephyr_mfp (cr_mfp req);
           cp_bssid := cr_bssid req;
           cp_timeout := u32 (cr_timeout_ms req + 999) / 1000 |}.

Definition handle_connect_request (s : mgmt_state) (req : WifiConnectRequest)
  : outcome (mgmt_state * WifiStatusResponse) :=
  with_wifi_iface s (cr_iface_index req) (st_fail (- ENODEV) "Interface not found") (fun i =>
    match connect_params req with
    | inl msg => (s, st_fail (- EINVAL) msg)
    | inr params =>
        finish s (wifi_connect (ms_io s) i params) "Wi-Fi connect request failed" "Connect initiated"
    end).

Definition handle_disconnect_request (s : mgmt_state) (ifindex : Z)
  : outcome (mgmt_state * WifiStatusResponse) :=
  with_wifi_iface s ifindex (st_fail (- ENODEV) "Interface not found") (fun i =>
    finish s (wifi_disconnect (ms_io s) i) "Wi-Fi disconnect request failed" "Disconnect initiated").

(** [params.bands] is assigned the enumerator WIFI_FREQ_BAND_2_4_GHZ, whose value
    is 0. *)
Definition handle_scan_request (s : mgmt_state) (ifindex : Z) (params : option WifiScanParams)
  : outcome (mgmt_state * WifiStatusResponse) :=
  with_wifi_iface s ifindex (st_fail (- ENODEV) "Interface not found for scan") (fun i =>
    let zp :=
      match params with
      | Some p =>
          Some (mk_wifi_scan_params (proto_to_zephyr_scan_type (wsp_scan_type p)) 0
                  (u16 (wsp_dwell_time_active p)) (u16 (wsp_dwell_time_passive p))
                  WIFI_MGMT_SCAN_MAX_BSS_CNT)
      | None => None
      end in
    finish s (wifi_scan (ms_io s) i zp) "Wi-Fi scan request failed" "Scan initiated").

(** ** Access point *)

(** The checks of [handle_ap_enable_request], in order. *)
Definition ap_enable_check (p : WifiApEnableParams) : option (Z * string) :=
  let security := proto_to_zephyr_security (ap_security_type p) in
  let sec_is t := bool_decide (security = t) in
  if (zlen (ap_ssid p) =? 0) || (WIFI_SSID_MAX_LEN <? zlen (ap_ssid p))
  then Some (- EINVAL, "Invalid AP SSID length"%string)
  else if negb (sec_is WIFI_SECURITY_TYPE_NONE) && negb (sec_is WIFI_SECURITY_TYPE_PSK)
          && negb (sec_is WIFI_SECURITY_TYPE_SAE) && negb (sec_is WIFI_SECURITY_TYPE_WEP)
  then Some (- ENOTSUP, "AP security type not supported"%string)
  else if MAX_AP_PSK_LEN <? zlen (ap_psk p) then Some (- EINVAL, "AP PSK too long"%string)
  else if (sec_is WIFI_SECURITY_TYPE_PSK || sec_is WIFI_SECURITY_TYPE_SAE) && (zlen (ap_psk p) =? 0)
  then Some (- EINVAL, "AP PSK missing"%string)
  else if negb (ap_channel p =? P_WIFI_CHANNEL_ANY) && (233 <? ap_channel p)
  then Some (- EINVAL, "Invalid AP channel"%string)
  else None.

(** The static copies, and the parameters that point into them. *)
Definition ap_enable_copy (s : mgmt_state) (p : WifiApEnableParams) : mgmt_state :=
  mk_mgmt_state (ms_raw s) (copy_to (ap_enable_ssid s) (ap_ssid p))
    (if 0 <? zlen (ap_psk p) then copy_to (ap_enable_psk s) (ap_psk p) else ap_enable_psk s).

Definition ap_enable_params (s : mgmt_state) (p : WifiApEnableParams) : wifi_connect_req_params :=
  {| cp_ssid := Some (ztake (zlen (ap_ssid p)) (ap_enable_ssid s));
     cp_psk := if 0 <? zlen (ap_psk p) then Some (ztake (zlen (ap_psk p)) (ap_enable_psk s)) else None;
     cp_sae_password := None; cp_eap_identity := None; cp_eap_password := None;
     cp_band := proto_to_zephyr_band (ap_band p);
     cp_channel := if ap_channel p =? P_WIFI_CHANNEL_ANY then WIFI_CHANNEL_ANY else u8 (ap_channel p);
     cp_security := proto_to_zephyr_security (ap_security_type p);
     cp_mfp := WIFI_MFP_DISABLE; cp_bssid := replicate 6 0; cp_timeout := 0 |}.

Definition handle_ap_enable_request (s : mgmt_state) (ifindex : Z) (params : option WifiApEnableParams)
  : outcome (mgmt_state * WifiStatusResponse) :=
  with_wifi_iface s ifindex (st_fail (- ENODEV) "Interface not found for AP enable") (fun i =>
    match params with
    | None => (s, st_fail (- EINVAL) "AP parameters missing")
    | Some p =>
        match ap_enable_check p with
        | Some (e, msg) => (s, st_fail e msg)
        | None =>
            let s1 := ap_enable_copy s p in
            finish s1 (wifi_ap_enable (ms_io s1) i (ap_enable_params s1 p))
              "Wi-Fi AP enable request failed" "AP enable initiated"
        end
    end).

Definition handle_ap_disable_request (s : mgmt_state) (ifindex : Z)
  : outcome (mgmt_state * WifiStatusResponse) :=
  with_wifi_iface s ifindex (st_fail (- ENODEV) "Interface not found for AP disable") (fun i =>
    finish s (wifi_ap_disable (ms_io s) i) "Wi-Fi AP disable request failed" "AP disable initiated").

(** ** Version *)

(** [strncpy] with a count of 63 into [firmware_version[32]]: the bytes of the
    array afterwards.  (The call also pads 31 bytes behind it, inside the union.) *)
Definition firmware_version_set (msg : list Z) : list Z := ztake 32 (ztake 63 msg ++ replicate 63 0).

Definition ascii_of (s : string) : list Z :=
  map (fun c => Z.of_nat (Ascii.nat_of_ascii c)) (String.list_ascii_of_string s).

Definition handle_get_version_request (s : mgmt_state) : mgmt_state * WifiMgmtResponse_payload :=
  let '(w, ret, fw) := wifi_version (ms_io s) (net_if_get_default (ms_io s)) in
  (ms_with s w,
   if ret =? 0
   then get_version_resp true (0, 0, 0) (firmware_version_set (default (ascii_of "N/A") fw))
   else get_version_resp false (0, 0, 0) (firmware_version_set (ascii_of "Failed to get version"))).

(** ** Power save *)

(** One [NET_REQUEST_WIFI_PS] per parameter, stopping at the first failure. *)
Definition ps_step (i : net_if) (failed : string) (params : wifi_ps_params)
    (k : mgmt_state -> mgmt_state * WifiStatusResponse) (s : mgmt_state)
  : mgmt_state * WifiStatusResponse :=
  let '(w, ret) := wifi_ps (ms_io s) i params in
  if negb (ret =? 0) then (ms_with s w, st_fail ret failed) else k (ms_with s w).

Definition handle_set_ps_config_request (s : mgmt_state) (ifindex : Z) (config : option WifiPowerSaveConfig)
  : outcome (mgmt_state * WifiStatusResponse) :=
  with_wifi_iface s ifindex (st_fail (- ENODEV) "Interface not found for PS config") (fun i =>
    match config with
    | Some (mk_WifiPowerSaveConfig (Some ps) ty) =>
        let enabled := ps_enabled ps =? WIFI_PS_STATE_ENABLE in
        let li := u16 (ps_listen_interval_beacons ps) in
        let has_li := 0 <? ps_listen_interval_beacons ps in
        let has_to := 0 <? ps_timeout_ms ps in
        let wmm := ty =? WIFI_PS_TYPE_WMM in
        let p1 := mk_wifi_ps_params WIFI_PS_PARAM_STATE enabled 0 0 false 0 0 in
        let li' := if has_li then li else 0 in
        let to' := if has_to then ps_timeout_ms ps else 0 in
        let p2 := mk_wifi_ps_params WIFI_PS_PARAM_LISTEN_INTERVAL enabled li' 0 false 0 0 in
        let p3 := mk_wifi_ps_params WIFI_PS_PARAM_TIMEOUT enabled li' to' false 0 0 in
        let p4 := mk_wifi_ps_params WIFI_PS_PARAM_MODE enabled li' to' wmm 0 0 in
        let set_mode := ps_step i "Set PS mode failed" p4 (fun s => (s, st_ok "Set PS config success")) in
        let set_timeout := if has_to then ps_step i "Set PS timeout failed" p3 set_mode else set_mode in
        let set_listen :=
          if has_li then ps_step i "Set PS listen interval failed" p2 set_timeout else set_timeout in
        ps_step i "Set PS state failed" p1 set_listen s
    | _ => (s, st_fail (- EINVAL) "PS config data missing")
    end).

Definition handle_get_ps_config_request (s : mgmt_state) (ifindex : Z)
  : outcome (mgmt_state * get_result WifiPowerSaveConfig) :=
  with_wifi_iface s ifindex (GetErr (st_fail (- ENODEV) "Interface not found for PS config")) (fun i =>
    let '(w, ret, p) := wifi_ps_config (ms_io s) i in
    (ms_with s w,
     if negb (ret =? 0) then GetErr (st_fail ret "Get PS config failed")
     else
       GetData (mk_WifiPowerSaveConfig
         (Some (mk_WifiPsSettings (if pp_enabled p then WIFI_PS_STATE_ENABLE else WIFI_PS_STATE_DISABLE)
                  (pp_wakeup_mode p) (pp_listen_interval p) (pp_timeout_ms p) (pp_exit_strategy p)))
         (if pp_wmm p then WIFI_PS_TYPE_WMM else WIFI_PS_TYPE_MODEM)))).

(** ** Regulatory domain *)

Definition is_letter (c : Z) : bool :=
  ((97 <=? c) && (c <=? 122)) || ((65 <=? c) && (c <=? 90)).

Definition to_upper (c : Z) : Z := if (97 <=? c) && (c <=? 122) then c - 97 + 65 else c.

Definition handle_set_reg_domain_request (s : mgmt_state) (ifindex : Z) (rd : option ((Z * Z) * bool))
  : outcome (mgmt_state * WifiStatusResponse) :=
  with_wifi_iface s ifindex (st_fail (- ENODEV) "Interface not found for RegDomain") (fun i =>
    match rd with
    | None => (s, st_fail (- EINVAL) "RegDomain data missing")
    | Some ((c0, c1), force) =>
        if (c0 =? 0) || (c1 =? 0) || negb (is_letter c0) || negb (is_letter c1)
        then (s, st_fail (- EINVAL) "Invalid country code")
        else
          let want := (to_upper c0, to_upper c1) in
          let '(w1, ret) := wifi_reg_domain_set (ms_io s) i want force in
          if negb (ret =? 0) then (ms_with s w1, st_fail ret "Set RegDomain failed")
          else
            let '(w2, ret2, got) := wifi_reg_domain_get w1 i MAX_REG_CHAN_NUM in
            if negb (ret2 =? 0) then (ms_with s w2, st_fail ret2 "Set RegDomain verify failed")
            else if negb (fst (rd_country_code got) =? fst want)
                    || negb (snd (rd_country_code got) =? snd want)
            then (ms_with s w2, st_fail (- EIO) "Set RegDomain not confirmed by driver")
            else (ms_with s w2, st_ok "Set RegDomain success")
    end).

(** [channel_info] of the response holds 64 entries. *)
Definition handle_get_reg_domain_request (s : mgmt_state) (ifindex : Z)
  : outcome (mgmt_state * get_result wifi_reg_domain) :=
  with_wifi_iface s ifindex (GetErr (st_fail (- ENODEV) "Interface not found for RegDomain")) (fun i =>
    let '(w, ret, got) := wifi_reg_domain_get (ms_io s) i MAX_REG_CHAN_NUM in
    (ms_with s w,
     if negb (ret =? 0) then GetErr (st_fail ret "Get RegDomain failed")
     else GetData (mk_wifi_reg_domain (rd_country_code got) (rd_force got) (ztake 64 (rd_chan_info got))))).

(** ** Interface status *)

Definition iface_status_to_proto (st : wifi_iface_status) : WifiInterfaceStatus :=
  let meaningful :=
    match st_state st with WIFI_STATE_ASSOCIATED | WIFI_STATE_COMPLETED => true | _ => false end
    || match st_iface_mode st with WIFI_MODE_AP => true | _ => false end in
  {| is_state := zephyr_to_proto_state (st_state st);
     is_mode := zephyr_to_proto_mode (st_iface_mode st);
     is_ssid := if (0 <? zlen (st_ssid st)) && (zlen (st_ssid st) <=? 32) then st_ssid st else [];
     is_bssid := if meaningful then st_bssid st else replicate 6 0;
     is_channel := st_channel st;
     is_security := zephyr_to_proto_security (st_security st);
     is_mfp := zephyr_to_proto_mfp (st_mfp st);
     is_rssi := st_rssi st;
     is_link_mode := zephyr_to_proto_link_mode (st_link_mode st);
     is_tx_bitrate_kbps := st_tx_rate_kbps st;
     is_band := zephyr_to_proto_band (st_band st);
     is_dtim_period := st_dtim_period st;
     is_beacon_interval := st_beacon_interval st;
     is_twt_capable := st_twt_capable st |}.

Definition handle_get_iface_status_request (s : mgmt_state) (ifindex : Z)
  : outcome (mgmt_state * get_result WifiInterfaceStatus) :=
  with_wifi_iface s ifindex (GetErr (st_fail (- ENODEV) "Interface not found for status")) (fun i =>
    let '(w, ret, st) := wifi_iface_status_get (ms_io s) i in
    (ms_with s w,
     if negb (ret =? 0) then GetErr (st_fail ret "Get IfaceStatus failed")
     else GetData (iface_status_to_proto st))).

(** ** Raw frames *)

Definition handle_send_raw_frame_request (s : mgmt_state) (ifindex : Z) (frame : list Z)
  : outcome (mgmt_state * WifiStatusResponse) :=
  do! iface <- resolve_wifi_iface (ms_io s) ifindex;
  match iface with
  | None => Ret (s, st_fail (- ENODEV) "Interface not found")
  | Some i =>
      do! (r, ret) <- wifi_data_raw_frame_tx (ms_raw s) (Some i) (Some frame) (zlen frame);
      Ret (ms_with_raw s r,
           if negb (ret =? 0) then st_fail ret "Raw frame TX failed" else st_ok "Raw frame transmitted")
  end.

Definition handle_enable_raw_rx_request (s : mgmt_state) (ifindex channel : Z)
  : outcome (mgmt_state * EnableRawRxResponse) :=
  with_wifi_iface s ifindex (mk_EnableRawRxResponse (- ENODEV) raw_diag_initial WIFI_STATE_DISCONNECTED) (fun i =>
    let '(r, ret) := wifi_data_raw_frame_rx_enable (ms_raw s) (Some i) channel in
    let '(w, st_ret, st) := wifi_iface_status_get (raw_io r) i in
    (ms_with (ms_with_raw s r) w,
     mk_EnableRawRxResponse ret (wifi_data_raw_rx_diag r)
       (if st_ret =? 0 then st_state st else WIFI_STATE_DISCONNECTED))).

Definition handle_disable_raw_rx_request (s : mgmt_state) (ifindex : Z)
  : outcome (mgmt_state * WifiStatusResponse) :=
  with_wifi_iface s ifindex (st_fail (- ENODEV) "Interface not found") (fun i =>
    let '(r, ret) := wifi_data_raw_frame_rx_disable (ms_raw s) in
    (ms_with_raw s r, if negb (ret =? 0) then st_fail ret "Raw RX disable failed" else st_ok "Raw RX disabled")).

(** ** Dispatch *)

Definition as_status (r : outcome (mgmt_state * WifiStatusResponse))
  : outcome (mgmt_state * WifiMgmtResponse_payload) :=
  do! (s, st) <- r; Ret (s, status_resp st).

(** The caller of a query selects the member by the shared byte. *)
Definition as_get {D} (f : D -> WifiMgmtResponse_payload) (r : outcome (mgmt_state * get_result D))
  : outcome (mgmt_state * WifiMgmtResponse_payload) :=
  do! (s, g) <- r;
  match g with
  | GetData d => Ret (s, f d)
  | GetErr st => if has_flag g then Fault else Ret (s, status_resp st)
  end.

Definition mismatch (s : mgmt_state) : outcome (mgmt_state * WifiMgmtResponse_payload) :=
  Ret (s, status_resp (st_fail (- EBADMSG) "Payload type mismatch for request ID")).

(** The [switch] of [process_wifi_mgmt_request]. *)
Definition wifi_mgmt_handle (s : mgmt_state) (req : WifiMgmtRequest)
  : outcome (mgmt_state * WifiMgmtResponse_payload) :=
  let id := wreq_request_id req in
  let p := wreq_payload req in
  if id =? REQUEST_TYPE_CONNECT then
    match p with connect_req r => as_status (handle_connect_request s r) | _ => mismatch s end
  else if id =? REQUEST_TYPE_DISCONNECT then
    match p with disconnect_req i => as_status (handle_disconnect_request s i) | _ => mismatch s end
  else if id =? REQUEST_TYPE_SCAN then
    match p with scan_req i ps => as_status (handle_scan_request s i ps) | _ => mismatch s end
  else if id =? REQUEST_TYPE_AP_ENABLE then
    match p with ap_enable_req i ps => as_status (handle_ap_enable_request s i ps) | _ => mismatch s end
  else if id =? REQUEST_TYPE_AP_DISABLE then
    match p with ap_disable_req i => as_status (handle_ap_disable_request s i) | _ => mismatch s end
  else if id =? REQUEST_TYPE_GET_WIFI_VERSION then
    match p with get_version_req => Ret (handle_get_version_request s) | _ => mismatch s end
  else if id =? REQUEST_TYPE_SET_PS_CONFIG then
    match p with set_ps_config_req i c => as_status (handle_set_ps_config_request s i c) | _ => mismatch s end
  else if id =? REQUEST_TYPE_GET_PS_CONFIG then
    match p with
    | get_ps_config_req i => as_get get_ps_config_resp (handle_get_ps_config_request s i)
    | _ => mismatch s
    end
  else if id =? REQUEST_TYPE_SET_REG_DOMAIN then
    match p with set_reg_domain_req i rd => as_status (handle_set_reg_domain_request s i rd) | _ => mismatch s end
  else if id =? REQUEST_TYPE_GET_REG_DOMAIN then
    match p with
    | get_reg_domain_req i =>
        as_get (fun rd => get_reg_domain_resp (rd_country_code rd) (rd_force rd) (rd_chan_info rd))
          (handle_get_reg_domain_request s i)
    | _ => mismatch s
    end
  else if id =? REQUEST_TYPE_GET_IFACE_STATUS then
    match p with
    | get_iface_status_req i => as_get get_iface_status_resp (handle_get_iface_status_request s i)
    | _ => mismatch s
    end
  else if id =? REQUEST_TYPE_SEND_RAW_FRAME then
    match p with send_raw_frame_req i f => as_status (handle_send_raw_frame_request s i f) | _ => mismatch s end
  else if id =? REQUEST_TYPE_ENABLE_RAW_RX then
    match p with
    | enable_raw_rx_req i ch =>
        do! (s', r) <- handle_enable_raw_rx_request s i ch; Ret (s', enable_raw_rx_resp r)
    | _ => mismatch s
    end
  else if id =? REQUEST_TYPE_DISABLE_RAW_RX then
    match p with disable_raw_rx_req i => as_status (handle_disable_raw_rx_request s i) | _ => mismatch s end
  else if id =? REQUEST_TYPE_GET_PROTOCOL_VERSION then Ret (s, get_protocol_version_resp 1 2)
  else Ret (s, status_resp (st_fail (- ENOTSUP) "Unsupported request type")).

(** ** Properties *)

(** The interface indices end: some index within the fuel names no interface. *)
Definition ifaces_end (w : W) : Prop :=
  exists n, (n < fuel)%nat /\ net_if_get_by_index w (1 + Z.of_nat n) = None.

Lemma first_wifi_iface_ends m n w i :
  (n < m)%nat -> net_if_get_by_index w (i + Z.of_nat n) = None -> exists r, first_wifi_iface m w i = Ret r.
Proof.
  revert n i. induction m as [|m IH]; intros n i Hn Hi; [lia|]. cbn.
  destruct (net_if_get_by_index w i) as [iface|] eqn:E; [|eauto].
  destruct (net_if_is_wifi w iface); [eauto|].
  destruct n as [|n]; [rewrite Z.add_0_r in Hi; congruence|].
  apply (IH n (i + 1)); [lia|]. rewrite <- Hi. f_equal. lia.
Qed.

Lemma resolve_ends w ifindex : ifaces_end w -> exists r, resolve_wifi_iface w ifindex = Ret r.
Proof.
  intros (n & Hn & Hi). unfold resolve_wifi_iface. destruct (negb _); [eauto|].
  by eapply first_wifi_iface_ends.
Qed.

(** A request is answered with something that satisfies [P]. *)
Definition answers_with {A} (P : A -> Prop) (r : outcome (mgmt_state * A)) : Prop :=
  exists s' a, r = Ret (s', a) /\ P a.

(** The request names no interface: its index is unknown or, for index 0, no
    interface is a Wi-Fi one. *)
Definition iface_missing (s : mgmt_state) (ifindex : Z) : Prop :=
  resolve_wifi_iface (ms_io s) ifindex = Ret None.

Lemma with_wifi_iface_answers {A} (P : A -> Prop) s ifindex absent k :
  ifaces_end (ms_io s) ->
  (iface_missing s ifindex -> P absent) ->
  (forall i, resolve_wifi_iface (ms_io s) ifindex = Ret (Some i) -> P (snd (k i))) ->
  answers_with P (with_wifi_iface s ifindex absent k).
Proof.
  intros He Ha Hk. unfold with_wifi_iface.
  destruct (resolve_ends (ms_io s) ifindex He) as ([i|] & E); rewrite E; cbn.
  - exists (fst (k i)), (snd (k i)). split; [by destruct (k i) | by apply Hk].
  - exists s, absent. split; [done | by apply Ha].
Qed.

(** [success] and [error_code] agree. *)
Definition status_sound (st : WifiStatusResponse) : Prop := success st = true <-> error_code st = 0.

(** ... and without an interface the code is -ENODEV. *)
Definition status_answer (s : mgmt_state) (ifindex : Z) (st : WifiStatusResponse) : Prop :=
  status_sound st /\ (iface_missing s ifindex -> error_code st = - ENODEV).

Lemma st_ok_sound msg : status_sound (st_ok msg).
Proof. done. Qed.

Lemma st_fail_sound e msg : e <> 0 -> status_sound (st_fail e msg).
Proof. intros He. split; cbn; [done | intros; lia]. Qed.

Lemma st_errno_sound e msg : 0 < e -> status_sound (st_fail (- e) msg).
Proof. intros. apply st_fail_sound. lia. Qed.

Lemma st_result_sound ret failed done_ :
  status_sound (if negb (ret =? 0) then st_fail ret failed else st_ok done_).
Proof. destruct (Z.eqb_spec ret 0); cbn; [apply st_ok_sound | by apply st_fail_sound]. Qed.

#[local] Hint Resolve st_ok_sound st_result_sound : e80211.
#[local] Hint Extern 1 (status_sound (st_fail (- _) _)) => apply st_errno_sound; reflexivity : e80211.

Lemma ps_step_sound i failed params k s :
  (forall s', status_sound (snd (k s'))) -> status_sound (snd (ps_step i failed params k s)).
Proof.
  intros Hk. unfold ps_step. destruct (wifi_ps _ _ _) as [w ret].
  destruct (Z.eqb_spec ret 0); cbn; [apply Hk | by apply st_fail_sound].
Qed.

(** A handler that answers with a status behind the interface lookup. *)
Lemma with_iface_status s ifindex msg k :
  ifaces_end (ms_io s) -> (forall i, status_sound (snd (k i))) ->
  answers_with (status_answer s ifindex) (with_wifi_iface s ifindex (st_fail (- ENODEV) msg) k).
Proof.
  intros He Hk. apply with_wifi_iface_answers; [done | |].
  - intros _. split; [auto with e80211 | done].
  - intros i Hi. split; [apply Hk|]. unfold iface_missing. by rewrite Hi.
Qed.

(** A request that is one call: its code is that call's. *)
Definition code_answer (s : mgmt_state) (ifindex : Z) (code : net_if -> Z) (st : WifiStatusResponse) : Prop :=
  status_answer s ifindex st /\
  forall i, resolve_wifi_iface (ms_io s) ifindex = Ret (Some i) -> error_code st = code i.

Lemma with_iface_code s ifindex msg k code :
  ifaces_end (ms_io s) -> (forall i, status_sound (snd (k i)) /\ error_code (snd (k i)) = code i) ->
  answers_with (code_answer s ifindex code) (with_wifi_iface s ifindex (st_fail (- ENODEV) msg) k).
Proof.
  intros He Hk. apply with_wifi_iface_answers; [done | |].
  - intros Hn. split; [split; [auto with e80211 | done]|]. intros i Hi. by rewrite Hn in Hi.
  - intros i Hi. destruct (Hk i) as [Hs Hc]. split; [split; [done|]; unfold iface_missing; by rewrite Hi|].
    intros j. rewrite Hi. by intros [= <-].
Qed.

Lemma code_of_status ret failed done_ :
  status_sound (if negb (ret =? 0) then st_fail ret failed else st_ok done_) /\
  error_code (if negb (ret =? 0) then st_fail ret failed else st_ok done_) = ret.
Proof. destruct (Z.eqb_spec ret 0) as [->|Hn]; cbn; [done|]. split; [by apply st_fail_sound | done]. Qed.

Lemma connect_sound s req :
  ifaces_end (ms_io s) -> answers_with (status_answer s (cr_iface_index req)) (handle_connect_request s req).
Proof.
  intros He. apply with_iface_status; [done|]. intros i. destruct (connect_params req); cbn; auto with e80211.
Qed.

Lemma ap_enable_sound s i ps :
  ifaces_end (ms_io s) -> answers_with (status_answer s i) (handle_ap_enable_request s i ps).
Proof.
  intros He. apply with_iface_status; [done|]. intros iface.
  destruct ps as [p|]; cbn; [|auto with e80211].
  unfold ap_enable_check. repeat case_match; simplify_eq/=; auto with e80211.
Qed.

Lemma set_ps_sound s i c :
  ifaces_end (ms_io s) -> answers_with (status_answer s i) (handle_set_ps_config_request s i c).
Proof.
  intros He. apply with_iface_status; [done|]. intros iface.
  destruct c as [[[ps|] ty]|]; cbn [snd]; auto with e80211.
  apply ps_step_sound. intros s1.
  destruct (0 <? ps_listen_interval_beacons ps), (0 <? ps_timeout_ms ps);
    repeat (apply ps_step_sound; intros ?); apply st_ok_sound.
Qed.

Lemma set_reg_domain_sound s i rd :
  ifaces_end (ms_io s) -> answers_with (status_answer s i) (handle_set_reg_domain_request s i rd).
Proof.
  intros He. apply with_iface_status; [done|]. intros iface.
  destruct rd as [[[c0 c1] force]|]; cbn [snd]; [|auto with e80211].
  destruct (_ || _ || _ || _); [cbn; auto with e80211|].
  destruct (wifi_reg_domain_set _ _ _ _) as [w1 ret].
  destruct (Z.eqb_spec ret 0); cbn [negb]; [|cbn; by apply st_fail_sound].
  destruct (wifi_reg_domain_get _ _ _) as [[w2 ret2] got].
  destruct (Z.eqb_spec ret2 0); cbn [negb]; [|cbn; by apply st_fail_sound].
  destruct (_ || _); cbn; auto with e80211.
Qed.

Lemma send_raw_frame_sound s i f :
  ifaces_end (ms_io s) -> raw_buf_ok (ms_raw s) ->
  answers_with (code_answer s i (fun iface => snd (raw_tx_spec (ms_raw s) iface f (zlen f))))
    (handle_send_raw_frame_request s i f).
Proof.
  intros He Hb. unfold handle_send_raw_frame_request, code_answer, status_answer, iface_missing.
  destruct (resolve_ends (ms_io s) i He) as ([iface|] & E); rewrite E; cbn [outcome_bind].
  - destruct (raw_frame_tx_ok (ms_raw s) iface f (zlen f) Hb (Z.le_refl _)) as (r & -> & _). cbn [outcome_bind].
    do 2 eexists. split; [done|]. destruct (code_of_status (snd (raw_tx_spec (ms_raw s) iface f (zlen f)))
      "Raw frame TX failed" "Raw frame transmitted") as [Hs Hc].
    split; [by split|]. by intros ? [= <-].
  - do 2 eexists. split; [done|]. split; [split; [auto with e80211 | done] | done].
Qed.

(** What a query leaves: without an interface -ENODEV; else the data exactly when
    the driver's call [ret] gave 0, and its error code otherwise. *)
Definition get_sound {D} (s : mgmt_state) (ifindex : Z) (ret : net_if -> Z) (P : net_if -> D -> Prop)
    (g : get_result D) : Prop :=
  match resolve_wifi_iface (ms_io s) ifindex with
  | Ret None => exists msg, g = GetErr (st_fail (- ENODEV) msg)
  | Ret (Some i) =>
      if ret i =? 0 then exists d, g = GetData d /\ P i d else exists msg, g = GetErr (st_fail (ret i) msg)
  | _ => False
  end.

(** The results of the three calls on an interface. *)
Definition ps_config_ret (s : mgmt_state) (i : net_if) : Z := snd (fst (wifi_ps_config (ms_io s) i)).
Definition reg_domain_ret (s : mgmt_state) (i : net_if) : Z :=
  snd (fst (wifi_reg_domain_get (ms_io s) i MAX_REG_CHAN_NUM)).
Definition iface_status_ret (s : mgmt_state) (i : net_if) : Z := snd (fst (wifi_iface_status_get (ms_io s) i)).

Lemma get_ps_sound s i :
  ifaces_end (ms_io s) ->
  answers_with (get_sound s i (ps_config_ret s) (fun _ c => is_Some (pc_ps_settings c)))
    (handle_get_ps_config_request s i).
Proof.
  intros He. apply with_wifi_iface_answers; [done | |]; unfold get_sound, ps_config_ret.
  - unfold iface_missing. intros ->. eauto.
  - intros iface ->. destruct (wifi_ps_config _ _) as [[w ret] p]. cbn. destruct (ret =? 0); cbn; eauto.
Qed.

Lemma get_reg_domain_sound s i :
  ifaces_end (ms_io s) ->
  answers_with (get_sound s i (reg_domain_ret s) (fun _ rd => zlen (rd_chan_info rd) <= 64))
    (handle_get_reg_domain_request s i).
Proof.
  intros He. apply with_wifi_iface_answers; [done | |]; unfold get_sound, reg_domain_ret.
  - unfold iface_missing. intros ->. eauto.
  - intros iface ->. destruct (wifi_reg_domain_get _ _ _) as [[w ret] got]. cbn. destruct (ret =? 0); cbn; eauto.
    eexists. split; [done|]. cbn. rewrite zlen_ztake. lia.
Qed.

Lemma get_iface_status_sound s i :
  ifaces_end (ms_io s) ->
  answers_with (get_sound s i (iface_status_ret s) (fun _ st => zlen (is_ssid st) <= 32))
    (handle_get_iface_status_request s i).
Proof.
  intros He. apply with_wifi_iface_answers; [done | |]; unfold get_sound, iface_status_ret.
  - unfold iface_missing. intros ->. eauto.
  - intros iface ->. destruct (wifi_iface_status_get _ _) as [[w ret] st]. cbn.
    destruct (ret =? 0); cbn; eauto. eexists. split; [done|]. cbn.
    destruct (_ && _) eqn:E; reflect_bools; [lia|]. rewrite zlen_nil. lia.
Qed.

(** Enabling raw reception: its result and the diagnostics afterwards. *)
Definition raw_rx_answer (s : mgmt_state) (ifindex channel : Z) (r : EnableRawRxResponse) : Prop :=
  match resolve_wifi_iface (ms_io s) ifindex with
  | Ret None => er_status r = - ENODEV
  | Ret (Some i) =>
      let '(raw, ret) := wifi_data_raw_frame_rx_enable (ms_raw s) (Some i) channel in
      er_status r = ret /\ er_diag r = wifi_data_raw_rx_diag raw
  | _ => False
  end.

Lemma enable_raw_rx_answers s i ch :
  ifaces_end (ms_io s) -> answers_with (raw_rx_answer s i ch) (handle_enable_raw_rx_request s i ch).
Proof.
  intros He. apply with_wifi_iface_answers; [done | by unfold raw_rx_answer; intros ->|].
  intros iface Hi. unfold raw_rx_answer. rewrite Hi.
  destruct (wifi_data_raw_frame_rx_enable _ _ _) as [raw ret]. by destruct (wifi_iface_status_get _ _) as [[w ?] st].
Qed.

(** The members of the response that answer with a status, and those of a query. *)
Definition status_reply (s : mgmt_state) (ifindex : Z) (p : WifiMgmtResponse_payload) : Prop :=
  exists st, p = status_resp st /\ status_answer s ifindex st.

Definition code_reply (s : mgmt_state) (ifindex : Z) (code : net_if -> Z) (p : WifiMgmtResponse_payload) : Prop :=
  exists st, p = status_resp st /\ code_answer s ifindex code st.

Definition query_reply (s : mgmt_state) (ifindex : Z) (ret : net_if -> Z)
    (member : WifiMgmtResponse_payload -> Prop) (p : WifiMgmtResponse_payload) : Prop :=
  match resolve_wifi_iface (ms_io s) ifindex with
  | Ret None => exists msg, p = status_resp (st_fail (- ENODEV) msg)
  | Ret (Some i) => if ret i =? 0 then member p else exists msg, p = status_resp (st_fail (ret i) msg)
  | _ => False
  end.

Lemma as_status_ok s i r : answers_with (status_answer s i) r -> answers_with (status_reply s i) (as_status r).
Proof. intros (s' & st & -> & Hst). cbn. do 2 eexists. split; [done|]. by exists st. Qed.

Lemma as_code_ok s i code r :
  answers_with (code_answer s i code) r -> answers_with (code_reply s i code) (as_status r).
Proof. intros (s' & st & -> & Hst). cbn. do 2 eexists. split; [done|]. by exists st. Qed.

Lemma as_get_ok {D} s i ret (P : net_if -> D -> Prop) (member : WifiMgmtResponse_payload -> Prop) f r :
  answers_with (get_sound s i ret P) r -> (forall iface d, P iface d -> member (f d)) ->
  answers_with (query_reply s i ret member) (as_get f r).
Proof.
  intros (s' & g & -> & Hg) Hf. unfold get_sound in Hg. unfold answers_with, query_reply.
  destruct (resolve_wifi_iface (ms_io s) i) as [[iface|]| |]; try done.
  - destruct (ret iface =? 0).
    + destruct Hg as (d & -> & Hd). do 2 eexists. split; [done|]. eauto.
    + destruct Hg as [msg ->]. do 2 eexists. split; [done|]. eauto.
  - destruct Hg as [msg ->]. do 2 eexists. split; [done|]. eauto.
Qed.

(** Whether a request carries the payload its type asks for. *)
Definition request_matches (req : WifiMgmtRequest) : bool :=
  let id := wreq_request_id req in
  match wreq_payload req with
  | connect_req _ => id =? REQUEST_TYPE_CONNECT
  | disconnect_req _ => id =? REQUEST_TYPE_DISCONNECT
  | scan_req _ _ => id =? REQUEST_TYPE_SCAN
  | ap_enable_req _ _ => id =? REQUEST_TYPE_AP_ENABLE
  | ap_disable_req _ => id =? REQUEST_TYPE_AP_DISABLE
  | get_version_req => id =? REQUEST_TYPE_GET_WIFI_VERSION
  | set_ps_config_req _ _ => id =? REQUEST_TYPE_SET_PS_CONFIG
  | get_ps_config_req _ => id =? REQUEST_TYPE_GET_PS_CONFIG
  | set_reg_domain_req _ _ => id =? REQUEST_TYPE_SET_REG_DOMAIN
  | get_reg_domain_req _ => id =? REQUEST_TYPE_GET_REG_DOMAIN
  | get_iface_status_req _ => id =? REQUEST_TYPE_GET_IFACE_STATUS
  | send_raw_frame_req _ _ => id =? REQUEST_TYPE_SEND_RAW_FRAME
  | enable_raw_rx_req _ _ => id =? REQUEST_TYPE_ENABLE_RAW_RX
  | disable_raw_rx_req _ => id =? REQUEST_TYPE_DISABLE_RAW_RX
  | no_request => false
  end.

(** A request of a known type with another payload. *)
Lemma wifi_mgmt_handle_mismatch s req :
  request_matches req = false -> 1 <= wreq_request_id req <= 15 ->
  wreq_request_id req <> REQUEST_TYPE_GET_PROTOCOL_VERSION -> wifi_mgmt_handle s req = mismatch s.
Proof.
  destruct req as [id p]. cbn [wreq_request_id]. intros Hm Hid Hv.
  assert (Hc : id = 1 \/ id = 2 \/ id = 3 \/ id = 4 \/ id = 5 \/ id = 6 \/ id = 7 \/ id = 8 \/ id = 9
    \/ id = 10 \/ id = 11 \/ id = 13 \/ id = 14 \/ id = 15)
    by (unfold REQUEST_TYPE_GET_PROTOCOL_VERSION in Hv; lia).
  destruct p; repeat destruct Hc as [->|Hc]; try subst id; first [reflexivity | discriminate Hm].
Qed.

(** A request of an unknown type. *)
Lemma wifi_mgmt_handle_unknown s req :
  (1 <=? wreq_request_id req) && (wreq_request_id req <=? 15) = false ->
  wifi_mgmt_handle s req = Ret (s, status_resp (st_fail (- ENOTSUP) "Unsupported request type")).
Proof.
  destruct req as [id p]. cbn [wreq_request_id]. intros Hr.
  assert (Hid : id < 1 \/ 15 < id).
  { apply andb_false_iff in Hr as [Hr|Hr]; reflect_bools; lia. }
  unfold wifi_mgmt_handle, REQUEST_TYPE_CONNECT, REQUEST_TYPE_DISCONNECT, REQUEST_TYPE_SCAN,
    REQUEST_TYPE_AP_ENABLE, REQUEST_TYPE_AP_DISABLE, REQUEST_TYPE_GET_WIFI_VERSION,
    REQUEST_TYPE_SET_PS_CONFIG, REQUEST_TYPE_GET_PS_CONFIG, REQUEST_TYPE_SET_REG_DOMAIN,
    REQUEST_TYPE_GET_REG_DOMAIN, REQUEST_TYPE_GET_IFACE_STATUS, REQUEST_TYPE_GET_PROTOCOL_VERSION,
    REQUEST_TYPE_SEND_RAW_FRAME, REQUEST_TYPE_ENABLE_RAW_RX, REQUEST_TYPE_DISABLE_RAW_RX.
  cbn [wreq_request_id]. by decide_cmp.
Qed.

(** The answer to each kind of request that carries its own payload. *)
Definition reply_ok (s : mgmt_state) (payload : WifiMgmtRequest_payload) (p : WifiMgmtResponse_payload) : Prop :=
  match payload with
  | connect_req r => status_reply s (cr_iface_index r) p
  | scan_req i _ | ap_enable_req i _ | set_ps_config_req i _ | set_reg_domain_req i _ => status_reply s i p
  | disconnect_req i => code_reply s i (fun iface => snd (wifi_disconnect (ms_io s) iface)) p
  | ap_disable_req i => code_reply s i (fun iface => snd (wifi_ap_disable (ms_io s) iface)) p
  | send_raw_frame_req i f =>
      code_reply s i (fun iface => snd (raw_tx_spec (ms_raw s) iface f (zlen f))) p
  | disable_raw_rx_req i => code_reply s i (fun _ => 0) p
  | get_version_req =>
      exists fw, zlen fw = 32 /\
        p = get_version_resp (snd (fst (wifi_version (ms_io s) (net_if_get_default (ms_io s)))) =? 0) (0, 0, 0) fw
  | get_ps_config_req i =>
      query_reply s i (ps_config_ret s)
        (fun p => exists c, p = get_ps_config_resp c /\ is_Some (pc_ps_settings c)) p
  | get_reg_domain_req i =>
      query_reply s i (reg_domain_ret s)
        (fun p => exists cc force ch, p = get_reg_domain_resp cc force ch /\ zlen ch <= 64) p
  | get_iface_status_req i =>
      query_reply s i (iface_status_ret s)
        (fun p => exists st, p = get_iface_status_resp st /\ zlen (is_ssid st) <= 32) p
  | enable_raw_rx_req i ch => exists r, p = enable_raw_rx_resp r /\ raw_rx_answer s i ch r
  | no_request => False
  end.

Lemma get_version_answers s :
  answers_with (reply_ok s get_version_req) (Ret (handle_get_version_request s)).
Proof.
  assert (Hl : forall m, zlen (firmware_version_set m) = 32).
  { intros m. unfold firmware_version_set. rewrite zlen_ztake, zlen_app, zlen_ztake.
    pose proof (zlen_nonneg m). change (zlen (replicate 63 0)) with 63. lia. }
  unfold answers_with, handle_get_version_request. cbn [reply_ok].
  destruct (wifi_version _ _) as [[w ret] fw]. cbn [fst snd].
  destruct (ret =? 0); do 2 eexists; (split; [done|]); eexists; (split; [apply Hl | done]).
Qed.

(** A request with its own payload. *)
Lemma wifi_mgmt_handle_match s req :
  ifaces_end (ms_io s) -> raw_buf_ok (ms_raw s) -> request_matches req = true ->
  answers_with (reply_ok s (wreq_payload req)) (wifi_mgmt_handle s req).
Proof.
  intros He Hb. destruct req as [id []]; cbn [request_matches wreq_payload wreq_request_id];
    intros Hm; try discriminate Hm; apply Z.eqb_eq in Hm; subst id;
    unfold wifi_mgmt_handle; cbn [wreq_request_id wreq_payload];
    try (by apply get_version_answers); first [apply as_status_ok | apply as_code_ok | idtac].
  - by apply connect_sound.
  - apply with_iface_code; [done|]. intros ?. apply code_of_status.
  - apply with_iface_status; [done|]. intros ?. cbn. auto with e80211.
  - by apply ap_enable_sound.
  - apply with_iface_code; [done|]. intros ?. apply code_of_status.
  - by apply set_ps_sound.
  - eapply as_get_ok; [by apply get_ps_sound|]. eauto.
  - by apply set_reg_domain_sound.
  - eapply as_get_ok; [by apply get_reg_domain_sound|]. eauto 6.
  - eapply as_get_ok; [by apply get_iface_status_sound|]. eauto.
  - by apply send_raw_frame_sound.
  - destruct (enable_raw_rx_answers s iface_index channel He) as (s' & r & E & Hr).
    exists s', (enable_raw_rx_resp r). split; [|by exists r].
    change ((do! (s', r) <- handle_enable_raw_rx_request s iface_index channel;
             Ret (s', enable_raw_rx_resp r)) = Ret (s', enable_raw_rx_resp r)). by rewrite E.
  - apply with_iface_code; [done|]. intros ?. unfold wifi_data_raw_frame_rx_disable.
    by destruct (_ <? 0).
Qed.

Section Codec.
Context `{WifiCodec}.

(** The bytes in the response buffer; [] when the response length is set to 0. *)
Definition process_wifi_mgmt_request (s : mgmt_state) (buffer : list Z) (cap : Z)
  : outcome (mgmt_state * list Z) :=
  match WifiMgmtRequest_decode buffer with
  | None =>
      Ret (s, default [] (WifiMgmtResponse_encode cap
                (mk_WifiMgmtResponse 0 (status_resp (st_fail (- EBADMSG) "Request decode failed")))))
  | Some req =>
      do! (s', p) <- wifi_mgmt_handle s req;
      Ret (s', default [] (WifiMgmtResponse_encode cap (mk_WifiMgmtResponse (u32 (wreq_request_id req)) p)))
  end.

(** C3. Every Wi-Fi management request is processed to an end, on every platform
    whose interface indices end: no handler faults or keeps looping.  The response
    that is composed carries the request's type and exactly the member of the
    union that the type calls for: get_version_resp for a version request (its
    has_version telling whether the driver gave one), version 1.2 for
    GET_PROTOCOL_VERSION whatever its payload, enable_raw_rx_resp with the result
    and the diagnostics of the enabling for ENABLE_RAW_RX; the data member of a query exactly when the driver's call
    returned 0, else a status with the driver's code; a status that says success
    exactly when its error code is 0 for the others, with the code of the one call
    that a disconnection, an access point's end and the raw requests make (for
    the other requests see C22); -ENODEV from each of them
    when there is no interface.  A request that does not decode, or whose payload
    does not belong to its type, gets -EBADMSG and one of an unknown type
    -ENOTSUP, and these change nothing.  The bytes left for the caller are that
    response's encoding, or none (and then nothing is sent) when it does not
    encode into the buffer. *)
Theorem wifi_mgmt_requests_answered (s : mgmt_state) (buffer : list Z) (cap : Z) :
  ifaces_end (ms_io s) -> raw_buf_ok (ms_raw s) ->
  exists s' id p bytes,
    process_wifi_mgmt_request s buffer cap = Ret (s', bytes) /\
    match WifiMgmtResponse_encode cap (mk_WifiMgmtResponse id p) with
    | Some bs => bytes = bs
    | None => bytes = []
    end /\
    match WifiMgmtRequest_decode buffer with
    | None => s' = s /\ id = 0 /\ p = status_resp (st_fail (- EBADMSG) "Request decode failed")
    | Some req =>
        id = u32 (wreq_request_id req) /\
        if wreq_request_id req =? REQUEST_TYPE_GET_PROTOCOL_VERSION
        then s' = s /\ p = get_protocol_version_resp 1 2
        else if negb ((1 <=? wreq_request_id req) && (wreq_request_id req <=? 15))
        then s' = s /\ p = status_resp (st_fail (- ENOTSUP) "Unsupported request type")
        else if negb (request_matches req)
        then s' = s /\ p = status_resp (st_fail (- EBADMSG) "Payload type mismatch for request ID")
        else reply_ok s (wreq_payload req) p
    end.
Proof.
  intros He Hb. unfold process_wifi_mgmt_request.
  assert (Hd : forall o : option (list Z), match o with Some bs => default [] o = bs | None => default [] o = [] end)
    by (by intros []).
  destruct (WifiMgmtRequest_decode buffer) as [req|].
  2: { do 4 eexists. split; [done|]. split; [apply Hd | done]. }
  destruct (Z.eqb_spec (wreq_request_id req) REQUEST_TYPE_GET_PROTOCOL_VERSION) as [Ev|Ev].
  { destruct req as [id p]. cbn in Ev. subst id. do 4 eexists. split; [done|]. by split; [apply Hd|]. }
  destruct ((1 <=? wreq_request_id req) && (wreq_request_id req <=? 15)) eqn:Er; cbn [negb].
  2: { rewrite wifi_mgmt_handle_unknown by done. do 4 eexists. split; [done|]. by split; [apply Hd|]. }
  destruct (request_matches req) eqn:Em; cbn [negb].
  - destruct (wifi_mgmt_handle_match s req He Hb Em) as (s' & p & -> & Hp). cbn [outcome_bind].
    do 4 eexists. split; [done|]. by split; [apply Hd|].
  - reflect_bools. rewrite wifi_mgmt_handle_mismatch by (done || lia).
    do 4 eexists. split; [done|]. by split; [apply Hd|].
Qed.

End Codec.

End WifiMgmt.
