(* ===== verification/WifiNotify.v ===== *)
(** * WifiNotify: Wi-Fi events reported to the host, [device/wifi_mgmt_proxy.c]

    The handler of the stack's Wi-Fi events: scan results are collected and sent
    as one notification when the scan is done; access point results and station
    events, and received raw frames, are sent as they come.  [pb_encode] of the
    notification is a class; what is passed to [serial_mux_send] is a trace. *)

From S2P Require Import Prelude NetIfMgmt WifiEnums WifiRaw WifiMgmt.
From Stdlib Require Import ZArith Lia.
From stdpp Require Import base list option numbers decidable.

Open Scope Z_scope.
Open Scope e80211_scope.

(** ** Events of Zephyr's Wi-Fi management *)

(** [struct wifi_scan_result]; the SSID is [ssid_length] bytes. *)
Record wifi_scan_result : Type := mk_wifi_scan_result {
  sr_ssid : list Z; sr_band : wifi_frequency_bands; sr_channel : Z; sr_security : wifi_security_type;
  sr_mfp : wifi_mfp_options; sr_rssi : Z; sr_mac : list Z; sr_wpa3_ent_type : Z
}.

Inductive wifi_net_event : Type :=
| NET_EVENT_WIFI_SCAN_RESULT (entry : wifi_scan_result)
| NET_EVENT_WIFI_SCAN_DONE (status : option Z)
| NET_EVENT_WIFI_AP_ENABLE_RESULT (status : Z)
| NET_EVENT_WIFI_AP_DISABLE_RESULT (status : Z)
| NET_EVENT_WIFI_AP_STA_CONNECTED (mac : option (list Z))
| NET_EVENT_WIFI_AP_STA_DISCONNECTED (mac : option (list Z))
| NET_EVENT_WIFI_CONNECT_RESULT (status : Z)
| NET_EVENT_WIFI_DISCONNECT_RESULT (status : Z)
| net_event_other.

(** ** Messages *)

Record WifiScanResult : Type := mk_WifiScanResult {
  pr_ssid : list Z; pr_bssid : list Z; pr_channel : Z; pr_rssi : Z; pr_security : Z;
  pr_wpa3_enterprise_type : Z; pr_mfp : Z; pr_band : Z
}.

Inductive WifiEvent_data : Type :=
| scan_done_event (status : Z) (all_results : list WifiScanResult)
| connect_result_event (status : Z)
| disconnect_result_event
| interface_status_event (status : WifiInterfaceStatus)
| ap_enable_result_event (status : Z)
| ap_disable_result_event (status : Z)
| ap_sta_connected_event (sta_mac_address : list Z)
| ap_sta_disconnected_event (sta_mac_address : list Z)
| raw_frame_rx_event (frame : list Z)
| event_other.

Record WifiMgmtNotification : Type := mk_WifiMgmtNotification {
  wn_iface_index : Z;
  wn_event_data : WifiEvent_data
}.

Class NotifyEncode := {
  WifiMgmtNotification_encode : WifiMgmtNotification -> option (list Z)
}.

Definition WIFI_STATUS_AP_SUCCESS : Z := 0.
Definition RAW_RX_REPORT_MAX_LEN : Z := 2400.

Section WifiNotify.
Context {W : Type} `{NetIfApi W} `{NotifyEncode}.

(** [CONFIG_WIFI_MGMT_PROXY_MAX_SCAN_RESULTS], at most the 32 entries of
    [ScanDoneEvent.all_results]. *)
Context (MAX_SCAN_RESULTS : Z).

Record notify_state : Type := mk_notify_state {
  scan_results : list WifiScanResult;   (* the first scan_result_count entries *)
  ns_sent : list (list Z)               (* frames passed to serial_mux_send *)
}.

Definition iface_index_of (w : W) (iface : option net_if) : Z :=
  match iface with Some i => u32 (net_if_get_by_iface w i) | None => 0 end.

(** Encode and send, or drop when it does not encode. *)
Definition notify_send (s : notify_state) (n : WifiMgmtNotification) : notify_state :=
  match WifiMgmtNotification_encode n with
  | Some bs => mk_notify_state (scan_results s) (ns_sent s ++ [bs])
  | None => s
  end.

Definition send_scan_done_notification (w : W) (s : notify_state) (iface : option net_if) (status : Z)
  : notify_state :=
  let s1 := notify_send s (mk_WifiMgmtNotification (iface_index_of w iface)
                             (scan_done_event status (scan_results s))) in
  mk_notify_state [] (ns_sent s1).

Definition handle_wifi_scan_result (s : notify_state) (entry : wifi_scan_result) : notify_state :=
  if MAX_SCAN_RESULTS <=? zlen (scan_results s) then s
  else
    mk_notify_state
      (scan_results s ++
       [{| pr_ssid := ztake 32 (sr_ssid entry);
           pr_bssid := sr_mac entry;
           pr_channel := sr_channel entry;
           pr_rssi := sr_rssi entry;
           pr_security := zephyr_to_proto_security (sr_security entry);
           pr_wpa3_enterprise_type := sr_wpa3_ent_type entry;
           pr_mfp := zephyr_to_proto_mfp (sr_mfp entry);
           pr_band := zephyr_to_proto_band (sr_band entry) |}])
      (ns_sent s).

Definition ap_status_to_proto (status : Z) : Z :=
  if status =? WIFI_STATUS_AP_SUCCESS then 0 else - status.

Definition send_ap_result_notification (w : W) (s : notify_state) (iface : option net_if)
    (event : Z -> WifiEvent_data) (status : Z) : notify_state :=
  notify_send s (mk_WifiMgmtNotification (iface_index_of w iface) (event status)).

Definition send_ap_sta_notification (w : W) (s : notify_state) (iface : option net_if) (connected : bool)
    (mac : option (list Z)) : notify_state :=
  match mac with
  | None => s
  | Some m =>
      notify_send s (mk_WifiMgmtNotification (iface_index_of w iface)
        (if connected then ap_sta_connected_event m else ap_sta_disconnected_event m))
  end.

Definition wifi_mgmt_net_event_handler (w : W) (iface : option net_if) (s : notify_state)
    (e : wifi_net_event) : notify_state :=
  match e with
  | NET_EVENT_WIFI_SCAN_RESULT entry => handle_wifi_scan_result s entry
  | NET_EVENT_WIFI_SCAN_DONE status => send_scan_done_notification w s iface (default 0 status)
  | NET_EVENT_WIFI_AP_ENABLE_RESULT st =>
      send_ap_result_notification w s iface ap_enable_result_event (ap_status_to_proto st)
  | NET_EVENT_WIFI_AP_DISABLE_RESULT st =>
      send_ap_result_notification w s iface ap_disable_result_event (ap_status_to_proto st)
  | NET_EVENT_WIFI_AP_STA_CONNECTED mac => send_ap_sta_notification w s iface true mac
  | NET_EVENT_WIFI_AP_STA_DISCONNECTED mac => send_ap_sta_notification w s iface false mac
  | _ => s
  end.

(** The mask of [wifi_mgmt_events_init]: the events the stack calls the handler
    for. *)
Definition wifi_mgmt_events_init (e : wifi_net_event) : bool :=
  match e with
  | NET_EVENT_WIFI_SCAN_RESULT _ | NET_EVENT_WIFI_SCAN_DONE _
  | NET_EVENT_WIFI_AP_ENABLE_RESULT _ | NET_EVENT_WIFI_AP_DISABLE_RESULT _
  | NET_EVENT_WIFI_AP_STA_CONNECTED _ | NET_EVENT_WIFI_AP_STA_DISCONNECTED _ => true
  | _ => false
  end.

Definition net_mgmt_event_notify (w : W) (iface : option net_if) (s : notify_state) (e : wifi_net_event)
  : notify_state :=
  if wifi_mgmt_events_init e then wifi_mgmt_net_event_handler w iface s e else s.

(** The callback of the raw receive thread, which [init_proxy] registers. *)
Definition raw_rx_notify_cb (w : W) (s : notify_state) (iface : option net_if) (frame : list Z)
  : notify_state :=
  notify_send s (mk_WifiMgmtNotification (iface_index_of w iface)
                   (raw_frame_rx_event (ztake RAW_RX_REPORT_MAX_LEN frame))).

(** ** Scanning *)

Definition to_scan_result (e : wifi_scan_result) : WifiScanResult :=
  {| pr_ssid := ztake 32 (sr_ssid e); pr_bssid := sr_mac e; pr_channel := sr_channel e;
     pr_rssi := sr_rssi e; pr_security := zephyr_to_proto_security (sr_security e);
     pr_wpa3_enterprise_type := sr_wpa3_ent_type e; pr_mfp := zephyr_to_proto_mfp (sr_mfp e);
     pr_band := zephyr_to_proto_band (sr_band e) |}.

Lemma scan_collects w iface s entries :
  zlen (scan_results s) <= MAX_SCAN_RESULTS ->
  fold_left (wifi_mgmt_net_event_handler w iface) (map NET_EVENT_WIFI_SCAN_RESULT entries) s
  = mk_notify_state (ztake MAX_SCAN_RESULTS (scan_results s ++ map to_scan_result entries)) (ns_sent s).
Proof.
  revert s. induction entries as [|e es IH]; intros [rs sent] Hl; cbn [scan_results ns_sent] in *.
  { cbn. by rewrite app_nil_r, ztake_ge. }
  cbn [map fold_left wifi_mgmt_net_event_handler]. unfold handle_wifi_scan_result. cbn [scan_results ns_sent].
  destruct (Z.leb_spec MAX_SCAN_RESULTS (zlen rs)) as [Hf|Hf].
  - rewrite IH by done. cbn [scan_results ns_sent]. f_equal.
    assert (MAX_SCAN_RESULTS = zlen rs) as -> by lia. by rewrite !ztake_app.
  - rewrite IH; cbn [scan_results ns_sent]; [by rewrite <- app_assoc|].
    rewrite zlen_app, zlen_cons, zlen_nil. lia.
Qed.

(** A whole scan: its results, then its end. *)
Definition scan_events (entries : list wifi_scan_result) (status : Z) : list wifi_net_event :=
  map NET_EVENT_WIFI_SCAN_RESULT entries ++ [NET_EVENT_WIFI_SCAN_DONE (Some status)].

Lemma scan_notifies w iface entries status sent :
  0 <= MAX_SCAN_RESULTS ->
  let n := mk_WifiMgmtNotification (iface_index_of w iface)
             (scan_done_event status (ztake MAX_SCAN_RESULTS (map to_scan_result entries))) in
  fold_left (wifi_mgmt_net_event_handler w iface) (scan_events entries status) (mk_notify_state [] sent)
  = mk_notify_state [] (sent ++ match WifiMgmtNotification_encode n with Some bs => [bs] | None => [] end).
Proof.
  intros Hm n. unfold scan_events. rewrite fold_left_app, scan_collects by (cbn; rewrite zlen_nil; lia).
  cbn [scan_results ns_sent app fold_left wifi_mgmt_net_event_handler].
  change (default 0 (Some status)) with status.
  unfold send_scan_done_notification, notify_send. cbn [scan_results ns_sent]. fold n.
  destruct (WifiMgmtNotification_encode n); cbn; [done | by rewrite app_nil_r].
Qed.

End WifiNotify.
