(* ===== verification/HostWifi.v ===== *)
(** * HostWifi: the host's virtual Wi-Fi driver, [host/host_wifi.c]

    The driver operations build a request, exchange it for a response and
    translate the result.  The exchange is an interface, [MgmtTransport], with two
    instances: [LinkTransport] in [WifiSystem], [bus_request] over the link to the
    device's thread, and [DeviceTransport] in [WifiOps], the device's request
    processing itself.
    Events for the host's own network stack are a trace. *)

From S2P Require Import Prelude Framing Platform NetIfMgmt WifiEnums WifiRaw HostBus HostProps.
From S2P Require Import WifiMgmt WifiNotify.
From Stdlib Require Import ZArith Lia String.
From stdpp Require Import base list option numbers decidable.

Open Scope Z_scope.
Open Scope e80211_scope.

Definition VIRT_WIFI_IFACE_INDEX : Z := 1.

(** The generated code on this side. *)
Class HostCodec := {
  WifiMgmtRequest_encode : WifiMgmtRequest -> option (list Z);
  WifiMgmtResponse_decode : list Z -> option WifiMgmtResponse;
  WifiMgmtNotification_decode : list Z -> option WifiMgmtNotification
}.

(** A request's bytes for a result code and the response's bytes. *)
Class MgmtTransport (T : Type) := {
  mgmt_request : T -> list Z -> outcome (T * Z * list Z)
}.

Section HostWifi.
Context {T : Type} `{MgmtTransport T} `{HostCodec}.

(** ** Requests *)

Definition mgmt_roundtrip (t : T) (req : WifiMgmtRequest) : outcome (T * (Z + WifiMgmtResponse)) :=
  match WifiMgmtRequest_encode req with
  | None => Ret (t, inl (- EMSGSIZE))
  | Some bs =>
      do! (t', rc, resp) <- mgmt_request t bs;
      if negb (rc =? 0) then Ret (t', inl rc)
      else
        match WifiMgmtResponse_decode resp with
        | None => Ret (t', inl (- EBADMSG))
        | Some r => Ret (t', inr r)
        end
  end.

Definition decode_status (resp : WifiMgmtResponse) : Z :=
  match wresp_payload resp with
  | status_resp st => if success st then 0 else error_code st
  | _ => - EBADMSG
  end.

(** A request whose answer is a status. *)
Definition status_request (t : T) (req : WifiMgmtRequest) : outcome (T * Z) :=
  do! (t', r) <- mgmt_roundtrip t req;
  Ret (t', match r with inl rc => rc | inr resp => decode_status resp end).

(** A field copied from the caller's pointer when it is not too long. *)
Definition bounded (p : option (list Z)) (max : Z) : list Z :=
  match p with Some bs => if zlen bs <=? max then bs else [] | None => [] end.

Definition connect_request (params : wifi_connect_req_params) : WifiConnectRequest :=
  {| cr_iface_index := VIRT_WIFI_IFACE_INDEX;
     cr_ssid := bounded (cp_ssid params) 32;
     cr_security_type := host_zephyr_to_proto_security (cp_security params);
     cr_psk := bounded (cp_psk params) 65;
     cr_sae_password := [];
     cr_channel := cp_channel params;
     cr_bssid := replicate 6 0;
     cr_timeout_ms := 0;
     cr_mfp := host_zephyr_to_proto_mfp (cp_mfp params);
     cr_band := P_BAND_ANY;
     cr_eap_identity := []; cr_eap_password := [] |}.

Definition virt_wifi_connect (t : T) (params : wifi_connect_req_params) : outcome (T * Z) :=
  status_request t (mk_WifiMgmtRequest REQUEST_TYPE_CONNECT (connect_req (connect_request params))).

Definition virt_wifi_disconnect (t : T) : outcome (T * Z) :=
  status_request t (mk_WifiMgmtRequest REQUEST_TYPE_DISCONNECT (disconnect_req VIRT_WIFI_IFACE_INDEX)).

Definition virt_wifi_ap_enable (t : T) (params : wifi_connect_req_params) : outcome (T * Z) :=
  status_request t (mk_WifiMgmtRequest REQUEST_TYPE_AP_ENABLE (ap_enable_req VIRT_WIFI_IFACE_INDEX
    (Some (mk_WifiApEnableParams (bounded (cp_ssid params) 32) 0 P_BAND_ANY
             (host_zephyr_to_proto_security (cp_security params)) (bounded (cp_psk params) 65))))).

Definition virt_wifi_ap_disable (t : T) : outcome (T * Z) :=
  status_request t (mk_WifiMgmtRequest REQUEST_TYPE_AP_DISABLE (ap_disable_req VIRT_WIFI_IFACE_INDEX)).

(** The static [scan_cb] is set before the request and cleared when the exchange
    fails (not when the device refuses the scan). *)
Definition virt_wifi_scan (t : T) (params : wifi_scan_params) : outcome (T * bool * Z) :=
  do! (t', r) <- mgmt_roundtrip t
    (mk_WifiMgmtRequest REQUEST_TYPE_SCAN (scan_req VIRT_WIFI_IFACE_INDEX
       (Some (mk_WifiScanParams (host_zephyr_to_proto_scan_type (sp_scan_type params)) (sp_bands params)
                (sp_dwell_time_active params) (sp_dwell_time_passive params) (sp_max_bss_cnt params)))));
  Ret (match r with inl rc => (t', false, rc) | inr resp => (t', true, decode_status resp) end).

(** The fields that are written; the others keep their values.  The operation casts
    the channel to [uint8_t], the event handler does not. *)
Definition iface_status_from_proto (chan : Z -> Z) (st : wifi_iface_status) (s : WifiInterfaceStatus)
  : wifi_iface_status :=
  {| st_state := host_proto_to_zephyr_state (is_state s);
     st_ssid := if zlen (is_ssid s) <=? WIFI_SSID_MAX_LEN then is_ssid s else st_ssid st;
     st_bssid := is_bssid s; st_band := st_band st;
     st_channel := chan (is_channel s);
     st_iface_mode := host_proto_to_zephyr_mode (is_mode s);
     st_link_mode := st_link_mode st;
     st_security := host_proto_to_zephyr_security (is_security s);
     st_mfp := host_proto_to_zephyr_mfp (is_mfp s); st_rssi := is_rssi s;
     st_dtim_period := st_dtim_period st; st_beacon_interval := st_beacon_interval st;
     st_twt_capable := st_twt_capable st; st_tx_rate_kbps := st_tx_rate_kbps st |}.

Definition virt_wifi_iface_status (t : T) (st : wifi_iface_status) : outcome (T * wifi_iface_status * Z) :=
  do! (t', r) <- mgmt_roundtrip t
    (mk_WifiMgmtRequest REQUEST_TYPE_GET_IFACE_STATUS (get_iface_status_req VIRT_WIFI_IFACE_INDEX));
  Ret (match r with
       | inl rc => (t', st, rc)
       | inr resp =>
           match wresp_payload resp with
           | get_iface_status_resp s => (t', iface_status_from_proto u8 st s, 0)
           | _ => (t', st, decode_status resp)
           end
       end).

(** The bytes of a C string in an array. *)
Fixpoint c_string (bs : list Z) : list Z :=
  match bs with
  | [] => []
  | b :: rest => if b =? 0 then [] else b :: c_string rest
  end.

(** [params->fw_version]; [drv_version] is printed from the three numbers, which
    are returned here as they are. *)
Definition virt_wifi_get_version (t : T) : outcome (T * option ((Z * Z * Z) * list Z) * Z) :=
  do! (t', r) <- mgmt_roundtrip t (mk_WifiMgmtRequest REQUEST_TYPE_GET_WIFI_VERSION get_version_req);
  Ret (match r with
       | inl rc => (t', None, rc)
       | inr resp =>
           match wresp_payload resp with
           | get_version_resp _ driver fw => (t', Some (driver, ztake 31 (c_string fw)), 0)
           | _ => (t', None, decode_status resp)
           end
       end).

(** Only [ps_params.enabled] is written. *)
Definition virt_wifi_get_ps_config (t : T) : outcome (T * option bool * Z) :=
  do! (t', r) <- mgmt_roundtrip t
    (mk_WifiMgmtRequest REQUEST_TYPE_GET_PS_CONFIG (get_ps_config_req VIRT_WIFI_IFACE_INDEX));
  Ret (match r with
       | inl rc => (t', None, rc)
       | inr resp =>
           match wresp_payload resp with
           | get_ps_config_resp c =>
               (t', Some (match pc_ps_settings c with
                          | Some s => ps_enabled s =? WIFI_PS_STATE_ENABLE
                          | None => false
                          end), 0)
           | _ => (t', None, decode_status resp)
           end
       end).

(** A set request leaves [iface_index] 0 and [force_update] false. *)
Definition virt_wifi_reg_domain (t : T) (is_get : bool) (cc : Z * Z) : outcome (T * (Z * Z) * Z) :=
  do! (t', r) <- mgmt_roundtrip t
    (if is_get
     then mk_WifiMgmtRequest REQUEST_TYPE_GET_REG_DOMAIN (get_reg_domain_req VIRT_WIFI_IFACE_INDEX)
     else mk_WifiMgmtRequest REQUEST_TYPE_SET_REG_DOMAIN (set_reg_domain_req 0 (Some (cc, false))));
  Ret (match r with
       | inl rc => (t', cc, rc)
       | inr resp =>
           match wresp_payload resp with
           | get_reg_domain_resp got _ _ =>
               if is_get then (t', got, 0) else (t', cc, decode_status resp)
           | _ => (t', cc, decode_status resp)
           end
       end).

(** *** The operations as the stack calls them *)

(** The members of [virt_wifi_ops], with their arguments ... *)
Inductive wifi_op : Type :=
| OpScan (params : wifi_scan_params)
| OpConnect (params : wifi_connect_req_params)
| OpDisconnect
| OpApEnable (params : wifi_connect_req_params)
| OpApDisable
| OpIfaceStatus (st : wifi_iface_status)
| OpGetVersion
| OpGetPowerSaveConfig
| OpRegDomain (is_get : bool) (cc : Z * Z).

(** ... and what the caller gets: the code, and what was written through the
    pointers it passed ([ResScan]: whether [scan_cb] stays set). *)
Inductive op_result : Type :=
| ResCode (rc : Z)
| ResScan (cb : bool) (rc : Z)
| ResStatus (st : wifi_iface_status) (rc : Z)
| ResVersion (v : option ((Z * Z * Z) * list Z)) (rc : Z)
| ResPowerSave (enabled : option bool) (rc : Z)
| ResRegDomain (cc : Z * Z) (rc : Z).

Definition virt_wifi_ops (t : T) (op : wifi_op) : outcome (T * op_result) :=
  match op with
  | OpScan params => do! (t', cb, rc) <- virt_wifi_scan t params; Ret (t', ResScan cb rc)
  | OpConnect params => do! (t', rc) <- virt_wifi_connect t params; Ret (t', ResCode rc)
  | OpDisconnect => do! (t', rc) <- virt_wifi_disconnect t; Ret (t', ResCode rc)
  | OpApEnable params => do! (t', rc) <- virt_wifi_ap_enable t params; Ret (t', ResCode rc)
  | OpApDisable => do! (t', rc) <- virt_wifi_ap_disable t; Ret (t', ResCode rc)
  | OpIfaceStatus st => do! (t', st', rc) <- virt_wifi_iface_status t st; Ret (t', ResStatus st' rc)
  | OpGetVersion => do! (t', v, rc) <- virt_wifi_get_version t; Ret (t', ResVersion v rc)
  | OpGetPowerSaveConfig => do! (t', e, rc) <- virt_wifi_get_ps_config t; Ret (t', ResPowerSave e rc)
  | OpRegDomain is_get cc => do! (t', cc', rc) <- virt_wifi_reg_domain t is_get cc; Ret (t', ResRegDomain cc' rc)
  end.

(** The request each operation sends, and what it makes of the answer. *)
Definition op_request (op : wifi_op) : WifiMgmtRequest :=
  match op with
  | OpScan params =>
      mk_WifiMgmtRequest REQUEST_TYPE_SCAN (scan_req VIRT_WIFI_IFACE_INDEX
        (Some (mk_WifiScanParams (host_zephyr_to_proto_scan_type (sp_scan_type params)) (sp_bands params)
                 (sp_dwell_time_active params) (sp_dwell_time_passive params) (sp_max_bss_cnt params))))
  | OpConnect params => mk_WifiMgmtRequest REQUEST_TYPE_CONNECT (connect_req (connect_request params))
  | OpDisconnect => mk_WifiMgmtRequest REQUEST_TYPE_DISCONNECT (disconnect_req VIRT_WIFI_IFACE_INDEX)
  | OpApEnable params =>
      mk_WifiMgmtRequest REQUEST_TYPE_AP_ENABLE (ap_enable_req VIRT_WIFI_IFACE_INDEX
        (Some (mk_WifiApEnableParams (bounded (cp_ssid params) 32) 0 P_BAND_ANY
                 (host_zephyr_to_proto_security (cp_security params)) (bounded (cp_psk params) 65))))
  | OpApDisable => mk_WifiMgmtRequest REQUEST_TYPE_AP_DISABLE (ap_disable_req VIRT_WIFI_IFACE_INDEX)
  | OpIfaceStatus _ =>
      mk_WifiMgmtRequest REQUEST_TYPE_GET_IFACE_STATUS (get_iface_status_req VIRT_WIFI_IFACE_INDEX)
  | OpGetVersion => mk_WifiMgmtRequest REQUEST_TYPE_GET_WIFI_VERSION get_version_req
  | OpGetPowerSaveConfig =>
      mk_WifiMgmtRequest REQUEST_TYPE_GET_PS_CONFIG (get_ps_config_req VIRT_WIFI_IFACE_INDEX)
  | OpRegDomain true _ =>
      mk_WifiMgmtRequest REQUEST_TYPE_GET_REG_DOMAIN (get_reg_domain_req VIRT_WIFI_IFACE_INDEX)
  | OpRegDomain false cc => mk_WifiMgmtRequest REQUEST_TYPE_SET_REG_DOMAIN (set_reg_domain_req 0 (Some (cc, false)))
  end.

Definition op_decode (op : wifi_op) (r : Z + WifiMgmtResponse) : op_result :=
  let code := match r with inl rc => rc | inr resp => decode_status resp end in
  let payload := match r with inl _ => None | inr resp => Some (wresp_payload resp) end in
  match op with
  | OpScan _ => ResScan (match r with inl _ => false | inr _ => true end) code
  | OpConnect _ | OpDisconnect | OpApEnable _ | OpApDisable => ResCode code
  | OpIfaceStatus st =>
      match payload with
      | Some (get_iface_status_resp s) => ResStatus (iface_status_from_proto u8 st s) 0
      | _ => ResStatus st code
      end
  | OpGetVersion =>
      match payload with
      | Some (get_version_resp _ driver fw) => ResVersion (Some (driver, ztake 31 (c_string fw))) 0
      | _ => ResVersion None code
      end
  | OpGetPowerSaveConfig =>
      match payload with
      | Some (get_ps_config_resp c) =>
          ResPowerSave (Some (match pc_ps_settings c with
                              | Some s => ps_enabled s =? WIFI_PS_STATE_ENABLE
                              | None => false
                              end)) 0
      | _ => ResPowerSave None code
      end
  | OpRegDomain is_get cc =>
      match payload with
      | Some (get_reg_domain_resp got _ _) => if is_get then ResRegDomain got 0 else ResRegDomain cc code
      | _ => ResRegDomain cc code
      end
  end.

(** Every operation is one exchange. *)
Lemma virt_wifi_ops_roundtrip (t : T) (op : wifi_op) :
  virt_wifi_ops t op = (do! (t', r) <- mgmt_roundtrip t (op_request op); Ret (t', op_decode op r)).
Proof.
  destruct op as [| | | | | | | |[] cc]; cbn [virt_wifi_ops op_request];
  unfold virt_wifi_scan, virt_wifi_connect, virt_wifi_disconnect, virt_wifi_ap_enable, virt_wifi_ap_disable,
    virt_wifi_iface_status, virt_wifi_get_version, virt_wifi_get_ps_config, virt_wifi_reg_domain, status_request;
  match goal with |- context [mgmt_roundtrip t ?q] => destruct (mgmt_roundtrip t q) as [[t' [rc|[id p]]]| |] end;
  try done; destruct p; done.
Qed.

(** ** Data frames *)

(** [pkt->frags->data] with the length of all fragments: reading past the first
    fragment is a fault, as is a packet without one. *)
Definition virt_wifi_l2_send {U E HID USR} `{Platform U} (b : bus_state U E HID USR) (frags : list (list Z))
  : outcome (bus_state U E HID USR * Z) :=
  match frags with
  | [] => Fault
  | f :: _ =>
      let len := zlen (List.concat frags) in
      if zlen f <? len then Fault else bus_send b SERIAL_TYPE_WIFI_DATA (Some f) len
  end.

(** The host's network stack: interfaces, and packets that are allocated with a
    first fragment of some room and handed in. *)
Class HostNet (V : Type) := {
  v_if : Type;
  v_get_by_index : V -> Z -> option v_if;
  v_get_default : V -> option v_if;
  v_l2_set_wifi : V -> option v_if -> V;            (* eth_if_type, when there is an L2 context *)
  v_pkt_alloc : V -> v_if -> Z -> V * option Z;
  v_recv_data : V -> v_if -> list Z -> V
}.

Definition virt_wifi_netif {V} `{HostNet V} (v : V) : option v_if :=
  match v_get_by_index v VIRT_WIFI_IFACE_INDEX with
  | Some i => Some i
  | None => v_get_default v
  end.

(** [net_buf_add_mem] returns a pointer, which is never below 0; adding more than
    the first fragment has room for is a fault. *)
Definition wifi_data_rx {V} `{HostNet V} (payload : list Z) (user : option v_if) (v : V) : outcome V :=
  match user with
  | None => Ret v
  | Some iface =>
      if zlen payload =? 0 then Ret v
      else
        match v_pkt_alloc v iface (zlen payload) with
        | (v1, None) => Ret v1
        | (v1, Some room) =>
            if room <? zlen payload then Fault else Ret (v_recv_data v1 iface payload)
        end
  end.

(** ** Notifications *)

(** What the handler reports to the local stack. *)
Inductive local_event : Type :=
| LScan (status : Z) (entry : option wifi_scan_result)
| LConnectResult (status : Z)
| LDisconnectResult
| LIfaceStatus (st : wifi_iface_status)
| LApEnable (success : bool)
| LApDisable (success : bool)
| LApSta (connected : bool) (mac : list Z).

(** Conversion to [int8_t]. *)
Definition to_int8 (x : Z) : Z := (x + 128) mod 256 - 128.

(** [struct wifi_scan_result res = {0}] and the fields assigned. *)
Definition scan_result_from_proto (r : WifiScanResult) : wifi_scan_result :=
  {| sr_ssid := if zlen (pr_ssid r) <=? WIFI_SSID_MAX_LEN then pr_ssid r else [];
     sr_band := WIFI_FREQ_BAND_2_4_GHZ;
     sr_channel := u8 (pr_channel r);
     sr_security := host_proto_to_zephyr_security (pr_security r);
     sr_mfp := host_proto_to_zephyr_mfp (pr_mfp r);
     sr_rssi := to_int8 (pr_rssi r);
     sr_mac := pr_bssid r;
     sr_wpa3_ent_type := 0 |}.

Definition handle_scan_done (scan_cb : bool) (status : Z) (all_results : list WifiScanResult)
  : list local_event :=
  if negb scan_cb then []
  else map (fun r => LScan status (Some (scan_result_from_proto r))) all_results ++ [LScan status None].

Definition iface_status_zero : wifi_iface_status :=
  mk_wifi_iface_status WIFI_STATE_DISCONNECTED [] (replicate 6 0) WIFI_FREQ_BAND_2_4_GHZ 0 WIFI_MODE_INFRA
    WIFI_0 WIFI_SECURITY_TYPE_NONE WIFI_MFP_DISABLE 0 0 0 false 0.

Definition wifi_mgmt_notify (scan_cb : bool) (payload : list Z) : list local_event :=
  match WifiMgmtNotification_decode payload with
  | None => []
  | Some n =>
      match wn_event_data n with
      | scan_done_event status rs => handle_scan_done scan_cb status rs
      | connect_result_event status => [LConnectResult status]
      | disconnect_result_event => [LDisconnectResult]
      | interface_status_event s => [LIfaceStatus (iface_status_from_proto u32 iface_status_zero s)]
      | ap_enable_result_event status => [LApEnable (status =? 0)]
      | ap_disable_result_event status => [LApDisable (status =? 0)]
      | ap_sta_connected_event mac => [LApSta true mac]
      | ap_sta_disconnected_event mac => [LApSta false mac]
      | raw_frame_rx_event _ | event_other => []
      end
  end.

End HostWifi.

(** ** Handlers on the bus *)

Inductive wifi_handler : Type := WIFI_DATA_RX | WIFI_MGMT_NOTIFY.

(** The static [scan_cb], the events reported so far, and the stack; [None] after
    a fault. *)
Record virt_wifi (V : Type) : Type := mk_virt_wifi {
  vw_scan_cb : bool;
  vw_events : list local_event;
  vw_net : option V
}.
Arguments mk_virt_wifi {V} _ _ _.
Arguments vw_scan_cb {V} _.
Arguments vw_events {V} _.
Arguments vw_net {V} _.

Section VirtWifi.
Context {U V : Type} `{Platform U} `{HostNet V} `{HostCodec}.

#[local] Abbreviation bus := (bus_state U (virt_wifi V) wifi_handler v_if).

Definition run_wifi_handler (h : wifi_handler) (user : option v_if) (p : list Z) (e : virt_wifi V) : virt_wifi V :=
  match h with
  | WIFI_DATA_RX =>
      match vw_net e with
      | Some v =>
          mk_virt_wifi (vw_scan_cb e) (vw_events e)
            (match wifi_data_rx p user v with Ret v' => Some v' | _ => None end)
      | None => e
      end
  | WIFI_MGMT_NOTIFY => mk_virt_wifi (vw_scan_cb e) (vw_events e ++ wifi_mgmt_notify (vw_scan_cb e) p) (vw_net e)
  end.

Definition virt_wifi_init (dt_node ready : bool) (fuel : nat) (b : bus) (script : list bus_event)
  : outcome (bus * list bus_event * Z) :=
  do! (b1, script', rc) <- bus_open run_wifi_handler dt_node ready fuel b script;
  if negb (rc =? 0) then Ret (b1, script', rc)
  else
    let e := b_env b1 in
    let iface := vw_net e ≫= virt_wifi_netif in
    let b2 := set_env b1 (mk_virt_wifi (vw_scan_cb e) (vw_events e)
                            ((fun v => v_l2_set_wifi v iface) <$> vw_net e)) in
    let b3 := fst (bus_register_handler b2 SERIAL_TYPE_WIFI_DATA (Some WIFI_DATA_RX)) in
    let b4 := bus_set_handler_user b3 SERIAL_TYPE_WIFI_DATA iface in
    Ret (fst (bus_register_handler b4 SERIAL_TYPE_WIFI_MGMT (Some WIFI_MGMT_NOTIFY)), script', 0).

End VirtWifi.
