(* ===== verification/WifiOps.v ===== *)
(** * WifiOps: the driver's operations and the radio

    The members of [virt_wifi_ops] ([HostWifi]) run against the device's request
    processing ([WifiMgmt]).  The nanopb code of the two ends is assumed to agree:
    what one end encodes the other decodes to the same message.  [radio_ops] is
    the specification: what each operation asks of the radio's own driver and
    what its caller gets. *)

From S2P Require Import Prelude Framing Platform NetIfMgmt WifiEnums WifiRaw HostBus HostProps.
From S2P Require Import WifiMgmt WifiNotify HostWifi.
From Stdlib Require Import ZArith Lia String.
From stdpp Require Import base list option numbers decidable.

Open Scope Z_scope.
Open Scope e80211_scope.

(** ** What arrives of a message *)

(** A country code is a C string: nothing behind a NUL is encoded. *)
Definition cc_string (cc : Z * Z) : Z * Z := if fst cc =? 0 then (0, 0) else cc.

Definition request_arrives (req : WifiMgmtRequest) : WifiMgmtRequest :=
  match wreq_payload req with
  | set_reg_domain_req i (Some (cc, force)) =>
      mk_WifiMgmtRequest (wreq_request_id req) (set_reg_domain_req i (Some (cc_string cc, force)))
  | _ => req
  end.

(** The firmware version too, into a cleared array of 32. *)
Definition fw_string (fw : list Z) : list Z :=
  c_string fw ++ replicate (Z.to_nat (32 - zlen (c_string fw))) 0.

(** A version without its [has_version] is not encoded. *)
Definition payload_arrives (p : WifiMgmtResponse_payload) : WifiMgmtResponse_payload :=
  match p with
  | get_version_resp false _ _ => get_version_resp false (0, 0, 0) (replicate 32 0)
  | get_version_resp true driver fw => get_version_resp true driver (fw_string fw)
  | get_reg_domain_resp cc force ch => get_reg_domain_resp (cc_string cc) force ch
  | p => p
  end.

Definition response_arrives (r : WifiMgmtResponse) : WifiMgmtResponse :=
  mk_WifiMgmtResponse (wresp_request_id r) (payload_arrives (wresp_payload r)).

(** No request of the driver is answered with [enable_raw_rx_resp], whose numbers
    are sent as they are: nothing is asked of it. *)
Definition driver_reads (p : WifiMgmtResponse_payload) : bool :=
  match p with enable_raw_rx_resp _ => false | _ => true end.

(** Both ends are generated from [wifi.proto]. *)
Class CodecsAgree `{HostCodec} `{WifiCodec} `{NotifyEncode} := {
  request_agrees req bs :
    WifiMgmtRequest_encode req = Some bs -> WifiMgmtRequest_decode bs = Some (request_arrives req);
  response_agrees cap r bs :
    driver_reads (wresp_payload r) = true ->
    WifiMgmtResponse_encode cap r = Some bs -> WifiMgmtResponse_decode bs = Some (response_arrives r);
  notification_agrees n bs : WifiMgmtNotification_encode n = Some bs -> WifiMgmtNotification_decode bs = Some n
}.

Section Requests.
Context {W : Type} `{NetIfApi W} `{!RawIo W} `{!WifiApi W} `{CodecsAgree}.
Context (WIFI_MGMT_SCAN_MAX_BSS_CNT : Z) (fuel : nat) (cap : Z).

#[local] Abbreviation device := (mgmt_state (W := W)).
#[local] Abbreviation handle := (wifi_mgmt_handle WIFI_MGMT_SCAN_MAX_BSS_CNT fuel).

(** ** The device as the other end *)

(** A response without bytes is not sent and the request times out. *)
#[local] Instance DeviceTransport : MgmtTransport device := {
  mgmt_request s bs :=
    do! (s', resp) <- process_wifi_mgmt_request WIFI_MGMT_SCAN_MAX_BSS_CNT fuel s bs cap;
    Ret (match resp with [] => (s', - ETIMEDOUT, []) | _ => (s', 0, resp) end)
}.

(** The request can be encoded, and the answer it gets fits the response buffer. *)
Record exchange_fits (s : device) (req : WifiMgmtRequest) : Prop := {
  ef_request : is_Some (WifiMgmtRequest_encode req);
  ef_answer s' p : handle s (request_arrives req) = Ret (s', p) -> exists b bs,
    WifiMgmtResponse_encode cap (mk_WifiMgmtResponse (u32 (wreq_request_id req)) p) = Some (b :: bs)
}.

Definition driver_asks (req : WifiMgmtRequest) : bool :=
  match wreq_payload req with enable_raw_rx_req _ _ => false | _ => true end.

Lemma version_reads (s s' : device) p :
  Ret (handle_get_version_request s) = Ret (s', p) -> driver_reads p = true.
Proof.
  unfold handle_get_version_request. destruct (wifi_version _ _) as [[w ret] fw].
  destruct (ret =? 0); by intros [= <- <-].
Qed.

Lemma as_status_reads (r : outcome (device * WifiStatusResponse)) s' p :
  as_status r = Ret (s', p) -> driver_reads p = true.
Proof. destruct r as [[]| |]; cbn; by intros [= <- <-]. Qed.

Lemma as_get_reads {D} f (r : outcome (device * get_result D)) s' p :
  (forall d, driver_reads (f d) = true) -> as_get f r = Ret (s', p) -> driver_reads p = true.
Proof.
  intros Hf. destruct r as [[s g]| |]; [|done..]. unfold as_get. cbn [outcome_bind].
  destruct g as [st|d]; cbn; [destruct (success st)|]; by intros [= <- <-].
Qed.

Lemma handle_reads (s s' : device) req p :
  driver_asks req = true -> handle s req = Ret (s', p) -> driver_reads p = true.
Proof.
  destruct req as [id q]. unfold driver_asks, wifi_mgmt_handle, mismatch. cbn [wreq_payload wreq_request_id].
  intros Hq. repeat (destruct (_ =? _); [destruct q; try discriminate Hq;
    first [by intros ?%as_status_reads | by intros ?%version_reads | (intros Hg; eapply as_get_reads in Hg; done) | by intros [= <- <-]]|]).
  by intros [= <- <-].
Qed.

(** The exchange hands the request to its handler and the answer to the caller. *)
Lemma device_roundtrip (s : device) req :
  driver_asks req = true -> exchange_fits s req ->
  mgmt_roundtrip s req
  = (do! (s', p) <- handle s (request_arrives req);
     Ret (s', inr (response_arrives (mk_WifiMgmtResponse (u32 (wreq_request_id req)) p)))).
Proof.
  intros Hd [[bs Hb] Ha]. unfold mgmt_roundtrip. rewrite Hb.
  cbn [mgmt_request DeviceTransport]. unfold process_wifi_mgmt_request.
  rewrite (request_agrees _ _ Hb).
  assert (wreq_request_id (request_arrives req) = wreq_request_id req) as ->.
  { destruct req as [id []]; try done. by destruct reg_domain as [[]|]. }
  assert (Hd' : driver_asks (request_arrives req) = true).
  { destruct req as [id []]; try done. by destruct reg_domain as [[]|]. }
  destruct (handle s (request_arrives req)) as [[s' p]| |] eqn:E; [|done..]. cbn [outcome_bind].
  destruct (Ha s' p eq_refl) as (b & bs' & Hr). rewrite Hr. cbn -[response_arrives].
  by rewrite (response_agrees cap (mk_WifiMgmtResponse _ p) _ (handle_reads _ _ _ _ Hd' E) Hr).
Qed.

(** ** Connect *)

(** The conditions under which the radio is asked at all, and what it is asked. *)
Definition connect_accepted (params : wifi_connect_req_params) : bool :=
  let ssid := bounded (cp_ssid params) 32 in
  let psk := bounded (cp_psk params) 65 in
  (0 <? zlen ssid) &&
  match security_image (cp_security params) with
  | WIFI_SECURITY_TYPE_PSK | WIFI_SECURITY_TYPE_PSK_SHA256 => (0 <? zlen psk) && (zlen psk <=? 64)
  | WIFI_SECURITY_TYPE_SAE => false
  | _ => true
  end.

Definition connect_forwarded (params : wifi_connect_req_params) : wifi_connect_req_params :=
  let sec := security_image (cp_security params) in
  {| cp_ssid := Some (bounded (cp_ssid params) 32);
     cp_psk := match sec with
               | WIFI_SECURITY_TYPE_PSK | WIFI_SECURITY_TYPE_PSK_SHA256 => Some (bounded (cp_psk params) 65)
               | _ => None
               end;
     cp_sae_password := None;
     cp_eap_identity := match sec with WIFI_SECURITY_TYPE_EAP => Some [] | _ => None end;
     cp_eap_password := match sec with WIFI_SECURITY_TYPE_EAP => Some [] | _ => None end;
     cp_band := WIFI_FREQ_BAND_2_4_GHZ;
     cp_channel := if cp_channel params =? 0 then WIFI_CHANNEL_ANY else u8 (cp_channel params);
     cp_security := sec;
     cp_mfp := cp_mfp params;
     cp_bssid := replicate 6 0;
     cp_timeout := 0 |}.

Lemma zlen_bounded p max : 0 <= max -> zlen (bounded p max) <= max.
Proof.
  intros. destruct p as [bs|]; cbn; [destruct (Z.leb_spec (zlen bs) max); [done|]|]; rewrite zlen_nil; lia.
Qed.

Lemma security_image_base z :
  match security_image z with
  | WIFI_SECURITY_TYPE_WPA_PSK | WIFI_SECURITY_TYPE_WPA_AUTO_PERSONAL | WIFI_SECURITY_TYPE_SAE_H2E
  | WIFI_SECURITY_TYPE_SAE_AUTO | wifi_security_type_other _ => False
  | _ => True
  end.
Proof. by destruct z. Qed.

(** The device's checks on the host's request. *)
Lemma connect_params_host params :
  match connect_params (connect_request params) with
  | inl _ => connect_accepted params = false
  | inr z => connect_accepted params = true /\ z = connect_forwarded params
  end.
Proof.
  destruct (wifi_enums_roundtrip (cp_security params) (cp_mfp params) WIFI_SCAN_TYPE_ACTIVE
              WIFI_STATE_INACTIVE 0) as (Hm & _ & _ & Hs & _).
  unfold connect_params, connect_accepted, connect_forwarded, connect_request. cbn -[zlen].
  rewrite Hm, Hs. pose proof (security_image_base (cp_security params)) as Hb.
  pose proof (zlen_bounded (cp_ssid params) 32 ltac:(lia)) as Hs32.
  pose proof (zlen_nonneg (bounded (cp_ssid params) 32)) as Hs0.
  pose proof (zlen_nonneg (bounded (cp_psk params) 65)) as Hp0.
  unfold WIFI_SSID_MAX_LEN, MAX_PSK_LEN_CB, MAX_SAE_PASSWORD_LEN_CB, P_WIFI_CHANNEL_ANY in *.
  rewrite (proj2 (Z.ltb_ge 32 _)) by lia.
  destruct (Z.eqb_spec (zlen (bounded (cp_ssid params) 32)) 0) as [E|E]; cbn [orb].
  { rewrite E. done. }
  rewrite (proj2 (Z.ltb_lt 0 (zlen (bounded (cp_ssid params) 32)))) by lia. cbn [andb].
  destruct (security_image (cp_security params)); try done; cbn -[zlen];
  destruct (Z.eqb_spec (zlen (bounded (cp_psk params) 65)) 0), (Z.ltb_spec 64 (zlen (bounded (cp_psk params) 65)));
  try lia; cbn -[zlen]; decide_cmp; done.
Qed.

(** ** Access point *)

(** The code with which the device refuses the host's request, if it does. *)
Definition ap_refused (params : wifi_connect_req_params) : option Z :=
  let ssid := bounded (cp_ssid params) 32 in
  let psk := bounded (cp_psk params) 65 in
  if zlen ssid =? 0 then Some (- EINVAL)
  else
    match security_image (cp_security params) with
    | WIFI_SECURITY_TYPE_NONE | WIFI_SECURITY_TYPE_WEP => if 64 <? zlen psk then Some (- EINVAL) else None
    | WIFI_SECURITY_TYPE_PSK | WIFI_SECURITY_TYPE_SAE =>
        if (64 <? zlen psk) || (zlen psk =? 0) then Some (- EINVAL) else None
    | _ => Some (- ENOTSUP)
    end.

Definition ap_forwarded (params : wifi_connect_req_params) : wifi_connect_req_params :=
  let psk := bounded (cp_psk params) 65 in
  {| cp_ssid := Some (bounded (cp_ssid params) 32);
     cp_psk := if 0 <? zlen psk then Some psk else None;
     cp_sae_password := None; cp_eap_identity := None; cp_eap_password := None;
     cp_band := WIFI_FREQ_BAND_2_4_GHZ; cp_channel := WIFI_CHANNEL_ANY;
     cp_security := security_image (cp_security params);
     cp_mfp := WIFI_MFP_DISABLE; cp_bssid := replicate 6 0; cp_timeout := 0 |}.

(** The static copies of the SSID and the passphrase. *)
Definition ap_remember (s : device) (params : wifi_connect_req_params) : device :=
  let psk := bounded (cp_psk params) 65 in
  mk_mgmt_state (ms_raw s) (copy_to (ap_enable_ssid s) (bounded (cp_ssid params) 32))
    (if 0 <? zlen psk then copy_to (ap_enable_psk s) psk else ap_enable_psk s).

(** The request as it arrives. *)
Definition ap_request (params : wifi_connect_req_params) : WifiApEnableParams :=
  mk_WifiApEnableParams (bounded (cp_ssid params) 32) 0 P_BAND_ANY
    (host_zephyr_to_proto_security (cp_security params)) (bounded (cp_psk params) 65).

Lemma ap_check_host params : fst <$> ap_enable_check (ap_request params) = ap_refused params.
Proof.
  destruct (wifi_enums_roundtrip (cp_security params) (cp_mfp params) WIFI_SCAN_TYPE_ACTIVE
              WIFI_STATE_INACTIVE 0) as (_ & _ & _ & Hs & _).
  unfold ap_enable_check, ap_refused, ap_request, WIFI_SSID_MAX_LEN, MAX_AP_PSK_LEN. cbn -[zlen].
  rewrite Hs. pose proof (zlen_bounded (cp_ssid params) 32 ltac:(lia)) as Hs32.
  rewrite (proj2 (Z.ltb_ge 32 _)) by lia. rewrite orb_false_r.
  destruct (zlen (bounded (cp_ssid params) 32) =? 0); [done|].
  pose proof (security_image_base (cp_security params)).
  destruct (security_image (cp_security params)); cbn -[zlen]; try done;
  destruct (64 <? zlen (bounded (cp_psk params) 65)), (zlen (bounded (cp_psk params) 65) =? 0); done.
Qed.

Lemma ap_params_host (s : device) params :
  ap_enable_params (ap_enable_copy s (ap_request params)) (ap_request params) = ap_forwarded params.
Proof.
  destruct (wifi_enums_roundtrip (cp_security params) (cp_mfp params) WIFI_SCAN_TYPE_ACTIVE
              WIFI_STATE_INACTIVE 0) as (_ & _ & _ & Hs & _).
  unfold ap_enable_params, ap_forwarded, ap_request. cbn -[zlen ztake]. rewrite Hs. unfold copy_to.
  rewrite ztake_app by done. destruct (0 <? _); [|done]. by rewrite ztake_app.
Qed.

(** ** Queries *)

(** What the host's caller sees of the radio's status: the fields the operation
    writes; the others keep what the caller had there. *)
Definition status_seen (st got : wifi_iface_status) : wifi_iface_status :=
  let joined :=
    match st_state got, st_iface_mode got with
    | (WIFI_STATE_ASSOCIATED | WIFI_STATE_COMPLETED), _ | _, WIFI_MODE_AP => true
    | _, _ => false
    end in
  {| st_state := state_image (st_state got);
     st_ssid := if zlen (st_ssid got) <=? 32 then st_ssid got else [];
     st_bssid := if joined then st_bssid got else replicate 6 0;
     st_band := st_band st;
     st_channel := u8 (st_channel got);
     st_iface_mode := match st_iface_mode got with WIFI_MODE_AP => WIFI_MODE_AP | _ => WIFI_MODE_INFRA end;
     st_link_mode := st_link_mode st;
     st_security := security_image (st_security got);
     st_mfp := st_mfp got; st_rssi := st_rssi got;
     st_dtim_period := st_dtim_period st; st_beacon_interval := st_beacon_interval st;
     st_twt_capable := st_twt_capable st; st_tx_rate_kbps := st_tx_rate_kbps st |}.

Lemma status_seen_host st got :
  iface_status_from_proto u8 st (iface_status_to_proto got) = status_seen st got.
Proof.
  destruct (wifi_enums_roundtrip (st_security got) (st_mfp got) WIFI_SCAN_TYPE_ACTIVE (st_state got) 0)
    as (_ & Hm & _ & _ & Hs & _ & Hst).
  unfold iface_status_from_proto, iface_status_to_proto, status_seen, WIFI_SSID_MAX_LEN. cbn -[zlen].
  rewrite Hm, Hs, Hst. f_equal.
  - pose proof (zlen_nonneg (st_ssid got)). pose proof (zlen_nil (A := Z)) as Hn.
    destruct (Z.leb_spec (zlen (st_ssid got)) 32), (Z.ltb_spec 0 (zlen (st_ssid got))); cbn -[zlen];
      rewrite ?Hn; decide_cmp; cbn -[zlen]; decide_cmp; try done.
    symmetry. apply zlen_zero. lia.
  - by destruct (st_state got), (st_iface_mode got).
  - by destruct (st_iface_mode got).
Qed.

(** A text through [firmware_version[32]] and [fw_buf[32]]. *)
Lemma c_string_take n l : c_string (take n l) = take n (c_string l).
Proof.
  revert l. induction n as [|n IH]; intros [|x l]; [done..|]. cbn.
  destruct (x =? 0); [done|]. cbn. by rewrite IH.
Qed.

Lemma c_string_app l r : c_string (l ++ 0 :: r) = c_string l.
Proof. induction l as [|x l IH]; cbn; [done|]. by rewrite IH. Qed.

Lemma c_string_padded l n : c_string (c_string l ++ replicate n 0) = c_string l.
Proof.
  induction l as [|x l IH]; cbn; [by destruct n|].
  destruct (Z.eqb_spec x 0); [by destruct n|]. cbn. rewrite (proj2 (Z.eqb_neq x 0)) by done. by rewrite IH.
Qed.

Lemma firmware_version_text msg : ztake 31 (c_string (firmware_version_set msg)) = ztake 31 (c_string msg).
Proof.
  unfold firmware_version_set, ztake. change (replicate 63 0) with (0 :: replicate 62 0).
  rewrite c_string_take, c_string_app, c_string_take, !take_take. f_equal.
Qed.

(** ** The specification *)

(** What an operation does to the radio, and what its caller gets: an operation on
    interface 1 ... *)
Definition on_iface (s : device) (absent : op_result) (k : net_if -> device * op_result)
  : outcome (device * op_result) :=
  Ret (match net_if_get_by_index (ms_io s) VIRT_WIFI_IFACE_INDEX with
       | None => (s, absent)
       | Some i => k i
       end).

(** ... that passes on the code of one call. *)
Definition radio_call (s : device) (res : Z -> op_result) (f : W -> net_if -> W * Z)
  : outcome (device * op_result) :=
  on_iface s (res (- ENODEV)) (fun i => (ms_with s (fst (f (ms_io s) i)), res (snd (f (ms_io s) i)))).

Definition valid_country (cc : Z * Z) : bool := is_letter (fst cc) && is_letter (snd cc).

(** Setting the country: upper case, and confirmed by reading it back. *)
Definition radio_set_country (s : device) (i : net_if) (cc : Z * Z) : device * Z :=
  if negb (valid_country cc) then (s, - EINVAL)
  else
    let want := (to_upper (fst cc), to_upper (snd cc)) in
    let '(w1, ret) := wifi_reg_domain_set (ms_io s) i want false in
    if negb (ret =? 0) then (ms_with s w1, ret)
    else
      let '(w2, ret2, got) := wifi_reg_domain_get w1 i MAX_REG_CHAN_NUM in
      (ms_with s w2, if negb (ret2 =? 0) then ret2 else if bool_decide (rd_country_code got = want) then 0 else - EIO).

Definition radio_ops (s : device) (op : wifi_op) : outcome (device * op_result) :=
  match op with
  | OpScan p =>
      radio_call s (ResScan true) (fun w i => wifi_scan w i (Some
        (mk_wifi_scan_params (sp_scan_type p) 0 (u16 (sp_dwell_time_active p)) (u16 (sp_dwell_time_passive p))
           WIFI_MGMT_SCAN_MAX_BSS_CNT)))
  | OpConnect p =>
      on_iface s (ResCode (- ENODEV)) (fun i =>
        if connect_accepted p then
          let r := wifi_connect (ms_io s) i (connect_forwarded p) in (ms_with s (fst r), ResCode (snd r))
        else (s, ResCode (- EINVAL)))
  | OpDisconnect => radio_call s ResCode wifi_disconnect
  | OpApEnable p =>
      on_iface s (ResCode (- ENODEV)) (fun i =>
        match ap_refused p with
        | Some e => (s, ResCode e)
        | None =>
            let r := wifi_ap_enable (ms_io s) i (ap_forwarded p) in
            (ms_with (ap_remember s p) (fst r), ResCode (snd r))
        end)
  | OpApDisable => radio_call s ResCode wifi_ap_disable
  | OpIfaceStatus st =>
      on_iface s (ResStatus st (- ENODEV)) (fun i =>
        let '(w, ret, got) := wifi_iface_status_get (ms_io s) i in
        (ms_with s w, if ret =? 0 then ResStatus (status_seen st got) 0 else ResStatus st ret))
  | OpGetVersion =>
      let '(w, ret, fw) := wifi_version (ms_io s) (net_if_get_default (ms_io s)) in
      let text := if ret =? 0 then default (ascii_of "N/A") fw else [] in
      Ret (ms_with s w, ResVersion (Some ((0, 0, 0), ztake 31 (c_string text))) 0)
  | OpGetPowerSaveConfig =>
      on_iface s (ResPowerSave None (- ENODEV)) (fun i =>
        let '(w, ret, p) := wifi_ps_config (ms_io s) i in
        (ms_with s w, if ret =? 0 then ResPowerSave (Some (pp_enabled p)) 0 else ResPowerSave None ret))
  | OpRegDomain true cc =>
      on_iface s (ResRegDomain cc (- ENODEV)) (fun i =>
        let '(w, ret, got) := wifi_reg_domain_get (ms_io s) i MAX_REG_CHAN_NUM in
        (ms_with s w, if ret =? 0 then ResRegDomain (cc_string (rd_country_code got)) 0 else ResRegDomain cc ret))
  | OpRegDomain false cc =>
      do! iface <- resolve_wifi_iface fuel (ms_io s) 0;
      Ret (match iface with
           | None => (s, ResRegDomain cc (- ENODEV))
           | Some i => let r := radio_set_country s i cc in (fst r, ResRegDomain cc (snd r))
           end)
  end.

(** ** The operations are the radio's *)

(** A handler on interface 1. *)
Lemma with_wifi_iface_1 {A} (s : device) (absent : A) k :
  with_wifi_iface fuel s VIRT_WIFI_IFACE_INDEX absent k
  = Ret (match net_if_get_by_index (ms_io s) VIRT_WIFI_IFACE_INDEX with
         | None => (s, absent)
         | Some i => k i
         end).
Proof.
  unfold with_wifi_iface.
  change (resolve_wifi_iface fuel (ms_io s) _) with (Ret (net_if_get_by_index (ms_io s) VIRT_WIFI_IFACE_INDEX)).
  cbn [outcome_bind]. by destruct (net_if_get_by_index _ _).
Qed.

(** The code a caller reads from the last lines of a handler. *)
Definition status_code (st : WifiStatusResponse) : Z := if success st then 0 else error_code st.

Lemma finish_code (s : device) r failed done_ : status_code (snd (finish s r failed done_)) = snd r.
Proof. unfold finish, status_code. cbn. by destruct (Z.eqb_spec (snd r) 0) as [->|]. Qed.

(** The operation's request as it arrives. *)
Definition op_sent (op : wifi_op) : WifiMgmtRequest := request_arrives (op_request op).

(** The answers of the handlers, read by the operation that asked. *)
Definition answered (op : wifi_op) (r : outcome (device * WifiMgmtResponse_payload)) : outcome (device * op_result) :=
  do! (s', p) <- r;
  Ret (s', op_decode op (inr (response_arrives (mk_WifiMgmtResponse (u32 (wreq_request_id (op_request op))) p)))).

(** A request that a handler on interface 1 answers with a status. *)
Lemma answered_status op s absent (k : net_if -> device * WifiStatusResponse) res
    (spec : net_if -> device * op_result) :
  (forall st, op_decode op (inr (response_arrives
                (mk_WifiMgmtResponse (u32 (wreq_request_id (op_request op))) (status_resp st))))
              = res (status_code st)) ->
  status_code absent = - ENODEV ->
  (forall i, spec i = (fst (k i), res (status_code (snd (k i))))) ->
  answered op (as_status (with_wifi_iface fuel s VIRT_WIFI_IFACE_INDEX absent k))
  = on_iface s (res (- ENODEV)) spec.
Proof.
  intros Hd Ha Hk. rewrite with_wifi_iface_1. unfold answered, as_status, on_iface. cbn [outcome_bind].
  destruct (net_if_get_by_index _ _) as [i|]; [rewrite Hk; destruct (k i) as [s' st]|];
    cbn [outcome_bind fst snd]; by rewrite Hd, ?Ha.
Qed.

(** The handlers that pass on the code of one call. *)
Lemma answered_call op s msg (f : W -> net_if -> W * Z) failed done_ res :
  (forall st, op_decode op (inr (response_arrives
                (mk_WifiMgmtResponse (u32 (wreq_request_id (op_request op))) (status_resp st))))
              = res (status_code st)) ->
  answered op (as_status (with_wifi_iface fuel s VIRT_WIFI_IFACE_INDEX (st_fail (- ENODEV) msg)
                            (fun i => finish s (f (ms_io s) i) failed done_)))
  = radio_call s res f.
Proof. intros Hd. apply answered_status; [done..|]. intros i. by rewrite finish_code. Qed.

Lemma answered_connect s p :
  answered (OpConnect p) (handle s (op_sent (OpConnect p))) = radio_ops s (OpConnect p).
Proof.
  apply (answered_status (OpConnect p) s (st_fail (- ENODEV) "Interface not found") _ ResCode); [done..|].
  intros i. pose proof (connect_params_host p) as Hc.
  destruct (connect_params (connect_request p)) as [msg|z]; [by rewrite Hc|].
  destruct Hc as [-> ->]. by rewrite finish_code.
Qed.

Lemma answered_ap_enable s p :
  answered (OpApEnable p) (handle s (op_sent (OpApEnable p))) = radio_ops s (OpApEnable p).
Proof.
  apply (answered_status (OpApEnable p) s (st_fail (- ENODEV) "Interface not found for AP enable") _ ResCode);
    [done..|].
  intros i. cbn beta iota. fold (ap_request p). rewrite <- (ap_check_host p).
  destruct (ap_enable_check (ap_request p)) as [[e msg]|] eqn:He; cbn [fmap option_fmap option_map fst].
  - assert (e <> 0) as Hn. { unfold ap_enable_check in He. by repeat case_match; simplify_eq. }
    done.
  - rewrite finish_code, ap_params_host. done.
Qed.

(** A query on interface 1. *)
Lemma answered_get {D} op s absent (k : net_if -> device * get_result D) (f : D -> WifiMgmtResponse_payload)
    (spec : net_if -> device * op_result) :
  let read p :=
    op_decode op (inr (response_arrives (mk_WifiMgmtResponse (u32 (wreq_request_id (op_request op))) p))) in
  success absent = false ->
  (forall i, match snd (k i) with
             | GetErr st => success st = false /\ spec i = (fst (k i), read (status_resp st))
             | GetData d => spec i = (fst (k i), read (f d))
             end) ->
  answered op (as_get f (with_wifi_iface fuel s VIRT_WIFI_IFACE_INDEX (GetErr absent) k))
  = on_iface s (read (status_resp absent)) spec.
Proof.
  intros read Ha Hk. rewrite with_wifi_iface_1. unfold answered, as_get, on_iface. cbn [outcome_bind].
  destruct (net_if_get_by_index _ _) as [i|]; [|cbn [has_flag]; by rewrite Ha].
  specialize (Hk i). destruct (k i) as [s' [st|d]]; cbn [fst snd has_flag] in *.
  - by destruct Hk as [-> ->].
  - by rewrite Hk.
Qed.

Lemma answered_queries s op :
  match op with
  | OpIfaceStatus _ | OpGetPowerSaveConfig | OpRegDomain true _ | OpGetVersion => True
  | _ => False
  end -> answered op (handle s (op_sent op)) = radio_ops s op.
Proof.
  destruct op as [| | | | |st| | |[] cc]; try done; intros _.
  - apply answered_get; [done|]. intros i.
    destruct (wifi_iface_status_get (ms_io s) i) as [[w ret] got].
    destruct (Z.eqb_spec ret 0) as [->|Hr]; cbn; [by rewrite status_seen_host | done].
  - change (handle s _) with (Ret (handle_get_version_request s)). unfold handle_get_version_request.
    cbn [radio_ops]. destruct (wifi_version _ _) as [[w ret] fw]. unfold answered.
    destruct (ret =? 0); [|done]. cbn -[ztake c_string fw_string firmware_version_set ascii_of].
    unfold fw_string. rewrite c_string_padded. by rewrite firmware_version_text.
  - apply answered_get; [done|]. intros i.
    destruct (wifi_ps_config (ms_io s) i) as [[w ret] p].
    destruct (Z.eqb_spec ret 0) as [->|Hr]; cbn; [by destruct (pp_enabled p) | done].
  - apply answered_get; [done|]. intros i.
    destruct (wifi_reg_domain_get (ms_io s) i MAX_REG_CHAN_NUM) as [[w ret] got].
    by destruct (Z.eqb_spec ret 0) as [->|Hr].
Qed.

Lemma answered_set_country s cc :
  answered (OpRegDomain false cc) (handle s (op_sent (OpRegDomain false cc)))
  = radio_ops s (OpRegDomain false cc).
Proof.
  change (handle s _) with (as_status (handle_set_reg_domain_request fuel s 0 (Some (cc_string cc, false)))).
  unfold handle_set_reg_domain_request, with_wifi_iface, answered, as_status. cbn [radio_ops].
  destruct (resolve_wifi_iface fuel (ms_io s) 0) as [[i|]| |]; [|done..]. cbn [outcome_bind].
  destruct cc as [c0 c1]. unfold radio_set_country, valid_country, cc_string. cbn [fst snd].
  destruct (Z.eqb_spec c0 0) as [->|Hc0]; [done|]. rewrite (proj2 (Z.eqb_neq c0 0) Hc0). cbn [orb].
  assert ((c1 =? 0) || negb (is_letter c0) || negb (is_letter c1)
          = negb (is_letter c0 && is_letter c1)) as ->.
  { destruct (Z.eqb_spec c1 0) as [->|]; rewrite ?andb_false_r; cbn; by rewrite ?negb_andb. }
  destruct (negb _); [done|].
  destruct (wifi_reg_domain_set _ _ _ _) as [w1 ret]. destruct (Z.eqb_spec ret 0) as [->|]; cbn [negb]; [|done].
  destruct (wifi_reg_domain_get _ _ _) as [[w2 ret2] [[g0 g1] fo ch]]. cbn [rd_country_code fst snd].
  destruct (Z.eqb_spec ret2 0) as [->|]; cbn [negb]; [|done].
  case_bool_decide as He.
  - injection He as -> ->. by rewrite !Z.eqb_refl.
  - destruct (Z.eqb_spec g0 (to_upper c0)) as [->|]; [|done].
    destruct (Z.eqb_spec g1 (to_upper c1)) as [->|]; [|done]. done.
Qed.

(** Every operation of the driver, without the encoding. *)
Lemma answered_all s op : answered op (handle s (op_sent op)) = radio_ops s op.
Proof.
  destruct op as [p| | | | | | | |[] cc];
    try (by apply answered_queries); try apply answered_connect; try apply answered_ap_enable;
    try apply answered_set_country.
  - cbn [radio_ops]. rewrite <- (answered_call (OpScan p) s "Interface not found for scan"
      (fun w i => wifi_scan w i (Some (mk_wifi_scan_params (sp_scan_type p) 0 (u16 (sp_dwell_time_active p))
         (u16 (sp_dwell_time_passive p)) WIFI_MGMT_SCAN_MAX_BSS_CNT)))
      "Wi-Fi scan request failed" "Scan initiated" (ResScan true)) by done.
    destruct p as [[] ?]; done.
  - by apply (answered_call OpDisconnect).
  - by apply (answered_call OpApDisable).
Qed.

Lemma op_asks op : driver_asks (op_request op) = true.
Proof. by destruct op as [| | | | | | | |[]]. Qed.

(** C22. The driver's operations, from the host's stack to the radio: with requests
    and answers that fit their buffers, every member of [virt_wifi_ops] has the
    effect and the result of [radio_ops].  The calls go to interface 1 (setting
    the country: to the first Wi-Fi interface) and return the radio's code, or
    -ENODEV without that interface.  A connection is attempted exactly when the
    SSID has 1 to 32 bytes and, for the PSK types, the passphrase 1 to 64, and an
    access point is started under the analogous conditions; otherwise the code is
    -EINVAL (or -ENOTSUP) and nothing changes.  The radio is given the base type
    of the security, always the 2.4 GHz band and no BSSID; a scan keeps its type
    and loses its bands and result limit.  A country must be two letters and is
    read back.  Queries return the radio's data in the form the protocol can
    carry; a version query the radio refuses gives an empty text and the code 0.
    An SAE network is always refused: the host does not send the password. *)
Theorem wifi_ops_end_to_end (s : device) (op : wifi_op) :
  exchange_fits s (op_request op) ->
  virt_wifi_ops s op = radio_ops s op /\
  (forall params, security_image (cp_security params) = WIFI_SECURITY_TYPE_SAE -> connect_accepted params = false).
Proof.
  intros Hf. split.
  - rewrite virt_wifi_ops_roundtrip, device_roundtrip by (done || apply op_asks). rewrite <- answered_all. unfold answered.
    fold (op_sent op). by destruct (handle s (op_sent op)) as [[]| |].
  - intros params Hs. unfold connect_accepted. rewrite Hs. by rewrite andb_false_r.
Qed.

End Requests.
