(* ===== verification/WifiSystem.v ===== *)
(** * WifiSystem: the driver's operations over the serial link

    [virt_wifi_ops] with [bus_request] on the host, the device's serial layer, the
    Wi-Fi management proxy's buffer and thread, and [process_wifi_mgmt_request]
    ([ProxyLink] with the processing of [WifiMgmt]): the link is a transport of
    the driver that cannot be told from calling the device's processing directly
    ([DeviceTransport] of [WifiOps]). *)

From S2P Require Import Prelude Framing Platform Client SerialDev SerialRefine SerialProps.
From S2P Require Import Multiplexer Proxies Device HostBus HostProps Link ProxyThread ProxyLink.
From S2P Require Import NetIfMgmt WifiEnums WifiRaw WifiMgmt WifiNotify HostWifi WifiOps.
From Stdlib Require Import ZArith Lia.
From stdpp Require Import base list option numbers decidable.

Open Scope Z_scope.
Open Scope e80211_scope.

(** A sequence of operations, each after the other has returned. *)
Fixpoint run_ops {T} `{MgmtTransport T} `{HostCodec} (t : T) (ops : list wifi_op) : outcome (T * list op_result) :=
  match ops with
  | [] => Ret (t, [])
  | op :: ops =>
      do! (t1, r) <- virt_wifi_ops t op;
      do! (t2, rs) <- run_ops t1 ops;
      Ret (t2, r :: rs)
  end.

Section WifiSystem.
Context {UH UD C EH HID USR W : Type}.
Context `{PH : PlatformLaws UH} `{!TxReady UH} `{PD : PlatformLaws UD} `{!TxReady UD} `{MX : Mux C}.
Context `{NI : NetIfApi W} `{RI : !RawIo W} `{WA : !WifiApi W} `{HC : HostCodec} `{WC : WifiCodec}.
Context (run_handler : HID -> option USR -> list Z -> EH -> EH).

(** [sizeof] of the proxy's receive buffer ([bufsize]), of its response buffer
    ([cap]) and of the host's [resp_buf] ([resp_size]). *)
Context (L : lens C accum_state) (bufsize cap resp_size : Z).
Context (WIFI_MGMT_SCAN_MAX_BSS_CNT : Z) (ifaces : nat).

#[local] Abbreviation device := (mgmt_state (W := W)).
#[local] Abbreviation bus := (bus_state UH EH HID USR).

(** [process_wifi_mgmt_request] as the thread calls it; a run that does not return
    stays in the environment. *)
Definition wifi_process (e : outcome device) (request : list Z) : outcome device * list Z :=
  match e with
  | Ret s =>
      match process_wifi_mgmt_request WIFI_MGMT_SCAN_MAX_BSS_CNT ifaces s request cap with
      | Ret (s', response) => (Ret s', response)
      | Fault => (Fault, [])
      | OutOfFuel => (OutOfFuel, [])
      end
  | _ => (e, [])
  end.

#[local] Abbreviation system := (bus * node (UD := UD) (C := C) (E := outcome device))%type.

Definition LinkTransport (iters fuel turns : nat) : MgmtTransport system :=
  {| mgmt_request :=
       link_request run_handler L bufsize wifi_process SERIAL_TYPE_WIFI_MGMT iters fuel turns resp_size |}.

#[local] Abbreviation direct := (DeviceTransport WIFI_MGMT_SCAN_MAX_BSS_CNT ifaces cap).

(** What the link needs of its ends. *)
Record link_sizes : Prop := {
  ls_buffer : 0 <= bufsize < 2 ^ 31;
  ls_client : get_callbacks SERIAL_TYPE_WIFI_MGMT = Some (lift_ops L (accum_client bufsize));
  ls_cap : cap <= resp_size /\ cap <= SERIAL_MAX_PAYLOAD_LEN /\ 0 <= cap;
  ls_encode r bs : WifiMgmtResponse_encode cap r = Some bs -> zlen bs <= cap
}.

(** A request of at most half the proxy's buffer. *)
Definition request_small (op : wifi_op) : Prop :=
  forall bs, WifiMgmtRequest_encode (op_request op) = Some bs ->
  0 < zlen bs <= bufsize / 2 /\ zlen bs <= SERIAL_MAX_PAYLOAD_LEN.

#[local] Abbreviation served := (serving L bufsize).

Lemma default_encode_le r : link_sizes -> zlen (default [] (WifiMgmtResponse_encode cap r)) <= cap.
Proof.
  intros [_ _ (_ & _ & Hc) He]. destruct (WifiMgmtResponse_encode cap r) as [bs|] eqn:E1; [by apply (He r)|].
  by change (default [] None) with (@nil Z); rewrite zlen_nil.
Qed.

Lemma process_response_le s p s' response :
  link_sizes -> process_wifi_mgmt_request WIFI_MGMT_SCAN_MAX_BSS_CNT ifaces s p cap = Ret (s', response) ->
  zlen response <= cap.
Proof.
  intros Hl. unfold process_wifi_mgmt_request. destruct (WifiMgmtRequest_decode p) as [req|].
  - destruct (wifi_mgmt_handle _ _ s req) as [[s1 pl]| |]; [|done..]. cbn [outcome_bind].
    intros [= <- <-]. by apply default_encode_le.
  - intros [= <- <-]. by apply default_encode_le.
Qed.

(** One exchange. *)
Lemma link_roundtrip iters fuel turns (t : system) s op s' r :
  link_sizes -> request_small op -> served t (Ret s) ->
  mgmt_roundtrip (H := direct) s (op_request op) = Ret (s', r) ->
  exists t', mgmt_roundtrip (H := LinkTransport (2 + iters) (5 + fuel) (5 + turns)) t (op_request op) = Ret (t', r) /\
    served t' (Ret s') /\ b_env (fst t') = b_env (fst t).
Proof.
  intros Hls Hsm Hsv. unfold mgmt_roundtrip.
  destruct (WifiMgmtRequest_encode (op_request op)) as [bs|] eqn:Eb; [|intros [= <- <-]; by exists t].
  destruct (Hsm bs Eb) as [Hl Hm]. cbn [mgmt_request DeviceTransport LinkTransport].
  destruct (process_wifi_mgmt_request _ _ s bs cap) as [[s1 resp]| |] eqn:Ep; [|done..]. cbn [outcome_bind].
  pose proof (process_response_le s bs s1 resp Hls Ep) as Hrl. destruct Hls as [Hb Hc (Hcr & Hcm & _) _].
  assert (wifi_process (Ret s) bs = (Ret s1, resp)) as Hp by (unfold wifi_process; by rewrite Ep).
  destruct (link_request_ok (UH := UH) (UD := UD) run_handler L bufsize wifi_process SERIAL_TYPE_WIFI_MGMT Hb ltac:(done) ltac:(done) Hc
    iters fuel turns resp_size t (Ret s) bs Hsv Hl Hm) as (t' & E1 & Hsv' & He);
    [rewrite Hp; cbn; lia | rewrite Hp; cbn; lia |].
  rewrite Hp in E1, Hsv'. cbn [fst snd] in E1, Hsv'. rewrite E1. cbn [outcome_bind].
  destruct resp as [|x resp]; [intros [= <- <-]; by exists t'|]. cbn -[zlen].
  rewrite (proj2 (Z.ltb_lt 0 _)) by (rewrite zlen_cons; pose proof (zlen_nonneg resp); lia). cbn -[zlen].
  destruct (WifiMgmtResponse_decode _); intros [= <- <-]; by exists t'.
Qed.

(** C10. The link is transparent to the driver: any sequence of its operations,
    from [bus_request] through the wire, the device's receive path, the proxy's
    buffer and thread to [process_wifi_mgmt_request] and back, returns what the
    same sequence returns when it calls the device's processing directly, and
    leaves the device's Wi-Fi state the same; both ends are idle and in step
    again, the thread waits with an empty buffer, and no handler of the host has
    run.  A response that could not be encoded is not sent and its operation
    returns -ETIMEDOUT on both sides.  Requests of up to half the proxy's buffer. *)
Theorem wifi_ops_over_link (iters fuel turns : nat) (t : system) (s s' : device) (ops : list wifi_op)
    (rs : list op_result) :
  link_sizes -> Forall request_small ops -> served t (Ret s) ->
  run_ops (H := direct) s ops = Ret (s', rs) ->
  exists t', run_ops (H := LinkTransport (2 + iters) (5 + fuel) (5 + turns)) t ops = Ret (t', rs) /\
    served t' (Ret s') /\ b_env (fst t') = b_env (fst t).
Proof.
  intros Hls Hsm. revert t s rs. induction Hsm as [|op ops Hop _ IH]; intros t s rs Hsv.
  - intros [= <- <-]. by exists t.
  - cbn [run_ops]. rewrite !virt_wifi_ops_roundtrip.
    destruct (mgmt_roundtrip s (op_request op)) as [[s1 r]| |] eqn:E1; [|done..]. cbn [outcome_bind].
    destruct (run_ops s1 ops) as [[s2 rs2]| |] eqn:E2; [|done..]. intros [= <- <-].
    destruct (link_roundtrip iters fuel turns t s op s1 r Hls Hop Hsv E1) as (t1 & E3 & Hsv1 & He1).
    destruct (IH t1 s1 rs2 Hsv1 E2) as (t2 & E4 & Hsv2 & He2).
    exists t2. rewrite E3. cbn [outcome_bind]. rewrite E4. cbn [outcome_bind]. split; [done|]. split; [done|].
    congruence.
Qed.

End WifiSystem.
