(* ===== verification/WifiLink.v ===== *)
(** * WifiLink: the radio's events at the host's stack

    The device's notifications ([WifiNotify]) reach the host's handler
    ([HostWifi]) over the link ([Link]). *)

From S2P Require Import Prelude Framing Platform Client SerialDev SerialRefine SerialProps.
From S2P Require Import Multiplexer HostBus HostProps Link NetIfMgmt WifiEnums WifiRaw WifiMgmt WifiNotify HostWifi WifiOps.
From Stdlib Require Import ZArith Lia String.
From stdpp Require Import base list option numbers decidable.

Open Scope Z_scope.
Open Scope e80211_scope.

(** ** Scanning *)

(** What the host's stack sees of a result. *)
Definition scan_image (e : wifi_scan_result) : wifi_scan_result :=
  {| sr_ssid := ztake 32 (sr_ssid e); sr_band := WIFI_FREQ_BAND_2_4_GHZ; sr_channel := u8 (sr_channel e);
     sr_security := security_image (sr_security e); sr_mfp := sr_mfp e; sr_rssi := to_int8 (sr_rssi e);
     sr_mac := sr_mac e; sr_wpa3_ent_type := 0 |}.

Lemma scan_result_image e : scan_result_from_proto (to_scan_result e) = scan_image e.
Proof.
  destruct (wifi_enums_roundtrip (sr_security e) (sr_mfp e) WIFI_SCAN_TYPE_ACTIVE WIFI_STATE_INACTIVE 0)
    as (_ & Hm & _ & _ & Hs & _).
  unfold scan_result_from_proto, to_scan_result, scan_image, WIFI_SSID_MAX_LEN. cbn -[zlen ztake].
  rewrite Hm, Hs, zlen_ztake, (proj2 (Z.leb_le _ _)) by lia. done.
Qed.

(** A result of the 2.4 GHz band with values in the ranges of its fields and a
    security type that has a number in the protocol. *)
Definition plain_result (e : wifi_scan_result) : Prop :=
  zlen (sr_ssid e) <= 32 /\ sr_band e = WIFI_FREQ_BAND_2_4_GHZ /\ 0 <= sr_channel e < 256 /\
  security_image (sr_security e) = sr_security e /\ -128 <= sr_rssi e < 128 /\ sr_wpa3_ent_type e = 0.

Lemma scan_image_plain e : plain_result e -> scan_image e = e.
Proof.
  destruct e. unfold plain_result, scan_image. cbn -[zlen ztake]. intros (Hs & -> & Hc & -> & Hr & ->).
  rewrite ztake_ge by done. unfold u8, to_int8. by rewrite !Z.mod_small, Z.add_simpl_r by lia.
Qed.

Section Scan.
Context {UH UD V W C : Type} `{PH : PlatformLaws UH} `{!TxReady UH} `{PD : PlatformLaws UD} `{!TxReady UD}.
Context `{HostNet V} `{NetIfApi W} `{CodecsAgree} `{Mux C} (MAX_SCAN_RESULTS : Z).

#[local] Abbreviation bus := (bus_state UH (virt_wifi V) wifi_handler v_if).
#[local] Abbreviation device := (dev UD C).

(** A scan from the radio to the host's stack: the results the radio reports
    and the end of the scan make one notification, and when it reaches the host
    its stack is called once for each of the first MAX_SCAN_RESULTS results, in
    order, and once for the end, each time with the status of the scan; the link
    is idle and in step again.  A result of the 2.4 GHz band with a security type
    of the protocol arrives unchanged; the others lose their band (the host
    reports 2.4 GHz) or the variant of their security type. *)
Theorem wifi_scan_end_to_end (fuel : nat) (b : bus) (w : device) (net : W) (iface : option net_if)
    (entries : list wifi_scan_result) (status : Z) (bs : list Z) :
  0 <= MAX_SCAN_RESULTS ->
  WifiMgmtNotification_encode (mk_WifiMgmtNotification (iface_index_of net iface)
    (scan_done_event status (ztake MAX_SCAN_RESULTS (map to_scan_result entries)))) = Some bs ->
  0 < zlen bs <= SERIAL_MAX_PAYLOAD_LEN -> link_idle b w -> in_sync b w ->
  b_handler b !! Z.to_nat SERIAL_TYPE_WIFI_MGMT = Some (Some WIFI_MGMT_NOTIFY) -> vw_scan_cb (b_env b) = true ->
  fold_left (wifi_mgmt_net_event_handler MAX_SCAN_RESULTS net iface) (scan_events entries status)
    (mk_notify_state [] []) = mk_notify_state [] [bs] /\
  (exists b' w', device_exchange run_wifi_handler (5 + fuel) b w SERIAL_TYPE_WIFI_MGMT bs = Ret (b', w', 0) /\
     link_idle b' w' /\ in_sync b' w' /\
     vw_events (b_env b') = vw_events (b_env b)
       ++ map (fun e => LScan status (Some (scan_image e))) (ztake MAX_SCAN_RESULTS entries)
       ++ [LScan status None]) /\
  (forall e, plain_result e -> scan_image e = e).
Proof.
  intros Hm He Hl Hli Hsy Hh Hcb. split; [|split; [|apply scan_image_plain]].
  - rewrite scan_notifies by done. by rewrite He.
  - destruct (device_exchange_ok run_wifi_handler fuel b w SERIAL_TYPE_WIFI_MGMT bs)
      as (b' & w' & E & Hli' & _ & Henv & Hsy' & _); [done..|].
    exists b', w'. split; [exact E|]. split; [done|]. split; [by apply Hsy'|].
    rewrite Henv. unfold dispatch. cbn [bh_type]. rewrite Hh. cbn. f_equal.
    unfold wifi_mgmt_notify. rewrite (notification_agrees _ _ He), Hcb. cbn. f_equal.
    unfold ztake. rewrite <- !firstn_map, map_map. f_equal. apply map_ext. intros e. by rewrite scan_result_image.
Qed.

(** ** Any sequence of events *)

Context (net : W) (iface : option net_if).

(** The notification an event makes the proxy send, with the results collected so
    far, and the results after it. *)
Definition event_sends (pending : list wifi_scan_result) (e : wifi_net_event) : option WifiMgmtNotification :=
  mk_WifiMgmtNotification (iface_index_of net iface) <$>
  match e with
  | NET_EVENT_WIFI_SCAN_DONE status => Some (scan_done_event (default 0 status) (map to_scan_result pending))
  | NET_EVENT_WIFI_AP_ENABLE_RESULT st => Some (ap_enable_result_event (ap_status_to_proto st))
  | NET_EVENT_WIFI_AP_DISABLE_RESULT st => Some (ap_disable_result_event (ap_status_to_proto st))
  | NET_EVENT_WIFI_AP_STA_CONNECTED mac => ap_sta_connected_event <$> mac
  | NET_EVENT_WIFI_AP_STA_DISCONNECTED mac => ap_sta_disconnected_event <$> mac
  | _ => None
  end.

Definition event_collects (pending : list wifi_scan_result) (e : wifi_net_event) : list wifi_scan_result :=
  match e with
  | NET_EVENT_WIFI_SCAN_RESULT entry =>
      if MAX_SCAN_RESULTS <=? zlen pending then pending else pending ++ [entry]
  | NET_EVENT_WIFI_SCAN_DONE _ => []
  | _ => pending
  end.

(** What the host's stack is told about it. *)
Definition event_report (scan_cb : bool) (pending : list wifi_scan_result) (e : wifi_net_event) : list local_event :=
  match e with
  | NET_EVENT_WIFI_SCAN_DONE status =>
      if scan_cb then
        map (fun r => LScan (default 0 status) (Some (scan_image r))) pending ++ [LScan (default 0 status) None]
      else []
  | NET_EVENT_WIFI_AP_ENABLE_RESULT st => [LApEnable (st =? WIFI_STATUS_AP_SUCCESS)]
  | NET_EVENT_WIFI_AP_DISABLE_RESULT st => [LApDisable (st =? WIFI_STATUS_AP_SUCCESS)]
  | NET_EVENT_WIFI_AP_STA_CONNECTED (Some mac) => [LApSta true mac]
  | NET_EVENT_WIFI_AP_STA_DISCONNECTED (Some mac) => [LApSta false mac]
  | _ => []
  end.

Fixpoint events_send (pending : list wifi_scan_result) (evs : list wifi_net_event) : list WifiMgmtNotification :=
  match evs with
  | [] => []
  | e :: evs => option_list (event_sends pending e) ++ events_send (event_collects pending e) evs
  end.

Fixpoint events_report (scan_cb : bool) (pending : list wifi_scan_result) (evs : list wifi_net_event)
  : list local_event :=
  match evs with
  | [] => []
  | e :: evs => event_report scan_cb pending e ++ events_report scan_cb (event_collects pending e) evs
  end.

(** The handler does what the specification says, for a notification that can be
    encoded. *)
Lemma event_sends_ok pending e :
  (forall n, event_sends pending e = Some n -> is_Some (WifiMgmtNotification_encode n)) ->
  net_mgmt_event_notify MAX_SCAN_RESULTS net iface (mk_notify_state (map to_scan_result pending) []) e
  = mk_notify_state (map to_scan_result (event_collects pending e))
      (option_list (event_sends pending e ≫= WifiMgmtNotification_encode)).
Proof.
  intros Hf.
  destruct e as [r|st|st|st|[m|]|[m|]|st|st|]; try done;
    unfold net_mgmt_event_notify; cbn -[zlen default];
    try (destruct (Hf _ eq_refl) as [bs Hb]; unfold send_scan_done_notification, send_ap_result_notification,
           send_ap_sta_notification, notify_send; cbn -[zlen default]; cbn -[default] in Hb; by rewrite Hb).
  unfold handle_wifi_scan_result. cbn [scan_results ns_sent]. unfold zlen. rewrite length_map.
  destruct (MAX_SCAN_RESULTS <=? _); [done|]. by rewrite map_app.
Qed.

(** The host's handler undoes it. *)
Lemma notify_reports scan_cb pending e n bs :
  event_sends pending e = Some n -> WifiMgmtNotification_encode n = Some bs ->
  wifi_mgmt_notify scan_cb bs = event_report scan_cb pending e.
Proof.
  intros Hn Hb. unfold wifi_mgmt_notify. rewrite (notification_agrees _ _ Hb).
  destruct e as [r|st|st|st|[m|]|[m|]|st|st|]; try discriminate Hn; injection Hn as <-; cbn -[Z.eqb default];
    try done.
  - unfold handle_scan_done. destruct scan_cb; [|done]. cbn [negb]. f_equal. rewrite map_map. apply map_ext.
    intros r. by rewrite scan_result_image.
  - unfold ap_status_to_proto. destruct (Z.eqb_spec st WIFI_STATUS_AP_SUCCESS) as [->|Hs]; [done|].
    unfold WIFI_STATUS_AP_SUCCESS in *. by rewrite (proj2 (Z.eqb_neq _ _)) by lia.
  - unfold ap_status_to_proto. destruct (Z.eqb_spec st WIFI_STATUS_AP_SUCCESS) as [->|Hs]; [done|].
    unfold WIFI_STATUS_AP_SUCCESS in *. by rewrite (proj2 (Z.eqb_neq _ _)) by lia.
Qed.

Lemma event_report_none scan_cb pending e : event_sends pending e = None -> event_report scan_cb pending e = [].
Proof. by destruct e as [r|st|st|st|[m|]|[m|]|st|st|]. Qed.

(** ** The events over the link *)

Fixpoint deliver (fuel : nat) (b : bus) (w : device) (frames : list (list Z)) : outcome (bus * device) :=
  match frames with
  | [] => Ret (b, w)
  | p :: frames =>
      do! (b1, w1, _) <- device_exchange run_wifi_handler fuel b w SERIAL_TYPE_WIFI_MGMT p;
      deliver fuel b1 w1 frames
  end.

(** The radio raises the events one after the other; what the proxy sends for each
    reaches the host. *)
Fixpoint events_run (fuel : nat) (b : bus) (w : device) (results : list WifiScanResult) (evs : list wifi_net_event)
  : outcome (bus * device) :=
  match evs with
  | [] => Ret (b, w)
  | e :: evs =>
      let s := net_mgmt_event_notify MAX_SCAN_RESULTS net iface (mk_notify_state results []) e in
      do! (b1, w1) <- deliver fuel b w (ns_sent s);
      events_run fuel b1 w1 (scan_results s) evs
  end.

(** A notification that is encoded and fits a frame. *)
Definition notification_fits (n : WifiMgmtNotification) : Prop :=
  exists bs, WifiMgmtNotification_encode n = Some bs /\ 0 < zlen bs <= SERIAL_MAX_PAYLOAD_LEN.

(** The driver's handler is registered and the link is at rest. *)
Record listening (b : bus) (w : device) : Prop := {
  ln_idle : link_idle b w;
  ln_sync : in_sync b w;
  ln_handler : b_handler b !! Z.to_nat SERIAL_TYPE_WIFI_MGMT = Some (Some WIFI_MGMT_NOTIFY)
}.

Lemma event_delivered fuel (b : bus) (w : device) pending e :
  listening b w -> Forall notification_fits (option_list (event_sends pending e)) ->
  exists b' w', deliver (5 + fuel) b w (option_list (event_sends pending e ≫= WifiMgmtNotification_encode))
    = Ret (b', w') /\ listening b' w' /\ vw_scan_cb (b_env b') = vw_scan_cb (b_env b) /\
    vw_events (b_env b') = vw_events (b_env b) ++ event_report (vw_scan_cb (b_env b)) pending e.
Proof.
  intros [Hli Hsy Hh] Hf. destruct (event_sends pending e) as [n|] eqn:En.
  2: { rewrite (event_report_none _ _ _ En), app_nil_r. exists b, w. split; [done|]. by split; [split|]. }
  apply List.Forall_cons_iff in Hf as [(bs & Hb & Hl) _].
  destruct (device_exchange_ok run_wifi_handler fuel b w SERIAL_TYPE_WIFI_MGMT bs)
    as (b' & w' & E & Hli' & _ & Henv & Hsy' & _ & Hbh & _); [done..|].
  exists b', w'. cbn [mbind option_bind]. rewrite Hb.
  change (deliver (5 + fuel) b w (option_list (Some bs)))
    with (do! (b1, w1, _) <- device_exchange run_wifi_handler (5 + fuel) b w SERIAL_TYPE_WIFI_MGMT bs; Ret (b1, w1)).
  rewrite E. cbn [outcome_bind].
  split; [done|]. split; [split; [done | by apply Hsy' | by rewrite Hbh]|].
  unfold dispatch in Henv. cbn [bh_type] in Henv. rewrite Hh in Henv. rewrite Henv. cbn.
  by rewrite (notify_reports _ _ _ _ _ En Hb).
Qed.

(** Reports of a connection. *)
Definition tells_connection (l : local_event) : bool :=
  match l with LConnectResult _ | LDisconnectResult | LIfaceStatus _ => true | _ => false end.

Lemma events_report_silent scan_cb pending evs : existsb tells_connection (events_report scan_cb pending evs) = false.
Proof.
  revert pending. induction evs as [|e evs IH]; intros pending; [done|].
  cbn [events_report]. rewrite existsb_app, IH, orb_false_r.
  destruct e as [r|st|st|st|[m|]|[m|]|st|st|]; try done. cbn -[default]. destruct scan_cb; [|done].
  rewrite existsb_app. induction pending as [|r rs IHr]; cbn -[default]; [done|]. exact IHr.
Qed.

(** C34. The radio's events at the host's stack: whatever events the radio raises,
    in whatever order, the host's stack is told exactly [events_report], in
    order, and the link is at rest and in step again.  A scan's results (up to
    the proxy's capacity) are reported one by one at the end of the scan and then
    the end itself, each with the scan's status, if a callback is set; access
    point results and stations are reported as they come, success as success and
    failure as failure.  A result of the 2.4 GHz band with a security type of the
    protocol arrives unchanged.  But the proxy does not subscribe to connect and
    disconnect results: no event ever makes the host's stack learn that a
    connection came up or went down. *)
Theorem wifi_events_end_to_end (fuel : nat) (b : bus) (w : device) (evs : list wifi_net_event) :
  listening b w -> Forall notification_fits (events_send [] evs) ->
  (exists b' w', events_run (5 + fuel) b w [] evs = Ret (b', w') /\ listening b' w' /\
     vw_events (b_env b') = vw_events (b_env b) ++ events_report (vw_scan_cb (b_env b)) [] evs) /\
  existsb tells_connection (events_report (vw_scan_cb (b_env b)) [] evs) = false /\
  (forall e, plain_result e -> scan_image e = e).
Proof.
  intros Hln Hf. split; [|split; [apply events_report_silent | apply scan_image_plain]].
  change (@nil WifiScanResult) with (map to_scan_result []). revert b w Hln Hf.
  generalize (@nil wifi_scan_result) as pending. induction evs as [|e evs IH]; intros pending b w Hln Hf.
  { exists b, w. cbn. by rewrite app_nil_r. }
  cbn [events_send] in Hf. apply List.Forall_app in Hf as [Hf1 Hf2].
  destruct (event_delivered fuel b w pending e Hln Hf1) as (b1 & w1 & E1 & Hln1 & Hcb & He1).
  destruct (IH (event_collects pending e) b1 w1 Hln1 Hf2) as (b2 & w2 & E2 & Hln2 & He2).
  exists b2, w2. cbn [events_run]. rewrite event_sends_ok.
  - cbn [ns_sent scan_results]. rewrite E1. cbn [outcome_bind]. split; [done|]. split; [done|].
    cbn [events_report]. by rewrite He2, He1, Hcb, app_assoc.
  - intros n Hn. rewrite Hn in Hf1. apply List.Forall_cons_iff in Hf1 as [(bs & Hb & _) _]. by exists bs.
Qed.

End Scan.
