(* ===== verification/WifiRuns.v ===== *)
(** * WifiRuns: the Wi-Fi theorems on concrete runs

    A codec that satisfies the laws of [CodecsAgree] (lists behind their length,
    numbers as they are), a radio that logs what it is asked, and one run per
    theorem. *)

From S2P Require Import Prelude Framing Platform Client SerialDev SerialRefine SerialProps.
From S2P Require Import Multiplexer BtProxy Proxies Device DeviceRuns HostBus HostProps Link LinkRuns.
From S2P Require Import NetIfMgmt WifiEnums WifiRaw WifiMgmt WifiNotify HostWifi WifiOps ProxyThread ProxyLink WifiSystem WifiLink.
From Stdlib Require Import ZArith Lia String Ascii.
From stdpp Require Import base list option numbers decidable gmap.

Open Scope Z_scope.
Open Scope e80211_scope.

(** ** A codec *)

Definition put (l : list Z) : list Z := zlen l :: l.

Definition get (bs : list Z) : option (list Z * list Z) :=
  match bs with
  | n :: r => if n <=? zlen r then Some (ztake n r, zdrop n r) else None
  | [] => None
  end.

Lemma get_put l r : get (put l ++ r) = Some (l, r).
Proof.
  unfold get, put. cbn [app]. rewrite zlen_app, (proj2 (Z.leb_le _ _)) by (pose proof (zlen_nonneg r); lia).
  by rewrite ztake_app, zdrop_app.
Qed.

Lemma get_put_end l : get (put l) = Some (l, []).
Proof. rewrite <- (get_put l []). by rewrite app_nil_r. Qed.

Definition encode_connect (r : WifiConnectRequest) : list Z :=
  [cr_iface_index r; cr_security_type r; cr_channel r; cr_timeout_ms r; cr_mfp r; cr_band r]
  ++ put (cr_ssid r) ++ put (cr_psk r) ++ put (cr_sae_password r) ++ put (cr_bssid r)
  ++ put (cr_eap_identity r) ++ put (cr_eap_password r).

Definition decode_connect (bs : list Z) : option WifiConnectRequest :=
  match bs with
  | i :: sec :: ch :: ti :: mfp :: band :: r =>
      '(ssid, r) ← get r; '(psk, r) ← get r; '(sae, r) ← get r; '(bssid, r) ← get r;
      '(eid, r) ← get r; '(epw, r) ← get r;
      Some (mk_WifiConnectRequest i ssid sec psk sae ch bssid ti mfp band eid epw)
  | _ => None
  end.

Lemma decode_encode_connect r : decode_connect (encode_connect r) = Some r.
Proof.
  destruct r. unfold encode_connect. cbn -[put get]. rewrite !get_put. cbn -[put get].
  repeat (rewrite get_put; cbn -[put get]). rewrite get_put_end. done.
Qed.

Definition string_of (bs : list Z) : string :=
  string_of_list_ascii (map (fun b => ascii_of_nat (Z.to_nat b)) bs).

Lemma string_of_ascii_of s : string_of (ascii_of s) = s.
Proof.
  unfold string_of, ascii_of. rewrite map_map. rewrite <- (string_of_list_ascii_of_string s) at 2. f_equal.
  rewrite <- (map_id (list_ascii_of_string s)) at 2. apply map_ext. intros a.
  by rewrite Nat2Z.id, ascii_nat_embedding.
Qed.

Definition encode_result (r : WifiScanResult) : list Z :=
  [pr_channel r; pr_rssi r; pr_security r; pr_wpa3_enterprise_type r; pr_mfp r; pr_band r]
  ++ put (pr_ssid r) ++ put (pr_bssid r).

Fixpoint decode_results (n : nat) (bs : list Z) : option (list WifiScanResult) :=
  match n, bs with
  | O, _ => Some []
  | S n, ch :: rssi :: sec :: ent :: mfp :: band :: r =>
      '(ssid, r) ← get r; '(bssid, r) ← get r; rest ← decode_results n r;
      Some (mk_WifiScanResult ssid bssid ch rssi sec ent mfp band :: rest)
  | _, _ => None
  end.

Lemma decode_encode_results rs :
  decode_results (length rs) (List.concat (map encode_result rs)) = Some rs.
Proof.
  induction rs as [|[] rs IH]; [done|]. cbn -[put get].
  rewrite <- !app_assoc, get_put. cbn -[put get]. rewrite get_put. cbn -[put get]. by rewrite IH.
Qed.

Definition encode_status (s : WifiInterfaceStatus) : list Z :=
  [is_state s; is_mode s; is_channel s; is_security s; is_mfp s; is_rssi s; is_link_mode s; is_tx_bitrate_kbps s;
   is_band s; is_dtim_period s; is_beacon_interval s; if is_twt_capable s then 1 else 0]
  ++ put (is_ssid s) ++ put (is_bssid s).

Definition decode_status_bytes (bs : list Z) : option WifiInterfaceStatus :=
  match bs with
  | st :: mode :: ch :: sec :: mfp :: rssi :: lm :: rate :: band :: dtim :: bi :: twt :: r =>
      '(ssid, r) ← get r; '(bssid, r) ← get r;
      Some (mk_WifiInterfaceStatus st mode ssid bssid ch sec mfp rssi lm rate band dtim bi (twt =? 1))
  | _ => None
  end.

Lemma decode_encode_status s : decode_status_bytes (encode_status s) = Some s.
Proof.
  destruct s as [? ? ? ? ? ? ? ? ? ? ? ? ? t]. unfold encode_status. cbn -[put get]. rewrite get_put. cbn -[put get].
  rewrite get_put_end. cbn. by destruct t.
Qed.

(** What does not fit the buffer is not encoded. *)
Definition fit (cap : Z) (bs : list Z) : option (list Z) := if zlen bs <=? cap then Some bs else None.

Lemma fit_Some cap bs bs' : fit cap bs = Some bs' -> bs' = bs /\ zlen bs' <= cap.
Proof. unfold fit. destruct (Z.leb_spec (zlen bs) cap); [by intros [= <-]|done]. Qed.

#[export] Instance RunDeviceCodec : WifiCodec := {
  WifiMgmtRequest_decode bs :=
    match bs with
    | id :: 0 :: r => mk_WifiMgmtRequest id ∘ connect_req <$> decode_connect r
    | [id; 1; i] => Some (mk_WifiMgmtRequest id (disconnect_req i))
    | [id; 2; i; c0; c1; f] => Some (mk_WifiMgmtRequest id (set_reg_domain_req i (Some ((c0, c1), f =? 1))))
    | [id; 3; i] => Some (mk_WifiMgmtRequest id (get_iface_status_req i))
    | _ => None
    end;
  WifiMgmtResponse_encode cap r :=
    match wresp_payload r with
    | status_resp st =>
        fit cap (wresp_request_id r :: 0 :: (if success st then 1 else 0) :: error_code st
                 :: ascii_of (error_message st))
    | get_iface_status_resp st => fit cap (wresp_request_id r :: 1 :: encode_status st)
    | _ => None
    end
}.

#[export] Instance RunHostCodec : HostCodec := {
  WifiMgmtRequest_encode r :=
    match wreq_payload r with
    | connect_req c => Some (wreq_request_id r :: 0 :: encode_connect c)
    | disconnect_req i => Some [wreq_request_id r; 1; i]
    | set_reg_domain_req i (Some ((c0, c1), f)) =>
        Some [wreq_request_id r; 2; i; c0; if c0 =? 0 then 0 else c1; if f : bool then 1 else 0]
    | get_iface_status_req i => Some [wreq_request_id r; 3; i]
    | _ => None
    end;
  WifiMgmtResponse_decode bs :=
    match bs with
    | id :: 0 :: ok :: e :: msg => Some (mk_WifiMgmtResponse id
        (status_resp (mk_WifiStatusResponse (ok =? 1) e (string_of msg))))
    | id :: 1 :: r => mk_WifiMgmtResponse id ∘ get_iface_status_resp <$> decode_status_bytes r
    | _ => None
    end;
  WifiMgmtNotification_decode bs :=
    match bs with
    | i :: 0 :: st :: n :: r => mk_WifiMgmtNotification i ∘ scan_done_event st <$> decode_results (Z.to_nat n) r
    | [i; 1; st] => Some (mk_WifiMgmtNotification i (ap_enable_result_event st))
    | i :: 2 :: mac => Some (mk_WifiMgmtNotification i (ap_sta_connected_event mac))
    | _ => None
    end
}.

#[export] Instance RunNotify : NotifyEncode := {
  WifiMgmtNotification_encode n :=
    match wn_event_data n with
    | scan_done_event st rs => Some (wn_iface_index n :: 0 :: st :: zlen rs :: List.concat (map encode_result rs))
    | ap_enable_result_event st => Some [wn_iface_index n; 1; st]
    | ap_sta_connected_event mac => Some (wn_iface_index n :: 2 :: mac)
    | _ => None
    end
}.

#[export] Instance RunCodecs : CodecsAgree.
Proof.
  split.
  - intros [id p] bs. destruct p as [c|i| | | | | | |i [[[c0 c1] f]|]| |i| | | |]; try done;
      cbn -[encode_connect decode_connect]; intros [= <-]; [by rewrite decode_encode_connect | done | | done].
    unfold request_arrives, cc_string. cbn. by destruct (Z.eqb_spec c0 0) as [->|], f.
  - intros cap [id p] bs. destruct p as [st| | | |st| |]; try done; cbn -[ascii_of string_of encode_status];
      intros _ [-> _]%fit_Some.
    + destruct st as [[] e msg]; cbn -[ascii_of string_of]; by rewrite string_of_ascii_of.
    + cbn -[encode_status decode_status_bytes]. by rewrite decode_encode_status.
  - intros [i []] bs; cbn -[zlen encode_result decode_results]; intros [= <-]; [|done..].
    unfold zlen. by rewrite Nat2Z.id, decode_encode_results.
Defined.

(** ** A radio *)

Definition run_status (st : wifi_iface_state) (sec : wifi_security_type) : wifi_iface_status :=
  mk_wifi_iface_status st [65; 66] [2; 0; 0; 0; 0; 9] WIFI_FREQ_BAND_2_4_GHZ 36 WIFI_MODE_INFRA
    WIFI_0 sec WIFI_MFP_DISABLE (-40) 0 0 false 0.

(** Requests are logged by their SSID; no request fails. *)
#[export] Instance RunWifi : WifiApi DemoRaw := {
  net_if_get_default w := Some tt;
  wifi_connect w i p := ((fst w, snd w ++ [default [] (cp_ssid p)]), 0);
  wifi_disconnect w i := (w, 0);
  wifi_scan w i p := (w, 0);
  wifi_ap_enable w i p := (w, 0);
  wifi_ap_disable w i := (w, 0);
  wifi_version w i := (w, 0, None);
  wifi_ps w i p := (w, 0);
  wifi_ps_config w i := (w, - ENOTSUP, mk_wifi_ps_params WIFI_PS_PARAM_STATE false 0 0 false 0 0);
  wifi_reg_domain_set w i cc force := (w, 0);
  wifi_reg_domain_get w i n := (w, 0, mk_wifi_reg_domain (70, 73) false []);
  wifi_iface_status_get w i := (w, 0, run_status WIFI_STATE_ASSOCIATED WIFI_SECURITY_TYPE_SAE_H2E)
}.

Definition run_mgmt : mgmt_state (W := DemoRaw) := mk_mgmt_state demo_raw (replicate 32 0) (replicate 64 0).

(** A connect request's bytes under the type of a scan. *)
Lemma wifi_mgmt_requests_answered_witness :
  process_wifi_mgmt_request 0 2 run_mgmt
    (REQUEST_TYPE_SCAN :: 0 :: encode_connect (mk_WifiConnectRequest 1 [65] 3 [66] [] 0 [] 0 0 0 [] [])) 1024
  = Ret (run_mgmt, default [] (WifiMgmtResponse_encode 1024
      (mk_WifiMgmtResponse REQUEST_TYPE_SCAN (status_resp (st_fail (- EBADMSG) "Payload type mismatch for request ID"))))).
Proof.
  destruct (wifi_mgmt_requests_answered 0 2 run_mgmt
    (REQUEST_TYPE_SCAN :: 0 :: encode_connect (mk_WifiConnectRequest 1 [65] 3 [66] [] 0 [] 0 0 0 [] [])) 1024)
    as (s' & id & p & bytes & E1 & E2 & E3).
  { exists 1%nat. split; [lia | reflexivity]. }
  { reflexivity. }
  cbn [WifiMgmtRequest_decode RunDeviceCodec] in E3. rewrite decode_encode_connect in E3.
  destruct E3 as (-> & -> & ->). rewrite E1. vm_compute in E2. rewrite E2. reflexivity.
Defined.

Definition run_connect (sec : wifi_security_type) : wifi_connect_req_params :=
  mk_wifi_connect_req_params (Some [65; 66]) (Some [49; 50; 51; 52; 53; 54; 55; 56]) (Some [49; 50]) None None
    WIFI_FREQ_BAND_5_GHZ 36 sec WIFI_MFP_OPTIONAL (replicate 6 0) 0.

Ltac exchange_fits :=
  split; [by eexists | intros ? ? [= <- <-]; do 2 eexists; reflexivity].

(** WPA-PSK is connected as PSK; SAE is refused; the country is confirmed; the
    status arrives without the intermediate state and the SAE variant. *)
Lemma wifi_ops_end_to_end_witness :
  (exists s', virt_wifi_ops (H := DeviceTransport 0 2 1024) run_mgmt (OpConnect (run_connect WIFI_SECURITY_TYPE_WPA_PSK))
     = Ret (s', ResCode 0) /\ snd (ms_io s') = [[65; 66]]) /\
  virt_wifi_ops (H := DeviceTransport 0 2 1024) run_mgmt (OpConnect (run_connect WIFI_SECURITY_TYPE_SAE))
  = Ret (run_mgmt, ResCode (- EINVAL)) /\
  virt_wifi_ops (H := DeviceTransport 0 2 1024) run_mgmt (OpRegDomain false (102, 105))
  = Ret (run_mgmt, ResRegDomain (102, 105) 0) /\
  virt_wifi_ops (H := DeviceTransport 0 2 1024) run_mgmt (OpIfaceStatus iface_status_zero)
  = Ret (run_mgmt, ResStatus (run_status WIFI_STATE_DISCONNECTED WIFI_SECURITY_TYPE_SAE) 0).
Proof.
  destruct (wifi_ops_end_to_end 0 2 1024 run_mgmt (OpConnect (run_connect WIFI_SECURITY_TYPE_WPA_PSK))) as [E1 _];
    [exchange_fits|].
  destruct (wifi_ops_end_to_end 0 2 1024 run_mgmt (OpConnect (run_connect WIFI_SECURITY_TYPE_SAE))) as [E2 _];
    [exchange_fits|].
  destruct (wifi_ops_end_to_end 0 2 1024 run_mgmt (OpRegDomain false (102, 105))) as [E3 _]; [exchange_fits|].
  destruct (wifi_ops_end_to_end 0 2 1024 run_mgmt (OpIfaceStatus iface_status_zero)) as [E4 _]; [exchange_fits|].
  split; [eexists; split; [exact E1 | reflexivity]|]. split; [exact E2|]. split; [exact E3 | exact E4].
Defined.

(** ** The host *)

#[export] Instance RunNet : HostNet (list (list Z)) := {
  v_if := unit;
  v_get_by_index v i := Some tt;
  v_get_default v := None;
  v_l2_set_wifi v i := v;
  v_pkt_alloc v i n := (v, Some 1514);
  v_recv_data v i p := v ++ [p]
}.

(** The bus as [virt_wifi_init] leaves it, with a scan going on. *)
Definition run_wifi_bus : bus_state IdealUart (virt_wifi (list (list Z))) wifi_handler (v_if (V := list (list Z))) :=
  mk_bus_state (mk_IdealUart [] [] 0) PARSING_STATE_TYPE bus_header_zero 0 (replicate 4096 0) false
    0 0 0 false bus_header_zero 0
    [Some WIFI_MGMT_NOTIFY; Some WIFI_DATA_RX; None; None; None; None; None; None; None]
    (replicate 9 None) true (mk_virt_wifi true [] (Some [])).

(** ** Over the link *)

(** The proxy with its thread waiting, on a device with every proxy. *)
Definition run_node : node (UD := SlowUart) (C := demo_state) (E := outcome (mgmt_state (W := DemoRaw))) :=
  mk_node demo_fifo_dev PBlocked (Ret run_mgmt).

Definition run_requests : list wifi_op :=
  [OpConnect (run_connect WIFI_SECURITY_TYPE_WPA_PSK); OpIfaceStatus iface_status_zero; OpDisconnect;
   OpConnect (run_connect WIFI_SECURITY_TYPE_SAE)].

Definition run_requests_direct : outcome (mgmt_state (W := DemoRaw) * list op_result) :=
  run_ops (H := DeviceTransport 0 2 1024) run_mgmt run_requests.

Lemma run_link_sizes : link_sizes L_wifi_mgmt 4096 1024 1024.
Proof.
  split; [lia | reflexivity | vm_compute; repeat split; discriminate |].
  intros [id p] bs. destruct p; cbn; try done; by intros [_ ?]%fit_Some.
Defined.

(** Connect, status, disconnect and a refused connect, over the wire. *)
Lemma wifi_ops_over_link_witness :
  exists t', run_ops (H := LinkTransport run_wifi_handler L_wifi_mgmt 4096 1024 1024 0 2 2 7 5)
      (run_wifi_bus, run_node) run_requests
    = Ret (t', [ResCode 0; ResStatus (run_status WIFI_STATE_DISCONNECTED WIFI_SECURITY_TYPE_SAE) 0;
                ResCode 0; ResCode (- EINVAL)]) /\
    vw_events (b_env (fst t')) = [].
Proof.
  destruct (wifi_ops_over_link run_wifi_handler L_wifi_mgmt 4096 1024 1024 0 2 0 2 0 (run_wifi_bus, run_node)
    run_mgmt (match run_requests_direct with Ret (s, _) => s | _ => run_mgmt end) run_requests
    (match run_requests_direct with Ret (_, rs) => rs | _ => [] end)) as (t' & E1 & _ & He).
  - apply run_link_sizes.
  - repeat (apply List.Forall_cons; [intros bs [= <-]; vm_compute; repeat split; discriminate|]).
    apply List.Forall_nil.
  - split; [split; [split; reflexivity|reflexivity|reflexivity|reflexivity|conc|reflexivity] | reflexivity | reflexivity | | reflexivity].
    split; [split; reflexivity|]. split; reflexivity.
  - vm_compute. reflexivity.
  - exists t'. split; [exact E1 | by rewrite He].
Defined.

(** ** A scan *)

Definition run_result (ch : Z) (band : wifi_frequency_bands) : wifi_scan_result :=
  mk_wifi_scan_result [65; 66] band ch WIFI_SECURITY_TYPE_PSK WIFI_MFP_OPTIONAL (-40) [2; 0; 0; 0; 0; 9] 0.

Definition run_entries : list wifi_scan_result :=
  [run_result 6 WIFI_FREQ_BAND_2_4_GHZ; run_result 36 WIFI_FREQ_BAND_5_GHZ; run_result 11 WIFI_FREQ_BAND_2_4_GHZ].

Definition run_frame : list Z :=
  1 :: 0 :: 0 :: 2 :: List.concat (map encode_result (ztake 2 (map to_scan_result run_entries))).

(** Room for two results: the third is left out, the second loses its band. *)
Lemma wifi_scan_end_to_end_witness :
  exists b' w',
    device_exchange run_wifi_handler 7 run_wifi_bus demo_fifo_dev SERIAL_TYPE_WIFI_MGMT run_frame
    = Ret (b', w', 0) /\
    vw_events (b_env b')
    = [LScan 0 (Some (run_result 6 WIFI_FREQ_BAND_2_4_GHZ)); LScan 0 (Some (run_result 36 WIFI_FREQ_BAND_2_4_GHZ));
       LScan 0 None].
Proof.
  destruct (wifi_scan_end_to_end 2 2 run_wifi_bus demo_fifo_dev ((∅, []) : DemoRaw) (Some demo_iface)
    run_entries 0 run_frame) as (_ & (b' & w' & E1 & _ & _ & He) & _);
    [lia | reflexivity | conc | | reflexivity | reflexivity | reflexivity |].
  - split; [split; reflexivity|reflexivity|reflexivity|reflexivity|conc|reflexivity].
  - exists b', w'. split; [exact E1 | exact He].
Defined.

(** A scan, an access point that starts and fails, a station, and a connection the
    host never hears of. *)
Definition run_events : list wifi_net_event :=
  map NET_EVENT_WIFI_SCAN_RESULT run_entries
  ++ [NET_EVENT_WIFI_SCAN_DONE None; NET_EVENT_WIFI_CONNECT_RESULT 0; NET_EVENT_WIFI_AP_ENABLE_RESULT 0;
      NET_EVENT_WIFI_AP_STA_CONNECTED (Some [2; 0; 0; 0; 0; 7]); NET_EVENT_WIFI_AP_ENABLE_RESULT 1].

Lemma wifi_events_end_to_end_witness :
  exists b' w',
    events_run 2 ((∅, []) : DemoRaw) (Some demo_iface) 7 run_wifi_bus demo_fifo_dev [] run_events = Ret (b', w') /\
    vw_events (b_env b')
    = [LScan 0 (Some (run_result 6 WIFI_FREQ_BAND_2_4_GHZ)); LScan 0 (Some (run_result 36 WIFI_FREQ_BAND_2_4_GHZ));
       LScan 0 None; LApEnable true; LApSta true [2; 0; 0; 0; 0; 7]; LApEnable false].
Proof.
  destruct (wifi_events_end_to_end 2 ((∅, []) : DemoRaw) (Some demo_iface) 2 run_wifi_bus demo_fifo_dev run_events)
    as ((b' & w' & E1 & _ & He) & _).
  - split; [|reflexivity|reflexivity].
    split; [split; reflexivity|reflexivity|reflexivity|reflexivity|conc|reflexivity].
  - repeat (apply List.Forall_cons; [eexists; split; [reflexivity | conc]|]). apply List.Forall_nil.
  - exists b', w'. split; [exact E1 | exact He].
Defined.
