(* ===== verification/App.v ===== *)
(** * App: the firmware's application, [src/nrf7002dk/src/main.c]

    Start-up with the flash encryption key, the thread that waits for the Wi-Fi
    driver, the connection flags that the network events maintain and the LED
    thread that shows them.  GPIO, QSPI and the network stack are a class over the
    platform state [W]; what is logged of the interface state is a trace. *)

From S2P Require Import Prelude WifiEnums.
From Stdlib Require Import ZArith Lia.
From stdpp Require Import base list option numbers decidable.

Open Scope Z_scope.
Open Scope e80211_scope.

#[export] Instance wifi_iface_state_eq_dec : EqDecision wifi_iface_state.
Proof. solve_decision. Defined.

(** ** The encryption key *)

(** The value of a hexadecimal digit. *)
Definition hex_value (c : Z) : option Z :=
  if (48 <=? c) && (c <=? 57) then Some (c - 48)
  else if (65 <=? c) && (c <=? 70) then Some (c - 55)
  else if (97 <=? c) && (c <=? 102) then Some (c - 87)
  else None.

(** The C library's [strtol] with base 16: white space, a sign, a prefix, and
    digits up to the first character that is none. *)
Fixpoint strtol_digits (acc : Z) (s : list Z) : Z :=
  match s with
  | c :: rest => match hex_value c with Some d => strtol_digits (acc * 16 + d) rest | None => acc end
  | [] => acc
  end.

Definition strtol_prefix (s : list Z) : Z :=
  match s with
  | 48 :: x :: rest => if (x =? 120) || (x =? 88) then strtol_digits 0 rest else strtol_digits 0 s
  | _ => strtol_digits 0 s
  end.

Definition is_space (c : Z) : bool := (c =? 32) || ((9 <=? c) && (c <=? 13)).

Fixpoint strtol16 (s : list Z) : Z :=
  match s with
  | [] => 0
  | c :: rest =>
      if is_space c then strtol16 rest
      else if c =? 43 then strtol_prefix rest
      else if c =? 45 then - strtol_prefix rest
      else strtol_prefix s
  end.

(** The loop over [bytes_len] pairs of characters. *)
Fixpoint bytes_of_pairs (n : nat) (str : list Z) : list Z :=
  match n with
  | O => []
  | S n => u8 (strtol16 (ztake 2 str)) :: bytes_of_pairs n (zdrop 2 str)
  end.

(** [str] without its terminator; the array's contents, which are only given when
    the call returns 0. *)
Definition bytes_from_str (str : list Z) (bytes_len : Z) : Z * option (list Z) :=
  if negb (zlen str =? size_t (bytes_len * 2)) then (- EINVAL, None)
  else (0, Some (bytes_of_pairs (Z.to_nat bytes_len) str)).

(** A key written in hexadecimal, in upper or lower case. *)
Definition hex_char (upper : bool) (n : Z) : Z :=
  if n <? 10 then 48 + n else if upper then 55 + n else 87 + n.

Definition hex_string (upper : bool) (bs : list Z) : list Z :=
  concat (map (fun b => [hex_char upper (b / 16); hex_char upper (b mod 16)]) bs).

Lemma strtol16_hex upper b :
  is_byte b -> u8 (strtol16 [hex_char upper (b / 16); hex_char upper (b mod 16)]) = b.
Proof.
  intros Hb.
  assert (Hall : forallb (fun b => u8 (strtol16 [hex_char upper (b / 16); hex_char upper (b mod 16)]) =? b)
                   (seqZ 0 256) = true) by (destruct upper; vm_compute; reflexivity).
  rewrite forallb_forall in Hall. apply Z.eqb_eq, Hall, list_elem_of_In, elem_of_seqZ.
  unfold is_byte in Hb. lia.
Qed.

Lemma zlen_hex_string upper bs : zlen (hex_string upper bs) = zlen bs * 2.
Proof.
  induction bs as [|b bs IH]; [done|]. unfold hex_string in *. cbn [map concat].
  rewrite zlen_app, IH, !zlen_cons, zlen_nil. lia.
Qed.

Lemma bytes_of_pairs_hex upper bs :
  bytes_ok bs -> bytes_of_pairs (length bs) (hex_string upper bs) = bs.
Proof.
  induction 1 as [|b bs Hb _ IH]; [done|]. unfold hex_string in *.
  cbn [map concat length bytes_of_pairs app]. cbn [ztake zdrop Z.to_nat Pos.to_nat Pos.iter_op].
  f_equal; [by apply strtol16_hex | exact IH].
Qed.

Lemma bytes_of_pairs_bytes n str : length (bytes_of_pairs n str) = n /\ bytes_ok (bytes_of_pairs n str).
Proof.
  revert str. induction n as [|n IH]; intros str; cbn; [by split|].
  destruct (IH (zdrop 2 str)) as [Hl Hb]. split; [lia|]. constructor; [apply u8_byte | done].
Qed.

(** C30. Parsing a key: a key written in hexadecimal, in either case, is read back
    exactly.  A string of another length is refused with -EINVAL.  Any string of
    the right length gives that many bytes and the result 0, whatever its
    characters are: a mistyped key is not noticed. *)
Theorem bytes_from_str_reads (n : Z) :
  0 <= n < 2 ^ 31 ->
  (forall upper bs, bytes_ok bs -> zlen bs = n -> bytes_from_str (hex_string upper bs) n = (0, Some bs)) /\
  (forall str, zlen str <> 2 * n -> bytes_from_str str n = (- EINVAL, None)) /\
  (forall str, zlen str = 2 * n ->
     exists bs, bytes_from_str str n = (0, Some bs) /\ zlen bs = n /\ bytes_ok bs).
Proof.
  intros Hn. unfold bytes_from_str. rewrite size_t_small by lia. split; [|split].
  - intros upper bs Hb Hl. rewrite zlen_hex_string, Hl, Z.eqb_refl. cbn [negb]. do 2 f_equal.
    rewrite <- Hl. unfold zlen. rewrite Nat2Z.id. by apply bytes_of_pairs_hex.
  - intros str Hs. by rewrite (proj2 (Z.eqb_neq _ _)) by lia.
  - intros str Hs. rewrite (proj2 (Z.eqb_eq _ _)) by lia. cbn [negb].
    destruct (bytes_of_pairs_bytes (Z.to_nat n) str) as [Hl Hb].
    eexists. split; [done|]. split; [|done]. unfold zlen. rewrite Hl. lia.
Qed.

(** "0Aff" in both readings, and a string that is no number at all. *)
Lemma bytes_from_str_reads_witness :
  bytes_from_str [48; 65; 102; 102] 2 = (0, Some [10; 255]) /\
  bytes_from_str (hex_string true [10; 255]) 2 = (0, Some [10; 255]) /\
  bytes_from_str [120; 121; 122] 2 = (- EINVAL, None) /\
  exists bs, bytes_from_str [120; 121; 122; 32] 2 = (0, Some bs) /\ zlen bs = 2.
Proof.
  split; [reflexivity|].
  destruct (bytes_from_str_reads 2 ltac:(lia)) as (H1 & H2 & H3).
  split; [apply H1; [repeat constructor; lia | reflexivity]|].
  split; [apply H2; discriminate|].
  destruct (H3 [120; 121; 122; 32] eq_refl) as (bs & E & Hl & _). by exists bs.
Defined.

(** ** The application *)

Class AppPlatform (W : Type) := {
  led_is_ready : W -> bool;
  gpio_pin_configure_dt : W -> W * Z;
  gpio_pin_toggle_dt : W -> W;
  gpio_pin_set_dt : W -> Z -> W;
  default_iface_status : W -> W * Z * wifi_iface_state;  (* NET_REQUEST_WIFI_IFACE_STATUS *)
  qspi_enable_encryption : W -> list Z -> W * Z;
  net_if_get_first_wifi : W -> bool;                     (* is there one? *)
  register_wifi_ready_callback : W -> W * Z
}.

Record app_config : Type := mk_app_config {
  CONFIG_WIFI_READY_LIB : bool;
  CONFIG_BOARD_NRF7002DK : bool;                  (* one of the two boards *)
  CONFIG_NRF70_QSPI_ENCRYPTION_KEY : list Z;
  QSPI_KEY_LEN_BYTES : Z                          (* of the QSPI driver *)
}.

(** Where [toggle_led] is. *)
Inductive led_pc : Type := LedStart | LedLoop | LedEnd.

(** Where [start_app] is, in its own thread or in [main]. *)
Inductive start_pc : Type := SNotStarted | SKey | SWait | SAsleep | SReturned (rc : Z).

Record app_state (W : Type) : Type := mk_app_state {
  connected : bool;
  connect_result : bool;
  disconnect_requested : bool;
  last_state : option wifi_iface_state;           (* have_last and last_state *)
  app_log : list wifi_iface_state;
  ready_sem : Z;                                  (* wifi_ready_state_changed_sem *)
  wifi_ready_status : bool;
  app_led : led_pc;
  app_start : start_pc;
  app_w : W
}.
Arguments mk_app_state {W} _ _ _ _ _ _ _ _ _ _.
Arguments connected {W} _.
Arguments connect_result {W} _.
Arguments disconnect_requested {W} _.
Arguments last_state {W} _.
Arguments app_log {W} _.
Arguments ready_sem {W} _.
Arguments wifi_ready_status {W} _.
Arguments app_led {W} _.
Arguments app_start {W} _.
Arguments app_w {W} _.

Section App.
Context {W : Type} `{AppPlatform W} (K : app_config).

#[local] Abbreviation app := (app_state W).

(** *** Assignments *)

Definition set_context (s : app) (c r d : bool) : app :=
  mk_app_state c r d (last_state s) (app_log s) (ready_sem s) (wifi_ready_status s) (app_led s)
    (app_start s) (app_w s).

Definition set_status (s : app) (l : option wifi_iface_state) (log : list wifi_iface_state) (w : W) : app :=
  mk_app_state (connected s) (connect_result s) (disconnect_requested s) l log (ready_sem s)
    (wifi_ready_status s) (app_led s) (app_start s) w.

Definition set_ready (s : app) (sem : Z) (status : bool) : app :=
  mk_app_state (connected s) (connect_result s) (disconnect_requested s) (last_state s) (app_log s) sem
    status (app_led s) (app_start s) (app_w s).

Definition set_led (s : app) (pc : led_pc) (w : W) : app :=
  mk_app_state (connected s) (connect_result s) (disconnect_requested s) (last_state s) (app_log s)
    (ready_sem s) (wifi_ready_status s) pc (app_start s) w.

Definition set_start (s : app) (pc : start_pc) (w : W) : app :=
  mk_app_state (connected s) (connect_result s) (disconnect_requested s) (last_state s) (app_log s)
    (ready_sem s) (wifi_ready_status s) (app_led s) pc w.

(** *** Network events *)

Definition cmd_wifi_status (s : app) : app :=
  let '(w, ret, state) := default_iface_status (app_w s) in
  if negb (ret =? 0) then set_status s (last_state s) (app_log s) w
  else if bool_decide (last_state s = Some state) then set_status s (last_state s) (app_log s) w
  else set_status s (Some state) (app_log s ++ [state]) w.

Definition handle_wifi_connect_result (s : app) (status : Z) : app :=
  if connected s then s
  else if negb (status =? 0) then set_context s (connected s) true (disconnect_requested s)
  else set_context s true true (disconnect_requested s).

Definition handle_wifi_disconnect_result (s : app) (status : Z) : app :=
  if negb (connected s) then s
  else
    cmd_wifi_status
      (if disconnect_requested s then set_context s (connected s) (connect_result s) false
       else set_context s false (connect_result s) (disconnect_requested s)).

(** *** Threads *)

(** One iteration of [toggle_led], or its start. *)
Definition toggle_led (s : app) : app :=
  match app_led s with
  | LedStart =>
      if negb (led_is_ready (app_w s)) then set_led s LedEnd (app_w s)
      else
        let '(w, ret) := gpio_pin_configure_dt (app_w s) in
        set_led s (if ret <? 0 then LedEnd else LedLoop) w
  | LedLoop =>
      set_led s LedLoop (if connected s then gpio_pin_toggle_dt (app_w s) else gpio_pin_set_dt (app_w s) 0)
  | LedEnd => s
  end.

(** Entering the loop of [start_app]: it waits for the semaphore only with the
    ready library. *)
Definition start_loop (s : app) (w : W) : app :=
  set_start s (if CONFIG_WIFI_READY_LIB K then SWait else SAsleep) w.

(** [start_app] up to the next point where it blocks. *)
Definition start_app (s : app) : app :=
  match app_start s with
  | SKey =>
      if CONFIG_BOARD_NRF7002DK K && negb (zlen (CONFIG_NRF70_QSPI_ENCRYPTION_KEY K) =? 0) then
        match bytes_from_str (CONFIG_NRF70_QSPI_ENCRYPTION_KEY K) (QSPI_KEY_LEN_BYTES K) with
        | (_, Some key) =>
            let '(w, ret) := qspi_enable_encryption (app_w s) key in
            if negb (ret =? 0) then set_start s (SReturned 0) w else start_loop s w
        | (_, None) => set_start s (SReturned 0) (app_w s)
        end
      else start_loop s (app_w s)
  | SWait =>
      if ready_sem s =? 0 then s
      else
        let s1 := set_ready s (ready_sem s - 1) (wifi_ready_status s) in
        if negb (wifi_ready_status s) then s1 else set_start s1 SAsleep (app_w s1)
  | _ => s
  end.

Definition wifi_ready_cb (s : app) (wifi_ready : bool) : app :=
  set_ready s (Z.min 1 (ready_sem s + 1)) wifi_ready.

(** *** Start-up *)

Definition net_mgmt_callback_init (s : app) : app := set_context s false false false.

Definition register_wifi_ready (s : app) : app * Z :=
  if negb (net_if_get_first_wifi (app_w s)) then (s, -1)
  else
    let '(w, ret) := register_wifi_ready_callback (app_w s) in
    (set_start s (app_start s) w, ret).

(** The state, and the result when [main] returns at once. *)
Definition app_main (s : app) : app * option Z :=
  let s1 := net_mgmt_callback_init s in
  if CONFIG_WIFI_READY_LIB K then
    let '(s2, ret) := register_wifi_ready s1 in
    if negb (ret =? 0) then (s2, Some ret) else (set_start s2 SKey (app_w s2), Some 0)
  else (set_start s1 SKey (app_w s1), None).

(** Static memory at boot. *)
Definition app_boot (w : W) : app :=
  mk_app_state false false false None [] 0 false LedStart SNotStarted w.

(** *** Interleaving *)

Inductive app_event : Type :=
| EvConnectResult (status : Z)
| EvDisconnectResult (status : Z)
| EvNetOther                       (* DHCP_BOUND and events nobody handles *)
| EvLed
| EvStart
| EvWifiReady (ready : bool).

Definition wifi_mgmt_event_handler (s : app) (e : app_event) : app :=
  match e with
  | EvConnectResult status => handle_wifi_connect_result s status
  | EvDisconnectResult status => handle_wifi_disconnect_result s status
  | _ => s
  end.

Definition app_step (s : app) (e : app_event) : app :=
  match e with
  | EvConnectResult _ | EvDisconnectResult _ | EvNetOther => wifi_mgmt_event_handler s e
  | EvLed => toggle_led s
  | EvStart => start_app s
  | EvWifiReady r => wifi_ready_cb s r
  end.

(** ** What the flags mean *)

Definition app_run (s : app) (evs : list app_event) : app := fold_left app_step evs s.

(** The connection as the events tell it: up after a successful connect result,
    down after a disconnect result. *)
Definition link_up (evs : list app_event) : bool :=
  fold_left (fun up e => match e with
                         | EvConnectResult status => up || (status =? 0)
                         | EvDisconnectResult _ => false
                         | _ => up
                         end) evs false.

Definition is_connect_result (e : app_event) : bool :=
  match e with EvConnectResult _ => true | _ => false end.

Definition is_ready (e : app_event) : bool := match e with EvWifiReady true => true | _ => false end.

(** No state is logged twice in a row. *)
Fixpoint changes (l : list wifi_iface_state) : Prop :=
  match l with
  | a :: ((b :: _) as rest) => a <> b /\ changes rest
  | _ => True
  end.

Lemma changes_snoc l x : changes l -> list.last l <> Some x -> changes (l ++ [x]).
Proof.
  induction l as [|a [|b l] IH]; cbn; [done| |].
  - intros _ Hx. split; [|done]. congruence.
  - intros [Hab Hc] Hx. split; [done|]. by apply IH.
Qed.

(** What every reachable state satisfies, with the events so far. *)
Record app_inv (evs : list app_event) (s : app) : Prop := {
  inv_connected : connected s = link_up evs;
  inv_result : connect_result s = existsb is_connect_result evs;
  inv_requested : disconnect_requested s = false;
  inv_last : last_state s = list.last (app_log s);
  inv_log : changes (app_log s);
  inv_sem : 0 <= ready_sem s <= 1;
  inv_status : wifi_ready_status s = true -> existsb is_ready evs = true;
  inv_asleep : app_start s = SAsleep -> CONFIG_WIFI_READY_LIB K = true -> existsb is_ready evs = true
}.

Lemma link_up_snoc evs e :
  link_up (evs ++ [e]) = match e with
                         | EvConnectResult status => link_up evs || (status =? 0)
                         | EvDisconnectResult _ => false
                         | _ => link_up evs
                         end.
Proof. unfold link_up. by rewrite fold_left_app. Qed.

(** A connection needs a connect result. *)
Lemma link_up_result evs : link_up evs = true -> existsb is_connect_result evs = true.
Proof.
  induction evs as [|e evs IH] using rev_ind; [done|].
  rewrite link_up_snoc, existsb_app. destruct e; cbn; rewrite ?orb_true_r, ?orb_false_r; done.
Qed.

Lemma cmd_wifi_status_inv evs s : app_inv evs s -> app_inv evs (cmd_wifi_status s).
Proof.
  intros [? ? ? Hl Hc ? ? ?]. unfold cmd_wifi_status.
  destruct (default_iface_status _) as [[w ret] st].
  destruct (negb (ret =? 0)); [by split|]. case_bool_decide as E; [by split|].
  split; cbn; try done.
  - by rewrite last_snoc.
  - apply changes_snoc; [done|]. by rewrite <- Hl.
Qed.

(** The invariant after one more event, field by field. *)
Lemma app_inv_snoc evs e s :
  connected s = link_up (evs ++ [e]) ->
  connect_result s = existsb is_connect_result evs || is_connect_result e ->
  disconnect_requested s = false -> last_state s = list.last (app_log s) -> changes (app_log s) ->
  0 <= ready_sem s <= 1 ->
  (wifi_ready_status s = true -> existsb is_ready evs || is_ready e = true) ->
  (app_start s = SAsleep -> CONFIG_WIFI_READY_LIB K = true -> existsb is_ready evs || is_ready e = true) ->
  app_inv (evs ++ [e]) s.
Proof. intros. split; try done; rewrite existsb_app; cbn [existsb]; by rewrite orb_false_r. Qed.

Lemma connect_inv evs s st : app_inv evs s -> app_inv (evs ++ [EvConnectResult st]) (handle_wifi_connect_result s st).
Proof.
  intros [Hc Hr Hd Hl Hg Hs Hst Ha]. pose proof (link_up_result evs) as Hu.
  unfold handle_wifi_connect_result. rewrite Hc.
  destruct (link_up evs) eqn:Eu; [|destruct (Z.eqb_spec st 0) as [->|Hz]; cbn [negb]];
    apply app_inv_snoc; rewrite ?link_up_snoc, ?Eu; cbn; rewrite ?orb_true_r, ?orb_false_r, ?(Hu eq_refl) in *;
    try done; by rewrite ?Hc, ?Hr, ?(proj2 (Z.eqb_neq st 0) Hz).
Qed.

Lemma disconnect_inv evs s st :
  app_inv evs s -> app_inv (evs ++ [EvDisconnectResult st]) (handle_wifi_disconnect_result s st).
Proof.
  intros [Hc Hr Hd Hl Hg Hs Hst Ha]. unfold handle_wifi_disconnect_result. rewrite Hd.
  destruct (connected s) eqn:Ec; cbn [negb]; [apply cmd_wifi_status_inv|];
    apply app_inv_snoc; rewrite ?link_up_snoc; cbn; rewrite ?orb_false_r; done.
Qed.

Lemma start_inv evs s : app_inv evs s -> app_inv (evs ++ [EvStart]) (start_app s).
Proof.
  intros [Hc Hr Hd Hl Hg Hs Hst Ha].
  assert (Hpc : forall pc w, (pc = SAsleep -> CONFIG_WIFI_READY_LIB K = true -> existsb is_ready evs = true) ->
    app_inv (evs ++ [EvStart]) (set_start s pc w)).
  { intros pc w Hp. apply app_inv_snoc; rewrite ?link_up_snoc; cbn; rewrite ?orb_false_r; done. }
  assert (Hloop : forall w, app_inv (evs ++ [EvStart]) (start_loop s w)).
  { intros w. apply Hpc. by destruct (CONFIG_WIFI_READY_LIB K). }
  assert (Hsame : app_inv (evs ++ [EvStart]) s)
    by (apply app_inv_snoc; rewrite ?link_up_snoc; cbn; rewrite ?orb_false_r; done).
  unfold start_app. destruct (app_start s) eqn:Ep; try done.
  - destruct (_ && _); [|done]. destruct (bytes_from_str _ _) as [rc [key|]]; [|by apply Hpc].
    destruct (qspi_enable_encryption _ _) as [w ret]. destruct (negb _); [by apply Hpc | done].
  - destruct (Z.eqb_spec (ready_sem s) 0); [done|].
    destruct (wifi_ready_status s) eqn:Er; cbn [negb];
      apply app_inv_snoc; rewrite ?link_up_snoc; cbn; rewrite ?orb_false_r, ?Ep; try done; try lia; auto.
Qed.

Lemma app_step_inv evs s e : app_inv evs s -> app_inv (evs ++ [e]) (app_step s e).
Proof.
  intros Hi. destruct e as [st|st| | | |b]; cbn [app_step wifi_mgmt_event_handler].
  - by apply connect_inv.
  - by apply disconnect_inv.
  - destruct Hi. apply app_inv_snoc; rewrite ?link_up_snoc; cbn; rewrite ?orb_false_r; done.
  - destruct Hi. unfold toggle_led.
    assert (Hl : forall pc w, app_inv (evs ++ [EvLed]) (set_led s pc w))
      by (intros; apply app_inv_snoc; rewrite ?link_up_snoc; cbn; rewrite ?orb_false_r; done).
    destruct (app_led s); [|done|].
    + destruct (negb _); [done|]. by destruct (gpio_pin_configure_dt _).
    + apply app_inv_snoc; rewrite ?link_up_snoc; cbn; rewrite ?orb_false_r; done.
  - by apply start_inv.
  - destruct Hi as [Hc Hr Hd Hl Hg Hs Hst Ha].
    apply app_inv_snoc; rewrite ?link_up_snoc; cbn; rewrite ?orb_false_r; try done; try lia.
    + intros ->. by rewrite orb_true_r.
    + intros Hp Hk. by rewrite Ha.
Qed.

Lemma app_run_inv s0 evs : app_inv [] s0 -> app_inv evs (app_run s0 evs).
Proof.
  intros H0. induction evs as [|e evs IH] using rev_ind; [done|].
  unfold app_run in *. rewrite fold_left_app. by apply app_step_inv.
Qed.

(** From power-on to the end of [main], which the LED thread, started by the
    kernel, overtakes [n] times. *)
Definition app_started (w : W) (n : nat) : app := fst (app_main (app_run (app_boot w) (replicate n EvLed))).

Lemma boot_leds w n : exists l w', app_run (app_boot w) (replicate n EvLed) = set_led (app_boot w) l w'.
Proof.
  induction n as [|n (l & w' & IH)]; [by exists LedStart, w|].
  unfold app_run in *. rewrite replicate_S_end, fold_left_app, IH. cbn.
  unfold toggle_led. cbn. destruct l; cbn; eauto.
  destruct (negb _); cbn; eauto. destruct (gpio_pin_configure_dt _). cbn. eauto.
Qed.

Lemma app_started_inv w n : app_inv [] (app_started w n).
Proof.
  unfold app_started. destruct (boot_leds w n) as (l & w' & ->). unfold app_main, register_wifi_ready.
  destruct (CONFIG_WIFI_READY_LIB K); [|by split]. cbn.
  destruct (negb _); [by split|]. destruct (register_wifi_ready_callback _) as [w2 ret]. cbn.
  by destruct (negb _).
Qed.

(** *** The start thread *)

(** The key is refused: it has the wrong length, or the QSPI driver does not take
    it. *)
Definition key_fails (w : W) : bool :=
  CONFIG_BOARD_NRF7002DK K && negb (zlen (CONFIG_NRF70_QSPI_ENCRYPTION_KEY K) =? 0) &&
  match snd (bytes_from_str (CONFIG_NRF70_QSPI_ENCRYPTION_KEY K) (QSPI_KEY_LEN_BYTES K)) with
  | Some key => negb (snd (qspi_enable_encryption w key) =? 0)
  | None => true
  end.

(** Where the thread is after it has run to its next blocking point. *)
Definition start_next (s : app) : start_pc :=
  match app_start s with
  | SKey =>
      if key_fails (app_w s) then SReturned 0 else if CONFIG_WIFI_READY_LIB K then SWait else SAsleep
  | SWait => if (0 <? ready_sem s) && wifi_ready_status s then SAsleep else SWait
  | pc => pc
  end.

Lemma start_app_next s : 0 <= ready_sem s -> app_start (app_step s EvStart) = start_next s.
Proof.
  intros Hs. cbn [app_step]. unfold start_app, start_next, key_fails. destruct (app_start s) eqn:Ep; try done.
  - destruct (_ && _); cbn [andb]; [|done].
    destruct (bytes_from_str _ _) as [rc [key|]]; cbn [snd]; [|done].
    destruct (qspi_enable_encryption _ _) as [w ret]. cbn [snd]. by destruct (negb _).
  - destruct (Z.eqb_spec (ready_sem s) 0) as [->|]; [by rewrite Ep|].
    rewrite (proj2 (Z.ltb_lt _ _)) by lia. cbn [andb]. destruct (wifi_ready_status s); cbn; by rewrite ?Ep.
Qed.

Definition is_start (e : app_event) : bool := match e with EvStart => true | _ => false end.
Definition is_not_ready (e : app_event) : bool := match e with EvWifiReady false => true | _ => false end.

(** The other events leave the thread where it is, and a report of readiness
    waiting. *)
Lemma app_step_other s e :
  is_start e = false ->
  app_start (app_step s e) = app_start s /\
  (is_not_ready e = false -> 1 <= ready_sem s -> wifi_ready_status s = true ->
   1 <= ready_sem (app_step s e) /\ wifi_ready_status (app_step s e) = true).
Proof.
  assert (Hst : forall s', app_start (cmd_wifi_status s') = app_start s' /\
    ready_sem (cmd_wifi_status s') = ready_sem s' /\ wifi_ready_status (cmd_wifi_status s') = wifi_ready_status s').
  { intros s'. unfold cmd_wifi_status. destruct (default_iface_status _) as [[w ret] st].
    destruct (negb _); [done|]. by case_bool_decide. }
  destruct e as [st|st| | | |r]; intros Hs; cbn [app_step wifi_mgmt_event_handler]; try done.
  - unfold handle_wifi_connect_result. destruct (connected s); [done|]. by destruct (negb _).
  - unfold handle_wifi_disconnect_result. destruct (negb _); [done|].
    match goal with |- context [cmd_wifi_status ?x] => destruct (Hst x) as (-> & -> & ->) end.
    by destruct (disconnect_requested s).
  - unfold toggle_led. destruct (app_led s); [|done|done].
    destruct (negb _); [done|]. by destruct (gpio_pin_configure_dt _).
  - split; [done|]. destruct r; [|done]. intros _ ? ?. cbn. split; [lia | done].
Qed.

(** Once asleep or returned, for ever. *)
Lemma start_final s evs :
  match app_start s with SAsleep | SReturned _ => app_start (app_run s evs) = app_start s | _ => True end.
Proof.
  revert s. induction evs as [|e evs IH]; intros s; [by destruct (app_start s) eqn:Ep; rewrite ?Ep|].
  assert (He : match app_start s with
    SAsleep | SReturned _ => app_start (app_step s e) = app_start s | _ => True end).
  { destruct (is_start e) eqn:Ee.
    - destruct e; try done. cbn [app_step]. unfold start_app. by destruct (app_start s) eqn:Ep; rewrite ?Ep.
    - destruct (app_step_other s e Ee) as [-> _]. by destruct (app_start s) eqn:Ep; rewrite ?Ep. }
  specialize (IH (app_step s e)). unfold app_run in *. cbn [fold_left].
  destruct (app_start s) eqn:Ep; try done; rewrite He in IH; congruence.
Qed.

(** A report of readiness that is not taken back before the thread runs. *)
Lemma start_ready s mid :
  1 <= ready_sem s -> wifi_ready_status s = true ->
  Forall (fun e => is_start e = false /\ is_not_ready e = false) mid ->
  app_start (app_run s mid) = app_start s /\ 1 <= ready_sem (app_run s mid) /\
  wifi_ready_status (app_run s mid) = true.
Proof.
  intros Hs Hr Hm. revert s Hs Hr. induction Hm as [|e mid [He Hn] Hm IH]; intros s Hs Hr; [done|].
  destruct (app_step_other s e He) as [Hp Hk]. destruct (Hk Hn Hs Hr) as [Hs1 Hr1].
  destruct (IH _ Hs1 Hr1) as (Hp2 & ? & ?). unfold app_run in *. cbn [fold_left].
  split; [congruence | done].
Qed.

(** C35. The application under any interleaving of network events, driver
    readiness and its threads, once [main] has run: [connected] says exactly
    whether the last decisive event was a successful connect result and not a
    disconnect result, and the LED thread blinks exactly then; [connect_result]
    says whether any connect result came.  A state is logged only when it differs
    from the last one logged.  The start thread returns when the encryption key
    is refused; else, without the ready library, it sleeps at once, and with it,
    it waits and goes on exactly when a report has come and the last one says
    ready: after a report of readiness that is not taken back before the thread
    runs, it sleeps, for ever, whatever else happens.  It is never asleep before
    the driver has reported to be ready, and later reports change nothing but the
    semaphore and the flag. *)
Theorem app_tracks_connection (w : W) (n : nat) (evs : list app_event) :
  let s := app_run (app_started w n) evs in
  connected s = link_up evs /\ connect_result s = existsb is_connect_result evs /\
  (app_led s = LedLoop ->
   app_w (app_step s EvLed)
   = if link_up evs then gpio_pin_toggle_dt (app_w s) else gpio_pin_set_dt (app_w s) 0) /\
  changes (app_log s) /\ 0 <= ready_sem s <= 1 /\
  (app_start s = SAsleep ->
   (CONFIG_WIFI_READY_LIB K = true -> existsb is_ready evs = true) /\
   forall r, app_step (app_step s (EvWifiReady r)) EvStart = set_ready s 1 r) /\
  app_start (app_step s EvStart) = start_next s /\
  (forall e, is_start e = false -> app_start (app_step s e) = app_start s) /\
  (app_start s = SWait -> forall mid rest,
   Forall (fun e => is_start e = false /\ is_not_ready e = false) mid ->
   app_start (app_run s (EvWifiReady true :: mid ++ EvStart :: rest)) = SAsleep) /\
  (forall rest, app_start s = SAsleep \/ (exists rc, app_start s = SReturned rc) ->
   app_start (app_run s rest) = app_start s).
Proof.
  intros s. pose proof (app_run_inv (app_started w n) evs (app_started_inv w n)) as [Hc Hr _ _ Hg Hs _ Ha].
  fold s in Hc, Hr, Hg, Hs, Ha.
  split; [done|]. split; [done|]. split; [|split; [done|split; [done|split]]].
  - intros Hl. unfold app_step, toggle_led. by rewrite Hl, Hc.
  - intros Hp. split; [by apply Ha|]. intros r. cbn [app_step]. unfold start_app, wifi_ready_cb.
    cbn [app_start set_ready]. rewrite Hp. unfold set_ready. f_equal. lia.
  - split; [apply start_app_next; lia|]. split; [intros e He; apply (app_step_other s e He)|]. split.
    + intros Hp mid rest Hm. set (s1 := app_step s (EvWifiReady true)).
      destruct (start_ready s1 mid) as (Hp2 & Hs2 & Hr2); [cbn; lia | done | done |].
      assert (E : app_run s (EvWifiReady true :: mid ++ EvStart :: rest)
                  = app_run (app_step (app_run s1 mid) EvStart) rest).
      { unfold app_run. cbn [fold_left]. fold s1. by rewrite fold_left_app. }
      assert (Hn : app_start (app_step (app_run s1 mid) EvStart) = SAsleep).
      { rewrite start_app_next by lia. unfold start_next. rewrite Hp2. change (app_start s1) with (app_start s).
        rewrite Hp, Hr2, (proj2 (Z.ltb_lt _ _)) by lia. done. }
      rewrite E. pose proof (start_final (app_step (app_run s1 mid) EvStart) rest) as Hf.
      by rewrite Hn in Hf.
    + intros rest Hp. pose proof (start_final s rest) as Hf. by destruct Hp as [Hp|[rc Hp]]; rewrite Hp in Hf |- *.
Qed.

End App.

(** ** A run *)

(** A platform that records what the LED pin was given. *)
#[export] Instance LogApp : AppPlatform (list Z) := {
  led_is_ready w := true;
  gpio_pin_configure_dt w := (w, 0);
  gpio_pin_toggle_dt w := w ++ [2];
  gpio_pin_set_dt w v := w ++ [v];
  default_iface_status w := (w, 0, WIFI_STATE_DISCONNECTED);
  qspi_enable_encryption w key := (w, 0);
  net_if_get_first_wifi w := true;
  register_wifi_ready_callback w := (w, 0)
}.

Definition demo_config : app_config := mk_app_config true true (replicate 32 48) 16.

Definition demo_events : list app_event :=
  [EvStart; EvStart; EvWifiReady true; EvStart; EvLed; EvConnectResult 0; EvLed; EvDisconnectResult 0; EvLed].

(** The driver becomes ready, a connection comes up and goes down again. *)
Example app_demo :
  let s := app_run demo_config (app_started demo_config [] 1) demo_events in
  app_start s = SAsleep /\ connected s = false /\ connect_result s = true /\
  app_log s = [WIFI_STATE_DISCONNECTED] /\ app_w s = [0; 2; 0].
Proof. repeat split. Qed.

(** The same run: the LED stays off afterwards, and a second report of readiness
    is not looked at; and the thread that waits after its first step sleeps after
    a report of readiness, whatever else comes. *)
Lemma app_tracks_connection_witness :
  let s := app_run demo_config (app_started demo_config [] 1) demo_events in
  connected s = false /\ app_w (app_step demo_config s EvLed) = [0; 2; 0; 0] /\
  app_step demo_config (app_step demo_config s (EvWifiReady false)) EvStart = set_ready s 1 false /\
  app_start (app_run demo_config (app_run demo_config (app_started demo_config [] 1) [EvStart])
    [EvWifiReady true; EvLed; EvStart; EvWifiReady false; EvStart]) = SAsleep.
Proof.
  destruct (app_tracks_connection demo_config ([] : list Z) 1 demo_events) as (Hc & _ & Hl & _ & _ & Ha & _).
  split; [exact Hc|]. split; [exact (Hl eq_refl)|]. split; [exact (proj2 (Ha eq_refl) false)|].
  destruct (app_tracks_connection demo_config ([] : list Z) 1 [EvStart]) as (_ & _ & _ & _ & _ & _ & _ & _ & Hw & _).
  apply (Hw eq_refl [EvLed] [EvWifiReady false; EvStart]). by repeat constructor.
Defined.
